(* ===== verification/_CoqProject ===== *)
-Q . S2P
Prelude.v
Memory.v
LibMem.v
LibStr.v
State.v
Machine.v
I8259.v
Rtc.v
Paging.v
Console.v
Pcb.v
Filesys.v
Fdt.v
Schedule.v
Terminal.v
Vterm.v
Keyboard.v
Execute.v
Halt.v
Pit.v
Syscall.v
Idt.v
Boot.v
User.v
Programs.v
