(* ===== verification/Prelude.v ===== *)
(** * A verification development for the MP3 kernel (student-distrib/)

    The program is a small x86 kernel: boot code, paging, interrupt and timer
    drivers, a text console, a keyboard line editor with three virtual terminals,
    a read-only file system in memory, processes (execute and halt), a
    round-robin scheduler with one task per terminal, and eight system calls;
    with it come the user programs of syscalls/.

    ** The state and the machine

    [State.kernel] holds every global of the C files, one record per source file
    (console: lib.c, pic: i8259.c, paging: paging.c, filesys: filesys.c, sched:
    schedule.c, keyboard: keyboard.c, rtc: rtc.c, sysglob: syscall.c, execute.c,
    halt.c and the TSS, cpu: the registers inline assembly reads), PCB_array, the
    physical memory, the ports and a ghost log of faults.  A C function on the
    globals is a Coq function from [kernel] to [kernel], to a value and a
    [kernel], or to an [option] of these where a loop takes fuel or the call may
    not return.  [None] is running out of fuel; the theorems give the fuel that
    suffices.  C integers are [Z] with an explicit wrap ([u8], [u16], [u32], [s8],
    [s32]); chars are signed, as gcc has them on x86.

    Memory is bytes by 32-bit address behind the class [Memory.AddrSpace].  Its
    two instances are flat memory and the kernel's virtual address space, where
    each access goes through the page walk of [Machine.translate] on the current
    page tables.  The routines of lib.c are defined and proved once, over the
    class.  A store to an unmapped page, out of an array of globals, or a call
    through a null table is recorded in [k_faults] and has no other effect:
    theorems say when the log does not grow.

    ** The files

    - Memory, LibMem, LibStr: memory and the mem* and str* routines of lib.c.
    - State, Machine: the globals, ports, arrays, page walk.
    - I8259, Rtc, Paging: i8259.c, rtc.c, paging.c.
    - Console: clear, putc, puts, printf, backspace, test_interrupts of lib.c.
    - Pcb, Fdt: pcb.c (insert_fdt and remove_fd_entry in Fdt).  Filesys: filesys.c.
    - Schedule: schedule.c without pit_handler.  Terminal: terminal.c.
    - Vterm: no code of its own; the three virtual terminals as abstract values.
    - Keyboard: keyboard.c.  Execute, Halt: execute.c and halt.c.
    - Pit: pit_handler.  Syscall: syscall.c and the dispatcher syscall_asm.S.
    - Idt: idt.c and linkage.S.  Boot: kernel.c.
    - User: the programs of syscalls/ and their library, on the system calls.
      Programs: no code of its own; the programs followed through the kernel.

    The components call each other as the code does: Keyboard calls Console and
    Schedule; Terminal waits for Keyboard through the enter flag; Execute calls
    Filesys, Pcb and Paging; Halt and Pit call Execute; Syscall calls all of them;
    Idt sends a vector to its handler; Boot initialises everything.

    ** Abstract specifications

    - The text console [Console.aconsole]: 2000 cells and a position.  putc,
      puts, printf, clear, backspace and terminal_write refine operations on it.
    - The virtual terminal [Vterm.aterm]: a console, the line being typed and
      the history line.  [Vterm.vterm] reads the terminal from the screen or from
      its buffer in memory, whichever holds it.  switch_terminal changes no
      virtual terminal; keyboard_handler acts on the displayed one as an abstract
      line editor and leaves the other two alone, whichever is scheduled, for
      every scan code but that of the Up key, whose handling of the history line
      is stated apart ([Keyboard.up_key_erase]).
    - The stack of processes of a terminal ([Halt.procs_ok]): parent_pid links,
      all six PCBs accounted for.  execute refines push (or leaves the stacks
      when it refuses), halt refines pop.
    - The key map [Keyboard.us_char] and the interrupt gates [Idt.meant_gate]:
      a US layout and the processor's vectors, written apart from the code's
      tables.
    - The scheduler: a tick moves to the next terminal in a ring of three, and a
      task that was preempted is resumed on its stack, page and console ([Pit]).

    ** What the theorems show

    Composition: a process that is executed and halts gives its parent back its
    context, whatever ran in between ([Halt.child_ran]); a line that is typed is read by terminal_read; three ticks after
    boot every terminal has a shell; the state entry leaves satisfies the
    invariants the other theorems start from; a line typed at the shell starts
    its program, which gets the rest of the line as arguments; cat prints the
    file it is given. Isolation: a process sees its own 4 MB frame only, besides
    the video page. Files: names are found, data is read to the byte, lookups
    and reads terminate. Optimised routines equal their plain loops (memset,
    memcpy, itoa, strncmp). Errors: the refusals of the system calls have no
    effect, but for a read with an argument of -1, which prints a line; syserr's
    tests of them pass. Where the code does something its
    comments do not say, the theorem states what it does.

    ** Fuel and bounds

    The loops over C arrays take their C bound. printf, strlen and the loops
    that end at a NUL take fuel above the length of the string; itoa takes 32
    steps, the digits of a word in base 2; rtc_write doubles at most
    15 times. halt of a base shell tries to start a new one until execute
    succeeds: its fuel is the number of attempts, and one is enough when the
    shell is in the directory. The programs' loops take the fuel their theorems
    name; pingpong, which never ends, is its state after a number of rounds. The
    loops that wait for an interrupt (rtc_read, terminal_read) take the list of
    interrupts that arrive as an argument.

    ** What is not modelled

    The TLB (the code flushes it after each change of the tables), the stack
    contents below the saved pointers (a saved stack pointer is a number; what
    an interrupt finds on the stack is an argument of run_handler), interrupts
    inside a handler, and the interrupts that may arrive while entry runs after
    sti.  boot.S and x86_desc.S are data and a jump; tests.c is not called by
    entry.  ece391emulate.c replaces the kernel on a Linux host, fish is an
    animation around an assembly package, and ece391sigtest.c tests signals, which
    the kernel does not have.  Of a user program only memory and system calls are
    modelled, not its registers and stack frames. *)

From Stdlib Require Import ZArith Lia.
From Stdlib Require Import Ascii String.
From stdpp Require Import base numbers list gmap.

Open Scope Z_scope.

(** ** Machine integers

    The C types of types.h as integers kept in range by an explicit wrap. *)

Definition u8 (z : Z) : Z := z mod 2 ^ 8.
Definition u16 (z : Z) : Z := z mod 2 ^ 16.
Definition u32 (z : Z) : Z := z mod 2 ^ 32.

(** Two's complement reading of the low 8 or 32 bits. *)
Definition s8 (z : Z) : Z := (z + 2 ^ 7) mod 2 ^ 8 - 2 ^ 7.
Definition s32 (z : Z) : Z := (z + 2 ^ 31) mod 2 ^ 32 - 2 ^ 31.

Lemma u8_range z : 0 <= u8 z < 256.
Proof. unfold u8. apply Z.mod_pos_bound. lia. Qed.

Lemma u16_range z : 0 <= u16 z < 65536.
Proof. unfold u16. apply Z.mod_pos_bound. lia. Qed.

Lemma u32_range z : 0 <= u32 z < 2 ^ 32.
Proof. unfold u32. apply Z.mod_pos_bound. lia. Qed.

Lemma u8_small z : 0 <= z < 256 -> u8 z = z.
Proof. intros. unfold u8. apply Z.mod_small. lia. Qed.

Lemma u16_small z : 0 <= z < 65536 -> u16 z = z.
Proof. intros. unfold u16. apply Z.mod_small. lia. Qed.

Lemma u32_small z : 0 <= z < 2 ^ 32 -> u32 z = z.
Proof. intros. unfold u32. apply Z.mod_small. lia. Qed.

Lemma s32_small z : - 2 ^ 31 <= z < 2 ^ 31 -> s32 z = z.
Proof. intros. unfold s32. rewrite Z.mod_small; lia. Qed.

Lemma s32_range z : - 2 ^ 31 <= s32 z < 2 ^ 31.
Proof. unfold s32. pose proof (Z.mod_pos_bound (z + 2 ^ 31) (2 ^ 32)). lia. Qed.

Lemma s8_small z : - 128 <= z < 128 -> s8 z = z.
Proof. intros. unfold s8. rewrite Z.mod_small; lia. Qed.

Lemma u8_u8 z : u8 (u8 z) = u8 z.
Proof. apply u8_small, u8_range. Qed.

Lemma u32_add_l z w : u32 (u32 z + w) = u32 (z + w).
Proof. unfold u32. by rewrite Zplus_mod_idemp_l. Qed.

(** Low bits selected by a mask of ones. *)
Lemma land_3_mod z : Z.land z 3 = z mod 4.
Proof. change 3 with (Z.ones 2). rewrite Z.land_ones by lia. reflexivity. Qed.

Lemma land_255_mod z : Z.land z 255 = u8 z.
Proof. change 255 with (Z.ones 8). rewrite Z.land_ones by lia. reflexivity. Qed.

Lemma land_ones_range z n : 0 <= n -> 0 <= Z.land z (Z.ones n) < 2 ^ n.
Proof. intros. rewrite Z.land_ones by lia. apply Z.mod_pos_bound. lia. Qed.

Lemma shiftr_2_div z : Z.shiftr z 2 = z / 4.
Proof. rewrite Z.shiftr_div_pow2 by lia. reflexivity. Qed.

(** An address aligned to 2^n or-ed with flags below 2^n. *)
Lemma aligned_testbit a n b : 0 <= b < n -> a mod 2 ^ n = 0 -> Z.testbit a b = false.
Proof.
  intros Hb Ha. rewrite <- (Z.mod_pow2_bits_low a n b) by lia. rewrite Ha. apply Z.bits_0.
Qed.

Lemma lor_aligned a f n : 0 <= n -> a mod 2 ^ n = 0 -> 0 <= f < 2 ^ n -> Z.lor a f = a + f.
Proof.
  intros Hn Ha Hf. rewrite <- Z.lxor_lor, <- Z.add_nocarry_lxor; [done|..];
  apply Z.bits_inj'; intros b Hb; rewrite Z.land_spec, Z.bits_0;
    (destruct (decide (b < n));
      [by rewrite (aligned_testbit a n b)
      |rewrite <- (Z.mod_small f (2 ^ n)) by lia;
       by rewrite Z.mod_pow2_bits_high, andb_false_r by lia]).
Qed.

Lemma lor_aligned_testbit a f n b :
  0 <= b < n -> a mod 2 ^ n = 0 -> Z.testbit (Z.lor a f) b = Z.testbit f b.
Proof. intros Hb Ha. by rewrite Z.lor_spec, (aligned_testbit a n b). Qed.

(** ** Arrays indexed by C integers

    [aget]/[aset] are the in-range accesses; an access outside the array has
    no value, and [aset] outside it changes nothing in the array. *)

Definition in_range {A} (l : list A) (i : Z) : bool :=
  (0 <=? i) && (i <? Z.of_nat (length l)).

Definition aget {A} (l : list A) (i : Z) : option A :=
  if in_range l i then l !! Z.to_nat i else None.

Definition aset {A} (l : list A) (i : Z) (x : A) : list A :=
  if in_range l i then <[Z.to_nat i := x]> l else l.

(** Total read with a default, for arrays of integers. *)
Definition agetZ (l : list Z) (i : Z) : Z := default 0 (aget l i).

Lemma in_range_true {A} (l : list A) i :
  in_range l i = true <-> 0 <= i < Z.of_nat (length l).
Proof. unfold in_range. rewrite andb_true_iff, Z.leb_le, Z.ltb_lt. lia. Qed.

Lemma in_range_false {A} (l : list A) i :
  in_range l i = false <-> ~ (0 <= i < Z.of_nat (length l)).
Proof. rewrite <- in_range_true. destruct (in_range l i); intuition congruence. Qed.

Lemma length_aset {A} (l : list A) i x : length (aset l i x) = length l.
Proof. unfold aset. destruct (in_range l i); [apply length_insert | done]. Qed.

Lemma in_range_aset {A} (l : list A) i x j : in_range (aset l i x) j = in_range l j.
Proof. unfold in_range. by rewrite length_aset. Qed.

Lemma aget_aset_eq {A} (l : list A) i x :
  0 <= i < Z.of_nat (length l) -> aget (aset l i x) i = Some x.
Proof.
  intros H. unfold aget. rewrite in_range_aset. unfold aset.
  rewrite (proj2 (in_range_true l i) H). apply list_lookup_insert_eq. lia.
Qed.

Lemma aget_aset_ne {A} (l : list A) i j x : i <> j -> aget (aset l i x) j = aget l j.
Proof.
  intros H. unfold aget. rewrite in_range_aset. unfold aset.
  destruct (in_range l j) eqn:Ej; [|done].
  destruct (in_range l i) eqn:Ei; [|done].
  apply in_range_true in Ei, Ej. apply list_lookup_insert_ne. lia.
Qed.

Lemma aget_aset {A} (l : list A) i j x :
  aget (aset l i x) j = if (i =? j) && in_range l i then Some x else aget l j.
Proof.
  destruct (Z.eqb_spec i j) as [->|Hne]; simpl; [|by rewrite aget_aset_ne].
  destruct (in_range l j) eqn:E.
  - apply aget_aset_eq. by apply in_range_true.
  - unfold aset. by rewrite E.
Qed.

Lemma aget_Some_range {A} (l : list A) i x :
  aget l i = Some x -> 0 <= i < Z.of_nat (length l).
Proof. unfold aget. destruct (in_range l i) eqn:E; [by rewrite <- in_range_true | done]. Qed.

Lemma aget_range_Some {A} (l : list A) i :
  0 <= i < Z.of_nat (length l) -> exists x, aget l i = Some x.
Proof.
  intros H. unfold aget. rewrite (proj2 (in_range_true l i) H).
  apply lookup_lt_is_Some_2. lia.
Qed.

Lemma aget_None {A} (l : list A) i :
  aget l i = None <-> ~ (0 <= i < Z.of_nat (length l)).
Proof.
  split.
  - intros Hn Hr. apply aget_range_Some in Hr as [x Hx]. congruence.
  - intros H. unfold aget. by rewrite (proj2 (in_range_false l i) H).
Qed.

Lemma aset_self {A} (l : list A) i x : aget l i = Some x -> aset l i x = l.
Proof.
  intros H. unfold aset. unfold aget in H.
  destruct (in_range l i); [by apply list_insert_id | done].
Qed.

Lemma aset_aset_eq {A} (l : list A) i x y : aset (aset l i x) i y = aset l i y.
Proof.
  unfold aset at 1. rewrite in_range_aset. unfold aset.
  destruct (in_range l i); [apply list_insert_insert_eq | done].
Qed.

Lemma agetZ_aset_eq (l : list Z) i x :
  0 <= i < Z.of_nat (length l) -> agetZ (aset l i x) i = x.
Proof. intros. unfold agetZ. by rewrite aget_aset_eq. Qed.

Lemma agetZ_aset_ne (l : list Z) i j x : i <> j -> agetZ (aset l i x) j = agetZ l j.
Proof. intros. unfold agetZ. by rewrite aget_aset_ne. Qed.

(** Two arrays of the same length with the same elements are equal. *)
Lemma aget_ext {A} (l1 l2 : list A) :
  length l1 = length l2 ->
  (forall i, 0 <= i < Z.of_nat (length l1) -> aget l1 i = aget l2 i) -> l1 = l2.
Proof.
  intros Hlen H. apply list_eq. intros i.
  destruct (decide (i < length l1)%nat) as [Hi|Hi].
  - specialize (H (Z.of_nat i) ltac:(lia)). unfold aget in H.
    rewrite (proj2 (in_range_true l1 _)) in H by lia.
    rewrite (proj2 (in_range_true l2 _)) in H by lia.
    by rewrite Nat2Z.id in H.
  - rewrite !lookup_ge_None_2 by lia. done.
Qed.

Lemma aget_replicate {A} n (x : A) i :
  aget (replicate n x) i = if in_range (replicate n x) i then Some x else None.
Proof.
  unfold aget. destruct (in_range _ i) eqn:E; [|done].
  apply in_range_true in E. rewrite length_replicate in E.
  apply lookup_replicate_2. lia.
Qed.

(** ** Counted loops

    [for_range lo hi body s] is [for (i = lo; i < hi; i++) s = body i s]. *)

Fixpoint forn {S : Type} (n : nat) (i : Z) (body : Z -> S -> S) (s : S) : S :=
  match n with
  | O => s
  | Datatypes.S n' => forn n' (i + 1) body (body i s)
  end.

Definition for_range {S : Type} (lo hi : Z) (body : Z -> S -> S) (s : S) : S :=
  forn (Z.to_nat (hi - lo)) lo body s.

Section ForRange.
Context {S : Type}.
Implicit Types (body : Z -> S -> S) (s : S) (P : Z -> S -> Prop).

Lemma forn_inv n : forall lo body s P,
  P lo s ->
  (forall i t, lo <= i < lo + Z.of_nat n -> P i t -> P (i + 1) (body i t)) ->
  P (lo + Z.of_nat n) (forn n lo body s).
Proof.
  induction n as [|n IH]; intros lo body s P H0 Hstep; simpl.
  - by rewrite Z.add_0_r.
  - replace (lo + Z.of_nat (Datatypes.S n)) with (lo + 1 + Z.of_nat n) by lia.
    apply IH; [apply Hstep; [lia | done] |].
    intros i t Hi Ht. apply Hstep; [lia | done].
Qed.

(** The loop-invariant rule: what holds at [lo] and is kept by the body holds
    at [hi]. *)
Lemma for_range_inv lo hi body s P :
  lo <= hi -> P lo s ->
  (forall i t, lo <= i < hi -> P i t -> P (i + 1) (body i t)) ->
  P hi (for_range lo hi body s).
Proof.
  intros Hle H0 Hstep. unfold for_range.
  pose proof (forn_inv (Z.to_nat (hi - lo)) lo body s P) as H.
  replace (lo + Z.of_nat (Z.to_nat (hi - lo))) with hi in H by lia. auto.
Qed.

Lemma for_range_empty lo hi body s : hi <= lo -> for_range lo hi body s = s.
Proof. intros. unfold for_range. by replace (Z.to_nat (hi - lo)) with O by lia. Qed.

Lemma for_range_step lo hi body s :
  lo < hi -> for_range lo hi body s = for_range (lo + 1) hi body (body lo s).
Proof.
  intros. unfold for_range.
  replace (Z.to_nat (hi - lo)) with (Datatypes.S (Z.to_nat (hi - (lo + 1)))) by lia.
  done.
Qed.

End ForRange.

(** ** Little-endian words *)

Definition byte_of (w : Z) (i : Z) : Z := u8 (Z.shiftr w (8 * i)).

Definition le32 (b0 b1 b2 b3 : Z) : Z :=
  Z.lor (Z.lor (Z.lor (Z.shiftl b3 24) (Z.shiftl b2 16)) (Z.shiftl b1 8)) b0.

Lemma byte_of_range w i : 0 <= byte_of w i < 256.
Proof. apply u8_range. Qed.

Lemma byte_testbit_high b j : 0 <= b < 256 -> 8 <= j -> Z.testbit b j = false.
Proof.
  intros Hb Hj. rewrite <- (Z.mod_small b (2 ^ 8)) by lia.
  apply Z.mod_pow2_bits_high. lia.
Qed.

Lemma lor_range a b n : 0 <= n -> 0 <= a < 2 ^ n -> 0 <= b < 2 ^ n -> 0 <= Z.lor a b < 2 ^ n.
Proof.
  intros Hn Ha Hb. assert (H0 : 0 <= Z.lor a b) by (apply Z.lor_nonneg; lia). split; [exact H0|].
  destruct (decide (Z.lor a b = 0)) as [->|Hne]; [lia|]. apply Z.log2_lt_pow2; [lia|].
  rewrite Z.log2_lor by lia. apply Z.max_lub_lt.
  - destruct (decide (a = 0)) as [->|]; [|apply Z.log2_lt_pow2; lia].
    destruct (decide (n = 0)) as [->|]; [|cbn; lia]. assert (b = 0) as -> by lia. done.
  - destruct (decide (b = 0)) as [->|]; [|apply Z.log2_lt_pow2; lia].
    destruct (decide (n = 0)) as [->|]; [|cbn; lia]. assert (a = 0) as -> by lia. done.
Qed.

Lemma le32_range b0 b1 b2 b3 : 0 <= b0 < 256 -> 0 <= b1 < 256 -> 0 <= b2 < 256 -> 0 <= b3 < 256 ->
  0 <= le32 b0 b1 b2 b3 < 2 ^ 32.
Proof. intros. unfold le32. repeat apply lor_range; rewrite ?Z.shiftl_mul_pow2 by lia; lia. Qed.

(** A word assembled from four bytes gives them back. *)
Lemma byte_of_le32 b0 b1 b2 b3 i :
  0 <= b0 < 256 -> 0 <= b1 < 256 -> 0 <= b2 < 256 -> 0 <= b3 < 256 -> 0 <= i < 4 ->
  byte_of (le32 b0 b1 b2 b3) i =
  if i =? 0 then b0 else if i =? 1 then b1 else if i =? 2 then b2 else b3.
Proof.
  intros H0 H1 H2 H3 Hi. unfold byte_of, u8, le32.
  apply Z.bits_inj'. intros j Hj.
  assert (i = 0 \/ i = 1 \/ i = 2 \/ i = 3) as [->|[->|[->| ->]]] by lia; simpl;
  (destruct (decide (j < 8)) as [Hlt|Hge];
    [ rewrite Z.mod_pow2_bits_low, Z.shiftr_spec, !Z.lor_spec, !Z.shiftl_spec by lia
    | rewrite Z.mod_pow2_bits_high by lia; symmetry; apply byte_testbit_high; lia ]).
  - rewrite (Z.testbit_neg_r b3), (Z.testbit_neg_r b2), (Z.testbit_neg_r b1) by lia.
    simpl. f_equal. lia.
  - rewrite (Z.testbit_neg_r b3), (Z.testbit_neg_r b2), (byte_testbit_high b0) by lia.
    rewrite orb_false_r. simpl. f_equal. lia.
  - rewrite (Z.testbit_neg_r b3), (byte_testbit_high b1), (byte_testbit_high b0) by lia.
    rewrite !orb_false_r. simpl. f_equal. lia.
  - rewrite (byte_testbit_high b2), (byte_testbit_high b1), (byte_testbit_high b0) by lia.
    rewrite !orb_false_r. f_equal. lia.
Qed.

(** ** Character codes of C string literals *)

Fixpoint codes (s : string) : list Z :=
  match s with
  | EmptyString => []
  | String c s' => Z.of_N (N_of_ascii c) :: codes s'
  end.

(** ** Automation *)

Create HintDb ksafe.
#[export] Hint Resolve u8_range u16_range u32_range s32_range byte_of_range : ksafe.

(** Case analysis on the boolean tests of the code. *)
Ltac bdestr :=
  repeat match goal with
  | |- context [Z.eqb ?a ?b] => destruct (Z.eqb_spec a b)
  | |- context [Z.ltb ?a ?b] => destruct (Z.ltb_spec a b)
  | |- context [Z.leb ?a ?b] => destruct (Z.leb_spec a b)
  end.

(** The same on a hypothesis. *)
Ltac bdestr_in H :=
  repeat match type of H with
  | context [Z.eqb ?a ?b] => destruct (Z.eqb_spec a b)
  | context [Z.ltb ?a ?b] => destruct (Z.ltb_spec a b)
  | context [Z.leb ?a ?b] => destruct (Z.leb_spec a b)
  end.

(** Linear arithmetic with division and remainder by constants. *)
Ltac dlia := Z.div_mod_to_equations; lia.
