(* ===== verification/Memory.v ===== *)
(** * Byte-addressed memory

    The interface every memory routine of lib.c is written against
    ([AddrSpace]: load and store of a byte at a 32-bit address, and which
    addresses are mapped and pairwise distinct), the flat memory that
    implements it, the 32-bit accesses built from bytes, and the byte-by-byte
    reference loops the optimised routines are compared with. *)

From Stdlib Require Import ZArith Lia.
From stdpp Require Import base numbers list gmap.
From S2P Require Import Prelude.

Open Scope Z_scope.

(** What a routine that moves bytes needs of the memory it runs on. *)
Class AddrSpace (S : Type) := {
  ld8 : S -> Z -> Z;              (* load a byte *)
  st8 : Z -> Z -> S -> S;         (* store the low byte of a value at an address *)
  as_ok : S -> Z -> Prop;         (* the address is mapped and writable *)
  as_sep : S -> Z -> Z -> Prop;   (* the two addresses name different bytes *)
}.

(** What a memory promises to those routines. *)
Class AddrSpaceLaws (S : Type) `{AddrSpace S} := {
  ld8_range : forall s a, 0 <= ld8 s a < 256;
  ld8_st8_eq : forall s a v, as_ok s a -> ld8 (st8 a v s) a = u8 v;
  ld8_st8_sep : forall s a b v, as_sep s a b -> ld8 (st8 a v s) b = ld8 s b;
  as_ok_st8 : forall s a v b, as_ok s b -> as_ok (st8 a v s) b;
  as_sep_st8 : forall s a v b c, as_sep s b c -> as_sep (st8 a v s) b c;
}.

#[export] Hint Resolve as_ok_st8 as_sep_st8 : ksafe.

(** A set of addresses that are mapped and pairwise distinct: the footprint a
    routine may be used on. *)
Definition region {S} `{AddrSpace S} (s : S) (P : Z -> Prop) : Prop :=
  (forall a, P a -> as_ok s a) /\
  (forall a b, P a -> P b -> a <> b -> as_sep s a b).

(** The addresses [a, a+n). *)
Definition span (a n x : Z) : Prop := a <= x < a + n.

(** ** Word accesses *)

Definition ld32 {S} `{AddrSpace S} (s : S) (a : Z) : Z :=
  le32 (ld8 s a) (ld8 s (u32 (a + 1))) (ld8 s (u32 (a + 2))) (ld8 s (u32 (a + 3))).

Definition st16 {S} `{AddrSpace S} (a v : Z) (s : S) : S :=
  st8 (u32 (a + 1)) (byte_of v 1) (st8 a (byte_of v 0) s).

Definition st32 {S} `{AddrSpace S} (a v : Z) (s : S) : S :=
  st8 (u32 (a + 3)) (byte_of v 3) (st8 (u32 (a + 2)) (byte_of v 2)
    (st8 (u32 (a + 1)) (byte_of v 1) (st8 a (byte_of v 0) s))).

(** The bytes of a list lie at an address. *)
Definition bytes_at {S} `{AddrSpace S} (s : S) (a : Z) (l : list Z) : Prop :=
  forall i, 0 <= i < Z.of_nat (length l) -> ld8 s (a + i) = agetZ l i.

(** The [n] bytes read from an address. *)
Definition read_bytes {S} `{AddrSpace S} (s : S) (a : Z) (n : nat) : list Z :=
  map (fun i => ld8 s (a + i)) (seqZ 0 (Z.of_nat n)).

(** Store a list of bytes at an address, one after the other. *)
Fixpoint write_bytes {S} `{AddrSpace S} (a : Z) (l : list Z) (s : S) : S :=
  match l with
  | [] => s
  | x :: l' => write_bytes (u32 (a + 1)) l' (st8 a x s)
  end.

(** ** Flat memory *)

#[export] Instance mem_space : AddrSpace (gmap Z Z) := {|
  ld8 m a := u8 (default 0 (m !! a));
  st8 a v m := <[a := v]> m;
  as_ok m a := True;
  as_sep m a b := a <> b;
|}.

#[export] Instance mem_laws : AddrSpaceLaws (gmap Z Z).
Proof.
  split; simpl; intros; auto.
  - apply u8_range.
  - by rewrite lookup_insert_eq.
  - by rewrite lookup_insert_ne.
Qed.

Lemma region_flat (m : gmap Z Z) P : region m P.
Proof. split; simpl; auto. Qed.

(** ** Reference loops *)

Section Loops.
Context {S : Type} `{AddrSpace S}.

(** Store the byte [v] at [n] consecutive addresses, lowest first. *)
Fixpoint set_bytes (n : nat) (a v : Z) (s : S) : S :=
  match n with
  | O => s
  | Datatypes.S n' => set_bytes n' (u32 (a + 1)) v (st8 a v s)
  end.

(** Copy [n] bytes, lowest address first. *)
Fixpoint copy_up (n : nat) (src dst : Z) (s : S) : S :=
  match n with
  | O => s
  | Datatypes.S n' => copy_up n' (u32 (src + 1)) (u32 (dst + 1)) (st8 dst (ld8 s src) s)
  end.

(** Copy [n] bytes, highest address first; [src] and [dst] point at the last
    byte. *)
Fixpoint copy_down (n : nat) (src dst : Z) (s : S) : S :=
  match n with
  | O => s
  | Datatypes.S n' => copy_down n' (u32 (src - 1)) (u32 (dst - 1)) (st8 dst (ld8 s src) s)
  end.

Lemma set_bytes_add n m a v s :
  0 <= a < 2 ^ 32 ->
  set_bytes (n + m) a v s = set_bytes m (u32 (a + Z.of_nat n)) v (set_bytes n a v s).
Proof.
  revert a s; induction n as [|n IH]; intros a s Ha; simpl.
  - by rewrite Z.add_0_r, u32_small.
  - rewrite IH by apply u32_range. f_equal.
    rewrite u32_add_l. f_equal. lia.
Qed.

Lemma copy_up_add n m src dst s :
  0 <= src < 2 ^ 32 -> 0 <= dst < 2 ^ 32 ->
  copy_up (n + m) src dst s =
  copy_up m (u32 (src + Z.of_nat n)) (u32 (dst + Z.of_nat n)) (copy_up n src dst s).
Proof.
  revert src dst s; induction n as [|n IH]; intros src dst s Hs Hd; simpl.
  - by rewrite !Z.add_0_r, !u32_small.
  - rewrite IH by apply u32_range. rewrite !u32_add_l.
    by replace (src + 1 + Z.of_nat n) with (src + Z.of_nat (Datatypes.S n)) by lia;
      replace (dst + 1 + Z.of_nat n) with (dst + Z.of_nat (Datatypes.S n)) by lia.
Qed.

Context `{!AddrSpaceLaws S}.

Lemma region_st8 s P a v : region s P -> region (st8 a v s) P.
Proof. intros [Hok Hsep]. split; eauto with ksafe. Qed.

Lemma region_mono s (P Q : Z -> Prop) :
  (forall a, Q a -> P a) -> region s P -> region s Q.
Proof. intros HPQ [Hok Hsep]. split; eauto. Qed.

Lemma set_bytes_other n : forall a v s x,
  0 <= a -> a + Z.of_nat n < 2 ^ 32 ->
  (forall y, span a (Z.of_nat n) y -> as_sep s y x) ->
  ld8 (set_bytes n a v s) x = ld8 s x.
Proof.
  induction n as [|n IH]; intros a v s x Ha Hn Hsep; simpl; [done|].
  rewrite u32_small by lia. rewrite IH; [|lia|lia|].
  - apply ld8_st8_sep, Hsep. unfold span; lia.
  - intros y Hy. apply as_sep_st8, Hsep. unfold span in *; lia.
Qed.

Lemma set_bytes_in n : forall a v s x,
  0 <= a -> a + Z.of_nat n < 2 ^ 32 ->
  region s (span a (Z.of_nat n)) -> span a (Z.of_nat n) x ->
  ld8 (set_bytes n a v s) x = u8 v.
Proof.
  induction n as [|n IH]; intros a v s x Ha Hn Hr Hx; unfold span in Hx; [lia|].
  cbn [set_bytes]. rewrite u32_small by lia.
  destruct (decide (x = a)) as [->|Hne].
  - rewrite set_bytes_other; [|lia|lia|].
    + apply ld8_st8_eq, Hr. unfold span; lia.
    + intros y Hy. apply as_sep_st8, Hr; unfold span in *; lia.
  - apply IH; [lia|lia| |unfold span; lia].
    apply region_st8. eapply region_mono; [|exact Hr]. unfold span; lia.
Qed.

Lemma copy_up_other n : forall src dst s x,
  0 <= src -> src + Z.of_nat n < 2 ^ 32 -> 0 <= dst -> dst + Z.of_nat n < 2 ^ 32 ->
  (forall y, span dst (Z.of_nat n) y -> as_sep s y x) ->
  ld8 (copy_up n src dst s) x = ld8 s x.
Proof.
  induction n as [|n IH]; intros src dst s x Hs Hsn Hd Hdn Hsep; simpl; [done|].
  rewrite !u32_small by lia. rewrite IH; [|lia..|].
  - apply ld8_st8_sep, Hsep. unfold span; lia.
  - intros y Hy. apply as_sep_st8, Hsep. unfold span in *; lia.
Qed.

(** An upward copy is right when no byte is overwritten before it is read:
    the destination is below the source, or the two are disjoint. *)
Lemma copy_up_in n : forall src dst s i,
  0 <= src -> src + Z.of_nat n < 2 ^ 32 -> 0 <= dst -> dst + Z.of_nat n < 2 ^ 32 ->
  dst <= src \/ src + Z.of_nat n <= dst ->
  region s (fun a => span src (Z.of_nat n) a \/ span dst (Z.of_nat n) a) ->
  0 <= i < Z.of_nat n ->
  ld8 (copy_up n src dst s) (dst + i) = ld8 s (src + i).
Proof.
  induction n as [|n IH]; intros src dst s i Hs Hsn Hd Hdn Hov Hr Hi; [lia|].
  cbn [copy_up]. rewrite !u32_small by lia.
  destruct (decide (i = 0)) as [->|Hne].
  - rewrite !Z.add_0_r, copy_up_other; [|lia..|].
    + rewrite ld8_st8_eq, u8_small; [done|apply ld8_range|apply Hr; unfold span; lia].
    + intros y Hy. apply as_sep_st8, Hr; unfold span in *; lia.
  - replace (dst + i) with (dst + 1 + (i - 1)) by lia. rewrite IH; [|lia..| |lia].
    + replace (src + 1 + (i - 1)) with (src + i) by lia.
      apply ld8_st8_sep, Hr; unfold span; lia.
    + apply region_st8. eapply region_mono; [|exact Hr].
      intros a [Ha|Ha]; unfold span in *; [left|right]; lia.
Qed.

(** The whole effect of an upward copy at one address. *)
Lemma copy_up_at n src dst s x :
  0 <= n -> 0 <= src -> src + n < 2 ^ 32 -> 0 <= dst -> dst + n < 2 ^ 32 ->
  dst <= src \/ src + n <= dst ->
  region s (fun a => span src n a \/ span dst n a \/ a = x) ->
  ld8 (copy_up (Z.to_nat n) src dst s) x =
  if (dst <=? x) && (x <? dst + n) then ld8 s (src + (x - dst)) else ld8 s x.
Proof.
  intros Hn Hs Hsn Hd Hdn Hov Hr.
  destruct (Z.leb_spec dst x), (Z.ltb_spec x (dst + n)); simpl;
    try (apply copy_up_other; [lia..|]; intros y Hy; apply Hr;
         rewrite Z2Nat.id in Hy by lia; unfold span in *; lia).
  replace x with (dst + (x - dst)) at 1 by lia.
  apply copy_up_in; rewrite ?Z2Nat.id by lia; try lia.
  eapply region_mono; [|exact Hr]. intros a [?|?]; auto.
Qed.

Lemma copy_down_other n : forall src dst s x,
  Z.of_nat n <= src + 1 -> src < 2 ^ 32 -> Z.of_nat n <= dst + 1 -> dst < 2 ^ 32 ->
  (forall y, span (dst + 1 - Z.of_nat n) (Z.of_nat n) y -> as_sep s y x) ->
  ld8 (copy_down n src dst s) x = ld8 s x.
Proof.
  induction n as [|n IH]; intros src dst s x Hs Hsn Hd Hdn Hsep; simpl; [done|].
  destruct n as [|n].
  { simpl. apply ld8_st8_sep, Hsep. unfold span; lia. }
  rewrite !u32_small by lia. rewrite IH; [|lia..|].
  - apply ld8_st8_sep, Hsep. unfold span; lia.
  - intros y Hy. apply as_sep_st8, Hsep. unfold span in *; lia.
Qed.

(** A downward copy is right when the destination is above the source. *)
Lemma copy_down_in n : forall src dst s i,
  Z.of_nat n <= src + 1 -> src < 2 ^ 32 -> Z.of_nat n <= dst + 1 -> dst < 2 ^ 32 ->
  src <= dst ->
  region s (fun a => span (src + 1 - Z.of_nat n) (Z.of_nat n) a \/
                     span (dst + 1 - Z.of_nat n) (Z.of_nat n) a) ->
  0 <= i < Z.of_nat n ->
  ld8 (copy_down n src dst s) (dst - i) = ld8 s (src - i).
Proof.
  induction n as [|n IH]; intros src dst s i Hs Hsn Hd Hdn Hov Hr Hi; [lia|].
  cbn [copy_down].
  destruct (decide (i = 0)) as [->|Hne].
  - assert (E : ld8 (st8 dst (ld8 s src) s) dst = ld8 s src).
    { rewrite ld8_st8_eq, u8_small; [done|apply ld8_range|apply Hr; unfold span; lia]. }
    rewrite !Z.sub_0_r. destruct n as [|n]; [done|].
    rewrite !u32_small by lia. rewrite copy_down_other; [done|lia..|].
    intros y Hy. apply as_sep_st8, Hr; unfold span in *; lia.
  - rewrite !u32_small by lia.
    replace (dst - i) with (dst - 1 - (i - 1)) by lia. rewrite IH; [|lia..| |lia].
    + replace (src - 1 - (i - 1)) with (src - i) by lia.
      destruct (decide (dst = src - i)) as [E|E]; [lia|].
      apply ld8_st8_sep, Hr; unfold span; lia.
    + apply region_st8. eapply region_mono; [|exact Hr].
      intros a [Ha|Ha]; unfold span in *; [left|right]; lia.
Qed.

Lemma write_bytes_other l : forall a s x,
  0 <= a -> a + Z.of_nat (length l) < 2 ^ 32 ->
  (forall y, span a (Z.of_nat (length l)) y -> as_sep s y x) ->
  ld8 (write_bytes a l s) x = ld8 s x.
Proof.
  induction l as [|b l IH]; intros a s x Ha Hn Hsep; simpl in *; [done|].
  rewrite u32_small by lia. rewrite IH; [|lia|lia|].
  - apply ld8_st8_sep, Hsep. unfold span; lia.
  - intros y Hy. apply as_sep_st8, Hsep. unfold span in *; lia.
Qed.

Lemma write_bytes_in l : forall a s i x,
  0 <= a -> a + Z.of_nat (length l) < 2 ^ 32 ->
  region s (span a (Z.of_nat (length l))) ->
  aget l i = Some x -> ld8 (write_bytes a l s) (a + i) = u8 x.
Proof.
  induction l as [|b l IH]; intros a s i x Ha Hn Hr Hx;
    pose proof (aget_Some_range _ _ _ Hx) as Hi; simpl in Hi, Hn; [lia|].
  cbn [write_bytes]. rewrite u32_small by lia.
  destruct (decide (i = 0)) as [->|Hne].
  - rewrite Z.add_0_r, write_bytes_other; [|lia|lia|].
    + rewrite ld8_st8_eq by (apply Hr; unfold span; simpl; lia).
      unfold aget, in_range in Hx. simpl in Hx. by inversion Hx.
    + intros y Hy. apply as_sep_st8, Hr; unfold span in *; simpl; lia.
  - replace (a + i) with (a + 1 + (i - 1)) by lia. apply IH; [lia|lia| |].
    + apply region_st8. eapply region_mono; [|exact Hr]. unfold span; simpl; lia.
    + unfold aget in Hx |- *.
      rewrite (proj2 (in_range_true (b :: l) i)) in Hx by (simpl; lia).
      rewrite (proj2 (in_range_true l (i - 1))) by lia.
      replace (Z.to_nat i) with (Datatypes.S (Z.to_nat (i - 1))) in Hx by lia. exact Hx.
Qed.

End Loops.
