(* ===== verification/LibMem.v ===== *)
(** * The memory routines of lib.c

    [memset], [memset_word], [memset_dword], [memcpy] and [memmove] are inline
    assembly in the source; each is modelled instruction by instruction on the
    registers the asm uses (ecx counts down, edi and esi advance modulo 2^32),
    over any memory that implements [AddrSpace].  The theorems compare them
    with the plain byte loops and give the bytes they leave in memory. *)

From Stdlib Require Import ZArith Lia.
From stdpp Require Import base numbers list gmap.
From S2P Require Import Prelude Memory.

Open Scope Z_scope.

Section Routines.
Context {S : Type} `{AddrSpace S}.

(** ** memset *)

(** .memset_top: bytes until edi is a multiple of four or ecx is zero. *)
Fixpoint memset_top (ecx : nat) (edi eax : Z) (s : S) : nat * Z * S :=
  match ecx with
  | O => (O, edi, s)
  | Datatypes.S c =>
      if Z.land edi 3 =? 0 then (ecx, edi, s)
      else memset_top c (u32 (edi + 1)) eax (st8 edi (byte_of eax 0) s)
  end.

(** rep stosl with the direction flag clear. *)
Fixpoint rep_stosl (ecx : nat) (edi eax : Z) (s : S) : Z * S :=
  match ecx with
  | O => (edi, s)
  | Datatypes.S c => rep_stosl c (u32 (edi + 4)) eax (st32 edi eax s)
  end.

(** rep stosw with the direction flag clear. *)
Fixpoint rep_stosw (ecx : nat) (edi eax : Z) (s : S) : Z * S :=
  match ecx with
  | O => (edi, s)
  | Datatypes.S c => rep_stosw c (u32 (edi + 2)) eax (st16 edi eax s)
  end.

(** .memset_bottom: the last edx bytes. *)
Fixpoint memset_bottom (edx : nat) (edi eax : Z) (s : S) : S :=
  match edx with
  | O => s
  | Datatypes.S d => memset_bottom d (u32 (edi + 1)) eax (st8 edi (byte_of eax 0) s)
  end.

(** [le32 c c c c] is the operand [c << 24 | c << 16 | c << 8 | c]. *)
Definition memset (dest c n : Z) (s : S) : S :=
  let c := Z.land c 255 in
  let eax := le32 c c c c in
  let '(ecx, edi, s) := memset_top (Z.to_nat n) dest eax s in
  match ecx with
  | O => s
  | _ =>
      let edx := Z.land (Z.of_nat ecx) 3 in
      let ecx := Z.shiftr (Z.of_nat ecx) 2 in
      let '(edi, s) := rep_stosl (Z.to_nat ecx) edi eax s in
      memset_bottom (Z.to_nat edx) edi eax s
  end.

Definition memset_word (dest c n : Z) (s : S) : S :=
  snd (rep_stosw (Z.to_nat n) dest c s).

Definition memset_dword (dest c n : Z) (s : S) : S :=
  snd (rep_stosl (Z.to_nat n) dest c s).

(** ** memcpy *)

Fixpoint memcpy_top (ecx : nat) (esi edi : Z) (s : S) : nat * Z * Z * S :=
  match ecx with
  | O => (O, esi, edi, s)
  | Datatypes.S c =>
      if Z.land edi 3 =? 0 then (ecx, esi, edi, s)
      else memcpy_top c (u32 (esi + 1)) (u32 (edi + 1)) (st8 edi (ld8 s esi) s)
  end.

(** rep movsl with the direction flag clear. *)
Fixpoint rep_movsl (ecx : nat) (esi edi : Z) (s : S) : Z * Z * S :=
  match ecx with
  | O => (esi, edi, s)
  | Datatypes.S c => rep_movsl c (u32 (esi + 4)) (u32 (edi + 4)) (st32 edi (ld32 s esi) s)
  end.

Fixpoint memcpy_bottom (edx : nat) (esi edi : Z) (s : S) : S :=
  match edx with
  | O => s
  | Datatypes.S d =>
      memcpy_bottom d (u32 (esi + 1)) (u32 (edi + 1)) (st8 edi (ld8 s esi) s)
  end.

Definition memcpy (dest src n : Z) (s : S) : S :=
  let '(ecx, esi, edi, s) := memcpy_top (Z.to_nat n) src dest s in
  match ecx with
  | O => s
  | _ =>
      let edx := Z.land (Z.of_nat ecx) 3 in
      let ecx := Z.shiftr (Z.of_nat ecx) 2 in
      let '(esi, edi, s) := rep_movsl (Z.to_nat ecx) esi edi s in
      memcpy_bottom (Z.to_nat edx) esi edi s
  end.

(** ** memmove *)

(** rep movsb: the direction flag selects whether esi and edi go up or down. *)
Fixpoint rep_movsb (df : bool) (ecx : nat) (esi edi : Z) (s : S) : S :=
  match ecx with
  | O => s
  | Datatypes.S c =>
      let d := if df then -1 else 1 in
      rep_movsb df c (u32 (esi + d)) (u32 (edi + d)) (st8 edi (ld8 s esi) s)
  end.

(** The whole routine, with the direction flag it leaves set or clear. *)
Definition memmove_asm (dest src n : Z) (s : S) : bool * S :=
  if dest <=? src then (false, rep_movsb false (Z.to_nat n) src dest s)
  else (true, rep_movsb true (Z.to_nat n) (u32 (src + n - 1)) (u32 (dest + n - 1)) s).

Definition memmove (dest src n : Z) (s : S) : S := snd (memmove_asm dest src n s).

(** ** Lemmas *)

Lemma land_255_range c : 0 <= Z.land c 255 < 256.
Proof. rewrite land_255_mod. apply u8_range. Qed.

(** The word memset replicates its byte into is that byte four times. *)
Lemma memset_eax_byte c i :
  0 <= i < 4 ->
  byte_of (le32 (Z.land c 255) (Z.land c 255) (Z.land c 255) (Z.land c 255)) i = Z.land c 255.
Proof.
  intros Hi. pose proof (land_255_range c) as Hc.
  rewrite (byte_of_le32 (Z.land c 255) (Z.land c 255) (Z.land c 255)) by lia.
  by destruct (i =? 0), (i =? 1), (i =? 2).
Qed.

Lemma memset_bottom_bytes n : forall edi eax s,
  memset_bottom n edi eax s = set_bytes n edi (byte_of eax 0) s.
Proof. induction n as [|n IH]; intros; simpl; [done|apply IH]. Qed.

Lemma memset_top_bytes n : forall edi eax s,
  0 <= edi < 2 ^ 32 ->
  exists k, (k <= n)%nat /\
    memset_top n edi eax s =
      ((n - k)%nat, u32 (edi + Z.of_nat k), set_bytes k edi (byte_of eax 0) s) /\
    ((n - k)%nat = O \/ u32 (edi + Z.of_nat k) mod 4 = 0).
Proof.
  induction n as [|n IH]; intros edi eax s Hedi.
  - exists O. simpl. rewrite Z.add_0_r, u32_small by lia. eauto.
  - cbn [memset_top]. rewrite land_3_mod. destruct (Z.eqb_spec (edi mod 4) 0) as [E|E].
    + exists O. rewrite Z.add_0_r, u32_small by lia. repeat split; [lia|by right].
    + destruct (IH (u32 (edi + 1)) eax (st8 edi (byte_of eax 0) s) (u32_range _))
        as (k & Hk & Heq & Hal).
      exists (Datatypes.S k).
      assert (Hu : u32 (u32 (edi + 1) + Z.of_nat k) = u32 (edi + Z.of_nat (Datatypes.S k))).
      { rewrite u32_add_l. f_equal. lia. }
      rewrite Hu in Heq, Hal. repeat split; [lia| |]; simpl; done.
Qed.

(** One stosl of a word of equal bytes is four byte stores. *)
Lemma st32_bytes edi eax b s :
  0 <= edi < 2 ^ 32 -> (forall i, 0 <= i < 4 -> byte_of eax i = b) ->
  st32 edi eax s = set_bytes 4 edi b s.
Proof.
  intros Hedi Hb. unfold st32. rewrite !Hb by lia. simpl.
  by rewrite !u32_add_l, <- !Z.add_assoc, !u32_add_l, <- !Z.add_assoc.
Qed.

Lemma rep_stosl_bytes n : forall edi eax b s,
  0 <= edi < 2 ^ 32 -> (forall i, 0 <= i < 4 -> byte_of eax i = b) ->
  rep_stosl n edi eax s = (u32 (edi + 4 * Z.of_nat n), set_bytes (4 * n) edi b s).
Proof.
  induction n as [|n IH]; intros edi eax b s Hedi Hb; cbn [rep_stosl].
  - by rewrite Z.add_0_r, u32_small.
  - rewrite (st32_bytes _ _ b) by done. rewrite (IH _ _ b) by (auto using u32_range).
    f_equal.
    + rewrite u32_add_l. f_equal. lia.
    + replace (4 * Datatypes.S n)%nat with (4 + 4 * n)%nat by lia.
      by rewrite set_bytes_add.
Qed.

Lemma memset_bytes dest c n s :
  0 <= dest < 2 ^ 32 ->
  memset dest c n s = set_bytes (Z.to_nat n) dest (Z.land c 255) s.
Proof.
  intros Hd. unfold memset.
  pose proof (memset_eax_byte c) as Hb.
  set (eax := le32 _ _ _ _) in *. clearbody eax.
  destruct (memset_top_bytes (Z.to_nat n) dest eax s Hd) as (k & Hk & -> & _).
  rewrite Hb by lia. destruct (Z.to_nat n - k)%nat as [|m] eqn:Em.
  { by replace (Z.to_nat n) with k by lia. }
  rewrite land_3_mod, shiftr_2_div.
  rewrite (rep_stosl_bytes _ _ _ (Z.land c 255)) by (auto using u32_range).
  rewrite memset_bottom_bytes, Hb by lia.
  set (q := Z.to_nat (Z.of_nat (Datatypes.S m) / 4)).
  set (r := Z.to_nat (Z.of_nat (Datatypes.S m) mod 4)).
  assert (Hqr : (4 * q + r = Datatypes.S m)%nat) by (subst q r; dlia).
  replace (Z.to_nat n) with (k + (4 * q + r))%nat by lia.
  rewrite set_bytes_add by lia. rewrite set_bytes_add by apply u32_range.
  f_equal. f_equal. lia.
Qed.

Lemma memcpy_bottom_bytes n : forall esi edi s,
  memcpy_bottom n esi edi s = copy_up n esi edi s.
Proof. induction n as [|n IH]; intros; simpl; [done|apply IH]. Qed.

Lemma memcpy_top_bytes n : forall esi edi s,
  0 <= esi < 2 ^ 32 -> 0 <= edi < 2 ^ 32 ->
  exists k, (k <= n)%nat /\
    memcpy_top n esi edi s =
      ((n - k)%nat, u32 (esi + Z.of_nat k), u32 (edi + Z.of_nat k), copy_up k esi edi s).
Proof.
  induction n as [|n IH]; intros esi edi s Hesi Hedi.
  - exists O. simpl. rewrite !Z.add_0_r, !u32_small by lia. auto.
  - cbn [memcpy_top]. destruct (Z.land edi 3 =? 0).
    + exists O. rewrite !Z.add_0_r, !u32_small by lia. split; [lia|done].
    + destruct (IH (u32 (esi + 1)) (u32 (edi + 1)) (st8 edi (ld8 s esi) s)
                  (u32_range _) (u32_range _)) as (k & Hk & Heq).
      exists (Datatypes.S k). split; [lia|]. rewrite Heq, !u32_add_l.
      by rewrite Nat2Z.inj_succ, <- Z.add_1_l, !Z.add_assoc.
Qed.

Lemma rep_movsb_up n : forall esi edi s,
  rep_movsb false n esi edi s = copy_up n esi edi s.
Proof. induction n as [|n IH]; intros; simpl; [done|apply IH]. Qed.

Lemma rep_movsb_down n : forall esi edi s,
  rep_movsb true n esi edi s = copy_down n esi edi s.
Proof. induction n as [|n IH]; intros; simpl; [done|apply IH]. Qed.

Lemma memmove_up dest src n s :
  dest <= src -> memmove dest src n s = copy_up (Z.to_nat n) src dest s.
Proof.
  intros Hle. unfold memmove, memmove_asm. rewrite (proj2 (Z.leb_le _ _) Hle).
  apply rep_movsb_up.
Qed.

Context `{!AddrSpaceLaws S}.

(** One movsl is four byte copies when the destination does not run into the
    source from below. *)
Lemma movsl_bytes esi edi s :
  0 <= esi -> esi + 4 < 2 ^ 32 -> 0 <= edi -> edi + 4 < 2 ^ 32 ->
  (forall j i, 0 <= j -> j < i -> i < 4 -> as_sep s (edi + j) (esi + i)) ->
  st32 edi (ld32 s esi) s = copy_up 4 esi edi s.
Proof.
  intros Hs Hs4 Hd Hd4 Hsep. unfold st32, ld32. cbn [copy_up].
  rewrite !byte_of_le32 by (try apply ld8_range; lia). simpl.
  rewrite !u32_add_l, <- !Z.add_assoc, !u32_add_l, <- !Z.add_assoc. simpl.
  rewrite !u32_small by lia.
  pose proof (Hsep 0 1) as H01. pose proof (Hsep 0 2) as H02. pose proof (Hsep 0 3) as H03.
  rewrite Z.add_0_r in H01, H02, H03.
  pose proof (Hsep 1 2) as H12. pose proof (Hsep 1 3) as H13. pose proof (Hsep 2 3) as H23.
  assert (A1 : ld8 (st8 edi (ld8 s esi) s) (esi + 1) = ld8 s (esi + 1))
    by (apply ld8_st8_sep; auto with lia).
  rewrite !A1.
  assert (A2 : forall v w, ld8 (st8 (edi + 1) v (st8 edi w s)) (esi + 2) = ld8 s (esi + 2))
    by (intros; rewrite !ld8_st8_sep; auto with lia ksafe).
  rewrite !A2.
  assert (A3 : forall v w x,
    ld8 (st8 (edi + 2) x (st8 (edi + 1) v (st8 edi w s))) (esi + 3) = ld8 s (esi + 3))
    by (intros; rewrite !ld8_st8_sep; auto 6 with lia ksafe).
  by rewrite !A3.
Qed.

Lemma as_sep_copy_up n : forall esi edi s a b,
  as_sep s a b -> as_sep (copy_up n esi edi s) a b.
Proof. induction n as [|n IH]; intros; simpl; auto with ksafe. Qed.

Lemma rep_movsl_bytes n : forall esi edi s,
  0 <= esi -> esi + 4 * Z.of_nat n < 2 ^ 32 ->
  0 <= edi -> edi + 4 * Z.of_nat n < 2 ^ 32 ->
  (forall j i, 0 <= j -> j < i -> i < 4 * Z.of_nat n -> as_sep s (edi + j) (esi + i)) ->
  rep_movsl n esi edi s =
    (esi + 4 * Z.of_nat n, edi + 4 * Z.of_nat n, copy_up (4 * n) esi edi s).
Proof.
  induction n as [|n IH]; intros esi edi s Hs Hs4 Hd Hd4 Hsep; cbn [rep_movsl].
  - by rewrite !Z.add_0_r.
  - rewrite movsl_bytes by (try lia; intros; apply Hsep; lia).
    rewrite !u32_small by lia. rewrite IH; [|lia..|].
    + replace (4 * Datatypes.S n)%nat with (4 + 4 * n)%nat by lia.
      rewrite copy_up_add, !u32_small by lia.
      replace (esi + 4 * Z.of_nat (Datatypes.S n)) with (esi + 4 + 4 * Z.of_nat n) by lia.
      by replace (edi + 4 * Z.of_nat (Datatypes.S n)) with (edi + 4 + 4 * Z.of_nat n) by lia.
    + intros j i Hj Hji Hi. apply as_sep_copy_up.
      rewrite <- !Z.add_assoc. apply Hsep; lia.
Qed.

(** memcpy is the upward byte copy whenever no source byte lies above a
    destination byte that is written before it is read. *)
Lemma memcpy_bytes dest src n s :
  0 <= dest -> dest + n < 2 ^ 32 -> 0 <= src -> src + n < 2 ^ 32 -> 0 <= n ->
  (forall j i, 0 <= j -> j < i -> i < n -> as_sep s (dest + j) (src + i)) ->
  memcpy dest src n s = copy_up (Z.to_nat n) src dest s.
Proof.
  intros Hd Hdn Hs Hsn Hn Hsep. unfold memcpy.
  destruct (memcpy_top_bytes (Z.to_nat n) src dest s) as (k & Hk & ->); [lia..|].
  destruct (Z.to_nat n - k)%nat as [|m] eqn:Em.
  { by replace (Z.to_nat n) with k by lia. }
  rewrite land_3_mod, shiftr_2_div, !u32_small by lia.
  set (q := Z.to_nat (Z.of_nat (Datatypes.S m) / 4)).
  set (r := Z.to_nat (Z.of_nat (Datatypes.S m) mod 4)).
  assert (Hqr : (4 * q + r = Datatypes.S m)%nat) by (subst q r; dlia).
  rewrite rep_movsl_bytes; [|lia..|].
  - rewrite memcpy_bottom_bytes.
    replace (Z.to_nat n) with (k + (4 * q + r))%nat by lia.
    rewrite (copy_up_add k (4 * q + r)), !u32_small by lia.
    rewrite (copy_up_add (4 * q) r), !u32_small by lia. f_equal; lia.
  - intros j i Hj Hji Hi. apply as_sep_copy_up.
    rewrite <- !Z.add_assoc. apply Hsep; lia.
Qed.

(** The bytes stored by [rep stosl] and [rep stosw]. *)
Lemma rep_stosl_other n : forall edi eax s x,
  0 <= edi -> edi + 4 * Z.of_nat n < 2 ^ 32 ->
  (forall y, span edi (4 * Z.of_nat n) y -> as_sep s y x) ->
  ld8 (snd (rep_stosl n edi eax s)) x = ld8 s x.
Proof.
  induction n as [|n IH]; intros edi eax s x H0 Hn Hsep; [done|].
  cbn [rep_stosl]. rewrite u32_small by lia. unfold st32. rewrite !u32_small by lia.
  rewrite IH; [|lia|lia|].
  - rewrite !ld8_st8_sep; [done|..]; repeat apply as_sep_st8; apply Hsep; unfold span; lia.
  - intros y Hy. repeat apply as_sep_st8. apply Hsep. unfold span in *; lia.
Qed.

Lemma rep_stosl_in n : forall edi eax s i j,
  0 <= edi -> edi + 4 * Z.of_nat n < 2 ^ 32 ->
  region s (span edi (4 * Z.of_nat n)) ->
  0 <= i < Z.of_nat n -> 0 <= j < 4 ->
  ld8 (snd (rep_stosl n edi eax s)) (edi + 4 * i + j) = byte_of eax j.
Proof.
  induction n as [|n IH]; intros edi eax s i j H0 Hn Hr Hi Hj; [lia|].
  cbn [rep_stosl]. rewrite u32_small by lia. unfold st32. rewrite !u32_small by lia.
  destruct (decide (i = 0)) as [->|Hne].
  - rewrite rep_stosl_other; [|lia..|].
    + replace (edi + 4 * 0 + j) with (edi + j) by lia.
      assert (j = 0 \/ j = 1 \/ j = 2 \/ j = 3) as [->|[->|[->| ->]]] by lia;
        rewrite ?Z.add_0_r;
        repeat first [ rewrite ld8_st8_eq
                         by (repeat apply as_ok_st8; apply Hr; unfold span; lia)
                     | rewrite ld8_st8_sep
                         by (repeat apply as_sep_st8; apply Hr; unfold span; lia) ];
        apply u8_small, byte_of_range.
    + intros y Hy. repeat apply as_sep_st8. apply Hr; unfold span in *; lia.
  - replace (edi + 4 * i + j) with (edi + 4 + 4 * (i - 1) + j) by lia.
    apply IH; [lia..| |lia|lia].
    do 4 apply region_st8. eapply region_mono; [|exact Hr]. unfold span; lia.
Qed.

(** ** Correctness *)

(** C36: memset fills exactly the [n] bytes from [dest] with the low byte of
    [c], whatever the alignment of [dest] and the remainder of [n], and leaves
    every other byte of the memory as it was. *)
Theorem memset_correct dest c n s x :
  0 <= dest -> 0 <= n -> dest + n < 2 ^ 32 ->
  region s (fun a => span dest n a \/ a = x) ->
  ld8 (memset dest c n s) x =
  if (dest <=? x) && (x <? dest + n) then u8 c else ld8 s x.
Proof.
  intros Hd Hn Hdn Hr. rewrite memset_bytes by lia.
  destruct (Z.leb_spec dest x), (Z.ltb_spec x (dest + n)); simpl;
    try (apply set_bytes_other; [lia..|]; intros y Hy; apply Hr;
         rewrite Z2Nat.id in Hy by lia; unfold span in *; lia).
  rewrite set_bytes_in; [by rewrite land_255_mod, u8_u8|lia|lia| |];
    rewrite Z2Nat.id by lia; [|unfold span; lia].
  eapply region_mono; [|exact Hr]. intros a Ha. by left.
Qed.

(** memset_dword stores [n] 32-bit words (not [n] bytes): byte [j] of word
    [i] is byte [j] of [c], and the bytes outside the [4 n] written ones are
    unchanged. *)
Theorem memset_dword_correct dest c n s :
  0 <= dest -> 0 <= n -> dest + 4 * n < 2 ^ 32 -> region s (span dest (4 * n)) ->
  (forall i j, 0 <= i < n -> 0 <= j < 4 ->
     ld8 (memset_dword dest c n s) (dest + 4 * i + j) = byte_of c j) /\
  (forall x, (forall y, span dest (4 * n) y -> as_sep s y x) ->
     ld8 (memset_dword dest c n s) x = ld8 s x).
Proof.
  intros Hd Hn Hdn Hr. unfold memset_dword. split.
  - intros i j Hi Hj. apply rep_stosl_in; rewrite ?Z2Nat.id by lia; auto.
  - intros x Hx. apply rep_stosl_other; rewrite ?Z2Nat.id by lia; auto.
Qed.

(** C37: memcpy copies [n] bytes exactly, through its byte prologue, its 32-bit
    body and its byte epilogue, when the destination is not inside the source
    range above its start; nothing else changes. *)
Theorem memcpy_correct dest src n s x :
  0 <= dest -> dest + n < 2 ^ 32 -> 0 <= src -> src + n < 2 ^ 32 -> 0 <= n ->
  dest <= src \/ src + n <= dest ->
  region s (fun a => span src n a \/ span dest n a \/ a = x) ->
  ld8 (memcpy dest src n s) x =
  if (dest <=? x) && (x <? dest + n) then ld8 s (src + (x - dest)) else ld8 s x.
Proof.
  intros Hd Hdn Hs Hsn Hn Hov Hr. rewrite memcpy_bytes by
    (try lia; intros j i ? ? ?; apply Hr; unfold span; lia).
  by apply copy_up_at.
Qed.

(** C21: memmove copies [n] bytes exactly for any overlap of source and
    destination; nothing else changes. *)
Theorem memmove_correct dest src n s x :
  0 <= dest -> dest + n < 2 ^ 32 -> 0 <= src -> src + n < 2 ^ 32 -> 0 <= n ->
  region s (fun a => span src n a \/ span dest n a \/ a = x) ->
  ld8 (memmove dest src n s) x =
  if (dest <=? x) && (x <? dest + n) then ld8 s (src + (x - dest)) else ld8 s x.
Proof.
  intros Hd Hdn Hs Hsn Hn Hr. unfold memmove, memmove_asm.
  destruct (decide (n = 0)) as [->|Hn0].
  { destruct (dest <=? src); simpl; bdestr; simpl; try done; lia. }
  destruct (Z.leb_spec dest src) as [Hle|Hgt]; simpl;
    rewrite ?rep_movsb_up, ?rep_movsb_down.
  - apply copy_up_at; auto.
  - rewrite !u32_small by lia.
    destruct (Z.leb_spec dest x), (Z.ltb_spec x (dest + n)); simpl;
      try (apply copy_down_other; [lia..|]; intros y Hy; apply Hr;
           rewrite Z2Nat.id in Hy by lia; unfold span in *; lia).
    replace x with (dest + n - 1 - (dest + n - 1 - x)) at 1 by lia.
    replace (src + (x - dest)) with (src + n - 1 - (dest + n - 1 - x)) by lia.
    apply copy_down_in; rewrite ?Z2Nat.id by lia; try lia.
    eapply region_mono; [|exact Hr]. unfold span. intros a [?|?]; lia.
Qed.

End Routines.

(** ** Witnesses on a flat memory *)

Definition demo_mem : gmap Z Z := list_to_map (zip (seqZ 100 10) [1;2;3;4;5;6;7;8;9;10]).

Lemma memset_correct_witness : ld8 (memset 101 7 6 demo_mem) 106 = 7.
Proof.
  rewrite (memset_correct 101 7 6 demo_mem 106) by (try lia; apply region_flat). reflexivity.
Defined.

Lemma memset_dword_correct_witness :
  ld8 (memset_dword 100 258 2 demo_mem) (100 + 4 * 1 + 1) = 1.
Proof.
  rewrite (proj1 (memset_dword_correct 100 258 2 demo_mem
    ltac:(lia) ltac:(lia) ltac:(lia) (region_flat _ _))) by lia.
  reflexivity.
Defined.

Lemma memcpy_correct_witness : ld8 (memcpy 99 102 7 demo_mem) 103 = 7.
Proof.
  rewrite (memcpy_correct 99 102 7 demo_mem 103) by (try lia; apply region_flat).
  reflexivity.
Defined.

Lemma memmove_correct_witness : ld8 (memmove 103 100 7 demo_mem) 105 = 3.
Proof.
  rewrite (memmove_correct 103 100 7 demo_mem 105) by (try lia; apply region_flat).
  reflexivity.
Defined.
