(* ===== verification/LibStr.v ===== *)
(** * The string routines of lib.c

    [strlen], [strncmp], [strcpy], [strncpy], [strrev] and [itoa] over any
    memory that implements [AddrSpace].  Loops that end at a NUL byte take
    fuel and return [None] when it runs out; the theorems show the fuel that
    is enough. *)

From Stdlib Require Import ZArith Lia String.
From stdpp Require Import base numbers list gmap.
From S2P Require Import Prelude Memory.

Open Scope Z_scope.

(** The memory holds the C string [l] at [a]: its non-NUL characters, then
    the terminator. *)
Definition cstr {S} `{AddrSpace S} (s : S) (a : Z) (l : list Z) : Prop :=
  Forall (fun c => 0 < c < 256) l /\ bytes_at s a (l ++ [0]).

Section Strings.
Context {S : Type} `{AddrSpace S}.

(** ** strlen *)

Fixpoint strlen_loop (fuel : nat) (a len : Z) (s : S) : option Z :=
  match fuel with
  | O => None
  | Datatypes.S f =>
      if ld8 s (u32 (a + len)) =? 0 then Some len else strlen_loop f a (u32 (len + 1)) s
  end.

Definition strlen (fuel : nat) (a : Z) (s : S) : option Z := strlen_loop fuel a 0 s.

(** ** strncmp: characters are compared as signed char *)

Fixpoint strncmp_loop (n : nat) (s1 s2 i : Z) (s : S) : Z :=
  match n with
  | O => 0
  | Datatypes.S n' =>
      let c1 := s8 (ld8 s (u32 (s1 + i))) in
      let c2 := s8 (ld8 s (u32 (s2 + i))) in
      if negb (c1 =? c2) || (c1 =? 0) then c1 - c2
      else strncmp_loop n' s1 s2 (i + 1) s
  end.

Definition strncmp (s1 s2 n : Z) (s : S) : Z := strncmp_loop (Z.to_nat n) s1 s2 0 s.

(** ** strcpy and strncpy *)

Fixpoint strcpy_loop (fuel : nat) (dest src i : Z) (s : S) : option S :=
  match fuel with
  | O => None
  | Datatypes.S f =>
      if ld8 s (u32 (src + i)) =? 0 then Some (st8 (u32 (dest + i)) 0 s)
      else strcpy_loop f dest src (i + 1) (st8 (u32 (dest + i)) (ld8 s (u32 (src + i))) s)
  end.

Definition strcpy (fuel : nat) (dest src : Z) (s : S) : option S :=
  strcpy_loop fuel dest src 0 s.

(** First loop of strncpy: [src[i]] is read before [i < n] is tested. *)
Fixpoint strncpy_copy (k : nat) (dest src i : Z) (s : S) : Z * S :=
  match k with
  | O => (i, s)
  | Datatypes.S k' =>
      if ld8 s (u32 (src + i)) =? 0 then (i, s)
      else strncpy_copy k' dest src (i + 1) (st8 (u32 (dest + i)) (ld8 s (u32 (src + i))) s)
  end.

Definition strncpy (dest src n : Z) (s : S) : S :=
  let '(i, s) := strncpy_copy (Z.to_nat n) dest src 0 s in
  for_range i n (fun i s => st8 (u32 (dest + i)) 0 s) s.

(** ** strrev *)

Fixpoint strrev_loop (fuel : nat) (a beg fin : Z) (s : S) : S :=
  match fuel with
  | O => s
  | Datatypes.S f =>
      if beg <? fin then
        let tmp := ld8 s (u32 (a + fin)) in
        let s := st8 (u32 (a + fin)) (ld8 s (u32 (a + beg))) s in
        let s := st8 (u32 (a + beg)) tmp s in
        strrev_loop f a (beg + 1) (fin - 1) s
      else s
  end.

(** Half the length is the number of swaps; the length is enough fuel. *)
Definition strrev (fuel : nat) (a : Z) (s : S) : option S :=
  match strlen fuel a s with
  | None => None
  | Some len => Some (strrev_loop (Z.to_nat len) a 0 (len - 1) s)
  end.

(** ** itoa *)

Definition lookup_table : list Z := codes "0123456789ABCDEFGHIJKLMNOPQRSTUVWXYZ".

Fixpoint itoa_loop (fuel : nat) (newval newbuf radix : Z) (s : S) : option (Z * S) :=
  if newval =? 0 then Some (newbuf, s)
  else match fuel with
       | O => None
       | Datatypes.S f =>
           let i := newval mod radix in
           let s := st8 newbuf (agetZ lookup_table i) s in
           itoa_loop f (newval / radix) (u32 (newbuf + 1)) radix s
       end.

(** 32 digits are enough for a 32-bit value in any base from two up. *)
Definition itoa (value buf radix : Z) (s : S) : option S :=
  if value =? 0 then Some (st8 (u32 (buf + 1)) 0 (st8 buf 48 s))
  else match itoa_loop 32 value buf radix s with
       | None => None
       | Some (newbuf, s) => strrev 33 buf (st8 newbuf 0 s)
       end.

End Strings.

(** ** What the digits denote *)

Definition digit_val (c : Z) : Z := if c <=? 57 then c - 48 else c - 55.

(** Most significant digit first. *)
Definition parse_digits (radix : Z) (l : list Z) : Z :=
  fold_left (fun acc c => acc * radix + digit_val c) l 0.

(** Comparison of the first [n] characters of two strings, as signed char. *)
Fixpoint strncmp_ref (n : nat) (l1 l2 : list Z) : Z :=
  match n with
  | O => 0
  | S n' =>
      match l1, l2 with
      | [], [] => 0
      | [], c :: _ => - s8 c
      | c :: _, [] => s8 c
      | c1 :: l1', c2 :: l2' =>
          if c1 =? c2 then strncmp_ref n' l1' l2' else s8 c1 - s8 c2
      end
  end.

Section StringLemmas.
Context {S : Type} `{AddrSpaceLaws S}.

Lemma agetZ_app_l (l k : list Z) i :
  0 <= i < Z.of_nat (length l) -> agetZ (l ++ k) i = agetZ l i.
Proof.
  intros Hi. unfold agetZ, aget.
  rewrite (proj2 (in_range_true (l ++ k) i)) by (rewrite length_app; lia).
  rewrite (proj2 (in_range_true l i)) by lia.
  by rewrite lookup_app_l by lia.
Qed.

Lemma agetZ_app_len (l : list Z) x : agetZ (l ++ [x]) (Z.of_nat (length l)) = x.
Proof.
  unfold agetZ, aget.
  rewrite (proj2 (in_range_true _ _)) by (rewrite length_app; simpl; lia).
  by rewrite Nat2Z.id, lookup_app_r, Nat.sub_diag by lia.
Qed.

Lemma Forall_agetZ (P : Z -> Prop) (l : list Z) i :
  Forall P l -> 0 <= i < Z.of_nat (length l) -> P (agetZ l i).
Proof.
  intros HP Hi. destruct (aget_range_Some l i Hi) as [x Hx].
  unfold agetZ. rewrite Hx. simpl. rewrite Forall_lookup in HP.
  unfold aget in Hx. destruct (in_range l i); [eauto|done].
Qed.

Lemma cstr_char s a l i :
  cstr s a l -> 0 <= i < Z.of_nat (length l) ->
  ld8 s (a + i) = agetZ l i /\ 0 < agetZ l i < 256.
Proof.
  intros [Hl Hb] Hi. split; [|by apply (Forall_agetZ (fun c => 0 < c < 256))].
  rewrite Hb by (rewrite length_app; simpl; lia). by apply agetZ_app_l.
Qed.

Lemma cstr_nul s a l : cstr s a l -> ld8 s (a + Z.of_nat (length l)) = 0.
Proof.
  intros [Hl Hb]. rewrite Hb by (rewrite length_app; simpl; lia). apply agetZ_app_len.
Qed.

Lemma strlen_loop_cstr s a l : forall fuel len,
  cstr s a l -> 0 <= a -> a + Z.of_nat (length l) < 2 ^ 32 ->
  0 <= len <= Z.of_nat (length l) -> Z.of_nat (length l) - len < Z.of_nat fuel ->
  strlen_loop fuel a len s = Some (Z.of_nat (length l)).
Proof.
  intros fuel; induction fuel as [|f IH]; intros len Hc Ha Hal Hlen Hf; [lia|].
  cbn [strlen_loop]. rewrite (u32_small (a + len)) by lia.
  destruct (decide (len = Z.of_nat (length l))) as [->|Hne].
  - by rewrite (cstr_nul s a l).
  - destruct (cstr_char s a l len Hc) as [Hch Hr]; [lia|]. rewrite Hch.
    destruct (Z.eqb_spec (agetZ l len) 0); [lia|].
    rewrite u32_small by lia. apply IH; auto; lia.
Qed.

(** strlen is the number of characters before the NUL, with any fuel above
    it. *)
Lemma strlen_cstr fuel s a l :
  cstr s a l -> 0 <= a -> a + Z.of_nat (length l) < 2 ^ 32 ->
  Z.of_nat (length l) < Z.of_nat fuel ->
  strlen fuel a s = Some (Z.of_nat (length l)).
Proof. intros. unfold strlen. apply strlen_loop_cstr; auto; lia. Qed.

Lemma s8_inj c1 c2 : 0 <= c1 < 256 -> 0 <= c2 < 256 -> s8 c1 = s8 c2 -> c1 = c2.
Proof. unfold s8. intros. dlia. Qed.

Lemma s8_0 c : 0 <= c < 256 -> s8 c = 0 -> c = 0.
Proof. unfold s8. intros. dlia. Qed.

Lemma agetZ_cons (c : Z) l i :
  0 <= i -> agetZ (c :: l) (i + 1) = agetZ l i.
Proof.
  intros Hi. unfold agetZ. destruct (decide (i < Z.of_nat (length l))) as [Hl|Hl].
  - unfold aget. rewrite (proj2 (in_range_true (c :: l) _)) by (simpl; lia).
    rewrite (proj2 (in_range_true l _)) by lia.
    by replace (Z.to_nat (i + 1)) with (Datatypes.S (Z.to_nat i)) by lia.
  - rewrite (proj2 (aget_None l i)) by lia.
    by rewrite (proj2 (aget_None (c :: l) (i + 1))) by (simpl; lia).
Qed.

Lemma cstr_cons s a c l :
  cstr s a (c :: l) -> ld8 s a = c /\ 0 < c < 256 /\ cstr s (a + 1) l.
Proof.
  intros [Hl Hb]. apply Forall_cons in Hl as [Hc Hl]. split_and!; try lia.
  - rewrite <- (Z.add_0_r a). rewrite Hb by (simpl; lia). done.
  - split; [done|]. intros i Hi. rewrite <- Z.add_assoc, (Z.add_comm 1), Hb.
    + simpl app. apply agetZ_cons. lia.
    + simpl. lia.
Qed.

Lemma cstr_push s a c l :
  0 < c < 256 -> ld8 s a = c -> cstr s (a + 1) l -> cstr s a (c :: l).
Proof.
  intros Hc Ha [Hl Hb]. split; [by constructor|]. intros i Hi.
  destruct (decide (i = 0)) as [->|Hne]; [by rewrite Z.add_0_r, Ha|].
  replace (a + i) with (a + 1 + (i - 1)) by lia. replace i with (i - 1 + 1) at 2 by lia.
  simpl app. rewrite agetZ_cons, Hb by (simpl in Hi; lia). done.
Qed.

Lemma strncmp_loop_ref s s1 s2 : forall n l1 l2 i,
  cstr s (s1 + i) l1 -> cstr s (s2 + i) l2 -> 0 <= s1 -> 0 <= s2 -> 0 <= i ->
  s1 + i + Z.of_nat n < 2 ^ 32 -> s2 + i + Z.of_nat n < 2 ^ 32 ->
  strncmp_loop n s1 s2 i s = strncmp_ref n l1 l2.
Proof.
  induction n as [|n IH]; intros l1 l2 i Hc1 Hc2 H1 H2 Hi Hb1 Hb2; [done|].
  cbn [strncmp_loop strncmp_ref]. rewrite !u32_small by lia.
  destruct l1 as [|c1 l1], l2 as [|c2 l2].
  - apply cstr_nul in Hc1, Hc2. simpl in Hc1, Hc2. rewrite Z.add_0_r in Hc1, Hc2.
    by rewrite Hc1, Hc2.
  - apply cstr_nul in Hc1. simpl in Hc1. rewrite Z.add_0_r in Hc1.
    apply cstr_cons in Hc2 as (-> & Hr2 & _). rewrite Hc1.
    destruct (Z.eqb_spec (s8 0) (s8 c2)) as [E|_]; [apply s8_inj in E; lia|]. done.
  - apply cstr_nul in Hc2. simpl in Hc2. rewrite Z.add_0_r in Hc2.
    apply cstr_cons in Hc1 as (-> & Hr1 & _). rewrite Hc2.
    destruct (Z.eqb_spec (s8 c1) (s8 0)) as [E|_]; [apply s8_inj in E; lia|].
    simpl. change (s8 0) with 0. lia.
  - apply cstr_cons in Hc1 as (-> & Hr1 & Hc1), Hc2 as (-> & Hr2 & Hc2).
    destruct (Z.eqb_spec c1 c2) as [->|Hne].
    + rewrite Z.eqb_refl. simpl.
      destruct (Z.eqb_spec (s8 c2) 0) as [E|_]; [apply s8_0 in E; lia|].
      apply IH; rewrite ?Z.add_assoc; auto; lia.
    + destruct (Z.eqb_spec (s8 c1) (s8 c2)) as [E|_]; [apply s8_inj in E; lia|]. done.
Qed.

Lemma strncmp_ref_zero : forall n l1 l2,
  Forall (fun c => 0 < c < 256) l1 -> Forall (fun c => 0 < c < 256) l2 ->
  strncmp_ref n l1 l2 = 0 <-> take n l1 = take n l2.
Proof.
  induction n as [|n IH]; intros [|c1 l1] [|c2 l2] F1 F2; simpl; try done.
  - apply Forall_cons in F2 as [F2 _]. split; [|done].
    intros E. exfalso. assert (c2 = 0) by (apply s8_0; lia). lia.
  - apply Forall_cons in F1 as [F1 _]. split; [|done].
    intros E. exfalso. assert (c1 = 0) by (apply s8_0; lia). lia.
  - apply Forall_cons in F1 as [F1 F1'], F2 as [F2 F2'].
    destruct (Z.eqb_spec c1 c2) as [->|Hne].
    + rewrite IH by done. split; [congruence|by intros [= ->]].
    + split; [|congruence]. intros E. exfalso. apply Hne. apply s8_inj; lia.
Qed.

(** strcpy from index [i] on: the characters up to [len] and the NUL at [len]
    are copied and nothing else is written. *)
Lemma strcpy_loop_spec dest src len : forall fuel i s,
  0 <= dest -> dest + len + 1 < 2 ^ 32 -> 0 <= src -> src + len + 1 < 2 ^ 32 ->
  0 <= i <= len -> len - i < Z.of_nat fuel ->
  dest + len < src \/ src + len < dest ->
  region s (fun a => span src (len + 1) a \/ span dest (len + 1) a) ->
  (forall j, i <= j < len -> ld8 s (src + j) <> 0) -> ld8 s (src + len) = 0 ->
  exists s', strcpy_loop fuel dest src i s = Some s' /\
    (forall j, i <= j <= len -> ld8 s' (dest + j) = ld8 s (src + j)) /\
    (forall x, (forall j, i <= j <= len -> as_sep s (dest + j) x) -> ld8 s' x = ld8 s x).
Proof.
  induction fuel as [|f IH]; intros i s Hd Hdl Hs Hsl Hi Hf Hdis Hr Hnz Hz; [lia|].
  cbn [strcpy_loop]. rewrite !u32_small by lia.
  destruct (decide (i = len)) as [->|Hne].
  - rewrite Hz. simpl. eexists; split; [done|]. split.
    + intros j Hj. replace j with len by lia. rewrite Hz.
      by rewrite ld8_st8_eq by (apply Hr; unfold span; lia).
    + intros x Hx. apply ld8_st8_sep, Hx. lia.
  - destruct (Z.eqb_spec (ld8 s (src + i)) 0) as [E|E]; [exfalso; apply (Hnz i); [lia|done]|].
    set (s1 := st8 (dest + i) (ld8 s (src + i)) s).
    assert (Hsrc : forall j, 0 <= j <= len -> ld8 s1 (src + j) = ld8 s (src + j)).
    { intros j Hj. apply ld8_st8_sep, Hr; unfold span; lia. }
    destruct (IH (i + 1) s1) as (s' & Heq & Hin & Hout); try lia.
    + by apply region_st8.
    + intros j Hj. rewrite Hsrc by lia. apply Hnz. lia.
    + rewrite Hsrc by lia. done.
    + exists s'. split; [done|]. split.
      * intros j Hj. destruct (decide (j = i)) as [->|Hji].
        -- rewrite Hout.
           ++ unfold s1. rewrite ld8_st8_eq by (apply Hr; unfold span; lia).
              apply u8_small, ld8_range.
           ++ intros k Hk. apply as_sep_st8, Hr; unfold span; lia.
        -- rewrite Hin by lia. apply Hsrc. lia.
      * intros x Hx. rewrite Hout.
        -- apply ld8_st8_sep, Hx. lia.
        -- intros k Hk. apply as_sep_st8, Hx. lia.
Qed.

Lemma strncpy_copy_spec dest src n len : forall k i s,
  0 <= dest -> dest + n < 2 ^ 32 -> 0 <= src -> src + n < 2 ^ 32 ->
  0 <= i -> i + Z.of_nat k = n -> i <= len ->
  dest + n <= src \/ src + n <= dest ->
  region s (fun a => span src n a \/ span dest n a) ->
  (forall j, i <= j < Z.min n len -> ld8 s (src + j) <> 0) ->
  (len < n -> ld8 s (src + len) = 0) ->
  exists s', strncpy_copy k dest src i s = (Z.min n len, s') /\
    (forall j, i <= j < Z.min n len -> ld8 s' (dest + j) = ld8 s (src + j)) /\
    (forall x, (forall j, i <= j < Z.min n len -> as_sep s (dest + j) x) ->
       ld8 s' x = ld8 s x) /\
    (forall P, region s P -> region s' P) /\ (forall a b, as_sep s a b -> as_sep s' a b).
Proof.
  induction k as [|k IH]; intros i s Hd Hdn Hs Hsn Hi Hk Hlen Hdis Hr Hnz Hz;
    cbn [strncpy_copy].
  { exists s. replace (Z.min n len) with i by lia. split_and!; auto; lia. }
  rewrite !u32_small by lia.
  destruct (decide (i = len)) as [->|Hne].
  { rewrite Hz by lia. exists s. replace (Z.min n len) with len by lia.
    split_and!; auto; lia. }
  destruct (Z.eqb_spec (ld8 s (src + i)) 0) as [E|E]; [exfalso; apply (Hnz i); [lia|done]|].
  set (s1 := st8 (dest + i) (ld8 s (src + i)) s).
  assert (Hsrc : forall j, 0 <= j < n -> ld8 s1 (src + j) = ld8 s (src + j)).
  { intros j Hj. apply ld8_st8_sep, Hr; unfold span; lia. }
  destruct (IH (i + 1) s1) as (s' & Heq & Hin & Hout & Hreg & Hsp); try lia.
  - by apply region_st8.
  - intros j Hj. rewrite Hsrc by lia. apply Hnz. lia.
  - intros Hl. rewrite Hsrc by lia. auto.
  - exists s'. rewrite Heq. split_and!; [done|..].
    + intros j Hj. destruct (decide (j = i)) as [->|Hji].
      * rewrite Hout.
        -- unfold s1. rewrite ld8_st8_eq by (apply Hr; unfold span; lia).
           apply u8_small, ld8_range.
        -- intros q Hq. apply as_sep_st8, Hr; unfold span; lia.
      * rewrite Hin by lia. apply Hsrc. lia.
    + intros x Hx. rewrite Hout.
      * apply ld8_st8_sep, Hx. lia.
      * intros q Hq. apply as_sep_st8, Hx. lia.
    + intros P HP. apply Hreg. by apply region_st8.
    + intros a b Hab. by apply Hsp, as_sep_st8.
Qed.

Lemma strncpy_pad dest n : forall s i,
  0 <= dest -> dest + n < 2 ^ 32 -> 0 <= i <= n -> region s (span dest n) ->
  let s' := for_range i n (fun i s => st8 (u32 (dest + i)) 0 s) s in
  (forall j, i <= j < n -> ld8 s' (dest + j) = 0) /\
  (forall x, (forall j, i <= j < n -> as_sep s (dest + j) x) -> ld8 s' x = ld8 s x).
Proof.
  intros s i Hd Hdn Hi Hr.
  apply (for_range_inv i n _ s (fun k t =>
    (forall P, region s P -> region t P) /\
    (forall a b, as_sep s a b -> as_sep t a b) /\
    (forall j, i <= j < k -> ld8 t (dest + j) = 0) /\
    (forall x, (forall j, i <= j < k -> as_sep s (dest + j) x) -> ld8 t x = ld8 s x)));
    [lia|split_and!; auto; lia|].
  intros k t Hk (Hreg & Hsp & Hin & Hout). rewrite u32_small by lia. split_and!.
  - intros P HP. apply region_st8; auto.
  - auto with ksafe.
  - intros j Hj. destruct (decide (j = k)) as [->|Hne].
    + rewrite ld8_st8_eq; [done|]. apply Hreg with (P := span dest n); [done|unfold span; lia].
    + rewrite ld8_st8_sep; [apply Hin; lia|]. apply Hsp, Hr; unfold span; lia.
  - intros x Hx. rewrite ld8_st8_sep; [apply Hout; intros; apply Hx; lia|].
    apply Hsp, Hx. lia.
Qed.

(** The swaps of strrev, position by position. *)
Lemma strrev_loop_spec a n : forall fuel beg fin s,
  0 <= a -> a + n < 2 ^ 32 -> 0 <= beg -> fin < n -> beg <= fin + 1 ->
  fin - beg <= Z.of_nat fuel * 2 -> region s (span a n) ->
  (forall j, beg <= j <= fin ->
     ld8 (strrev_loop fuel a beg fin s) (a + j) = ld8 s (a + (beg + fin - j))) /\
  (forall x, (forall j, beg <= j <= fin -> as_sep s (a + j) x) ->
     ld8 (strrev_loop fuel a beg fin s) x = ld8 s x).
Proof.
  induction fuel as [|f IH]; intros beg fin s Ha Han Hb Hf Hbf Hfu Hr; cbn [strrev_loop].
  { split; [|done]. intros j Hj. do 2 f_equal. lia. }
  destruct (Z.ltb_spec beg fin) as [Hlt|Hge].
  2: { split; [|done]. intros j Hj. do 2 f_equal. lia. }
  rewrite !(u32_small (a + fin)), !(u32_small (a + beg)) by lia.
  assert (Hsep : forall i j, 0 <= i < n -> 0 <= j < n -> i <> j -> as_sep s (a + i) (a + j)).
  { intros. apply Hr; unfold span; lia. }
  assert (Hok : forall i, 0 <= i < n -> as_ok s (a + i)).
  { intros. apply Hr; unfold span; lia. }
  set (s1 := st8 (a + fin) (ld8 s (a + beg)) s).
  set (s2 := st8 (a + beg) (ld8 s (a + fin)) s1).
  assert (Ebeg : ld8 s2 (a + beg) = ld8 s (a + fin)).
  { unfold s2. rewrite ld8_st8_eq; [apply u8_small, ld8_range|].
    apply as_ok_st8, Hok. lia. }
  assert (Efin : ld8 s2 (a + fin) = ld8 s (a + beg)).
  { unfold s2. rewrite ld8_st8_sep by (apply as_sep_st8, Hsep; lia).
    unfold s1. rewrite ld8_st8_eq; [apply u8_small, ld8_range|]. apply Hok. lia. }
  assert (Eoth : forall x, as_sep s (a + fin) x -> as_sep s (a + beg) x -> ld8 s2 x = ld8 s x).
  { intros x H1 H2. unfold s2, s1. rewrite !ld8_st8_sep; auto with ksafe. }
  destruct (IH (beg + 1) (fin - 1) s2) as [IHin IHout]; try lia.
  { by do 2 apply region_st8. }
  assert (Hs2 : forall i x, as_sep s i x -> as_sep s2 i x) by (intros; unfold s2, s1; auto with ksafe).
  split.
  - intros j Hj. destruct (decide (j = beg)) as [->|Hjb]; [|destruct (decide (j = fin)) as [->|Hjf]].
    + rewrite IHout, Ebeg; [do 2 f_equal; lia|]. intros k Hk. apply Hs2, Hsep; lia.
    + rewrite IHout, Efin; [do 2 f_equal; lia|]. intros k Hk. apply Hs2, Hsep; lia.
    + rewrite IHin by lia. rewrite Eoth by (apply Hsep; lia). do 2 f_equal; lia.
  - intros x Hx. rewrite IHout.
    + apply Eoth; apply Hx; lia.
    + intros j Hj. apply Hs2, Hx. lia.
Qed.

Lemma cstr_intro s a l :
  Forall (fun c => 0 < c < 256) l ->
  (forall i, 0 <= i < Z.of_nat (length l) -> ld8 s (a + i) = agetZ l i) ->
  ld8 s (a + Z.of_nat (length l)) = 0 -> cstr s a l.
Proof.
  intros Hl Hin Hnul. split; [done|]. intros i Hi. rewrite length_app in Hi. simpl in Hi.
  destruct (decide (i = Z.of_nat (length l))) as [->|Hne].
  - by rewrite agetZ_app_len.
  - rewrite agetZ_app_l by lia. apply Hin. lia.
Qed.

Lemma agetZ_reverse (l : list Z) i :
  0 <= i < Z.of_nat (length l) -> agetZ (reverse l) i = agetZ l (Z.of_nat (length l) - 1 - i).
Proof.
  intros Hi. unfold agetZ, aget.
  rewrite (proj2 (in_range_true (reverse l) i)) by (rewrite length_reverse; lia).
  rewrite (proj2 (in_range_true l _)) by lia.
  rewrite reverse_lookup by lia. f_equal. f_equal. lia.
Qed.

(** strrev reverses the string in place. *)
Lemma strrev_cstr fuel s a l :
  cstr s a l -> 0 <= a -> a + Z.of_nat (length l) + 1 < 2 ^ 32 ->
  Z.of_nat (length l) < Z.of_nat fuel ->
  region s (span a (Z.of_nat (length l) + 1)) ->
  exists s', strrev fuel a s = Some s' /\ cstr s' a (reverse l) /\
    (forall x, (forall j, 0 <= j < Z.of_nat (length l) -> as_sep s (a + j) x) ->
       ld8 s' x = ld8 s x).
Proof.
  intros Hc Ha Hal Hf Hr. unfold strrev.
  rewrite (strlen_cstr _ _ _ l) by (auto; lia).
  eexists; split; [reflexivity|].
  destruct (strrev_loop_spec a (Z.of_nat (length l) + 1) (Z.to_nat (Z.of_nat (length l)))
    0 (Z.of_nat (length l) - 1) s) as [Hin Hout]; try lia; [done|].
  split.
  - apply cstr_intro; rewrite ?length_reverse.
    + apply Forall_reverse, Hc.
    + intros i Hi. rewrite Hin by lia. rewrite agetZ_reverse by lia.
      rewrite <- (proj1 (cstr_char s a l (Z.of_nat (length l) - 1 - i) Hc ltac:(lia))).
      do 2 f_equal; lia.
    + rewrite Hout; [by apply cstr_nul|]. intros j Hj. apply Hr; unfold span; lia.
  - intros x Hx. apply Hout. intros j Hj. apply Hx. lia.
Qed.

(** ** The digits of itoa *)

(** Digits written by the loop, least significant first. *)
Fixpoint digits_lsb (fuel : nat) (v radix : Z) : list Z :=
  if v =? 0 then []
  else match fuel with
       | O => []
       | Datatypes.S f => agetZ lookup_table (v mod radix) :: digits_lsb f (v / radix) radix
       end.

Lemma lookup_table_spec d :
  0 <= d < 36 ->
  let c := agetZ lookup_table d in 48 <= c < 91 /\ digit_val c = d /\ (0 < d -> c <> 48).
Proof.
  intros Hd.
  assert (Hall : forallb (fun d => let c := agetZ lookup_table d in
    (48 <=? c) && (c <? 91) && (digit_val c =? d) && ((d <=? 0) || negb (c =? 48)))
    (seqZ 0 36) = true) by (vm_compute; reflexivity).
  rewrite forallb_forall in Hall.
  specialize (Hall d ltac:(apply list_elem_of_In, elem_of_seqZ; lia)). cbv zeta in *.
  rewrite !andb_true_iff, orb_true_iff, negb_true_iff, Z.leb_le, Z.ltb_lt, Z.eqb_eq,
    Z.leb_le, Z.eqb_neq in Hall. intuition lia.
Qed.

(** The value of digits given least significant first. *)
Fixpoint value_lsb (radix : Z) (l : list Z) : Z :=
  match l with
  | [] => 0
  | c :: l' => digit_val c + radix * value_lsb radix l'
  end.

Lemma parse_digits_reverse radix l : parse_digits radix (reverse l) = value_lsb radix l.
Proof.
  unfold parse_digits. induction l as [|c l IH]; [done|].
  rewrite reverse_cons, fold_left_app, IH. simpl. lia.
Qed.

Lemma digits_lsb_spec radix : forall fuel v,
  2 <= radix <= 36 -> 0 <= v < 2 ^ Z.of_nat fuel ->
  let l := digits_lsb fuel v radix in
  value_lsb radix l = v /\ Forall (fun c => 48 <= c < 91) l /\
  (length l <= fuel)%nat /\
  (0 < v -> radix ^ (Z.of_nat (length l) - 1) <= v /\ (0 < length l)%nat /\
            last l <> Some 48).
Proof.
  induction fuel as [|f IH]; intros v Hr Hv; cbv zeta.
  { simpl in *. replace v with 0 by lia. simpl. split_and!; auto; lia. }
  cbn [digits_lsb]. destruct (Z.eqb_spec v 0) as [->|Hv0].
  { simpl. split_and!; auto; lia. }
  assert (Hq : 0 <= v / radix < 2 ^ Z.of_nat f).
  { split; [apply Z.div_pos; lia|]. apply Z.div_lt_upper_bound; [lia|].
    rewrite Nat2Z.inj_succ, Z.pow_succ_r in Hv by lia. nia. }
  destruct (IH (v / radix) Hr Hq) as (IHv & IHc & IHl & IHp).
  pose proof (Z.mod_pos_bound v radix ltac:(lia)) as Hm.
  destruct (lookup_table_spec (v mod radix) ltac:(lia)) as (Hc & Hd & Hz).
  set (l := digits_lsb f (v / radix) radix) in *.
  pose proof (Z.div_mod v radix ltac:(lia)) as Hdm.
  split_and!.
  - cbn [value_lsb]. rewrite Hd, IHv. lia.
  - constructor; [lia|done].
  - simpl. lia.
  - intros _. destruct (decide (v / radix = 0)) as [E|E].
    + unfold l. rewrite E. destruct f; simpl; split_and!; try lia;
        intros [= Hl]; apply Hz; lia.
    + destruct IHp as (Hpow & Hlen & Hlast); [lia|]. split_and!; [|simpl; lia|].
      * replace (Z.of_nat (length (agetZ lookup_table (v mod radix) :: l)) - 1)
          with (Z.succ (Z.of_nat (length l) - 1)) by (simpl; lia).
        rewrite Z.pow_succ_r by lia. nia.
      * rewrite last_cons. destruct (last l) eqn:El; [done|].
        apply last_None in El. rewrite El in Hlen. simpl in Hlen. lia.
Qed.

Lemma itoa_loop_spec radix : forall fuel v buf s,
  2 <= radix <= 36 -> 0 <= v < 2 ^ Z.of_nat fuel ->
  0 <= buf -> buf + Z.of_nat fuel < 2 ^ 32 -> region s (span buf (Z.of_nat fuel)) ->
  let l := digits_lsb fuel v radix in
  exists s', itoa_loop fuel v buf radix s = Some (buf + Z.of_nat (length l), s') /\
    (forall i, 0 <= i < Z.of_nat (length l) -> ld8 s' (buf + i) = agetZ l i) /\
    (forall x, (forall y, span buf (Z.of_nat (length l)) y -> as_sep s y x) ->
       ld8 s' x = ld8 s x) /\
    (forall a b, as_sep s a b -> as_sep s' a b) /\ (forall a, as_ok s a -> as_ok s' a).
Proof.
  induction fuel as [|f IH]; intros v buf s Hrx Hv Hb Hbf Hr; cbv zeta.
  { simpl in Hv. replace v with 0 by lia. exists s. simpl. rewrite Z.add_0_r.
    split_and!; auto; lia. }
  cbn [itoa_loop digits_lsb]. destruct (Z.eqb_spec v 0) as [->|Hv0].
  { exists s. simpl. rewrite Z.add_0_r. split_and!; auto; lia. }
  assert (Hq : 0 <= v / radix < 2 ^ Z.of_nat f).
  { split; [apply Z.div_pos; lia|]. apply Z.div_lt_upper_bound; [lia|].
    rewrite Nat2Z.inj_succ, Z.pow_succ_r in Hv by lia. nia. }
  destruct (digits_lsb_spec radix f (v / radix) Hrx Hq) as (_ & _ & Hlen & _).
  pose proof (Z.mod_pos_bound v radix ltac:(lia)) as Hm.
  destruct (lookup_table_spec (v mod radix) ltac:(lia)) as (Hc & _ & _).
  set (c := agetZ lookup_table (v mod radix)) in *.
  set (l := digits_lsb f (v / radix) radix) in *.
  rewrite u32_small by lia.
  destruct (IH (v / radix) (buf + 1) (st8 buf c s) Hrx Hq) as (s' & Heq & Hin & Hout & Hsp & Hok);
    [lia|lia| |].
  { apply region_st8. eapply region_mono; [|exact Hr]. unfold span. lia. }
  fold l in Heq, Hin, Hout. exists s'. rewrite Heq. split_and!.
  - do 2 f_equal. simpl. lia.
  - intros i Hi. destruct (decide (i = 0)) as [->|Hne].
    + rewrite Z.add_0_r, Hout.
      * rewrite ld8_st8_eq by (apply Hr; unfold span; lia). rewrite u8_small by lia. done.
      * intros y Hy. apply as_sep_st8, Hr; unfold span in *; lia.
    + replace (buf + i) with (buf + 1 + (i - 1)) by lia. simpl in Hi.
      rewrite Hin by lia. unfold agetZ, aget.
      rewrite (proj2 (in_range_true l _)) by lia.
      rewrite (proj2 (in_range_true (c :: l) _)) by (simpl; lia).
      by replace (Z.to_nat i) with (Datatypes.S (Z.to_nat (i - 1))) by lia.
  - intros x Hx. rewrite Hout.
    + apply ld8_st8_sep, Hx. unfold span. simpl. lia.
    + intros y Hy. apply as_sep_st8, Hx. unfold span in *. simpl. lia.
  - auto with ksafe.
  - auto with ksafe.
Qed.

(** The characters itoa leaves in the buffer. *)
Definition itoa_chars (value radix : Z) : list Z :=
  if value =? 0 then [48] else reverse (digits_lsb 32 value radix).

Lemma itoa_cstr value buf radix s :
  0 <= value < 2 ^ 32 -> 2 <= radix <= 36 -> 0 <= buf -> buf + 34 < 2 ^ 32 ->
  region s (span buf 33) ->
  exists s', itoa value buf radix s = Some s' /\ cstr s' buf (itoa_chars value radix) /\
    (forall x, (forall y, span buf 33 y -> as_sep s y x) -> ld8 s' x = ld8 s x).
Proof.
  intros Hv Hrx Hb Hb34 Hr. unfold itoa, itoa_chars.
  destruct (Z.eqb_spec value 0) as [->|Hv0].
  { eexists; split; [done|]. rewrite u32_small by lia. split.
    - apply cstr_intro; [by repeat constructor| |].
      + intros i Hi. simpl in Hi. replace i with 0 by lia. rewrite Z.add_0_r.
        rewrite ld8_st8_sep by (apply as_sep_st8, Hr; unfold span; lia).
        by rewrite ld8_st8_eq by (apply Hr; unfold span; lia).
      + simpl. by rewrite ld8_st8_eq by (apply as_ok_st8, Hr; unfold span; lia).
    - intros x Hx. rewrite !ld8_st8_sep; [done|apply Hx; unfold span; lia|].
      apply as_sep_st8, Hx. unfold span; lia. }
  destruct (digits_lsb_spec radix 32 value Hrx Hv) as (_ & Hch & Hlen & _).
  destruct (itoa_loop_spec radix 32 value buf s Hrx Hv Hb) as (s1 & -> & Hin & Hout & Hsp & Hok);
    [lia|eapply region_mono; [|exact Hr]; unfold span; lia|].
  set (l := digits_lsb 32 value radix) in *.
  set (s2 := st8 (buf + Z.of_nat (length l)) 0 s1).
  assert (Hr2 : region s2 (span buf (Z.of_nat (length l) + 1))).
  { apply region_st8. split; [intros; apply Hok, Hr|intros; apply Hsp, Hr];
      unfold span in *; lia. }
  assert (Hc : cstr s2 buf l).
  { apply cstr_intro.
    - eapply Forall_impl; [exact Hch|]. simpl. lia.
    - intros i Hi. unfold s2. rewrite ld8_st8_sep by (apply Hsp, Hr; unfold span; lia).
      by apply Hin.
    - unfold s2. rewrite ld8_st8_eq; [done|]. apply Hok, Hr. unfold span; lia. }
  destruct (strrev_cstr 33 s2 buf l) as (s3 & Heq & Hc3 & Hout3); auto; try lia.
  exists s3. split_and!; [done|done|]. intros x Hx. rewrite Hout3.
  - unfold s2. rewrite ld8_st8_sep by (apply Hsp, Hx; unfold span; lia).
    apply Hout. intros y Hy. apply Hx. unfold span in *; lia.
  - intros j Hj. apply as_sep_st8, Hsp, Hx. unfold span; lia.
Qed.

Lemma itoa_chars_spec value radix :
  0 <= value < 2 ^ 32 -> 2 <= radix <= 36 ->
  let l := itoa_chars value radix in
  parse_digits radix l = value /\ Forall (fun c => 48 <= c < 91) l /\ (0 < length l)%nat /\
  radix ^ (Z.of_nat (length l) - 1) <= Z.max 1 value /\ (0 < value -> head l <> Some 48).
Proof.
  intros Hv Hr. unfold itoa_chars. destruct (Z.eqb_spec value 0) as [->|Hv0].
  { simpl. split_and!; try lia; try done. by repeat constructor. }
  destruct (digits_lsb_spec radix 32 value Hr Hv) as (Hval & Hch & _ & Hp).
  destruct Hp as (Hpow & Hlen & Hlast); [lia|]. cbv zeta.
  rewrite parse_digits_reverse, length_reverse. split_and!; auto; try lia.
  - by apply Forall_reverse.
  - intros _. rewrite head_reverse. done.
Qed.

(** ** Correctness *)

(** C38: itoa terminates and leaves in the buffer, NUL-terminated, the
    representation of the value in the given base: reading the digits back
    gives the value, there is no leading zero except for zero itself, the
    length is the minimal one (so at most 32 characters), and no byte outside
    the first 33 of the buffer is touched. *)
Theorem itoa_correct value buf radix s :
  0 <= value < 2 ^ 32 -> 2 <= radix <= 36 -> 0 <= buf -> buf + 34 < 2 ^ 32 ->
  region s (span buf 33) ->
  exists s' l, itoa value buf radix s = Some s' /\ cstr s' buf l /\
    parse_digits radix l = value /\ (0 < length l)%nat /\
    radix ^ (Z.of_nat (length l) - 1) <= Z.max 1 value /\
    (0 < value -> head l <> Some 48) /\
    (forall x, (forall y, span buf 33 y -> as_sep s y x) -> ld8 s' x = ld8 s x).
Proof.
  intros Hv Hrx Hb Hb34 Hr.
  destruct (itoa_cstr value buf radix s Hv Hrx Hb Hb34 Hr) as (s' & Heq & Hc & Hout).
  destruct (itoa_chars_spec value radix Hv Hrx) as (Hp & _ & Hl & Hpow & Hh).
  exists s', (itoa_chars value radix). auto 10.
Qed.

(** strncmp of two C strings is the signed-character comparison of their
    first [n] characters: it is zero exactly when these prefixes are equal, and
    otherwise the difference at the first mismatch. *)
Theorem strncmp_correct s s1 s2 n l1 l2 :
  cstr s s1 l1 -> cstr s s2 l2 -> 0 <= s1 -> 0 <= s2 -> 0 <= n ->
  s1 + n < 2 ^ 32 -> s2 + n < 2 ^ 32 ->
  strncmp s1 s2 n s = strncmp_ref (Z.to_nat n) l1 l2 /\
  (strncmp s1 s2 n s = 0 <-> take (Z.to_nat n) l1 = take (Z.to_nat n) l2).
Proof.
  intros Hc1 Hc2 H1 H2 Hn Hb1 Hb2.
  assert (E : strncmp s1 s2 n s = strncmp_ref (Z.to_nat n) l1 l2).
  { unfold strncmp. apply strncmp_loop_ref; rewrite ?Z.add_0_r; auto; lia. }
  split; [done|]. rewrite E. apply strncmp_ref_zero; [apply Hc1|apply Hc2].
Qed.

(** strncpy writes exactly [n] bytes: the first [min n (strlen src)]
    characters of the source and then NULs up to [n]; bytes outside are
    unchanged. *)
Theorem strncpy_correct dest src n l s :
  cstr s src l -> 0 <= dest -> dest + n < 2 ^ 32 -> 0 <= src -> src + n < 2 ^ 32 -> 0 <= n ->
  dest + n <= src \/ src + n <= dest ->
  region s (fun a => span src n a \/ span dest n a) ->
  (forall i, 0 <= i < n -> ld8 (strncpy dest src n s) (dest + i) = agetZ l i) /\
  (forall x, (forall y, span dest n y -> as_sep s y x) ->
     ld8 (strncpy dest src n s) x = ld8 s x).
Proof.
  intros Hc Hd Hdn Hs Hsn Hn Hdis Hr. unfold strncpy.
  destruct (strncpy_copy_spec dest src n (Z.of_nat (length l)) (Z.to_nat n) 0 s)
    as (s1 & -> & Hin & Hout & Hreg & Hsp); auto; try lia.
  { intros j Hj E. destruct (cstr_char s src l j Hc); lia. }
  { intros _. by apply cstr_nul. }
  set (m := Z.min n (Z.of_nat (length l))) in *.
  assert (Hr1 : region s1 (span dest n)).
  { apply Hreg. eapply region_mono; [|exact Hr]. intros a Ha. by right. }
  destruct (strncpy_pad dest n s1 m Hd Hdn ltac:(lia) Hr1) as [Pin Pout].
  split.
  - intros i Hi. destruct (decide (i < m)) as [Hlt|Hge].
    + rewrite Pout by (intros j Hj; apply Hr1; unfold span; lia).
      rewrite Hin by lia. apply (cstr_char s src l i Hc). lia.
    + rewrite Pin by lia. unfold agetZ. rewrite (proj2 (aget_None l i)); [done|lia].
  - intros x Hx. rewrite Pout.
    + apply Hout. intros j Hj. apply Hx. unfold span; lia.
    + intros j Hj. apply Hsp, Hx. unfold span; lia.
Qed.

End StringLemmas.

(** ** Witnesses on a flat memory *)

Definition demo_str : gmap Z Z := list_to_map (zip (seqZ 200 8) [115; 104; 101; 108; 108; 0; 115; 0]).

Lemma demo_cstr_shell : cstr demo_str 200 [115; 104; 101; 108; 108].
Proof.
  apply cstr_intro; [repeat constructor; lia| |reflexivity].
  intros i Hi. simpl in Hi.
  assert (i = 0 \/ i = 1 \/ i = 2 \/ i = 3 \/ i = 4) as [->|[->|[->|[->| ->]]]] by lia;
    reflexivity.
Qed.

Lemma demo_cstr_s : cstr demo_str 206 [115].
Proof.
  apply cstr_intro; [repeat constructor; lia| |reflexivity].
  intros i Hi. simpl in Hi. replace i with 0 by lia. reflexivity.
Qed.

Lemma itoa_correct_witness :
  exists s' l, itoa 4026531854 100 16 demo_str = Some s' /\ cstr s' 100 l /\
    parse_digits 16 l = 4026531854.
Proof.
  destruct (itoa_correct 4026531854 100 16 demo_str) as (s' & l & H1 & H2 & H3 & _);
    try lia; [apply region_flat|]. exists s', l. auto.
Defined.

Lemma strncmp_correct_witness :
  strncmp 200 206 1 demo_str = 0 <-> take 1 [115; 104; 101; 108; 108] = take 1 [115].
Proof.
  apply (strncmp_correct demo_str 200 206 1); auto using demo_cstr_shell, demo_cstr_s; lia.
Defined.

Lemma strncpy_correct_witness : ld8 (strncpy 300 200 8 demo_str) (300 + 6) = 0.
Proof.
  rewrite (proj1 (strncpy_correct 300 200 8 _ demo_str demo_cstr_shell
    ltac:(lia) ltac:(lia) ltac:(lia) ltac:(lia) ltac:(lia) ltac:(lia) (region_flat _ _))) by lia.
  reflexivity.
Defined.
