(* ===== verification/State.v ===== *)
(** * The kernel's state

    One record per source file's globals, collected in [kernel].  Field names
    are the C names; a prefix is added only where two C scopes use the same
    name ([t_] for struct terminal_t, [pcb_] for struct PCB_struct, [d_] for
    dentry_t).  Arrays are lists of their C length.

    Two things have no C counterpart.  [k_io] is the machine's port space: the
    log of port accesses, newest first, and the devices, a function from the
    log and a port to the byte read.  [k_faults] is a ghost log: a store
    outside [terminals], [PCB_array] or a descriptor table, a store to an
    unmapped page and a call through a null table are recorded there and
    otherwise have no effect in the model; a load outside an array or from an
    unmapped page gives zero. *)

From Stdlib Require Import ZArith Lia.
From stdpp Require Import base numbers list gmap.
From S2P Require Import Prelude Memory.

Open Scope Z_scope.

(** ** Ports and faults *)

Inductive io_event :=
  | Out (data port : Z)
  | In (port val : Z).

Record io := mkIo {
  io_log : list io_event;
  io_dev : list io_event -> Z -> Z;
}.

Inductive fault :=
  | PageFault (addr : Z)
  | OobTerminals (i : Z)
  | OobPCB (i : Z)
  | OobFd (i : Z)
  | OobArray (i : Z)
  | NullFop
  | Hang.

(** The four file-operation tables of pcb.c. *)
Inductive fop := rtc_struct | dir_struct | file_struct | terminal_struct.

#[export] Instance fop_eq_dec : EqDecision fop.
Proof. solve_decision. Defined.

#[export] Instance io_event_eq_dec : EqDecision io_event.
Proof. solve_decision. Defined.

#[export] Instance fault_eq_dec : EqDecision fault.
Proof. solve_decision. Defined.

(** ** Structures *)

(** The fields of the task state segment the kernel writes (x86_desc.h). *)
Record tss_t := mkTss {
  tss_esp0 : Z;
  tss_ss0 : Z;
  tss_ldt : Z;
}.

(** A directory entry (filesys.h). *)
Record dentry_t := mkDentry {
  d_name : list Z;
  d_fileType : Z;
  d_inodeNum : Z;
}.

(** An entry of a file-descriptor table (pcb.h). *)
Record fd_table_entry_t := mkFd {
  present : Z;
  file_pos : Z;
  inode_number : Z;
  jump_start_idx : option fop;
  fd_fileType : Z;
}.

(** A process control block (pcb.h). *)
Record PCB_struct := mkPCB {
  fd_table : list fd_table_entry_t;
  pcb_in_use : Z;
  pcb_esp : Z;
  pcb_ebp : Z;
  task_esp : Z;
  task_ebp : Z;
  pcb_esp0 : Z;
  pcb_ss0 : Z;
  return_label_add : Z;
  parent_pid : Z;
  pcb_args : list Z;
}.

(** A terminal (schedule.h). *)
Record terminal_t := mkTerminal {
  shell_pid : Z;
  video_buffer : Z;
  screen_start : Z;
  t_buf_kb : list Z;
  save_tss : tss_t;
  t_screen_x : Z;
  t_screen_y : Z;
  t_curr_idx : Z;
  t_num_chars : Z;
  t_save_x : Z;
  t_save_y : Z;
  t_prev_num_chars : Z;
  prev_buf : list Z;
  curr_process : Z;
  enter_flag : Z;
}.

(** ** Globals, one record per source file *)

(** The text console: lib.c's [screen_x] and [screen_y]. *)
Record console := mkConsole {
  screen_x : Z;
  screen_y : Z;
}.

(** The interrupt masks i8259.c keeps. *)
Record pic := mkPic {
  master_mask : Z;
  slave_mask : Z;
}.

(** The paging structures of paging.c.  The addresses of the two page tables are
    fixed by the linker; [paging_on] is CR0.PG. *)
Record paging := mkPaging {
  page_directory : list Z;
  page_table : list Z;
  user_video_page_table : list Z;
  page_table_addr : Z;
  uvpt_addr : Z;
  paging_on : bool;
}.

(** The file-system globals of filesys.c; the image itself is in memory. *)
Record filesys := mkFilesys {
  start_addr : Z;
  numdentries : Z;
  numinodes : Z;
  numblocks : Z;
  startdentry : Z;
  curfile : Z;
  currDentry : dentry_t;
}.

(** schedule.c: the terminals, the displayed one, the scheduled one and the PIT counters. *)
Record sched := mkSched {
  terminals : list terminal_t;
  visible : Z;
  cur_terminal : Z;
  pitCount : Z;
  pitIntrCount : Z;
}.

(** keyboard.c: the line being typed, the history line and the modifier flags. *)
Record keyboard := mkKeyboard {
  num_chars : Z;
  curr_idx : Z;
  save_x : Z;
  save_y : Z;
  previous_buf : list Z;
  previous_num_chars : Z;
  flag_arr : list Z;
  buf_kb : list Z;
}.

(** rtc.c: the programmed rate and the flag rtc_read spins on. *)
Record rtc := mkRtc {
  rate : Z;
  waiting : Z;
}.

(** The globals of syscall.c, execute.c, halt.h and terminal.h, and the task state segment. *)
Record sysglob := mkSys {
  currPid : Z;
  currFD : Z;
  ret_val : Z;
  firstInstruct : Z;
  storeargs : list Z;
  tss : tss_t;
}.

(** Registers the C code reads through inline assembly, the interrupt flag, the
    address of execute's [ret_label] (fixed by the linker) and the offset of its
    local [buf] from its stack pointer (fixed by the compiler). *)
Record cpu := mkCpu {
  cpu_esp : Z;
  cpu_ebp : Z;
  intr_on : bool;
  ret_label : Z;
  hdr_off : Z;
}.

(** The whole state: physical memory, ports, faults, [PCB_array] and the globals. *)
Record kernel := mkKernel {
  k_mem : gmap Z Z;
  k_io : io;
  k_faults : list fault;
  k_pcbs : list PCB_struct;
  k_con : console;
  k_pic : pic;
  k_pg : paging;
  k_fs : filesys;
  k_sch : sched;
  k_kb : keyboard;
  k_rtcs : rtc;
  k_sys : sysglob;
  k_cpus : cpu;
}.

(** A C global reads as a projection applied to the whole state. *)

Coercion k_io : kernel >-> io.
Coercion k_con : kernel >-> console.
Coercion k_pic : kernel >-> pic.
Coercion k_pg : kernel >-> paging.
Coercion k_fs : kernel >-> filesys.
Coercion k_sch : kernel >-> sched.
Coercion k_kb : kernel >-> keyboard.
Coercion k_rtcs : kernel >-> rtc.
Coercion k_sys : kernel >-> sysglob.
Coercion k_cpus : kernel >-> cpu.

(** ** Field updates *)

Definition with_tss_esp0 (x : Z) (r : tss_t) : tss_t :=
  mkTss x (tss_ss0 r) (tss_ldt r).
Definition with_tss_ss0 (x : Z) (r : tss_t) : tss_t :=
  mkTss (tss_esp0 r) x (tss_ldt r).
Definition with_tss_ldt (x : Z) (r : tss_t) : tss_t :=
  mkTss (tss_esp0 r) (tss_ss0 r) x.

Definition with_d_name (x : list Z) (r : dentry_t) : dentry_t :=
  mkDentry x (d_fileType r) (d_inodeNum r).
Definition with_d_fileType (x : Z) (r : dentry_t) : dentry_t :=
  mkDentry (d_name r) x (d_inodeNum r).
Definition with_d_inodeNum (x : Z) (r : dentry_t) : dentry_t :=
  mkDentry (d_name r) (d_fileType r) x.

Definition with_present (x : Z) (r : fd_table_entry_t) : fd_table_entry_t :=
  mkFd x (file_pos r) (inode_number r) (jump_start_idx r) (fd_fileType r).
Definition with_file_pos (x : Z) (r : fd_table_entry_t) : fd_table_entry_t :=
  mkFd (present r) x (inode_number r) (jump_start_idx r) (fd_fileType r).
Definition with_inode_number (x : Z) (r : fd_table_entry_t) : fd_table_entry_t :=
  mkFd (present r) (file_pos r) x (jump_start_idx r) (fd_fileType r).
Definition with_jump_start_idx (x : option fop) (r : fd_table_entry_t) : fd_table_entry_t :=
  mkFd (present r) (file_pos r) (inode_number r) x (fd_fileType r).
Definition with_fd_fileType (x : Z) (r : fd_table_entry_t) : fd_table_entry_t :=
  mkFd (present r) (file_pos r) (inode_number r) (jump_start_idx r) x.

Definition with_fd_table (x : list fd_table_entry_t) (r : PCB_struct) : PCB_struct :=
  mkPCB x (pcb_in_use r) (pcb_esp r) (pcb_ebp r) (task_esp r) (task_ebp r) (pcb_esp0 r) (pcb_ss0
    r) (return_label_add r) (parent_pid r) (pcb_args r).
Definition with_pcb_in_use (x : Z) (r : PCB_struct) : PCB_struct :=
  mkPCB (fd_table r) x (pcb_esp r) (pcb_ebp r) (task_esp r) (task_ebp r) (pcb_esp0 r) (pcb_ss0 r)
    (return_label_add r) (parent_pid r) (pcb_args r).
Definition with_pcb_esp (x : Z) (r : PCB_struct) : PCB_struct :=
  mkPCB (fd_table r) (pcb_in_use r) x (pcb_ebp r) (task_esp r) (task_ebp r) (pcb_esp0 r) (pcb_ss0
    r) (return_label_add r) (parent_pid r) (pcb_args r).
Definition with_pcb_ebp (x : Z) (r : PCB_struct) : PCB_struct :=
  mkPCB (fd_table r) (pcb_in_use r) (pcb_esp r) x (task_esp r) (task_ebp r) (pcb_esp0 r) (pcb_ss0
    r) (return_label_add r) (parent_pid r) (pcb_args r).
Definition with_task_esp (x : Z) (r : PCB_struct) : PCB_struct :=
  mkPCB (fd_table r) (pcb_in_use r) (pcb_esp r) (pcb_ebp r) x (task_ebp r) (pcb_esp0 r) (pcb_ss0
    r) (return_label_add r) (parent_pid r) (pcb_args r).
Definition with_task_ebp (x : Z) (r : PCB_struct) : PCB_struct :=
  mkPCB (fd_table r) (pcb_in_use r) (pcb_esp r) (pcb_ebp r) (task_esp r) x (pcb_esp0 r) (pcb_ss0
    r) (return_label_add r) (parent_pid r) (pcb_args r).
Definition with_pcb_esp0 (x : Z) (r : PCB_struct) : PCB_struct :=
  mkPCB (fd_table r) (pcb_in_use r) (pcb_esp r) (pcb_ebp r) (task_esp r) (task_ebp r) x (pcb_ss0
    r) (return_label_add r) (parent_pid r) (pcb_args r).
Definition with_pcb_ss0 (x : Z) (r : PCB_struct) : PCB_struct :=
  mkPCB (fd_table r) (pcb_in_use r) (pcb_esp r) (pcb_ebp r) (task_esp r) (task_ebp r) (pcb_esp0
    r) x (return_label_add r) (parent_pid r) (pcb_args r).
Definition with_return_label_add (x : Z) (r : PCB_struct) : PCB_struct :=
  mkPCB (fd_table r) (pcb_in_use r) (pcb_esp r) (pcb_ebp r) (task_esp r) (task_ebp r) (pcb_esp0
    r) (pcb_ss0 r) x (parent_pid r) (pcb_args r).
Definition with_parent_pid (x : Z) (r : PCB_struct) : PCB_struct :=
  mkPCB (fd_table r) (pcb_in_use r) (pcb_esp r) (pcb_ebp r) (task_esp r) (task_ebp r) (pcb_esp0
    r) (pcb_ss0 r) (return_label_add r) x (pcb_args r).
Definition with_pcb_args (x : list Z) (r : PCB_struct) : PCB_struct :=
  mkPCB (fd_table r) (pcb_in_use r) (pcb_esp r) (pcb_ebp r) (task_esp r) (task_ebp r) (pcb_esp0
    r) (pcb_ss0 r) (return_label_add r) (parent_pid r) x.

Definition with_shell_pid (x : Z) (r : terminal_t) : terminal_t :=
  mkTerminal x (video_buffer r) (screen_start r) (t_buf_kb r) (save_tss r) (t_screen_x r)
    (t_screen_y r) (t_curr_idx r) (t_num_chars r) (t_save_x r) (t_save_y r) (t_prev_num_chars
    r) (prev_buf r) (curr_process r) (enter_flag r).
Definition with_video_buffer (x : Z) (r : terminal_t) : terminal_t :=
  mkTerminal (shell_pid r) x (screen_start r) (t_buf_kb r) (save_tss r) (t_screen_x r)
    (t_screen_y r) (t_curr_idx r) (t_num_chars r) (t_save_x r) (t_save_y r) (t_prev_num_chars
    r) (prev_buf r) (curr_process r) (enter_flag r).
Definition with_screen_start (x : Z) (r : terminal_t) : terminal_t :=
  mkTerminal (shell_pid r) (video_buffer r) x (t_buf_kb r) (save_tss r) (t_screen_x r)
    (t_screen_y r) (t_curr_idx r) (t_num_chars r) (t_save_x r) (t_save_y r) (t_prev_num_chars
    r) (prev_buf r) (curr_process r) (enter_flag r).
Definition with_t_buf_kb (x : list Z) (r : terminal_t) : terminal_t :=
  mkTerminal (shell_pid r) (video_buffer r) (screen_start r) x (save_tss r) (t_screen_x r)
    (t_screen_y r) (t_curr_idx r) (t_num_chars r) (t_save_x r) (t_save_y r) (t_prev_num_chars
    r) (prev_buf r) (curr_process r) (enter_flag r).
Definition with_save_tss (x : tss_t) (r : terminal_t) : terminal_t :=
  mkTerminal (shell_pid r) (video_buffer r) (screen_start r) (t_buf_kb r) x (t_screen_x r)
    (t_screen_y r) (t_curr_idx r) (t_num_chars r) (t_save_x r) (t_save_y r) (t_prev_num_chars
    r) (prev_buf r) (curr_process r) (enter_flag r).
Definition with_t_screen_x (x : Z) (r : terminal_t) : terminal_t :=
  mkTerminal (shell_pid r) (video_buffer r) (screen_start r) (t_buf_kb r) (save_tss r) x
    (t_screen_y r) (t_curr_idx r) (t_num_chars r) (t_save_x r) (t_save_y r) (t_prev_num_chars
    r) (prev_buf r) (curr_process r) (enter_flag r).
Definition with_t_screen_y (x : Z) (r : terminal_t) : terminal_t :=
  mkTerminal (shell_pid r) (video_buffer r) (screen_start r) (t_buf_kb r) (save_tss r)
    (t_screen_x r) x (t_curr_idx r) (t_num_chars r) (t_save_x r) (t_save_y r) (t_prev_num_chars
    r) (prev_buf r) (curr_process r) (enter_flag r).
Definition with_t_curr_idx (x : Z) (r : terminal_t) : terminal_t :=
  mkTerminal (shell_pid r) (video_buffer r) (screen_start r) (t_buf_kb r) (save_tss r)
    (t_screen_x r) (t_screen_y r) x (t_num_chars r) (t_save_x r) (t_save_y r) (t_prev_num_chars
    r) (prev_buf r) (curr_process r) (enter_flag r).
Definition with_t_num_chars (x : Z) (r : terminal_t) : terminal_t :=
  mkTerminal (shell_pid r) (video_buffer r) (screen_start r) (t_buf_kb r) (save_tss r)
    (t_screen_x r) (t_screen_y r) (t_curr_idx r) x (t_save_x r) (t_save_y r) (t_prev_num_chars
    r) (prev_buf r) (curr_process r) (enter_flag r).
Definition with_t_save_x (x : Z) (r : terminal_t) : terminal_t :=
  mkTerminal (shell_pid r) (video_buffer r) (screen_start r) (t_buf_kb r) (save_tss r)
    (t_screen_x r) (t_screen_y r) (t_curr_idx r) (t_num_chars r) x (t_save_y r)
    (t_prev_num_chars r) (prev_buf r) (curr_process r) (enter_flag r).
Definition with_t_save_y (x : Z) (r : terminal_t) : terminal_t :=
  mkTerminal (shell_pid r) (video_buffer r) (screen_start r) (t_buf_kb r) (save_tss r)
    (t_screen_x r) (t_screen_y r) (t_curr_idx r) (t_num_chars r) (t_save_x r) x
    (t_prev_num_chars r) (prev_buf r) (curr_process r) (enter_flag r).
Definition with_t_prev_num_chars (x : Z) (r : terminal_t) : terminal_t :=
  mkTerminal (shell_pid r) (video_buffer r) (screen_start r) (t_buf_kb r) (save_tss r)
    (t_screen_x r) (t_screen_y r) (t_curr_idx r) (t_num_chars r) (t_save_x r) (t_save_y r) x
    (prev_buf r) (curr_process r) (enter_flag r).
Definition with_prev_buf (x : list Z) (r : terminal_t) : terminal_t :=
  mkTerminal (shell_pid r) (video_buffer r) (screen_start r) (t_buf_kb r) (save_tss r)
    (t_screen_x r) (t_screen_y r) (t_curr_idx r) (t_num_chars r) (t_save_x r) (t_save_y r)
    (t_prev_num_chars r) x (curr_process r) (enter_flag r).
Definition with_curr_process (x : Z) (r : terminal_t) : terminal_t :=
  mkTerminal (shell_pid r) (video_buffer r) (screen_start r) (t_buf_kb r) (save_tss r)
    (t_screen_x r) (t_screen_y r) (t_curr_idx r) (t_num_chars r) (t_save_x r) (t_save_y r)
    (t_prev_num_chars r) (prev_buf r) x (enter_flag r).
Definition with_enter_flag (x : Z) (r : terminal_t) : terminal_t :=
  mkTerminal (shell_pid r) (video_buffer r) (screen_start r) (t_buf_kb r) (save_tss r)
    (t_screen_x r) (t_screen_y r) (t_curr_idx r) (t_num_chars r) (t_save_x r) (t_save_y r)
    (t_prev_num_chars r) (prev_buf r) (curr_process r) x.

Definition with_k_mem (x : gmap Z Z) (k : kernel) : kernel :=
  mkKernel x (k_io k) (k_faults k) (k_pcbs k) (k_con k) (k_pic k) (k_pg k) (k_fs k) (k_sch k)
    (k_kb k) (k_rtcs k) (k_sys k) (k_cpus k).
Definition with_k_io (x : io) (k : kernel) : kernel :=
  mkKernel (k_mem k) x (k_faults k) (k_pcbs k) (k_con k) (k_pic k) (k_pg k) (k_fs k) (k_sch k)
    (k_kb k) (k_rtcs k) (k_sys k) (k_cpus k).
Definition with_k_faults (x : list fault) (k : kernel) : kernel :=
  mkKernel (k_mem k) (k_io k) x (k_pcbs k) (k_con k) (k_pic k) (k_pg k) (k_fs k) (k_sch k) (k_kb
    k) (k_rtcs k) (k_sys k) (k_cpus k).
Definition with_k_pcbs (x : list PCB_struct) (k : kernel) : kernel :=
  mkKernel (k_mem k) (k_io k) (k_faults k) x (k_con k) (k_pic k) (k_pg k) (k_fs k) (k_sch k)
    (k_kb k) (k_rtcs k) (k_sys k) (k_cpus k).
Definition with_k_con (x : console) (k : kernel) : kernel :=
  mkKernel (k_mem k) (k_io k) (k_faults k) (k_pcbs k) x (k_pic k) (k_pg k) (k_fs k) (k_sch k)
    (k_kb k) (k_rtcs k) (k_sys k) (k_cpus k).
Definition with_k_pic (x : pic) (k : kernel) : kernel :=
  mkKernel (k_mem k) (k_io k) (k_faults k) (k_pcbs k) (k_con k) x (k_pg k) (k_fs k) (k_sch k)
    (k_kb k) (k_rtcs k) (k_sys k) (k_cpus k).
Definition with_k_pg (x : paging) (k : kernel) : kernel :=
  mkKernel (k_mem k) (k_io k) (k_faults k) (k_pcbs k) (k_con k) (k_pic k) x (k_fs k) (k_sch k)
    (k_kb k) (k_rtcs k) (k_sys k) (k_cpus k).
Definition with_k_fs (x : filesys) (k : kernel) : kernel :=
  mkKernel (k_mem k) (k_io k) (k_faults k) (k_pcbs k) (k_con k) (k_pic k) (k_pg k) x (k_sch k)
    (k_kb k) (k_rtcs k) (k_sys k) (k_cpus k).
Definition with_k_sch (x : sched) (k : kernel) : kernel :=
  mkKernel (k_mem k) (k_io k) (k_faults k) (k_pcbs k) (k_con k) (k_pic k) (k_pg k) (k_fs k) x
    (k_kb k) (k_rtcs k) (k_sys k) (k_cpus k).
Definition with_k_kb (x : keyboard) (k : kernel) : kernel :=
  mkKernel (k_mem k) (k_io k) (k_faults k) (k_pcbs k) (k_con k) (k_pic k) (k_pg k) (k_fs k)
    (k_sch k) x (k_rtcs k) (k_sys k) (k_cpus k).
Definition with_k_rtcs (x : rtc) (k : kernel) : kernel :=
  mkKernel (k_mem k) (k_io k) (k_faults k) (k_pcbs k) (k_con k) (k_pic k) (k_pg k) (k_fs k)
    (k_sch k) (k_kb k) x (k_sys k) (k_cpus k).
Definition with_k_sys (x : sysglob) (k : kernel) : kernel :=
  mkKernel (k_mem k) (k_io k) (k_faults k) (k_pcbs k) (k_con k) (k_pic k) (k_pg k) (k_fs k)
    (k_sch k) (k_kb k) (k_rtcs k) x (k_cpus k).
Definition with_k_cpus (x : cpu) (k : kernel) : kernel :=
  mkKernel (k_mem k) (k_io k) (k_faults k) (k_pcbs k) (k_con k) (k_pic k) (k_pg k) (k_fs k)
    (k_sch k) (k_kb k) (k_rtcs k) (k_sys k) x.

(** Updates of a global variable of the kernel. *)

Definition set_screen_x (x : Z) (k : kernel) : kernel :=
  with_k_con (mkConsole x (screen_y k)) k.
Definition set_screen_y (x : Z) (k : kernel) : kernel :=
  with_k_con (mkConsole (screen_x k) x) k.

Definition set_master_mask (x : Z) (k : kernel) : kernel :=
  with_k_pic (mkPic x (slave_mask k)) k.
Definition set_slave_mask (x : Z) (k : kernel) : kernel :=
  with_k_pic (mkPic (master_mask k) x) k.

Definition set_page_directory (x : list Z) (k : kernel) : kernel :=
  with_k_pg (mkPaging x (page_table k) (user_video_page_table k) (page_table_addr k) (uvpt_addr
    k) (paging_on k)) k.
Definition set_page_table (x : list Z) (k : kernel) : kernel :=
  with_k_pg (mkPaging (page_directory k) x (user_video_page_table k) (page_table_addr k)
    (uvpt_addr k) (paging_on k)) k.
Definition set_user_video_page_table (x : list Z) (k : kernel) : kernel :=
  with_k_pg (mkPaging (page_directory k) (page_table k) x (page_table_addr k) (uvpt_addr k)
    (paging_on k)) k.
Definition set_page_table_addr (x : Z) (k : kernel) : kernel :=
  with_k_pg (mkPaging (page_directory k) (page_table k) (user_video_page_table k) x (uvpt_addr k)
    (paging_on k)) k.
Definition set_uvpt_addr (x : Z) (k : kernel) : kernel :=
  with_k_pg (mkPaging (page_directory k) (page_table k) (user_video_page_table k)
    (page_table_addr k) x (paging_on k)) k.
Definition set_paging_on (x : bool) (k : kernel) : kernel :=
  with_k_pg (mkPaging (page_directory k) (page_table k) (user_video_page_table k)
    (page_table_addr k) (uvpt_addr k) x) k.

Definition set_start_addr (x : Z) (k : kernel) : kernel :=
  with_k_fs (mkFilesys x (numdentries k) (numinodes k) (numblocks k) (startdentry k) (curfile k)
    (currDentry k)) k.
Definition set_numdentries (x : Z) (k : kernel) : kernel :=
  with_k_fs (mkFilesys (start_addr k) x (numinodes k) (numblocks k) (startdentry k) (curfile k)
    (currDentry k)) k.
Definition set_numinodes (x : Z) (k : kernel) : kernel :=
  with_k_fs (mkFilesys (start_addr k) (numdentries k) x (numblocks k) (startdentry k) (curfile k)
    (currDentry k)) k.
Definition set_numblocks (x : Z) (k : kernel) : kernel :=
  with_k_fs (mkFilesys (start_addr k) (numdentries k) (numinodes k) x (startdentry k) (curfile k)
    (currDentry k)) k.
Definition set_startdentry (x : Z) (k : kernel) : kernel :=
  with_k_fs (mkFilesys (start_addr k) (numdentries k) (numinodes k) (numblocks k) x (curfile k)
    (currDentry k)) k.
Definition set_curfile (x : Z) (k : kernel) : kernel :=
  with_k_fs (mkFilesys (start_addr k) (numdentries k) (numinodes k) (numblocks k) (startdentry k)
    x (currDentry k)) k.
Definition set_currDentry (x : dentry_t) (k : kernel) : kernel :=
  with_k_fs (mkFilesys (start_addr k) (numdentries k) (numinodes k) (numblocks k) (startdentry k)
    (curfile k) x) k.

Definition set_terminals (x : list terminal_t) (k : kernel) : kernel :=
  with_k_sch (mkSched x (visible k) (cur_terminal k) (pitCount k) (pitIntrCount k)) k.
Definition set_visible (x : Z) (k : kernel) : kernel :=
  with_k_sch (mkSched (terminals k) x (cur_terminal k) (pitCount k) (pitIntrCount k)) k.
Definition set_cur_terminal (x : Z) (k : kernel) : kernel :=
  with_k_sch (mkSched (terminals k) (visible k) x (pitCount k) (pitIntrCount k)) k.
Definition set_pitCount (x : Z) (k : kernel) : kernel :=
  with_k_sch (mkSched (terminals k) (visible k) (cur_terminal k) x (pitIntrCount k)) k.
Definition set_pitIntrCount (x : Z) (k : kernel) : kernel :=
  with_k_sch (mkSched (terminals k) (visible k) (cur_terminal k) (pitCount k) x) k.

Definition set_num_chars (x : Z) (k : kernel) : kernel :=
  with_k_kb (mkKeyboard x (curr_idx k) (save_x k) (save_y k) (previous_buf k) (previous_num_chars
    k) (flag_arr k) (buf_kb k)) k.
Definition set_curr_idx (x : Z) (k : kernel) : kernel :=
  with_k_kb (mkKeyboard (num_chars k) x (save_x k) (save_y k) (previous_buf k)
    (previous_num_chars k) (flag_arr k) (buf_kb k)) k.
Definition set_save_x (x : Z) (k : kernel) : kernel :=
  with_k_kb (mkKeyboard (num_chars k) (curr_idx k) x (save_y k) (previous_buf k)
    (previous_num_chars k) (flag_arr k) (buf_kb k)) k.
Definition set_save_y (x : Z) (k : kernel) : kernel :=
  with_k_kb (mkKeyboard (num_chars k) (curr_idx k) (save_x k) x (previous_buf k)
    (previous_num_chars k) (flag_arr k) (buf_kb k)) k.
Definition set_previous_buf (x : list Z) (k : kernel) : kernel :=
  with_k_kb (mkKeyboard (num_chars k) (curr_idx k) (save_x k) (save_y k) x (previous_num_chars k)
    (flag_arr k) (buf_kb k)) k.
Definition set_previous_num_chars (x : Z) (k : kernel) : kernel :=
  with_k_kb (mkKeyboard (num_chars k) (curr_idx k) (save_x k) (save_y k) (previous_buf k) x
    (flag_arr k) (buf_kb k)) k.
Definition set_flag_arr (x : list Z) (k : kernel) : kernel :=
  with_k_kb (mkKeyboard (num_chars k) (curr_idx k) (save_x k) (save_y k) (previous_buf k)
    (previous_num_chars k) x (buf_kb k)) k.
Definition set_buf_kb (x : list Z) (k : kernel) : kernel :=
  with_k_kb (mkKeyboard (num_chars k) (curr_idx k) (save_x k) (save_y k) (previous_buf k)
    (previous_num_chars k) (flag_arr k) x) k.

Definition set_rate (x : Z) (k : kernel) : kernel :=
  with_k_rtcs (mkRtc x (waiting k)) k.
Definition set_waiting (x : Z) (k : kernel) : kernel :=
  with_k_rtcs (mkRtc (rate k) x) k.

Definition set_currPid (x : Z) (k : kernel) : kernel :=
  with_k_sys (mkSys x (currFD k) (ret_val k) (firstInstruct k) (storeargs k) (tss k)) k.
Definition set_currFD (x : Z) (k : kernel) : kernel :=
  with_k_sys (mkSys (currPid k) x (ret_val k) (firstInstruct k) (storeargs k) (tss k)) k.
Definition set_ret_val (x : Z) (k : kernel) : kernel :=
  with_k_sys (mkSys (currPid k) (currFD k) x (firstInstruct k) (storeargs k) (tss k)) k.
Definition set_firstInstruct (x : Z) (k : kernel) : kernel :=
  with_k_sys (mkSys (currPid k) (currFD k) (ret_val k) x (storeargs k) (tss k)) k.
Definition set_storeargs (x : list Z) (k : kernel) : kernel :=
  with_k_sys (mkSys (currPid k) (currFD k) (ret_val k) (firstInstruct k) x (tss k)) k.
Definition set_tss (x : tss_t) (k : kernel) : kernel :=
  with_k_sys (mkSys (currPid k) (currFD k) (ret_val k) (firstInstruct k) (storeargs k) x) k.

Definition set_cpu_esp (x : Z) (k : kernel) : kernel :=
  with_k_cpus (mkCpu x (cpu_ebp k) (intr_on k) (ret_label k) (hdr_off k)) k.
Definition set_cpu_ebp (x : Z) (k : kernel) : kernel :=
  with_k_cpus (mkCpu (cpu_esp k) x (intr_on k) (ret_label k) (hdr_off k)) k.
Definition set_intr_on (x : bool) (k : kernel) : kernel :=
  with_k_cpus (mkCpu (cpu_esp k) (cpu_ebp k) x (ret_label k) (hdr_off k)) k.
Definition set_ret_label (x : Z) (k : kernel) : kernel :=
  with_k_cpus (mkCpu (cpu_esp k) (cpu_ebp k) (intr_on k) x (hdr_off k)) k.
Definition set_hdr_off (x : Z) (k : kernel) : kernel :=
  with_k_cpus (mkCpu (cpu_esp k) (cpu_ebp k) (intr_on k) (ret_label k) x) k.

