(* ===== verification/Machine.v ===== *)
(** * The machine under the kernel

    Port input and output (lib.h), guarded array accesses, the page walk of
    the MMU on the kernel's paging structures, and the kernel-mode virtual
    address space as an instance of [AddrSpace], so that the routines of lib.c
    run on it. *)

From Stdlib Require Import ZArith Lia.
From stdpp Require Import base numbers list gmap.
From S2P Require Import Prelude Memory State.

Open Scope Z_scope.
Implicit Types k : kernel.

(** ** Ports (lib.h) *)

Definition outb (data port : Z) (k : kernel) : kernel :=
  with_k_io (mkIo (Out (u8 data) port :: io_log k) (io_dev k)) k.

(** The byte read, zero-extended to 32 bits. *)
Definition inb (port : Z) (k : kernel) : Z * kernel :=
  let v := u8 (io_dev k (io_log k) port) in
  (v, with_k_io (mkIo (In port v :: io_log k) (io_dev k)) k).

Definition cli (k : kernel) : kernel := set_intr_on false k.
Definition sti (k : kernel) : kernel := set_intr_on true k.

(** ** Faults *)

Definition log_fault (f : fault) (k : kernel) : kernel := with_k_faults (f :: k_faults k) k.

(** ** Guarded accesses to [terminals] and [PCB_array] *)

Definition default_tss : tss_t := mkTss 0 0 0.

Definition default_terminal : terminal_t :=
  mkTerminal 0 0 0 (replicate 128 0) default_tss 0 0 0 0 0 0 0 (replicate 128 0) 0 0.

Definition default_fd : fd_table_entry_t := mkFd 0 0 0 None 0.

Definition default_PCB : PCB_struct :=
  mkPCB (replicate 8 default_fd) 0 0 0 0 0 0 0 0 0 (replicate 1024 0).

(** [terminals[i]] read; outside the array the value is unspecified and is
    taken to be the zeroed one. *)
Definition get_terminal (k : kernel) (i : Z) : terminal_t :=
  default default_terminal (aget (terminals k) i).

Definition upd_terminal (i : Z) (f : terminal_t -> terminal_t) (k : kernel) : kernel :=
  match aget (terminals k) i with
  | Some t => set_terminals (aset (terminals k) i (f t)) k
  | None => log_fault (OobTerminals i) k
  end.

Lemma upd_terminal_frame i f k :
  k_mem (upd_terminal i f k) = k_mem k /\ k_pg (upd_terminal i f k) = k_pg k /\
  cur_terminal (upd_terminal i f k) = cur_terminal k.
Proof. unfold upd_terminal. by destruct (aget (terminals k) i). Qed.

Definition get_PCB (k : kernel) (i : Z) : PCB_struct := default default_PCB (aget (k_pcbs k) i).

Definition upd_PCB (i : Z) (f : PCB_struct -> PCB_struct) (k : kernel) : kernel :=
  match aget (k_pcbs k) i with
  | Some p => with_k_pcbs (aset (k_pcbs k) i (f p)) k
  | None => log_fault (OobPCB i) k
  end.

Definition get_fd (p : PCB_struct) (i : Z) : fd_table_entry_t :=
  default default_fd (aget (fd_table p) i).

Definition upd_fd (i : Z) (f : fd_table_entry_t -> fd_table_entry_t) (p : PCB_struct) : PCB_struct :=
  match aget (fd_table p) i with
  | Some e => with_fd_table (aset (fd_table p) i (f e)) p
  | None => p
  end.

(** ** The state when the boot loader jumps to the kernel

    Every global has its C initial value: zero, except the two interrupt masks
    (i8259.c) and [curfile] (filesys.c).  The memory the boot loader left, the
    devices and the link-time addresses are arguments; the offset of execute's
    header buffer is an arbitrary one. *)
Definition kernel_reset (m : gmap Z Z) (dev : list io_event -> Z -> Z)
    (pt_addr uv_addr label : Z) : kernel :=
  {| k_mem := m; k_io := mkIo [] dev; k_faults := [];
     k_pcbs := replicate 6 default_PCB;
     k_con := mkConsole 0 0; k_pic := mkPic 0xFB 0xFF;
     k_pg := mkPaging (replicate 1024 0) (replicate 1024 0) (replicate 1024 0)
               pt_addr uv_addr false;
     k_fs := mkFilesys 0 0 0 0 0 1 (mkDentry (replicate 32 0) 0 0);
     k_sch := mkSched (replicate 3 default_terminal) 0 0 0 0;
     k_kb := mkKeyboard 0 0 0 0 (replicate 128 0) 0 (replicate 5 0) (replicate 128 0);
     k_rtcs := mkRtc 0 0;
     k_sys := mkSys 0 0 0 0 (replicate 1024 0) default_tss;
     k_cpus := mkCpu 0x800000 0x800000 false label 16 |}.

(** ** Address translation *)

(** Entry flags: bit 0 present, bit 2 user, bit 7 page size. *)
Definition pte_present (e : Z) : bool := Z.testbit e 0.
Definition pte_user (e : Z) : bool := Z.testbit e 2.
Definition pte_large (e : Z) : bool := Z.testbit e 7.

Definition frame_4k (e : Z) : Z := e / 4096 * 4096.
Definition frame_4m (e : Z) : Z := e / 4194304 * 4194304.

(** The page table a directory entry points to. *)
Definition table_at (p : paging) (base : Z) : option (list Z) :=
  if base =? page_table_addr p then Some (page_table p)
  else if base =? uvpt_addr p then Some (user_video_page_table p)
  else None.

(** The page walk.  [user] asks for a user-mode access, which needs the user
    bit at both levels. *)
Definition translate (user : bool) (p : paging) (va : Z) : option Z :=
  if negb (paging_on p) then Some va
  else
    match aget (page_directory p) (va / 4194304) with
    | None => None
    | Some pde =>
        if negb (pte_present pde && (negb user || pte_user pde)) then None
        else if pte_large pde then Some (frame_4m pde + va mod 4194304)
        else
          match table_at p (frame_4k pde) with
          | None => None
          | Some tbl =>
              match aget tbl (va / 4096 mod 1024) with
              | None => None
              | Some pte =>
                  if pte_present pte && (negb user || pte_user pte)
                  then Some (frame_4k pte + va mod 4096)
                  else None
              end
          end
    end.

(** Kernel-mode accesses. *)
Definition phys (k : kernel) (va : Z) : option Z := translate false (k_pg k) va.

#[export] Instance kernel_space : AddrSpace kernel := {|
  ld8 k a := match phys k a with Some p => ld8 (k_mem k) p | None => 0 end;
  st8 a v k :=
    match phys k a with
    | Some p => with_k_mem (st8 p v (k_mem k)) k
    | None => log_fault (PageFault a) k
    end;
  as_ok k a := is_Some (phys k a);
  as_sep k a b := forall p q, phys k a = Some p -> phys k b = Some q -> p <> q;
|}.

Lemma phys_st8 a v k b : phys (st8 a v k) b = phys k b.
Proof. simpl. by destruct (phys k a). Qed.

Lemma ld8_phys k a p : phys k a = Some p -> ld8 k a = ld8 (k_mem k) p.
Proof. intros E. unfold ld8 at 1. cbn [kernel_space]. by rewrite E. Qed.

#[export] Instance kernel_laws : AddrSpaceLaws kernel.
Proof.
  split.
  - intros k a. simpl. destruct (phys k a); [apply u8_range|lia].
  - intros k a v [p Hp]. unfold ld8 at 1. cbn [kernel_space].
    rewrite phys_st8, Hp. simpl. rewrite Hp. simpl. by rewrite lookup_insert_eq.
  - intros k a b v Hsep. unfold ld8 at 1. cbn [kernel_space]. rewrite phys_st8.
    simpl in *. destruct (phys k b) as [q|] eqn:Eq; [|done].
    destruct (phys k a) as [p|] eqn:Ep; simpl; [|done].
    rewrite lookup_insert_ne; [done|]. eauto.
  - intros k a v b Hb. unfold as_ok in *. cbn [kernel_space] in *. by rewrite phys_st8.
  - intros k a v b c Hs. unfold as_sep in *. cbn [kernel_space] in *.
    intros p q. rewrite !phys_st8. auto.
Qed.

(** ** Stores to mapped addresses change nothing but memory *)

Definition only_mem (k k' : kernel) : Prop := k' = with_k_mem (k_mem k') k.

#[export] Instance only_mem_preorder : PreOrder only_mem.
Proof.
  split.
  - by intros [].
  - intros k1 k2 k3 H1 H2. unfold only_mem in *. etrans; [exact H2|]. rewrite H1. reflexivity.
Qed.

Lemma only_mem_st8 a v k : as_ok k a -> only_mem k (st8 a v k).
Proof. intros [p Hp]. unfold only_mem. simpl. rewrite Hp. by destruct k. Qed.

Lemma only_mem_phys k k' a : only_mem k k' -> phys k' a = phys k a.
Proof. intros H. by rewrite H. Qed.

Lemma only_mem_ok k k' a : only_mem k k' -> as_ok k a -> as_ok k' a.
Proof. intros H Ha. simpl in *. by rewrite (only_mem_phys _ _ _ H). Qed.

Lemma only_mem_sep k k' a b : only_mem k k' -> as_sep k a b -> as_sep k' a b.
Proof. intros H Ha. simpl in *. intros p q. rewrite !(only_mem_phys _ _ _ H). apply Ha. Qed.

Lemma only_mem_region k k' P : only_mem k k' -> region k P -> region k' P.
Proof. intros H [Ho Hs]. split; intros; eauto using only_mem_ok, only_mem_sep. Qed.

Lemma only_mem_copy_up n : forall s d k, 0 <= s -> s + Z.of_nat n < 2 ^ 32 ->
  0 <= d -> d + Z.of_nat n < 2 ^ 32 -> (forall a, span d (Z.of_nat n) a -> as_ok k a) ->
  only_mem k (copy_up n s d k).
Proof.
  induction n as [|n IH]; intros s d k Hs Hsn Hd Hdn Hok; cbn [copy_up]; [done|].
  assert (F : only_mem k (st8 d (ld8 k s) k)) by (apply only_mem_st8, Hok; unfold span; lia).
  rewrite !u32_small by lia. etrans; [exact F|]. apply IH; try lia.
  intros a Ha. eapply only_mem_ok; [exact F|]. apply Hok. unfold span in *; lia.
Qed.

(** The physical bytes no destination address goes to keep their values. *)
Lemma copy_up_phys n : forall s d k p, 0 <= d -> d + Z.of_nat n < 2 ^ 32 ->
  (forall y, span d (Z.of_nat n) y -> phys k y <> Some p) ->
  ld8 (k_mem (copy_up n s d k)) p = ld8 (k_mem k) p.
Proof.
  induction n as [|n IH]; intros s d k p Hd Hn Hp; cbn [copy_up]; [done|].
  rewrite (u32_small (d + 1)) by lia. rewrite IH; [|lia|lia|].
  - simpl. destruct (phys k d) as [q|] eqn:E; [|done]. cbn. rewrite lookup_insert_ne; [done|].
    intros ->. apply (Hp d); [unfold span; lia|done].
  - intros y Hy. rewrite phys_st8. apply Hp. unfold span in *; lia.
Qed.

Lemma set_bytes_phys n : forall d v k p, 0 <= d -> d + Z.of_nat n < 2 ^ 32 ->
  (forall y, span d (Z.of_nat n) y -> phys k y <> Some p) ->
  ld8 (k_mem (set_bytes n d v k)) p = ld8 (k_mem k) p.
Proof.
  induction n as [|n IH]; intros d v k p Hd Hn Hp; cbn [set_bytes]; [done|].
  rewrite (u32_small (d + 1)) by lia. rewrite IH; [|lia|lia|].
  - simpl. destruct (phys k d) as [q|] eqn:E; [|done]. cbn. rewrite lookup_insert_ne; [done|].
    intros ->. apply (Hp d); [unfold span; lia|done].
  - intros y Hy. rewrite phys_st8. apply Hp. unfold span in *; lia.
Qed.

Lemma only_mem_set_bytes n : forall d v k, 0 <= d -> d + Z.of_nat n < 2 ^ 32 ->
  (forall a, span d (Z.of_nat n) a -> as_ok k a) -> only_mem k (set_bytes n d v k).
Proof.
  induction n as [|n IH]; intros d v k Hd Hdn Hok; cbn [set_bytes]; [done|].
  assert (F : only_mem k (st8 d v k)) by (apply only_mem_st8, Hok; unfold span; lia).
  rewrite !u32_small by lia. etrans; [exact F|]. apply IH; try lia.
  intros a Ha. eapply only_mem_ok; [exact F|]. apply Hok. unfold span in *; lia.
Qed.

(** Before paging is turned on every address is its own. *)
Lemma region_unpaged k P : paging_on k = false -> region k P.
Proof.
  intros E. assert (H : forall a, phys k a = Some a) by (intros; unfold phys, translate; by rewrite E).
  split; simpl; intros; [by rewrite H|]. rewrite H in *. congruence.
Qed.

(** A state to evaluate the definitions on. *)
Definition demo_kernel : kernel := kernel_reset empty (fun _ _ => 0) 0x420000 0x421000 0x401000.
