(* ===== verification/I8259.v ===== *)
(** * The interrupt controllers (i8259.c)

    The two masks, the initialisation sequence, [enable_irq], [disable_irq]
    and [send_eoi], and what they program into the controllers' ports. *)

From Stdlib Require Import ZArith Lia.
From stdpp Require Import base numbers list gmap.
From S2P Require Import Prelude Memory State Machine.

Open Scope Z_scope.
Implicit Types k : kernel.

(** Constants of i8259.h and i8259.c. *)
Definition ICW1 : Z := 0x11.
Definition ICW2_MASTER : Z := 0x20.
Definition ICW2_SLAVE : Z := 0x28.
Definition ICW3_MASTER : Z := 0x04.
Definition ICW3_SLAVE : Z := 0x02.
Definition ICW4 : Z := 0x01.
Definition EOI : Z := 0x60.
Definition PIC1_COMMAND : Z := 0x20.
Definition PIC1_DATA : Z := 0x21.
Definition PIC2_COMMAND : Z := 0xA0.
Definition PIC2_DATA : Z := 0xA1.
Definition SIZEOFPIC1 : Z := 8.
Definition MSLINK : Z := 2.

Definition i8259_init (k : kernel) : kernel :=
  let k := outb (master_mask k) PIC1_DATA k in
  let k := outb (slave_mask k) PIC2_DATA k in
  let k := outb ICW1 PIC1_COMMAND k in
  let k := outb ICW2_MASTER PIC1_DATA k in
  let k := outb ICW3_MASTER PIC1_DATA k in
  let k := outb ICW4 PIC1_DATA k in
  let k := outb ICW1 PIC2_COMMAND k in
  let k := outb ICW2_SLAVE PIC2_DATA k in
  let k := outb ICW3_SLAVE PIC2_DATA k in
  let k := outb ICW4 PIC2_DATA k in
  let k := outb (master_mask k) PIC1_DATA k in
  outb (slave_mask k) PIC2_DATA k.

Definition enable_irq (irq_num : Z) (k : kernel) : kernel :=
  let mask := u32 (Z.lnot (Z.shiftl 1 irq_num)) in
  if SIZEOFPIC1 <=? irq_num then
    let unmask := u32 (Z.lnot (Z.shiftl 1 (irq_num - SIZEOFPIC1))) in
    let k := set_slave_mask (u8 (Z.land (slave_mask k) unmask)) k in
    outb (slave_mask k) PIC2_DATA k
  else
    let k := set_master_mask (u8 (Z.land (master_mask k) mask)) k in
    outb (master_mask k) PIC1_DATA k.

Definition disable_irq (irq_num : Z) (k : kernel) : kernel :=
  let mask := u32 (Z.shiftl 1 irq_num) in
  let k := set_master_mask (u8 (Z.lor (master_mask k) mask)) k in
  let k := set_slave_mask (u8 (Z.lor (slave_mask k) mask)) k in
  if negb (Z.land irq_num SIZEOFPIC1 =? 0) then outb (slave_mask k) PIC2_DATA k
  else outb (master_mask k) PIC1_DATA k.

Definition send_eoi (irq_num : Z) (k : kernel) : kernel :=
  if SIZEOFPIC1 <=? irq_num then
    let k := outb (Z.lor EOI (irq_num - SIZEOFPIC1)) PIC2_COMMAND k in
    outb (Z.lor EOI MSLINK) PIC1_COMMAND k
  else outb (Z.lor EOI irq_num) PIC1_COMMAND k.

(** ** Specification *)

(** A line is enabled when its bit of the kernel's mask is clear. *)
Definition irq_enabled (p : pic) (n : Z) : bool :=
  negb (if n <? 8 then Z.testbit (master_mask p) n else Z.testbit (slave_mask p) (n - 8)).

(** The last byte written to a port. *)
Fixpoint last_out (port : Z) (log : list io_event) : option Z :=
  match log with
  | [] => None
  | Out d q :: log' => if q =? port then Some d else last_out port log'
  | In _ _ :: log' => last_out port log'
  end.

(** The masks are bytes and are what was last written to the controllers. *)
Definition pic_synced (k : kernel) : Prop :=
  0 <= master_mask k < 256 /\ 0 <= slave_mask k < 256 /\
  last_out PIC1_DATA (io_log k) = Some (master_mask k) /\
  last_out PIC2_DATA (io_log k) = Some (slave_mask k).

(** ** Lemmas *)

Lemma testbit_u8 z n : 0 <= n < 8 -> Z.testbit (u8 z) n = Z.testbit z n.
Proof. intros. unfold u8. apply Z.mod_pow2_bits_low. lia. Qed.

Lemma testbit_u32 z n : 0 <= n < 32 -> Z.testbit (u32 z) n = Z.testbit z n.
Proof. intros. unfold u32. apply Z.mod_pow2_bits_low. lia. Qed.

Lemma testbit_shiftl_1 i n : 0 <= i -> 0 <= n -> Z.testbit (Z.shiftl 1 i) n = (n =? i).
Proof.
  intros Hi Hn. rewrite Z.shiftl_1_l. destruct (Z.eqb_spec n i) as [->|Hne].
  - by apply Z.pow2_bits_true.
  - apply Z.pow2_bits_false. lia.
Qed.

(** Clearing bit [i] of a byte. *)
Lemma testbit_unmask m i n :
  0 <= i < 8 -> 0 <= n < 8 ->
  Z.testbit (u8 (Z.land m (u32 (Z.lnot (Z.shiftl 1 i))))) n =
  Z.testbit m n && negb (n =? i).
Proof.
  intros Hi Hn. rewrite testbit_u8, Z.land_spec, testbit_u32, Z.lnot_spec by lia.
  by rewrite testbit_shiftl_1 by lia.
Qed.

Lemma testbit_byte_above m i : 0 <= m < 256 -> 8 <= i -> Z.testbit m i = false.
Proof.
  intros Hm Hi. destruct (decide (m = 0)) as [->|]; [apply Z.bits_0|]. apply Z.bits_above_log2; [lia|].
  assert (Z.log2 m < 8) by (apply Z.log2_lt_pow2; lia). lia.
Qed.

(** The test [irq_num & 8]. *)
Lemma slave_line_bit n : 8 <= n < 16 -> negb (Z.land n 8 =? 0) = true.
Proof.
  intros Hn. assert (E : forallb (fun n => negb (Z.land n 8 =? 0)) (seqZ 8 8) = true) by reflexivity.
  apply (proj1 (forallb_forall _ _) E). apply list_elem_of_In, elem_of_seqZ. lia.
Qed.

Lemma master_line_bit n : 0 <= n < 8 -> negb (Z.land n 8 =? 0) = false.
Proof.
  intros Hn. assert (E : forallb (fun n => Z.land n 8 =? 0) (seqZ 0 8) = true) by reflexivity.
  apply negb_false_iff. apply (proj1 (forallb_forall _ _) E). apply list_elem_of_In, elem_of_seqZ. lia.
Qed.

Lemma last_out_outb d p q k :
  last_out q (io_log (outb d p k)) = if p =? q then Some (u8 d) else last_out q (io_log k).
Proof. done. Qed.

Lemma i8259_init_synced k : 0 <= master_mask k < 256 -> 0 <= slave_mask k < 256 ->
  pic_synced (i8259_init k) /\ k_pic (i8259_init k) = k_pic k.
Proof.
  intros Hm Hs. split; [|reflexivity]. unfold pic_synced, i8259_init. rewrite !last_out_outb. cbn.
  rewrite !u8_small by done. auto.
Qed.

Lemma enable_irq_synced n k : pic_synced k -> pic_synced (enable_irq n k).
Proof.
  intros (Hm & Hs & H1 & H2). unfold enable_irq, SIZEOFPIC1. destruct (Z.leb_spec 8 n); unfold pic_synced;
    rewrite !last_out_outb; cbn; rewrite ?u8_u8; auto using u8_range.
Qed.

(** Other ports, and other parts of the state. *)
Lemma outb_synced d p k : p <> PIC1_DATA -> p <> PIC2_DATA -> pic_synced k -> pic_synced (outb d p k).
Proof.
  intros N1 N2 (Hm & Hs & H1 & H2). unfold pic_synced. rewrite !last_out_outb.
  rewrite !(proj2 (Z.eqb_neq p _)) by done. auto.
Qed.

Lemma inb_synced p k : pic_synced k -> pic_synced (inb p k).2.
Proof. intros H. exact H. Qed.

Lemma pic_synced_ext k k' : k_pic k' = k_pic k -> k_io k' = k_io k -> pic_synced k -> pic_synced k'.
Proof. unfold pic_synced. intros -> ->. done. Qed.

(** ** Correctness *)

(** What i8259_init writes, in order. *)
Definition init_sequence (master slave : Z) : list io_event :=
  [Out master PIC1_DATA; Out slave PIC2_DATA;
   Out 0x11 PIC1_COMMAND; Out 0x20 PIC1_DATA; Out 0x04 PIC1_DATA; Out 0x01 PIC1_DATA;
   Out 0x11 PIC2_COMMAND; Out 0x28 PIC2_DATA; Out 0x02 PIC2_DATA; Out 0x01 PIC2_DATA;
   Out master PIC1_DATA; Out slave PIC2_DATA].

Lemma disable_irq_slave_line n k : 8 <= n < 16 -> pic_synced k -> pic_synced (disable_irq n k).
Proof.
  intros Hn (Hm & Hs & H1 & H2).
  assert (E : forall m, 0 <= m < 256 -> u8 (Z.lor m (u32 (Z.shiftl 1 n))) = m).
  { intros m Hm'. apply Z.bits_inj'. intros i Hi. destruct (decide (i < 8)).
    - rewrite testbit_u8, Z.lor_spec, testbit_u32, testbit_shiftl_1 by lia.
      rewrite (proj2 (Z.eqb_neq i n)) by lia. apply orb_false_r.
    - rewrite testbit_byte_above, testbit_byte_above; [done|exact Hm'|lia|apply u8_range|lia]. }
  unfold pic_synced, disable_irq, SIZEOFPIC1. rewrite (slave_line_bit n) by lia. cbn -[u8 u32 Z.lor Z.shiftl].
  rewrite !E by done. by rewrite u8_small.
Qed.

(** On a line of the master both masks change and one is written. *)
Lemma disable_irq_master_line n k : 0 <= n < 8 -> pic_synced k ->
  last_out PIC1_DATA (io_log (disable_irq n k)) = Some (master_mask (disable_irq n k)) /\
  (pic_synced (disable_irq n k) <-> Z.testbit (slave_mask k) n = true).
Proof.
  intros Hn (Hm & Hs & H1 & H2). unfold pic_synced, disable_irq, SIZEOFPIC1. rewrite (master_line_bit n) by lia.
  cbn -[u8 u32 Z.lor Z.shiftl Z.testbit]. rewrite u8_u8. split; [done|]. rewrite H2. split.
  - intros (_ & _ & _ & [= E]). rewrite E, testbit_u8, Z.lor_spec, testbit_u32, testbit_shiftl_1, Z.eqb_refl by lia.
    apply orb_true_r.
  - intros Hb. split_and!; [apply u8_range..|done|]. f_equal. apply Z.bits_inj'. intros i Hi. destruct (decide (i < 8)).
    + rewrite testbit_u8, Z.lor_spec, testbit_u32, testbit_shiftl_1 by lia.
      destruct (Z.eqb_spec i n) as [->|]; [by rewrite Hb|by rewrite orb_false_r].
    + rewrite !testbit_byte_above by (apply u8_range || lia). done.
Qed.

(** C34: the initialisation writes ICW1 to ICW4 to both controllers (vectors at
    0x20 and 0x28, cascade on line 2) between the two masks, and leaves them with
    the kernel's masks; enable_irq and send_eoi keep the controllers and the
    kernel's masks equal.  disable_irq, which nothing calls, keeps them equal
    only for a line of the slave, or when the slave's line of the same number was
    masked already: it changes both masks and writes one. *)
Theorem pic_synced_preserved k n :
  0 <= master_mask k < 256 -> 0 <= slave_mask k < 256 -> 0 <= n < 16 ->
  (pic_synced (i8259_init k) /\ k_pic (i8259_init k) = k_pic k /\
   io_log (i8259_init k) = reverse (init_sequence (master_mask k) (slave_mask k)) ++ io_log k) /\
  (pic_synced k -> pic_synced (enable_irq n k) /\ pic_synced (send_eoi n k) /\
   (pic_synced (disable_irq n k) <-> 8 <= n \/ Z.testbit (slave_mask k) n = true)).
Proof.
  intros Hm Hs Hn. split.
  - destruct (i8259_init_synced k Hm Hs) as [H1 H2]. split_and!; [done|done|]. cbn -[u8].
    by rewrite !u8_small.
  - intros H. split; [by apply enable_irq_synced|]. split.
    + destruct H as (Hm' & Hs' & H1 & H2). unfold send_eoi, SIZEOFPIC1.
      destruct (Z.leb_spec 8 n); unfold pic_synced; rewrite !last_out_outb; cbn; auto.
    + destruct (decide (8 <= n)) as [H8|H8].
      * pose proof (disable_irq_slave_line n k ltac:(lia) H). tauto.
      * destruct (disable_irq_master_line n k ltac:(lia) H) as [_ ->]. split; [by right|by intros [?|?]].
Qed.

(** enable_irq enables exactly the requested line of the sixteen: that line
    becomes enabled and every other line keeps its state. *)
Theorem enable_irq_exact k n m :
  0 <= n < 16 -> 0 <= m < 16 ->
  irq_enabled (enable_irq n k) m = (m =? n) || irq_enabled k m.
Proof.
  intros Hn Hm. unfold enable_irq, irq_enabled, SIZEOFPIC1.
  destruct (Z.leb_spec 8 n) as [H8|H8]; cbn -[u8 u32 Z.shiftl Z.testbit].
  - destruct (Z.ltb_spec m 8) as [Hm8|Hm8].
    + by rewrite (proj2 (Z.eqb_neq m n)) by lia.
    + rewrite testbit_unmask by lia. rewrite negb_andb, negb_involutive, orb_comm.
      f_equal. bdestr; lia.
  - destruct (Z.ltb_spec m 8) as [Hm8|Hm8].
    + rewrite testbit_unmask by lia. rewrite negb_andb, negb_involutive. apply orb_comm.
    + by rewrite (proj2 (Z.eqb_neq m n)) by lia.
Qed.

(** disable_irq does not disable a line of the second controller: its mask
    bit is computed in the first controller's numbering and falls off the
    byte, so the line stays as it was. *)
Theorem disable_irq_slave_ineffective k n :
  0 <= slave_mask k < 256 -> 8 <= n < 16 ->
  irq_enabled (disable_irq n k) n = irq_enabled k n.
Proof.
  intros Hs Hn. unfold disable_irq, irq_enabled.
  destruct (Z.land n SIZEOFPIC1 =? 0); cbn -[u8 u32 Z.shiftl Z.testbit];
    rewrite (proj2 (Z.ltb_ge n 8)) by lia; rewrite testbit_u8, Z.lor_spec, testbit_u32 by lia;
    rewrite testbit_shiftl_1 by lia; rewrite (proj2 (Z.eqb_neq (n - 8) n)) by lia;
    by rewrite orb_false_r.
Qed.

(** ** Witnesses *)

Lemma pic_synced_preserved_witness :
  pic_synced (enable_irq 8 (i8259_init demo_kernel)).
Proof.
  apply (pic_synced_preserved (i8259_init demo_kernel) 8); [vm_compute; split; congruence ..|].
  apply (pic_synced_preserved demo_kernel 0); vm_compute; split; congruence.
Defined.

Lemma enable_irq_exact_witness :
  irq_enabled (enable_irq 8 demo_kernel) 8 = true /\
  irq_enabled (enable_irq 8 demo_kernel) 0 = irq_enabled demo_kernel 0.
Proof. split; rewrite (enable_irq_exact demo_kernel 8) by lia; reflexivity. Defined.

Lemma disable_irq_slave_ineffective_witness :
  irq_enabled (disable_irq 8 (enable_irq 8 demo_kernel)) 8 = true.
Proof.
  rewrite (disable_irq_slave_ineffective (enable_irq 8 demo_kernel) 8);
    [reflexivity|vm_compute; split; congruence|lia].
Defined.
