(* ===== verification/Rtc.v ===== *)
(** * The real-time clock driver (rtc.c)

    Programming the rate, the interrupt handler, and the blocking read, which
    spins until the handler clears [waiting]. *)

From Stdlib Require Import ZArith Lia.
From stdpp Require Import base numbers list gmap.
From S2P Require Import Prelude Memory State Machine I8259.

Open Scope Z_scope.
Implicit Types k : kernel.

(** Constants of rtc.h. *)
Definition RTC_DATA : Z := 0x70.
Definition RTC_CMD : Z := 0x71.
Definition NMI : Z := 0x80.
Definition REGBIT : Z := 0x40.
Definition REGC : Z := 0x0C.
Definition IRQ_RTC : Z := 8.
Definition MAX_FREQ : Z := 16384.
Definition RTC_RATE_MAX : Z := 15.
Definition RTC_RATE_MIN : Z := 4.

Definition init_rtc (k : kernel) : kernel :=
  let k := outb (Z.lor NMI 0xB) RTC_DATA k in
  let '(prev, k) := inb RTC_CMD k in
  let k := outb (Z.lor NMI 0xB) RTC_DATA k in
  let k := outb (Z.lor (s8 prev) REGBIT) RTC_CMD k in
  enable_irq IRQ_RTC k.

Definition rtc_handler (k : kernel) : kernel :=
  let k := cli k in
  let k := outb REGC RTC_DATA k in
  let '(_, k) := inb RTC_CMD k in
  let k := set_waiting 0 k in
  send_eoi IRQ_RTC k.

(** The frequencies rtc_write accepts. *)
Definition rtc_freqs : list Z := [2; 4; 8; 16; 32; 64; 128; 256; 512; 1024].

(** while (input_freq <= MAX_FREQ) { input_freq <<= 1; rate++; } *)
Fixpoint rtc_count (fuel : nat) (input_freq rate : Z) : Z :=
  match fuel with
  | O => rate
  | S f => if input_freq <=? MAX_FREQ
           then rtc_count f (s32 (Z.shiftl input_freq 1)) (u32 (rate + 1))
           else rate
  end.

(** The body of rtc_write on the frequency its buffer holds.  An accepted
    frequency is at least 2, so 14 doublings pass MAX_FREQ and 15 is enough
    fuel. *)
Definition rtc_set_freq (input_freq : Z) (k : kernel) : Z * kernel :=
  if negb (existsb (Z.eqb input_freq) rtc_freqs) then (-1, k)
  else
    let r :=
      if input_freq =? 0 then 0
      else
        let r := rtc_count 15 input_freq 0 in
        if r <? RTC_RATE_MIN then RTC_RATE_MIN
        else if RTC_RATE_MAX <? r then RTC_RATE_MAX else r in
    let k := set_rate (Z.land r 0x0F) k in
    let k := outb (Z.lor NMI 0xA) RTC_DATA k in
    let '(prev, k) := inb RTC_CMD k in
    let k := outb 0x8A RTC_DATA k in
    let k := outb (Z.lor (Z.land (s8 prev) 0xF0) (rate k)) RTC_CMD k in
    (0, k).

Definition rtc_write (fd buf nbytes : Z) (k : kernel) : Z * kernel :=
  rtc_set_freq (s32 (ld32 k buf)) k.

(** rtc_open and rtc_close pass the address of a local variable. *)
Definition rtc_open (k : kernel) : Z * kernel :=
  let k := init_rtc k in
  let '(_, k) := rtc_set_freq 2 k in
  (0, k).

Definition rtc_close (fd : Z) (k : kernel) : Z * kernel :=
  let '(_, k) := rtc_set_freq 0 k in
  (0, k).

(** [while (waiting);] while the interrupts of a list are served one after the
    other; [None] when the list ends and the loop is still spinning. *)
Fixpoint rtc_spin (irqs : list (kernel -> kernel)) (k : kernel) : option kernel :=
  if waiting k =? 0 then Some k
  else match irqs with
       | [] => None
       | h :: irqs' => rtc_spin irqs' (h k)
       end.

Definition rtc_read (irqs : list (kernel -> kernel)) (k : kernel) : option (Z * kernel) :=
  match rtc_spin irqs (set_waiting 1 k) with
  | None => None
  | Some k => Some (0, k)
  end.

(** ** Lemmas *)

Lemma rtc_handler_waiting k : waiting (rtc_handler k) = 0.
Proof. done. Qed.

Lemma rtc_spin_app h irqs : forall pre k,
  waiting k <> 0 ->
  (forall k', waiting k' <> 0 -> Forall (fun g : kernel -> kernel => waiting (g k') <> 0) pre) ->
  rtc_spin (pre ++ h :: irqs) k = rtc_spin (h :: irqs) (fold_left (fun s g => g s) pre k).
Proof.
  induction pre as [|g pre IH]; intros k Hk Hpre; [done|].
  cbn [rtc_spin app fold_left]. rewrite (proj2 (Z.eqb_neq _ _) Hk). apply IH.
  - specialize (Hpre k Hk). by inversion Hpre.
  - intros k' Hk'. specialize (Hpre k' Hk'). by inversion Hpre.
Qed.

Lemma fold_waiting : forall pre k,
  waiting k <> 0 ->
  (forall k', waiting k' <> 0 -> Forall (fun g : kernel -> kernel => waiting (g k') <> 0) pre) ->
  waiting (fold_left (fun s g => g s) pre k) <> 0.
Proof.
  induction pre as [|g pre IH]; intros k Hk Hpre; [done|]. cbn [fold_left]. apply IH.
  - specialize (Hpre k Hk). by inversion Hpre.
  - intros k' Hk'. specialize (Hpre k' Hk'). by inversion Hpre.
Qed.

(** ** Correctness *)

(** rtc_write accepts exactly the powers of two from 2 to 1024: on 2^j it
    returns 0, sets the rate field to 15 - j and rewrites register A with that
    rate, keeping the upper four bits it read; on any other value it returns
    -1 and changes nothing. *)
Theorem rtc_write_correct fd buf nbytes k :
  let f := s32 (ld32 k buf) in
  (forall j, 1 <= j <= 10 -> f = 2 ^ j ->
     exists k' v, rtc_write fd buf nbytes k = (0, k') /\ rate k' = 15 - j /\
       v = u8 (io_dev k (Out 0x8A RTC_DATA :: io_log k) RTC_CMD) /\
       io_log k' = Out (Z.lor (Z.land (s8 v) 0xF0) (15 - j) mod 256) RTC_CMD
                   :: Out 0x8A RTC_DATA :: In RTC_CMD v :: Out 0x8A RTC_DATA :: io_log k) /\
  ((forall j, 1 <= j <= 10 -> f <> 2 ^ j) -> rtc_write fd buf nbytes k = (-1, k)).
Proof.
  cbv zeta. unfold rtc_write. generalize (s32 (ld32 k buf)) as f. intros f. split.
  - intros j Hj ->.
    assert (j = 1 \/ j = 2 \/ j = 3 \/ j = 4 \/ j = 5 \/ j = 6 \/ j = 7 \/ j = 8 \/ j = 9 \/ j = 10)
      as Hc by lia.
    repeat destruct Hc as [->|Hc]; [..|subst j]; eexists _, _; split_and!; reflexivity.
  - intros Hf. unfold rtc_set_freq.
    replace (existsb (Z.eqb f) rtc_freqs) with false; [done|].
    symmetry. apply not_true_is_false. intros E. apply existsb_exists in E as (x & Hx & E).
    apply Z.eqb_eq in E. subst x. simpl in Hx.
    repeat destruct Hx as [Hx|Hx]; try done; revert Hx; apply not_eq_sym;
      match goal with |- f <> ?n => change n with (2 ^ Z.log2 n); apply Hf; vm_compute; split; congruence end.
Qed.

(** rtc_close leaves the clock as it was: the frequency 0 it writes is
    refused by rtc_write. *)
Theorem rtc_close_no_effect fd k : rtc_close fd k = (0, k).
Proof. reflexivity. Qed.

(** a blocking rtc_read returns 0 at the first clock interrupt: the
    interrupts served before it do not wake it, and when the clock's handler
    has run it returns, whatever interrupts would follow. *)
Theorem rtc_read_wakes pre post k :
  (forall k', waiting k' <> 0 -> Forall (fun g : kernel -> kernel => waiting (g k') <> 0) pre) ->
  rtc_read pre k = None /\
  rtc_read (pre ++ rtc_handler :: post) k =
    Some (0, rtc_handler (fold_left (fun s g => g s) pre (set_waiting 1 k))).
Proof.
  intros Hpre. unfold rtc_read. split.
  - assert (E : rtc_spin pre (set_waiting 1 k) = None); [|by rewrite E].
    assert (H1 : waiting (set_waiting 1 k) <> 0) by (simpl; lia).
    revert H1 Hpre. generalize (set_waiting 1 k). clear k.
    induction pre as [|g pre IH]; intros k Hk Hpre; cbn [rtc_spin];
      rewrite (proj2 (Z.eqb_neq _ _) Hk); [done|].
    apply IH; [|intros k' Hk']; [specialize (Hpre k Hk)|specialize (Hpre k' Hk')];
      by inversion Hpre.
  - rewrite rtc_spin_app by (simpl; auto; lia). cbn [rtc_spin].
    rewrite (proj2 (Z.eqb_neq _ _)) by (apply fold_waiting; simpl; auto; lia).
    by destruct post; cbn [rtc_spin]; rewrite rtc_handler_waiting.
Qed.

(** ** Witnesses *)

Definition rtc_demo : kernel := st32 0x1000 32 demo_kernel.

Lemma rtc_write_correct_witness :
  exists k', rtc_write 2 0x1000 4 rtc_demo = (0, k') /\ rate k' = 10.
Proof.
  destruct (rtc_write_correct 2 0x1000 4 rtc_demo) as [H _].
  destruct (H 5) as (k' & v & H1 & H2 & _); [lia|reflexivity|].
  exists k'. split; [exact H1|exact H2].
Defined.

Lemma rtc_read_wakes_witness :
  rtc_read [rtc_handler] demo_kernel = Some (0, rtc_handler (set_waiting 1 demo_kernel)).
Proof. apply (rtc_read_wakes [] [] demo_kernel). intros k' _. constructor. Defined.
