(* ===== verification/Paging.v ===== *)
(** * Paging (paging.c)

    The page directory, the page table of the first 4 MB and the user video
    page table, and the operations that change them.  The machine walks the
    structures at every access: every operation that changes them ends with a
    TLB flush, so no stale entry is observable. *)

From Stdlib Require Import ZArith Lia.
From stdpp Require Import base numbers list gmap.
From S2P Require Import Prelude Memory State Machine.

Open Scope Z_scope.
Implicit Types k : kernel.

(** Constants of paging.h. *)
Definition ONE_KB : Z := 1024.
Definition FOUR_KB : Z := 4096.
Definition FOUR_MB : Z := 4194304.
Definition VIDEO_MEM_INDEX : Z := 0xB8.
Definition INITIAL_PAGEDIR_VAL : Z := 2.
Definition INITIAL_PAGETABLE_ATTRIBUTE : Z := 2.
Definition INITIAL_PAGETABLE : Z := 3.
Definition VIDEO_MEM : Z := 0xB8000.
Definition USER_MAP_LOC : Z := 138412032.

(** page_table[i] |= flags *)
Definition or_page_table (i flags : Z) (k : kernel) : kernel :=
  set_page_table (aset (page_table k) i (Z.lor (agetZ (page_table k) i) flags)) k.

Definition enable_paging (k : kernel) : kernel := set_paging_on true k.

(** The body of the loop of init_paging. *)
Definition init_paging_entry (i : Z) (k : kernel) : kernel :=
  let k := set_page_directory (aset (page_directory k) i INITIAL_PAGEDIR_VAL) k in
  set_page_table (aset (page_table k) i (Z.lor (i * FOUR_KB) INITIAL_PAGETABLE_ATTRIBUTE)) k.

Definition init_paging (k : kernel) : kernel :=
  let k := for_range 0 ONE_KB init_paging_entry k in
  let k := or_page_table VIDEO_MEM_INDEX 3 k in
  let k := or_page_table (VIDEO_MEM_INDEX + 1) 7 k in
  let k := or_page_table (VIDEO_MEM_INDEX + 2) 7 k in
  let k := or_page_table (VIDEO_MEM_INDEX + 3) 7 k in
  let k := set_page_directory
    (aset (page_directory k) 0 (Z.lor (page_table_addr k) INITIAL_PAGETABLE)) k in
  let k := set_page_directory (aset (page_directory k) 1 (Z.lor FOUR_MB 0x83)) k in
  enable_paging k.

Definition map_page (physaddr virtualaddr flags : Z) (k : kernel) : kernel :=
  if negb (physaddr mod FOUR_KB =? 0) then k
  else if negb (virtualaddr mod FOUR_KB =? 0) then k
  else
    let i := virtualaddr / FOUR_MB in
    if negb (agetZ (page_directory k) i =? 0)
    then set_page_directory (aset (page_directory k) i (Z.lor physaddr flags)) k
    else set_page_directory (aset (page_directory k) i (Z.lor physaddr 0x87)) k.

Definition vid_map (scr : Z) (k : kernel) : Z * kernel :=
  let k := upd_terminal (cur_terminal k) (with_screen_start scr) k in
  let k := set_page_directory
    (aset (page_directory k) (USER_MAP_LOC / FOUR_MB) (Z.lor (uvpt_addr k) 7)) k in
  let k := set_user_video_page_table
    (aset (user_video_page_table k) (cur_terminal k) (Z.lor VIDEO_MEM 7)) k in
  let k := st32 scr (USER_MAP_LOC + cur_terminal k * FOUR_KB) k in
  (0, k).

Definition map_video_page (terminal : Z) (k : kernel) : kernel :=
  set_page_table
    (aset (page_table k) VIDEO_MEM_INDEX (Z.lor ((VIDEO_MEM_INDEX + terminal) * FOUR_KB) 3)) k.

(** ** Lemmas *)

(** The arrays have their C lengths and the tables lie at page boundaries,
    apart from each other and below 4 GB. *)
Definition paging_wf (p : paging) : Prop :=
  length (page_directory p) = 1024%nat /\ length (page_table p) = 1024%nat /\
  length (user_video_page_table p) = 1024%nat /\
  page_table_addr p mod 4096 = 0 /\ uvpt_addr p mod 4096 = 0 /\
  page_table_addr p <> uvpt_addr p.

Lemma frame_4k_lor a f : a mod 4096 = 0 -> 0 <= f < 4096 -> frame_4k (Z.lor a f) = a.
Proof.
  intros Ha Hf. unfold frame_4k. rewrite (lor_aligned a f 12) by first [exact Ha | lia]. dlia.
Qed.

Lemma frame_4m_lor a f : a mod 4194304 = 0 -> 0 <= f < 4194304 -> frame_4m (Z.lor a f) = a.
Proof.
  intros Ha Hf. unfold frame_4m. rewrite (lor_aligned a f 22) by first [exact Ha | lia]. dlia.
Qed.

Lemma flag_lor a f b : a mod 4096 = 0 -> 0 <= b < 12 -> Z.testbit (Z.lor a f) b = Z.testbit f b.
Proof. intros. by apply (lor_aligned_testbit a f 12). Qed.

(** What the loop of init_paging has established after [n] iterations. *)
Definition paging_filled (k : kernel) (n : Z) (k' : kernel) : Prop :=
  paging_wf k' /\ page_table_addr k' = page_table_addr k /\ uvpt_addr k' = uvpt_addr k /\
  (forall i, 0 <= i < n -> aget (page_directory k') i = Some 2) /\
  (forall i, 0 <= i < n -> aget (page_table k') i = Some (Z.lor (i * 4096) 2)).

Lemma init_paging_loop k :
  paging_wf k -> paging_filled k 1024 (for_range 0 ONE_KB init_paging_entry k).
Proof.
  intros Hwf. apply (for_range_inv 0 ONE_KB _ _ (paging_filled k));
    [done|unfold paging_filled; split_and!; auto; lia|].
  unfold ONE_KB.
  intros i t Hi (Hw & Hp & Hu & Hd & Ht). destruct Hw as (L1 & L2 & L3 & Hw).
  unfold paging_filled, init_paging_entry. split_and!; auto; cbn.
  - unfold paging_wf; cbn. rewrite !length_aset. auto.
  - intros j Hj. rewrite aget_aset. destruct (Z.eqb_spec i j) as [->|Hne]; cbn.
    + rewrite (proj2 (in_range_true _ _)) by lia. done.
    + apply Hd. lia.
  - intros j Hj. rewrite aget_aset. destruct (Z.eqb_spec i j) as [->|Hne]; cbn.
    + rewrite (proj2 (in_range_true _ _)) by lia. done.
    + apply Ht. lia.
Qed.

(** The entries init_paging leaves. *)
Definition paging_inited (k : kernel) (k' : kernel) : Prop :=
  paging_wf k' /\ paging_on k' = true /\
  page_table_addr k' = page_table_addr k /\ uvpt_addr k' = uvpt_addr k /\
  (forall i, 0 <= i < 1024 -> aget (page_directory k') i =
     Some (if i =? 0 then Z.lor (page_table_addr k) 3
           else if i =? 1 then Z.lor FOUR_MB 0x83 else 2)) /\
  (forall i, 0 <= i < 1024 -> aget (page_table k') i =
     Some (Z.lor (i * 4096)
       (if i =? 0xB8 then 3 else if (0xB9 <=? i) && (i <=? 0xBB) then 7 else 2))).

Lemma init_paging_entries k : paging_wf k -> paging_inited k (init_paging k).
Proof.
  intros Hwf. pose proof (init_paging_loop k Hwf) as H. unfold init_paging.
  revert H. generalize (for_range 0 ONE_KB init_paging_entry k). intros k1.
  intros ((L1 & L2 & L3 & Hw) & Hp & Hu & Hd & Ht).
  unfold paging_inited, or_page_table, enable_paging, VIDEO_MEM_INDEX, INITIAL_PAGETABLE.
  split_and!; cbn -[FOUR_MB]; auto.
  - unfold paging_wf; cbn. rewrite !length_aset. auto 10.
  - intros i Hi. rewrite !aget_aset. rewrite !in_range_aset.
    rewrite !(proj2 (in_range_true (page_directory k1) _)) by lia.
    rewrite !andb_true_r, Hd, Hp by lia. bdestr; try lia; done.
  - intros i Hi. rewrite !aget_aset, !in_range_aset.
    rewrite !(proj2 (in_range_true (page_table k1) _)) by lia. rewrite !andb_true_r.
    rewrite !agetZ_aset_ne by lia. unfold agetZ. rewrite !Ht by lia. cbn [from_option id].
    rewrite <- !Z.lor_assoc. bdestr; try lia; subst; done.
Qed.

(** Page walk through a 4 KB table, and through a 4 MB entry. *)
Lemma translate_table user p va pde tbl pte :
  paging_on p = true -> aget (page_directory p) (va / 4194304) = Some pde ->
  pte_present pde = true -> pte_user pde || negb user = true -> pte_large pde = false ->
  table_at p (frame_4k pde) = Some tbl -> aget tbl (va / 4096 mod 1024) = Some pte ->
  translate user p va =
  if pte_present pte && (negb user || pte_user pte) then Some (frame_4k pte + va mod 4096)
  else None.
Proof.
  intros Hon Hpd Hpr Hus Hl Ht Hpt. unfold translate.
  rewrite Hon, Hpd, Hpr, Hl, Ht, Hpt. rewrite orb_comm in Hus. by rewrite Hus.
Qed.

Lemma translate_large user p va base f :
  paging_on p = true -> aget (page_directory p) (va / 4194304) = Some (Z.lor base f) ->
  base mod 4194304 = 0 -> 0 <= f < 4096 -> Z.testbit f 0 = true -> Z.testbit f 7 = true ->
  translate user p va = if negb user || Z.testbit f 2 then Some (base + va mod 4194304) else None.
Proof.
  intros Hon Hpd Hb Hf H0 H7. unfold translate, pte_present, pte_user, pte_large.
  assert (Hb' : base mod 4096 = 0) by dlia.
  rewrite Hon, Hpd, !flag_lor by lia. rewrite H0, H7, frame_4m_lor by lia. cbn.
  by destruct (negb user || _).
Qed.

Lemma translate_absent user p va pde :
  paging_on p = true -> aget (page_directory p) (va / 4194304) = Some pde ->
  pte_present pde = false -> translate user p va = None.
Proof. intros Hon Hpd Hpr. unfold translate. by rewrite Hon, Hpd, Hpr. Qed.

Lemma table_at_pt p f : page_table_addr p mod 4096 = 0 -> 0 <= f < 4096 ->
  table_at p (frame_4k (Z.lor (page_table_addr p) f)) = Some (page_table p).
Proof. intros. unfold table_at. by rewrite frame_4k_lor, Z.eqb_refl. Qed.

Lemma table_at_uvpt p f : paging_wf p -> 0 <= f < 4096 ->
  table_at p (frame_4k (Z.lor (uvpt_addr p) f)) = Some (user_video_page_table p).
Proof.
  intros (_ & _ & _ & Hp & Hu & Hne) Hf. unfold table_at. rewrite frame_4k_lor by done.
  rewrite (proj2 (Z.eqb_neq _ _)) by congruence. by rewrite Z.eqb_refl.
Qed.

(** ** Correctness *)

(** C33: the address space init_paging builds: in kernel mode exactly the four
    video pages and the kernel's 4 MB page are mapped, each to itself, and
    every other address (the null page among them) faults; in user mode no
    address is accessible. *)
Theorem init_paging_layout k user va :
  paging_wf k -> 0 <= va < 2 ^ 32 ->
  translate user (init_paging k) va =
  if negb user && ((0xB8000 <=? va) && (va <? 0xBC000) || (FOUR_MB <=? va) && (va <? 2 * FOUR_MB))
  then Some va else None.
Proof.
  intros Hwf Hva. unfold FOUR_MB.
  destruct (init_paging_entries k Hwf) as (Hwf' & Hon & Hp & Hu & Hd & Ht).
  set (k' := init_paging k) in *. clearbody k'. destruct Hwf' as (_ & _ & _ & Ha & _).
  assert (Hi : 0 <= va / 4194304 < 1024) by dlia.
  pose proof (Hd _ Hi) as Hpd. destruct (Z.eqb_spec (va / 4194304) 0) as [E0|E0].
  - assert (Hlow : 0 <= va < 4194304) by dlia. rewrite <- Hp in Hpd.
    replace ((4194304 <=? va) && _) with false by (bdestr; done || lia). rewrite orb_false_r.
    destruct user; [unfold translate, pte_present, pte_user; rewrite Hon, Hpd, !flag_lor by lia; done|].
    assert (Hj : 0 <= va / 4096 mod 1024 < 1024) by dlia.
    erewrite (translate_table false k' va _ (page_table k') _ Hon Hpd);
      [|unfold pte_present; rewrite flag_lor by lia; done|apply orb_true_r
       |unfold pte_large; rewrite flag_lor by lia; done
       |by apply table_at_pt|by apply Ht].
    replace (va / 4096 mod 1024) with (va / 4096) by dlia.
    unfold pte_present. rewrite flag_lor by dlia.
    rewrite frame_4k_lor by (try dlia; bdestr; simpl; lia).
    replace (va / 4096 * 4096 + va mod 4096) with va by dlia.
    bdestr; simpl; try done; dlia.
  - destruct (Z.eqb_spec (va / 4194304) 1) as [E1|E1].
    + rewrite (translate_large user k' va _ _ Hon Hpd) by done.
      replace ((0xB8000 <=? va) && _) with false by (bdestr; done || dlia).
      replace ((4194304 <=? va) && _) with true by (bdestr; done || dlia).
      destruct user; [done|]. cbn. f_equal. unfold FOUR_MB. dlia.
    + rewrite (translate_absent user k' va _ Hon Hpd) by done.
      replace ((0xB8000 <=? va) && _) with false by (bdestr; done || dlia).
      replace ((4194304 <=? va) && _) with false by (bdestr; done || dlia).
      by rewrite andb_false_r.
Qed.

(** ** The paging invariant after boot

    [paging_ok t p]: the kernel page and the video buffers are mapped to
    themselves, and the page at VIDEO goes to video page [t]: 0 is the screen,
    [1 + i] the buffer of terminal [i]. *)
Definition paging_ok (t : Z) (p : paging) : Prop :=
  paging_wf p /\ paging_on p = true /\ 0 <= t <= 3 /\
  aget (page_directory p) 0 = Some (Z.lor (page_table_addr p) 3) /\
  aget (page_directory p) 1 = Some (Z.lor FOUR_MB 0x83) /\
  (forall i, 0 <= i < 1024 -> i <> 0xB8 -> aget (page_table p) i =
     Some (Z.lor (i * 4096) (if (0xB9 <=? i) && (i <=? 0xBB) then 7 else 2))) /\
  aget (page_table p) 0xB8 = Some (Z.lor ((0xB8 + t) * 4096) 3).

Definition PROG_PAGE : Z := 0x08000000.

Lemma init_paging_ok k : paging_wf k -> paging_ok 0 (init_paging k).
Proof.
  intros Hwf. destruct (init_paging_entries k Hwf) as (Hwf' & Hon & Hp & Hu & Hd & Ht).
  revert Hwf' Hon Hp Hu Hd Ht. generalize (init_paging k). intros k' Hwf' Hon Hp Hu Hd Ht.
  unfold paging_ok. rewrite Hp. split_and!; auto; try lia.
  - by rewrite Hd.
  - by rewrite Hd.
  - intros i Hi Hne. rewrite Ht by done. by rewrite (proj2 (Z.eqb_neq i 0xB8)).
  - by rewrite Ht.
Qed.

(** The operations change the paging structures only. *)
Definition only_pg (k k' : kernel) : Prop := k' = with_k_pg (k_pg k') k.

#[export] Instance only_pg_preorder : PreOrder only_pg.
Proof.
  split.
  - by intros [].
  - intros k1 k2 k3 H1 H2. unfold only_pg in *. etrans; [exact H2|]. rewrite H1. reflexivity.
Qed.

Lemma only_pg_set p k : only_pg k (with_k_pg p k).
Proof. by destruct k. Qed.

Lemma init_paging_frame k : only_pg k (init_paging k).
Proof.
  unfold init_paging. assert (H : only_pg k (for_range 0 ONE_KB init_paging_entry k)).
  { apply (for_range_inv 0 ONE_KB init_paging_entry k (fun _ t => only_pg k t)); [done|done|].
    intros i t _ Ht. etrans; [exact Ht|]. unfold init_paging_entry. etrans; apply only_pg_set. }
  etrans; [exact H|]. generalize (for_range 0 ONE_KB init_paging_entry k) as k1. intros k1.
  repeat (etrans; [|apply only_pg_set]). reflexivity.
Qed.

Lemma k_pg_st8 a v k : k_pg (st8 a v k) = k_pg k.
Proof. simpl. by destruct (phys k a). Qed.

Lemma k_pg_st32 a v k : k_pg (st32 a v k) = k_pg k.
Proof. unfold st32. by rewrite !k_pg_st8. Qed.

(** Kernel-mode translation of the addresses the kernel uses. *)
Lemma translate_low t p va :
  paging_ok t p -> 0xB8000 <= va < 0xBC000 ->
  translate false p va = Some (if va <? 0xB9000 then va + t * 4096 else va).
Proof.
  intros (Hwf & Hon & Ht & H0 & H1 & Hpt & HB8) Hva.
  pose proof Hwf as (_ & _ & _ & Ha & _).
  assert (Ed : va / 4194304 = 0) by dlia. assert (Et : va / 4096 mod 1024 = va / 4096) by dlia.
  assert (Hpd : aget (page_directory p) (va / 4194304) = Some (Z.lor (page_table_addr p) 3))
    by (by rewrite Ed).
  assert (Hent : exists f, (f = 3 \/ f = 7) /\ aget (page_table p) (va / 4096 mod 1024) =
    Some (Z.lor ((if va <? 0xB9000 then va / 4096 + t else va / 4096) * 4096) f)).
  { rewrite Et. destruct (Z.ltb_spec va 0xB9000).
    - exists 3. replace (va / 4096) with 0xB8 by dlia. auto.
    - exists 7. split; [auto|]. rewrite Hpt by dlia.
      by replace ((0xB9 <=? va / 4096) && (va / 4096 <=? 0xBB)) with true by (bdestr; done || dlia). }
  destruct Hent as (f & Hf & Hent).
  erewrite (translate_table false p va _ (page_table p) _ Hon Hpd);
    [|unfold pte_present; rewrite flag_lor by lia; done|apply orb_true_r
     |unfold pte_large; rewrite flag_lor by lia; done
     |by apply table_at_pt|exact Hent].
  unfold pte_present. rewrite flag_lor, frame_4k_lor by (try dlia; apply Z.mod_mul; lia).
  replace (Z.testbit f 0) with true by (by destruct Hf as [->| ->]). cbn. f_equal.
  destruct (Z.ltb_spec va 0xB9000); dlia.
Qed.

Lemma translate_below_video t p va :
  paging_ok t p -> 0xB7000 <= va < 0xB8000 -> translate false p va = None.
Proof.
  intros (Hwf & Hon & Ht & H0 & H1 & Hpt & HB8) Hva. pose proof Hwf as (_ & _ & _ & Ha & _).
  assert (Hpd : aget (page_directory p) (va / 4194304) = Some (Z.lor (page_table_addr p) 3))
    by (by replace (va / 4194304) with 0 by dlia).
  erewrite (translate_table false p va _ (page_table p) (Z.lor (0xB7 * 4096) 2) Hon Hpd);
    [|unfold pte_present; rewrite flag_lor by lia; done|apply orb_true_r
     |unfold pte_large; rewrite flag_lor by lia; done|by apply table_at_pt|].
  - done.
  - replace (va / 4096 mod 1024) with 0xB7 by dlia. by rewrite Hpt by lia.
Qed.

Lemma translate_kernel_page user t p va :
  paging_ok t p -> FOUR_MB <= va < 2 * FOUR_MB ->
  translate user p va = if user then None else Some va.
Proof.
  unfold FOUR_MB. intros (Hwf & Hon & Ht & H0 & H1 & Hpt & HB8) Hva.
  rewrite (translate_large user p va 4194304 0x83 Hon); try done.
  - destruct user; cbn; [done|]. f_equal. dlia.
  - by replace (va / 4194304) with 1 by dlia.
Qed.

(** Changing one directory entry changes translation only under it. *)
Lemma translate_pd_frame user p p' i va :
  paging_on p' = paging_on p -> page_table p' = page_table p ->
  user_video_page_table p' = user_video_page_table p ->
  page_table_addr p' = page_table_addr p -> uvpt_addr p' = uvpt_addr p ->
  (exists e, page_directory p' = aset (page_directory p) i e) -> va / 4194304 <> i ->
  translate user p' va = translate user p va.
Proof.
  intros Eon Ept Euv Epa Eua [e Epd] Hne. unfold translate, table_at.
  rewrite Eon, Ept, Euv, Epa, Eua, Epd. rewrite aget_aset_ne by congruence. done.
Qed.

Lemma map_video_page_ok t t' k :
  paging_ok t k -> 0 <= t' <= 3 -> paging_ok t' (map_video_page t' k).
Proof.
  intros ((L1 & L2 & L3 & Hw) & Hon & Ht & H0 & H1 & Hpt & HB8) Ht'.
  unfold paging_ok, paging_wf, map_video_page; cbn. rewrite length_aset. split_and!; auto; try apply Hw; try lia.
  - intros i Hi Hne. rewrite aget_aset_ne by (unfold VIDEO_MEM_INDEX; lia). by apply Hpt.
  - rewrite aget_aset_eq by (rewrite L2; unfold VIDEO_MEM_INDEX; lia). done.
Qed.

(** The directory entry of the program page after mapping a process. *)
Lemma map_page_prog pid k :
  length (page_directory k) = 1024%nat ->
  exists e, k_pg (map_page ((pid + 2) * FOUR_MB) PROG_PAGE 0x87 k) =
    k_pg (set_page_directory (aset (page_directory k) 32 e) k) /\
    e = Z.lor ((pid + 2) * FOUR_MB) 0x87.
Proof.
  intros L. eexists. split; [|reflexivity]. unfold map_page.
  replace ((pid + 2) * FOUR_MB mod FOUR_KB =? 0) with true
    by (unfold FOUR_MB, FOUR_KB; symmetry; apply Z.eqb_eq; dlia).
  cbn -[FOUR_MB aset agetZ]. change (PROG_PAGE / FOUR_MB) with 32. by destruct (agetZ _ _ =? 0).
Qed.

Lemma map_page_prog_ok t pid k :
  paging_ok t k -> paging_ok t (map_page ((pid + 2) * FOUR_MB) PROG_PAGE 0x87 k).
Proof.
  intros ((L1 & L2 & L3 & Hw) & Hon & Ht & H0 & H1 & Hpt & HB8).
  destruct (map_page_prog pid k L1) as (e & -> & _).
  unfold paging_ok, paging_wf; cbn. rewrite length_aset, !aget_aset_ne by lia.
  split_and!; auto; apply Hw || lia.
Qed.

(** C20: scheduling or executing a process maps the 4 MB program page at
    0x08000000 to the frame (pid + 2) * 4 MB, for user and kernel accesses, and
    changes the translation of no other address; frames of different processes
    are disjoint from each other and from the kernel's own 8 MB. *)
Theorem process_page_isolated t pid k :
  paging_ok t k -> 0 <= pid < 6 ->
  let k' := map_page ((pid + 2) * FOUR_MB) PROG_PAGE 0x87 k in
  (forall user va, PROG_PAGE <= va < PROG_PAGE + FOUR_MB ->
     translate user k' va = Some ((pid + 2) * FOUR_MB + (va - PROG_PAGE))) /\
  (forall user va, 0 <= va -> ~ (PROG_PAGE <= va < PROG_PAGE + FOUR_MB) ->
     translate user k' va = translate user k va) /\
  (forall pid' va va' p p', 0 <= pid' < 6 -> pid' <> pid ->
     PROG_PAGE <= va < PROG_PAGE + FOUR_MB -> PROG_PAGE <= va' < PROG_PAGE + FOUR_MB ->
     translate true k' va = Some p ->
     translate true (map_page ((pid' + 2) * FOUR_MB) PROG_PAGE 0x87 k) va' = Some p' ->
     p <> p' /\ 2 * FOUR_MB <= p < 8 * FOUR_MB).
Proof.
  intros Hok Hpid. cbv zeta.
  assert (Hmap : forall pid, 0 <= pid < 6 ->
    forall user va, PROG_PAGE <= va < PROG_PAGE + FOUR_MB ->
    translate user (map_page ((pid + 2) * FOUR_MB) PROG_PAGE 0x87 k) va =
      Some ((pid + 2) * FOUR_MB + (va - PROG_PAGE))).
  { clear pid Hpid. intros pid Hpid user va Hva.
    destruct Hok as ((L1 & _) & Hon & _). destruct (map_page_prog pid k L1) as (e & -> & ->).
    unfold FOUR_MB, PROG_PAGE in *.
    erewrite (translate_large user _ va ((pid + 2) * 4194304) 0x87); try done.
    - rewrite orb_true_r. f_equal. dlia.
    - cbn. replace (va / 4194304) with 32 by dlia. rewrite aget_aset_eq by lia. done.
    - dlia. }
  split_and!.
  - intros. by apply Hmap.
  - intros user va H0 Hva. destruct Hok as ((L1 & _) & Hon & _).
    destruct (map_page_prog pid k L1) as (e & -> & ->).
    apply (translate_pd_frame user _ _ 32); try done; [by eexists|].
    unfold PROG_PAGE, FOUR_MB in *. dlia.
  - intros pid' va va' p p' Hp' Hne Hva Hva'. rewrite !Hmap by done.
    intros [= <-] [= <-]. unfold PROG_PAGE, FOUR_MB in *. lia.
Qed.

(** while video page [t] is selected, the kernel's writes to the screen
    address go to that page: selecting a page redirects VIDEO to the screen
    (t = 0) or to the buffer of a terminal, leaves the buffers' own addresses
    in place, and selecting 0 again restores the screen. *)
Theorem map_video_page_redirects t t' k va :
  paging_ok t k -> 0 <= t' <= 3 -> 0xB8000 <= va < 0xBC000 ->
  paging_ok t' (map_video_page t' k) /\
  phys (map_video_page t' k) va =
    Some (if va <? 0xB9000 then va + t' * 4096 else va) /\
  phys (map_video_page t (map_video_page t' k)) va = phys k va.
Proof.
  intros Hok Ht' Hva. pose proof (map_video_page_ok t t' k Hok Ht') as Hok'.
  assert (Ht : 0 <= t <= 3) by apply Hok.
  split_and!; [done| |]; unfold phys.
  - by apply translate_low.
  - rewrite (translate_low t (map_video_page t (map_video_page t' k)) va);
      [|by apply (map_video_page_ok t')|done].
    by rewrite (translate_low t k va).
Qed.

(** after the vidmap system call the process can read and write the page it
    was given in user mode, that page is the screen (whether or not its
    terminal is the displayed one), the call returns 0, and kernel mappings are
    unchanged. *)
Theorem vid_map_maps_screen t scr k :
  paging_ok t k -> 0 <= cur_terminal k < 3 ->
  exists k', vid_map scr k = (0, k') /\ paging_ok t k' /\
    forall off, 0 <= off < FOUR_KB ->
      translate true k' (USER_MAP_LOC + cur_terminal k * FOUR_KB + off) = Some (VIDEO_MEM + off).
Proof.
  intros Hok Hc. unfold vid_map. eexists; split; [reflexivity|].
  destruct Hok as (Hwf & Hon & Ht & H0 & H1 & Hpt & HB8).
  pose proof Hwf as (L1 & L2 & L3 & Ha & Hu & Hne).
  destruct (upd_terminal_frame (cur_terminal k) (with_screen_start scr) k) as (_ & Epg & Ecur).
  revert Epg Ecur. generalize (upd_terminal (cur_terminal k) (with_screen_start scr) k).
  intros k1 Epg Ecur. rewrite k_pg_st32. cbn [set_user_video_page_table set_page_directory].
  cbn. rewrite Epg, Ecur. set (p' := mkPaging _ _ _ _ _ _).
  assert (Hwf' : paging_wf p').
  { unfold paging_wf, p'; cbn. rewrite !length_aset. auto 10. }
  split.
  - unfold paging_ok. split_and!; auto; try lia; unfold p'; cbn.
    + rewrite aget_aset_ne; [done|]. unfold USER_MAP_LOC, FOUR_MB. dlia.
    + rewrite aget_aset_ne; [done|]. unfold USER_MAP_LOC, FOUR_MB. dlia.
  - intros off Hoff. unfold FOUR_KB in Hoff. set (c := cur_terminal k) in *.
    set (va := USER_MAP_LOC + c * FOUR_KB + off).
    assert (Eva : va = 138412032 + c * 4096 + off) by done.
    erewrite (translate_table true p' va _ (user_video_page_table p') (Z.lor VIDEO_MEM 7) Hon).
    + unfold pte_present, pte_user. rewrite !flag_lor, frame_4k_lor by done. cbn. f_equal.
      rewrite Eva. unfold VIDEO_MEM. dlia.
    + unfold p'; cbn. replace (va / 4194304) with (USER_MAP_LOC / FOUR_MB)
        by (rewrite Eva; change (USER_MAP_LOC / FOUR_MB) with 33; dlia).
      apply aget_aset_eq. rewrite L1. change (USER_MAP_LOC / FOUR_MB) with 33. lia.
    + unfold pte_present. by rewrite flag_lor.
    + unfold pte_user. by rewrite flag_lor.
    + unfold pte_large. by rewrite flag_lor.
    + apply (table_at_uvpt p'); [done|lia].
    + unfold p'; cbn. replace (va / 4096 mod 1024) with c by (rewrite Eva; dlia).
      apply aget_aset_eq. rewrite L3. lia.
Qed.

(** ** Witnesses *)

Lemma demo_paging_wf : paging_wf demo_kernel.
Proof. vm_compute. split_and!; congruence. Qed.

Lemma init_paging_layout_witness : phys (init_paging demo_kernel) 0 = None.
Proof.
  unfold phys. rewrite (init_paging_layout demo_kernel false 0 demo_paging_wf) by lia.
  reflexivity.
Defined.

Lemma process_page_isolated_witness :
  translate true (map_page ((1 + 2) * FOUR_MB) PROG_PAGE 0x87 (init_paging demo_kernel)) 0x08048000
  = Some ((1 + 2) * FOUR_MB + (0x08048000 - PROG_PAGE)).
Proof.
  destruct (process_page_isolated 0 1 (init_paging demo_kernel)) as (H & _).
  - apply init_paging_ok, demo_paging_wf.
  - lia.
  - apply (H true 0x08048000). unfold PROG_PAGE, FOUR_MB. lia.
Defined.

Lemma map_video_page_redirects_witness :
  phys (map_video_page 2 (init_paging demo_kernel)) 0xB8010 = Some 0xBA010.
Proof.
  destruct (map_video_page_redirects 0 2 (init_paging demo_kernel) 0xB8010) as (_ & H & _);
    [apply init_paging_ok, demo_paging_wf|lia|lia|]. rewrite H. reflexivity.
Defined.

Lemma vid_map_maps_screen_witness :
  exists k', vid_map 0x400000 (init_paging demo_kernel) = (0, k').
Proof.
  destruct (vid_map_maps_screen 0 0x400000 (init_paging demo_kernel)) as (k' & H & _).
  - apply init_paging_ok, demo_paging_wf.
  - vm_compute; split; congruence.
  - exists k'. exact H.
Defined.
