(* ===== verification/Console.v ===== *)
(** * The text console (lib.c, lines 7-277 and test_interrupts)

    The 80x25 screen at VIDEO, two bytes a cell, written through the kernel's
    address space, and the cursor.  The abstract console is a list of 2000
    cells and a position; the refinement theorems say what each routine does
    to it. *)

From Stdlib Require Import ZArith Lia.
From Stdlib Require Import Ascii String.
From stdpp Require Import base numbers list gmap.
From S2P Require Import Prelude Memory LibMem LibStr State Machine Paging.

Open Scope Z_scope.
Implicit Types k : kernel.

Definition VIDEO : Z := 0xB8000.
Definition NUM_COLS : Z := 80.
Definition NUM_ROWS : Z := 25.
Definition ATTRIB : Z := 7.
Definition INIT_PORT : Z := 0x3D4.
Definition DATA_PORT : Z := 0x3D5.

(** The two stores that write a character and the attribute in cell [i]. *)
Definition put_cell (i c : Z) (k : kernel) : kernel :=
  let k := st8 (u32 (VIDEO + Z.shiftl i 1)) c k in
  st8 (u32 (VIDEO + Z.shiftl i 1 + 1)) ATTRIB k.

Definition update_cursor (x y : Z) (k : kernel) : kernel :=
  let pos := u16 (y * NUM_COLS + x) in
  let k := outb 0x0F INIT_PORT k in
  let k := outb (u8 (Z.land pos 0xFF)) DATA_PORT k in
  let k := outb 0x0E INIT_PORT k in
  outb (u8 (Z.land (Z.shiftr pos 8) 0xFF)) DATA_PORT k.

Definition clear_kb (k : kernel) : kernel :=
  let k := for_range 0 (NUM_ROWS * NUM_COLS) (fun i k => put_cell i 32 k) k in
  let k := set_screen_x 0 k in
  let k := set_screen_y 0 k in
  update_cursor (screen_x k) (screen_y k) k.

Definition clear (k : kernel) : kernel :=
  let k := for_range 0 (NUM_ROWS * NUM_COLS) (fun i k => put_cell i 32 k) k in
  clear_kb k.

Definition backspace (k : kernel) : kernel :=
  let k := put_cell (NUM_COLS * screen_y k + screen_x k - 1) 32 k in
  let k :=
    if negb (screen_x k =? 0) then set_screen_x (screen_x k - 1) k
    else if negb (screen_y k =? 0) then
      set_screen_y (screen_y k - 1) (set_screen_x (NUM_COLS - 1) k)
    else k in
  update_cursor (screen_x k) (screen_y k) k.

(** The newline branch of putc: scroll on the last row, else next row. *)
Definition putc_newline (k : kernel) : kernel :=
  let k :=
    if screen_y k =? NUM_ROWS - 1 then
      let k := memmove VIDEO (VIDEO + Z.shiftl NUM_COLS 1)
                 (Z.shiftl (NUM_COLS * (NUM_ROWS - 1)) 1) k in
      for_range 0 NUM_COLS (fun i k => put_cell (NUM_COLS * screen_y k + i) 32 k) k
    else set_screen_y (screen_y k + 1) k in
  set_screen_x 0 k.

(** The last branch of putc after its stores: one cell to the right, with
    wrap-around to the next row. *)
Definition putc_advance (k : kernel) : kernel :=
  let k := set_screen_x (screen_x k + 1) k in
  let k := set_screen_y (Z.rem (screen_y k + Z.quot (screen_x k) NUM_COLS) NUM_ROWS) k in
  set_screen_x (Z.rem (screen_x k) NUM_COLS) k.

(** The corner branch after its stores: the recursive call is putc('\n'), the
    newline branch and its cursor update. *)
Definition putc_corner (k : kernel) : kernel :=
  let k := set_screen_x (screen_x k + 1) k in
  let k := putc_newline k in
  update_cursor (screen_x k) (screen_y k) k.

Definition putc (c : Z) (k : kernel) : kernel :=
  let c := u8 c in
  let k :=
    if (c =? 10) || (c =? 13) then putc_newline k
    else if (screen_y k =? NUM_ROWS - 1) && (screen_x k =? NUM_COLS - 1) then
      putc_corner (put_cell (NUM_COLS * screen_y k + screen_x k) c k)
    else putc_advance (put_cell (NUM_COLS * screen_y k + screen_x k) c k) in
  update_cursor (screen_x k) (screen_y k) k.

Definition get_screen_x (k : kernel) : Z := screen_x k.
Definition get_screen_y (k : kernel) : Z := screen_y k.

Definition set_screenxy (x y : Z) (k : kernel) : kernel := set_screen_y y (set_screen_x x k).

Definition set_cursor (x y : Z) (k : kernel) : kernel :=
  let k := set_screen_y y (set_screen_x x k) in
  update_cursor (screen_x k) (screen_y k) k.

Definition test_interrupts (k : kernel) : kernel :=
  for_range 0 (NUM_ROWS * NUM_COLS)
    (fun i k => st8 (u32 (VIDEO + (i * 2 + 1)))
                  (ld8 k (u32 (VIDEO + (i * 2 + 1))) + pitIntrCount k) k) k.

(** ** Strings

    A [char*] the console reads: an address, or an object that the model keeps
    as a list (a literal, a global array, printf's local buffer). *)
Definition src := kernel -> Z -> Z.
Definition at_addr (a : Z) : src := fun k i => ld8 k (u32 (a + i)).
Definition lit (l : list Z) : src := fun _ i => agetZ l i.
Definition at_local (m : gmap Z Z) (a : Z) : src := fun _ i => ld8 m (a + i).

Fixpoint puts_loop (fuel : nat) (s : src) (index : Z) (k : kernel) : option (Z * kernel) :=
  match fuel with
  | O => None
  | S f => if s k index =? 0 then Some (index, k)
           else puts_loop f s (index + 1) (putc (s k index) k)
  end.

Definition puts (fuel : nat) (s : src) (k : kernel) : option (Z * kernel) :=
  puts_loop fuel s 0 k.

(** ** printf

    [args] are the words above [format] on the stack, [esp] the index of the
    next one.  Each conversion is a definition; the local [conv_buf] is a
    memory of its own, and its size is the fuel of the puts that prints it.
    The fuel of printf bounds both the steps over the format and the length of
    a string argument. *)

Definition printf_x (alternate : bool) (v : Z) (k : kernel) : option kernel :=
  if negb alternate then
    m ← itoa (u32 v) 0 16 (∅ : gmap Z Z);
    '(_, k) ← puts 64 (at_local m 0) k; Some k
  else
    m ← itoa (u32 v) 8 16 (∅ : gmap Z Z);
    starting_index ← strlen 33 8 m;
    let m := for_range starting_index 8 (fun i m => st8 i 48 m) m in
    '(_, k) ← puts 64 (at_local m starting_index) k; Some k.

Definition printf_u (v : Z) (k : kernel) : option kernel :=
  m ← itoa (u32 v) 0 10 (∅ : gmap Z Z);
  '(_, k) ← puts 36 (at_local m 0) k; Some k.

Definition printf_d (v : Z) (k : kernel) : option kernel :=
  let value := s32 v in
  m ← (if value <? 0 then itoa (u32 (- value)) 1 10 (st8 0 45 (∅ : gmap Z Z))
       else itoa (u32 value) 0 10 (∅ : gmap Z Z));
  '(_, k) ← puts 36 (at_local m 0) k; Some k.

(** Where the loop is: at an ordinary character, or at the conversion
    character (label format_char_switch) with [alternate] set or not. *)
Inductive pf_mode := Text | Conv (alternate : bool).

Fixpoint printf_loop (n fuel : nat) (format : src) (args : Z -> Z) (mode : pf_mode)
    (buf esp : Z) (k : kernel) : option (Z * kernel) :=
  match n with
  | O => None
  | S n =>
      let c := format k buf in
      let next esp k := printf_loop n fuel format args Text (buf + 1) esp k in
      match mode with
      | Text =>
          if c =? 0 then Some (buf, k)
          else if c =? 37 then printf_loop n fuel format args (Conv false) (buf + 1) esp k
          else next esp (putc c k)
      | Conv alternate =>
          if c =? 37 then next esp (putc 37 k)
          else if c =? 35 then printf_loop n fuel format args (Conv true) (buf + 1) esp k
          else if c =? 120 then k ← printf_x alternate (args esp) k; next (esp + 1) k
          else if c =? 117 then k ← printf_u (args esp) k; next (esp + 1) k
          else if c =? 100 then k ← printf_d (args esp) k; next (esp + 1) k
          else if c =? 99 then next (esp + 1) (putc (u8 (args esp)) k)
          else if c =? 115 then
            '(_, k) ← puts fuel (at_addr (u32 (args esp))) k; next (esp + 1) k
          else next esp k
      end
  end.

Definition printf (fuel : nat) (format : src) (args : Z -> Z) (k : kernel) : option (Z * kernel) :=
  printf_loop fuel fuel format args Text 0 0 k.

(** ** The abstract console *)

(** A cell: character and attribute. *)
Definition cell : Type := Z * Z.
Definition blank : cell := (32, 7).

Record aconsole := mkA { a_cells : list cell; a_x : Z; a_y : Z }.

Definition cells (k : kernel) : list cell :=
  map (fun i => (ld8 k (VIDEO + 2 * i), ld8 k (VIDEO + 2 * i + 1))) (seqZ 0 2000).

Definition abs_console (k : kernel) : aconsole := mkA (cells k) (screen_x k) (screen_y k).

Definition scroll (l : list cell) : list cell := drop 80 l ++ replicate 80 blank.

Definition abs_newline (a : aconsole) : aconsole :=
  if a_y a =? 24 then mkA (scroll (a_cells a)) 0 24 else mkA (a_cells a) 0 (a_y a + 1).

Definition abs_putc (a : aconsole) (c : Z) : aconsole :=
  if (c =? 10) || (c =? 13) then abs_newline a
  else
    let l := aset (a_cells a) (80 * a_y a + a_x a) (c, 7) in
    if a_x a =? 79 then abs_newline (mkA l 79 (a_y a)) else mkA l (a_x a + 1) (a_y a).

(** The screen is mapped and the position is on it. *)
Definition mapped (k : kernel) : Prop := region k (span VIDEO 4000).

Definition console_ok (k : kernel) : Prop :=
  mapped k /\ 0 <= screen_x k < 80 /\ 0 <= screen_y k < 25.

(** Two states that agree except in memory, ports and position. *)
Definition con_frame (k k' : kernel) : Prop :=
  k' = mkKernel (k_mem k') (mkIo (io_log k') (io_dev k)) (k_faults k) (k_pcbs k) (k_con k')
         (k_pic k) (k_pg k) (k_fs k) (k_sch k) (k_kb k) (k_rtcs k) (k_sys k) (k_cpus k).

(** Bytes that are not the screen's are unchanged. *)
Definition mem_frame (k k' : kernel) : Prop :=
  forall x, (forall y, span VIDEO 4000 y -> as_sep k y x) -> ld8 k' x = ld8 k x.

(** The cursor the display controller was last told is the position. *)
Definition cursor_shown (k : kernel) : Prop :=
  exists hi lo r, io_log k =
    Out hi DATA_PORT :: Out 0x0E INIT_PORT :: Out lo DATA_PORT :: Out 0x0F INIT_PORT :: r /\
    256 * hi + lo = 80 * screen_y k + screen_x k.

(** ** Frames *)

#[export] Instance con_frame_preorder : PreOrder con_frame.
Proof.
  split.
  - intros []; unfold con_frame; simpl. by destruct k_io.
  - intros [? [] ? ? ? ? ? ? ? ? ? ? ?] [? [] ? ? ? ? ? ? ? ? ? ? ?] [? [] ? ? ? ? ? ? ? ? ? ? ?].
    unfold con_frame; simpl. congruence.
Qed.

Lemma con_frame_pg k k' : con_frame k k' -> k_pg k' = k_pg k.
Proof. intros H. by rewrite H. Qed.

Lemma con_frame_faults k k' : con_frame k k' -> k_faults k' = k_faults k.
Proof. intros H. by rewrite H. Qed.

Lemma con_frame_phys k k' a : con_frame k k' -> phys k' a = phys k a.
Proof. intros H. unfold phys. by rewrite (con_frame_pg _ _ H). Qed.

Lemma con_frame_ok k k' a : con_frame k k' -> as_ok k a -> as_ok k' a.
Proof. intros H Ha. simpl in *. by rewrite (con_frame_phys _ _ _ H). Qed.

Lemma con_frame_sep k k' a b : con_frame k k' -> as_sep k a b -> as_sep k' a b.
Proof. intros H Ha. simpl in *. intros p q. rewrite !(con_frame_phys _ _ _ H). apply Ha. Qed.

Lemma con_frame_region k k' P : con_frame k k' -> region k P -> region k' P.
Proof. intros H [Ho Hs]. split; intros; eauto using con_frame_ok, con_frame_sep. Qed.

Lemma con_frame_st8 a v k : as_ok k a -> con_frame k (st8 a v k).
Proof.
  intros [p Hp]. unfold con_frame. simpl. rewrite Hp. destruct k as [? [] ? ? ? ? ? ? ? ? ? ? ?].
  done.
Qed.

Lemma con_frame_outb d p k : con_frame k (outb d p k).
Proof. done. Qed.

Lemma con_frame_screen_x x k : con_frame k (set_screen_x x k).
Proof. by destruct k as [? [] ? ? ? ? ? ? ? ? ? ? ?]. Qed.

Lemma con_frame_screen_y x k : con_frame k (set_screen_y x k).
Proof. by destruct k as [? [] ? ? ? ? ? ? ? ? ? ? ?]. Qed.

Lemma k_con_st8 a v k : k_con (st8 a v k) = k_con k.
Proof. simpl. by destruct (phys k a). Qed.

Lemma io_log_st8 a v k : k_io (st8 a v k) = k_io k.
Proof. simpl. by destruct (phys k a). Qed.

(** A step of the console: the frames, and what it does to the cells. *)
Record con_step (k k' : kernel) (l : list cell) : Prop := {
  cs_frame : con_frame k k';
  cs_mem : mem_frame k k';
  cs_cells : cells k' = l;
}.

Lemma length_cells k : length (cells k) = 2000%nat.
Proof. unfold cells. by rewrite length_map, length_seqZ. Qed.

Lemma aget_cells k i : 0 <= i < 2000 ->
  aget (cells k) i = Some (ld8 k (VIDEO + 2 * i), ld8 k (VIDEO + 2 * i + 1)).
Proof.
  intros Hi. unfold aget. rewrite (proj2 (in_range_true _ _)) by (rewrite length_cells; lia).
  unfold cells. rewrite list_lookup_fmap, lookup_seqZ_lt by lia.
  by replace (0 + Z.of_nat (Z.to_nat i)) with i by lia.
Qed.

Lemma cells_ext k l : length l = 2000%nat ->
  (forall i, 0 <= i < 2000 ->
     aget l i = Some (ld8 k (VIDEO + 2 * i), ld8 k (VIDEO + 2 * i + 1))) -> cells k = l.
Proof.
  intros Hl H. apply aget_ext; rewrite length_cells; [done|]. intros i Hi.
  rewrite aget_cells, H by lia. done.
Qed.

Lemma con_step_trans k1 k2 k3 l l' :
  con_step k1 k2 l -> con_step k2 k3 l' -> con_step k1 k3 l'.
Proof.
  intros [F1 M1 C1] [F2 M2 C2]. split; [by transitivity k2| |done].
  intros x Hx. rewrite M2, M1; [done|done|]. intros y Hy. eapply con_frame_sep; eauto.
Qed.

(** Ports and the position are not memory. *)
Lemma con_step_nomem k k' : con_frame k k' -> k_mem k' = k_mem k -> con_step k k' (cells k).
Proof.
  intros F M. assert (E : forall x, ld8 k' x = ld8 k x).
  { intros x. simpl. by rewrite (con_frame_phys _ _ _ F), M. }
  split; [done|intros x _; apply E|]. unfold cells. apply map_ext. intros i. by rewrite !E.
Qed.

Lemma shiftl_1 z : Z.shiftl z 1 = 2 * z.
Proof. rewrite Z.shiftl_mul_pow2 by lia. lia. Qed.

Lemma put_cell_eq i c k : 0 <= i < 2000 ->
  put_cell i c k = st8 (VIDEO + 2 * i + 1) ATTRIB (st8 (VIDEO + 2 * i) c k).
Proof. intros. unfold put_cell. rewrite shiftl_1, !u32_small by (unfold VIDEO; lia). done. Qed.

Lemma put_cell_con i c k : k_con (put_cell i c k) = k_con k /\ k_io (put_cell i c k) = k_io k.
Proof. unfold put_cell. by rewrite !k_con_st8, !io_log_st8. Qed.

Lemma mapped_span k a n : mapped k -> VIDEO <= a -> a + n <= VIDEO + 4000 -> region k (span a n).
Proof. intros Hm Ha Hn. eapply region_mono; [|exact Hm]. unfold span, VIDEO in *. lia. Qed.

Lemma put_cell_step i c k : mapped k -> 0 <= i < 2000 ->
  con_step k (put_cell i c k) (aset (cells k) i (u8 c, 7)).
Proof.
  intros Hm Hi. rewrite put_cell_eq by done. pose proof Hm as [Hok Hsep]. unfold span in *.
  assert (F1 : con_frame k (st8 (VIDEO + 2 * i) c k)) by (apply con_frame_st8, Hok; lia).
  split.
  - etrans; [exact F1|]. apply con_frame_st8. eapply con_frame_ok; [exact F1|]. apply Hok. lia.
  - intros x Hx. unfold span in Hx.
    rewrite !ld8_st8_sep; [done|apply Hx; lia|]. apply as_sep_st8, Hx. lia.
  - apply cells_ext; [by rewrite length_aset, length_cells|]. intros j Hj.
    rewrite aget_aset, aget_cells by done.
    destruct (Z.eqb_spec i j) as [->|Hne]; cbn [andb].
    + rewrite (proj2 (in_range_true _ _)) by (rewrite length_cells; lia).
      rewrite ld8_st8_eq by (apply as_ok_st8, Hok; lia).
      rewrite ld8_st8_sep by (apply as_sep_st8, Hsep; lia).
      by rewrite ld8_st8_eq by (apply Hok; lia).
    + rewrite !ld8_st8_sep; try (try apply as_sep_st8; apply Hsep; lia). done.
Qed.

(** ** Loops over cells *)

(** Blanking [n] cells from [base]; the body may read the position. *)
Lemma blank_loop (base : console -> Z) n k :
  mapped k -> 0 <= n -> 0 <= base (k_con k) -> base (k_con k) + n <= 2000 ->
  let k' := for_range 0 n (fun i k => put_cell (base (k_con k) + i) 32 k) k in
  exists l, con_step k k' l /\ k_con k' = k_con k /\ k_io k' = k_io k /\
    length l = 2000%nat /\
    forall j, 0 <= j < 2000 -> aget l j =
      if (base (k_con k) <=? j) && (j <? base (k_con k) + n) then Some blank else aget (cells k) j.
Proof.
  intros Hm Hn Hb Hbn. cbv zeta.
  apply (for_range_inv 0 n _ k (fun i t => exists l, con_step k t l /\ k_con t = k_con k /\
    k_io t = k_io k /\ length l = 2000%nat /\ forall j, 0 <= j < 2000 -> aget l j =
      if (base (k_con k) <=? j) && (j <? base (k_con k) + i) then Some blank
      else aget (cells k) j)); [done| |].
  - exists (cells k). split_and!; auto using length_cells.
    + by apply con_step_nomem.
    + intros j Hj. bdestr; simpl; done || lia.
  - intros i t Hi (l & Hs & Hc & Ho & Hl & H). rewrite Hc.
    assert (Hmt : mapped t) by (eapply con_frame_region; [apply Hs|done]).
    pose proof (put_cell_step (base (k_con k) + i) 32 t Hmt ltac:(lia)) as Hp.
    destruct (put_cell_con (base (k_con k) + i) 32 t) as [E1 E2].
    eexists. split_and!; [eapply con_step_trans; eauto|by rewrite E1|by rewrite E2| |].
    + by rewrite length_aset, length_cells.
    + intros j Hj. rewrite (cs_cells _ _ _ Hs), aget_aset.
      rewrite (proj2 (in_range_true l _)) by lia. rewrite andb_true_r.
      rewrite H by done. bdestr; cbn [andb]; done || lia.
Qed.

Lemma update_cursor_step x y k :
  con_step k (update_cursor x y k) (cells k) /\ k_con (update_cursor x y k) = k_con k.
Proof. split; [by apply con_step_nomem|done]. Qed.

Lemma cursor_shown_update k :
  0 <= screen_x k < 80 -> 0 <= screen_y k < 25 ->
  cursor_shown (update_cursor (screen_x k) (screen_y k) k).
Proof.
  intros Hx Hy. unfold cursor_shown, update_cursor, outb.
  cbn [k_io with_k_io io_log k_con].
  unfold NUM_COLS. set (p := screen_y k * 80 + screen_x k).
  assert (Hp : 0 <= p < 2000) by (unfold p; lia).
  rewrite !u8_u8, (u16_small p) by lia. do 3 eexists; split; [reflexivity|].
  rewrite !land_255_mod, !u8_u8, Z.shiftr_div_pow2 by lia. unfold u8.
  change (screen_y _) with (screen_y k). change (screen_x _) with (screen_x k).
  change (2 ^ 8) with 256. unfold p. dlia.
Qed.

(** Blanking the whole screen. *)
Lemma blank_screen k : mapped k ->
  let k' := for_range 0 (NUM_ROWS * NUM_COLS) (fun i k => put_cell i 32 k) k in
  con_step k k' (replicate 2000 blank).
Proof.
  intros Hm. destruct (blank_loop (fun _ => 0) 2000 k) as (l & Hs & _ & _ & Hl & H);
    try done; cbn beta in *.
  replace l with (replicate 2000 blank) in Hs; [exact Hs|].
  apply aget_ext; [by rewrite length_replicate|]. rewrite length_replicate. intros i Hi.
  rewrite aget_replicate, (proj2 (in_range_true _ _)) by (by rewrite length_replicate).
  rewrite H by lia. bdestr; simpl; done || lia.
Qed.

(** ** Scrolling *)

Lemma only_mem_con k k' : only_mem k k' -> con_frame k k' /\ k_con k' = k_con k.
Proof.
  unfold only_mem, con_frame. destruct k as [? [] ? ? ? ? ? ? ? ? ? ? ?], k' as [? [] ? ? ? ? ? ? ? ? ? ? ?].
  cbn. intros [= ]. subst. done.
Qed.

Lemma scroll_memmove k : mapped k ->
  let k' := memmove VIDEO (VIDEO + Z.shiftl NUM_COLS 1)
              (Z.shiftl (NUM_COLS * (NUM_ROWS - 1)) 1) k in
  con_step k k' (drop 80 (cells k) ++ drop 1920 (cells k)) /\ k_con k' = k_con k.
Proof.
  intros Hm. change (VIDEO + Z.shiftl NUM_COLS 1) with (VIDEO + 160). rewrite memmove_up by lia.
  change (Z.to_nat _) with (Z.to_nat 3840). cbv zeta. pose proof Hm as [Hok Hsep].
  destruct (only_mem_con k (copy_up (Z.to_nat 3840) (VIDEO + 160) VIDEO k)) as [F C].
  { apply only_mem_copy_up; try (unfold VIDEO; lia). intros a Ha. apply Hok. unfold span in *; lia. }
  split; [|done]. split; [done| |].
  - intros x Hx. apply copy_up_other; try (unfold VIDEO; lia).
    intros y Hy. apply Hx. unfold span in *; lia.
  - apply cells_ext; [by rewrite length_app, !length_drop, length_cells|]. intros i Hi.
    assert (E : forall a, span VIDEO 4000 a ->
      ld8 (copy_up (Z.to_nat 3840) (VIDEO + 160) VIDEO k) a =
      ld8 k (if a <? VIDEO + 3840 then a + 160 else a)).
    { intros a Ha. unfold span in Ha. rewrite copy_up_at;
        [|unfold VIDEO; lia..|eapply region_mono; [|exact Hm]; unfold span; lia].
      rewrite (proj2 (Z.leb_le VIDEO a)) by lia. cbn [andb].
      destruct (Z.ltb_spec a (VIDEO + 3840)); [f_equal; lia|done]. }
    rewrite !E by (unfold span; lia).
    unfold aget. rewrite (proj2 (in_range_true _ _))
      by (rewrite length_app, !length_drop, length_cells; lia).
    pose proof (aget_cells k) as H. unfold aget in H.
    destruct (Z.ltb_spec (VIDEO + 2 * i) (VIDEO + 3840)).
    + rewrite (proj2 (Z.ltb_lt (VIDEO + 2 * i + 1) _)) by lia.
      rewrite lookup_app_l, lookup_drop by (rewrite length_drop, length_cells; lia).
      specialize (H (i + 80) ltac:(lia)). rewrite (proj2 (in_range_true _ _)) in H
        by (rewrite length_cells; lia).
      replace (80 + Z.to_nat i)%nat with (Z.to_nat (i + 80)) by lia.
      etrans; [exact H|]. do 3 f_equal; lia.
    + rewrite (proj2 (Z.ltb_ge (VIDEO + 2 * i + 1) _)) by lia.
      rewrite lookup_app_r, length_drop, length_cells, lookup_drop
        by (rewrite length_drop, length_cells; lia).
      specialize (H i ltac:(lia)). rewrite (proj2 (in_range_true _ _)) in H
        by (rewrite length_cells; lia).
      replace (1920 + (Z.to_nat i - (2000 - 80)))%nat with (Z.to_nat i) by lia. done.
Qed.

Lemma scroll_blank (l l' : list cell) :
  length l = 2000%nat -> length l' = 2000%nat ->
  (forall j, 0 <= j < 2000 -> aget l' j =
     if (1920 <=? j) && (j <? 2000) then Some blank
     else aget (drop 80 l ++ drop 1920 l) j) -> l' = scroll l.
Proof.
  intros Hl Hl' H. assert (Hs : length (scroll l) = 2000%nat)
    by (unfold scroll; rewrite length_app, length_drop, length_replicate; lia).
  apply aget_ext; [lia|]. intros j Hj. rewrite H by lia.
  unfold aget. rewrite !(proj2 (in_range_true _ _))
    by (rewrite ?length_app, ?length_drop, ?Hs; lia).
  unfold scroll. destruct (Z.leb_spec 1920 j); cbn [andb].
  - rewrite (proj2 (Z.ltb_lt j 2000)) by lia.
    rewrite lookup_app_r, lookup_replicate_2 by (rewrite length_drop; lia). done.
  - rewrite !lookup_app_l by (rewrite length_drop; lia). done.
Qed.

Lemma with_xy x y k : con_step k (set_screen_x x (set_screen_y y k)) (cells k).
Proof.
  apply con_step_nomem; [|done].
  etrans; [apply con_frame_screen_y|apply con_frame_screen_x].
Qed.

Lemma putc_newline_step k : mapped k -> 0 <= screen_y k < 25 ->
  let k' := putc_newline k in
  con_step k k' (if screen_y k =? 24 then scroll (cells k) else cells k) /\
  screen_x k' = 0 /\ screen_y k' = (if screen_y k =? 24 then 24 else screen_y k + 1).
Proof.
  intros Hm Hy. cbv zeta. unfold putc_newline.
  change (screen_y k =? NUM_ROWS - 1) with (screen_y k =? 24).
  destruct (Z.eqb_spec (screen_y k) 24) as [E|E]; [|split; [apply with_xy|done]].
  destruct (scroll_memmove k Hm) as [Hs Hc]. revert Hs Hc.
  generalize (memmove VIDEO (VIDEO + Z.shiftl NUM_COLS 1)
    (Z.shiftl (NUM_COLS * (NUM_ROWS - 1)) 1) k) as k1. intros k1 Hs Hc.
  assert (Hm1 : mapped k1) by (eapply con_frame_region; [apply Hs|done]).
  destruct (blank_loop (fun c => NUM_COLS * screen_y c) NUM_COLS k1) as (l & Hs2 & Hc2 & _ & Hl & H);
    [done|rewrite ?Hc, ?E; unfold NUM_COLS; lia..|]. cbn beta in *.
  revert Hs2 Hc2. generalize (for_range 0 NUM_COLS
    (fun i k => put_cell (NUM_COLS * screen_y k + i) 32 k) k1) as k2. intros k2 Hs2 Hc2.
  split; [|split; [done|by cbn; rewrite Hc2, Hc]].
  rewrite <- (scroll_blank (cells k) l); auto using length_cells.
  - eapply con_step_trans; [eapply con_step_trans; eassumption|].
    rewrite <- (cs_cells _ _ _ Hs2). apply con_step_nomem; [apply con_frame_screen_x|done].
  - intros j Hj. rewrite H, (cs_cells _ _ _ Hs) by done. rewrite Hc, E. done.
Qed.

(** ** Refinement *)

(** [k'] is a good console state that shows [a], reached from [k] without a
    fault and without changing anything but the screen. *)
Record con_run (k k' : kernel) (a : aconsole) : Prop := {
  cr_frame : con_frame k k';
  cr_mem : mem_frame k k';
  cr_abs : abs_console k' = a;
  cr_ok : console_ok k';
}.

Lemma con_run_trans k1 k2 k3 a b : con_run k1 k2 a -> con_run k2 k3 b -> con_run k1 k3 b.
Proof.
  intros [F1 M1 A1 O1] [F2 M2 A2 O2]. split; [by transitivity k2| |done|done].
  intros x Hx. rewrite M2, M1; [done|done|]. intros y Hy. eapply con_frame_sep; eauto.
Qed.

Lemma con_run_refl k : console_ok k -> con_run k k (abs_console k).
Proof. intros. by split. Qed.

(** A step followed by the cursor update is a run. *)
Lemma con_step_run k k' l :
  mapped k -> con_step k k' l -> 0 <= screen_x k' < 80 -> 0 <= screen_y k' < 25 ->
  let k'' := update_cursor (screen_x k') (screen_y k') k' in
  con_run k k'' (mkA l (screen_x k') (screen_y k')) /\ cursor_shown k''.
Proof.
  intros Hm Hs Hx Hy. cbv zeta. split; [|by apply cursor_shown_update].
  destruct (update_cursor_step (screen_x k') (screen_y k') k') as [Hu Ec].
  revert Hu Ec. generalize (update_cursor (screen_x k') (screen_y k') k') as k2. intros k2 Hu Ec.
  pose proof (con_step_trans _ _ _ _ _ Hs Hu) as Hsu. destruct Hsu as [F M C]. split; auto.
  - unfold abs_console. by rewrite C, Ec, (cs_cells _ _ _ Hs).
  - unfold console_ok. rewrite Ec. split_and!; try lia. eapply con_frame_region; eauto.
Qed.

Lemma con_step_run_at k k' l x y :
  mapped k -> con_step k k' l -> screen_x k' = x -> screen_y k' = y ->
  0 <= x < 80 -> 0 <= y < 25 ->
  let k'' := update_cursor (screen_x k') (screen_y k') k' in
  con_run k k'' (mkA l x y) /\ cursor_shown k''.
Proof. intros Hm Hs <- <- Hx Hy. by apply con_step_run. Qed.

Lemma putc_advance_step k : 0 <= screen_x k < 80 -> 0 <= screen_y k < 25 ->
  let k' := putc_advance k in
  con_step k k' (cells k) /\ screen_x k' = (screen_x k + 1) mod 80 /\
  screen_y k' = (screen_y k + (screen_x k + 1) / 80) mod 25.
Proof.
  intros Hx Hy. unfold putc_advance, NUM_COLS, NUM_ROWS. cbn -[Z.add Z.rem Z.quot Z.modulo Z.div cells].
  rewrite Z.quot_div_nonneg, !Z.rem_mod_nonneg by (try apply Z.add_nonneg_nonneg; try apply Z.div_pos; lia).
  split; [|done]. apply con_step_nomem; [|done].
  etrans; [apply con_frame_screen_x|]. etrans; [apply con_frame_screen_y|]. apply con_frame_screen_x.
Qed.

Lemma putc_corner_step k : mapped k -> screen_y k = 24 ->
  let k' := putc_corner k in
  con_step k k' (scroll (cells k)) /\ screen_x k' = 0 /\ screen_y k' = 24.
Proof.
  intros Hm Hy. cbv zeta. unfold putc_corner.
  pose proof (con_step_nomem k _ (con_frame_screen_x (screen_x k + 1) k) eq_refl) as H1.
  revert H1. assert (E : screen_y (set_screen_x (screen_x k + 1) k) = 24) by done. revert E.
  generalize (set_screen_x (screen_x k + 1) k) as k1. intros k1 E H1.
  assert (Hm1 : mapped k1) by (eapply con_frame_region; [apply H1|done]).
  destruct (putc_newline_step k1 Hm1 ltac:(lia)) as (Hs & Ex & Ey). rewrite E, Z.eqb_refl in Hs, Ey.
  revert Hs Ex Ey. generalize (putc_newline k1) as k2. intros k2 Hs Ex Ey.
  destruct (update_cursor_step (screen_x k2) (screen_y k2) k2) as [Hu Ec].
  rewrite Ec. split; [|done].
  rewrite (cs_cells _ _ _ Hs), (cs_cells _ _ _ H1) in Hu.
  eapply con_step_trans; [|exact Hu]. eapply con_step_trans; eassumption.
Qed.

Lemma putc_run c k : console_ok k ->
  con_run k (putc c k) (abs_putc (abs_console k) (u8 c)) /\ cursor_shown (putc c k).
Proof.
  intros (Hm & Hx & Hy). unfold putc.
  enough (H : forall k1 l x y, con_step k k1 l -> screen_x k1 = x -> screen_y k1 = y ->
    0 <= x < 80 -> 0 <= y < 25 -> mkA l x y = abs_putc (abs_console k) (u8 c) ->
    let k' := update_cursor (screen_x k1) (screen_y k1) k1 in
    con_run k k' (abs_putc (abs_console k) (u8 c)) /\ cursor_shown k').
  2: { intros k1 l x y Hs Ex Ey Hx1 Hy1 <-. by apply con_step_run_at. }
  unfold abs_putc, abs_newline, abs_console in *. cbn [a_cells a_x a_y] in *.
  destruct ((u8 c =? 10) || (u8 c =? 13)).
  { destruct (putc_newline_step k Hm Hy) as (Hs & Ex & Ey).
    apply (H _ _ _ _ Hs Ex Ey); [lia|bdestr; lia|by destruct (screen_y k =? 24)]. }
  change (NUM_ROWS - 1) with 24. change (NUM_COLS - 1) with 79. change NUM_COLS with 80.
  pose proof (put_cell_step (80 * screen_y k + screen_x k) (u8 c) k Hm ltac:(lia)) as Hp.
  destruct (put_cell_con (80 * screen_y k + screen_x k) (u8 c) k) as [Ec _].
  revert Hp Ec H. generalize (put_cell (80 * screen_y k + screen_x k) (u8 c) k) as k1.
  rewrite u8_u8. set (l := aset (cells k) (80 * screen_y k + screen_x k) (u8 c, 7)).
  intros k1 Hp Ec H.
  assert (Hm1 : mapped k1) by (eapply con_frame_region; [apply Hp|done]).
  destruct ((screen_y k =? 24) && (screen_x k =? 79)) eqn:Ecor.
  - apply andb_prop in Ecor as [E1%Z.eqb_eq E2%Z.eqb_eq].
    destruct (putc_corner_step k1 Hm1) as (Hs & Ex & Ey); [by rewrite Ec|].
    apply (H _ _ _ _ (con_step_trans _ _ _ _ _ Hp Hs) Ex Ey); try lia.
    by rewrite (cs_cells _ _ _ Hp), E1, E2.
  - destruct (putc_advance_step k1) as (Hs & Ex & Ey); rewrite ?Ec; try lia.
    rewrite Ec in Ex, Ey.
    apply (H _ _ _ _ (con_step_trans _ _ _ _ _ Hp Hs) Ex Ey); [dlia..|].
    rewrite (cs_cells _ _ _ Hp). destruct (Z.eqb_spec (screen_x k) 79) as [E|E].
    + destruct (Z.eqb_spec (screen_y k) 24); [done|]. f_equal; dlia.
    + f_equal; dlia.
Qed.

(** ** Strings and formats *)

(** The source reads as the C string [l] whatever the console does. *)
Definition src_str (s : src) (k : kernel) (l : list Z) : Prop :=
  Forall (fun c => 0 < c < 256) l /\
  forall k', con_frame k k' -> mem_frame k k' ->
    forall i, 0 <= i <= Z.of_nat (length l) -> s k' i = agetZ (l ++ [0]) i.

Lemma src_str_run s k k' a l : con_run k k' a -> src_str s k l -> src_str s k' l.
Proof.
  intros Hr [Hl H]. split; [done|]. intros k2 F M. apply H.
  - etrans; [apply Hr|done].
  - intros x Hx. rewrite M; [by apply Hr|]. intros y Hy. eapply con_frame_sep; [apply Hr|auto].
Qed.

Lemma src_str_lit l k : Forall (fun c => 0 < c < 256) l -> src_str (lit l) k l.
Proof.
  intros Hl. split; [done|]. intros k' _ _ i Hi. unfold lit.
  destruct (decide (i < Z.of_nat (length l))).
  - by rewrite agetZ_app_l by lia.
  - replace i with (Z.of_nat (length l)) by lia. rewrite agetZ_app_len.
    unfold agetZ. by rewrite (proj2 (aget_None _ _)) by lia.
Qed.

Lemma src_str_local m a l k : cstr m a l -> src_str (at_local m a) k l.
Proof.
  intros [Hl H]. split; [done|]. intros k' _ _ i Hi. apply H. rewrite length_app. simpl. lia.
Qed.

(** A C string in memory that is not on the screen. *)
Lemma src_str_addr a l k :
  0 <= a -> a + Z.of_nat (length l) < 2 ^ 32 -> cstr k a l ->
  (forall x y, span a (Z.of_nat (length l) + 1) x -> span VIDEO 4000 y -> as_sep k y x) ->
  src_str (at_addr a) k l.
Proof.
  intros Ha Hal [Hl H] Hsep. split; [done|]. intros k' F M i Hi. unfold at_addr.
  rewrite u32_small by lia. rewrite M; [apply H; rewrite length_app; simpl; lia|].
  intros y Hy. apply Hsep; [unfold span; lia|done].
Qed.

Lemma src_str_char s k l i :
  src_str s k l -> 0 <= i < Z.of_nat (length l) -> s k i = agetZ l i /\ 0 < agetZ l i < 256.
Proof.
  intros [Hl H] Hi. rewrite H by (try done; lia). rewrite agetZ_app_l by done.
  split; [done|]. by apply (Forall_agetZ (fun c => 0 < c < 256)).
Qed.

Lemma src_str_nul s k l : src_str s k l -> s k (Z.of_nat (length l)) = 0.
Proof. intros [Hl H]. rewrite H by (try done; lia). apply agetZ_app_len. Qed.

Lemma drop_agetZ (l : list Z) i : 0 <= i < Z.of_nat (length l) ->
  drop (Z.to_nat i) l = agetZ l i :: drop (Z.to_nat (i + 1)) l.
Proof.
  intros Hi. destruct (aget_range_Some l i Hi) as [x Hx]. unfold agetZ. rewrite Hx. simpl.
  unfold aget in Hx. rewrite (proj2 (in_range_true l i) Hi) in Hx.
  rewrite (drop_S l x) by done. f_equal. f_equal. lia.
Qed.

Lemma puts_loop_run s l : forall fuel i k, console_ok k -> src_str s k l ->
  0 <= i <= Z.of_nat (length l) -> Z.of_nat (length l) - i < Z.of_nat fuel ->
  exists k', puts_loop fuel s i k = Some (Z.of_nat (length l), k') /\
    con_run k k' (foldl abs_putc (abs_console k) (drop (Z.to_nat i) l)).
Proof.
  induction fuel as [|f IH]; intros i k Hok Hs Hi Hf; [lia|]. cbn [puts_loop].
  destruct (decide (i = Z.of_nat (length l))) as [->|Hne].
  - rewrite (src_str_nul s k l Hs), Z.eqb_refl. exists k. split; [done|].
    rewrite Nat2Z.id, drop_all. by apply con_run_refl.
  - destruct (src_str_char s k l i Hs) as [-> Hc]; [lia|].
    rewrite (proj2 (Z.eqb_neq _ 0)) by lia.
    destruct (putc_run (agetZ l i) k Hok) as [Hr _].
    destruct (IH (i + 1) (putc (agetZ l i) k)) as (k' & E & Hr'); try lia;
      [apply Hr|eapply src_str_run; eauto|].
    exists k'. split; [done|]. rewrite (drop_agetZ l i) by lia. cbn [foldl].
    rewrite (cr_abs _ _ _ Hr), u8_small in Hr' by lia. eapply con_run_trans; eauto.
Qed.

Lemma puts_run fuel s l k : console_ok k -> src_str s k l -> (length l < fuel)%nat ->
  exists k', puts fuel s k = Some (Z.of_nat (length l), k') /\
    con_run k k' (foldl abs_putc (abs_console k) l).
Proof.
  intros Hok Hs Hf. destruct (puts_loop_run s l fuel 0 k) as (k' & E & H); try done; try lia.
  exists k'. split; [done|]. by rewrite drop_0 in H.
Qed.

(** ** What a format prints *)

Definition conv_x (alternate : bool) (v : Z) : list Z :=
  let d := itoa_chars (u32 v) 16 in
  if alternate then replicate (8 - length d) 48 ++ d else d.
Definition conv_u (v : Z) : list Z := itoa_chars (u32 v) 10.
Definition conv_d (v : Z) : list Z :=
  if s32 v <? 0 then 45 :: itoa_chars (- s32 v) 10 else itoa_chars (s32 v) 10.

(** The characters printed for the rest of a format; [strs] gives the string
    arguments. *)
Fixpoint render (args : Z -> Z) (strs : Z -> list Z) (mode : pf_mode) (l : list Z) (esp : Z)
    : list Z :=
  match l with
  | [] => []
  | c :: r =>
      match mode with
      | Text => if c =? 37 then render args strs (Conv false) r esp
                else c :: render args strs Text r esp
      | Conv alt =>
          if c =? 37 then 37 :: render args strs Text r esp
          else if c =? 35 then render args strs (Conv true) r esp
          else if c =? 120 then conv_x alt (args esp) ++ render args strs Text r (esp + 1)
          else if c =? 117 then conv_u (args esp) ++ render args strs Text r (esp + 1)
          else if c =? 100 then conv_d (args esp) ++ render args strs Text r (esp + 1)
          else if c =? 99 then u8 (args esp) :: render args strs Text r (esp + 1)
          else if c =? 115 then strs esp ++ render args strs Text r (esp + 1)
          else render args strs Text r esp
      end
  end.

(** The indices of the string arguments of a format. *)
Fixpoint str_args (mode : pf_mode) (l : list Z) (esp : Z) : list Z :=
  match l with
  | [] => []
  | c :: r =>
      match mode with
      | Text => str_args (if c =? 37 then Conv false else Text) r esp
      | Conv _ =>
          if c =? 35 then str_args (Conv true) r esp
          else if c =? 115 then esp :: str_args Text r (esp + 1)
          else if (c =? 120) || (c =? 117) || (c =? 100) || (c =? 99)
          then str_args Text r (esp + 1)
          else str_args Text r esp
      end
  end.

(** The format does not end inside a conversion. *)
Fixpoint closed_format (mode : pf_mode) (l : list Z) : bool :=
  match l with
  | [] => match mode with Text => true | Conv _ => false end
  | c :: r =>
      match mode with
      | Text => closed_format (if c =? 37 then Conv false else Text) r
      | Conv _ => closed_format (if c =? 35 then Conv true else Text) r
      end
  end.

Lemma itoa_local v base radix (m : gmap Z Z) :
  0 <= v < 2 ^ 32 -> 2 <= radix <= 36 -> 0 <= base <= 8 ->
  exists m', itoa v base radix m = Some m' /\ cstr m' base (itoa_chars v radix) /\
    forall x, 0 <= x < base -> ld8 m' x = ld8 m x.
Proof.
  intros Hv Hr Hb. destruct (itoa_cstr v base radix m) as (m' & E & Hc & Ho); auto using region_flat; try lia.
  exists m'. split_and!; auto. intros x Hx. apply Ho. intros y Hy. simpl. unfold span in *. lia.
Qed.

Lemma itoa_chars_len v radix b : 0 <= v < 2 ^ 32 -> 2 <= radix <= 36 -> 0 <= b ->
  2 ^ 32 <= radix ^ b -> (length (itoa_chars v radix) <= Z.to_nat b)%nat.
Proof.
  intros Hv Hr Hb Hpow. destruct (itoa_chars_spec v radix Hv Hr) as (_ & _ & Hl & Hp & _).
  cbv zeta in *. destruct (decide (Z.of_nat (length (itoa_chars v radix)) <= b)); [lia|].
  assert (radix ^ b <= radix ^ (Z.of_nat (length (itoa_chars v radix)) - 1))
    by (apply Z.pow_le_mono_r; lia). lia.
Qed.

Lemma printf_u_run v k : console_ok k ->
  exists k', printf_u v k = Some k' /\ con_run k k' (foldl abs_putc (abs_console k) (conv_u v)).
Proof.
  intros Hok. unfold printf_u, conv_u. pose proof (u32_range v) as Hv.
  destruct (itoa_local (u32 v) 0 10 ∅ Hv) as (m & -> & Hc & _); try lia. cbn [mbind option_bind].
  pose proof (itoa_chars_len (u32 v) 10 10 Hv ltac:(lia) ltac:(lia) ltac:(lia)).
  destruct (puts_run 36 (at_local m 0) _ k Hok (src_str_local _ _ _ _ Hc)) as (k' & -> & Hr); [lia|].
  by exists k'.
Qed.

Lemma cstr_ext {S T} `{AddrSpace S} `{AddrSpace T} (m : S) (m' : T) a l :
  (forall i, 0 <= i <= Z.of_nat (length l) -> ld8 m' (a + i) = ld8 m (a + i)) ->
  cstr m a l -> cstr m' a l.
Proof.
  intros E [Hl Hb]. split; [done|]. intros i Hi. rewrite E; [by apply Hb|].
  rewrite length_app in Hi. simpl in Hi. lia.
Qed.

Lemma printf_d_run v k : console_ok k ->
  exists k', printf_d v k = Some k' /\ con_run k k' (foldl abs_putc (abs_console k) (conv_d v)).
Proof.
  intros Hok. unfold printf_d, conv_d. pose proof (s32_range v) as Hv.
  destruct (Z.ltb_spec (s32 v) 0) as [Hneg|Hpos]; rewrite u32_small by lia.
  - destruct (itoa_local (- s32 v) 1 10 (st8 0 45 ∅)) as (m & -> & Hc & Ho); try lia.
    cbn [mbind option_bind].
    assert (Hc' : cstr m 0 (45 :: itoa_chars (- s32 v) 10)).
    { apply cstr_push; [lia|by rewrite Ho by lia|done]. }
    pose proof (itoa_chars_len (- s32 v) 10 10 ltac:(lia) ltac:(lia) ltac:(lia) ltac:(lia)).
    destruct (puts_run 36 (at_local m 0) _ k Hok (src_str_local _ _ _ _ Hc')) as (k' & -> & Hr);
      [simpl; lia|]. by exists k'.
  - destruct (itoa_local (s32 v) 0 10 ∅) as (m & -> & Hc & _); try lia. cbn [mbind option_bind].
    pose proof (itoa_chars_len (s32 v) 10 10 ltac:(lia) ltac:(lia) ltac:(lia) ltac:(lia)).
    destruct (puts_run 36 (at_local m 0) _ k Hok (src_str_local _ _ _ _ Hc)) as (k' & -> & Hr); [lia|].
    by exists k'.
Qed.

Lemma cstr_push_zeros (m : gmap Z Z) a l : forall n, cstr m a l ->
  (forall x, a - Z.of_nat n <= x < a -> ld8 m x = 48) ->
  cstr m (a - Z.of_nat n) (replicate n 48 ++ l).
Proof.
  induction n as [|n IH]; intros Hc Hz; [by rewrite Z.sub_0_r|].
  cbn [replicate app]. apply cstr_push; [lia|apply Hz; lia|].
  replace (a - Z.of_nat (S n) + 1) with (a - Z.of_nat n) by lia.
  apply IH; [done|]. intros x Hx. apply Hz. lia.
Qed.

Lemma pad_loop (m : gmap Z Z) lo : 0 <= lo <= 8 ->
  let m' := for_range lo 8 (fun i m => st8 i 48 m) m in
  (forall x, lo <= x < 8 -> ld8 m' x = 48) /\ (forall x, 8 <= x -> ld8 m' x = ld8 m x).
Proof.
  intros Hlo. cbv zeta. apply (for_range_inv lo 8 _ m (fun j t =>
    (forall x, lo <= x < j -> ld8 t x = 48) /\ (forall x, 8 <= x -> ld8 t x = ld8 m x)));
    [lia|split; [lia|done]|].
  intros i t Hi [H1 H2]. split; intros x Hx.
  - destruct (decide (x = i)) as [->|Hne]; [by rewrite ld8_st8_eq|].
    rewrite ld8_st8_sep by done. apply H1. lia.
  - rewrite ld8_st8_sep; [by apply H2|]. simpl. lia.
Qed.

Lemma printf_x_run alt v k : console_ok k ->
  exists k', printf_x alt v k = Some k' /\
    con_run k k' (foldl abs_putc (abs_console k) (conv_x alt v)).
Proof.
  intros Hok. unfold printf_x, conv_x. pose proof (u32_range v) as Hv.
  pose proof (itoa_chars_len (u32 v) 16 8 Hv ltac:(lia) ltac:(lia) ltac:(lia)) as Hlen.
  destruct alt; cbn [negb].
  - destruct (itoa_local (u32 v) 8 16 ∅ Hv) as (m & -> & Hc & _); try lia.
    cbn [mbind option_bind]. rewrite (strlen_cstr 33 m 8 _ Hc) by lia. cbn [mbind option_bind].
    set (d := itoa_chars (u32 v) 16) in *.
    destruct (pad_loop m (Z.of_nat (length d))) as [Hz Ho]; [lia|]. revert Hz Ho.
    generalize (for_range (Z.of_nat (length d)) 8 (fun i m => st8 i 48 m) m) as m2.
    intros m2 Hz Ho.
    assert (Hc2 : cstr m2 (Z.of_nat (length d)) (replicate (8 - length d) 48 ++ d)).
    { replace (Z.of_nat (length d)) with (8 - Z.of_nat (8 - length d)) by lia.
      apply cstr_push_zeros; [|intros; apply Hz; lia].
      apply (cstr_ext m); [|done]. intros i Hi. apply Ho. lia. }
    destruct (puts_run 64 _ _ k Hok (src_str_local _ _ _ _ Hc2)) as (k' & -> & Hr);
      [rewrite length_app, length_replicate; lia|]. by exists k'.
  - destruct (itoa_local (u32 v) 0 16 ∅ Hv) as (m & -> & Hc & _); try lia.
    cbn [mbind option_bind].
    destruct (puts_run 64 (at_local m 0) _ k Hok (src_str_local _ _ _ _ Hc)) as (k' & -> & Hr);
      [lia|]. by exists k'.
Qed.

Lemma putc_run_foldl c l k k' : 0 <= c < 256 -> console_ok k ->
  con_run (putc c k) k' (foldl abs_putc (abs_console (putc c k)) l) ->
  con_run k k' (foldl abs_putc (abs_console k) (c :: l)).
Proof.
  intros Hc Hok Hr. destruct (putc_run c k Hok) as [Hp _]. cbn [foldl].
  rewrite (cr_abs _ _ _ Hp), u8_small in Hr by lia. eapply con_run_trans; eauto.
Qed.

Lemma con_run_foldl k k1 k2 l1 l2 :
  con_run k k1 (foldl abs_putc (abs_console k) l1) ->
  con_run k1 k2 (foldl abs_putc (abs_console k1) l2) ->
  con_run k k2 (foldl abs_putc (abs_console k) (l1 ++ l2)).
Proof.
  intros H1 H2. rewrite foldl_app. rewrite (cr_abs _ _ _ H1) in H2. eapply con_run_trans; eauto.
Qed.

(** The string arguments a format needs are there, and the fuel covers them. *)
Definition strs_ok (fuel : nat) (args : Z -> Z) (strs : Z -> list Z) (es : list Z) (k : kernel)
    : Prop :=
  Forall (fun e => src_str (at_addr (u32 (args e))) k (strs e) /\ (length (strs e) < fuel)%nat) es.

Lemma strs_ok_run fuel args strs es k k' a :
  con_run k k' a -> strs_ok fuel args strs es k -> strs_ok fuel args strs es k'.
Proof.
  intros Hr H. eapply Forall_impl; [exact H|]. intros e [? ?]. split; [by eapply src_str_run|done].
Qed.

Lemma printf_loop_run fuel format l args strs : forall n mode buf esp k,
  console_ok k -> src_str format k l ->
  strs_ok fuel args strs (str_args mode (drop (Z.to_nat buf) l) esp) k ->
  0 <= buf <= Z.of_nat (length l) -> Z.of_nat (length l) - buf < Z.of_nat n ->
  closed_format mode (drop (Z.to_nat buf) l) = true ->
  exists k', printf_loop n fuel format args mode buf esp k = Some (Z.of_nat (length l), k') /\
    con_run k k' (foldl abs_putc (abs_console k)
      (render args strs mode (drop (Z.to_nat buf) l) esp)).
Proof.
  induction n as [|n IH]; intros mode buf esp k Hok Hs Hst Hb Hn Hcl; [lia|].
  cbn [printf_loop].
  destruct (decide (buf = Z.of_nat (length l))) as [->|Hne].
  { rewrite Nat2Z.id, drop_all in *. destruct mode; [|done].
    rewrite (src_str_nul format k l Hs), Z.eqb_refl. exists k. split; [done|].
    by apply con_run_refl. }
  destruct (src_str_char format k l buf Hs) as [-> Hc]; [lia|].
  rewrite drop_agetZ in Hcl, Hst |- * by lia. revert Hcl Hst Hc.
  generalize (agetZ l buf). intros c Hcl Hst Hc. cbn [closed_format render str_args] in *.
  assert (Hgo : forall k1 l1 mode' esp', con_run k k1 (foldl abs_putc (abs_console k) l1) ->
    closed_format mode' (drop (Z.to_nat (buf + 1)) l) = true ->
    strs_ok fuel args strs (str_args mode' (drop (Z.to_nat (buf + 1)) l) esp') k ->
    exists k', printf_loop n fuel format args mode' (buf + 1) esp' k1
        = Some (Z.of_nat (length l), k') /\
      con_run k k' (foldl abs_putc (abs_console k)
        (l1 ++ render args strs mode' (drop (Z.to_nat (buf + 1)) l) esp'))).
  { intros k1 l1 mode' esp' Hr Hcl' Hst'.
    destruct (IH mode' (buf + 1) esp' k1) as (k' & E & Hr'); try lia; auto;
      [apply Hr|by eapply src_str_run|by eapply strs_ok_run|].
    exists k'. split; [done|]. by eapply con_run_foldl. }
  assert (Hputc : forall c', 0 <= c' < 256 ->
    con_run k (putc c' k) (foldl abs_putc (abs_console k) [c'])).
  { intros c' Hc'. destruct (putc_run c' k Hok) as [Hp _]. by rewrite u8_small in Hp. }
  pose proof (con_run_refl k Hok) as Hid.
  destruct mode as [|alt].
  - rewrite (proj2 (Z.eqb_neq c 0)) by lia.
    destruct (Z.eqb_spec c 37); [by apply (Hgo k [])|].
    rewrite ?(proj2 (Z.eqb_neq c 37)) in Hst by done. apply (Hgo _ [c]); [apply Hputc; lia|done..].
  - destruct (Z.eqb_spec c 35) as [E|]; [rewrite E; by apply (Hgo k [])|].
    destruct (Z.eqb_spec c 37) as [E|]; [rewrite E in Hst; apply (Hgo _ [37]); [apply Hputc; lia|done..]|].
    destruct (Z.eqb_spec c 120) as [E|].
    { rewrite E in Hst. destruct (printf_x_run alt (args esp) k Hok) as (k1 & -> & Hr). by apply Hgo. }
    destruct (Z.eqb_spec c 117) as [E|].
    { rewrite E in Hst. destruct (printf_u_run (args esp) k Hok) as (k1 & -> & Hr). by apply Hgo. }
    destruct (Z.eqb_spec c 100) as [E|].
    { rewrite E in Hst. destruct (printf_d_run (args esp) k Hok) as (k1 & -> & Hr). by apply Hgo. }
    destruct (Z.eqb_spec c 99) as [E|].
    { rewrite E in Hst. apply (Hgo _ [u8 (args esp)]); [apply Hputc, u8_range|done..]. }
    destruct (Z.eqb_spec c 115); [|by apply (Hgo k [])].
    apply Forall_cons in Hst as [[Hstr Hlt] Hst].
    destruct (puts_run fuel _ _ k Hok Hstr Hlt) as (k1 & -> & Hr). by apply Hgo.
Qed.

(** A literal without conversions is printed as it is. *)
Lemma printf_plain_run fuel l args k : console_ok k -> Forall (fun c => 0 < c < 256 /\ c <> 37) l ->
  (length l < fuel)%nat ->
  exists k', printf fuel (lit l) args k = Some (Z.of_nat (length l), k') /\
    con_run k k' (foldl abs_putc (abs_console k) l).
Proof.
  intros Hok Hl Hf.
  assert (H : render args (fun _ => []) Text l 0 = l /\ str_args Text l 0 = [] /\ closed_format Text l = true).
  { clear Hf. induction Hl as [|c l [_ Hc] _ (IH1 & IH2 & IH3)]; cbn [render str_args closed_format]; [done|].
    rewrite (proj2 (Z.eqb_neq c 37) Hc). by rewrite IH1. }
  destruct H as (E1 & E2 & E3).
  destruct (printf_loop_run fuel (lit l) l args (fun _ => []) fuel Text 0 0 k) as (k' & E & Hr); try lia; try done.
  - apply src_str_lit. eapply Forall_impl; [exact Hl|]. by intros c [? _].
  - change (Z.to_nat 0) with O. rewrite drop_0, E2. constructor.
  - exists k'. split; [exact E|]. change (Z.to_nat 0) with O in Hr. by rewrite drop_0, E1 in Hr.
Qed.

(** The screen is mapped whenever the paging invariant holds. *)
Lemma paging_ok_mapped t k : paging_ok t k -> mapped k.
Proof.
  intros Hok. assert (Ht : 0 <= t <= 3) by apply Hok.
  assert (H : forall a, span VIDEO 4000 a -> phys k a = Some (a + t * 4096)).
  { unfold span, VIDEO. intros a Ha. unfold phys. rewrite (translate_low t k a Hok) by lia.
    by rewrite (proj2 (Z.ltb_lt _ _)) by lia. }
  split; simpl.
  - intros a Ha. by rewrite H.
  - intros a b Ha Hb Hne p q. rewrite !H by done. intros [= <-] [= <-]. lia.
Qed.

(** Backspace on the abstract console, away from the home position. *)
Definition abs_backspace (a : aconsole) : aconsole :=
  let l := aset (a_cells a) (80 * a_y a + a_x a - 1) blank in
  if a_x a =? 0 then mkA l 79 (a_y a - 1) else mkA l (a_x a - 1) (a_y a).

Lemma backspace_run k : console_ok k -> (screen_x k, screen_y k) <> (0, 0) ->
  con_run k (backspace k) (abs_backspace (abs_console k)) /\ cursor_shown (backspace k).
Proof.
  intros (Hm & Hx & Hy) Hne. unfold backspace. change NUM_COLS with 80.
  assert (Hpos : 0 <= 80 * screen_y k + screen_x k - 1 < 2000).
  { destruct (decide (screen_x k = 0)) as [E|E]; [|lia].
    destruct (decide (screen_y k = 0)) as [E'|E']; [|lia]. rewrite E, E' in Hne. done. }
  pose proof (put_cell_step _ 32 k Hm Hpos) as Hp.
  destruct (put_cell_con (80 * screen_y k + screen_x k - 1) 32 k) as [Ec _].
  revert Hp Ec. generalize (put_cell (80 * screen_y k + screen_x k - 1) 32 k) as k1.
  intros k1 Hp Ec. change (u8 32, 7) with blank in Hp.
  unfold abs_backspace, abs_console; cbn [a_cells a_x a_y].
  set (l := aset (cells k) (80 * screen_y k + screen_x k - 1) blank) in *.
  rewrite Ec. destruct (Z.eqb_spec (screen_x k) 0) as [Ex|Ex]; cbn [negb].
  - rewrite (proj2 (Z.eqb_neq (screen_y k) 0)) by (intros E; lia). cbn [negb].
    apply con_step_run_at; auto; cbn; try lia.
    eapply con_step_trans; [exact Hp|]. rewrite <- (cs_cells _ _ _ Hp). apply con_step_nomem; [|done].
    etrans; [apply con_frame_screen_x|apply con_frame_screen_y].
  - apply con_step_run_at; auto; cbn; rewrite ?Ec; try lia.
    eapply con_step_trans; [exact Hp|]. rewrite <- (cs_cells _ _ _ Hp).
    apply con_step_nomem; [apply con_frame_screen_x|done].
Qed.

Lemma clear_kb_run k : mapped k ->
  con_run k (clear_kb k) (mkA (replicate 2000 blank) 0 0) /\ cursor_shown (clear_kb k).
Proof.
  intros Hm. unfold clear_kb. pose proof (blank_screen k Hm) as Hb. cbv zeta in Hb. revert Hb.
  generalize (for_range 0 (NUM_ROWS * NUM_COLS) (fun i k => put_cell i 32 k) k) as k1. intros k1 Hb.
  apply con_step_run_at; try done.
  eapply con_step_trans; [exact Hb|]. rewrite <- (cs_cells _ _ _ Hb). apply con_step_nomem; [|done].
  etrans; [apply con_frame_screen_x|apply con_frame_screen_y].
Qed.

Lemma fold_zeros n :
  fold_left (fun acc c => acc * 16 + digit_val c) (replicate n 48) 0 = 0.
Proof. induction n as [|n IH]; [done|exact IH]. Qed.

(** ** Correctness *)

(** C13: putc implements the abstract console: a printable character lands at
    the position with the attribute and the position advances, a newline (or a
    character in the last column of the last row) scrolls the screen by one row
    and blanks the bottom one; the position stays on the screen, the hardware
    cursor follows it, no access faults, and nothing else in memory or in the
    kernel changes. *)
Theorem putc_refines c k : console_ok k ->
  con_run k (putc c k) (abs_putc (abs_console k) (u8 c)) /\ cursor_shown (putc c k).
Proof. apply putc_run. Qed.

(** C14: printf terminates on a NUL-terminated format that does not end inside a
    conversion, returns its length, and prints exactly the rendering of the
    format: text, %%, %c, %s, %d, %u, %x and %#x with their arguments in
    order. *)
Theorem printf_refines fuel format l args strs k :
  console_ok k -> src_str format k l -> strs_ok fuel args strs (str_args Text l 0) k ->
  closed_format Text l = true -> (length l < fuel)%nat ->
  exists k', printf fuel format args k = Some (Z.of_nat (length l), k') /\
    con_run k k' (foldl abs_putc (abs_console k) (render args strs Text l 0)).
Proof.
  intros Hok Hs Hst Hcl Hf.
  destruct (printf_loop_run fuel format l args strs fuel Text 0 0 k) as (k' & E & Hr); try done; try lia.
  exists k'. split; [done|]. by rewrite drop_0 in Hr.
Qed.

(** %#x prints exactly eight hexadecimal digits, and they denote the
    argument. *)
Theorem printf_hex_aligned fuel args k : console_ok k -> (3 < fuel)%nat ->
  exists k' l, printf fuel (lit (codes "%#x")) args k = Some (3, k') /\
    con_run k k' (foldl abs_putc (abs_console k) l) /\
    length l = 8%nat /\ parse_digits 16 l = u32 (args 0).
Proof.
  intros Hok Hf.
  assert (Hs : src_str (lit (codes "%#x")) k (codes "%#x")).
  { apply src_str_lit. by repeat constructor. }
  destruct (printf_loop_run fuel _ _ args (fun _ => []) fuel Text 0 0 k Hok Hs)
    as (k' & E & Hr); try (done || simpl; lia); [constructor|].
  exists k', (conv_x true (args 0)). split_and!; [done| | |].
  - by rewrite <- (app_nil_r (conv_x true (args 0))).
  - unfold conv_x. pose proof (itoa_chars_len (u32 (args 0)) 16 8 (u32_range _)
      ltac:(lia) ltac:(lia) ltac:(lia)). rewrite length_app, length_replicate. lia.
  - unfold conv_x. destruct (itoa_chars_spec (u32 (args 0)) 16 (u32_range _)) as [Hp _]; [lia|].
    cbv zeta in Hp. etrans; [|exact Hp]. unfold parse_digits.
    rewrite fold_left_app. by rewrite fold_zeros.
Qed.

(** typing a character and erasing it leaves the position where it was,
    with a blank cell there, everywhere but in the bottom right corner (where
    the screen has scrolled). *)
Theorem backspace_undoes_putc c k :
  console_ok k -> c <> 10 -> c <> 13 -> 0 <= c < 256 ->
  (screen_x k, screen_y k) <> (79, 24) ->
  con_run k (backspace (putc c k))
    (mkA (aset (cells k) (80 * screen_y k + screen_x k) blank) (screen_x k) (screen_y k)).
Proof.
  intros Hok H10 H13 Hc Hcor. pose proof Hok as (_ & Hx & Hy).
  destruct (putc_run c k Hok) as [Hp _].
  assert (Ep : abs_console (putc c k) = abs_putc (abs_console k) (u8 c)) by apply Hp.
  rewrite u8_small in Ep by lia. unfold abs_putc, abs_newline in Ep; cbn [a_cells a_x a_y abs_console] in Ep.
  rewrite (proj2 (Z.eqb_neq c 10)), (proj2 (Z.eqb_neq c 13)) in Ep by done. cbn [orb] in Ep.
  assert (Hnc : screen_x k = 79 -> screen_y k <> 24) by (intros E E'; by rewrite E, E' in Hcor).
  assert (Hne : (screen_x (putc c k), screen_y (putc c k)) <> (0, 0)).
  { change (screen_x (putc c k)) with (a_x (abs_console (putc c k))).
    change (screen_y (putc c k)) with (a_y (abs_console (putc c k))). rewrite Ep.
    destruct (Z.eqb_spec (screen_x k) 79); [destruct (Z.eqb_spec (screen_y k) 24)|];
      cbn [a_x a_y]; intros [= ]; lia. }
  destruct (backspace_run (putc c k) (cr_ok _ _ _ Hp) Hne) as [Hb _].
  rewrite Ep in Hb. enough (E : abs_backspace _ = _) by (rewrite E in Hb; eapply con_run_trans; eauto).
  unfold abs_backspace.
  destruct (Z.eqb_spec (screen_x k) 79) as [E79|E79]; [rewrite (proj2 (Z.eqb_neq (screen_y k) 24)) by auto|];
    cbn [a_cells a_x a_y].
  - rewrite Z.eqb_refl. replace (80 * (screen_y k + 1) + 0 - 1) with (80 * screen_y k + screen_x k) by lia.
    rewrite aset_aset_eq. f_equal; lia.
  - rewrite (proj2 (Z.eqb_neq _ 0)) by lia.
    replace (80 * screen_y k + (screen_x k + 1) - 1) with (80 * screen_y k + screen_x k) by lia.
    rewrite aset_aset_eq. f_equal; lia.
Qed.

Lemma clear_run k : mapped k ->
  con_run k (clear k) (mkA (replicate 2000 blank) 0 0) /\ cursor_shown (clear k).
Proof.
  intros Hm. unfold clear. pose proof (blank_screen k Hm) as Hb. cbv zeta in Hb. revert Hb.
  generalize (for_range 0 (NUM_ROWS * NUM_COLS) (fun i k => put_cell i 32 k) k) as k1. intros k1 Hb.
  assert (Hm1 : mapped k1) by (eapply con_frame_region; [apply Hb|done]).
  destruct (clear_kb_run k1 Hm1) as [[F M A O] Hc]. split; [|done]. split; auto.
  - etrans; [apply Hb|done].
  - intros x Hx. rewrite M; [by apply Hb|]. intros y Hy. eapply con_frame_sep; [apply Hb|auto].
Qed.

(** clear blanks the whole screen with the attribute, homes the position
    and the hardware cursor, and changes nothing else. *)
Theorem clear_correct k : mapped k ->
  con_run k (clear k) (mkA (replicate 2000 blank) 0 0) /\ cursor_shown (clear k).
Proof. apply clear_run. Qed.

(** erasing at the home position writes below the screen: with the memory
    map of init_paging the two stores hit the unmapped page under VIDEO. *)
Theorem backspace_home_faults t k :
  paging_ok t k -> screen_x k = 0 -> screen_y k = 0 ->
  k_faults (backspace k) = PageFault (VIDEO - 1) :: PageFault (VIDEO - 2) :: k_faults k.
Proof.
  intros Hok Hx Hy.
  assert (H : forall k' va, k_pg k' = k_pg k -> 0xB7000 <= va < 0xB8000 -> phys k' va = None).
  { intros k' va E Hva. unfold phys. rewrite E. by apply (translate_below_video t). }
  unfold backspace, put_cell. rewrite Hx, Hy. change (NUM_COLS * 0 + 0 - 1) with (-1).
  change (u32 (VIDEO + Z.shiftl (-1) 1)) with (VIDEO - 2).
  change (u32 (VIDEO + Z.shiftl (-1) 1 + 1)) with (VIDEO - 1).
  assert (E : forall v w, st8 (VIDEO - 1) w (st8 (VIDEO - 2) v k) =
    log_fault (PageFault (VIDEO - 1)) (log_fault (PageFault (VIDEO - 2)) k)).
  { intros v w. unfold st8, kernel_space.
    rewrite (H k (VIDEO - 2)) by (try done; unfold VIDEO; lia).
    by rewrite H by (try done; unfold VIDEO; lia). }
  rewrite E. cbn [screen_x screen_y k_con log_fault with_k_faults]. rewrite Hx, Hy. done.
Qed.

(** ** Witnesses *)

Definition demo_paged : kernel := init_paging demo_kernel.

Lemma demo_paged_ok : console_ok demo_paged.
Proof.
  split; [|vm_compute; split_and!; congruence].
  apply (paging_ok_mapped 0), init_paging_ok, demo_paging_wf.
Qed.

Lemma putc_refines_witness :
  abs_console (putc 65 demo_paged) = abs_putc (abs_console demo_paged) 65.
Proof.
  destruct (putc_refines 65 demo_paged demo_paged_ok) as [H _]. exact (cr_abs _ _ _ H).
Defined.

Lemma printf_refines_witness :
  exists k', printf 10 (lit (codes "pid %d")) (fun _ => 5) demo_paged = Some (6, k') /\
    abs_console k' = foldl abs_putc (abs_console demo_paged) (codes "pid 5").
Proof.
  destruct (printf_refines 10 (lit (codes "pid %d")) (codes "pid %d") (fun _ => 5) (fun _ => [])
    demo_paged demo_paged_ok) as (k' & E & H).
  - apply src_str_lit. by repeat constructor.
  - constructor.
  - reflexivity.
  - simpl; lia.
  - exists k'. split; [exact E|exact (cr_abs _ _ _ H)].
Defined.

Lemma printf_hex_aligned_witness :
  exists k' l, printf 4 (lit (codes "%#x")) (fun _ => 0x2BADB002) demo_paged = Some (3, k') /\
    length l = 8%nat /\ parse_digits 16 l = 0x2BADB002.
Proof.
  destruct (printf_hex_aligned 4 (fun _ => 0x2BADB002) demo_paged demo_paged_ok)
    as (k' & l & E & _ & Hl & Hp); [lia|]. exists k', l. auto.
Defined.

Lemma backspace_undoes_putc_witness :
  abs_console (backspace (putc 65 demo_paged)) =
  mkA (aset (cells demo_paged) (80 * screen_y demo_paged + screen_x demo_paged) blank)
    (screen_x demo_paged) (screen_y demo_paged).
Proof.
  apply (cr_abs demo_paged), (backspace_undoes_putc 65 demo_paged demo_paged_ok); try lia.
  vm_compute. congruence.
Defined.

Lemma clear_correct_witness : abs_console (clear demo_paged) = mkA (replicate 2000 blank) 0 0.
Proof.
  destruct (clear_correct demo_paged (proj1 demo_paged_ok)) as [H _].
  exact (cr_abs _ _ _ H).
Defined.

Lemma backspace_home_faults_witness :
  k_faults (backspace demo_paged) = PageFault (VIDEO - 1) :: PageFault (VIDEO - 2) :: k_faults demo_paged.
Proof.
  apply (backspace_home_faults 0); [|vm_compute; reflexivity..].
  apply init_paging_ok, demo_paging_wf.
Defined.
