(* ===== verification/Pcb.v ===== *)
(** * Process control blocks and their file-descriptor tables (pcb.c)

    The allocation of processes and of file descriptors.  insert_fdt, which
    needs the file system, is in Fdt.v. *)

From Stdlib Require Import ZArith Lia.
From stdpp Require Import base numbers list gmap.
From S2P Require Import Prelude Memory State Machine.

Open Scope Z_scope.
Implicit Types k : kernel.

Definition NUMPCBS : Z := 6.
Definition NUM_FDT_ENTRIES : Z := 8.
Definition SKIPSTDINSTDOUT : Z := 2.

(** [PCB_array[pid].fd_table[fd]] updated in place. *)
Definition upd_fdt (pid fd : Z) (f : fd_table_entry_t -> fd_table_entry_t) (k : kernel) : kernel :=
  match aget (k_pcbs k) pid with
  | None => log_fault (OobPCB pid) k
  | Some p =>
      match aget (fd_table p) fd with
      | None => log_fault (OobFd fd) k
      | Some e => with_k_pcbs
          (aset (k_pcbs k) pid (with_fd_table (aset (fd_table p) fd (f e)) p)) k
      end
  end.

(** The standard input or output entry of process [j]. *)
Definition init_std (j fd : Z) (k : kernel) : kernel :=
  let k := upd_fdt j fd (with_jump_start_idx (Some terminal_struct)) k in
  let k := upd_fdt j fd (with_file_pos 0) k in
  let k := upd_fdt j fd (with_inode_number 0) k in
  upd_fdt j fd (with_fd_fileType 3) k.

(** The body of the loop of init_PCB. *)
Definition init_PCB_entry (j : Z) (k : kernel) : kernel :=
  let k := for_range 0 NUM_FDT_ENTRIES (fun i k => upd_fdt j i (with_present (-1)) k) k in
  let k := upd_PCB j (with_pcb_in_use (-1)) k in
  init_std j 1 (init_std j 0 k).

Definition init_PCB (k : kernel) : kernel := for_range 0 NUMPCBS init_PCB_entry k.

Fixpoint getPID_loop (n : nat) (i : Z) (k : kernel) : Z * kernel :=
  match n with
  | O => (-1, k)
  | S n => if pcb_in_use (get_PCB k i) =? -1 then (i, upd_PCB i (with_pcb_in_use 0) k)
           else getPID_loop n (i + 1) k
  end.

Definition getPID (k : kernel) : Z * kernel := getPID_loop (Z.to_nat NUMPCBS) 0 k.

Fixpoint get_fdAvail_loop (n : nat) (process_id i : Z) (k : kernel) : Z * kernel :=
  match n with
  | O => (-1, k)
  | S n =>
      if present (get_fd (get_PCB k process_id) i) =? -1
      then (i, upd_fdt process_id i (with_present 0) k)
      else get_fdAvail_loop n process_id (i + 1) k
  end.

Definition get_fdAvail (process_id : Z) (k : kernel) : Z * kernel :=
  get_fdAvail_loop (Z.to_nat (NUM_FDT_ENTRIES - SKIPSTDINSTDOUT)) process_id SKIPSTDINSTDOUT k.

(** terminals[cur_terminal].curr_process *)
Definition cur_pid (k : kernel) : Z := curr_process (get_terminal k (cur_terminal k)).

Definition remove_fd_entry (fd : Z) (k : kernel) : Z * kernel :=
  let currPid := cur_pid k in
  if present (get_fd (get_PCB k currPid) fd) =? 0
  then (0, upd_fdt currPid fd (with_present (-1)) k)
  else (-1, k).

(** The index of the PCB get_current_PCB points to. *)
Definition get_current_PCB (k : kernel) : Z := cur_pid k.

(** ** Invariant *)

(** A flag is 0 (in use) or -1 (free). *)
Definition flag_ok (z : Z) : Prop := z = 0 \/ z = -1.

Definition pcb_ok (p : PCB_struct) : Prop :=
  length (fd_table p) = 8%nat /\ flag_ok (pcb_in_use p) /\
  Forall (fun e => flag_ok (present e)) (fd_table p).

Definition pcbs_ok (l : list PCB_struct) : Prop := length l = 6%nat /\ Forall pcb_ok l.

(** What init_PCB makes of a PCB. *)
Definition free_fd (e : fd_table_entry_t) : fd_table_entry_t := with_present (-1) e.
Definition std_fd : fd_table_entry_t := mkFd (-1) 0 0 (Some terminal_struct) 3.

Definition inited_PCB (p : PCB_struct) : PCB_struct :=
  with_fd_table (std_fd :: std_fd :: drop 2 (map free_fd (fd_table p))) (with_pcb_in_use (-1) p).

(** ** Lemmas *)

Lemma Forall_aset {A} (P : A -> Prop) l i x : Forall P l -> P x -> Forall P (aset l i x).
Proof. intros. unfold aset. destruct (in_range l i); [by apply Forall_insert|done]. Qed.

Lemma Forall_aget {A} (P : A -> Prop) l i x : Forall P l -> aget l i = Some x -> P x.
Proof.
  intros H E. unfold aget in E. destruct (in_range l i); [|done].
  by apply (proj1 (Forall_lookup P l) H (Z.to_nat i)).
Qed.

(** Access to a PCB and an entry that exist. *)
Lemma pcbs_get k pid : pcbs_ok (k_pcbs k) -> 0 <= pid < 6 ->
  exists p, aget (k_pcbs k) pid = Some p /\ get_PCB k pid = p /\ pcb_ok p.
Proof.
  intros [Hl Hp] Hpid. destruct (aget_range_Some (k_pcbs k) pid) as [p E]; [lia|].
  exists p. split_and!; [done|by unfold get_PCB; rewrite E|by eapply Forall_aget].
Qed.

Lemma fd_get p fd : length (fd_table p) = 8%nat -> 0 <= fd < 8 ->
  exists e, aget (fd_table p) fd = Some e /\ get_fd p fd = e.
Proof.
  intros Hl Hfd. destruct (aget_range_Some (fd_table p) fd) as [e E]; [lia|].
  exists e. split; [done|]. unfold get_fd. by rewrite E.
Qed.

Lemma upd_PCB_eq pid f k p :
  aget (k_pcbs k) pid = Some p -> upd_PCB pid f k = with_k_pcbs (aset (k_pcbs k) pid (f p)) k.
Proof. intros E. unfold upd_PCB. by rewrite E. Qed.

Lemma upd_fdt_eq pid fd f k p e :
  aget (k_pcbs k) pid = Some p -> aget (fd_table p) fd = Some e ->
  upd_fdt pid fd f k =
  with_k_pcbs (aset (k_pcbs k) pid (with_fd_table (aset (fd_table p) fd (f e)) p)) k.
Proof. intros E1 E2. unfold upd_fdt. by rewrite E1, E2. Qed.

(** Changing entry [pid] of PCB_array keeps the other components. *)
Lemma aget_upd_pcbs pid q p k i :
  aget (k_pcbs k) pid = Some p ->
  aget (k_pcbs (with_k_pcbs (aset (k_pcbs k) pid q) k)) i =
  if pid =? i then Some q else aget (k_pcbs k) i.
Proof.
  intros E. cbn. rewrite aget_aset.
  rewrite (proj2 (in_range_true _ _)) by (by eapply aget_Some_range).
  by rewrite andb_true_r.
Qed.

(** [put_pcb j q k]: the state whose PCB [j] is [q]. *)
Definition put_pcb (j : Z) (q : PCB_struct) (k : kernel) : kernel :=
  with_k_pcbs (aset (k_pcbs k) j q) k.

Lemma put_pcb_self j k p : aget (k_pcbs k) j = Some p -> k = put_pcb j p k.
Proof. intros E. unfold put_pcb. rewrite (aset_self _ _ _ E). by destruct k. Qed.

Lemma put_upd_PCB j f q k : 0 <= j < Z.of_nat (length (k_pcbs k)) ->
  upd_PCB j f (put_pcb j q k) = put_pcb j (f q) k.
Proof.
  intros Hj. erewrite upd_PCB_eq by (by apply aget_aset_eq).
  unfold put_pcb. cbn. by rewrite aset_aset_eq.
Qed.

Lemma put_upd_fdt j fd f q e k : 0 <= j < Z.of_nat (length (k_pcbs k)) ->
  aget (fd_table q) fd = Some e ->
  upd_fdt j fd f (put_pcb j q k) = put_pcb j (with_fd_table (aset (fd_table q) fd (f e)) q) k.
Proof.
  intros Hj He. erewrite upd_fdt_eq; [|by apply aget_aset_eq|exact He].
  unfold put_pcb. cbn. by rewrite aset_aset_eq.
Qed.

(** Evaluate the PCB that was put. *)
Local Ltac norm_pcb k :=
  match goal with |- context [put_pcb ?j ?q k] => let q' := eval cbv in q in change q with q' end.

Lemma init_PCB_entry_eq j k p :
  aget (k_pcbs k) j = Some p -> length (fd_table p) = 8%nat ->
  init_PCB_entry j k = put_pcb j (inited_PCB p) k.
Proof.
  intros E L. pose proof (aget_Some_range _ _ _ E) as Hj.
  rewrite (put_pcb_self j k p E) at 1.
  destruct p as [t ? ? ? ? ? ? ? ? ? ?]. cbn in L.
  do 8 (destruct t as [|? t]; [discriminate|]). destruct t; [|discriminate].
  unfold init_PCB_entry, init_std. cbv zeta.
  change (for_range 0 NUM_FDT_ENTRIES ?b ?s) with (b 7 (b 6 (b 5 (b 4 (b 3 (b 2 (b 1 (b 0 s)))))))).
  cbv beta.
  do 8 (erewrite put_upd_fdt; [norm_pcb k|done|reflexivity]). rewrite put_upd_PCB by done.
  do 8 (erewrite put_upd_fdt; [norm_pcb k|done|reflexivity]). reflexivity.
Qed.

Lemma put_pcb_get j q k i : 0 <= j < Z.of_nat (length (k_pcbs k)) ->
  get_PCB (put_pcb j q k) i = if j =? i then q else get_PCB k i.
Proof.
  intros Hj. unfold get_PCB, put_pcb. cbn. rewrite aget_aset, (proj2 (in_range_true _ _) Hj).
  rewrite andb_true_r. by destruct (j =? i).
Qed.

Lemma pcbs_ok_put j q k : pcbs_ok (k_pcbs k) -> pcb_ok q -> pcbs_ok (k_pcbs (put_pcb j q k)).
Proof. intros [Hl Hp] Hq. split; cbn; [by rewrite length_aset|by apply Forall_aset]. Qed.

Lemma pcb_ok_fd p fd e : pcb_ok p -> flag_ok (present e) ->
  pcb_ok (with_fd_table (aset (fd_table p) fd e) p).
Proof.
  intros (Hl & Hu & Hp) He. split_and!; cbn; [by rewrite length_aset|done|by apply Forall_aset].
Qed.

Lemma pcb_ok_in_use p v : pcb_ok p -> flag_ok v -> pcb_ok (with_pcb_in_use v p).
Proof. intros (Hl & Hu & Hp) Hv. by split_and!. Qed.

(** What the search for a free PCB answers. *)
Definition getPID_spec (k : kernel) (pid : Z) (k' : kernel) : Prop :=
  (pid = -1 /\ k' = k /\ forall i, 0 <= i < 6 -> pcb_in_use (get_PCB k i) = 0) \/
  (0 <= pid < 6 /\ pcb_in_use (get_PCB k pid) = -1 /\
   (forall i, 0 <= i < pid -> pcb_in_use (get_PCB k i) = 0) /\
   k' = put_pcb pid (with_pcb_in_use 0 (get_PCB k pid)) k).

Lemma getPID_loop_spec k : pcbs_ok (k_pcbs k) -> forall n i, i = 6 - Z.of_nat n -> 0 <= i ->
  (forall j, 0 <= j < i -> pcb_in_use (get_PCB k j) = 0) ->
  getPID_spec k (fst (getPID_loop n i k)) (snd (getPID_loop n i k)).
Proof.
  intros Hok. induction n as [|n IH]; intros i Hi H0 Hlow; cbn [getPID_loop].
  - left. split_and!; auto. intros j Hj. apply Hlow. lia.
  - destruct (pcbs_get k i Hok) as (p & E & Eg & Hp); [lia|].
    destruct (Z.eqb_spec (pcb_in_use (get_PCB k i)) (-1)) as [Ef|Ef].
    + right. cbn [fst snd]. split_and!; auto; try lia. rewrite (upd_PCB_eq _ _ _ _ E). by rewrite Eg.
    + apply IH; [lia|lia|]. intros j Hj. destruct (decide (j = i)) as [->|]; [|apply Hlow; lia].
      rewrite Eg in *. by destruct Hp as (_ & [?|?] & _).
Qed.

Lemma getPID_run k : pcbs_ok (k_pcbs k) -> getPID_spec k (fst (getPID k)) (snd (getPID k)).
Proof. intros Hok. apply getPID_loop_spec; [done|done|done|]. intros. lia. Qed.

(** What the search for a free descriptor answers. *)
Definition fdAvail_spec (pid : Z) (k : kernel) (fd : Z) (k' : kernel) : Prop :=
  let p := get_PCB k pid in
  (fd = -1 /\ k' = k /\ forall i, 2 <= i < 8 -> present (get_fd p i) = 0) \/
  (2 <= fd < 8 /\ present (get_fd p fd) = -1 /\
   (forall i, 2 <= i < fd -> present (get_fd p i) = 0) /\
   k' = put_pcb pid (with_fd_table (aset (fd_table p) fd (with_present 0 (get_fd p fd))) p) k).

Lemma get_fdAvail_loop_spec pid k : pcbs_ok (k_pcbs k) -> 0 <= pid < 6 ->
  forall n i, i = 8 - Z.of_nat n -> 2 <= i ->
  (forall j, 2 <= j < i -> present (get_fd (get_PCB k pid) j) = 0) ->
  fdAvail_spec pid k (fst (get_fdAvail_loop n pid i k)) (snd (get_fdAvail_loop n pid i k)).
Proof.
  intros Hok Hpid. destruct (pcbs_get k pid Hok Hpid) as (p & E & Eg & Hp).
  unfold fdAvail_spec. rewrite Eg.
  induction n as [|n IH]; intros i Hi H0 Hlow; cbn [get_fdAvail_loop]; rewrite ?Eg.
  - left. split_and!; auto. intros j Hj. apply Hlow. lia.
  - destruct (fd_get p i) as (e & Ee & Eeg); [apply Hp|lia|].
    destruct (Z.eqb_spec (present (get_fd p i)) (-1)) as [Ef|Ef].
    + right. cbn [fst snd]. split_and!; auto; try lia.
      rewrite (upd_fdt_eq _ _ _ _ _ _ E Ee). by rewrite Eeg.
    + apply IH; [lia|lia|]. intros j Hj. destruct (decide (j = i)) as [->|]; [|apply Hlow; lia].
      rewrite Eeg in *. destruct Hp as (_ & _ & Hf).
      by destruct (Forall_aget _ _ _ _ Hf Ee) as [?|?].
Qed.

Lemma get_fdAvail_run pid k : pcbs_ok (k_pcbs k) -> 0 <= pid < 6 ->
  fdAvail_spec pid k (fst (get_fdAvail pid k)) (snd (get_fdAvail pid k)).
Proof. intros Hok Hpid. apply get_fdAvail_loop_spec; try done. unfold SKIPSTDINSTDOUT. intros. lia. Qed.

Lemma init_PCB_run k :
  length (k_pcbs k) = 6%nat -> Forall (fun p => length (fd_table p) = 8%nat) (k_pcbs k) ->
  init_PCB k = with_k_pcbs (map inited_PCB (k_pcbs k)) k /\ pcbs_ok (k_pcbs (init_PCB k)).
Proof.
  intros Hl Ht. assert (E : init_PCB k = with_k_pcbs (map inited_PCB (k_pcbs k)) k).
  { destruct k as [? ? ? l ? ? ? ? ? ? ? ? ?]. cbn in Hl, Ht.
    do 6 (destruct l as [|? l]; [discriminate|]). destruct l; [|discriminate].
    repeat (apply Forall_cons in Ht as [? Ht]). unfold init_PCB.
    change (for_range 0 NUMPCBS ?b ?s) with (b 5 (b 4 (b 3 (b 2 (b 1 (b 0 s)))))).
    erewrite (init_PCB_entry_eq 0); [|reflexivity|done].
    erewrite (init_PCB_entry_eq 1); [|reflexivity|done].
    erewrite (init_PCB_entry_eq 2); [|reflexivity|done].
    erewrite (init_PCB_entry_eq 3); [|reflexivity|done].
    erewrite (init_PCB_entry_eq 4); [|reflexivity|done].
    erewrite (init_PCB_entry_eq 5); [|reflexivity|done]. reflexivity. }
  split; [done|]. rewrite E. split; cbn; [by rewrite length_map|].
  rewrite Forall_map. eapply Forall_impl; [exact Ht|]. intros p Hp. unfold pcb_ok, inited_PCB; cbn.
  rewrite length_drop, length_map, Hp. split_and!; [done|by right|].
  do 2 (constructor; [by right|]). apply Forall_drop, Forall_map, Forall_true. intros e. by right.
Qed.

(** ** Correctness *)

(** init_PCB marks every process and every descriptor free and gives each
    process the terminal as descriptors 0 and 1; it touches nothing else. *)
Theorem init_PCB_correct k :
  length (k_pcbs k) = 6%nat -> Forall (fun p => length (fd_table p) = 8%nat) (k_pcbs k) ->
  init_PCB k = with_k_pcbs (map inited_PCB (k_pcbs k)) k /\ pcbs_ok (k_pcbs (init_PCB k)).
Proof. apply init_PCB_run. Qed.

(** getPID returns the least free process and marks exactly it in use; it
    returns -1, changing nothing, exactly when all six are in use. *)
Theorem getPID_correct k : pcbs_ok (k_pcbs k) ->
  exists pid k', getPID k = (pid, k') /\ getPID_spec k pid k' /\ pcbs_ok (k_pcbs k').
Proof.
  intros Hok. pose proof (getPID_run k Hok) as H. destruct (getPID k) as [pid k']. cbn in H.
  exists pid, k'. split_and!; auto. destruct H as [(_ & -> & _)|(Hp & _ & _ & ->)]; [done|].
  destruct (pcbs_get k pid Hok Hp) as (p & _ & -> & Hpo).
  apply pcbs_ok_put; [done|]. apply pcb_ok_in_use; [done|by left].
Qed.

(** get_fdAvail returns the least free descriptor above 1 of the process
    and marks exactly it in use; it returns -1, changing nothing, exactly when
    descriptors 2 to 7 are all in use. *)
Theorem get_fdAvail_correct pid k : pcbs_ok (k_pcbs k) -> 0 <= pid < 6 ->
  exists fd k', get_fdAvail pid k = (fd, k') /\ fdAvail_spec pid k fd k' /\ pcbs_ok (k_pcbs k').
Proof.
  intros Hok Hpid. pose proof (get_fdAvail_run pid k Hok Hpid) as H.
  destruct (get_fdAvail pid k) as [fd k']. cbn [fst snd] in H.
  exists fd, k'. split_and!; auto. destruct H as [(_ & -> & _)|(Hp & _ & _ & ->)]; [done|].
  destruct (pcbs_get k pid Hok Hpid) as (p & _ & -> & Hpo).
  apply pcbs_ok_put; [done|]. apply pcb_ok_fd; [done|by left].
Qed.

(** ** Witnesses *)

Definition demo_pcbs : kernel := init_PCB demo_kernel.

Lemma demo_pcbs_ok : pcbs_ok (k_pcbs demo_pcbs).
Proof. apply init_PCB_run; [reflexivity|by repeat constructor]. Qed.

Lemma init_PCB_correct_witness : pcbs_ok (k_pcbs (init_PCB demo_kernel)).
Proof. apply init_PCB_correct; [reflexivity|by repeat constructor]. Defined.

Lemma getPID_correct_witness : exists k', getPID demo_pcbs = (0, k').
Proof.
  destruct (getPID_correct demo_pcbs demo_pcbs_ok) as (pid & k' & E & H & _).
  destruct H as [(_ & _ & H)|(H & _ & Hl & _)].
  - specialize (H 0 ltac:(lia)). vm_compute in H. discriminate.
  - destruct (decide (pid = 0)) as [->|Hne]; [by exists k'|].
    specialize (Hl 0 ltac:(lia)). vm_compute in Hl. discriminate.
Defined.

Lemma get_fdAvail_correct_witness : exists k', get_fdAvail 3 demo_pcbs = (2, k').
Proof.
  destruct (get_fdAvail_correct 3 demo_pcbs demo_pcbs_ok) as (fd & k' & E & H & _); [lia|].
  destruct H as [(_ & _ & H)|(H & _ & Hl & _)].
  - specialize (H 2 ltac:(lia)). vm_compute in H. discriminate.
  - destruct (decide (fd = 2)) as [->|Hne]; [by exists k'|].
    specialize (Hl 2 ltac:(lia)). vm_compute in Hl. discriminate.
Defined.
