(* ===== verification/Filesys.v ===== *)
(** * The read-only file system (filesys.c)

    The image (boot block, inodes, data blocks of 4096 bytes each) lies in
    memory from [start_addr]; the operations read it through the kernel's
    address space.  A [const uint8_t*] file name is the function from index to
    byte. *)

From Stdlib Require Import ZArith Lia.
From stdpp Require Import base numbers list gmap.
From S2P Require Import Prelude Memory LibMem LibStr State Machine Pcb.

Open Scope Z_scope.
Implicit Types k : kernel.

Definition NUM_DENTRIES : Z := 64.
Definition SIZEOF_DENTRY : Z := 64.
Definition DATABLOCK_SIZE : Z := 4096.
Definition MAXFILENAMESIZE : Z := 32.
Definition NAME_SIZE : Z := 32.

(** A file name read at an address. *)
Definition name_at (k : kernel) (a : Z) : Z -> Z := fun i => ld8 k (u32 (a + i)).

Definition filesys_init (mod_start : Z) (k : kernel) : kernel :=
  let k := set_start_addr mod_start k in
  let k := set_numdentries (ld32 k mod_start) k in
  let k := set_numinodes (ld32 k (u32 (mod_start + 4))) k in
  let k := set_numblocks (ld32 k (u32 (mod_start + 8))) k in
  let k := set_startdentry (u32 (start_addr k + SIZEOF_DENTRY)) k in
  set_curfile 1 k.

(** The same assignments in pcb.c, except for curfile. *)
Definition pcb_filesys_init (mod_start : Z) (k : kernel) : kernel :=
  let k := set_start_addr mod_start k in
  let k := set_numdentries (ld32 k mod_start) k in
  let k := set_numinodes (ld32 k (u32 (mod_start + 4))) k in
  let k := set_numblocks (ld32 k (u32 (mod_start + 8))) k in
  set_startdentry (u32 (start_addr k + SIZEOF_DENTRY)) k.

(** ** Directory entries *)

(** The dentry_t at an address: name, fileType, inodeNum. *)
Definition dentry_addr (k : kernel) (i : Z) : Z := u32 (startdentry k + SIZEOF_DENTRY * i).

Definition dentry_name (k : kernel) (temp : Z) : Z -> Z := fun j => ld8 k (u32 (temp + j)).

(** The deep copy of the entry at [temp] into [dentry]. *)
Definition copy_dentry (k : kernel) (temp : Z) (dentry : dentry_t) : dentry_t :=
  let dentry := with_d_name
    (for_range 0 NAME_SIZE (fun i l => aset l i (dentry_name k temp i)) (d_name dentry)) dentry in
  let dentry := with_d_fileType (ld32 k (u32 (temp + 32))) dentry in
  with_d_inodeNum (ld32 k (u32 (temp + 36))) dentry.

(** The inner loop of read_dentry_by_name, which compares one name; 32 rounds
    are enough, because [count] reaches FILENAMESIZE_NUL in the last. *)
Fixpoint name_match (n : nat) (name fname : Z -> Z) (nameIndex count : Z) : bool :=
  match n with
  | O => false
  | S n =>
      if name nameIndex =? fname nameIndex then
        if (name nameIndex =? 0) || (count =? 31) then true
        else name_match n name fname (nameIndex + 1) (count + 1)
      else false
  end.

Fixpoint read_dentry_by_name_loop (n : nat) (dentIndex : Z) (fname : Z -> Z) (dentry : dentry_t)
    (k : kernel) : Z * dentry_t :=
  match n with
  | O => (-1, dentry)
  | S n =>
      let temp := dentry_addr k dentIndex in
      if name_match 32 (dentry_name k temp) fname 0 0 then (0, copy_dentry k temp dentry)
      else read_dentry_by_name_loop n (dentIndex + 1) fname dentry k
  end.

(** The result and the new contents of [*dentry]. *)
Definition read_dentry_by_name (fname : Z -> Z) (dentry : dentry_t) (k : kernel) : Z * dentry_t :=
  read_dentry_by_name_loop (Z.to_nat NUM_DENTRIES) 0 fname dentry k.

(** strlen of the name, capped: beyond 32 characters the result is 32 whatever
    follows the name in the structure. *)
Fixpoint name_len (l : list Z) : Z :=
  match l with
  | [] => 0
  | c :: l' => if c =? 0 then 0 else 1 + name_len l'
  end.

Definition read_dentry_by_index (index : Z) (dentry : dentry_t) (k : kernel) : Z * dentry_t :=
  if (NUM_DENTRIES <=? index) || (index <? 0) then (-1, dentry)
  else
    let dentry := copy_dentry k (dentry_addr k index) dentry in
    (Z.min MAXFILENAMESIZE (name_len (d_name dentry)), dentry).

(** ** Data *)

(** inode_t: [length], then the block numbers. *)
Definition inode_addr (k : kernel) (inode : Z) : Z := u32 (start_addr k + DATABLOCK_SIZE * (inode + 1)).
Definition inode_length (k : kernel) (inode : Z) : Z := ld32 k (inode_addr k inode).
Definition block_num (k : kernel) (inode j : Z) : Z :=
  ld32 k (u32 (inode_addr k inode + 4 + 4 * j)).
Definition block_addr (k : kernel) (b : Z) : Z :=
  u32 (start_addr k + DATABLOCK_SIZE * (numinodes k + 1) + DATABLOCK_SIZE * b).

(** How much one round copies. *)
Definition round_length (length offset eofLength : Z) : Z :=
  if (length mod DATABLOCK_SIZE =? 0) || (DATABLOCK_SIZE <? length) then DATABLOCK_SIZE
  else if eofLength <? u32 (length + offset) then u32 (eofLength - offset)
  else length.

Fixpoint read_data_loop (fuel : nat) (inode offset eofLength eofCount buf length : Z) (k : kernel)
    : option (Z * kernel) :=
  match fuel with
  | O => None
  | S f =>
      if negb (length =? 0) && (eofCount <? eofLength) then
        let currDataBlock := block_addr k (block_num k inode (eofCount / DATABLOCK_SIZE)) in
        let currLength := round_length length offset eofLength in
        let tempOffset := offset mod DATABLOCK_SIZE in
        let position := u32 (currDataBlock + tempOffset) in
        let k := memcpy buf position currLength k in
        read_data_loop f inode offset eofLength (u32 (eofCount + currLength))
          (u32 (buf + currLength)) (u32 (length - currLength)) k
      else Some (eofCount, k)
  end.

(** The loop runs at most once per block of [length] and twice more. *)
Definition read_data (inode offset buf length : Z) (k : kernel) : option (Z * kernel) :=
  if numinodes k <? inode then Some (-1, k)
  else
    let eofLength := inode_length k inode in
    '(eofCount, k) ← read_data_loop (Z.to_nat (length / DATABLOCK_SIZE + 2)) inode offset eofLength
                      offset buf length k;
    if eofLength <=? offset then Some (0, k) else Some (s32 (eofCount - offset), k).

(** ** File operations *)

Definition file_open (filename : Z -> Z) (k : kernel) : Z * kernel :=
  let '(retval, d) := read_dentry_by_name filename (currDentry k) k in (retval, set_currDentry d k).

Definition file_load (buf nbytes : Z) (k : kernel) : option (Z * kernel) :=
  read_data (d_inodeNum (currDentry k)) 0 buf (u32 nbytes) k.

Definition file_read (fd buf nbytes : Z) (k : kernel) : option (Z * kernel) :=
  let curPCB := get_current_PCB k in
  if -1 <? fd then
    let e := get_fd (get_PCB k curPCB) fd in
    '(bytes_copied, k) ← read_data (u32 (inode_number e)) (u32 (file_pos e)) buf (u32 nbytes) k;
    if negb (bytes_copied =? 0)
    then Some (bytes_copied, upd_fdt curPCB fd (fun e => with_file_pos (s32 (file_pos e + bytes_copied)) e) k)
    else Some (bytes_copied, upd_fdt curPCB fd (with_file_pos 0) k)
  else read_data (d_inodeNum (currDentry k)) 0 buf (u32 nbytes) k.

Definition file_write (fd buf nbytes : Z) (k : kernel) : Z * kernel := (-1, k).
Definition file_close (fd : Z) (k : kernel) : Z * kernel := (-1, k).

(** ** Directory operations *)

(** The bytes of a dentry_t as strncpy may read them. *)
Definition dentry_bytes (d : dentry_t) : list Z :=
  d_name d ++ map (byte_of (d_fileType d)) (seqZ 0 4) ++ map (byte_of (d_inodeNum d)) (seqZ 0 4).

(** strncpy of lib.c with a local object as the source. *)
Fixpoint strncpy_local (n : nat) (dest : Z) (src : list Z) (i : Z) (k : kernel) : Z * kernel :=
  match n with
  | O => (i, k)
  | S n => if agetZ src i =? 0 then (i, k)
           else strncpy_local n dest src (i + 1) (st8 (u32 (dest + i)) (agetZ src i) k)
  end.

(** The local [dentry] of dir_read before it is filled: its contents are
    unspecified and taken to be zero. *)
Definition local_dentry : dentry_t := mkDentry (replicate 32 0) 0 0.

Definition dir_read (fd buf nbytes : Z) (k : kernel) : Z * kernel :=
  let k := for_range 0 MAXFILENAMESIZE (fun i k => st8 (u32 (buf + i)) 0 k) k in
  let '(retval, dentry) := read_dentry_by_index (curfile k) local_dentry k in
  let '(i, k) := strncpy_local (Z.to_nat (u32 nbytes)) buf (dentry_bytes dentry) 0 k in
  let k := for_range i (u32 nbytes) (fun i k => st8 (u32 (buf + i)) 0 k) k in
  let k := set_curfile (u32 (curfile k + 1)) k in
  if curfile k =? numdentries k then (0, set_curfile 0 k) else (retval, k).

Definition dir_write (fd buf nbytes : Z) (k : kernel) : Z * kernel := (-1, k).
Definition dir_close (fd : Z) (k : kernel) : Z * kernel := (-1, k).
Definition dir_open (filename : Z -> Z) (k : kernel) : Z * kernel :=
  let '(retval, d) := read_dentry_by_name filename (currDentry k) k in (retval, set_currDentry d k).

(** ** The image *)

Definition image_size (k : kernel) : Z := 4096 * (1 + numinodes k + numblocks k).
Definition in_image (k : kernel) (a : Z) : Prop := span (start_addr k) (image_size k) a.

(** Byte [n] of a file: the byte at [n mod 4096] of its block [n / 4096]. *)
Definition file_byte (k : kernel) (inode n : Z) : Z :=
  ld8 k (block_addr k (block_num k inode (n / 4096)) + n mod 4096).

(** A file of a well-formed image: the inode exists, it holds at most 1023
    blocks, and the blocks it uses exist. *)
Record file_ok (k : kernel) (inode : Z) : Prop := {
  fo_start : 0 <= start_addr k;
  fo_end : start_addr k + image_size k < 2 ^ 32;
  fo_blocks : 0 <= numblocks k;
  fo_inode : 0 <= inode < numinodes k;
  fo_length : 0 <= inode_length k inode <= 4096 * 1023;
  fo_nums : forall j, 0 <= 4096 * j < inode_length k inode ->
    0 <= block_num k inode j < numblocks k;
}.

(** The destination is mapped, [n] bytes long and apart from the image. *)
Record buf_ok (k : kernel) (buf n : Z) : Prop := {
  bo_pos : 0 <= buf;
  bo_end : buf + n < 2 ^ 32;
  bo_apart : buf + n <= start_addr k \/ start_addr k + image_size k <= buf;
  bo_region : region k (fun a => in_image k a \/ span buf n a);
}.

(** The first [n] bytes of the buffer are the file from [offset] on; nothing
    outside these bytes of memory changed. *)
Record copied (k : kernel) (inode offset buf n : Z) (k' : kernel) : Prop := {
  cp_only : only_mem k k';
  cp_image : forall a, in_image k a -> ld8 k' a = ld8 k a;
  cp_bytes : forall i, 0 <= i < n -> ld8 k' (buf + i) = file_byte k inode (offset + i);
  cp_other : forall x, (forall y, span buf n y -> as_sep k y x) -> ld8 k' x = ld8 k x;
  cp_phys : forall p, (forall y, span buf n y -> phys k y <> Some p) ->
    ld8 (k_mem k') p = ld8 (k_mem k) p;
}.

Lemma copied_refl k inode offset buf : copied k inode offset buf 0 k.
Proof. split; [done|done|lia|done|done]. Qed.

Lemma file_addrs k inode : file_ok k inode ->
  inode_addr k inode = start_addr k + 4096 * (inode + 1) /\
  forall b, 0 <= b < numblocks k ->
    block_addr k b = start_addr k + 4096 * (numinodes k + 1 + b).
Proof.
  intros [Hs He Hb Hi Hl Hn]. unfold image_size in *. split; [|intros b Hbb];
    unfold inode_addr, block_addr, DATABLOCK_SIZE; rewrite u32_small; lia.
Qed.

(** Reads of the image see the same after anything that keeps its bytes. *)
Lemma ld32_image k k' a :
  only_mem k k' -> (forall a, in_image k a -> ld8 k' a = ld8 k a) ->
  0 <= a -> a + 4 < 2 ^ 32 -> span (start_addr k) (image_size k - 3) a -> ld32 k' a = ld32 k a.
Proof.
  intros Ho H Ha Ha4 Hspan. unfold ld32. rewrite !u32_small by lia.
  by rewrite !H by (unfold in_image, span in *; lia).
Qed.

Lemma copied_block_num k inode offset buf n k' j :
  file_ok k inode -> copied k inode offset buf n k' -> 0 <= j < 1023 ->
  block_num k' inode j = block_num k inode j.
Proof.
  intros Hf [Ho Hi _ _ _] Hj. pose proof Hf as [Hs He Hb Hin Hl Hn]. unfold image_size in *.
  destruct (file_addrs k inode Hf) as [Ea _].
  unfold block_num. replace (inode_addr k' inode) with (inode_addr k inode) by (by rewrite Ho).
  rewrite Ea, u32_small by lia. apply ld32_image; auto; try lia.
  unfold span, image_size. lia.
Qed.

(** One round that stays inside a block. *)
Lemma copied_round k inode offset buf total c l k1 :
  file_ok k inode -> buf_ok k buf total -> copied k inode offset buf c k1 ->
  0 <= c -> 0 <= l -> c + l <= total -> 0 <= offset -> offset + c < inode_length k inode ->
  (offset + c) mod 4096 + l <= 4096 ->
  copied k inode offset buf (c + l)
    (memcpy (u32 (buf + c))
      (u32 (block_addr k1 (block_num k1 inode ((offset + c) / 4096)) + (offset + c) mod 4096)) l k1).
Proof.
  intros Hf Hb Hc Hc0 Hl0 Hcl Ho0 Heof Hblk. set (n := offset + c) in *.
  assert (Hlen : inode_length k inode <= 4096 * 1023) by apply Hf.
  rewrite (copied_block_num k inode offset buf c k1) by (auto; dlia).
  replace (block_addr k1) with (block_addr k) by (destruct Hc as [-> _ _ _ _]; done).
  destruct (file_addrs k inode Hf) as [_ Ea].
  assert (Hbn : 0 <= block_num k inode (n / 4096) < numblocks k) by (apply Hf; dlia).
  pose proof Hf as [Hs He _ Hin _ _]. destruct Hb as [Hb0 Hbe Hap Hreg].
  unfold image_size in *.
  assert (Hmod : 0 <= n mod 4096 < 4096) by dlia.
  set (src := block_addr k (block_num k inode (n / 4096)) + n mod 4096).
  assert (Hsrc : start_addr k + 4096 * (numinodes k + 1) <= src /\
                 src + l <= start_addr k + 4096 * (1 + numinodes k + numblocks k))
    by (unfold src; rewrite Ea by done; lia).
  rewrite (u32_small src), (u32_small (buf + c)) by lia.
  assert (Hreg1 : region k1 (fun a => in_image k a \/ span buf total a))
    by (eapply only_mem_region; [apply Hc|done]).
  assert (Hin_img : forall a, span src l a -> in_image k a)
    by (unfold in_image, span, image_size; lia).
  assert (Hap' : forall a b, in_image k a -> span (buf + c) l b -> a <> b)
    by (unfold in_image, span, image_size; lia).
  rewrite memcpy_bytes; try lia.
  2:{ intros j i Hj Hji Hi. apply Hreg1.
      - right. unfold span. lia.
      - left. apply Hin_img. unfold span. lia.
      - apply not_eq_sym, Hap'; [apply Hin_img|]; unfold span; lia. }
  assert (Hat : forall x, in_image k x \/ span buf total x -> ld8 (copy_up (Z.to_nat l) src (buf + c) k1) x =
    if (buf + c <=? x) && (x <? buf + c + l) then ld8 k1 (src + (x - (buf + c))) else ld8 k1 x).
  { intros x Hx. apply copy_up_at; try lia. eapply region_mono; [|exact Hreg1].
    intros a [Ha|[Ha| ->]]; [left; by apply Hin_img|right; unfold span in *; lia|done]. }
  split.
  - etrans; [apply Hc|]. apply only_mem_copy_up; rewrite ?Z2Nat.id by lia; try lia.
    intros a Ha. apply Hreg1. right. unfold span in *; lia.
  - intros a Ha. rewrite Hat by auto. replace ((buf + c <=? a) && _) with false; [by apply Hc|].
    pose proof (Hap' a a Ha) as H. unfold span in H. bdestr; simpl; auto. exfalso. lia.
  - intros i Hi. rewrite Hat by (right; unfold span; lia).
    destruct (Z.leb_spec (buf + c) (buf + i)); cbn [andb]; [|apply Hc; lia].
    rewrite (proj2 (Z.ltb_lt _ _)) by lia.
    rewrite (cp_image _ _ _ _ _ _ Hc) by (apply Hin_img; unfold span; lia).
    unfold file_byte, src, n. replace (offset + i) with (offset + c + (i - c)) by lia.
    fold n. replace ((n + (i - c)) / 4096) with (n / 4096) by dlia.
    replace ((n + (i - c)) mod 4096) with (n mod 4096 + (i - c)) by dlia. f_equal. lia.
  - intros x Hx. rewrite copy_up_other; rewrite ?Z2Nat.id by lia; try lia.
    + apply (cp_other _ _ _ _ _ _ Hc). intros y Hy. apply Hx. unfold span in *; lia.
    + intros y Hy. eapply only_mem_sep; [apply Hc|]. apply Hx. unfold span in *; lia.
  - intros p Hp. rewrite copy_up_phys; rewrite ?Z2Nat.id by lia; try lia.
    + apply (cp_phys _ _ _ _ _ _ Hc). intros y Hy. apply Hp. unfold span in *; lia.
    + intros y Hy. rewrite (only_mem_phys _ _ _ (cp_only _ _ _ _ _ _ Hc)). apply Hp. unfold span in *; lia.
Qed.

(** ** The loop of read_data *)

(** What read_data copies from a block-aligned offset. *)
Definition read_count (offset length eof : Z) : Z :=
  if eof <=? offset then 0
  else if length <? 4096 then Z.min length (eof - offset)
  else Z.min length (4096 * ((eof - offset + 4095) / 4096)).

(** The loop ends within one round per block of [length] and two more. *)
Lemma read_data_loop_total : forall fuel inode offset eof cnt buf length k,
  0 <= offset <= cnt -> offset < eof \/ eof <= cnt -> cnt < 2 ^ 32 -> eof <= 4096 * 1023 ->
  0 <= length < 2 ^ 32 -> length / 4096 + 2 <= Z.of_nat fuel ->
  exists r, read_data_loop fuel inode offset eof cnt buf length k = Some r.
Proof.
  assert (Hstop : forall fuel inode offset eof cnt buf length k, (0 < fuel)%nat ->
    length = 0 \/ eof <= cnt ->
    exists r, read_data_loop fuel inode offset eof cnt buf length k = Some r).
  { intros [|f] inode offset eof cnt buf length k Hf H; [lia|]. cbn [read_data_loop].
    replace (negb (length =? 0) && (cnt <? eof)) with false by (bdestr; cbn; done || lia). eauto. }
  induction fuel as [|f IH]; intros inode offset eof cnt buf length k Hc Ho H32 He Hl Hf; [dlia|].
  destruct (decide (length = 0 \/ eof <= cnt)) as [Hs|Hs]; [apply Hstop; [lia|done]|].
  cbn [read_data_loop]. rewrite (proj2 (Z.eqb_neq length 0)), (proj2 (Z.ltb_lt cnt eof)) by lia.
  cbn [negb andb]. unfold round_length, DATABLOCK_SIZE.
  destruct ((length mod 4096 =? 0) || (4096 <? length)) eqn:E.
  - assert (Hge : 4096 <= length) by (apply orb_prop in E; bdestr_in E; dlia).
    apply IH; rewrite ?u32_small by lia; try lia. dlia.
  - apply orb_false_elim in E as [E1 E2]. apply Z.eqb_neq in E1. apply Z.ltb_ge in E2.
    assert (length < 4096) by dlia. rewrite (u32_small (length + offset)) by lia.
    destruct (Z.ltb_spec eof (length + offset)).
    + apply Hstop; [dlia|]. right. rewrite !u32_small by (rewrite ?u32_small; lia). lia.
    + apply Hstop; [dlia|]. left. by rewrite Z.sub_diag.
Qed.

Lemma read_data_loop_aligned k inode offset buf length :
  file_ok k inode -> buf_ok k buf length -> 0 <= offset -> offset mod 4096 = 0 ->
  0 <= length < 2 ^ 32 -> offset < inode_length k inode ->
  forall fuel c k1, copied k inode offset buf c k1 -> 0 <= c <= length -> c mod 4096 = 0 ->
  c = read_count offset length (inode_length k inode) \/
    (c < length /\ offset + c < inode_length k inode) ->
  (length - c) / 4096 + 2 <= Z.of_nat fuel ->
  exists k', read_data_loop fuel inode offset (inode_length k inode) (offset + c) (u32 (buf + c))
      (length - c) k1 =
    Some (offset + read_count offset length (inode_length k inode), k') /\
    copied k inode offset buf (read_count offset length (inode_length k inode)) k'.
Proof.
  intros Hf Hb Ho Hal Hl Heof. assert (Hmax : inode_length k inode <= 4096 * 1023) by apply Hf.
  assert (Hbe : buf + length < 2 ^ 32) by apply Hb. assert (Hb0 : 0 <= buf) by apply Hb.
  set (eof := inode_length k inode) in *. set (T := read_count offset length eof).
  assert (Hstop : forall fuel k1, (0 < fuel)%nat -> copied k inode offset buf T k1 ->
    (T = length \/ eof <= offset + T) ->
    exists k', read_data_loop fuel inode offset eof (offset + T) (u32 (buf + T)) (length - T) k1 =
      Some (offset + T, k') /\ copied k inode offset buf T k').
  { intros [|f] k1 Hfu Hc HT; [lia|]. cbn [read_data_loop]. exists k1. split; [|done].
    replace (negb _ && _) with false; [done|]. bdestr; cbn; done || lia. }
  assert (HT : T = length \/ eof <= offset + T).
  { unfold T, read_count. bdestr; dlia. }
  induction fuel as [|f IH]; intros c k1 Hc Hcl Hcal Hcase Hfu; [dlia|].
  destruct (decide (c = T)) as [->|Hne]; [apply Hstop; [lia|done|done]|].
  destruct Hcase as [?|[Hlt Hce]]; [done|].
  cbn [read_data_loop]. rewrite (proj2 (Z.eqb_neq (length - c) 0)), (proj2 (Z.ltb_lt _ eof)) by lia.
  cbn [negb andb]. unfold round_length, DATABLOCK_SIZE. rewrite Hal.
  replace 0 with ((offset + c) mod 4096) by dlia.
  destruct (((length - c) mod 4096 =? (offset + c) mod 4096) || (4096 <? length - c)) eqn:E.
  - assert (Hge : 4096 <= length - c) by (apply orb_prop in E; bdestr_in E; dlia).
    rewrite !u32_add_l, <- !Z.add_assoc, (u32_small (offset + (c + 4096))), (u32_small (length - c - 4096)) by lia.
    replace (length - c - 4096) with (length - (c + 4096)) by lia.
    apply IH; try lia; try dlia.
    + apply (copied_round k inode offset buf length c 4096); auto; try lia; dlia.
    + unfold T, read_count. bdestr; dlia.
  - apply orb_false_elim in E as [E1 E2]. apply Z.eqb_neq in E1. apply Z.ltb_ge in E2.
    assert (Hlc : length - c < 4096) by dlia.
    rewrite (u32_small (length - c + offset)) by lia.
    assert (Hl' : (if eof <? length - c + offset then u32 (eof - offset) else length - c) = T - c).
    { unfold T, read_count. rewrite (proj2 (Z.leb_gt eof offset)) by lia.
      destruct (Z.ltb_spec eof (length - c + offset)); [|bdestr; dlia].
      rewrite u32_small by lia. assert (c = 0) by dlia. bdestr; dlia. }
    rewrite Hl'. assert (0 <= T - c <= length - c)
      by (rewrite <- Hl'; rewrite u32_small by lia; bdestr; dlia).
    rewrite u32_add_l, !(u32_small (_ - _)), (u32_small (offset + c + _)) by lia.
    replace (offset + c + (T - c)) with (offset + T) by lia.
    replace (buf + c + (T - c)) with (buf + T) by lia.
    replace (length - c - (T - c)) with (length - T) by lia.
    apply Hstop; [dlia| |done]. replace T with (c + (T - c)) at 1 by lia.
    apply (copied_round k inode offset buf length c (T - c)); auto; try lia; dlia.
Qed.

Lemma read_data_eq k inode offset buf length n k' :
  file_ok k inode -> 0 <= offset -> 0 <= n <= inode_length k inode + 4096 ->
  (inode_length k inode <= offset -> n = 0) ->
  read_data_loop (Z.to_nat (length / 4096 + 2)) inode offset (inode_length k inode) offset buf length k
    = Some (offset + n, k') ->
  read_data inode offset buf length k = Some (n, k').
Proof.
  intros Hf Ho Hn Hz E. unfold read_data. rewrite (proj2 (Z.ltb_ge _ _)) by (destruct Hf; lia).
  unfold DATABLOCK_SIZE. rewrite E. cbn [mbind option_bind].
  assert (inode_length k inode <= 4096 * 1023) by apply Hf.
  destruct (Z.leb_spec (inode_length k inode) offset); [by rewrite Hz|].
  rewrite Z.add_simpl_l, s32_small by lia. done.
Qed.

Lemma read_data_aligned_run k inode offset buf length :
  file_ok k inode -> buf_ok k buf length -> 0 <= offset -> offset mod 4096 = 0 ->
  0 <= length < 2 ^ 32 ->
  let n := read_count offset length (inode_length k inode) in
  exists k', read_data inode offset buf length k = Some (n, k') /\ copied k inode offset buf n k'.
Proof.
  intros Hf Hb Ho Hal Hl n. assert (Hn : 0 <= n <= inode_length k inode + 4096).
  { unfold n, read_count. assert (0 <= inode_length k inode) by apply Hf. bdestr; dlia. }
  destruct (decide (offset < inode_length k inode)) as [Hlt|Hge].
  - destruct (read_data_loop_aligned k inode offset buf length Hf Hb Ho Hal Hl Hlt
      (Z.to_nat (length / 4096 + 2)) 0 k (copied_refl _ _ _ _)) as (k' & E & Hc); try lia; try done;
      [destruct (decide (length = 0)) as [->|]; [left|right]; [unfold read_count; bdestr; dlia|lia]
      |rewrite Z.sub_0_r; dlia|].
    exists k'. split; [|done]. apply read_data_eq; auto; [lia|].
    rewrite !Z.add_0_r, Z.sub_0_r, u32_small in E by (destruct Hb; lia). done.
  - exists k. assert (n = 0) as -> by (unfold n, read_count; bdestr; lia).
    split; [|apply copied_refl]. apply read_data_eq; auto; try lia.
    rewrite Z.add_0_r. destruct (Z.to_nat (length / 4096 + 2)) eqn:E; [dlia|].
    cbn [read_data_loop]. by rewrite (proj2 (Z.ltb_ge _ _)), andb_false_r by lia.
Qed.

(** Requests under a block that stay inside one. *)
Lemma read_data_in_block_run k inode offset buf length :
  file_ok k inode -> buf_ok k buf length -> 0 <= offset -> 0 <= length < 4096 ->
  let n := Z.max 0 (Z.min length (inode_length k inode - offset)) in
  offset mod 4096 + n <= 4096 ->
  exists k', read_data inode offset buf length k = Some (n, k') /\ copied k inode offset buf n k'.
Proof.
  intros Hf Hb Ho Hl n Hblk. assert (Hlen : 0 <= inode_length k inode <= 4096 * 1023) by apply Hf.
  assert (Hbe : 0 <= buf /\ buf + length < 2 ^ 32) by (destruct Hb; lia).
  enough (H : exists k', read_data_loop 2 inode offset (inode_length k inode) offset buf length k =
    Some (offset + n, k') /\ copied k inode offset buf n k').
  { destruct H as (k' & E & Hc). exists k'. split; [|done]. apply read_data_eq; auto; try lia.
    replace (length / 4096 + 2) with 2 by dlia. done. }
  cbn [read_data_loop]. destruct (negb (length =? 0) && (offset <? inode_length k inode)) eqn:E.
  - apply andb_prop in E as [E1 E2]. apply Z.ltb_lt in E2. apply negb_true_iff, Z.eqb_neq in E1.
    unfold round_length, DATABLOCK_SIZE. rewrite (proj2 (Z.eqb_neq (length mod 4096) 0)) by dlia.
    rewrite (proj2 (Z.ltb_ge 4096 length)) by lia. cbn [orb]. rewrite (u32_small (length + offset)) by lia.
    replace (if inode_length k inode <? length + offset then _ else _) with n
      by (unfold n; bdestr; rewrite ?u32_small by lia; lia).
    assert (Hn : 0 <= n <= length) by lia. rewrite !(u32_small (_ + n)), (u32_small (length - n)) by lia.
    replace (negb (length - n =? 0) && _) with false by (unfold n; bdestr; cbn; done || lia).
    eexists; split; [done|].
    pose proof (copied_round k inode offset buf length 0 n k Hf Hb (copied_refl _ _ _ _)) as H.
    rewrite !Z.add_0_r, Z.add_0_l, (u32_small buf) in H by lia. apply H; lia.
  - exists k. assert (n = 0) as -> by (apply andb_false_elim in E as [E|E]; bdestr_in E; cbn in E; try done; lia).
    rewrite Z.add_0_r. split; [done|apply copied_refl].
Qed.

(** ** Names *)

(** The characters of a name before its NUL, at most [n]. *)
Fixpoint str_from (n : nat) (f : Z -> Z) (i : Z) : list Z :=
  match n with
  | O => []
  | S n => if f i =? 0 then [] else f i :: str_from n f (i + 1)
  end.

Definition name32 (f : Z -> Z) : list Z := str_from 32 f 0.

Lemma name_match_spec name fname : forall n i, (0 < n)%nat ->
  name_match n name fname i (32 - Z.of_nat n) = true <-> str_from n name i = str_from n fname i.
Proof.
  induction n as [|n IH]; intros i Hn; [lia|]. cbn [name_match str_from].
  destruct (Z.eqb_spec (name i) (fname i)) as [E|E].
  2:{ split; [done|]. destruct (Z.eqb_spec (name i) 0), (Z.eqb_spec (fname i) 0); try done; [lia|].
      intros [= ?]. done. }
  rewrite <- E. destruct (Z.eqb_spec (name i) 0); cbn [orb]; [done|].
  destruct (Z.eqb_spec (32 - Z.of_nat (S n)) 31) as [E31|E31].
  - assert (n = O) as -> by lia. done.
  - replace (32 - Z.of_nat (S n) + 1) with (32 - Z.of_nat n) by lia.
    rewrite IH by lia. split; [by intros ->|by intros [= ?]].
Qed.

Lemma name_match_name32 name fname :
  name_match 32 name fname 0 0 = true <-> name32 name = name32 fname.
Proof. apply (name_match_spec name fname 32 0). lia. Qed.

(** Entry [i] of the directory. *)
Definition entry_name (k : kernel) (i : Z) : list Z := name32 (dentry_name k (dentry_addr k i)).

Definition entry (k : kernel) (i : Z) : dentry_t :=
  let a := dentry_addr k i in
  mkDentry (map (dentry_name k a) (seqZ 0 32)) (ld32 k (u32 (a + 32))) (ld32 k (u32 (a + 36))).

Lemma copy_dentry_entry k i d : length (d_name d) = 32%nat ->
  copy_dentry k (dentry_addr k i) d = entry k i.
Proof.
  intros Hl. unfold copy_dentry, entry, with_d_inodeNum, with_d_fileType, with_d_name.
  cbn [d_name d_fileType d_inodeNum].
  f_equal. set (f := dentry_name k (dentry_addr k i)).
  destruct (for_range_inv 0 NAME_SIZE (fun i l => aset l i (f i)) (d_name d)
    (fun j l => length l = 32%nat /\ forall x, 0 <= x < j -> aget l x = Some (f x))) as [Hl' H].
  - done.
  - split; [done|lia].
  - unfold NAME_SIZE. intros j l Hj [Hl' H]. split; [by rewrite length_aset|]. intros x Hx.
    rewrite aget_aset. destruct (Z.eqb_spec j x) as [->|]; cbn [andb].
    + by rewrite (proj2 (in_range_true _ _)) by lia.
    + apply H. lia.
  - apply aget_ext; [by rewrite Hl', length_map, length_seqZ|].
    unfold NAME_SIZE in H. intros x Hx. rewrite H by lia. unfold aget.
    rewrite (proj2 (in_range_true _ _)) by (rewrite length_map, length_seqZ; lia).
    rewrite list_lookup_fmap, lookup_seqZ_lt by lia.
    by replace (0 + Z.of_nat (Z.to_nat x)) with x by lia.
Qed.

(** A piece at a multiple of a divisor of the block size stays in its block. *)
Lemma chunk_in_block pos c :
  0 < c -> 4096 mod c = 0 -> pos mod c = 0 -> pos mod 4096 + c <= 4096.
Proof.
  intros Hc Hdiv Hal. assert (E4 : 4096 = c * (4096 / c)) by (apply Z.div_exact; lia).
  assert (Ep : pos = c * (pos / c)) by (apply Z.div_exact; lia).
  set (q := 4096 / c) in *. set (r := pos / c) in *.
  assert (Hq : 0 < q) by nia. assert (E : pos mod 4096 = c * (r mod q)).
  { rewrite Ep, E4. apply Z.mul_mod_distr_l; lia. }
  pose proof (Z.mod_pos_bound r q Hq). nia.
Qed.

(** What the directory search answers: the first entry of that name. *)
Definition find_spec (k : kernel) (fname : Z -> Z) (d : dentry_t) (r : Z * dentry_t) : Prop :=
  (exists i, 0 <= i < 64 /\ entry_name k i = name32 fname /\
     (forall j, 0 <= j < i -> entry_name k j <> name32 fname) /\ r = (0, entry k i)) \/
  ((forall i, 0 <= i < 64 -> entry_name k i <> name32 fname) /\ r = (-1, d)).

Lemma read_dentry_by_name_spec k fname d : length (d_name d) = 32%nat ->
  find_spec k fname d (read_dentry_by_name fname d k).
Proof.
  intros Hl. unfold read_dentry_by_name.
  enough (H : forall n i, i = 64 - Z.of_nat n -> 0 <= i ->
    (forall j, 0 <= j < i -> entry_name k j <> name32 fname) ->
    find_spec k fname d (read_dentry_by_name_loop n i fname d k))
    by (apply H; [done|lia|intros; lia]).
  induction n as [|n IH]; intros i Hi H0 Hlow; cbn [read_dentry_by_name_loop].
  { right. split; [|done]. intros j Hj. apply Hlow. lia. }
  destruct (name_match _ _ _ _ _) eqn:E.
  - apply name_match_name32 in E. left. exists i. split_and!; auto; try lia.
    by rewrite copy_dentry_entry.
  - apply IH; [lia|lia|]. intros j Hj. destruct (decide (j = i)) as [->|]; [|apply Hlow; lia].
    intros Hm%name_match_name32. congruence.
Qed.

(** ** Stores to a buffer *)

(** [k'] is [k] with the bytes [f i], [lo <= i < hi], stored at [buf + i]. *)
Record stored (k : kernel) (buf lo hi : Z) (f : Z -> Z) (k' : kernel) : Prop := {
  sd_only : only_mem k k';
  sd_in : forall i, lo <= i < hi -> ld8 k' (buf + i) = u8 (f i);
  sd_out : forall x, (forall i, lo <= i < hi -> as_sep k (buf + i) x) -> ld8 k' x = ld8 k x;
}.

Lemma stored_refl k buf lo f : stored k buf lo lo f k.
Proof. split; [done|lia|done]. Qed.

Lemma stored_step k buf lo i f k' n :
  0 <= buf -> buf + n < 2 ^ 32 -> 0 <= lo <= i -> i < n -> region k (span buf n) ->
  stored k buf lo i f k' -> stored k buf lo (i + 1) f (st8 (u32 (buf + i)) (f i) k').
Proof.
  intros Hb Hn Hlo Hi Hr [Ho Hin Hout]. rewrite u32_small by lia.
  assert (Hr' : region k' (span buf n)) by (eapply only_mem_region; eauto). split.
  - etrans; [exact Ho|]. apply only_mem_st8, Hr'. unfold span; lia.
  - intros j Hj. destruct (decide (j = i)) as [->|].
    + apply ld8_st8_eq, Hr'. unfold span; lia.
    + rewrite ld8_st8_sep by (apply Hr'; unfold span; lia). apply Hin. lia.
  - intros x Hx. rewrite ld8_st8_sep by (eapply only_mem_sep; [exact Ho|]; apply Hx; lia).
    apply Hout. intros j Hj. apply Hx. lia.
Qed.

Lemma store_loop k buf lo n f :
  0 <= buf -> buf + n < 2 ^ 32 -> 0 <= lo <= n -> region k (span buf n) ->
  stored k buf lo n f (for_range lo n (fun i k => st8 (u32 (buf + i)) (f i) k) k).
Proof.
  intros Hb Hn Hlo Hr. apply (for_range_inv lo n _ k (fun i t => stored k buf lo i f t));
    [lia|apply stored_refl|]. intros i t Hi Ht. apply (stored_step k buf lo i f t n); auto; lia.
Qed.

(** The copying loop of strncpy stops at the NUL or after [n] characters. *)
Lemma strncpy_local_stored k buf src n : 0 <= buf -> buf + n < 2 ^ 32 -> region k (span buf n) ->
  forall m i k', i = n - Z.of_nat m -> 0 <= i -> stored k buf 0 i (agetZ src) k' ->
  (forall j, 0 <= j < i -> agetZ src j <> 0) ->
  exists e k2, strncpy_local m buf src i k' = (e, k2) /\ i <= e <= n /\
    stored k buf 0 e (agetZ src) k2 /\ (forall j, 0 <= j < e -> agetZ src j <> 0) /\
    (e < n -> agetZ src e = 0).
Proof.
  intros Hb Hn Hr. induction m as [|m IH]; intros i k' Hi H0 Hs Hnz; cbn [strncpy_local].
  - exists i, k'. split_and!; auto; lia.
  - destruct (Z.eqb_spec (agetZ src i) 0) as [E|E].
    { exists i, k'. split_and!; auto; lia. }
    destruct (IH (i + 1) (st8 (u32 (buf + i)) (agetZ src i) k')) as (e & k2 & E2 & He & Hs2 & Hnz2 & Hz);
      try lia; [apply (stored_step k buf 0 i (agetZ src) k' n); auto; lia| |].
    + intros j Hj. destruct (decide (j = i)) as [->|]; [done|apply Hnz; lia].
    + exists e, k2. split_and!; auto; lia.
Qed.

Lemma name_len_spec l : 0 <= name_len l <= Z.of_nat (length l) /\
  (forall j, 0 <= j < name_len l -> agetZ l j <> 0) /\
  (name_len l < Z.of_nat (length l) -> agetZ l (name_len l) = 0).
Proof.
  induction l as [|c l (IH1 & IH2 & IH3)]; cbn [name_len length].
  { split; [lia|]. split; intros; lia. }
  destruct (Z.eqb_spec c 0) as [->|Hc].
  { split_and!; [lia|lia|intros; lia|done]. }
  split_and!; [lia|lia| |].
  - intros j Hj. destruct (decide (j = 0)) as [->|]; [done|].
    replace j with (j - 1 + 1) by lia. rewrite agetZ_cons by lia. apply IH2. lia.
  - intros Hlt. rewrite Z.add_comm, agetZ_cons by lia. apply IH3. lia.
Qed.

(** The entries occupy the rest of the boot block. *)
Definition dir_ok (k : kernel) (buf : Z) : Prop :=
  0 <= startdentry k /\ startdentry k + 4096 < 2 ^ 32 /\ 0 <= buf /\ buf + 32 < 2 ^ 32 /\
  (buf + 32 <= startdentry k \/ startdentry k + 4096 <= buf) /\
  region k (fun a => span (startdentry k) 4096 a \/ span buf 32 a).

Lemma stored_dir k buf lo hi f k' a : dir_ok k buf -> 0 <= lo -> hi <= 32 -> stored k buf lo hi f k' ->
  span (startdentry k) 4096 a -> ld8 k' a = ld8 k a.
Proof.
  intros (H0 & H1 & H2 & H3 & Hap & Hr) Hlo Hhi Hs Ha. apply Hs. intros i Hi.
  apply Hr; [right|left|]; unfold span in *; lia.
Qed.

Lemma ld32_ext k k' a : 0 <= a < 2 ^ 32 ->
  (forall j, 0 <= j < 4 -> ld8 k' (u32 (a + j)) = ld8 k (u32 (a + j))) -> ld32 k' a = ld32 k a.
Proof.
  intros Ha H. unfold ld32. rewrite !H by lia. specialize (H 0 ltac:(lia)).
  rewrite Z.add_0_r, u32_small in H by lia. by rewrite H.
Qed.

Lemma stored_entry k buf lo hi f k' i : dir_ok k buf -> 0 <= lo -> hi <= 32 ->
  stored k buf lo hi f k' -> 0 <= i < 64 -> entry k' i = entry k i.
Proof.
  intros Hd Hlo Hhi Hs Hi. pose proof Hd as (H0 & H1 & _).
  assert (Ea : dentry_addr k' i = dentry_addr k i) by (destruct Hs as [-> _ _]; done).
  assert (E0 : dentry_addr k i = startdentry k + 64 * i)
    by (unfold dentry_addr, SIZEOF_DENTRY; rewrite u32_small; lia).
  assert (H : forall j, 0 <= j < 64 -> ld8 k' (u32 (dentry_addr k i + j)) = ld8 k (u32 (dentry_addr k i + j))).
  { intros j Hj. rewrite E0, u32_small by lia. apply (stored_dir k buf lo hi f); auto. unfold span. lia. }
  unfold entry. rewrite Ea. f_equal.
  - apply map_ext_in. intros j Hj. apply list_elem_of_In, elem_of_seqZ in Hj. apply H. lia.
  - apply ld32_ext; [apply u32_range|]. intros j Hj. rewrite u32_add_l, <- Z.add_assoc. apply H. lia.
  - apply ld32_ext; [apply u32_range|]. intros j Hj. rewrite u32_add_l, <- Z.add_assoc. apply H. lia.
Qed.

(** ** Correctness *)

(** C35: read_data always terminates on a file of at most 1023 blocks, and
    refuses an inode above the count with -1, changing nothing. *)
Theorem read_data_total k inode offset buf length :
  0 <= offset < 2 ^ 32 -> 0 <= length < 2 ^ 32 -> inode_length k inode <= 4096 * 1023 ->
  (exists r, read_data inode offset buf length k = Some r) /\
  (numinodes k < inode -> read_data inode offset buf length k = Some (-1, k)).
Proof.
  intros Ho Hl He. unfold read_data. destruct (Z.ltb_spec (numinodes k) inode); [eauto|].
  split; [|lia]. unfold DATABLOCK_SIZE.
  destruct (read_data_loop_total (Z.to_nat (length / 4096 + 2)) inode offset (inode_length k inode)
    offset buf length k) as [[c k'] ->]; try lia.
  cbn [mbind option_bind]. destruct (_ <=? _); eauto.
Qed.

(** C19: from a block-aligned offset read_data copies the file's bytes in order,
    block by block, and returns the number copied: the whole request when the
    file holds it; a request under a block is cut at the end of the file; a
    larger one is cut only at the end of the last block, so that it returns and
    copies bytes past the end of the file.  Nothing else in memory or in the
    kernel changes. *)
Theorem read_data_aligned k inode offset buf length :
  file_ok k inode -> buf_ok k buf length -> 0 <= offset -> offset mod 4096 = 0 ->
  0 <= length < 2 ^ 32 ->
  let n := read_count offset length (inode_length k inode) in
  (exists k', read_data inode offset buf length k = Some (n, k') /\ copied k inode offset buf n k') /\
  (offset + length <= inode_length k inode -> n = length).
Proof.
  intros Hf Hb Ho Hal Hl n. split; [by apply read_data_aligned_run|].
  intros Hle. unfold n, read_count. bdestr; dlia.
Qed.

(** C18: a request of less than a block that does not cross a block boundary
    copies exactly the bytes of the file from [offset], cut at the end of the
    file, and returns their number. *)
Theorem read_data_in_block k inode offset buf length :
  file_ok k inode -> buf_ok k buf length -> 0 <= offset -> 0 <= length < 4096 ->
  let n := Z.max 0 (Z.min length (inode_length k inode - offset)) in
  offset mod 4096 + n <= 4096 ->
  exists k', read_data inode offset buf length k = Some (n, k') /\ copied k inode offset buf n k'.
Proof. apply read_data_in_block_run. Qed.

(** C17: read_dentry_by_name finds the first directory entry whose name agrees
    with the given one in its first 32 characters and copies it; it returns -1
    and copies nothing exactly when there is none. *)
Theorem read_dentry_by_name_correct k fname d : length (d_name d) = 32%nat ->
  find_spec k fname d (read_dentry_by_name fname d k).
Proof. apply read_dentry_by_name_spec. Qed.

(** an entry read by index is found again by its name: with no earlier
    entry of the same name, the search returns 0 and the same entry. *)
Theorem dentry_roundtrip k i d0 d1 :
  0 <= i < 64 -> length (d_name d0) = 32%nat -> length (d_name d1) = 32%nat ->
  (forall j, 0 <= j < i -> entry_name k j <> entry_name k i) ->
  let d := snd (read_dentry_by_index i d0 k) in
  read_dentry_by_name (agetZ (d_name d)) d1 k = (0, d).
Proof.
  intros Hi Hl0 Hl1 Huniq. unfold read_dentry_by_index. unfold NUM_DENTRIES.
  rewrite (proj2 (Z.leb_gt _ _)), (proj2 (Z.ltb_ge _ _)) by lia. cbn [orb snd].
  rewrite copy_dentry_entry by done.
  assert (En : name32 (agetZ (d_name (entry k i))) = entry_name k i).
  { unfold name32, entry_name, name32. set (f := dentry_name k (dentry_addr k i)).
    assert (Hs : forall n x, 0 <= x -> x + Z.of_nat n <= 32 ->
      str_from n (agetZ (d_name (entry k i))) x = str_from n f x).
    { induction n as [|n IH]; intros x Hx Hn; [done|]. cbn [str_from].
      replace (agetZ (d_name (entry k i)) x) with (f x); [by rewrite IH by lia|].
      unfold agetZ, aget, entry. cbn [d_name]. fold f.
      rewrite (proj2 (in_range_true _ _)) by (rewrite length_map, length_seqZ; lia).
      rewrite list_lookup_fmap, lookup_seqZ_lt by lia.
      by replace (0 + Z.of_nat (Z.to_nat x)) with x by lia. }
    apply Hs; lia. }
  destruct (read_dentry_by_name_spec k (agetZ (d_name (entry k i))) d1 Hl1)
    as [(j & Hj & Ej & Hlow & ->)|[Hno _]].
  - rewrite En in *. destruct (decide (j = i)) as [->|Hne]; [done|].
    exfalso. destruct (decide (j < i)); [apply (Huniq j); [lia|exact Ej]|].
    apply (Hlow i); [lia|reflexivity].
  - rewrite En in Hno. exfalso. apply (Hno i Hi). reflexivity.
Qed.

Lemma file_read_chunk_run k fd buf c p e :
  let pid := get_current_PCB k in
  let pos := file_pos e in let ino := inode_number e in
  aget (k_pcbs k) pid = Some p -> aget (fd_table p) fd = Some e ->
  file_ok k ino -> buf_ok k buf c -> 0 < c < 4096 -> 4096 mod c = 0 -> 0 <= pos ->
  pos mod c = 0 \/ inode_length k ino <= pos -> pos < 2 ^ 31 - 4096 -> ino < 2 ^ 31 ->
  let n := Z.max 0 (Z.min c (inode_length k ino - pos)) in
  exists k1, copied k ino pos buf n k1 /\
    file_read fd buf c k = Some (n, put_pcb pid
      (with_fd_table (aset (fd_table p) fd (with_file_pos (if n =? 0 then 0 else pos + n) e)) p) k1).
Proof.
  intros pid pos ino Hp He Hf Hb Hc Hdiv Hpos Hal Hp31 Hi31 n.
  assert (Hi : 0 <= ino) by (destruct Hf; lia).
  assert (Hblk : pos mod 4096 + n <= 4096).
  { destruct (decide (n = 0)) as [->|Hn]; [dlia|]. destruct Hal as [Hal|Hal]; [|unfold n in Hn; lia].
    assert (n <= c) by lia. pose proof (chunk_in_block pos c). lia. }
  destruct (read_data_in_block_run k ino pos buf c Hf Hb Hpos ltac:(lia) Hblk) as (k1 & E & Hcp).
  fold n in E, Hcp. exists k1. split; [done|]. unfold file_read.
  pose proof (aget_Some_range _ _ _ He) as Hfd. rewrite (proj2 (Z.ltb_lt (-1) fd)) by lia.
  fold pid. assert (Eg : get_PCB k pid = p) by (unfold get_PCB; by rewrite Hp).
  assert (Ee : get_fd p fd = e) by (unfold get_fd; by rewrite He).
  rewrite Eg, Ee, !u32_small by lia. fold pos ino. rewrite E. cbn [mbind option_bind].
  assert (Hp1 : aget (k_pcbs k1) pid = Some p) by (destruct Hcp as [-> _ _ _ _]; done).
  assert (Hno : n <= c) by lia.
  destruct (Z.eqb_spec n 0) as [->|Hn]; cbn [negb]; erewrite upd_fdt_eq by eassumption; [done|].
  fold pos. rewrite s32_small by lia. done.
Qed.

(** reading a file in pieces of a size that divides the block size: each
    file_read returns the next piece (short at the end of the file), puts
    exactly those bytes in the buffer and advances the file position; at the
    end it returns 0 and rewinds. *)
Theorem file_read_chunk k fd buf c p e :
  let pid := get_current_PCB k in
  let pos := file_pos e in let ino := inode_number e in
  aget (k_pcbs k) pid = Some p -> aget (fd_table p) fd = Some e ->
  file_ok k ino -> buf_ok k buf c -> 0 < c < 4096 -> 4096 mod c = 0 -> 0 <= pos ->
  pos mod c = 0 \/ inode_length k ino <= pos -> pos < 2 ^ 31 - 4096 -> ino < 2 ^ 31 ->
  let n := Z.max 0 (Z.min c (inode_length k ino - pos)) in
  exists k1, copied k ino pos buf n k1 /\
    file_read fd buf c k = Some (n, put_pcb pid
      (with_fd_table (aset (fd_table p) fd (with_file_pos (if n =? 0 then 0 else pos + n) e)) p) k1).
Proof. apply file_read_chunk_run. Qed.

(** C40: dir_read puts the name of the current entry in the buffer, NUL-padded,
    and advances; at the last entry of the count it rewinds to the first and
    returns 0, so that a caller that stops at 0 never uses the last name. *)
Theorem dir_read_correct k fd buf :
  dir_ok k buf -> 0 <= curfile k < 64 ->
  let name := d_name (entry k (curfile k)) in
  exists k1, only_mem k k1 /\
    (forall i, 0 <= i < 32 -> ld8 k1 (buf + i) = if i <? name_len name then agetZ name i else 0) /\
    dir_read fd buf 32 k =
      if curfile k + 1 =? numdentries k then (0, set_curfile 0 k1)
      else (name_len name, set_curfile (curfile k + 1) k1).
Proof.
  intros Hd Hcf name. pose proof Hd as (H0 & H1 & Hb & Hb32 & Hap & Hr).
  assert (Hrb : region k (span buf 32)) by (eapply region_mono; [|exact Hr]; by right).
  unfold dir_read, MAXFILENAMESIZE. change (u32 32) with 32.
  pose proof (store_loop k buf 0 32 (fun _ => 0) Hb Hb32 ltac:(lia) Hrb) as Hz. cbv beta in Hz. revert Hz.
  generalize (for_range 0 32 (fun i k => st8 (u32 (buf + i)) 0 k) k) as k1. intros k1 Hz.
  assert (Ecf : curfile k1 = curfile k) by (by rewrite (sd_only _ _ _ _ _ _ Hz)).
  unfold read_dentry_by_index, NUM_DENTRIES, MAXFILENAMESIZE. rewrite Ecf, (proj2 (Z.leb_gt _ _)), (proj2 (Z.ltb_ge _ _)) by lia.
  cbn [orb]. rewrite copy_dentry_entry, (stored_entry k buf 0 32 _ k1) by (done || lia). fold name.
  assert (Hrb1 : region k1 (span buf 32)) by (eapply only_mem_region; [apply Hz|done]).
  assert (Hl : length name = 32%nat) by (unfold name, entry; cbn [d_name]; by rewrite length_map, length_seqZ).
  destruct (name_len_spec name) as (Hn1 & Hn2 & Hn3).
  set (src := dentry_bytes (entry k (curfile k))).
  assert (Esrc : forall j, 0 <= j < 32 -> agetZ src j = agetZ name j)
    by (intros j Hj; apply agetZ_app_l; fold name; lia).
  destruct (strncpy_local_stored k1 buf src 32 Hb Hb32 Hrb1 (Z.to_nat 32) 0 k1)
    as (e & k2 & -> & He & Hs2 & Hnz & Hez); try lia; [apply stored_refl|].
  assert (Ee : e = name_len name).
  { destruct (decide (e < name_len name)); [exfalso; apply (Hn2 e); [lia|]; rewrite <- Esrc by lia; apply Hez; lia|].
    destruct (decide (name_len name < e)); [exfalso; apply (Hnz (name_len name)); [lia|]|lia].
    rewrite Esrc by lia. apply Hn3. lia. }
  assert (Hrb2 : region k2 (span buf 32)) by (eapply only_mem_region; [apply Hs2|done]).
  pose proof (store_loop k2 buf e 32 (fun _ => 0) Hb Hb32 ltac:(lia) Hrb2) as Hp. cbv beta in Hp. revert Hp.
  generalize (for_range e 32 (fun i k => st8 (u32 (buf + i)) 0 k) k2) as k3. intros k3 Hp.
  assert (Honly : only_mem k k3) by (etrans; [apply Hz|]; etrans; [apply Hs2|apply Hp]).
  exists k3. split_and!; [done| |].
  - intros i Hi. rewrite <- Ee. destruct (Z.ltb_spec i e).
    + rewrite (sd_out _ _ _ _ _ _ Hp) by (intros j Hj; apply Hrb2; unfold span; lia).
      rewrite (sd_in _ _ _ _ _ _ Hs2), Esrc by lia. apply u8_small.
      unfold name, entry; cbn [d_name].
      apply (Forall_agetZ (fun c => 0 <= c < 256)); [|rewrite length_map, length_seqZ; lia].
      apply Forall_map, Forall_true. intros x. apply (ld8_range (S := kernel)).
    + by rewrite (sd_in _ _ _ _ _ _ Hp) by lia.
  - assert (E3 : curfile k3 = curfile k) by (rewrite Honly; done).
    rewrite Z.min_r, E3, u32_small by lia.
    replace (numdentries (set_curfile (curfile k + 1) k3)) with (numdentries k) by (rewrite Honly; done).
    cbn [curfile k_fs set_curfile with_k_fs]. destruct (curfile k + 1 =? numdentries k); done.
Qed.

(** ** Witnesses: an image with one file *)

Definition bytes_from (a : Z) (l : list Z) : gmap Z Z := list_to_map (zip (seqZ a (Z.of_nat (length l))) l).

(** Two entries, one inode, two blocks; file "a" holds "hello" in block 1. *)
Definition demo_image : gmap Z Z :=
  bytes_from 0x500000 [2; 0; 0; 0; 1; 0; 0; 0; 2; 0; 0; 0] ∪
  bytes_from 0x500040 [46; 0] ∪ bytes_from 0x500060 [1] ∪
  bytes_from 0x500080 [97; 0] ∪ bytes_from 0x5000A0 [2; 0; 0; 0; 0] ∪
  bytes_from 0x501000 [5; 0; 0; 0; 1; 0; 0; 0] ∪
  bytes_from 0x503000 [104; 101; 108; 108; 111].

Definition demo_fs : kernel := filesys_init 0x500000 (with_k_mem demo_image demo_pcbs).

Lemma file_ok_intro k inode b :
  0 <= start_addr k -> start_addr k + image_size k < 2 ^ 32 -> 0 <= numblocks k ->
  0 <= inode < numinodes k -> 0 < inode_length k inode <= 4096 -> block_num k inode 0 = b ->
  0 <= b < numblocks k -> file_ok k inode.
Proof.
  intros. split; try lia. intros j Hj. assert (j = 0) as -> by lia. lia.
Qed.

Lemma demo_file_ok : file_ok demo_fs 0.
Proof.
  apply (file_ok_intro _ _ 1); vm_compute; try reflexivity; repeat split; congruence.
Qed.

Lemma demo_buf_ok n : 0 <= n < 0x10000 -> buf_ok demo_fs 0x600000 n.
Proof.
  intros Hn. replace (start_addr demo_fs) with 0x500000 by reflexivity.
  split; try lia; [|by apply region_unpaged].
  right. vm_compute. congruence.
Qed.

Lemma read_data_total_witness : exists r, read_data 0 0 0x600000 4096 demo_fs = Some r.
Proof. apply (read_data_total demo_fs 0 0 0x600000 4096); try lia. vm_compute. congruence. Defined.

Lemma read_data_aligned_witness : exists k', read_data 0 0 0x600000 4096 demo_fs = Some (4096, k').
Proof.
  destruct (read_data_aligned demo_fs 0 0 0x600000 4096 demo_file_ok) as [(k' & E & _) _];
    [apply demo_buf_ok; lia|lia|reflexivity|lia|].
  exists k'. exact E.
Defined.

Lemma read_data_in_block_witness : exists k', read_data 0 2 0x600000 100 demo_fs = Some (3, k') /\
  ld8 k' 0x600000 = 108.
Proof.
  destruct (read_data_in_block demo_fs 0 2 0x600000 100 demo_file_ok) as (k' & E & Hc);
    [apply demo_buf_ok; lia|lia|lia|vm_compute; congruence|].
  exists k'. split; [exact E|].
  replace 0x600000 with (0x600000 + 0) by lia. rewrite (cp_bytes _ _ _ _ _ _ Hc).
  - vm_compute. reflexivity.
  - vm_compute. split; congruence.
Defined.

Lemma read_dentry_by_name_correct_witness :
  find_spec demo_fs (agetZ [97; 0]) local_dentry (read_dentry_by_name (agetZ [97; 0]) local_dentry demo_fs).
Proof. apply (read_dentry_by_name_correct demo_fs). reflexivity. Defined.

Lemma dentry_roundtrip_witness :
  read_dentry_by_name (agetZ (d_name (snd (read_dentry_by_index 1 local_dentry demo_fs))))
    local_dentry demo_fs = (0, snd (read_dentry_by_index 1 local_dentry demo_fs)).
Proof.
  apply (dentry_roundtrip demo_fs 1 local_dentry local_dentry); try reflexivity; try lia.
  intros j Hj. assert (j = 0) as -> by lia. vm_compute. congruence.
Defined.

(** Process 0 of terminal 0 has the file open as descriptor 2. *)
Definition demo_open : kernel := upd_fdt 0 2 (fun _ => mkFd 0 0 0 (Some file_struct) 2) demo_fs.

Lemma file_read_chunk_witness : exists k', file_read 2 0x600000 1024 demo_open = Some (5, k').
Proof.
  destruct (file_read_chunk demo_open 2 0x600000 1024 (get_PCB demo_open 0)
    (mkFd 0 0 0 (Some file_struct) 2)) as (k1 & _ & E);
    try (vm_compute; reflexivity); try lia.
  - apply (file_ok_intro _ _ 1); vm_compute; try reflexivity; repeat split; congruence.
  - split; try lia; [|by apply region_unpaged]. right. vm_compute. congruence.
  - cbn. lia.
  - left. reflexivity.
  - eexists. exact E.
Defined.

Lemma dir_read_correct_witness : exists k', dir_read 2 0x600000 32 demo_fs = (0, k').
Proof.
  destruct (dir_read_correct demo_fs 2 0x600000) as (k1 & _ & _ & E).
  - unfold dir_ok. split_and!; try (by apply region_unpaged); vm_compute; try congruence.
    right. congruence.
  - vm_compute. split; congruence.
  - replace (curfile demo_fs + 1 =? numdentries demo_fs) with true in E by (vm_compute; reflexivity).
    eexists. exact E.
Defined.
