(* ===== verification/Fdt.v ===== *)
(** * Opening and closing file descriptors (pcb.c: insert_fdt, remove_fd_entry) *)

From Stdlib Require Import ZArith Lia.
From stdpp Require Import base numbers list gmap.
From S2P Require Import Prelude Memory LibMem LibStr State Machine Pcb Filesys.

Open Scope Z_scope.
Implicit Types k : kernel.

(** The switch on the file type. *)
Definition set_fop (e : fd_table_entry_t) : fd_table_entry_t :=
  if fd_fileType e =? 0 then with_jump_start_idx (Some rtc_struct) e
  else if fd_fileType e =? 1 then with_jump_start_idx (Some dir_struct) e
  else if fd_fileType e =? 2 then with_jump_start_idx (Some file_struct) e
  else e.

Definition insert_fdt (filename : Z -> Z) (k : kernel) : Z * kernel :=
  let '(i, k) := file_open filename k in
  if i =? -1 then (-1, k)
  else
    let currPid := cur_pid k in
    let '(currFD, k) := get_fdAvail currPid k in
    if currFD =? -1 then (-1, k)
    else
      let '(retval, dent) := read_dentry_by_name filename local_dentry k in
      if retval =? -1 then (-1, k)
      else
        let k := upd_fdt currPid currFD (with_fd_fileType (s32 (d_fileType dent))) k in
        let k := upd_fdt currPid currFD (with_inode_number (s32 (d_inodeNum dent))) k in
        let k := upd_fdt currPid currFD set_fop k in
        let k := upd_fdt currPid currFD (with_present 0) k in
        (currFD, k).

(** The entry an open file gets in place of [e]: the position is not reset. *)
Definition opened_fd (d : dentry_t) (e : fd_table_entry_t) : fd_table_entry_t :=
  with_present 0 (set_fop (with_inode_number (s32 (d_inodeNum d))
    (with_fd_fileType (s32 (d_fileType d)) (with_present 0 e)))).

Definition put_fd (pid fd : Z) (e : fd_table_entry_t) (k : kernel) : kernel :=
  put_pcb pid (with_fd_table (aset (fd_table (get_PCB k pid)) fd e) (get_PCB k pid)) k.

(** ** Lemmas *)

(** A search only reads memory through [startdentry]. *)
Lemma read_dentry_frame filename d k k' :
  k_mem k' = k_mem k -> k_pg k' = k_pg k -> startdentry k' = startdentry k ->
  read_dentry_by_name filename d k' = read_dentry_by_name filename d k.
Proof.
  intros Em Ep Es. assert (El : forall a, ld8 k' a = ld8 k a).
  { intros a. simpl. unfold phys. by rewrite Em, Ep. }
  assert (Ea : forall i, dentry_addr k' i = dentry_addr k i) by (intros; unfold dentry_addr; by rewrite Es).
  assert (En : forall t i, dentry_name k' t i = dentry_name k t i) by (intros; apply El).
  assert (Em' : forall t n i c, name_match n (dentry_name k' t) filename i c =
    name_match n (dentry_name k t) filename i c).
  { intros t. induction n as [|n IH]; intros i c; cbn [name_match]; [done|]. by rewrite !En, IH. }
  assert (Ec : forall t, copy_dentry k' t d = copy_dentry k t d).
  { intros t. unfold copy_dentry, ld32. rewrite !El. f_equal. f_equal. f_equal.
    unfold for_range. generalize (d_name d) as l. generalize (Z.to_nat (NAME_SIZE - 0)) as n.
    generalize 0 as z. intros z n. revert z. induction n as [|n IH]; intros z l; cbn [forn]; [done|]. by rewrite En, IH. }
  unfold read_dentry_by_name. generalize 0 as i. generalize (Z.to_nat NUM_DENTRIES) as n.
  intros n. induction n as [|n IH]; intros i; cbn [read_dentry_by_name_loop]; [done|].
  by rewrite Ea, Em', Ec, IH.
Qed.

#[local] Opaque read_dentry_by_name entry_name entry name32.

Lemma upd_fdt_put_fd pid fd f e k :
  pcbs_ok (k_pcbs k) -> 0 <= pid < 6 -> 0 <= fd < 8 ->
  upd_fdt pid fd f (put_fd pid fd e k) = put_fd pid fd (f e) k.
Proof.
  intros Hok Hp Hfd. destruct (pcbs_get k pid Hok Hp) as (p & E & Eg & Hpo). unfold put_fd. rewrite Eg.
  pose proof (aget_Some_range _ _ _ E). destruct Hpo as (Hl & _).
  erewrite put_upd_fdt by (done || (cbn; apply aget_aset_eq; lia)).
  cbn. by rewrite aset_aset_eq.
Qed.

Lemma set_currDentry_put_fd d pid fd e k :
  set_currDentry d (put_fd pid fd e k) = put_fd pid fd e (set_currDentry d k).
Proof. reflexivity. Qed.

Lemma insert_fdt_found filename k d fd k1 :
  length (d_name (currDentry k)) = 32%nat -> pcbs_ok (k_pcbs k) -> 0 <= cur_pid k < 6 ->
  read_dentry_by_name filename (currDentry k) k = (0, d) ->
  read_dentry_by_name filename local_dentry k = (0, d) ->
  get_fdAvail (cur_pid k) k = (fd, k1) ->
  insert_fdt filename k =
    if fd =? -1 then (-1, set_currDentry d k)
    else (fd, set_currDentry d (put_fd (cur_pid k) fd (opened_fd d (get_fd (get_PCB k (cur_pid k)) fd)) k)).
Proof.
  intros Hl Hok Hp E1 E2 Ef. unfold insert_fdt, file_open. rewrite E1.
  change (cur_pid (set_currDentry d k)) with (cur_pid k). cbn [Z.eqb].
  pose proof (get_fdAvail_run (cur_pid k) (set_currDentry d k) Hok Hp) as Hs.
  pose proof (get_fdAvail_run (cur_pid k) k Hok Hp) as Hs0. rewrite Ef in Hs0. cbn [fst snd] in Hs0.
  destruct (get_fdAvail (cur_pid k) (set_currDentry d k)) as [fd' k'] eqn:Ef'. cbn [fst snd] in Hs.
  assert (Efd : fd' = fd).
  { unfold fdAvail_spec in Hs, Hs0. change (get_PCB (set_currDentry d k)) with (get_PCB k) in Hs.
    destruct Hs as [(-> & _ & H)|(H1 & H2 & H3 & _)], Hs0 as [(-> & _ & H')|(H1' & H2' & H3' & _)]; try done.
    - specialize (H fd ltac:(lia)). lia.
    - specialize (H' fd' ltac:(lia)). lia.
    - destruct (decide (fd < fd')); [specialize (H3 fd ltac:(lia)); lia|].
      destruct (decide (fd' < fd)); [specialize (H3' fd' ltac:(lia)); lia|]. lia. }
  subst fd'. destruct Hs as [(-> & -> & _)|(H1 & _ & _ & ->)]; [done|].
  rewrite (proj2 (Z.eqb_neq fd (-1))) by lia.
  change (get_PCB (set_currDentry d k)) with (get_PCB k).
  set (p := get_PCB k (cur_pid k)). set (e := get_fd p fd).
  change (put_pcb (cur_pid k) (with_fd_table (aset (fd_table p) fd (with_present 0 e)) p) (set_currDentry d k))
    with (put_fd (cur_pid k) fd (with_present 0 e) (set_currDentry d k)).
  replace (read_dentry_by_name filename local_dentry _) with (0, d)
    by (rewrite <- E2; symmetry; by apply read_dentry_frame).
  cbn [Z.eqb]. by rewrite !upd_fdt_put_fd by (done || lia).
Qed.

Lemma find_twice filename k d : length (d_name d) = 32%nat ->
  (exists i, 0 <= i < 64 /\ entry_name k i = name32 filename /\
     (forall j, 0 <= j < i -> entry_name k j <> name32 filename) /\
     read_dentry_by_name filename d k = (0, entry k i) /\
     read_dentry_by_name filename local_dentry k = (0, entry k i)) \/
  ((forall i, 0 <= i < 64 -> entry_name k i <> name32 filename) /\
   read_dentry_by_name filename d k = (-1, d)).
Proof.
  intros Hl. pose proof (read_dentry_by_name_spec k filename d Hl) as H1.
  pose proof (read_dentry_by_name_spec k filename local_dentry eq_refl) as H2.
  unfold find_spec in *. revert H1 H2. generalize (entry_name k) as en. intros en H1 H2.
  destruct H1 as [(i & Hi & Ei & Hlow & E1)|[Hno E1]]; [|right; split; assumption]. left.
  destruct H2 as [(i' & Hi' & Ei' & Hlow' & E2)|[Hno E2]]; [|destruct (Hno i Hi); assumption].
  assert (i' = i) as ->; [|exists i; split_and!; assumption || lia].
  destruct (decide (i < i')); [destruct (Hlow' i); [lia|assumption]|].
  destruct (decide (i' < i)); [destruct (Hlow i'); [lia|assumption]|]. lia.
Qed.

(** What open answers. *)
Definition insert_spec (filename : Z -> Z) (k : kernel) (r : Z) (k' : kernel) : Prop :=
  let p := get_PCB k (cur_pid k) in
  ((forall i, 0 <= i < 64 -> entry_name k i <> name32 filename) /\ r = -1 /\ k_pcbs k' = k_pcbs k) \/
  (exists i, 0 <= i < 64 /\ entry_name k i = name32 filename /\
     (forall j, 0 <= j < i -> entry_name k j <> name32 filename) /\
     currDentry k' = entry k i /\
     ((r = -1 /\ k_pcbs k' = k_pcbs k /\ forall fd, 2 <= fd < 8 -> present (get_fd p fd) = 0) \/
      (2 <= r < 8 /\ present (get_fd p r) = -1 /\
       (forall fd, 2 <= fd < r -> present (get_fd p fd) = 0) /\
       k' = set_currDentry (entry k i)
              (put_fd (cur_pid k) r (opened_fd (entry k i) (get_fd p r)) k)))).

Lemma insert_fdt_run filename k :
  length (d_name (currDentry k)) = 32%nat -> pcbs_ok (k_pcbs k) -> 0 <= cur_pid k < 6 ->
  insert_spec filename k (fst (insert_fdt filename k)) (snd (insert_fdt filename k)).
Proof.
  intros Hl Hok Hp. unfold insert_spec.
  destruct (find_twice filename k (currDentry k) Hl) as [(i & Hi & Ei & Hlow & E1 & E2)|[Hno E1]].
  - pose proof (get_fdAvail_run (cur_pid k) k Hok Hp) as Hs.
    destruct (get_fdAvail (cur_pid k) k) as [fd k1] eqn:Ef. cbn [fst snd] in Hs.
    rewrite (insert_fdt_found _ _ _ _ _ Hl Hok Hp E1 E2 Ef).
    right. exists i. do 3 (split; [assumption|]).
    destruct Hs as [(-> & _ & Hfull)|(Hr & Hfree & Hmin & _)].
    + split; [reflexivity|]. left. split_and!; [reflexivity..|exact Hfull].
    + rewrite (proj2 (Z.eqb_neq fd (-1))) by lia. split; [reflexivity|]. right. cbn [fst snd].
      split_and!; auto; lia.
  - unfold insert_fdt, file_open. rewrite E1. left. split; [exact Hno|]. split; reflexivity.
Qed.

(** ** Correctness *)

(** open: an unknown name or a full table is refused with -1 and no
    descriptor changes; otherwise the least free descriptor above 1 is taken,
    and it gets the inode, the type and the operations of the first entry of
    that name. *)
Theorem insert_fdt_correct filename k :
  length (d_name (currDentry k)) = 32%nat -> pcbs_ok (k_pcbs k) -> 0 <= cur_pid k < 6 ->
  exists r k', insert_fdt filename k = (r, k') /\ insert_spec filename k r k' /\ pcbs_ok (k_pcbs k').
Proof.
  intros Hl Hok Hp. pose proof (insert_fdt_run filename k Hl Hok Hp) as H.
  destruct (insert_fdt filename k) as [r k']. cbn [fst snd] in H. exists r, k'. split_and!; auto.
  destruct H as [(_ & _ & ->)|(i & _ & _ & _ & _ & [(_ & -> & _)|(Hr & _ & _ & ->)])]; auto.
  destruct (pcbs_get k (cur_pid k) Hok Hp) as (p & _ & Eg & Hpo).
  unfold put_fd. rewrite Eg. apply pcbs_ok_put; [done|]. apply pcb_ok_fd; [done|by left].
Qed.

(** close undoes open: closing a descriptor just opened succeeds and leaves
    it free, and closing it again is refused; the position of the file is not
    reset by either, so the next file opened there starts where this one
    was. *)
Theorem open_close_roundtrip filename k fd k1 :
  length (d_name (currDentry k)) = 32%nat -> pcbs_ok (k_pcbs k) -> 0 <= cur_pid k < 6 ->
  insert_fdt filename k = (fd, k1) -> fd <> -1 ->
  exists k2, remove_fd_entry fd k1 = (0, k2) /\ remove_fd_entry fd k2 = (-1, k2) /\
    let e0 := get_fd (get_PCB k (cur_pid k)) fd in
    let e1 := get_fd (get_PCB k1 (cur_pid k)) fd in
    let e2 := get_fd (get_PCB k2 (cur_pid k)) fd in
    present e0 = -1 /\ present e1 = 0 /\ present e2 = -1 /\
    file_pos e1 = file_pos e0 /\ file_pos e2 = file_pos e0.
Proof.
  intros Hl Hok Hp E Hne. pose proof (insert_fdt_run filename k Hl Hok Hp) as H. rewrite E in H.
  cbn [fst snd] in H.
  destruct H as [(_ & -> & _)|(i & _ & _ & _ & _ & [(-> & _)|(Hr & Hfree & _ & ->)])]; try done.
  set (e := opened_fd (entry k i) (get_fd (get_PCB k (cur_pid k)) fd)).
  assert (He : present e = 0) by done.
  assert (Hpos : file_pos e = file_pos (get_fd (get_PCB k (cur_pid k)) fd))
    by (unfold e, opened_fd, set_fop; cbn [with_present file_pos with_inode_number with_fd_fileType];
        by repeat destruct (_ =? _)).
  clearbody e. rewrite set_currDentry_put_fd. generalize (entry k i). intros d.
  set (kd := set_currDentry d k).
  assert (Hget : forall e', get_fd (get_PCB (put_fd (cur_pid k) fd e' kd) (cur_pid k)) fd = e').
  { intros e'. destruct (pcbs_get k (cur_pid k) Hok Hp) as (p & Ep & Eg & (Hlen & _)).
    unfold put_fd. rewrite put_pcb_get by (change (k_pcbs kd) with (k_pcbs k); destruct Hok; lia).
    rewrite Z.eqb_refl. unfold get_fd. cbn.
    change (get_PCB kd (cur_pid k)) with (get_PCB k (cur_pid k)).
    rewrite Eg, aget_aset_eq by lia. done. }
  assert (Ecur : forall e', cur_pid (put_fd (cur_pid k) fd e' kd) = cur_pid k) by done.
  exists (put_fd (cur_pid k) fd (with_present (-1) e) kd).
  unfold remove_fd_entry. rewrite !Ecur, !Hget, He, upd_fdt_put_fd by (done || lia).
  split_and!; done.
Qed.

(** ** Witnesses *)

#[local] Transparent read_dentry_by_name entry_name entry name32.

Lemma pcbs_filesys_init a m k : k_pcbs (filesys_init a (with_k_mem m k)) = k_pcbs k.
Proof. reflexivity. Qed.

Lemma demo_fs_pcbs : pcbs_ok (k_pcbs demo_fs).
Proof. unfold demo_fs. rewrite pcbs_filesys_init. exact demo_pcbs_ok. Qed.

Lemma insert_fdt_correct_witness : exists k', insert_fdt (agetZ [97; 0]) demo_fs = (2, k').
Proof.
  destruct (insert_fdt_correct (agetZ [97; 0]) demo_fs) as (r & k' & E & _);
    [reflexivity|apply demo_fs_pcbs|vm_compute; split; congruence|].
  assert (Er : fst (insert_fdt (agetZ [97; 0]) demo_fs) = 2) by (vm_compute; reflexivity).
  rewrite E in Er. cbn in Er. subst r. exists k'. exact E.
Defined.

Lemma open_close_roundtrip_witness :
  exists k2, remove_fd_entry 2 (snd (insert_fdt (agetZ [97; 0]) demo_fs)) = (0, k2).
Proof.
  destruct (open_close_roundtrip (agetZ [97; 0]) demo_fs 2 (snd (insert_fdt (agetZ [97; 0]) demo_fs)))
    as (k2 & E & _); [reflexivity|apply demo_fs_pcbs|vm_compute; split; congruence| |lia|by exists k2].
  rewrite (surjective_pairing (insert_fdt _ _)) at 1. f_equal.
Defined.
