(* ===== verification/Schedule.v ===== *)
(** * Terminals and the timer (schedule.c, without pit_handler)

    The programming of the PIT and the speaker, the three terminals and the
    switch between them.  pit_handler, which starts the shells, is in Pit.v. *)

From Stdlib Require Import ZArith Lia.
From stdpp Require Import base numbers list gmap.
From S2P Require Import Prelude Memory LibMem State Machine I8259 Paging Console Pcb.

Open Scope Z_scope.
Implicit Types k : kernel.

Definition BUFFER_SIZE : Z := 128.
Definition NUM_TERMINALS : Z := 3.
Definition STARTING_PIT_FREQUENCY : Z := 20.
Definition PIT0 : Z := 0x40.
Definition PIT2 : Z := 0x42.
Definition PIT_CMD : Z := 0x43.
Definition MAX_FREQ_PIT : Z := 1193180.
Definition CMD_BYTE : Z := 0x36.
Definition PIT_IRQ : Z := 0.
Definition SPEAKERPORT : Z := 0x61.
Definition VIDEO_BUFFER1 : Z := VIDEO + FOUR_KB.
Definition VIDEO_BUFFER2 : Z := VIDEO_BUFFER1 + FOUR_KB.
Definition VIDEO_BUFFER3 : Z := VIDEO_BUFFER2 + FOUR_KB.

Definition beep (frequency : Z) (k : kernel) : kernel :=
  let divisor := u32 (Z.quot MAX_FREQ_PIT frequency) in
  let k := outb 0xB6 PIT_CMD k in
  let k := outb (u8 divisor) PIT2 k in
  let k := outb (u8 (Z.shiftr divisor 8)) PIT2 k in
  let '(tempA, k) := inb SPEAKERPORT k in
  let k := if negb (tempA =? Z.lor tempA 3) then outb (Z.lor tempA 3) SPEAKERPORT k else k in
  enable_irq PIT_IRQ k.

Definition init_PIT (frequency : Z) (k : kernel) : kernel :=
  let divisor := u32 (MAX_FREQ_PIT / frequency) in
  let k := outb CMD_BYTE PIT_CMD k in
  let low := u8 (Z.land divisor 0xFF) in
  let high := u8 (Z.land (Z.shiftr divisor 8) 0xFF) in
  let k := outb low PIT0 k in
  let k := outb high PIT0 k in
  let k := set_pitCount 0 k in
  let k := set_pitIntrCount 0 k in
  enable_irq PIT_IRQ k.

(** memcpy between arrays the model keeps as lists. *)
Definition copy_arr (n : Z) (src dst : list Z) : list Z :=
  take (Z.to_nat n) src ++ drop (Z.to_nat n) dst.

(** The body of the loop of init_terminals. *)
Definition init_terminal (i : Z) (k : kernel) : kernel :=
  let k := upd_terminal i (with_shell_pid i) k in
  let k := memset (video_buffer (get_terminal k i)) 0 FOUR_KB k in
  let k := upd_terminal i (fun t => with_t_buf_kb (copy_arr BUFFER_SIZE (replicate 128 0) (t_buf_kb t)) t) k in
  let k := upd_terminal i (with_t_screen_x 0) k in
  let k := upd_terminal i (with_t_screen_y 0) k in
  let k := upd_terminal i (with_t_curr_idx 0) k in
  let k := upd_terminal i (with_t_num_chars 0) k in
  let k := upd_terminal i (with_t_save_x 0) k in
  let k := upd_terminal i (with_t_save_y 0) k in
  let k := upd_terminal i (with_t_prev_num_chars 0) k in
  let k := upd_terminal i (with_curr_process (-1)) k in
  let k := upd_terminal i (with_enter_flag 1) k in
  let k := upd_terminal i (with_screen_start 0) k in
  upd_terminal i (fun t => with_prev_buf (copy_arr BUFFER_SIZE (replicate 128 0) (prev_buf t)) t) k.

Definition init_terminals (k : kernel) : kernel :=
  let k := upd_terminal 0 (with_video_buffer VIDEO_BUFFER1) k in
  let k := memset VIDEO_BUFFER1 0 FOUR_KB k in
  let k := upd_terminal 1 (with_video_buffer VIDEO_BUFFER2) k in
  let k := memset VIDEO_BUFFER2 20 FOUR_KB k in
  let k := upd_terminal 2 (with_video_buffer VIDEO_BUFFER3) k in
  let k := memset VIDEO_BUFFER3 40 FOUR_KB k in
  let k := for_range 0 NUM_TERMINALS init_terminal k in
  let k := set_cur_terminal 2 k in
  let k := set_visible 0 k in
  set_pitIntrCount 0 k.

(** The first assignments of switch_terminal: save the editor of the displayed
    terminal. *)
Definition save_fields (v : Z) (k : kernel) : kernel :=
  let k := upd_terminal v (with_t_screen_x (u8 (get_screen_x k))) k in
  let k := upd_terminal v (with_t_screen_y (u8 (get_screen_y k))) k in
  let k := upd_terminal v (with_t_curr_idx (u8 (curr_idx k))) k in
  let k := upd_terminal v (with_t_num_chars (u8 (num_chars k))) k in
  let k := upd_terminal v (with_t_save_x (u8 (save_x k))) k in
  let k := upd_terminal v (with_t_save_y (u8 (save_y k))) k in
  let k := upd_terminal v (with_t_prev_num_chars (u8 (previous_num_chars k))) k in
  let k := set_user_video_page_table
    (aset (user_video_page_table k) v (Z.lor (video_buffer (get_terminal k v)) 7)) k in
  upd_terminal v (fun t => with_prev_buf (copy_arr BUFFER_SIZE (previous_buf k) (prev_buf t)) t) k.

(** The first half: the editor, the screen and the line. *)
Definition save_terminal (v : Z) (k : kernel) : kernel :=
  let k := save_fields v k in
  let k := memcpy (video_buffer (get_terminal k v)) VIDEO_MEM FOUR_KB k in
  upd_terminal v (fun t => with_t_buf_kb (copy_arr BUFFER_SIZE (buf_kb k) (t_buf_kb t)) t) k.

(** The second half, in the same three parts: the editor of the requested one. *)
Definition restore_fields (d : Z) (k : kernel) : kernel :=
  let k := set_cursor (t_screen_x (get_terminal k d)) (t_screen_y (get_terminal k d)) k in
  let k := set_curr_idx (t_curr_idx (get_terminal k d)) k in
  let k := set_num_chars (t_num_chars (get_terminal k d)) k in
  let k := set_save_x (t_save_x (get_terminal k d)) k in
  let k := set_save_y (t_save_y (get_terminal k d)) k in
  let k := set_previous_num_chars (t_prev_num_chars (get_terminal k d)) k in
  set_screenxy (t_screen_x (get_terminal k d)) (t_screen_y (get_terminal k d)) k.

(** Its history, its line and the page its process sees. *)
Definition restore_bufs (d : Z) (k : kernel) : kernel :=
  let k := set_previous_buf (copy_arr BUFFER_SIZE (prev_buf (get_terminal k d)) (previous_buf k)) k in
  let k := set_buf_kb (copy_arr BUFFER_SIZE (t_buf_kb (get_terminal k d)) (buf_kb k)) k in
  set_user_video_page_table (aset (user_video_page_table k) d (Z.lor VIDEO_MEM 7)) k.

Definition restore_terminal (d : Z) (k : kernel) : kernel :=
  let k := restore_fields d k in
  let k := memcpy VIDEO_MEM (video_buffer (get_terminal k d)) FOUR_KB k in
  restore_bufs d k.

Definition switch_terminal (terminal_dest : Z) (k : kernel) : kernel :=
  if terminal_dest =? visible k then k
  else if NUM_TERMINALS <? terminal_dest then k
  else
    let k := save_terminal (visible k) k in
    let k := restore_terminal terminal_dest k in
    set_visible terminal_dest k.

(** ** Invariant *)

Definition vbuf (i : Z) : Z := VIDEO + 4096 * (i + 1).

(** Values that are saved in a byte fit in one. *)
Definition editor_bytes (a b c d e f g : Z) : Prop :=
  0 <= a < 256 /\ 0 <= b < 256 /\ 0 <= c < 256 /\ 0 <= d < 256 /\ 0 <= e < 256 /\
  0 <= f < 256 /\ 0 <= g < 256.

(** The terminals have their buffers, and the line editor's arrays their
    sizes. *)
Record sched_ok (k : kernel) : Prop := {
  so_length : length (terminals k) = 3%nat;
  so_terms : forall i t, aget (terminals k) i = Some t ->
    video_buffer t = vbuf i /\ length (t_buf_kb t) = 128%nat /\ length (prev_buf t) = 128%nat /\
    editor_bytes (t_screen_x t) (t_screen_y t) (t_curr_idx t) (t_num_chars t) (t_save_x t)
      (t_save_y t) (t_prev_num_chars t);
  so_visible : 0 <= visible k < 3;
  so_arrays : length (buf_kb k) = 128%nat /\ length (previous_buf k) = 128%nat;
  so_bytes : editor_bytes (screen_x k) (screen_y k) (curr_idx k) (num_chars k) (save_x k)
    (save_y k) (previous_num_chars k);
}.

(** ** Lemmas *)

Definition put_term (v : Z) (t : terminal_t) (k : kernel) : kernel :=
  set_terminals (aset (terminals k) v t) k.

Lemma put_term_self v t k : aget (terminals k) v = Some t -> k = put_term v t k.
Proof.
  intros E. unfold put_term. rewrite (aset_self _ _ _ E). destruct k as [? ? ? ? ? ? ? ? [] ? ? ? ?]. done.
Qed.

Lemma upd_put_term v f t k : 0 <= v < Z.of_nat (length (terminals k)) ->
  upd_terminal v f (put_term v t k) = put_term v (f t) k.
Proof.
  intros Hv. unfold upd_terminal, put_term. cbn. rewrite aget_aset_eq by done.
  unfold set_terminals. cbn. by rewrite aset_aset_eq.
Qed.

Lemma upd_terminal_put v f t k : aget (terminals k) v = Some t ->
  upd_terminal v f k = put_term v (f t) k.
Proof. intros E. unfold upd_terminal. by rewrite E. Qed.

Lemma get_put_term v t k i : 0 <= v < Z.of_nat (length (terminals k)) ->
  get_terminal (put_term v t k) i = if v =? i then t else get_terminal k i.
Proof.
  intros Hv. unfold get_terminal, put_term. cbn.
  rewrite aget_aset, (proj2 (in_range_true _ _) Hv), andb_true_r. by destruct (v =? i).
Qed.

Lemma copy_arr_full src dst : length src = 128%nat -> length dst = 128%nat ->
  copy_arr BUFFER_SIZE src dst = src.
Proof.
  intros H1 H2. unfold copy_arr, BUFFER_SIZE.
  rewrite take_ge, drop_ge, app_nil_r by lia. done.
Qed.

(** The video pages: with the screen mapped at VIDEO every address is its
    own. *)
Definition video (x : Z) : Prop := span VIDEO 0x4000 x.

Lemma phys_video k x : paging_ok 0 k -> video x -> phys k x = Some x.
Proof.
  unfold video, span, VIDEO. intros Hok Hx. unfold phys. rewrite (translate_low 0 k x Hok) by lia.
  by destruct (x <? _); rewrite ?Z.add_0_r.
Qed.

Lemma ld8_video k x : paging_ok 0 k -> video x -> ld8 k x = ld8 (k_mem k) x.
Proof. intros Hok Hx. unfold ld8 at 1. cbn [kernel_space]. by rewrite phys_video. Qed.

Lemma region_video k : paging_ok 0 k -> region k video.
Proof.
  intros Hok. split; simpl.
  - intros a Ha. by rewrite phys_video.
  - intros a b Ha Hb Hne p q. rewrite !phys_video by done. congruence.
Qed.

(** Copying one video page to another. *)
Lemma memcpy_video k d s : paging_ok 0 k -> 0 <= d <= 3 -> 0 <= s <= 3 -> d <> s ->
  exists m, memcpy (VIDEO + 4096 * d) (VIDEO + 4096 * s) FOUR_KB k = with_k_mem m k /\
    (forall x, video x -> ld8 m x =
      if (VIDEO + 4096 * d <=? x) && (x <? VIDEO + 4096 * d + 4096)
      then ld8 (k_mem k) (VIDEO + 4096 * s + (x - (VIDEO + 4096 * d))) else ld8 (k_mem k) x) /\
    (forall x, ~ video x -> ld8 m x = ld8 (k_mem k) x).
Proof.
  intros Hok Hd Hs Hne. pose proof (region_video k Hok) as Hr. unfold FOUR_KB.
  set (da := VIDEO + 4096 * d). set (sa := VIDEO + 4096 * s).
  assert (Hv : 0 <= da /\ da + 4096 < 2 ^ 32 /\ 0 <= sa /\ sa + 4096 < 2 ^ 32 /\
    (da + 4096 <= sa \/ sa + 4096 <= da)) by (unfold da, sa, VIDEO; lia).
  assert (Hsub : forall x, span sa 4096 x \/ span da 4096 x -> video x)
    by (unfold video, span, da, sa, VIDEO; lia).
  rewrite memcpy_bytes; try lia.
  2:{ intros j i Hj Hji Hi. apply Hr; [apply Hsub; unfold span; lia|apply Hsub; unfold span; lia|lia]. }
  set (k' := copy_up _ _ _ _).
  assert (Ho : only_mem k k').
  { apply only_mem_copy_up; rewrite ?Z2Nat.id by lia; try lia. intros a Ha. apply Hr, Hsub. by right. }
  exists (k_mem k'). split_and!; [done| |].
  2:{ intros x Hx. apply copy_up_phys; rewrite ?Z2Nat.id by lia; try lia. intros y Hy E.
      rewrite (phys_video k y Hok (Hsub y (or_intror Hy))) in E. injection E as ->. exact (Hx (Hsub x (or_intror Hy))). }
  intros x Hx.
  rewrite <- (ld8_video k' x); [|by rewrite Ho|done]. unfold k'. rewrite copy_up_at; try lia.
  - destruct ((da <=? x) && (x <? da + 4096)) eqn:E; [|by apply ld8_video].
    apply andb_prop in E as [E1%Z.leb_le E2%Z.ltb_lt]. apply ld8_video; [done|].
    apply Hsub. left. unfold span. lia.
  - eapply region_mono; [|exact Hr]. intros a [Ha|[Ha| ->]]; [apply Hsub; auto..|done].
Qed.

(** Filling a video page. *)
Lemma memset_video k d c : paging_ok 0 k -> 0 <= d <= 3 ->
  exists m, memset (VIDEO + 4096 * d) c FOUR_KB k = with_k_mem m k /\
    (forall x, video x -> ld8 m x =
      if (VIDEO + 4096 * d <=? x) && (x <? VIDEO + 4096 * d + 4096) then u8 c else ld8 (k_mem k) x) /\
    forall x, ~ video x -> ld8 m x = ld8 (k_mem k) x.
Proof.
  intros Hok Hd. pose proof (region_video k Hok) as Hr. unfold FOUR_KB.
  set (da := VIDEO + 4096 * d). assert (Hv : 0 <= da /\ da + 4096 < 2 ^ 32) by (unfold da, VIDEO; lia).
  assert (Hsub : forall x, span da 4096 x -> video x) by (unfold video, span, da, VIDEO; lia).
  rewrite memset_bytes by lia. set (k' := set_bytes _ _ _ _).
  assert (Ho : only_mem k k').
  { apply only_mem_set_bytes; rewrite ?Z2Nat.id by lia; try lia. intros a Ha. by apply Hr, Hsub. }
  exists (k_mem k'). split; [done|]. split; cycle 1.
  { intros x Hx. unfold k'. apply set_bytes_phys; rewrite ?Z2Nat.id by lia; try lia.
    intros y Hy Ep. rewrite (phys_video k y Hok) in Ep by (by apply Hsub). injection Ep as ->. by apply Hx, Hsub. }
  intros x Hx. rewrite <- (ld8_video k' x); [|by rewrite Ho|done]. unfold k'.
  destruct ((da <=? x) && (x <? da + 4096)) eqn:E.
  - apply andb_prop in E as [E1%Z.leb_le E2%Z.ltb_lt].
    rewrite set_bytes_in; rewrite ?Z2Nat.id by lia; try lia;
      [by rewrite land_255_mod, u8_u8| |unfold span; lia].
    eapply region_mono; [|exact Hr]. exact Hsub.
  - rewrite set_bytes_other; rewrite ?Z2Nat.id by lia; try lia; [by apply ld8_video|].
    intros y Hy. apply Hr; [by apply Hsub|done|]. intros ->. unfold span in Hy.
    apply andb_false_elim in E as [E%Z.leb_gt|E%Z.ltb_ge]; lia.
Qed.

Lemma paging_ok_uvpt t k l : paging_ok t k -> length l = 1024%nat ->
  paging_ok t (set_user_video_page_table l k).
Proof.
  intros ((L1 & L2 & L3 & Hw) & Hrest) Hl. unfold paging_ok, paging_wf. cbn.
  split; [|exact Hrest]. auto 10.
Qed.

(** The terminal record saved for the displayed one. *)
Definition saved (k : kernel) (t : terminal_t) : terminal_t :=
  mkTerminal (shell_pid t) (video_buffer t) (screen_start t) (buf_kb k) (save_tss t)
    (screen_x k) (screen_y k) (curr_idx k) (num_chars k) (save_x k) (save_y k)
    (previous_num_chars k) (previous_buf k) (curr_process t) (enter_flag t).

(** The part of the state the displayed terminal owns. *)
Definition editor (k : kernel) :=
  (screen_x k, screen_y k, curr_idx k, num_chars k, save_x k, save_y k, previous_num_chars k,
   previous_buf k, buf_kb k).

Definition editor_of (t : terminal_t) :=
  (t_screen_x t, t_screen_y t, t_curr_idx t, t_num_chars t, t_save_x t, t_save_y t,
   t_prev_num_chars t, prev_buf t, t_buf_kb t).

Lemma save_fields_eq v t k : length (terminals k) = 3%nat -> aget (terminals k) v = Some t ->
  save_fields v k = set_user_video_page_table (aset (user_video_page_table k) v (Z.lor (video_buffer t) 7))
    (put_term v (mkTerminal (shell_pid t) (video_buffer t) (screen_start t) (t_buf_kb t) (save_tss t)
      (u8 (screen_x k)) (u8 (screen_y k)) (u8 (curr_idx k)) (u8 (num_chars k)) (u8 (save_x k))
      (u8 (save_y k)) (u8 (previous_num_chars k))
      (copy_arr BUFFER_SIZE (previous_buf k) (prev_buf t)) (curr_process t) (enter_flag t)) k).
Proof.
  intros Hl E. pose proof (aget_Some_range _ _ _ E) as Hv.
  destruct k as [? ? ? ? [] ? [] ? [l ? ? ? ?] [] ? ? ?]. cbn in Hl, E, Hv.
  destruct l as [|t0 [|t1 [|t2 [|]]]]; try discriminate.
  assert (v = 0 \/ v = 1 \/ v = 2) as [->|[->| ->]] by (cbn in Hv; lia);
    cbn in E; injection E as ->; destruct t; reflexivity.
Qed.

Lemma save_terminal_eq v t k :
  sched_ok k -> paging_ok 0 k -> aget (terminals k) v = Some t ->
  exists m U, save_terminal v k =
      put_term v (saved k t) (set_user_video_page_table U (with_k_mem m k)) /\
    length U = 1024%nat /\ U = aset (user_video_page_table k) v (Z.lor (vbuf v) 7) /\
    (forall x, video x -> ld8 m x =
      if (vbuf v <=? x) && (x <? vbuf v + 4096) then ld8 (k_mem k) (VIDEO + (x - vbuf v))
      else ld8 (k_mem k) x) /\
    (forall x, ~ video x -> ld8 m x = ld8 (k_mem k) x).
Proof.
  intros [Hl Ht Hvis [Hb Hpb] Hby] Hok E. pose proof (aget_Some_range _ _ _ E) as Hv.
  destruct (Ht v t E) as (Evb & Hb1 & Hb2 & _). unfold save_terminal. unfold editor_bytes in Hby.
  rewrite (save_fields_eq v t k Hl E). rewrite !u8_small by lia. rewrite copy_arr_full by done.
  set (U := aset (user_video_page_table k) v _). set (t1 := mkTerminal _ _ _ _ _ _ _ _ _ _ _ _ _ _ _).
  set (kA := set_user_video_page_table U (put_term v t1 k)).
  assert (HU : length U = 1024%nat) by (unfold U; rewrite length_aset; apply Hok).
  assert (HokA : paging_ok 0 kA) by (by apply paging_ok_uvpt).
  assert (Egt : get_terminal kA v = t1).
  { change (get_terminal kA v) with (get_terminal (put_term v t1 k) v).
    by rewrite get_put_term, Z.eqb_refl. }
  rewrite Egt. cbn [video_buffer t1]. rewrite Evb. unfold vbuf.
  destruct (memcpy_video kA (v + 1) 0 HokA) as (m & Em & Hm & Hout); try lia.
  rewrite Z.mul_0_r, Z.add_0_r in Em. change VIDEO_MEM with VIDEO. rewrite Em.
  exists m, U. split_and!; [|done|unfold U; by rewrite Evb| |exact Hout].
  - change (with_k_mem m kA) with (put_term v t1 (set_user_video_page_table U (with_k_mem m k))).
    rewrite upd_put_term by done. unfold t1, with_t_buf_kb, saved. cbn. by rewrite copy_arr_full.
  - intros x Hx. rewrite Hm by done. change (k_mem kA) with (k_mem k).
    replace (VIDEO + 4096 * 0 + (x - (VIDEO + 4096 * (v + 1)))) with (VIDEO + (x - (VIDEO + 4096 * (v + 1)))) by lia.
    done.
Qed.

(** What restoring terminal [t] leaves, up to the port log. *)
Record restored (d : Z) (t : terminal_t) (k k' : kernel) : Prop := {
  rs_editor : editor k' = editor_of t;
  rs_sched : k_sch k' = k_sch k;
  rs_paging : paging_ok 0 k';
  rs_screen : forall x, video x -> ld8 (k_mem k') x =
    if x <? VIDEO + 4096 then ld8 (k_mem k) (vbuf d + (x - VIDEO)) else ld8 (k_mem k) x;
  rs_rest : k_faults k' = k_faults k /\ k_pcbs k' = k_pcbs k /\ k_fs k' = k_fs k /\
    k_sys k' = k_sys k /\ k_cpus k' = k_cpus k /\ flag_arr k' = flag_arr k;
  rs_pd : page_directory k' = page_directory k;
  rs_out : forall x, ~ video x -> ld8 (k_mem k') x = ld8 (k_mem k) x;
  rs_pages : k_pg k' = k_pg (set_user_video_page_table (aset (user_video_page_table k) d (Z.lor VIDEO 7)) k);
}.

Lemma restore_terminal_eq d t k :
  paging_ok 0 k -> aget (terminals k) d = Some t -> video_buffer t = vbuf d -> 0 <= d < 3 ->
  length (prev_buf t) = 128%nat -> length (t_buf_kb t) = 128%nat ->
  length (buf_kb k) = 128%nat -> length (previous_buf k) = 128%nat ->
  restored d t k (restore_terminal d k).
Proof.
  intros Hok E Evb Hd Hl1 Hl2 Hl3 Hl4. unfold restore_terminal.
  assert (Eg : forall k', k_sch k' = k_sch k -> get_terminal k' d = t)
    by (intros k' Ek; unfold get_terminal; by rewrite Ek, E).
  assert (H1 : k_sch (restore_fields d k) = k_sch k /\ k_pg (restore_fields d k) = k_pg k /\
    k_mem (restore_fields d k) = k_mem k /\
    editor (restore_fields d k) =
      (t_screen_x t, t_screen_y t, t_curr_idx t, t_num_chars t, t_save_x t, t_save_y t,
       t_prev_num_chars t, previous_buf k, buf_kb k)) by (unfold restore_fields; by rewrite !Eg by reflexivity).
  assert (H2 : k_faults (restore_fields d k) = k_faults k /\ k_pcbs (restore_fields d k) = k_pcbs k /\
    k_fs (restore_fields d k) = k_fs k /\ k_sys (restore_fields d k) = k_sys k /\
    k_cpus (restore_fields d k) = k_cpus k /\ flag_arr (restore_fields d k) = flag_arr k) by done.
  revert H1 H2. generalize (restore_fields d k) as k1. intros k1 (Hs1 & Hp1 & Hm1 & He1) H2.
  assert (Hok1 : paging_ok 0 k1) by (by rewrite Hp1). rewrite (Eg k1 Hs1), Evb. unfold vbuf. change VIDEO_MEM with (VIDEO + 4096 * 0).
  destruct (memcpy_video k1 0 (d + 1) Hok1) as (m & -> & Hm & Hout); try lia.
  unfold restore_bufs. rewrite !(Eg (with_k_mem m k1)), !(Eg (set_previous_buf _ _)) by exact Hs1.
  unfold editor in He1. injection He1 as E1 E2 E3 E4 E5 E6 E7 E8 E9.
  cbn [k_kb previous_buf buf_kb with_k_mem set_previous_buf with_k_kb].
  rewrite !copy_arr_full by congruence.
  split; try done.
  - unfold editor, editor_of. cbn. congruence.
  - apply paging_ok_uvpt; [exact Hok1|]. cbn. rewrite length_aset. apply Hok1.
  - intros x Hx. cbn [k_mem set_user_video_page_table with_k_pg set_buf_kb set_previous_buf with_k_kb with_k_mem].
    rewrite Hm, Hm1 by done. unfold vbuf.
    unfold video, span in Hx. rewrite Z.mul_0_r, Z.add_0_r, (proj2 (Z.leb_le VIDEO x)) by lia. done.
  - cbn. by rewrite Hp1.
  - intros x Hx. etrans; [by apply Hout|]. by rewrite Hm1.
  - transitivity (k_pg (set_user_video_page_table (aset (user_video_page_table k1) d (Z.lor VIDEO 7)) k1)); [reflexivity|].
    cbn -[Z.lor]. by rewrite Hp1.
Qed.

(** ** Correctness *)

(** The effect of displaying terminal [d] instead of [visible k]. *)
Record switched (d : Z) (td tv : terminal_t) (k k' : kernel) : Prop := {
  sw_visible : visible k' = d;
  sw_cur : cur_terminal k' = cur_terminal k;
  sw_terms : terminals k' = aset (terminals k) (visible k) (saved k tv);
  sw_editor : editor k' = editor_of td;
  sw_mem : forall x, video x -> ld8 (k_mem k') x =
    if x <? VIDEO + 4096 then ld8 (k_mem k) (vbuf d + (x - VIDEO))
    else if (vbuf (visible k) <=? x) && (x <? vbuf (visible k) + 4096)
      then ld8 (k_mem k) (VIDEO + (x - vbuf (visible k))) else ld8 (k_mem k) x;
  sw_paging : paging_ok 0 k';
  sw_ok : sched_ok k';
  sw_rest : k_faults k' = k_faults k /\ k_pcbs k' = k_pcbs k /\ k_fs k' = k_fs k /\
    k_sys k' = k_sys k /\ k_cpus k' = k_cpus k /\ flag_arr k' = flag_arr k;
  sw_pd : page_directory k' = page_directory k;
  sw_out : forall x, ~ video x -> ld8 (k_mem k') x = ld8 (k_mem k) x;
  sw_pit : pitCount k' = pitCount k /\ pitIntrCount k' = pitIntrCount k;
  sw_pages : k_pg k' = k_pg (set_user_video_page_table
    (aset (aset (user_video_page_table k) (visible k) (Z.lor (vbuf (visible k)) 7)) d (Z.lor VIDEO 7)) k);
}.

Lemma switch_terminal_run d td tv k :
  sched_ok k -> paging_ok 0 k -> 0 <= d < 3 -> d <> visible k ->
  aget (terminals k) d = Some td -> aget (terminals k) (visible k) = Some tv ->
  switched d td tv k (switch_terminal d k).
Proof.
  intros Hs Hok Hd Hne Ed Ev. pose proof Hs as [Hl Ht Hvis [Hb Hpb] Hby].
  unfold switch_terminal. rewrite (proj2 (Z.eqb_neq d (visible k))) by done.
  unfold NUM_TERMINALS. rewrite (proj2 (Z.ltb_ge 3 d)) by lia.
  destruct (save_terminal_eq (visible k) tv k Hs Hok Ev) as (m & U & -> & HU & EU & Hm & Hout).
  set (k1 := put_term (visible k) (saved k tv) (set_user_video_page_table U (with_k_mem m k))).
  assert (Hok1 : paging_ok 0 k1) by (by apply (paging_ok_uvpt 0 (with_k_mem m k))).
  destruct (Ht d td Ed) as (Evb & Hb1 & Hb2 & Hby2).
  assert (Ed1 : aget (terminals k1) d = Some td)
    by (unfold k1, put_term; cbn; rewrite aget_aset_ne by auto; exact Ed).
  destruct (restore_terminal_eq d td k1 Hok1 Ed1 Evb Hd Hb2 Hb1 Hb Hpb) as [He Hsch Hpg Hscr Hrest Hpd Hro Hup].
  revert He Hsch Hpg Hscr Hrest Hpd Hro Hup. generalize (restore_terminal d k1) as k2.
  intros k2 He Hsch Hpg Hscr Hrest Hpd Hro Hup.
  assert (Eterm : terminals k2 = aset (terminals k) (visible k) (saved k tv)) by (by rewrite Hsch).
  split; try done.
  - cbn. by rewrite Hsch.
  - intros x Hx. cbn [k_mem set_visible with_k_sch]. rewrite Hscr by done.
    change (k_mem k1) with m. destruct (Z.ltb_spec x (VIDEO + 4096)); [|by apply Hm].
    unfold video, span, vbuf, VIDEO in *. rewrite Hm by lia.
    replace ((753664 + 4096 * (visible k + 1) <=? _) && _) with false; [done|].
    symmetry. bdestr; cbn; done || lia.
  - unfold editor, editor_of in He. injection He as E1 E2 E3 E4 E5 E6 E7 E8 E9. split; cbn.
    + by rewrite Eterm, length_aset.
    + intros i t. rewrite Eterm, aget_aset. rewrite (proj2 (in_range_true _ _)) by lia. rewrite andb_true_r.
      destruct (Z.eqb_spec (visible k) i) as [<-|]; [|apply Ht]. intros [= <-]. cbn.
      destruct (Ht _ _ Ev) as (? & _). auto.
    + lia.
    + split; congruence.
    + rewrite E1, E2, E3, E4, E5, E6, E7. done.
  - intros x Hx. etrans; [by apply Hro|]. by apply Hout.
  - cbn. by rewrite Hsch.
  - change (k_pg (set_visible d k2)) with (k_pg k2). rewrite Hup. unfold k1. by rewrite EU.
Qed.

(** C16: switching to another terminal saves the screen, the cursor, the typed
    line and the history of the displayed one in its record and buffer, shows
    the other's instead, keeps the third one's and everything else, and keeps
    the invariants; of the pages programs see the screen through, the one of the
    terminal that was displayed now points to its buffer and the one of the
    terminal shown to the screen, and no other page entry changes.  Switching to
    the displayed terminal does nothing. *)
Theorem switch_terminal_correct d td tv k :
  sched_ok k -> paging_ok 0 k -> 0 <= d < 3 ->
  aget (terminals k) d = Some td -> aget (terminals k) (visible k) = Some tv ->
  (d = visible k -> switch_terminal d k = k) /\
  (d <> visible k -> switched d td tv k (switch_terminal d k)).
Proof.
  intros Hs Hok Hd Ed Ev. split; [|intros; by apply switch_terminal_run].
  intros ->. unfold switch_terminal. by rewrite Z.eqb_refl.
Qed.

(** switching away and back restores the terminal exactly: the screen, the
    cursor, the typed line, the cursor in it and the history, and leaves the
    other terminal's buffer and record as they were. *)
Theorem switch_terminal_roundtrip d k :
  sched_ok k -> paging_ok 0 k -> 0 <= d < 3 -> d <> visible k ->
  let k' := switch_terminal (visible k) (switch_terminal d k) in
  visible k' = visible k /\ editor k' = editor k /\
  (forall x, video x -> ~ span (vbuf (visible k)) 4096 x -> ld8 k' x = ld8 k x) /\
  aget (terminals k') d = aget (terminals k) d.
Proof.
  intros Hs Hok Hd Hne. cbv zeta. pose proof Hs as [Hl Ht Hvis _ _].
  destruct (aget_range_Some (terminals k) d) as [td Ed]; [lia|].
  destruct (aget_range_Some (terminals k) (visible k)) as [tv Ev]; [lia|].
  pose proof (switch_terminal_run d td tv k Hs Hok Hd Hne Ed Ev) as H1.
  revert H1. generalize (switch_terminal d k) as k1. intros k1 [Hv1 Hc1 Ht1 He1 Hm1 Hp1 Hs1 _ _ _ _ _].
  pose proof (switch_terminal_run (visible k) (saved k tv) td k1 Hs1 Hp1 Hvis) as H2.
  rewrite Hv1 in H2. destruct H2 as [Hv2 _ Ht2 He2 Hm2 Hp2 _ _ _ _ _]; [done| | |].
  { rewrite Ht1. apply aget_aset_eq. lia. }
  { rewrite Ht1, aget_aset_ne by done. done. }
  split_and!; [done|exact He2| |].
  - intros x Hx Hnv. rewrite !ld8_video, Hm2 by done. rewrite Hv1.
    assert (Hvd : forall i y, 0 <= i < 3 -> 0 <= y < 4096 -> video (vbuf i + y))
      by (unfold video, span, vbuf, VIDEO; lia).
    unfold video, span, vbuf, VIDEO in *.
    destruct (Z.ltb_spec x (753664 + 4096)).
    + rewrite Hm1 by (apply Hvd; lia). rewrite (proj2 (Z.ltb_ge _ _)) by lia.
      replace ((753664 + 4096 * (visible k + 1) <=? _) && _) with true by (bdestr; cbn; done || lia).
      f_equal. lia.
    + destruct ((753664 + 4096 * (d + 1) <=? x) && (x <? 753664 + 4096 * (d + 1) + 4096)) eqn:E.
      * apply andb_prop in E as [E1%Z.leb_le E2%Z.ltb_lt]. rewrite Hm1 by lia.
        rewrite (proj2 (Z.ltb_lt _ _)) by lia. f_equal. lia.
      * rewrite Hm1 by lia. rewrite (proj2 (Z.ltb_ge _ _)) by lia.
        replace ((753664 + 4096 * (visible k + 1) <=? x) && _) with false; [done|].
        symmetry. bdestr; cbn; done || lia.
  - rewrite Ht2, Ht1, Hv1, aget_aset_eq by (rewrite length_aset; lia). rewrite Ed. f_equal.
    unfold saved. unfold editor, editor_of in He1. injection He1 as -> -> -> -> -> -> -> -> ->.
    by destruct td.
Qed.

(** ** Initialisation *)

Definition inited_terminal (i : Z) (t : terminal_t) : terminal_t :=
  mkTerminal i (video_buffer t) 0 (replicate 128 0) (save_tss t) 0 0 0 0 0 0 0 (replicate 128 0) (-1) 1.

Lemma init_terminal_eq i t k :
  paging_ok 0 k -> aget (terminals k) i = Some t -> 0 <= i < 3 -> video_buffer t = vbuf i ->
  length (t_buf_kb t) = 128%nat -> length (prev_buf t) = 128%nat ->
  exists m, init_terminal i k = put_term i (inited_terminal i t) (with_k_mem m k) /\
    (forall x, video x -> ld8 m x =
      if (vbuf i <=? x) && (x <? vbuf i + 4096) then 0 else ld8 (k_mem k) x) /\
    forall x, ~ video x -> ld8 m x = ld8 (k_mem k) x.
Proof.
  intros Hok E Hi Evb Hl1 Hl2. pose proof (aget_Some_range _ _ _ E) as Hr.
  replace (init_terminal i k) with (init_terminal i (put_term i t k))
    by (by rewrite <- (put_term_self i t k E)).
  unfold init_terminal. cbv zeta. rewrite upd_put_term by done.
  rewrite !get_put_term, !Z.eqb_refl by done. cbn [with_shell_pid video_buffer]. rewrite Evb.
  set (k1 := put_term i (with_shell_pid i t) k). unfold vbuf.
  destruct (memset_video k1 (i + 1) 0) as (m & -> & Hm); [exact Hok|lia|].
  exists m. split; [|exact Hm].
  change (with_k_mem m k1) with (put_term i (with_shell_pid i t) (with_k_mem m k)).
  rewrite !upd_put_term by done. cbn. rewrite !copy_arr_full by done. done.
Qed.

(** States that differ from [k] in memory and terminals only. *)
Definition tstate (k : kernel) (m : gmap Z Z) (l : list terminal_t) : kernel :=
  set_terminals l (with_k_mem m k).

Lemma upd_tstate i f t k m l : aget l i = Some t ->
  upd_terminal i f (tstate k m l) = tstate k m (aset l i (f t)).
Proof. intros E. unfold upd_terminal, tstate. cbn. by rewrite E. Qed.

Lemma memset_tstate d c k m l : paging_ok 0 k -> 0 <= d <= 3 ->
  exists m', memset (VIDEO + 4096 * d) c FOUR_KB (tstate k m l) = tstate k m' l /\
    (forall x, video x -> ld8 m' x =
      if (VIDEO + 4096 * d <=? x) && (x <? VIDEO + 4096 * d + 4096) then u8 c else ld8 m x) /\
    forall x, ~ video x -> ld8 m' x = ld8 m x.
Proof.
  intros Hok Hd. destruct (memset_video (tstate k m l) d c) as (m' & -> & Hm); [exact Hok|done|].
  exists m'. split; [done|exact Hm].
Qed.

Lemma init_terminal_tstate i t k m l :
  paging_ok 0 k -> aget l i = Some t -> 0 <= i < 3 -> video_buffer t = vbuf i ->
  length (t_buf_kb t) = 128%nat -> length (prev_buf t) = 128%nat ->
  exists m', init_terminal i (tstate k m l) = tstate k m' (aset l i (inited_terminal i t)) /\
    (forall x, video x -> ld8 m' x =
      if (vbuf i <=? x) && (x <? vbuf i + 4096) then 0 else ld8 m x) /\
    forall x, ~ video x -> ld8 m' x = ld8 m x.
Proof.
  intros Hok E Hi Evb L1 L2.
  destruct (init_terminal_eq i t (tstate k m l)) as (m' & -> & Hm); try assumption.
  exists m'. split; [done|exact Hm].
Qed.

Lemma init_terminals_eq k t0 t1 t2 :
  paging_ok 0 k -> terminals k = [t0; t1; t2] ->
  Forall (fun t => length (t_buf_kb t) = 128%nat /\ length (prev_buf t) = 128%nat) [t0; t1; t2] ->
  exists m, init_terminals k = set_pitIntrCount 0 (set_visible 0 (set_cur_terminal 2
    (tstate k m [inited_terminal 0 (with_video_buffer (vbuf 0) t0);
                 inited_terminal 1 (with_video_buffer (vbuf 1) t1);
                 inited_terminal 2 (with_video_buffer (vbuf 2) t2)]))) /\
    (forall x, video x -> ld8 m x = if x <? VIDEO + 4096 then ld8 (k_mem k) x else 0) /\
    forall x, ~ video x -> ld8 m x = ld8 (k_mem k) x.
Proof.
  intros Hok Et Hlens. rewrite !Forall_cons in Hlens.
  destruct Hlens as ([L0 P0] & [L1 P1] & [L2 P2] & _).
  assert (Ek : k = tstate k (k_mem k) [t0; t1; t2])
    by (rewrite <- Et; destruct k as [? ? ? ? ? ? ? ? [] ? ? ? ?]; done).
  unfold init_terminals, VIDEO_BUFFER1, VIDEO_BUFFER2, VIDEO_BUFFER3, VIDEO_BUFFER2, VIDEO_BUFFER1.
  change (VIDEO + FOUR_KB) with (VIDEO + 4096 * 1). change (VIDEO + 4096 * 1 + FOUR_KB) with (VIDEO + 4096 * 2).
  change (VIDEO + 4096 * 2 + FOUR_KB) with (VIDEO + 4096 * 3).
  assert (A : upd_terminal 0 (with_video_buffer (VIDEO + 4096 * 1)) k =
    tstate k (k_mem k) [with_video_buffer (vbuf 0) t0; t1; t2]).
  { unfold upd_terminal, tstate. rewrite Et. cbn [aget in_range length Z.of_nat].
    rewrite Ek at 1. reflexivity. }
  cbv zeta. rewrite A.
  destruct (memset_tstate 1 0 k (k_mem k) [with_video_buffer (vbuf 0) t0; t1; t2] Hok) as (m1 & -> & H1 & O1); [lia|].
  erewrite upd_tstate by reflexivity.
  match goal with |- context [memset _ 20 _ (tstate k m1 ?l)] =>
    destruct (memset_tstate 2 20 k m1 l Hok ltac:(lia)) as (m2 & -> & H2 & O2) end.
  erewrite upd_tstate by reflexivity.
  match goal with |- context [memset _ 40 _ (tstate k m2 ?l)] =>
    destruct (memset_tstate 3 40 k m2 l Hok ltac:(lia)) as (m3 & -> & H3 & O3) end.
  change (for_range 0 NUM_TERMINALS ?b ?s) with (b 2 (b 1 (b 0 s))).
  match goal with |- context [init_terminal 0 (tstate k m3 ?l)] =>
    destruct (init_terminal_tstate 0 (with_video_buffer (vbuf 0) t0) k m3 l Hok eq_refl
      ltac:(lia) eq_refl L0 P0) as (m4 & -> & H4 & O4) end.
  match goal with |- context [init_terminal 1 (tstate k m4 ?l)] =>
    destruct (init_terminal_tstate 1 (with_video_buffer (vbuf 1) t1) k m4 l Hok eq_refl
      ltac:(lia) eq_refl L1 P1) as (m5 & -> & H5 & O5) end.
  match goal with |- context [init_terminal 2 (tstate k m5 ?l)] =>
    destruct (init_terminal_tstate 2 (with_video_buffer (vbuf 2) t2) k m5 l Hok eq_refl
      ltac:(lia) eq_refl L2 P2) as (m6 & -> & H6 & O6) end.
  exists m6. split; [reflexivity|]. split; [|intros x Hx; by rewrite O6, O5, O4, O3, O2, O1].
  intros x Hx.
  rewrite H6, H5, H4, H3, H2, H1 by done. unfold video, span, vbuf, VIDEO in *.
  assert (x < 757760 \/ 757760 <= x < 761856 \/ 761856 <= x < 765952 \/ 765952 <= x < 770048)
    as [Hp|[Hp|[Hp|Hp]]] by lia;
  repeat match goal with |- context [(?a <=? x) && (x <? ?b)] =>
    first [replace ((a <=? x) && (x <? b)) with false by (bdestr; cbn; done || lia)
          |replace ((a <=? x) && (x <? b)) with true by (bdestr; cbn; done || lia)] end;
  destruct (Z.ltb_spec x (753664 + 4096)); done || lia.
Qed.

Lemma init_terminals_run k :
  paging_ok 0 k -> length (terminals k) = 3%nat ->
  (forall i t, aget (terminals k) i = Some t ->
     length (t_buf_kb t) = 128%nat /\ length (prev_buf t) = 128%nat) ->
  let k' := init_terminals k in
  (forall i t, aget (terminals k) i = Some t ->
     aget (terminals k') i = Some (inited_terminal i (with_video_buffer (vbuf i) t))) /\
  length (terminals k') = 3%nat /\ visible k' = 0 /\ cur_terminal k' = 2 /\ pitIntrCount k' = 0 /\
  (forall x, video x -> ld8 k' x = if x <? VIDEO + 4096 then ld8 k x else 0) /\
  paging_ok 0 k' /\ k_faults k' = k_faults k /\ k_con k' = k_con k /\ k_kb k' = k_kb k.
Proof.
  intros Hok Hl Hlens. destruct (terminals k) as [|t0 [|t1 [|t2 [|]]]] eqn:Et; try discriminate. cbv zeta.
  destruct (init_terminals_eq k t0 t1 t2 Hok Et) as (m & -> & Hm & _).
  - exact (Forall_cons_2 _ _ _ (Hlens 0 t0 eq_refl) (Forall_cons_2 _ _ _ (Hlens 1 t1 eq_refl)
      (Forall_cons_2 _ _ _ (Hlens 2 t2 eq_refl) (Forall_nil_2 _)))).
  - split_and!; try done.
    + intros i t E. pose proof (aget_Some_range _ _ _ E) as Hi. cbn in Hi.
      assert (i = 0 \/ i = 1 \/ i = 2) as [->|[->| ->]] by lia; cbn in E; injection E as <-; done.
    + intros x Hx. rewrite !ld8_video by done. by apply Hm.
Qed.

(** The terminals are set up as the invariant wants them. *)
Lemma init_terminals_sched_ok k :
  paging_ok 0 k -> length (terminals k) = 3%nat ->
  (forall i t, aget (terminals k) i = Some t ->
     length (t_buf_kb t) = 128%nat /\ length (prev_buf t) = 128%nat) ->
  length (buf_kb k) = 128%nat -> length (previous_buf k) = 128%nat ->
  editor_bytes (screen_x k) (screen_y k) (curr_idx k) (num_chars k) (save_x k) (save_y k)
    (previous_num_chars k) ->
  sched_ok (init_terminals k).
Proof.
  intros Hok Hl Hlens Hb Hp He.
  destruct (init_terminals_run k Hok Hl Hlens) as (Ht & Hlen & Hv & Hc & _ & _ & Hok' & _ & Ec & Ek).
  revert Ht Hv Hc Hok' Ec Ek Hlen. generalize (init_terminals k) as k'. intros k' Ht Hv Hc Hok' Ec Ek Hlen.
  split; rewrite ?Ek, ?Ec; auto; [|lia].
  intros i t E. pose proof (aget_Some_range _ _ _ E) as Hi.
  destruct (aget_range_Some (terminals k) i) as [t' E']; [lia|]. rewrite (Ht i t' E') in E.
  injection E as <-. unfold editor_bytes. cbn -[Z.le Z.lt]. split_and!; done || lia.
Qed.

(** init_terminals gives each of the three terminals its own zeroed video
    page, an empty line and history and no process, displays terminal 0, and
    makes terminal 2 the one the first timer tick leaves. *)
Theorem init_terminals_correct k :
  paging_ok 0 k -> length (terminals k) = 3%nat ->
  (forall i t, aget (terminals k) i = Some t ->
     length (t_buf_kb t) = 128%nat /\ length (prev_buf t) = 128%nat) ->
  let k' := init_terminals k in
  (forall i t, aget (terminals k) i = Some t ->
     aget (terminals k') i = Some (inited_terminal i (with_video_buffer (vbuf i) t))) /\
  length (terminals k') = 3%nat /\ visible k' = 0 /\ cur_terminal k' = 2 /\ pitIntrCount k' = 0 /\
  (forall x, video x -> ld8 k' x = if x <? VIDEO + 4096 then ld8 k x else 0) /\
  paging_ok 0 k' /\ k_faults k' = k_faults k /\ k_con k' = k_con k /\ k_kb k' = k_kb k.
Proof. apply init_terminals_run. Qed.

(** ** Witnesses *)

Definition demo_sched : kernel := init_terminals demo_paged.

Lemma demo_paging_ok : paging_ok 0 demo_paged.
Proof. apply init_paging_ok, demo_paging_wf. Qed.

Lemma demo_paged_rest : k_sch demo_paged = k_sch demo_kernel /\ k_kb demo_paged = k_kb demo_kernel /\
  k_con demo_paged = k_con demo_kernel.
Proof. unfold demo_paged. by rewrite (init_paging_frame demo_kernel). Qed.

Lemma demo_terminals_length : length (terminals demo_paged) = 3%nat.
Proof. by rewrite (proj1 demo_paged_rest). Qed.

Lemma demo_terminals_lens i t : aget (terminals demo_paged) i = Some t ->
  length (t_buf_kb t) = 128%nat /\ length (prev_buf t) = 128%nat.
Proof.
  rewrite (proj1 demo_paged_rest). intros E.
  apply (Forall_aget (fun t => length (t_buf_kb t) = 128%nat /\ length (prev_buf t) = 128%nat)
    (terminals demo_kernel) i); [|exact E]. by repeat constructor.
Qed.

Lemma demo_init_terminals : visible demo_sched = 0 /\ cur_terminal demo_sched = 2 /\
  paging_ok 0 demo_sched /\ k_faults demo_sched = k_faults demo_paged /\
  k_con demo_sched = k_con demo_paged /\ k_kb demo_sched = k_kb demo_paged.
Proof.
  destruct (init_terminals_run demo_paged demo_paging_ok demo_terminals_length demo_terminals_lens)
    as (_ & _ & Hv & Hc & _ & _ & Hp & Hf & Ec & Ek). unfold demo_sched. auto 10.
Qed.

Lemma demo_sched_ok : sched_ok demo_sched.
Proof.
  apply (init_terminals_sched_ok demo_paged demo_paging_ok demo_terminals_length demo_terminals_lens);
    destruct demo_paged_rest as (_ & Ek & Ec); rewrite ?Ek, ?Ec; try reflexivity.
  vm_compute. repeat split; congruence.
Qed.

Lemma demo_sched_paging : paging_ok 0 demo_sched.
Proof. destruct demo_init_terminals as (_ & _ & H & _). exact H. Qed.

Lemma demo_sched_visible : visible demo_sched = 0.
Proof. destruct demo_init_terminals as (H & _). exact H. Qed.

Lemma init_terminals_correct_witness : cur_terminal (init_terminals demo_paged) = 2.
Proof.
  destruct (init_terminals_correct demo_paged demo_paging_ok demo_terminals_length demo_terminals_lens)
    as (_ & _ & _ & H & _). exact H.
Defined.

Lemma switch_terminal_correct_witness : visible (switch_terminal 1 demo_sched) = 1.
Proof.
  destruct (aget_range_Some (terminals demo_sched) 1) as [t1 E1];
    [rewrite (so_length _ demo_sched_ok); lia|].
  destruct (aget_range_Some (terminals demo_sched) (visible demo_sched)) as [t0 E0];
    [rewrite (so_length _ demo_sched_ok), demo_sched_visible; lia|].
  destruct (switch_terminal_correct 1 t1 t0 demo_sched demo_sched_ok demo_sched_paging) as [_ H];
    [lia|exact E1|exact E0|].
  apply (sw_visible _ _ _ _ _ (H ltac:(rewrite demo_sched_visible; lia))).
Defined.

Lemma switch_terminal_roundtrip_witness :
  visible (switch_terminal (visible demo_sched) (switch_terminal 2 demo_sched)) = visible demo_sched.
Proof.
  destruct (switch_terminal_roundtrip 2 demo_sched demo_sched_ok demo_sched_paging) as (H & _);
    [lia|rewrite demo_sched_visible; lia|exact H].
Defined.
