(* ===== verification/Terminal.v ===== *)
(** * The terminal driver (terminal.c)

    Reading a line the keyboard handler has completed, writing to the console,
    and the arguments of a command line. *)

From Stdlib Require Import ZArith Lia.
From Stdlib Require Import String.
From stdpp Require Import base numbers list gmap.
From S2P Require Import Prelude Memory LibStr State Machine Paging Console Pcb Filesys Schedule.

Open Scope Z_scope.
Implicit Types k : kernel.

(** ** The code *)

Definition ARG_LENGTH : Z := 1024.

(** A line is complete and the terminal that shows it is the scheduled one. *)
Definition line_ready (k : kernel) : bool :=
  (enter_flag (get_terminal k (visible k)) =? 0) && (cur_terminal k =? visible k).

(** The empty loop at the start of terminal_read, while the interrupts of a
    list are served one after the other; [None] when the list ends and the loop
    is still spinning. *)
Fixpoint terminal_spin (irqs : list (kernel -> kernel)) (k : kernel) : option kernel :=
  if line_ready k then Some k
  else match irqs with
       | [] => None
       | h :: irqs' => terminal_spin irqs' (h k)
       end.

(** [while (buf_kb[i] == ' ') i++;] *)
Fixpoint skip_spaces (fuel : nat) (l : list Z) (i : Z) : Z :=
  match fuel with
  | O => i
  | S f => if agetZ l i =? 32 then skip_spaces f l (i + 1) else i
  end.

(** The loop that looks for the newline and copies what follows the first space
    to storeargs.  The fuel is the size of the buffer: [None] means that no
    newline is in it and the loop runs off its end. *)
Fixpoint scan_args (fuel : nat) (l : list Z) (count spacecount offset_arg max : Z) (args : list Z)
    : option (Z * Z * list Z) :=
  match fuel with
  | O => None
  | S f =>
      let c := agetZ l count in
      if c =? 10 then Some (count, max, args)
      else
        let '(args, offset_arg) :=
          if -1 <? spacecount then (aset args offset_arg c, offset_arg + 1)
          else (args, offset_arg) in
        let '(spacecount, offset_arg, max) :=
          if (c =? 32) && (spacecount =? -1) then (spacecount + 1, 0, count)
          else (spacecount, offset_arg, max) in
        scan_args f l (count + 1) spacecount offset_arg max args
  end.

(** [None] also stands for a negative byte count that reaches memmove as a
    length near 2^32. *)
Definition terminal_read (irqs : list (kernel -> kernel)) (fd buf nbytes : Z) (k : kernel)
    : option (Z * kernel) :=
  match terminal_spin irqs k with
  | None => None
  | Some k =>
  let i := skip_spaces (Z.to_nat BUFFER_SIZE) (buf_kb k) 0 in
  let k := set_buf_kb (copy_arr (BUFFER_SIZE - i) (drop (Z.to_nat i) (buf_kb k)) (buf_kb k)) k in
  let k := set_storeargs (replicate (Z.to_nat ARG_LENGTH) 0) k in
  let max := if BUFFER_SIZE <? nbytes then BUFFER_SIZE else nbytes in
  '(count, max, args) ← scan_args (Z.to_nat BUFFER_SIZE) (buf_kb k) 0 (-1) 0 max (storeargs k);
  let k := set_storeargs args k in
  let count := count + 1 in
  let max := if max <? count then max else count in
  let max := if max <? nbytes then max else nbytes in
  if max <? 0 then None
  else
    let src := buf_kb k in
    let k := for_range 0 max (fun i k => st8 (u32 (buf + i)) (agetZ src i) k) k in
    let k := upd_terminal (visible k) (with_enter_flag 1) k in
    Some (max, set_buf_kb (replicate (Z.to_nat BUFFER_SIZE) 0) k)
  end.

Definition terminal_write (fd buf nbytes : Z) (k : kernel) : Z * kernel :=
  let k := for_range 0 nbytes (fun i k => putc (ld8 k (u32 (buf + i))) k) k in
  (Z.max 0 nbytes, k).

Definition terminal_open (filename : Z -> Z) (k : kernel) : Z * kernel := (0, k).
Definition terminal_close (fd : Z) (k : kernel) : Z * kernel := (0, k).

(** The destination is an array of the kernel (the [args] of a PCB). *)
Definition terminal_getargs (dest : list Z) (nbytes : Z) (k : kernel) : list Z :=
  let dest := for_range 0 nbytes (fun i dest => aset dest i (agetZ (storeargs k) i)) dest in
  aset dest (nbytes - 1) 10.

(** ** What a line says *)

(** The command and, when there is a space, the text after the first one. *)
Fixpoint split_line (l : list Z) : list Z * option (list Z) :=
  match l with
  | [] => ([], None)
  | c :: r => if c =? 32 then ([], Some r)
              else let '(cmd, args) := split_line r in (c :: cmd, args)
  end.

(** What the reader gets of a line: the command alone when there are
    arguments, else the line with its newline. *)
Definition line_output (line : list Z) : list Z :=
  match split_line line with
  | (cmd, None) => cmd ++ [10]
  | (cmd, Some _) => cmd
  end.

Definition line_args (line : list Z) : list Z := default [] (snd (split_line line)).

(** ** Lemmas *)

Lemma agetZ_mid (pre : list Z) c r : agetZ (pre ++ c :: r) (Z.of_nat (length pre)) = c.
Proof.
  unfold agetZ, aget. rewrite (proj2 (in_range_true _ _)) by (rewrite length_app; simpl; lia).
  by rewrite Nat2Z.id, list_lookup_middle.
Qed.

Lemma aset_mid (pre : list Z) c x r : aset (pre ++ c :: r) (Z.of_nat (length pre)) x = pre ++ x :: r.
Proof.
  unfold aset. rewrite (proj2 (in_range_true _ _)) by (rewrite length_app; simpl; lia).
  rewrite Nat2Z.id. by rewrite insert_app_r_alt, Nat.sub_diag by lia.
Qed.

Lemma skip_spaces_spec r : forall n fuel i pre, (n <= fuel)%nat -> i = Z.of_nat (length pre) ->
  (forall c l, r = c :: l -> c <> 32) ->
  skip_spaces fuel (pre ++ replicate n 32 ++ r) i = i + Z.of_nat n.
Proof.
  induction n as [|n IH]; intros fuel i pre Hf -> Hr.
  - destruct fuel; [simpl; lia|]. cbn [skip_spaces replicate app].
    destruct r as [|c r].
    + rewrite app_nil_r. unfold agetZ. rewrite (proj2 (aget_None _ _)) by lia. simpl. lia.
    + rewrite agetZ_mid, (proj2 (Z.eqb_neq _ _)) by (by eapply Hr). lia.
  - destruct fuel as [|f]; [lia|]. cbn [skip_spaces replicate app]. rewrite agetZ_mid, Z.eqb_refl.
    change (32 :: replicate n 32 ++ r) with ([32] ++ (replicate n 32 ++ r)). rewrite app_assoc.
    rewrite IH by (try done; try lia; rewrite length_app; simpl; lia). lia.
Qed.

(** After the first space every character is copied. *)
Lemma scan_args_copy rest max : forall line fuel pre done tail,
  Forall (fun c => c <> 10) line -> (length line < fuel)%nat -> (length line <= length tail)%nat ->
  scan_args fuel (pre ++ line ++ 10 :: rest) (Z.of_nat (length pre)) 0 (Z.of_nat (length done)) max
    (done ++ tail) =
  Some (Z.of_nat (length pre + length line), max, done ++ line ++ drop (length line) tail).
Proof.
  induction line as [|c line IH]; intros fuel pre done tail Hl Hf Ht;
    (destruct fuel as [|f]; [simpl in Hf; lia|]); cbn [scan_args app].
  - rewrite agetZ_mid. cbn. by rewrite Nat.add_0_r.
  - apply Forall_cons in Hl as [Hc Hl]. destruct tail as [|t tail]; [simpl in Ht; lia|].
    rewrite agetZ_mid, (proj2 (Z.eqb_neq _ _) Hc), aset_mid. change (-1 <? 0) with true.
    change (0 =? -1) with false. rewrite andb_false_r. cbn [length drop] in *.
    replace (Z.of_nat (length pre) + 1) with (Z.of_nat (length (pre ++ [c])))
      by (rewrite length_app; simpl; lia).
    replace (Z.of_nat (length done) + 1) with (Z.of_nat (length (done ++ [c])))
      by (rewrite length_app; simpl; lia).
    change (c :: line ++ 10 :: rest) with ([c] ++ line ++ 10 :: rest). rewrite app_assoc.
    change (c :: tail) with ([c] ++ tail). rewrite (app_assoc done).
    rewrite IH by (done || lia). rewrite length_app. cbn [length].
    do 2 f_equal; [f_equal; lia|]. by rewrite <- app_assoc.
Qed.

Lemma scan_args_spec rest max args : forall line fuel pre,
  Forall (fun c => c <> 10) line -> (length line < fuel)%nat -> (length line <= length args)%nat ->
  scan_args fuel (pre ++ line ++ 10 :: rest) (Z.of_nat (length pre)) (-1) 0 max args =
  Some (Z.of_nat (length pre + length line),
    match split_line line with
    | (_, None) => max
    | (cmd, Some _) => Z.of_nat (length pre + length cmd)
    end, line_args line ++ drop (length (line_args line)) args).
Proof.
  induction line as [|c line IH]; intros fuel pre Hl Hf Ht;
    (destruct fuel as [|f]; [simpl in Hf; lia|]); cbn [scan_args app].
  - rewrite agetZ_mid. cbn. by rewrite Nat.add_0_r.
  - apply Forall_cons in Hl as [Hc Hl]. rewrite agetZ_mid, (proj2 (Z.eqb_neq _ _) Hc).
    change (-1 <? -1) with false. cbn [length] in *. unfold line_args. cbn [split_line].
    replace (Z.of_nat (length pre) + 1) with (Z.of_nat (length (pre ++ [c])))
      by (rewrite length_app; simpl; lia).
    change (c :: line ++ 10 :: rest) with ([c] ++ line ++ 10 :: rest). rewrite app_assoc.
    destruct (Z.eqb_spec c 32) as [->|Hs]; cbn [andb Z.eqb Pos.eqb].
    + rewrite (scan_args_copy rest _ line f (pre ++ [32]) [] args) by (done || lia).
      rewrite length_app. cbn. do 3 f_equal; lia.
    + specialize (IH f (pre ++ [c]) Hl ltac:(lia) ltac:(lia)). unfold line_args in IH.
      destruct (split_line line) as [cmd [a|]]; rewrite IH, length_app; cbn; do 3 f_equal; lia.
Qed.

Lemma split_line_length line : let '(cmd, args) := split_line line in
  match args with
  | None => cmd = line
  | Some a => line = cmd ++ 32 :: a
  end.
Proof.
  induction line as [|c line IH]; cbn [split_line]; [done|].
  destruct (Z.eqb_spec c 32) as [->|]; [done|].
  destruct (split_line line) as [cmd [a|]]; by rewrite IH.
Qed.

(** Leading spaces are shifted out of the buffer. *)
Lemma trim_buffer n line rest (l : list Z) : l = replicate n 32 ++ line ++ 10 :: rest ->
  length l = 128%nat -> (forall c r, line = c :: r -> c <> 32) ->
  skip_spaces 128 l 0 = Z.of_nat n /\
  exists rest', copy_arr (128 - Z.of_nat n) (drop n l) l = line ++ 10 :: rest'.
Proof.
  intros -> Hl Hs. rewrite !length_app, length_replicate in Hl. cbn [length] in Hl. split.
  - apply (skip_spaces_spec (line ++ 10 :: rest) n 128 0 []); try done; [lia|].
    destruct line as [|c r]; [by intros ? ? [= <- _]|]. intros ? ? [= <- _]. by eapply Hs.
  - eexists. unfold copy_arr. rewrite drop_app_length' by (by rewrite length_replicate).
    rewrite take_ge by (rewrite length_app; simpl; lia). by rewrite <- app_assoc.
Qed.

(** C's idiom for the smaller of two values. *)
Lemma ltb_min a b : (if a <? b then a else b) = Z.min a b.
Proof. destruct (Z.ltb_spec a b); lia. Qed.

Lemma read_length line nbytes : 0 <= nbytes -> (length line < 128)%nat ->
  let max := if 128 <? nbytes then 128 else nbytes in
  let max := match split_line line with
    | (_, None) => max
    | (cmd, Some _) => Z.of_nat (length cmd)
    end in
  let count := Z.of_nat (length line) + 1 in
  let max := if max <? count then max else count in
  let max := if max <? nbytes then max else nbytes in
  max = Z.of_nat (length (take (Z.to_nat nbytes) (line_output line))).
Proof.
  intros Hn Hl. pose proof (split_line_length line) as Hsp. unfold line_output.
  destruct (split_line line) as [cmd [a|]]; rewrite length_take.
  - subst line. rewrite length_app in *. cbn [length] in *. cbv zeta. rewrite !ltb_min. lia.
  - subst cmd. rewrite length_app. cbn [length] in *. cbv zeta. rewrite !ltb_min. lia.
Qed.

Lemma line_output_prefix line : exists r, line ++ [10] = line_output line ++ r.
Proof.
  pose proof (split_line_length line) as Hsp. unfold line_output.
  destruct (split_line line) as [cmd [a|]]; subst; [|exists []; by rewrite app_nil_r].
  eexists. by rewrite <- app_assoc.
Qed.

Lemma terminal_spin_ready irqs k : line_ready k = true -> terminal_spin irqs k = Some k.
Proof. intros H. destruct irqs; cbn [terminal_spin]; by rewrite H. Qed.

(** The state after reading [line]. *)
Record line_read (k : kernel) (t : terminal_t) (line out : list Z) (buf : Z) (k' : kernel) : Prop := {
  lr_bytes : bytes_at k' buf out;
  lr_other : forall x, (forall i, 0 <= i < Z.of_nat (length out) -> as_sep k (buf + i) x) ->
    ld8 k' x = ld8 k x;
  lr_state : k' = set_buf_kb (replicate 128 0) (put_term (visible k) (with_enter_flag 1 t)
    (set_storeargs (line_args line ++ replicate (1024 - length (line_args line)) 0)
      (with_k_mem (k_mem k') k)));
}.

Lemma ld8_with k k' x : k_mem k' = k_mem k -> k_pg k' = k_pg k -> ld8 k' x = ld8 k x.
Proof. intros E1 E2. simpl. unfold phys. by rewrite E1, E2. Qed.

(** ** Correctness *)

Lemma terminal_read_run irqs fd buf nbytes n line rest t k :
  line_ready k = true -> aget (terminals k) (visible k) = Some t ->
  buf_kb k = replicate n 32 ++ line ++ 10 :: rest -> length (buf_kb k) = 128%nat ->
  Forall (fun c => 0 <= c < 256 /\ c <> 10) line -> (forall c r, line = c :: r -> c <> 32) ->
  0 <= nbytes ->
  let out := take (Z.to_nat nbytes) (line_output line) in
  0 <= buf -> buf + Z.of_nat (length out) < 2 ^ 32 -> region k (span buf (Z.of_nat (length out))) ->
  exists k', terminal_read irqs fd buf nbytes k = Some (Z.of_nat (length out), k') /\
    line_read k t line out buf k'.
Proof.
  intros Hr Ht Eb Hl Hline Hs Hn out Hb Hbo Hreg.
  assert (Hll : (length line < 128)%nat)
    by (apply (f_equal length) in Eb; rewrite !length_app in Eb; cbn [length] in Eb; lia).
  unfold terminal_read. rewrite terminal_spin_ready by done.
  destruct (trim_buffer n line rest (buf_kb k) Eb Hl Hs) as [E1 [rest' E2]].
  change (Z.to_nat BUFFER_SIZE) with 128%nat. change BUFFER_SIZE with 128.
  rewrite E1, Nat2Z.id, E2. set (k1 := set_buf_kb _ k).
  change (buf_kb (set_storeargs (replicate (Z.to_nat ARG_LENGTH) 0) k1)) with (line ++ 10 :: rest').
  change (storeargs (set_storeargs (replicate (Z.to_nat ARG_LENGTH) 0) k1)) with (replicate 1024 0).
  pose proof (scan_args_spec rest' (if 128 <? nbytes then 128 else nbytes) (replicate 1024 0) line 128 [])
    as Hsc. cbn [app length Nat.add] in Hsc. change (Z.of_nat 0) with 0 in Hsc.
  rewrite Hsc; [|by eapply Forall_impl; [exact Hline|intros ? []]|done|rewrite length_replicate; lia].
  clear Hsc. cbn [mbind option_bind].
  pose proof (read_length line nbytes Hn Hll) as Emax. cbv zeta in Emax.
  match type of Emax with ?x = _ => set (max := x) in * end. fold out in Emax.
  rewrite (proj2 (Z.ltb_ge max 0)) by lia. rewrite drop_replicate.
  set (k2 := set_storeargs (_ ++ _) _).
  pose proof (store_loop k2 buf 0 max (agetZ (line ++ 10 :: rest')) Hb ltac:(lia) ltac:(lia)) as Hst.
  assert (Hreg2 : region k2 (span buf max)) by (rewrite Emax; exact Hreg).
  specialize (Hst Hreg2). change (buf_kb k2) with (line ++ 10 :: rest'). revert Hst.
  generalize (for_range 0 max (fun i k => st8 (u32 (buf + i)) (agetZ (line ++ 10 :: rest') i) k) k2) as k3.
  intros k3 [Ho Hin Hout]. assert (Ek3 := Ho). unfold only_mem in Ek3.
  assert (Es : k_sch k3 = k_sch k) by (rewrite Ek3; done).
  rewrite (upd_terminal_put _ _ t) by (by rewrite Es). rewrite Es.
  eexists. split; [rewrite Emax; reflexivity|]. split.
  - intros i Hi. rewrite (ld8_with k3) by done. rewrite Hin by lia.
    destruct (line_output_prefix line) as [r Er].
    assert (Ei : agetZ (line ++ 10 :: rest') i = agetZ out i).
    { change (10 :: rest') with ([10] ++ rest'). rewrite app_assoc, Er, <- app_assoc.
      unfold out in *. rewrite length_take in Hi. rewrite agetZ_app_l by lia.
      unfold agetZ, aget, in_range. rewrite length_take, lookup_take_lt by lia.
      rewrite !(proj2 (Z.ltb_lt _ _)) by lia. done. }
    rewrite Ei. apply u8_small. rewrite <- Ei.
    destruct (decide (i < Z.of_nat (length line))).
    + rewrite agetZ_app_l by lia. eapply (Forall_agetZ (fun c => 0 <= c < 256)); [|lia].
      eapply Forall_impl; [exact Hline|]. by intros ? [].
    + assert (i = Z.of_nat (length line)) as ->; [|rewrite agetZ_mid; lia].
      apply (f_equal length) in Er. rewrite !length_app in Er. unfold out in Hi.
      rewrite length_take in Hi. cbn [length] in Er. lia.
  - intros x Hx. rewrite (ld8_with k3) by done. rewrite Hout; [done|].
    intros i Hi. apply (Hx i). lia.
  - cbn [k_mem set_buf_kb with_k_kb put_term set_terminals with_k_sch]. rewrite Ek3 at 1. reflexivity.
Qed.

(** The state after the first [j] interrupts. *)
Definition served (irqs : list (kernel -> kernel)) (j : nat) (k : kernel) : kernel :=
  foldl (fun k h => h k) k (take j irqs).

Lemma terminal_spin_served irqs : forall m k, (m <= length irqs)%nat ->
  (forall j, (j < m)%nat -> line_ready (served irqs j k) = false) -> line_ready (served irqs m k) = true ->
  terminal_spin irqs k = Some (served irqs m k).
Proof.
  induction irqs as [|h irqs IH]; intros [|m] k Hm Hw Hr; cbn [length] in Hm; try lia; cbn [terminal_spin].
  - change (line_ready k = true) in Hr. by rewrite Hr.
  - change (line_ready k = true) in Hr. by rewrite Hr.
  - pose proof (Hw 0%nat ltac:(lia)) as H0. change (line_ready k = false) in H0. rewrite H0.
    apply (IH m (h k)); [lia| |exact Hr]. intros j Hj. apply (Hw (S j)). lia.
Qed.

Lemma terminal_spin_blocked irqs : forall k,
  (forall j, (j <= length irqs)%nat -> line_ready (served irqs j k) = false) -> terminal_spin irqs k = None.
Proof.
  induction irqs as [|h irqs IH]; intros k Hw; cbn [terminal_spin];
    pose proof (Hw 0%nat ltac:(lia)) as H0; change (line_ready k = false) in H0; rewrite H0; [done|].
  apply IH. intros j Hj. apply (Hw (S j)). cbn. lia.
Qed.

(** C22: terminal_read waits for a line on its terminal: while none is complete
    there, or another terminal is scheduled, it only lets the interrupts that
    arrive run, and with no line after the last of them it has not returned.  In
    the first state with a complete line, and not before, it drops the line's
    leading spaces, stores the command (with the newline when there are no
    arguments, without it when there are, never more than [nbytes]) at [buf] and
    the text after the first space in storeargs, padded with zeros, returns the
    number of bytes stored, empties the line buffer, waits for a new line again,
    and changes nothing else in memory or in the kernel. *)
Theorem terminal_read_correct irqs fd buf nbytes k0 :
  ((forall j, (j <= length irqs)%nat -> line_ready (served irqs j k0) = false) ->
     terminal_read irqs fd buf nbytes k0 = None) /\
  (forall m n line rest t, (m <= length irqs)%nat -> (forall j, (j < m)%nat -> line_ready (served irqs j k0) = false) ->
     let k := served irqs m k0 in
     line_ready k = true -> aget (terminals k) (visible k) = Some t ->
     buf_kb k = replicate n 32 ++ line ++ 10 :: rest -> length (buf_kb k) = 128%nat ->
     Forall (fun c => 0 <= c < 256 /\ c <> 10) line -> (forall c r, line = c :: r -> c <> 32) ->
     0 <= nbytes ->
     let out := take (Z.to_nat nbytes) (line_output line) in
     0 <= buf -> buf + Z.of_nat (length out) < 2 ^ 32 -> region k (span buf (Z.of_nat (length out))) ->
     exists k', terminal_read irqs fd buf nbytes k0 = Some (Z.of_nat (length out), k') /\
       line_read k t line out buf k').
Proof.
  split.
  - intros Hw. unfold terminal_read. by rewrite terminal_spin_blocked.
  - intros m n line rest t Hm Hw k Hr Et Eb Hl HF Hs Hn out Hb Hbo Hreg.
    destruct (terminal_read_run [] fd buf nbytes n line rest t k Hr Et Eb Hl HF Hs Hn Hb Hbo Hreg) as (k' & E & H).
    exists k'. split; [|exact H]. transitivity (terminal_read [] fd buf nbytes k); [|exact E]. unfold terminal_read.
    rewrite (terminal_spin_served irqs m k0 Hm Hw Hr). by rewrite (terminal_spin_ready [] k Hr).
Qed.

(** Until a line is ready the reader only lets interrupts run. *)
Lemma terminal_read_waits h irqs fd buf nbytes k : line_ready k = false ->
  terminal_read (h :: irqs) fd buf nbytes k = terminal_read irqs fd buf nbytes (h k).
Proof. intros H. unfold terminal_read. cbn [terminal_spin]. by rewrite H. Qed.

Lemma terminal_read_blocks fd buf nbytes k : line_ready k = false ->
  terminal_read [] fd buf nbytes k = None.
Proof. intros H. unfold terminal_read. cbn [terminal_spin]. by rewrite H. Qed.

Lemma terminal_write_run fd buf l k :
  console_ok k -> 0 <= buf -> buf + Z.of_nat (length l) < 2 ^ 32 -> bytes_at k buf l ->
  (forall x y, span buf (Z.of_nat (length l)) x -> span VIDEO 4000 y -> as_sep k y x) ->
  exists k', terminal_write fd buf (Z.of_nat (length l)) k = (Z.of_nat (length l), k') /\
    con_run k k' (foldl abs_putc (abs_console k) l).
Proof.
  intros Hok Hb Hbl Hl Hsep. unfold terminal_write. eexists. split; [f_equal; lia|].
  rewrite <- (firstn_all l) at 2. rewrite <- (Nat2Z.id (length l)) at 2.
  apply (for_range_inv 0 (Z.of_nat (length l)) _ k
    (fun i t => con_run k t (foldl abs_putc (abs_console k) (take (Z.to_nat i) l)))); [lia| |].
  - by apply con_run_refl.
  - intros i t Hi Hr. rewrite u32_small by lia.
    assert (E : ld8 t (buf + i) = agetZ l i).
    { rewrite (cr_mem _ _ _ Hr); [by apply Hl|]. intros y Hy. apply Hsep; [unfold span; lia|done]. }
    assert (Hc : u8 (agetZ l i) = agetZ l i) by (rewrite <- E; apply u8_small, ld8_range).
    rewrite E. destruct (putc_run (agetZ l i) t (cr_ok _ _ _ Hr)) as [Hp _].
    rewrite Hc, (cr_abs _ _ _ Hr) in Hp.
    replace (Z.to_nat (i + 1)) with (S (Z.to_nat i)) by lia.
    destruct (aget_range_Some l i Hi) as [x Hx]. unfold agetZ in Hp |- *. rewrite Hx in Hp |- *.
    unfold aget in Hx. rewrite (proj2 (in_range_true _ _)) in Hx by lia.
    rewrite (take_S_r _ _ _ Hx), foldl_app. eapply con_run_trans; eauto.
Qed.

(** C23: terminal_write prints its [n] bytes on the console, in order and without
    interpreting any of them, returns [n], and changes nothing but the screen
    and the cursor. *)
Theorem terminal_write_refines fd buf l k :
  console_ok k -> 0 <= buf -> buf + Z.of_nat (length l) < 2 ^ 32 -> bytes_at k buf l ->
  (forall x y, span buf (Z.of_nat (length l)) x -> span VIDEO 4000 y -> as_sep k y x) ->
  exists k', terminal_write fd buf (Z.of_nat (length l)) k = (Z.of_nat (length l), k') /\
    con_run k k' (foldl abs_putc (abs_console k) l).
Proof. apply terminal_write_run. Qed.

(** terminal_getargs copies the stored arguments and ends them with a newline. *)
Lemma terminal_getargs_eq dest k : length (storeargs k) = 1024%nat -> length dest = 1024%nat ->
  terminal_getargs dest 1024 k = aset (storeargs k) 1023 10.
Proof.
  intros Hs Hd. unfold terminal_getargs. change (1024 - 1) with 1023. f_equal.
  assert (H : length (for_range 0 1024 (fun i dest => aset dest i (agetZ (storeargs k) i)) dest) = 1024%nat /\
    forall j, 0 <= j < 1024 ->
      aget (for_range 0 1024 (fun i dest => aset dest i (agetZ (storeargs k) i)) dest) j
      = Some (agetZ (storeargs k) j)).
  { apply (for_range_inv 0 1024 _ dest (fun i d => length d = 1024%nat /\
      forall j, 0 <= j < i -> aget d j = Some (agetZ (storeargs k) j))); [lia|split; [done|lia]|].
    intros i d Hi [HL Hj]. rewrite length_aset. split; [done|]. intros j Hj'.
    destruct (decide (j = i)) as [->|]; [apply aget_aset_eq; lia|].
    rewrite aget_aset_ne by done. apply Hj. lia. }
  destruct H as [HL HA]. apply aget_ext; [congruence|]. intros j Hj. rewrite HA by lia.
  unfold agetZ. destruct (aget_range_Some (storeargs k) j) as [x ->]; [lia|done].
Qed.

(** ** Witnesses *)

Definition demo_line : kernel :=
  set_buf_kb (codes "  cat a" ++ 10 :: replicate 120 0) demo_kernel.

(** Enter is pressed while the reader waits. *)
Definition demo_waiting : kernel := put_term 0 (with_enter_flag 1 default_terminal) demo_line.
Definition demo_enter (k : kernel) : kernel := put_term 0 (with_enter_flag 0 default_terminal) k.

Lemma terminal_read_correct_witness :
  exists k', terminal_read [demo_enter] 0 0x600000 32 demo_waiting = Some (3, k') /\
    bytes_at k' 0x600000 (codes "cat").
Proof.
  destruct (terminal_read_correct [demo_enter] 0 0x600000 32 demo_waiting) as [_ H].
  destruct (H 1%nat 2%nat (codes "cat a") (replicate 120 0) (with_enter_flag 0 default_terminal))
    as (k' & E & H'); try reflexivity; try lia.
  - intros j Hj. assert (j = 0%nat) as -> by lia. reflexivity.
  - by repeat constructor.
  - by intros c r [= <- _].
  - apply region_unpaged. reflexivity.
  - exists k'. split; [exact E|]. exact (lr_bytes _ _ _ _ _ _ H').
Defined.

Lemma terminal_write_refines_witness :
  exists k', terminal_write 1 0x600000 2 (st8 0x600001 105 (st8 0x600000 104 demo_kernel)) = (2, k').
Proof.
  destruct (terminal_write_refines 1 0x600000 [104; 105]
    (st8 0x600001 105 (st8 0x600000 104 demo_kernel))) as (k' & E & _); try (simpl; lia).
  - split; [|vm_compute; split_and!; congruence]. apply region_unpaged. reflexivity.
  - intros i Hi. assert (i = 0 \/ i = 1) as [->| ->] by (simpl in Hi; lia); reflexivity.
  - intros x y Hx Hy p q. unfold span, VIDEO in *. cbn in Hx. intros [= <-] [= <-]. lia.
  - exists k'. exact E.
Defined.
