(* ===== verification/Vterm.v ===== *)
(** * Virtual terminals

    The three terminals share one text screen, one position and one line
    editor.  [terminals[visible]] is on the screen and in the editor's globals;
    one terminal [c], the running process's or, inside the keyboard handler,
    the visible one, owns lib.c's position and the page that VIDEO is redirected
    to.  This file says what each terminal logically is, whatever the two
    indices are: its screen, position, line and history ([aterm]).  The
    components above (keyboard, scheduler) are specified by what they do to
    these. *)

From Stdlib Require Import ZArith Lia.
From stdpp Require Import base numbers list gmap.
From S2P Require Import Prelude Memory LibMem State Machine Paging Console Schedule.

Open Scope Z_scope.
Implicit Types k : kernel.

(** ** The logical terminals *)

(** The video page, counted from the screen, that VIDEO is redirected to while
    terminal [c] owns the console. *)
Definition screen_slot (c : Z) (k : kernel) : Z := if c =? visible k then 0 else 1 + c.

(** The physical page that holds terminal [i]'s cells. *)
Definition vpage (k : kernel) (i : Z) : Z := if i =? visible k then VIDEO else vbuf i.

Definition vcells (m : gmap Z Z) (base : Z) : list cell :=
  map (fun j => (ld8 m (base + 2 * j), ld8 m (base + 2 * j + 1))) (seqZ 0 2000).

Definition vpos (c : Z) (k : kernel) (i : Z) : Z * Z :=
  if i =? c then (screen_x k, screen_y k)
  else (t_screen_x (get_terminal k i), t_screen_y (get_terminal k i)).

Definition vcon (c : Z) (k : kernel) (i : Z) : aconsole :=
  mkA (vcells (k_mem k) (vpage k i)) (fst (vpos c k i)) (snd (vpos c k i)).

(** Its line editor: the displayed terminal's is in the globals. *)
Record editor_t := mkEd {
  e_num : Z;
  e_idx : Z;
  e_buf : list Z;
  e_prev_num : Z;
  e_prev : list Z;
}.

Definition ved (k : kernel) (i : Z) : editor_t :=
  if i =? visible k
  then mkEd (num_chars k) (curr_idx k) (buf_kb k) (previous_num_chars k) (previous_buf k)
  else let t := get_terminal k i in
       mkEd (t_num_chars t) (t_curr_idx t) (t_buf_kb t) (t_prev_num_chars t) (prev_buf t).

Definition ed_line (e : editor_t) : list Z := take (Z.to_nat (e_num e)) (e_buf e).
Definition ed_hist (e : editor_t) : list Z := take (Z.to_nat (e_prev_num e)) (e_prev e).

(** A terminal as its user knows it. *)
Record aterm := mkT {
  at_con : aconsole;
  at_line : list Z;
  at_hist : list Z;
}.

Definition vterm (c : Z) (k : kernel) (i : Z) : aterm :=
  mkT (vcon c k i) (ed_line (ved k i)) (ed_hist (ved k i)).

(** ** The invariant *)

(** A character the keyboard can put in a line. *)
Definition typable (c : Z) : Prop := 32 <= c < 127.

Definition con_ok (a : aconsole) : Prop := 0 <= a_x a < 80 /\ 0 <= a_y a < 25.

Record ed_ok (e : editor_t) (a : aconsole) : Prop := {
  eo_num : 0 <= e_num e <= 127;
  eo_idx : e_idx e = e_num e;
  eo_prev_num : 0 <= e_prev_num e <= 127;
  eo_len : length (e_buf e) = 128%nat /\ length (e_prev e) = 128%nat;
  eo_chars : Forall typable (ed_line e) /\ Forall typable (ed_hist e);
  (** there is room before the cursor to erase the whole line *)
  eo_room : e_num e <= 80 * a_y a + a_x a;
}.

Record vt_ok (c : Z) (k : kernel) : Prop := {
  vo_sched : sched_ok k;
  vo_owner : 0 <= c < 3;
  vo_paging : paging_ok (screen_slot c k) k;
  vo_con : forall i, 0 <= i < 3 -> con_ok (vcon c k i);
  vo_ed : forall i, 0 <= i < 3 -> ed_ok (ved k i) (vcon c k i);
}.

(** ** The screen as physical memory *)

Lemma length_vcells m b : length (vcells m b) = 2000%nat.
Proof. unfold vcells. by rewrite length_map, length_seqZ. Qed.

Lemma vcells_ext m m' b b' : (forall x, 0 <= x < 4000 -> ld8 m' (b' + x) = ld8 m (b + x)) ->
  vcells m' b' = vcells m b.
Proof.
  intros H. unfold vcells. apply map_ext_in. intros j Hj%list_elem_of_In%elem_of_seqZ.
  rewrite <- !Z.add_assoc. by rewrite !H by lia.
Qed.

Lemma phys_screen t k x : paging_ok t k -> 0 <= x < 4096 ->
  phys k (VIDEO + x) = Some (VIDEO + 4096 * t + x).
Proof.
  intros Hok Hx. unfold phys, VIDEO in *. rewrite (translate_low t k) by (done || lia).
  rewrite (proj2 (Z.ltb_lt _ _)) by lia. f_equal. lia.
Qed.

(** The cells lib.c sees are those of the page VIDEO is redirected to. *)
Lemma cells_phys t k : paging_ok t k -> cells k = vcells (k_mem k) (VIDEO + 4096 * t).
Proof.
  intros Hok. unfold cells, vcells. apply map_ext_in. intros j Hj%list_elem_of_In%elem_of_seqZ.
  assert (H : forall x, 0 <= x < 4096 -> ld8 k (VIDEO + x) = ld8 (k_mem k) (VIDEO + (4096 * t + x))).
  { intros x Hx. unfold ld8 at 1. cbn [kernel_space]. rewrite (phys_screen t) by done.
    by rewrite Z.add_assoc. }
  rewrite <- !Z.add_assoc. by rewrite !H by lia.
Qed.

(** What lib.c writes on is the owner's console. *)
Lemma abs_console_vcon c k : paging_ok (screen_slot c k) k -> abs_console k = vcon c k c.
Proof.
  intros Hok. unfold abs_console, vcon, vpos. rewrite Z.eqb_refl. cbn [fst snd]. f_equal.
  rewrite (cells_phys (screen_slot c k)) by done. f_equal. unfold screen_slot, vpage, vbuf.
  destruct (c =? visible k); lia.
Qed.

(** [k'] differs from [k] in memory only on the page VIDEO is redirected to. *)
Record scr_frame (k k' : kernel) : Prop := {
  sf_pg : k_pg k' = k_pg k;
  sf_mem : forall p, (forall y, span VIDEO 4000 y -> phys k y <> Some p) ->
    ld8 (k_mem k') p = ld8 (k_mem k) p;
}.

#[export] Instance scr_frame_preorder : PreOrder scr_frame.
Proof.
  split; [done|]. intros k1 k2 k3 [E1 M1] [E2 M2]. split; [congruence|].
  intros p Hp. rewrite M2, M1; [done|done|]. unfold phys. by rewrite E1.
Qed.

Lemma scr_frame_same k k' : k_pg k' = k_pg k -> k_mem k' = k_mem k -> scr_frame k k'.
Proof. intros E1 E2. split; [done|]. intros p _. by rewrite E2. Qed.

Lemma scr_frame_st8 a v k : span VIDEO 4000 a -> scr_frame k (st8 a v k).
Proof.
  intros Ha. split; [apply k_pg_st8|]. intros p Hp. simpl.
  destruct (phys k a) as [q|] eqn:E; [|done]. cbn. rewrite lookup_insert_ne; [done|].
  intros ->. by apply (Hp a).
Qed.

Lemma scr_frame_put_cell i c k : 0 <= i < 2000 -> scr_frame k (put_cell i c k).
Proof.
  intros Hi. unfold put_cell. rewrite !Z.shiftl_mul_pow2 by lia.
  unfold VIDEO. rewrite !u32_small by lia. change 753664 with VIDEO.
  etrans; apply scr_frame_st8; unfold span; lia.
Qed.

Lemma scr_frame_copy_up n : forall s d k, VIDEO <= d -> d + Z.of_nat n <= VIDEO + 4000 ->
  scr_frame k (copy_up n s d k).
Proof.
  induction n as [|n IH]; intros s d k Hd Hn; cbn [copy_up]; [done|].
  rewrite (u32_small (d + 1)) by (unfold VIDEO in *; lia).
  etrans; [apply (scr_frame_st8 d); unfold span; lia|]. apply IH; lia.
Qed.

Lemma k_con_copy_up n : forall s d k, k_con (copy_up n s d k) = k_con k.
Proof.
  induction n as [|n IH]; intros s d k; cbn [copy_up]; [done|]. rewrite IH. apply k_con_st8.
Qed.

Lemma scr_frame_cursor x y k : scr_frame k (update_cursor x y k).
Proof. by apply scr_frame_same. Qed.

Lemma scr_frame_x x k : scr_frame k (set_screen_x x k).
Proof. by apply scr_frame_same. Qed.

Lemma scr_frame_y y k : scr_frame k (set_screen_y y k).
Proof. by apply scr_frame_same. Qed.

Lemma scr_frame_newline k : 0 <= screen_y k < 25 -> scr_frame k (putc_newline k).
Proof.
  intros Hy. unfold putc_newline. etrans; [|apply scr_frame_x].
  destruct (Z.eqb_spec (screen_y k) (NUM_ROWS - 1)) as [E|E]; [|apply scr_frame_y].
  rewrite memmove_up by (unfold VIDEO; done || lia).
  change (Z.shiftl (NUM_COLS * (NUM_ROWS - 1)) 1) with 3840.
  set (k1 := copy_up _ _ _ _). assert (H1 : scr_frame k k1) by (apply scr_frame_copy_up; unfold VIDEO; lia).
  assert (Ec : k_con k1 = k_con k) by apply k_con_copy_up.
  revert H1 Ec. generalize k1 as k2. clear k1. intros k1 H1 Ec.
  apply (for_range_inv 0 NUM_COLS _ k1 (fun _ t => scr_frame k t /\ k_con t = k_con k)); [done|done|].
  unfold NUM_COLS, NUM_ROWS in *. intros i t Hi [Ht Et]. split.
  - etrans; [exact Ht|]. apply scr_frame_put_cell. rewrite Et. lia.
  - destruct (put_cell_con (80 * screen_y t + i) 32 t) as [-> _]. done.
Qed.

Lemma scr_frame_putc c k : 0 <= screen_x k < 80 -> 0 <= screen_y k < 25 -> scr_frame k (putc c k).
Proof.
  intros Hx Hy. unfold putc. etrans; [|apply scr_frame_cursor].
  destruct ((u8 c =? 10) || (u8 c =? 13)); [by apply scr_frame_newline|].
  set (k1 := put_cell _ _ _).
  assert (H1 : scr_frame k k1) by (apply scr_frame_put_cell; unfold NUM_COLS; lia).
  assert (Ec : k_con k1 = k_con k) by apply put_cell_con.
  revert H1 Ec. generalize k1 as k2. clear k1. intros k1 H1 Ec.
  destruct (_ && _); (etrans; [exact H1|]).
  - unfold putc_corner. etrans; [|apply scr_frame_cursor].
    etrans; [apply scr_frame_x|]. apply scr_frame_newline. change (0 <= screen_y k1 < 25). by rewrite Ec.
  - unfold putc_advance. etrans; [apply scr_frame_x|]. etrans; [apply scr_frame_y|]. apply scr_frame_x.
Qed.

Lemma scr_frame_backspace k : 0 <= screen_x k < 80 -> 0 <= screen_y k < 25 ->
  (screen_x k, screen_y k) <> (0, 0) -> scr_frame k (backspace k).
Proof.
  intros Hx Hy Hne. unfold backspace. etrans; [|apply scr_frame_cursor]. change NUM_COLS with 80.
  assert (Hp : 0 < 80 * screen_y k + screen_x k).
  { destruct (decide (screen_x k = 0)) as [E|]; [|lia].
    destruct (decide (screen_y k = 0)) as [E'|]; [|lia]. by rewrite E, E' in Hne. }
  set (k1 := put_cell _ _ _). assert (H1 : scr_frame k k1) by (apply scr_frame_put_cell; lia).
  etrans; [exact H1|]. generalize k1 as k2. intros k2.
  destruct (negb (screen_x k2 =? 0)); [apply scr_frame_x|]. destruct (negb (screen_y k2 =? 0)); [|done].
  etrans; [apply scr_frame_x|apply scr_frame_y].
Qed.

Lemma scr_frame_clear_kb k : scr_frame k (clear_kb k).
Proof.
  unfold clear_kb. etrans; [|apply scr_frame_cursor].
  etrans; [|apply scr_frame_y]. etrans; [|apply scr_frame_x].
  apply (for_range_inv 0 2000 _ k (fun _ t => scr_frame k t)); [done|done|].
  intros i t Hi Ht. etrans; [exact Ht|]. by apply scr_frame_put_cell.
Qed.

Lemma scr_frame_clear k : scr_frame k (clear k).
Proof.
  unfold clear. etrans; [|apply scr_frame_clear_kb].
  apply (for_range_inv 0 2000 _ k (fun _ t => scr_frame k t)); [done|done|].
  intros i t Hi Ht. etrans; [exact Ht|]. by apply scr_frame_put_cell.
Qed.

(** A write on the screen page stays in video memory. *)
Lemma scr_frame_out t k k' : scr_frame k k' -> paging_ok t k ->
  forall x, ~ video x -> ld8 (k_mem k') x = ld8 (k_mem k) x.
Proof.
  intros Hs Hp x Hx. apply (sf_mem _ _ Hs). intros y Hy Hpy. apply Hx.
  replace y with (VIDEO + (y - VIDEO)) in Hpy by lia. unfold span in Hy.
  rewrite (phys_screen t) in Hpy by (done || lia). injection Hpy as <-.
  assert (0 <= t <= 3) by apply Hp. unfold video, span, VIDEO in *. lia.
Qed.

(** A run of lib.c on the owner's console changes that terminal and no other. *)
Lemma vcon_run c k k' a : vt_ok c k -> con_run k k' a -> scr_frame k k' ->
  forall i, 0 <= i < 3 -> vcon c k' i = if i =? c then a else vcon c k i.
Proof.
  intros Hok Hr Hf i Hi. pose proof (cr_frame _ _ _ Hr) as Hfr.
  assert (Es : k_sch k' = k_sch k) by (by rewrite Hfr).
  assert (Ep : k_pg k' = k_pg k) by apply Hf.
  destruct (Z.eqb_spec i c) as [->|Hne].
  - rewrite <- abs_console_vcon; [apply Hr|]. unfold screen_slot. rewrite Es, Ep. apply Hok.
  - unfold vcon, vpos, vpage, get_terminal. rewrite Es, (proj2 (Z.eqb_neq _ _) Hne). f_equal.
    apply vcells_ext. intros x Hx. apply Hf. intros y Hy Hp.
    replace y with (VIDEO + (y - VIDEO)) in Hp by lia. unfold span in Hy.
    rewrite (phys_screen (screen_slot c k)) in Hp by (apply Hok || lia). injection Hp as Hp.
    pose proof (vo_owner _ _ Hok). revert Hp. unfold screen_slot, vbuf. bdestr; lia.
Qed.

Lemma ved_ext k k' i : k_sch k' = k_sch k -> k_kb k' = k_kb k -> ved k' i = ved k i.
Proof. intros E1 E2. unfold ved, get_terminal. by rewrite E1, E2. Qed.

Lemma sched_ok_ext k k' : k_sch k' = k_sch k -> k_kb k' = k_kb k ->
  0 <= screen_x k' < 256 -> 0 <= screen_y k' < 256 -> sched_ok k -> sched_ok k'.
Proof.
  intros E1 E2 Hx Hy [L T V A B]. split; rewrite ?E1, ?E2; auto.
  unfold editor_bytes in *. lia.
Qed.

(** ** Transfer *)

Lemma vt_ok_ext c k c' k' : vt_ok c k -> sched_ok k' -> 0 <= c' < 3 ->
  paging_ok (screen_slot c' k') k' ->
  (forall i, 0 <= i < 3 -> vcon c' k' i = vcon c k i) -> (forall i, 0 <= i < 3 -> ved k' i = ved k i) ->
  vt_ok c' k' /\ forall i, 0 <= i < 3 -> vterm c' k' i = vterm c k i.
Proof.
  intros Hok Hs Hc Hp Hcon Hed. split; [split; auto|].
  - intros i Hi. rewrite Hcon by done. by apply Hok.
  - intros i Hi. rewrite Hcon, Hed by done. by apply Hok.
  - intros i Hi. unfold vterm. by rewrite Hcon, Hed.
Qed.

Lemma vt_console_ok c k : vt_ok c k -> console_ok k.
Proof.
  intros Hok. pose proof (vo_con _ _ Hok c (vo_owner _ _ Hok)) as [Hx Hy].
  rewrite <- abs_console_vcon in Hx, Hy by apply Hok.
  split; [apply (paging_ok_mapped (screen_slot c k)), Hok|done].
Qed.

Definition linear (a : aconsole) : Z := 80 * a_y a + a_x a.

(** Printing never moves the position back, except by scrolling at the bottom. *)
Lemma abs_putc_room a ch : con_ok a ->
  con_ok (abs_putc a ch) /\ Z.min (linear a) 1920 <= linear (abs_putc a ch) /\
  (ch <> 10 -> ch <> 13 -> Z.min (linear a + 1) 1920 <= linear (abs_putc a ch)).
Proof.
  intros [Hx Hy]. unfold con_ok, linear, abs_putc, abs_newline.
  destruct (Z.eqb_spec ch 10); [|destruct (Z.eqb_spec ch 13)]; cbn [orb].
  1-2: destruct (Z.eqb_spec (a_y a) 24); cbn [a_x a_y a_cells]; split_and!; intros; lia.
  destruct (Z.eqb_spec (a_x a) 79); cbn [a_x a_y a_cells];
    [destruct (Z.eqb_spec (a_y a) 24)|]; cbn [a_x a_y a_cells]; split_and!; intros; lia.
Qed.

Lemma foldl_putc_room l : forall a, con_ok a ->
  con_ok (foldl abs_putc a l) /\ Z.min (linear a) 1920 <= linear (foldl abs_putc a l).
Proof.
  induction l as [|ch l IH]; intros a Ha; cbn [foldl]; [split; [done|lia]|].
  destruct (abs_putc_room a ch Ha) as (H1 & H2 & _). destruct (IH _ H1) as [H3 H4]. split; [done|lia].
Qed.

(** Output of the owner keeps the invariant. *)
Lemma vt_ok_run c k k' a : vt_ok c k -> con_run k k' a -> scr_frame k k' ->
  e_num (ved k c) <= linear a -> vt_ok c k'.
Proof.
  intros Hok Hr Hf Hroom. pose proof (cr_frame _ _ _ Hr) as Hfr.
  assert (Es : k_sch k' = k_sch k) by (by rewrite Hfr).
  assert (Ek : k_kb k' = k_kb k) by (by rewrite Hfr).
  assert (Ep : k_pg k' = k_pg k) by apply Hf.
  pose proof (vcon_run c k k' a Hok Hr Hf) as Hv.
  destruct (cr_ok _ _ _ Hr) as (_ & Hx & Hy).
  assert (Ha : con_ok a) by (rewrite <- (cr_abs _ _ _ Hr); done). split.
  - apply (sched_ok_ext k); auto; try lia. apply Hok.
  - apply Hok.
  - unfold screen_slot. rewrite Es, Ep. apply Hok.
  - intros i Hi. rewrite Hv by done. destruct (i =? c); [done|by apply Hok].
  - intros i Hi. rewrite Hv, (ved_ext k k') by done.
    destruct (Z.eqb_spec i c) as [->|]; [|by apply Hok].
    destruct (vo_ed _ _ Hok c Hi) as [H1 H2 H3 H4 H5 H6]. by split.
Qed.

(** The physical effect of switching on the logical screens: none. *)
Lemma switched_vcon d td tv k k' : switched d td tv k k' -> sched_ok k -> 0 <= d < 3 -> d <> visible k ->
  aget (terminals k) d = Some td -> aget (terminals k) (visible k) = Some tv ->
  forall i, 0 <= i < 3 -> vcon d k' i = vcon (visible k) k i /\ ved k' i = ved k i.
Proof.
  intros [Hv Hc Ht He Hm _ _ _ _ _ _] Hs Hd Hne Ed Ev i Hi.
  assert (Hg : get_terminal k' i = if visible k =? i then saved k tv else get_terminal k i).
  { unfold get_terminal. rewrite Ht, aget_aset, (proj2 (in_range_true _ _)), andb_true_r
      by (pose proof (so_length _ Hs); pose proof (so_visible _ Hs); lia). by destruct (visible k =? i). }
  assert (Gd : get_terminal k d = td) by (unfold get_terminal; by rewrite Ed).
  unfold editor, editor_of in He. injection He as E1 E2 E3 E4 E5 E6 E7 E8 E9.
  pose proof (so_visible _ Hs). split.
  - unfold vcon, vpos, vpage. rewrite Hg, Hv. f_equal.
    + apply vcells_ext. intros x Hx. unfold vbuf.
      rewrite Hm by (unfold video, span, VIDEO; destruct (i =? d); lia).
      destruct (Z.eqb_spec i d) as [Ei|]; destruct (Z.eqb_spec i (visible k)) as [Evi|];
        try congruence; unfold VIDEO in *.
      * rewrite (proj2 (Z.ltb_lt _ _)) by lia. f_equal. unfold vbuf, VIDEO. lia.
      * rewrite (proj2 (Z.ltb_ge _ _)) by lia. unfold vbuf, VIDEO.
        rewrite (proj2 (Z.leb_le _ _)), (proj2 (Z.ltb_lt _ _)) by lia. cbn [andb]. f_equal. lia.
      * rewrite (proj2 (Z.ltb_ge _ _)) by lia. unfold vbuf, VIDEO.
        replace (_ && _) with false; [done|]. symmetry. bdestr; cbn; done || lia.
    + rewrite (Z.eqb_sym i (visible k)).
      destruct (Z.eqb_spec i d) as [Ei|]; destruct (Z.eqb_spec (visible k) i) as [Evi|]; try congruence; cbn; congruence.
    + rewrite (Z.eqb_sym i (visible k)).
      destruct (Z.eqb_spec i d) as [Ei|]; destruct (Z.eqb_spec (visible k) i) as [Evi|]; try congruence; cbn; congruence.
  - unfold ved. rewrite Hg, Hv, (Z.eqb_sym i (visible k)).
    destruct (Z.eqb_spec i d) as [Ei|]; destruct (Z.eqb_spec (visible k) i) as [Evi|]; try congruence; cbn; congruence.
Qed.

Lemma switch_terminal_vterm d k : vt_ok (visible k) k -> 0 <= d < 3 ->
  let k' := switch_terminal d k in
  vt_ok d k' /\ visible k' = d /\ cur_terminal k' = cur_terminal k /\ flag_arr k' = flag_arr k /\
  k_faults k' = k_faults k /\ k_pcbs k' = k_pcbs k /\ k_fs k' = k_fs k /\ k_sys k' = k_sys k /\
  page_directory k' = page_directory k /\
  (forall i, enter_flag (get_terminal k' i) = enter_flag (get_terminal k i)) /\
  (forall i, 0 <= i < 3 -> vterm d k' i = vterm (visible k) k i) /\
  k_cpus k' = k_cpus k /\ (forall x, ~ video x -> ld8 (k_mem k') x = ld8 (k_mem k) x) /\
  (forall i, curr_process (get_terminal k' i) = curr_process (get_terminal k i) /\
     save_tss (get_terminal k' i) = save_tss (get_terminal k i)) /\
  pitCount k' = pitCount k /\ pitIntrCount k' = pitIntrCount k.
Proof.
  intros Hok Hd. cbv zeta. destruct (decide (d = visible k)) as [E|Hne].
  { replace (switch_terminal d k) with k; [by rewrite E|].
    unfold switch_terminal. by rewrite E, Z.eqb_refl. }
  assert (Hp : paging_ok 0 k).
  { pose proof (vo_paging _ _ Hok) as H. unfold screen_slot in H. by rewrite Z.eqb_refl in H. }
  pose proof (vo_sched _ _ Hok) as Hs. pose proof (so_length _ Hs). pose proof (so_visible _ Hs).
  destruct (aget_range_Some (terminals k) d) as [td Ed]; [lia|].
  destruct (aget_range_Some (terminals k) (visible k)) as [tv Ev]; [lia|].
  pose proof (switch_terminal_run d td tv k Hs Hp Hd Hne Ed Ev) as Hsw.
  revert Hsw. generalize (switch_terminal d k) as k'. intros k' Hsw.
  pose proof (switched_vcon d td tv k k' Hsw Hs Hd Hne Ed Ev) as Hv.
  destruct Hsw as [Hvis Hcur Hts _ _ Hpg Hsok (Hfa & Hpc & Hfs & Hsy & Hcp & Hfl) Hpd Hout [Hpit1 Hpit2]].
  assert (He : forall i, enter_flag (get_terminal k' i) = enter_flag (get_terminal k i)).
  { intros i. unfold get_terminal. rewrite Hts, aget_aset. destruct (Z.eqb_spec (visible k) i) as [<-|]; [|done].
    cbn [andb]. rewrite (proj2 (in_range_true _ _)) by lia. by rewrite Ev. }
  assert (Hcs : forall i, curr_process (get_terminal k' i) = curr_process (get_terminal k i) /\
    save_tss (get_terminal k' i) = save_tss (get_terminal k i)).
  { intros i. unfold get_terminal. rewrite Hts, aget_aset. destruct (Z.eqb_spec (visible k) i) as [<-|]; [|done].
    cbn [andb]. rewrite (proj2 (in_range_true _ _)) by lia. by rewrite Ev. }
  destruct (vt_ok_ext (visible k) k d k' Hok Hsok Hd) as [H1 H2]; [|by intros; apply Hv..|by split_and!].
  unfold screen_slot. by rewrite Hvis, Z.eqb_refl.
Qed.

(** C15: showing another terminal changes no terminal: the screen, the position,
    the line being typed and the history of each of the three are the same
    before and after, only the displayed one is another. *)
Theorem switch_terminal_preserves d k : vt_ok (visible k) k -> 0 <= d < 3 ->
  let k' := switch_terminal d k in
  vt_ok d k' /\ visible k' = d /\
  (forall i, 0 <= i < 3 -> vterm d k' i = vterm (visible k) k i).
Proof. intros Hok Hd. destruct (switch_terminal_vterm d k Hok Hd) as (H1 & H2 & _ & _ & _ & _ & _ & _ & _ & _ & H3 & _). auto. Qed.

(** ** Lending the console *)

Definition at_pos (x y : Z) (t : terminal_t) : terminal_t := with_t_screen_y y (with_t_screen_x x t).

(** Recording the position of terminal [v]. *)
Lemma save_pos_eq v t k : aget (terminals k) v = Some t ->
  let k1 := upd_terminal v (with_t_screen_x (u8 (get_screen_x k))) k in
  upd_terminal v (with_t_screen_y (u8 (get_screen_y k1))) k1
  = put_term v (at_pos (u8 (screen_x k)) (u8 (screen_y k)) t) k.
Proof.
  intros E. cbv zeta. pose proof (aget_Some_range _ _ _ E). rewrite (upd_terminal_put v _ t k E).
  by rewrite upd_put_term by done.
Qed.

(** A position moved from the globals to the record of [c], and the one of [d]
    the other way round. *)
Definition swap_pos (c d : Z) (tc : terminal_t) (k : kernel) : kernel :=
  let k1 := put_term c (at_pos (screen_x k) (screen_y k) tc) k in
  set_screenxy (t_screen_x (get_terminal k1 d)) (t_screen_y (get_terminal k1 d)) k1.

Lemma swap_pos_vpos c d tc k : sched_ok k -> aget (terminals k) c = Some tc ->
  forall i, vpos d (swap_pos c d tc k) i = vpos c k i.
Proof.
  intros Hs Ec i. pose proof (aget_Some_range _ _ _ Ec) as Hc. unfold swap_pos. set (k1 := put_term _ _ _).
  assert (Hg : forall j, get_terminal k1 j =
    if c =? j then at_pos (screen_x k) (screen_y k) tc else get_terminal k j)
    by (intros; by apply get_put_term).
  unfold vpos. change (get_terminal (set_screenxy _ _ k1) i) with (get_terminal k1 i).
  cbn [screen_x screen_y k_con set_screenxy set_screen_x set_screen_y with_k_con].
  rewrite !Hg, (Z.eqb_sym i c). destruct (Z.eqb_spec i d) as [->|].
  - by destruct (c =? d).
  - by destruct (c =? i).
Qed.

Lemma swap_pos_sched c d tc k : sched_ok k -> aget (terminals k) c = Some tc -> 0 <= d < 3 ->
  sched_ok (swap_pos c d tc k).
Proof.
  intros Hs Ec Hd. pose proof (aget_Some_range _ _ _ Ec) as Hc. pose proof Hs as [L T V A B].
  pose proof (T c tc Ec) as (T1 & T2 & T3 & T4).
  assert (Hg : forall i t, aget (terminals (put_term c (at_pos (screen_x k) (screen_y k) tc) k)) i = Some t ->
    video_buffer t = vbuf i /\ length (t_buf_kb t) = 128%nat /\ length (prev_buf t) = 128%nat /\
    editor_bytes (t_screen_x t) (t_screen_y t) (t_curr_idx t) (t_num_chars t) (t_save_x t)
      (t_save_y t) (t_prev_num_chars t)).
  { intros i t. unfold put_term. cbn. rewrite aget_aset. destruct (Z.eqb_spec c i) as [<-|]; cbn [andb].
    - rewrite (proj2 (in_range_true _ _)) by lia. intros [= <-]. cbn.
      split_and!; [done..|]. unfold editor_bytes in *. lia.
    - apply T. }
  split; cbn -[editor_bytes get_terminal].
  - by rewrite length_aset.
  - exact Hg.
  - done.
  - done.
  - destruct (aget_range_Some (terminals (put_term c (at_pos (screen_x k) (screen_y k) tc) k)) d)
      as [t Et]; [unfold put_term; cbn; rewrite length_aset; lia|].
    unfold get_terminal. rewrite Et. cbn [default id]. destruct (Hg d t Et) as (_ & _ & _ & H).
    unfold editor_bytes in *. lia.
Qed.

Lemma swap_pos_ved c d tc k i : aget (terminals k) c = Some tc ->
  ved (swap_pos c d tc k) i = ved k i.
Proof.
  intros Ec. pose proof (aget_Some_range _ _ _ Ec) as Hc. unfold ved, swap_pos.
  change (get_terminal (set_screenxy _ _ ?k1) i) with (get_terminal k1 i).
  rewrite (get_put_term c _ k i) by done. cbn -[get_terminal]. destruct (Z.eqb_spec c i) as [<-|]; [|done].
  unfold get_terminal. by rewrite Ec.
Qed.

(** Moving the console from terminal [c] to terminal [d] and redirecting VIDEO
    accordingly changes no terminal. *)
Lemma swap_pos_ok c d tc s k : vt_ok c k -> aget (terminals k) c = Some tc -> 0 <= d < 3 ->
  s = screen_slot d k ->
  let k' := map_video_page s (swap_pos c d tc k) in
  vt_ok d k' /\ (forall i, 0 <= i < 3 -> vterm d k' i = vterm c k i).
Proof.
  intros Hok Ec Hd ->. cbv zeta. pose proof (vo_sched _ _ Hok) as Hs.
  pose proof (swap_pos_sched c d tc k Hs Ec Hd) as Hs'.
  pose proof (swap_pos_vpos c d tc k Hs Ec) as Hv.
  pose proof (fun i => swap_pos_ved c d tc k i Ec) as He.
  assert (Ef : k_mem (swap_pos c d tc k) = k_mem k /\ k_pg (swap_pos c d tc k) = k_pg k /\
    visible (swap_pos c d tc k) = visible k) by done.
  revert Hs' Hv He Ef. generalize (swap_pos c d tc k) as k1. intros k1 Hs' Hv He (Em & Ep & Ev).
  apply vt_ok_ext; try done.
  - by apply (sched_ok_ext k1); try done; destruct Hs' as [_ _ _ _ Hb]; unfold editor_bytes in Hb; cbn; lia.
  - change (screen_slot d (map_video_page (screen_slot d k) k1)) with (screen_slot d k1).
    unfold screen_slot at 1. rewrite Ev. fold (screen_slot d k). apply (map_video_page_ok (screen_slot c k)).
    + rewrite Ep. apply Hok.
    + unfold screen_slot. destruct (d =? visible k); lia.
  - intros i Hi. unfold vcon. change (vpos d (map_video_page (screen_slot d k) k1) i) with (vpos d k1 i).
    rewrite Hv. change (k_mem (map_video_page (screen_slot d k) k1)) with (k_mem k1). rewrite Em.
    f_equal. unfold vpage. by rewrite <- Ev.
  - intros i Hi. by rewrite <- He.
Qed.

(** A change of the state that no terminal notices. *)
Lemma vt_same c k k' : vt_ok c k -> k_mem k' = k_mem k -> k_pg k' = k_pg k -> k_sch k' = k_sch k ->
  k_con k' = k_con k -> (forall i, ved k' i = ved k i) -> 0 <= save_x k' < 256 -> 0 <= save_y k' < 256 ->
  vt_ok c k' /\ (forall i, 0 <= i < 3 -> vterm c k' i = vterm c k i).
Proof.
  intros Hok Em Ep Es Ec He Hx Hy. apply vt_ok_ext; try done; [|apply Hok| |].
  - pose proof (vo_sched _ _ Hok) as [L T V A B]. specialize (He (visible k)). unfold ved in He.
    rewrite Es, Z.eqb_refl in He. injection He as E1 E2 E3 E4 E5.
    split; rewrite ?Es, ?Ec, ?E1, ?E2, ?E3, ?E4, ?E5; try done. unfold editor_bytes in *. lia.
  - unfold screen_slot. rewrite Es, Ep. apply Hok.
  - intros i Hi. unfold vcon, vpos, vpage, get_terminal. by rewrite Em, Ec, Es.
Qed.

(** The fields of a terminal's record that hold its screen and its line. *)
Definition face (t : terminal_t) := (video_buffer t, editor_of t).

(** A change of the state that leaves the terminals' faces, the screen memory
    and the console's page: what the scheduler and execute do. *)
Lemma vt_quiet c k k' : vt_ok c k ->
  (forall x, video x -> ld8 (k_mem k') x = ld8 (k_mem k) x) -> k_con k' = k_con k -> k_kb k' = k_kb k ->
  visible k' = visible k -> length (terminals k') = 3%nat ->
  (forall i t', aget (terminals k') i = Some t' -> exists t, aget (terminals k) i = Some t /\ face t' = face t) ->
  paging_ok (screen_slot c k) k' ->
  vt_ok c k' /\ (forall i, 0 <= i < 3 -> vterm c k' i = vterm c k i).
Proof.
  intros Hok Em Ec Ek Ev El Ht Hp. pose proof (vo_sched _ _ Hok) as [L T V A B].
  assert (Hg : forall i, 0 <= i < 3 -> face (get_terminal k' i) = face (get_terminal k i)).
  { intros i Hi. destruct (aget_range_Some (terminals k') i) as [t' Et']; [lia|].
    destruct (Ht i t' Et') as (t & Et & Ef). unfold get_terminal. by rewrite Et', Et. }
  apply (vt_ok_ext c k); [exact Hok| |apply Hok|unfold screen_slot; rewrite Ev; exact Hp| |].
  - split; rewrite ?Ek, ?Ec, ?Ev; try done. intros i t' Et'. destruct (Ht i t' Et') as (t & Et & Ef).
    unfold face, editor_of in Ef. injection Ef as E0 E1 E2 E3 E4 E5 E6 E7 E8 E9.
    rewrite E0, E1, E2, E3, E4, E5, E6, E7, E8, E9. by apply T.
  - intros i Hi. specialize (Hg i Hi). unfold face, editor_of in Hg.
    injection Hg as E0 E1 E2 E3 E4 E5 E6 E7 E8 E9. unfold vcon, vpos. rewrite Ec, E1, E2. f_equal.
    apply vcells_ext. intros x Hx. unfold vpage. rewrite Ev.
    apply Em. unfold video, span, vbuf, VIDEO. bdestr; lia.
  - intros i Hi. specialize (Hg i Hi). unfold face, editor_of in Hg.
    injection Hg as E0 E1 E2 E3 E4 E5 E6 E7 E8 E9. unfold ved. by rewrite Ek, Ev, E3, E4, E7, E8, E9.
Qed.

(** Replacing a record by one with the same face. *)
Lemma face_put_term c t t' k : aget (terminals k) c = Some t -> face t' = face t ->
  forall i u, aget (terminals (put_term c t' k)) i = Some u ->
  exists v, aget (terminals k) i = Some v /\ face u = face v.
Proof.
  intros Et Hf i u. unfold put_term. cbn. rewrite aget_aset. destruct (Z.eqb_spec c i) as [<-|]; cbn [andb].
  - rewrite (proj2 (in_range_true _ _)) by (by apply aget_Some_range in Et). intros [= <-]. by exists t.
  - intros E. by exists u.
Qed.

(** Recording a position for the terminal that has it, or for one on which
    nothing is typed. *)
Lemma vt_put_pos c j x y t k : vt_ok c k -> aget (terminals k) j = Some t -> 0 <= x < 80 -> 0 <= y < 25 ->
  (j = c \/ e_num (ved k j) = 0) ->
  let k' := put_term j (at_pos x y t) k in
  vt_ok c k' /\ (forall i, ved k' i = ved k i) /\ (forall i, j = c \/ i <> j -> vterm c k' i = vterm c k i).
Proof.
  intros Hok Et Hx Hy Hj. cbv zeta. pose proof (aget_Some_range _ _ _ Et) as Hr.
  pose proof Hok as [[L T V A B] Hc Hp Hcon Hed].
  assert (Hg : forall i, get_terminal (put_term j (at_pos x y t) k) i = if j =? i then at_pos x y t else get_terminal k i)
    by (intros; by apply get_put_term).
  assert (He : forall i, ved (put_term j (at_pos x y t) k) i = ved k i).
  { intros i. unfold ved. rewrite Hg. change (visible (put_term j (at_pos x y t) k)) with (visible k).
    destruct (Z.eqb_spec j i) as [<-|]; [|done]. unfold get_terminal. by rewrite Et. }
  assert (Hv : forall i, vpos c (put_term j (at_pos x y t) k) i =
    if (i =? c) || negb (j =? i) then vpos c k i else (x, y)).
  { intros i. unfold vpos. rewrite Hg. destruct (i =? c); [done|]. by destruct (j =? i). }
  assert (Hvc : forall i, j = c \/ i <> j -> vcon c (put_term j (at_pos x y t) k) i = vcon c k i).
  { intros i Hi. unfold vcon. rewrite Hv. change (vpage (put_term j (at_pos x y t) k) i) with (vpage k i).
    replace ((i =? c) || negb (j =? i)) with true; [done|]. symmetry. bdestr; cbn; done || lia. }
  assert (Hvj : j <> c -> vcon c (put_term j (at_pos x y t) k) j = mkA (a_cells (vcon c k j)) x y).
  { intros Hne. unfold vcon. rewrite Hv, Z.eqb_refl, (proj2 (Z.eqb_neq _ _) Hne). reflexivity. }
  split_and!; [split| |]; try assumption.
  - split; try assumption; [by unfold put_term; cbn; rewrite length_aset|].
    intros i u. unfold put_term. cbn -[editor_bytes]. rewrite aget_aset. destruct (Z.eqb_spec j i) as [<-|]; cbn [andb]; [|apply T].
    rewrite (proj2 (in_range_true _ _)) by lia. intros [= <-]. pose proof (T _ _ Et) as (T1 & T2 & T3 & T4).
    cbn -[editor_bytes]. split_and!; try assumption. unfold editor_bytes in *. lia.
  - intros i Hi. destruct (decide (j = c \/ i <> j)) as [Hd|Hd]; [rewrite Hvc by done; by apply Hcon|].
    replace i with j by lia. rewrite Hvj by lia. done.
  - intros i Hi. rewrite He. destruct (decide (j = c \/ i <> j)) as [Hd|Hd]; [rewrite Hvc by done; by apply Hed|].
    replace i with j in * by lia. rewrite Hvj by lia. destruct (Hed j Hi) as [H1 H2 H3 H4 H5 H6]. split; try assumption.
    cbn. lia.
  - intros i Hi. unfold vterm. by rewrite Hvc, He.
Qed.

(** ** Boot *)

Lemma vt_ok_cur c k x : vt_ok c k -> vt_ok c (set_cur_terminal x k).
Proof.
  intros Hok. apply (vt_ok_ext c k); [exact Hok| |apply Hok|apply Hok|reflexivity|reflexivity].
  destruct (vo_sched _ _ Hok) as [L T V A B]. by split.
Qed.

Lemma init_terminals_vt k :
  paging_ok 0 k -> length (terminals k) = 3%nat ->
  (forall i t, aget (terminals k) i = Some t ->
     length (t_buf_kb t) = 128%nat /\ length (prev_buf t) = 128%nat) ->
  console_ok k ->
  k_kb k = mkKeyboard 0 0 0 0 (replicate 128 0) 0 (replicate 5 0) (replicate 128 0) ->
  let k' := init_terminals k in
  vt_ok 0 k' /\ visible k' = 0 /\ cur_terminal k' = 2 /\
  forall i, 0 <= i < 3 -> at_line (vterm 0 k' i) = [] /\ at_hist (vterm 0 k' i) = [].
Proof.
  intros Hok Hl Hlens (_ & Hx & Hy) Ekb. cbv zeta.
  assert (Hs : sched_ok (init_terminals k)).
  { apply init_terminals_sched_ok; rewrite ?Ekb; try done. unfold editor_bytes. cbn -[Z.le Z.lt]. lia. }
  destruct (init_terminals_run k Hok Hl Hlens) as (Ht & Hlen & Hv & Hc & _ & _ & Hok' & _ & Ec & Ek).
  revert Hs Ht Hlen Hv Hc Hok' Ec Ek. generalize (init_terminals k) as k'.
  intros k' Hs Ht Hlen Hv Hc Hok' Ec Ek.
  assert (Hg : forall i, 0 <= i < 3 -> exists t, get_terminal k' i = inited_terminal i t).
  { intros i Hi. destruct (aget_range_Some (terminals k) i) as [t E]; [lia|].
    exists (with_video_buffer (vbuf i) t). unfold get_terminal. by rewrite (Ht i t E). }
  assert (He : forall i, 0 <= i < 3 -> ved k' i = mkEd 0 0 (replicate 128 0) 0 (replicate 128 0)).
  { intros i Hi. unfold ved. rewrite Hv, Ek, Ekb. destruct (i =? 0); [done|].
    destruct (Hg i Hi) as [t ->]. reflexivity. }
  assert (Hp : forall i, 0 <= i < 3 -> con_ok (vcon 0 k' i)).
  { intros i Hi. unfold con_ok, vcon, vpos. cbn [a_x a_y]. rewrite Ec. destruct (i =? 0); cbn [fst snd]; [lia|].
    destruct (Hg i Hi) as [t ->]. cbn. lia. }
  split; [split|split; [done|split; [done|]]].
  - exact Hs.
  - lia.
  - unfold screen_slot. by rewrite Hv.
  - exact Hp.
  - intros i Hi. rewrite He by done. specialize (Hp i Hi). unfold con_ok in Hp.
    split; cbn [e_num e_idx e_buf e_prev_num e_prev]; [lia|lia|lia|done| |lia]. split; constructor.
  - intros i Hi. unfold vterm. rewrite He by done. split; reflexivity.
Qed.

(** when the terminals have been set up at boot, each of the three has an
    empty line, an empty history and a position on its screen, and the
    invariant of the virtual terminals holds. *)
Theorem init_terminals_establishes k :
  paging_ok 0 k -> length (terminals k) = 3%nat ->
  (forall i t, aget (terminals k) i = Some t ->
     length (t_buf_kb t) = 128%nat /\ length (prev_buf t) = 128%nat) ->
  console_ok k ->
  k_kb k = mkKeyboard 0 0 0 0 (replicate 128 0) 0 (replicate 5 0) (replicate 128 0) ->
  let k' := init_terminals k in
  vt_ok 0 k' /\ visible k' = 0 /\ cur_terminal k' = 2 /\
  forall i, 0 <= i < 3 -> at_line (vterm 0 k' i) = [] /\ at_hist (vterm 0 k' i) = [].
Proof. apply init_terminals_vt. Qed.

(** ** Witnesses *)

Lemma demo_kb_eq :
  k_kb demo_paged = mkKeyboard 0 0 0 0 (replicate 128 0) 0 (replicate 5 0) (replicate 128 0).
Proof. destruct demo_paged_rest as (_ & -> & _). reflexivity. Qed.

Lemma demo_vt : vt_ok 0 demo_sched.
Proof.
  destruct (init_terminals_vt demo_paged demo_paging_ok demo_terminals_length demo_terminals_lens
    demo_paged_ok demo_kb_eq) as (H & _). exact H.
Qed.

Lemma init_terminals_establishes_witness : cur_terminal (init_terminals demo_paged) = 2.
Proof.
  destruct (init_terminals_establishes demo_paged demo_paging_ok demo_terminals_length demo_terminals_lens
    demo_paged_ok demo_kb_eq) as (_ & _ & H & _). exact H.
Defined.

Lemma switch_terminal_preserves_witness : visible (switch_terminal 1 demo_sched) = 1.
Proof.
  destruct (switch_terminal_preserves 1 demo_sched) as (_ & H & _);
    [rewrite demo_sched_visible; exact demo_vt|lia|exact H].
Defined.
