(* ===== verification/Keyboard.v ===== *)
(** * The keyboard (keyboard.c)

    The interrupt handler of the keyboard: modifier keys, line editing, history
    and terminal switching.  The handler is specified on the logical terminals
    of [Vterm]: a key acts on the visible one, and no other changes. *)

From Stdlib Require Import ZArith Lia.
From Stdlib Require Import String.
From stdpp Require Import base numbers list gmap.
From S2P Require Import Prelude Memory LibStr State Machine I8259 Paging Console Filesys Schedule Terminal Vterm.

Open Scope Z_scope.
Implicit Types k : kernel.

(** ** Constants *)

Definition NUM_CHARACTERS : Z := 0x3B.
Definition KEYBOARD_PORT : Z := 0x60.
Definition BACKSPACE : Z := 0x0E.
Definition ENTER : Z := 0x1C.
Definition CTRL_DOWN : Z := 0x1D.
Definition CTRL_UP : Z := 0x9D.
Definition LSHIFT_DOWN : Z := 0x2A.
Definition LSHIFT_UP : Z := 0xAA.
Definition RSHIFT_DOWN : Z := 0x36.
Definition RSHIFT_UP : Z := 0xB6.
Definition CAPS_DOWN : Z := 0x3A.
Definition L_SCANCODE : Z := 0x26.
Definition UP_DOWN : Z := 0x48.
Definition ALT_DOWN : Z := 0x38.
Definition ALT_UP : Z := 0xB8.
Definition F1 : Z := 0x3B.
Definition F2 : Z := 0x3C.
Definition F3 : Z := 0x3D.
Definition LSHIFTIDX : Z := 0.
Definition RSHIFTIDX : Z := 1.
Definition CTRLIDX : Z := 2.
Definition CAPSIDX : Z := 3.
Definition ALTIDX : Z := 4.
Definition IRQ_KB : Z := 1.
Definition MAXCHAR : Z := 127.

Definition MIDDLEC : Z := 262.
Definition MIDDLEC_S : Z := 277.
Definition MIDDLED : Z := 294.
Definition MIDDLED_S : Z := 311.
Definition MIDDLEE : Z := 330.
Definition MIDDLEF : Z := 349.
Definition MIDDLEF_S : Z := 370.
Definition MIDDLEG : Z := 392.
Definition MIDDLEG_S : Z := 415.
Definition MIDDLEA : Z := 440.
Definition MIDDLEA_S : Z := 466.
Definition MIDDLEB : Z := 493.
Definition HIGHC : Z := 523.
Definition NONOISE : Z := 40000.

(** The four scan-code tables; 34 is the double quote. *)
Definition char_array : list Z :=
  [0; 0] ++ codes "1234567890-=" ++ [0; 0] ++ codes "qwertyuiop[]" ++ [0; 0] ++
  codes "asdfghjkl;'`" ++ [0] ++ codes "\zxcvbnm,./" ++ [0] ++ codes "*" ++ [0] ++ codes " " ++ [0].

Definition char_array_shift_nocap : list Z :=
  [0; 0] ++ codes "!@#$%^&*()_+" ++ [0; 0] ++ codes "QWERTYUIOP{}" ++ [0; 0] ++
  codes "ASDFGHJKL:" ++ [34] ++ codes "~" ++ [0] ++ codes "|ZXCVBNM<>?" ++ [0] ++ codes "*" ++ [0] ++
  codes " " ++ [0].

Definition char_array_shift_cap : list Z :=
  [0; 0] ++ codes "!@#$%^&*()_+" ++ [0; 0] ++ codes "qwertyuiop{}" ++ [0; 0] ++
  codes "asdfghjkl:" ++ [34] ++ codes "~" ++ [0] ++ codes "|zxcvbnm<>?" ++ [0] ++ codes "*" ++ [0] ++
  codes " " ++ [0].

Definition char_array_noshift_cap : list Z :=
  [0; 0] ++ codes "1234567890-=" ++ [0; 0] ++ codes "QWERTYUIOP[]" ++ [0; 0] ++
  codes "ASDFGHJKL;'`" ++ [0] ++ codes "\ZXCVBNM,./" ++ [0] ++ codes "*" ++ [0] ++ codes " " ++ [0].

(** ** State *)

Definition flag (k : kernel) (i : Z) : Z := agetZ (flag_arr k) i.
Definition set_flag (i v : Z) (k : kernel) : kernel := set_flag_arr (aset (flag_arr k) i v) k.

(** [buf_kb[i] = c] *)
Definition store_kb (i c : Z) (k : kernel) : kernel :=
  if in_range (buf_kb k) i then set_buf_kb (aset (buf_kb k) i c) k else log_fault (OobArray i) k.

Definition get_previous_buf (target_buf : list Z) (k : kernel) : list Z :=
  copy_arr BUFFER_SIZE (previous_buf k) target_buf.

(** ** The handler *)

Definition init_keyboard (k : kernel) : kernel :=
  let k := enable_irq IRQ_KB k in
  let k := store_kb MAXCHAR 0 k in
  upd_terminal (visible k) (with_enter_flag 1) k.

(** The console is lent to the visible terminal ... *)
Definition focus_visible (k : kernel) : kernel :=
  let k := upd_terminal (cur_terminal k) (with_t_screen_x (u8 (get_screen_x k))) k in
  let k := upd_terminal (cur_terminal k) (with_t_screen_y (u8 (get_screen_y k))) k in
  let k := set_screenxy (t_screen_x (get_terminal k (visible k)))
             (t_screen_y (get_terminal k (visible k))) k in
  map_video_page 0 k.

(** ... and given back to the scheduled one. *)
Definition focus_scheduled (k : kernel) : kernel :=
  let k := if cur_terminal k =? visible k then map_video_page 0 k
           else map_video_page (u8 (1 + cur_terminal k)) k in
  let k := upd_terminal (visible k) (with_t_screen_x (u8 (get_screen_x k))) k in
  let k := upd_terminal (visible k) (with_t_screen_y (u8 (get_screen_y k))) k in
  set_screenxy (t_screen_x (get_terminal k (cur_terminal k)))
    (t_screen_y (get_terminal k (cur_terminal k))) k.

Definition empty_line (k : kernel) : kernel :=
  let k := set_curr_idx 0 k in
  let k := set_num_chars 0 k in
  set_buf_kb (copy_arr BUFFER_SIZE (replicate 128 0) (buf_kb k)) k.

(** Ctrl-L *)
Definition key_clear (k : kernel) : kernel := empty_line (clear_kb k).

Definition drop_last (k : kernel) : kernel :=
  let k := set_curr_idx (curr_idx k - 1) k in
  set_num_chars (num_chars k - 1) k.

Definition key_backspace (k : kernel) : kernel := drop_last (backspace k).

(** The line becomes the history unless it is empty. *)
Definition save_history (k : kernel) : kernel :=
  if negb (num_chars k =? 0) then
    let k := set_previous_buf (copy_arr BUFFER_SIZE (replicate 128 0) (previous_buf k)) k in
    let k := set_previous_buf (copy_arr (num_chars k) (buf_kb k) (previous_buf k)) k in
    set_previous_num_chars (num_chars k) k
  else k.

Definition finish_line (k : kernel) : kernel :=
  let k := upd_terminal (visible k) (with_enter_flag 0) k in
  let k := set_curr_idx 0 k in
  set_num_chars 0 k.

Definition end_line (k : kernel) : kernel := store_kb (curr_idx k) 10 k.

Definition key_enter (k : kernel) : kernel :=
  let k := end_line (save_history k) in
  finish_line (putc 10 k).

(** The tone of a lower-case key, in the order of the tests. *)
Definition key_beep (c : Z) (k : kernel) : kernel :=
  if c =? 97 then beep MIDDLEC k
  else if c =? 119 then beep MIDDLEC_S k
  else if c =? 115 then beep MIDDLED k
  else if c =? 101 then beep MIDDLED_S k
  else if c =? 100 then beep MIDDLEE k
  else if c =? 102 then beep MIDDLEF k
  else if c =? 116 then beep MIDDLEF_S k
  else if c =? 103 then beep MIDDLEG k
  else if c =? 121 then beep MIDDLEG_S k
  else if c =? 104 then beep MIDDLEA k
  else if c =? 117 then beep MIDDLEA_S k
  else if c =? 106 then beep MIDDLEB k
  else if c =? 107 then beep HIGHC k
  else k.

Definition append_char (c : Z) (k : kernel) : kernel :=
  let k := store_kb (curr_idx k) c k in
  let k := set_curr_idx (curr_idx k + 1) k in
  set_num_chars (num_chars k + 1) k.

(** Echo a character and append it to the line. *)
Definition key_append (c : Z) (k : kernel) : kernel := append_char c (putc c k).

Definition key_char (scanCode : Z) (k : kernel) : kernel :=
  let k := if name_len (buf_kb k) =? 0
           then set_save_y (get_screen_y k) (set_save_x (get_screen_x k) k) else k in
  if negb (flag k LSHIFTIDX =? 0) || negb (flag k RSHIFTIDX =? 0) then
    if negb (flag k CAPSIDX =? 0) then
      let output_to_display := agetZ char_array_shift_cap scanCode in
      if negb (output_to_display =? 0) then key_append output_to_display k else k
    else
      let output_to_display := agetZ char_array_shift_nocap scanCode in
      if negb (output_to_display =? 0) then key_append output_to_display k else k
  else if negb (flag k CAPSIDX =? 0) then
    let output_to_display := agetZ char_array_noshift_cap scanCode in
    if negb (output_to_display =? 0) then key_append output_to_display k else k
  else
    let output_to_display := agetZ char_array scanCode in
    if negb (output_to_display =? 0)
    then key_append output_to_display (key_beep output_to_display k) else k.

(** A key released: no noise. *)
Definition note_released (scanCode : Z) : bool :=
  ((0x9E <=? scanCode) && (scanCode <=? 0xA5)) || (scanCode =? 0x91) || (scanCode =? 0x92) ||
  ((0x94 <=? scanCode) && (scanCode <=? 0x96)).

(** The chain of tests after the switch. *)
Definition key_action (scanCode : Z) (k : kernel) : kernel :=
  if negb (flag k CTRLIDX =? 0) && (scanCode =? L_SCANCODE) then key_clear k
  else if (scanCode =? BACKSPACE) && negb (curr_idx k =? 0) then key_backspace k
  else if scanCode =? ENTER then key_enter k
  else if ((scanCode =? F1) || (scanCode =? F2) || (scanCode =? F3)) && negb (flag k ALTIDX =? 0)
  then switch_terminal (u8 (scanCode - F1)) k
  else if (num_chars k <? MAXCHAR) && ((0 <? scanCode) && (scanCode <? NUM_CHARACTERS))
  then key_char scanCode k
  else if note_released scanCode then beep NONOISE k
  else k.

(** [while (get_screen_x() != save_x && get_screen_y() != save_y) backspace();] *)
Fixpoint erase_line (fuel : nat) (k : kernel) : option kernel :=
  if negb (get_screen_x k =? save_x k) && negb (get_screen_y k =? save_y k) then
    match fuel with
    | O => None
    | S f => erase_line f (backspace k)
    end
  else Some k.

(** The up key: the previous line replaces the current one.  The line is
    printed as a format; [stk] are the words printf finds above it. *)
Definition key_up (fuel : nat) (stk : Z -> Z) (k : kernel) : option kernel :=
  let k := focus_visible k in
  match erase_line fuel k with
  | None => None
  | Some k =>
      let k := set_buf_kb (copy_arr BUFFER_SIZE (previous_buf k) (buf_kb k)) k in
      let k := set_num_chars (previous_num_chars k) k in
      let k := set_curr_idx (num_chars k) k in
      '(_, k) ← printf fuel (lit (buf_kb k)) stk k;
      Some (send_eoi IRQ_KB (focus_scheduled k))
  end.

Definition keyboard_handler (fuel : nat) (stk : Z -> Z) (k : kernel) : option kernel :=
  let k := cli k in
  let '(scanCode, k) := inb KEYBOARD_PORT k in
  let eoi k := Some (send_eoi IRQ_KB k) in
  if scanCode =? LSHIFT_DOWN then eoi (set_flag LSHIFTIDX 1 k)
  else if scanCode =? LSHIFT_UP then eoi (set_flag LSHIFTIDX 0 k)
  else if scanCode =? RSHIFT_DOWN then eoi (set_flag RSHIFTIDX 1 k)
  else if scanCode =? RSHIFT_UP then eoi (set_flag RSHIFTIDX 0 k)
  else if scanCode =? CTRL_DOWN then eoi (set_flag CTRLIDX (s32 (flag k CTRLIDX + 1)) k)
  else if scanCode =? CTRL_UP then eoi (set_flag CTRLIDX (s32 (flag k CTRLIDX - 1)) k)
  else if scanCode =? CAPS_DOWN then
    eoi (if negb (flag k CAPSIDX =? 0) then set_flag CAPSIDX 0 k else set_flag CAPSIDX 1 k)
  else if scanCode =? UP_DOWN then key_up fuel stk k
  else if scanCode =? ALT_DOWN then eoi (set_flag ALTIDX (s32 (flag k ALTIDX + 1)) k)
  else if scanCode =? ALT_UP then eoi (set_flag ALTIDX (s32 (flag k ALTIDX - 1)) k)
  else
    let k := focus_visible k in
    let k := key_action scanCode k in
    let k := focus_scheduled k in
    eoi k.

(** ** What the handler leaves alone *)

Record hd_frame (k k' : kernel) : Prop := {
  hf_cur : cur_terminal k' = cur_terminal k;
  hf_faults : k_faults k' = k_faults k;
  hf_pcbs : k_pcbs k' = k_pcbs k;
  hf_fs : k_fs k' = k_fs k;
  hf_sys : k_sys k' = k_sys k;
  hf_pd : page_directory k' = page_directory k;
}.

#[export] Instance hd_frame_preorder : PreOrder hd_frame.
Proof. split; [done|]. intros k1 k2 k3 [? ? ? ? ? ?] [? ? ? ? ? ?]. split; congruence. Qed.

Lemma hd_frame_con k k' : con_frame k k' -> hd_frame k k'.
Proof. intros H. split; by rewrite H. Qed.

Lemma focus_visible_eq tc k : sched_ok k -> aget (terminals k) (cur_terminal k) = Some tc ->
  focus_visible k = map_video_page 0 (swap_pos (cur_terminal k) (visible k) tc k).
Proof.
  intros Hs Ec. pose proof (so_bytes _ Hs) as Hb. unfold editor_bytes in Hb. unfold focus_visible.
  pose proof (save_pos_eq (cur_terminal k) tc k Ec) as H. cbv zeta in H. cbv zeta.
  replace (cur_terminal (upd_terminal (cur_terminal k) (with_t_screen_x (u8 (get_screen_x k))) k))
    with (cur_terminal k) by (symmetry; apply upd_terminal_frame).
  rewrite H. by rewrite !u8_small by lia.
Qed.

Lemma focus_visible_ok k : vt_ok (cur_terminal k) k ->
  let k' := focus_visible k in
  vt_ok (visible k) k' /\ (forall i, 0 <= i < 3 -> vterm (visible k) k' i = vterm (cur_terminal k) k i) /\
  visible k' = visible k /\ k_kb k' = k_kb k /\ hd_frame k k' /\
  (forall i, enter_flag (get_terminal k' i) = enter_flag (get_terminal k i)).
Proof.
  intros Hok. pose proof (vo_sched _ _ Hok) as Hs. pose proof (vo_owner _ _ Hok) as Hc.
  pose proof (so_length _ Hs). pose proof (so_visible _ Hs).
  destruct (aget_range_Some (terminals k) (cur_terminal k)) as [tc Ec]; [lia|]. cbv zeta.
  rewrite (focus_visible_eq tc) by done.
  destruct (swap_pos_ok (cur_terminal k) (visible k) tc 0 k Hok Ec) as [H1 H2]; [done| |].
  { unfold screen_slot. by rewrite Z.eqb_refl. }
  split_and!; try done. intros i. unfold swap_pos, get_terminal. cbn.
  rewrite aget_aset. destruct (Z.eqb_spec (cur_terminal k) i) as [<-|]; cbn [andb]; [|done].
  rewrite (proj2 (in_range_true _ _)) by lia. by rewrite Ec.
Qed.

Lemma focus_scheduled_eq tv k : sched_ok k -> 0 <= cur_terminal k < 3 ->
  aget (terminals k) (visible k) = Some tv ->
  focus_scheduled k =
  map_video_page (screen_slot (cur_terminal k) k) (swap_pos (visible k) (cur_terminal k) tv k).
Proof.
  intros Hs Hc Ev. pose proof (so_bytes _ Hs) as Hb. unfold editor_bytes in Hb. unfold focus_scheduled.
  assert (E : (if cur_terminal k =? visible k then map_video_page 0 k
    else map_video_page (u8 (1 + cur_terminal k)) k) = map_video_page (screen_slot (cur_terminal k) k) k).
  { unfold screen_slot. rewrite u8_small by lia. by destruct (cur_terminal k =? visible k). }
  rewrite E. set (k1 := map_video_page _ k). clear E. cbv zeta.
  replace (visible (upd_terminal (visible k1) (with_t_screen_x (u8 (get_screen_x k1))) k1))
    with (visible k1) by (unfold upd_terminal; by destruct (aget _ _)).
  pose proof (save_pos_eq (visible k1) tv k1 Ev) as H. cbv zeta in H. rewrite H.
  change (screen_x k1) with (screen_x k). change (screen_y k1) with (screen_y k).
  by rewrite !u8_small by lia.
Qed.

Lemma focus_scheduled_ok k : vt_ok (visible k) k -> 0 <= cur_terminal k < 3 ->
  let k' := focus_scheduled k in
  vt_ok (cur_terminal k) k' /\ (forall i, 0 <= i < 3 -> vterm (cur_terminal k) k' i = vterm (visible k) k i) /\
  visible k' = visible k /\ k_kb k' = k_kb k /\ hd_frame k k' /\
  (forall i, enter_flag (get_terminal k' i) = enter_flag (get_terminal k i)).
Proof.
  intros Hok Hc. pose proof (vo_sched _ _ Hok) as Hs. pose proof (vo_owner _ _ Hok).
  pose proof (so_length _ Hs). destruct (aget_range_Some (terminals k) (visible k)) as [tv Ev]; [lia|].
  cbv zeta. rewrite (focus_scheduled_eq tv) by done.
  destruct (swap_pos_ok (visible k) (cur_terminal k) tv (screen_slot (cur_terminal k) k) k Hok Ev) as [H1 H2];
    [done..|].
  split_and!; try done. intros i. unfold swap_pos, get_terminal. cbn.
  rewrite aget_aset. destruct (Z.eqb_spec (visible k) i) as [<-|]; cbn [andb]; [|done].
  rewrite (proj2 (in_range_true _ _)) by lia. by rewrite Ev.
Qed.

(** ** Editing the visible terminal *)

(** Two sets of terminals that agree but for the flag the reader waits on. *)
Definition terms_same (k k' : kernel) : Prop :=
  length (terminals k') = length (terminals k) /\
  forall i, 0 <= i < 3 -> exists f, get_terminal k' i = with_enter_flag f (get_terminal k i).

Lemma terms_same_refl k k' : k_sch k' = k_sch k -> terms_same k k'.
Proof.
  intros E. unfold terms_same, get_terminal. rewrite E. split; [done|]. intros i _.
  exists (enter_flag (default default_terminal (aget (terminals k) i))).
  by destruct (default default_terminal (aget (terminals k) i)).
Qed.

(** The editor globals after a key, as the invariant wants them. *)
Lemma sched_ok_edit k k' : sched_ok k -> terms_same k k' -> visible k' = visible k ->
  (forall i, 0 <= i < 3 -> video_buffer (get_terminal k i) = vbuf i) ->
  length (buf_kb k') = 128%nat -> length (previous_buf k') = 128%nat ->
  editor_bytes (screen_x k') (screen_y k') (curr_idx k') (num_chars k') (save_x k') (save_y k')
    (previous_num_chars k') -> sched_ok k'.
Proof.
  intros [L T V A B] [L' H] Ev Hvb H1 H2 H3. split; try done; try lia.
  intros i t Et. pose proof (aget_Some_range _ _ _ Et) as Hi. destruct (H i) as [f Hf]; [lia|].
  destruct (aget_range_Some (terminals k) i) as [t0 E0]; [lia|]. destruct (T i t0 E0) as (T1 & T2 & T3 & T4).
  unfold get_terminal in Hf. rewrite Et, E0 in Hf. cbn in Hf. subst t. done.
Qed.

(** Output on the visible terminal followed by an update of its editor: the
    shape of every key. *)
Lemma run_edit k k1 k2 a : vt_ok (visible k) k -> con_run k k1 a -> scr_frame k k1 ->
  k_mem k2 = k_mem k1 -> k_pg k2 = k_pg k1 -> k_con k2 = k_con k1 ->
  visible k2 = visible k -> terms_same k k2 -> 0 <= save_x k2 < 256 -> 0 <= save_y k2 < 256 ->
  let e := mkEd (num_chars k2) (curr_idx k2) (buf_kb k2) (previous_num_chars k2) (previous_buf k2) in
  ed_ok e a ->
  vt_ok (visible k) k2 /\
  (forall i, 0 <= i < 3 -> vterm (visible k) k2 i =
     if i =? visible k then mkT a (ed_line e) (ed_hist e) else vterm (visible k) k i).
Proof.
  intros Hok Hr Hf Em Ep Ec Ev Ht Hsx Hsy e He. pose proof (vo_sched _ _ Hok) as Hs.
  pose proof (vcon_run _ k k1 a Hok Hr Hf) as Hv. pose proof (cr_frame _ _ _ Hr) as Hfr.
  assert (Es : k_sch k1 = k_sch k) by (by rewrite Hfr).
  destruct (cr_ok _ _ _ Hr) as (_ & Hx & Hy).
  assert (Ha : con_ok a) by (rewrite <- (cr_abs _ _ _ Hr); done).
  assert (Hcon : forall i, 0 <= i < 3 -> vcon (visible k) k2 i = if i =? visible k then a else vcon (visible k) k i).
  { intros i Hi. rewrite <- Hv by done. unfold vcon, vpos, vpage. rewrite Em, Ec, Ev, Es.
    destruct Ht as [_ Ht]. destruct (Ht i Hi) as [f ->].
    by replace (get_terminal k1 i) with (get_terminal k i) by (unfold get_terminal; by rewrite Es). }
  assert (Hed : forall i, 0 <= i < 3 -> ved k2 i = if i =? visible k then e else ved k i).
  { intros i Hi. unfold ved. rewrite Ev. destruct (i =? visible k); [done|].
    destruct Ht as [_ Ht]. by destruct (Ht i Hi) as [f ->]. }
  split; [split|].
  - destruct He as [H1 H2 H3 [H4 H5] _ _]. cbn in *. apply (sched_ok_edit k); try done.
    + intros i Hi. destruct (aget_range_Some (terminals k) i) as [t E]; [pose proof (so_length _ Hs); lia|].
      unfold get_terminal. rewrite E. by apply (so_terms _ Hs).
    + rewrite Ec. unfold editor_bytes. lia.
  - apply Hok.
  - unfold screen_slot. rewrite Ev, Ep, (sf_pg _ _ Hf). apply Hok.
  - intros i Hi. rewrite Hcon by done. destruct (i =? visible k); [done|by apply Hok].
  - intros i Hi. rewrite Hcon, Hed by done. destruct (i =? visible k); [done|by apply Hok].
  - intros i Hi. unfold vterm. rewrite Hcon, Hed by done. by destruct (i =? visible k).
Qed.

(** The case of an update of keyboard.c's globals alone. *)
Lemma run_edit_kb k k1 (K : keyboard) a : vt_ok (visible k) k -> con_run k k1 a -> scr_frame k k1 ->
  0 <= save_x K < 256 -> 0 <= save_y K < 256 ->
  let e := mkEd (num_chars K) (curr_idx K) (buf_kb K) (previous_num_chars K) (previous_buf K) in
  ed_ok e a ->
  vt_ok (visible k) (with_k_kb K k1) /\
  (forall i, 0 <= i < 3 -> vterm (visible k) (with_k_kb K k1) i =
     if i =? visible k then mkT a (ed_line e) (ed_hist e) else vterm (visible k) k i).
Proof.
  intros Hok Hr Hf Hsx Hsy e He. pose proof (cr_frame _ _ _ Hr) as Hfr.
  assert (Es : k_sch k1 = k_sch k) by (by rewrite Hfr).
  apply (run_edit k k1 (with_k_kb K k1) a Hok Hr Hf eq_refl eq_refl eq_refl); [|by apply terms_same_refl|done..].
  change (visible k1 = visible k). by rewrite Es.
Qed.

(** ** What a key means *)

Inductive akey :=
  | KChar (c : Z)
  | KBack
  | KEnter
  | KClear
  | KShow (d : Z)
  | KNone.

Definition blank_console : aconsole := mkA (replicate 2000 blank) 0 0.

(** Its effect on the terminal it is typed at. *)
Definition abs_key (key : akey) (t : aterm) : aterm :=
  match key with
  | KChar c =>
      if (length (at_line t) <? 127)%nat
      then mkT (abs_putc (at_con t) c) (at_line t ++ [c]) (at_hist t) else t
  | KBack =>
      match at_line t with
      | [] => t
      | l => mkT (abs_backspace (at_con t)) (removelast l) (at_hist t)
      end
  | KEnter =>
      mkT (abs_putc (at_con t) 10) [] (match at_line t with [] => at_hist t | l => l end)
  | KClear => mkT blank_console [] (at_hist t)
  | KShow _ | KNone => t
  end.

(** The US keyboard: the rows of keys by their first scan code. *)
Definition key_rows : list (Z * list Z) :=
  [(0x02, codes "1234567890-="); (0x10, codes "qwertyuiop[]"); (0x1E, codes "asdfghjkl;'`");
   (0x2B, codes "\zxcvbnm,./"); (0x37, codes "*"); (0x39, codes " ")].

Definition us_key (scanCode : Z) : Z :=
  foldr (fun '(first, row) c => if (first <=? scanCode) && (scanCode <? first + Z.of_nat (length row))
    then agetZ row (scanCode - first) else c) 0 key_rows.

Definition letter (c : Z) : bool := (97 <=? c) && (c <=? 122).
Definition upper (c : Z) : Z := c - 32.

(** What Shift makes of a key that is not a letter. *)
Definition shifted : list (Z * Z) :=
  zip (codes "1234567890-=[];'`\,./") (codes "!@#$%^&*()_+{}:" ++ [34] ++ codes "~|<>?").

Definition shift_symbol (c : Z) : Z :=
  match list_find (fun p => p.1 = c) shifted with
  | Some (_, p) => p.2
  | None => c
  end.

(** The character of a key: Shift and Caps Lock each turn a letter to upper case
    and cancel each other, Shift alone decides the other symbols; 0 when the key
    has none. *)
Definition us_char (shift caps : bool) (scanCode : Z) : Z :=
  let c := us_key scanCode in
  if letter c then if xorb shift caps then upper c else c
  else if shift then shift_symbol c else c.

(** The table the handler looks in. *)
Definition key_code (shift caps : bool) (scanCode : Z) : Z :=
  agetZ (if shift then if caps then char_array_shift_cap else char_array_shift_nocap
         else if caps then char_array_noshift_cap else char_array) scanCode.

Lemma us_key_out sc : ~ 0 <= sc < 59 -> us_key sc = 0.
Proof.
  intros H. unfold us_key, key_rows. cbn [foldr].
  rewrite !(fun a b => proj2 (andb_false_iff a b)); [reflexivity|..]; cbn [length codes]; bdestr; auto; lia.
Qed.

Lemma key_code_us shift caps sc : key_code shift caps sc = us_char shift caps sc.
Proof.
  destruct (decide (0 <= sc < 59)) as [Hsc|Hsc].
  - assert (H : forallb (fun sc => key_code shift caps sc =? us_char shift caps sc) (seqZ 0 59) = true)
      by (destruct shift, caps; vm_compute; reflexivity).
    apply Z.eqb_eq. apply (proj1 (forallb_forall _ _) H). apply list_elem_of_In, elem_of_seqZ. lia.
  - unfold us_char. rewrite us_key_out by exact Hsc. unfold key_code, agetZ. rewrite (proj2 (aget_None _ _)).
    + by destruct shift.
    + destruct shift, caps; cbn [length app char_array char_array_shift_nocap char_array_shift_cap
        char_array_noshift_cap codes]; cbn; lia.
Qed.

Definition decode (ctrl alt shift caps : bool) (scanCode : Z) : akey :=
  if ctrl && (scanCode =? L_SCANCODE) then KClear
  else if scanCode =? BACKSPACE then KBack
  else if scanCode =? ENTER then KEnter
  else if ((scanCode =? F1) || (scanCode =? F2) || (scanCode =? F3)) && alt then KShow (scanCode - F1)
  else if (0 <? scanCode) && (scanCode <? NUM_CHARACTERS) then
    let c := us_char shift caps scanCode in if c =? 0 then KNone else KChar c
  else KNone.

Definition on (k : kernel) (i : Z) : bool := negb (flag k i =? 0).

Definition decode_key (k : kernel) (scanCode : Z) : akey :=
  decode (on k CTRLIDX) (on k ALTIDX) (on k LSHIFTIDX || on k RSHIFTIDX) (on k CAPSIDX) scanCode.

(** What a key does to the whole state, given what it means. *)
Record key_done (k : kernel) (key : akey) (k' : kernel) : Prop := {
  kd_ok : vt_ok (visible k') k';
  kd_visible : visible k' = match key with KShow d => d | _ => visible k end;
  kd_terms : forall i, 0 <= i < 3 -> vterm (visible k') k' i =
    if i =? visible k then abs_key key (vterm (visible k) k i) else vterm (visible k) k i;
  kd_flags : flag_arr k' = flag_arr k;
  kd_enter : forall i, 0 <= i < 3 -> enter_flag (get_terminal k' i) =
    match key with
    | KEnter => if i =? visible k then 0 else enter_flag (get_terminal k i)
    | _ => enter_flag (get_terminal k i)
    end;
  kd_line : key = KEnter -> exists rest,
    buf_kb k' = at_line (vterm (visible k) k (visible k)) ++ 10 :: rest;
  kd_frame : hd_frame k k';
}.

Lemma not_show key (v : Z) : (forall d, key <> KShow d) -> match key with KShow d => d | _ => v end = v.
Proof. intros H. destruct key; try reflexivity. by destruct (H d). Qed.

(** The editor of the visible terminal, in the globals. *)
Lemma ed_visible k : vt_ok (visible k) k ->
  ed_ok (mkEd (num_chars k) (curr_idx k) (buf_kb k) (previous_num_chars k) (previous_buf k)) (abs_console k) /\
  vterm (visible k) k (visible k) =
    mkT (abs_console k) (take (Z.to_nat (num_chars k)) (buf_kb k))
      (take (Z.to_nat (previous_num_chars k)) (previous_buf k)).
Proof.
  intros Hok. pose proof (vo_ed _ _ Hok (visible k) (vo_owner _ _ Hok)) as H.
  unfold vterm. rewrite <- abs_console_vcon in * by apply Hok. unfold ved in *. rewrite Z.eqb_refl in *. done.
Qed.

Lemma length_line k : vt_ok (visible k) k ->
  length (take (Z.to_nat (num_chars k)) (buf_kb k)) = Z.to_nat (num_chars k).
Proof.
  intros Hok. destruct (ed_visible k Hok) as [[H1 _ _ [H4 _] _ _] _]. cbn in *. rewrite length_take. lia.
Qed.

(** Most keys end with an update of keyboard.c's globals alone. *)
Lemma key_done_kb k k1 (K : keyboard) a key : vt_ok (visible k) k -> con_run k k1 a -> scr_frame k k1 ->
  0 <= save_x K < 256 -> 0 <= save_y K < 256 -> flag_arr K = flag_arr k ->
  (forall d, key <> KShow d) -> key <> KEnter ->
  let e := mkEd (num_chars K) (curr_idx K) (buf_kb K) (previous_num_chars K) (previous_buf K) in
  ed_ok e a -> mkT a (ed_line e) (ed_hist e) = abs_key key (vterm (visible k) k (visible k)) ->
  key_done k key (with_k_kb K k1).
Proof.
  intros Hok Hr Hf Hsx Hsy Hfl Hkey Hent e He Hab. pose proof (cr_frame _ _ _ Hr) as Hfr.
  assert (Es : k_sch k1 = k_sch k) by (by rewrite Hfr).
  assert (Ev : visible (with_k_kb K k1) = visible k) by (change (visible k1 = visible k); by rewrite Es).
  destruct (run_edit_kb k k1 K a Hok Hr Hf Hsx Hsy He) as [H1 H2].
  split; rewrite ?Ev; [exact H1|by rewrite not_show| |exact Hfl| |done|].
  - intros i Hi. rewrite H2 by done. destruct (Z.eqb_spec i (visible k)) as [->|]; [exact Hab|done].
  - intros i Hi. replace (get_terminal (with_k_kb K k1) i) with (get_terminal k i)
      by (unfold get_terminal; cbn; by rewrite Es). by destruct key.
  - destruct (hd_frame_con _ _ Hfr). by split.
Qed.

Lemma clear_kb_blank k : mapped k ->
  con_run k (clear_kb k) blank_console /\ linear blank_console = 0.
Proof. intros H. split; [|done]. by apply clear_kb_run. Qed.

Lemma empty_line_ok k k1 a : vt_ok (visible k) k -> con_run k k1 a -> scr_frame k k1 -> linear a = 0 ->
  a = blank_console -> key_done k KClear (empty_line k1).
Proof.
  intros Hok Hr Hf Hl Ea. destruct (ed_visible k Hok) as [[H1 H2 H3 [H4 H5] [_ H6] _] Hv].
  cbn [e_num e_idx e_buf e_prev_num e_prev] in *. unfold linear in Hl.
  pose proof (cr_frame _ _ _ Hr) as Hfr. assert (Ek : k_kb k1 = k_kb k) by (by rewrite Hfr).
  pose proof (so_bytes _ (vo_sched _ _ Hok)) as Hb. unfold editor_bytes in Hb. unfold empty_line.
  change (buf_kb (set_num_chars 0 (set_curr_idx 0 k1))) with (buf_kb k1).
  rewrite Ek, copy_arr_full by done.
  apply (key_done_kb k k1 (mkKeyboard 0 0 (save_x k1) (save_y k1) (previous_buf k1) (previous_num_chars k1)
    (flag_arr k1) (replicate 128 0)) _ KClear Hok Hr Hf);
    cbn [save_x save_y flag_arr num_chars curr_idx buf_kb previous_num_chars previous_buf];
    rewrite ?Ek; [lia|lia|done|done|done| |].
  - split; cbn [e_num e_idx e_buf e_prev_num e_prev]; [lia|done|done| | |lia].
    + split; [by rewrite length_replicate|done].
    + split; [constructor|exact H6].
  - rewrite Hv, Ea. reflexivity.
Qed.

Lemma key_clear_ok k : vt_ok (visible k) k -> key_done k KClear (key_clear k).
Proof.
  intros Hok. destruct (clear_kb_blank k) as (Hr & Hl); [by apply (vt_console_ok _ _ Hok)|].
  exact (empty_line_ok k (clear_kb k) blank_console Hok Hr (scr_frame_clear_kb k) Hl eq_refl).
Qed.

Lemma take_pred {A} (l : list A) n : 0 < n <= Z.of_nat (length l) ->
  removelast (take (Z.to_nat n) l) = take (Z.to_nat (n - 1)) l.
Proof.
  intros Hn. replace (Z.to_nat n) with (S (Z.to_nat (n - 1))) by lia. by rewrite removelast_firstn by lia.
Qed.

Lemma take_ne_nil {A} (l : list A) n : 0 < n <= Z.of_nat (length l) -> exists x r, take (Z.to_nat n) l = x :: r.
Proof.
  intros Hn. destruct (take (Z.to_nat n) l) as [|x r] eqn:E; [|eauto].
  apply (f_equal length) in E. rewrite length_take in E. cbn in E. lia.
Qed.

Lemma abs_backspace_linear a : con_ok a -> 0 < linear a ->
  con_ok (abs_backspace a) /\ linear (abs_backspace a) = linear a - 1.
Proof.
  unfold con_ok, linear, abs_backspace. intros [Hx Hy] Hl.
  destruct (Z.eqb_spec (a_x a) 0); cbn [a_x a_y]; lia.
Qed.

Lemma vt_linear k : vt_ok (visible k) k -> con_ok (abs_console k) /\ num_chars k <= linear (abs_console k).
Proof.
  intros Hok. destruct (vt_console_ok _ _ Hok) as (_ & Hx & Hy). split; [done|].
  destruct (ed_visible k Hok) as [H _]. exact (eo_room _ _ H).
Qed.

Lemma key_backspace_ok k : vt_ok (visible k) k -> curr_idx k <> 0 -> key_done k KBack (key_backspace k).
Proof.
  intros Hok Hi. destruct (ed_visible k Hok) as [[H1 H2 H3 [H4 H5] [H7 H6] _] Hv].
  destruct (vt_linear k Hok) as [Hc Hl]. cbn [e_num e_idx e_buf e_prev_num e_prev] in *.
  assert (Hne : (screen_x k, screen_y k) <> (0, 0)).
  { unfold linear, abs_console in Hl. cbn [a_x a_y] in Hl. intros [= E1 E2]. lia. }
  destruct (backspace_run k (vt_console_ok _ _ Hok) Hne) as [Hr _].
  pose proof (vt_console_ok _ _ Hok) as (_ & Hx & Hy).
  pose proof (scr_frame_backspace k Hx Hy Hne) as Hf. unfold key_backspace.
  revert Hr Hf. generalize (backspace k) as k1. intros k1 Hr Hf. pose proof (cr_frame _ _ _ Hr) as Hfr.
  assert (Ek : k_kb k1 = k_kb k) by (by rewrite Hfr).
  pose proof (so_bytes _ (vo_sched _ _ Hok)) as Hb. unfold editor_bytes in Hb.
  destruct (abs_backspace_linear (abs_console k) Hc ltac:(lia)) as [Hc' Hl'].
  assert (E : ed_line (mkEd (num_chars k - 1) (curr_idx k - 1) (buf_kb k) (previous_num_chars k) (previous_buf k))
    = removelast (take (Z.to_nat (num_chars k)) (buf_kb k))) by (unfold ed_line; cbn; rewrite take_pred by lia; done).
  apply (key_done_kb k k1 (mkKeyboard (num_chars k1 - 1) (curr_idx k1 - 1) (save_x k1) (save_y k1)
    (previous_buf k1) (previous_num_chars k1) (flag_arr k1) (buf_kb k1)) _ KBack Hok Hr Hf);
    cbn [save_x save_y flag_arr num_chars curr_idx buf_kb previous_num_chars previous_buf];
    rewrite ?Ek; [lia|lia|done|done|done| |].
  - split; cbn [e_num e_idx e_buf e_prev_num e_prev]; [lia|lia|done|done| |unfold linear in *; lia].
    split; [|exact H6]. rewrite E. unfold ed_line in H7. cbn in H7. rewrite take_pred by lia.
    eapply Forall_take in H7. rewrite take_take in H7. erewrite Nat.min_l in H7; [exact H7|lia].
  - rewrite Hv, E. unfold abs_key. cbn [at_line at_con at_hist].
    destruct (take_ne_nil (buf_kb k) (num_chars k)) as (x & r & ->); [lia|]. reflexivity.
Qed.

Lemma take_aset_last (l : list Z) n c : 0 <= n < Z.of_nat (length l) ->
  take (Z.to_nat (n + 1)) (aset l n c) = take (Z.to_nat n) l ++ [c].
Proof.
  intros Hn. unfold aset. rewrite (proj2 (in_range_true _ _)) by lia.
  replace (Z.to_nat (n + 1)) with (S (Z.to_nat n)) by lia.
  rewrite (take_S_r _ _ c) by (apply list_lookup_insert_eq; lia). by rewrite take_insert_ge by lia.
Qed.

Lemma key_append_ok c k : vt_ok (visible k) k -> typable c -> num_chars k < 127 ->
  key_done k (KChar c) (key_append c k).
Proof.
  intros Hok Hc Hn. destruct (ed_visible k Hok) as [[H1 H2 H3 [H4 H5] [H7 H6] _] Hv].
  destruct (vt_linear k Hok) as [Hco Hl]. cbn [e_num e_idx e_buf e_prev_num e_prev] in *. unfold typable in Hc.
  destruct (putc_run c k (vt_console_ok _ _ Hok)) as [Hr _]. rewrite u8_small in Hr by lia.
  pose proof (vt_console_ok _ _ Hok) as (_ & Hx & Hy).
  pose proof (scr_frame_putc c k Hx Hy) as Hf. unfold key_append.
  revert Hr Hf. generalize (putc c k) as k1. intros k1 Hr Hf. pose proof (cr_frame _ _ _ Hr) as Hfr.
  assert (Ek : k_kb k1 = k_kb k) by (by rewrite Hfr).
  pose proof (so_bytes _ (vo_sched _ _ Hok)) as Hb. unfold editor_bytes in Hb.
  destruct (abs_putc_room (abs_console k) c Hco) as (_ & _ & Hroom).
  specialize (Hroom ltac:(lia) ltac:(lia)).
  unfold append_char, store_kb. rewrite Ek, (proj2 (in_range_true _ _)) by lia.
  apply (key_done_kb k k1 (mkKeyboard (num_chars k1 + 1) (curr_idx k1 + 1) (save_x k1) (save_y k1)
    (previous_buf k1) (previous_num_chars k1) (flag_arr k1) (aset (buf_kb k) (curr_idx k) c))
    _ (KChar c) Hok Hr Hf);
    cbn [save_x save_y flag_arr num_chars curr_idx buf_kb previous_num_chars previous_buf];
    rewrite ?Ek; [lia|lia|done|done|done| |].
  - split; cbn [e_num e_idx e_buf e_prev_num e_prev]; [lia|lia|done| | |unfold linear in *; lia].
    + rewrite length_aset. auto.
    + split; [|exact H6]. unfold ed_line in *. cbn [e_num e_buf] in *.
      rewrite H2, take_aset_last by lia. apply Forall_app. split; [exact H7|]. by apply Forall_singleton.
  - rewrite Hv. unfold abs_key. cbn [at_line at_con at_hist]. rewrite length_line by done.
    rewrite (proj2 (Nat.ltb_lt _ _)) by lia. unfold ed_line, ed_hist. cbn [e_num e_buf e_prev e_prev_num].
    by rewrite H2, take_aset_last by lia.
Qed.

(** The history and the newline are stored before the newline is echoed. *)
Lemma end_line_ok k : vt_ok (visible k) k ->
  let k0 := end_line (save_history k) in
  exists K, k0 = with_k_kb K k /\ flag_arr K = flag_arr k /\
    num_chars K = num_chars k /\ buf_kb K = aset (buf_kb k) (num_chars k) 10 /\
    vt_ok (visible k) k0 /\
    (forall i, 0 <= i < 3 -> vterm (visible k) k0 i =
       if i =? visible k
       then let t := vterm (visible k) k i in
            mkT (at_con t) (at_line t) (match at_line t with [] => at_hist t | l => l end)
       else vterm (visible k) k i).
Proof.
  intros Hok. destruct (ed_visible k Hok) as [[H1 H2 H3 [H4 H5] [H7 H6] H8] Hv].
  cbn [e_num e_idx e_buf e_prev_num e_prev] in *.
  pose proof (so_bytes _ (vo_sched _ _ Hok)) as Hb. unfold editor_bytes in Hb. cbv zeta.
  set (P := if num_chars k =? 0 then previous_buf k else copy_arr (num_chars k) (buf_kb k) (replicate 128 0)).
  set (PN := if num_chars k =? 0 then previous_num_chars k else num_chars k).
  assert (E : end_line (save_history k) = with_k_kb (mkKeyboard (num_chars k) (curr_idx k) (save_x k) (save_y k)
    P PN (flag_arr k) (aset (buf_kb k) (curr_idx k) 10)) k).
  { unfold P, PN, save_history. destruct (num_chars k =? 0); cbn [negb].
    - unfold end_line, store_kb. rewrite (proj2 (in_range_true _ _)) by lia. reflexivity.
    - unfold end_line, store_kb.
      rewrite (proj2 (in_range_true _ _)) by (cbn [buf_kb curr_idx k_kb with_k_kb set_previous_num_chars
        set_previous_buf]; lia).
      rewrite (copy_arr_full (replicate 128 0)) by done. reflexivity. }
  rewrite E. set (K := mkKeyboard _ _ _ _ _ _ _ _).
  assert (HP : length P = 128%nat /\ 0 <= PN <= 127 /\ take (Z.to_nat PN) P =
    match take (Z.to_nat (num_chars k)) (buf_kb k) with
    | [] => take (Z.to_nat (previous_num_chars k)) (previous_buf k) | l => l end).
  { unfold P, PN. destruct (Z.eqb_spec (num_chars k) 0) as [E0|E0].
    - rewrite E0. split_and!; [exact H5|lia..|reflexivity].
    - destruct (take_ne_nil (buf_kb k) (num_chars k)) as (x & r & Er); [lia|]. rewrite Er.
      unfold copy_arr. rewrite length_app, length_take, length_drop, length_replicate.
      split_and!; [lia..|]. rewrite take_app_le by (rewrite length_take; lia).
      by rewrite take_take, Nat.min_id. }
  destruct HP as (HP1 & HP2 & HP3).
  assert (Et : ed_line (mkEd (num_chars K) (curr_idx K) (buf_kb K) (previous_num_chars K) (previous_buf K))
    = take (Z.to_nat (num_chars k)) (buf_kb k)).
  { unfold ed_line, K. cbn [e_num e_buf num_chars buf_kb]. rewrite H2. unfold aset.
    rewrite (proj2 (in_range_true _ _)) by lia. by rewrite take_insert_ge by lia. }
  assert (HK : ed_ok (mkEd (num_chars K) (curr_idx K) (buf_kb K) (previous_num_chars K) (previous_buf K))
    (abs_console k)).
  { split; [exact H1|exact H2|exact HP2| | |exact H8].
    - cbn [e_buf e_prev K buf_kb previous_buf]. rewrite length_aset. auto.
    - rewrite Et. split; [exact H7|]. unfold ed_hist. cbn [e_prev_num e_prev previous_num_chars previous_buf K].
      rewrite HP3. destruct (take _ (buf_kb k)) eqn:E0; [exact H6|]. rewrite <- E0. exact H7. }
  destruct (run_edit_kb k k K (abs_console k) Hok (con_run_refl k (vt_console_ok _ _ Hok)) ltac:(reflexivity))
    as [R1 R2]; [cbn [save_x K]; lia|cbn [save_y K]; lia|exact HK|].
  exists K. split_and!; [reflexivity|reflexivity|reflexivity|cbn [buf_kb K]; by rewrite H2|exact R1|].
  intros i Hi. rewrite R2 by done. cbv zeta. rewrite Et.
  destruct (Z.eqb_spec i (visible k)) as [->|]; [|reflexivity]. rewrite Hv. cbn [at_con at_line at_hist].
  f_equal. exact HP3.
Qed.

Lemma finish_line_eq tv k : aget (terminals k) (visible k) = Some tv ->
  finish_line k = with_k_kb (mkKeyboard 0 0 (save_x k) (save_y k) (previous_buf k) (previous_num_chars k)
    (flag_arr k) (buf_kb k)) (put_term (visible k) (with_enter_flag 0 tv) k).
Proof. intros E. unfold finish_line. by rewrite (upd_terminal_put _ _ tv k E). Qed.

Lemma finish_line_ok k k1 a : vt_ok (visible k) k -> con_run k k1 a -> scr_frame k k1 -> con_ok a ->
  let k2 := finish_line k1 in
  vt_ok (visible k) k2 /\
  (forall i, 0 <= i < 3 -> vterm (visible k) k2 i =
     if i =? visible k then mkT a [] (at_hist (vterm (visible k) k i)) else vterm (visible k) k i) /\
  visible k2 = visible k /\ buf_kb k2 = buf_kb k /\ flag_arr k2 = flag_arr k /\ hd_frame k k2 /\
  (forall i, 0 <= i < 3 -> enter_flag (get_terminal k2 i) =
     if i =? visible k then 0 else enter_flag (get_terminal k i)).
Proof.
  intros Hok Hr Hf Ha. cbv zeta. destruct (ed_visible k Hok) as [[H1 H2 H3 [H4 H5] [H7 H6] H8] Hv].
  cbn [e_num e_idx e_buf e_prev_num e_prev] in *. pose proof (vo_sched _ _ Hok) as Hs.
  pose proof (so_bytes _ Hs) as Hb. unfold editor_bytes in Hb. pose proof (so_length _ Hs). pose proof (so_visible _ Hs).
  pose proof (cr_frame _ _ _ Hr) as Hfr. assert (Es : k_sch k1 = k_sch k) by (by rewrite Hfr).
  assert (Ek : k_kb k1 = k_kb k) by (by rewrite Hfr).
  destruct (aget_range_Some (terminals k) (visible k)) as [tv Ev]; [lia|].
  rewrite (finish_line_eq tv) by (by rewrite Es). rewrite Ek, Es. set (K := mkKeyboard _ _ _ _ _ _ _ _).
  set (k2 := with_k_kb K _).
  assert (Hg : forall i, 0 <= i < 3 -> get_terminal k2 i =
    with_enter_flag (if i =? visible k then 0 else enter_flag (get_terminal k i)) (get_terminal k i)).
  { intros i Hi. unfold k2. change (get_terminal (with_k_kb K ?x) i) with (get_terminal x i).
    rewrite get_put_term by (rewrite Es; lia).
    replace (get_terminal k1 i) with (get_terminal k i) by (unfold get_terminal; by rewrite Es).
    rewrite (Z.eqb_sym i). destruct (Z.eqb_spec (visible k) i) as [<-|]; [|by destruct (get_terminal k i)].
    unfold get_terminal. by rewrite Ev. }
  assert (HK : ed_ok (mkEd 0 0 (buf_kb k) (previous_num_chars k) (previous_buf k)) a).
  { split; [cbn; lia|done|exact H3|cbn; auto| |cbn [e_num]; unfold con_ok in Ha; lia]. split; [constructor|exact H6]. }
  destruct (run_edit k k1 k2 a Hok Hr Hf eq_refl eq_refl eq_refl) as [R1 R2].
  - unfold k2. change (visible k1 = visible k). by rewrite Es.
  - split; [|intros i Hi; eexists; by apply Hg]. unfold k2. cbn. by rewrite length_aset, Es.
  - cbn [save_x k2 k_kb with_k_kb K]. lia.
  - cbn [save_y k2 k_kb with_k_kb K]. lia.
  - exact HK.
  - split_and!; [exact R1| |change (visible k1 = visible k); by rewrite Es|reflexivity|reflexivity| |].
    + intros i Hi. rewrite R2 by done. destruct (Z.eqb_spec i (visible k)) as [->|]; [|reflexivity].
      rewrite Hv. reflexivity.
    + destruct (hd_frame_con _ _ Hfr). split; unfold k2; done.
    + intros i Hi. rewrite Hg by done. done.
Qed.

Lemma key_enter_ok k : vt_ok (visible k) k -> key_done k KEnter (key_enter k).
Proof.
  intros Hok. destruct (end_line_ok k Hok) as (K & E & Efl & _ & Ebuf & Hok0 & Hvt). cbv zeta in E.
  unfold key_enter. cbv zeta. revert Hok0 Hvt E. generalize (end_line (save_history k)) as k0.
  intros k0 Hok0 Hvt E. assert (Ev : visible k0 = visible k) by (by rewrite E). rewrite <- Ev in Hok0.
  pose proof (vt_console_ok _ _ Hok0) as Hc0. pose proof Hc0 as (_ & Hx & Hy).
  destruct (putc_run 10 k0 Hc0) as [Hr _]. change (u8 10) with 10 in Hr.
  pose proof (scr_frame_putc 10 k0 Hx Hy) as Hf.
  destruct (abs_putc_room (abs_console k0) 10) as (Ha & _ & _); [done|].
  destruct (finish_line_ok k0 (putc 10 k0) _ Hok0 Hr Hf Ha) as (R1 & R2 & R3 & R4 & R5 & R6 & R7).
  revert R1 R2 R3 R4 R5 R6 R7. generalize (finish_line (putc 10 k0)) as k2. intros k2 R1 R2 R3 R4 R5 R6 R7.
  rewrite Ev in *. split.
  - by rewrite R3.
  - done.
  - intros i Hi. rewrite R3, R2 by done. rewrite Hvt by done.
    destruct (Z.eqb_spec i (visible k)) as [->|]; [|reflexivity]. cbv zeta. cbn [at_hist abs_key]. f_equal. f_equal.
    specialize (Hvt (visible k) Hi). rewrite Z.eqb_refl in Hvt. cbv zeta in Hvt.
    apply (f_equal at_con) in Hvt. cbn [at_con] in Hvt. rewrite <- Hvt. rewrite abs_console_vcon with (c := visible k).
    + reflexivity.
    + apply Hok0.
  - rewrite R5, E. exact Efl.
  - intros i Hi. rewrite R7, E by done. done.
  - intros _. destruct (ed_visible k Hok) as [[H1 _ _ [H4 _] _ _] ->]. cbn [e_num e_buf at_line] in *.
    rewrite R4, E. change (buf_kb (with_k_kb K k)) with (buf_kb K). rewrite Ebuf. unfold aset.
    rewrite (proj2 (in_range_true _ _)) by lia. eexists. by rewrite insert_take_drop by lia.
  - etrans; [|exact R6]. rewrite E. by split.
Qed.

(** ** The other effects of a key *)

(** Port traffic and the interrupt masks. *)
Definition only_io (k k' : kernel) : Prop := k' = with_k_pic (k_pic k') (with_k_io (k_io k') k).

#[export] Instance only_io_preorder : PreOrder only_io.
Proof.
  split.
  - by intros [].
  - intros k1 k2 k3 H1 H2. unfold only_io in *. etrans; [exact H2|]. rewrite H1. reflexivity.
Qed.

Lemma only_io_outb d p k : only_io k (outb d p k).
Proof. by destruct k. Qed.

Lemma only_io_inb p k : only_io k (snd (inb p k)).
Proof. by destruct k. Qed.

Lemma only_io_master m k : only_io k (set_master_mask m k).
Proof. by destruct k. Qed.

Lemma only_io_slave m k : only_io k (set_slave_mask m k).
Proof. by destruct k. Qed.

Create HintDb kio.
#[export] Hint Resolve only_io_outb only_io_inb only_io_master only_io_slave : kio.

Ltac only_io_step := repeat (first [reflexivity | etrans; [|solve [eauto 2 with kio]]]).

Lemma only_io_enable_irq n k : only_io k (enable_irq n k).
Proof. unfold enable_irq. destruct (_ <=? _); only_io_step. Qed.

Lemma only_io_send_eoi n k : only_io k (send_eoi n k).
Proof. unfold send_eoi. destruct (_ <=? _); only_io_step. Qed.

Lemma only_io_beep f k : only_io k (beep f k).
Proof.
  unfold beep. destruct (inb SPEAKERPORT _) as [v k1] eqn:E.
  assert (H : only_io k k1).
  { change k1 with (snd (v, k1)). rewrite <- E. etrans; [|apply only_io_inb]. only_io_step. }
  etrans; [|apply only_io_enable_irq]. etrans; [exact H|]. destruct (negb _); only_io_step.
Qed.

(** Two states no terminal of which differs. *)
Record same_terms (c : Z) (k k' : kernel) : Prop := {
  st_ok : vt_ok c k';
  st_visible : visible k' = visible k;
  st_terms : forall i, 0 <= i < 3 -> vterm c k' i = vterm c k i;
  st_flags : flag_arr k' = flag_arr k;
  st_num : num_chars k' = num_chars k;
  st_buf : buf_kb k' = buf_kb k;
  st_enter : forall i, get_terminal k' i = get_terminal k i;
  st_frame : hd_frame k k';
}.

Lemma same_terms_io c k k' : vt_ok c k -> only_io k k' -> same_terms c k k'.
Proof.
  intros Hok H. pose proof (so_bytes _ (vo_sched _ _ Hok)) as Hb. unfold editor_bytes in Hb.
  unfold only_io in H. revert H. generalize (k_pic k') (k_io k'). intros p i ->.
  destruct (vt_same c k (with_k_pic p (with_k_io i k)) Hok) as [H1 H2]; try reflexivity; try (cbn; lia).
  by split.
Qed.

Lemma same_terms_save c k x y : vt_ok c k -> 0 <= x < 256 -> 0 <= y < 256 ->
  same_terms c k (set_save_y y (set_save_x x k)).
Proof.
  intros Hok Hx Hy. destruct (vt_same c k (set_save_y y (set_save_x x k)) Hok) as [H1 H2];
    [reflexivity..|done|done|]. by split.
Qed.

Lemma same_terms_trans c k1 k2 k3 : same_terms c k1 k2 -> same_terms c k2 k3 -> same_terms c k1 k3.
Proof.
  intros [A1 A2 A3 A4 A5 A6 A7 A8] [B1 B2 B3 B4 B5 B6 B7 B8]. split;
    [exact B1|congruence| |congruence|congruence|congruence| |by etrans].
  - intros i Hi. by rewrite B3, A3.
  - intros i. by rewrite B7, A7.
Qed.

Lemma same_terms_refl c k : vt_ok c k -> same_terms c k k.
Proof. intros. by split. Qed.

Lemma key_done_pre k k0 key k' : same_terms (visible k) k k0 -> key_done k0 key k' -> key_done k key k'.
Proof.
  intros [A1 A2 A3 A4 A5 A6 A7 A8] [B1 B2 B3 B4 B5 B6 B7]. split; [exact B1| | |congruence| | |by etrans].
  - rewrite B2. destruct key; congruence.
  - intros i Hi. rewrite B3, A2 by done. by rewrite A3.
  - intros i Hi. by rewrite B5, A2, A7.
  - intros E. rewrite A2 in B6. rewrite <- A3 by (apply A1). by apply B6.
Qed.

Lemma key_done_none k k' : same_terms (visible k) k k' -> key_done k KNone k'.
Proof.
  intros [A1 A2 A3 A4 A5 A6 A7 A8]. split; [by rewrite A2|exact A2| |exact A4| |done|exact A8].
  - intros i Hi. rewrite A2, A3 by done. by destruct (i =? visible k).
  - intros i _. by rewrite A7.
Qed.

Definition code_ok (c : Z) : bool := (c =? 0) || ((32 <=? c) && (c <? 127)).

Lemma key_code_typable shift caps sc : let c := key_code shift caps sc in c = 0 \/ typable c.
Proof.
  cbv zeta. assert (H : forall l, forallb code_ok l = true -> agetZ l sc = 0 \/ typable (agetZ l sc)).
  { intros l Hl. unfold agetZ. destruct (aget l sc) as [c|] eqn:E; [|by left]. cbn.
    rewrite forallb_forall in Hl. unfold aget in E. destruct (in_range l sc); [|done].
    apply list_elem_of_lookup_2, list_elem_of_In, Hl in E. unfold code_ok in E. unfold typable, id.
    destruct (Z.eqb_spec c 0); [by left|]. right. apply andb_prop in E as [?%Z.leb_le ?%Z.ltb_lt]. lia. }
  unfold key_code. apply H. by destruct shift, caps; vm_compute.
Qed.

Lemma only_io_key_beep c k : only_io k (key_beep c k).
Proof. unfold key_beep. repeat (destruct (_ =? _); [apply only_io_beep|]). reflexivity. Qed.

Lemma key_char_ok sc k : vt_ok (visible k) k -> num_chars k < 127 ->
  let c := us_char (on k LSHIFTIDX || on k RSHIFTIDX) (on k CAPSIDX) sc in
  key_done k (if c =? 0 then KNone else KChar c) (key_char sc k) .
Proof.
  intros Hok Hn. cbv zeta. rewrite <- key_code_us. unfold key_char.
  set (k0 := if name_len (buf_kb k) =? 0 then _ else k).
  assert (H0 : same_terms (visible k) k k0).
  { unfold k0. destruct (_ =? 0); [|by apply same_terms_refl].
    pose proof (vt_console_ok _ _ Hok) as (_ & Hx & Hy).
    apply same_terms_save; unfold get_screen_x, get_screen_y; done || lia. }
  clearbody k0. unfold on, flag. rewrite <- (st_flags _ _ _ H0).
  assert (Hk0 : vt_ok (visible k0) k0) by (rewrite (st_visible _ _ _ H0); apply H0).
  assert (Hn0 : num_chars k0 < 127) by (by rewrite (st_num _ _ _ H0)).
  assert (Hgo : forall shift caps k1, same_terms (visible k) k k1 ->
    key_done k (if key_code shift caps sc =? 0 then KNone else KChar (key_code shift caps sc))
      (if negb (key_code shift caps sc =? 0) then key_append (key_code shift caps sc) k1 else k0)).
  { intros shift caps k1 H1. destruct (key_code_typable shift caps sc) as [E|E].
    - rewrite E. cbn [Z.eqb negb]. by apply key_done_none.
    - rewrite (proj2 (Z.eqb_neq _ _)) by (unfold typable in E; lia). cbn [negb].
      eapply key_done_pre; [exact H1|]. apply key_append_ok; [|done|].
      + rewrite (st_visible _ _ _ H1). apply H1.
      + by rewrite (st_num _ _ _ H1). }
  destruct (negb (agetZ (flag_arr k0) LSHIFTIDX =? 0) || negb (agetZ (flag_arr k0) RSHIFTIDX =? 0));
    destruct (negb (agetZ (flag_arr k0) CAPSIDX =? 0)).
  - by apply (Hgo true true k0).
  - by apply (Hgo true false k0).
  - by apply (Hgo false true k0).
  - apply (Hgo false false (key_beep (agetZ char_array sc) k0)).
    eapply same_terms_trans; [exact H0|]. apply same_terms_io; [|apply only_io_key_beep]. apply H0.
Qed.

Lemma key_show_ok d k : vt_ok (visible k) k -> 0 <= d < 3 -> key_done k (KShow d) (switch_terminal d k).
Proof.
  intros Hok Hd. destruct (switch_terminal_vterm d k Hok Hd) as (H1 & H2 & H3 & H4 & H5 & H6 & H7 & H8 & Hpd & He & H9 & _).
  revert H1 H2 H3 H4 H5 H6 H7 H8 Hpd He H9. generalize (switch_terminal d k) as k'. intros.
  split; [by rewrite H2|exact H2| |exact H4|by intros|done|by split].
  intros i Hi. rewrite H2, H9 by done. by destruct (i =? visible k).
Qed.

(** A key that means something else to an empty or a full line. *)
Lemma key_done_abs k key key' k' : (forall d, key <> KShow d) -> (forall d, key' <> KShow d) ->
  key <> KEnter -> key' <> KEnter -> abs_key key (vterm (visible k) k (visible k)) = abs_key key' (vterm (visible k) k (visible k)) ->
  key_done k key k' -> key_done k key' k'.
Proof.
  intros Hk Hk' Hn Hn' E [B1 B2 B3 B4 B5 B6 B7]. split; [exact B1| | |exact B4| |done|exact B7].
  - rewrite B2, !not_show by done. done.
  - intros i Hi. rewrite B3 by done. destruct (Z.eqb_spec i (visible k)) as [->|]; [exact E|done].
  - intros i Hi. rewrite B5 by done. by destruct key, key'.
Qed.

Lemma key_action_ok sc k : vt_ok (visible k) k -> 0 <= sc < 256 ->
  key_done k (decode_key k sc) (key_action sc k).
Proof.
  intros Hok Hsc. destruct (ed_visible k Hok) as [[H1 H2 _ [H4 _] _ _] Hv].
  cbn [e_num e_idx e_buf] in *. unfold decode_key, decode, key_action, on.
  destruct (negb (flag k CTRLIDX =? 0) && (sc =? L_SCANCODE)); [by apply key_clear_ok|].
  assert (Hno : key_done k KNone k) by (by apply key_done_none, same_terms_refl).
  destruct (Z.eqb_spec sc BACKSPACE) as [->|Hb]; cbn [andb].
  { destruct (Z.eqb_spec (curr_idx k) 0) as [E|E]; cbn [negb]; [|by apply key_backspace_ok].
    cbn [Z.eqb Pos.eqb BACKSPACE ENTER F1 F2 F3 orb andb].
    rewrite (proj2 (Z.ltb_lt (num_chars k) MAXCHAR)) by (unfold MAXCHAR; lia). cbn.
    apply (key_done_abs k KNone KBack); [by intros|by intros|done|done| |].
    - rewrite Hv. cbn [abs_key at_line]. by rewrite <- H2, E.
    - pose proof (key_char_ok 14 k Hok ltac:(lia)) as H. cbv zeta in H.
      replace (us_char _ _ 14) with 0 in H; [exact H|]. unfold us_char. change (us_key 14) with 0. by destruct (_ || _). }
  destruct (Z.eqb_spec sc ENTER) as [->|He]; [by apply key_enter_ok|].
  destruct (((sc =? F1) || (sc =? F2) || (sc =? F3)) && negb (flag k ALTIDX =? 0)) eqn:EF.
  { apply andb_prop in EF as [EF _]. unfold F1, F2, F3 in *.
    assert (Hd : 0 <= sc - 0x3B < 3)
      by (apply orb_prop in EF as [EF|EF%Z.eqb_eq]; [apply orb_prop in EF as [EF%Z.eqb_eq|EF%Z.eqb_eq]|]; lia).
    rewrite u8_small by lia. by apply key_show_ok. }
  destruct ((0 <? sc) && (sc <? NUM_CHARACTERS)) eqn:Ech; rewrite ?andb_false_r, ?andb_true_r.
  - destruct (Z.ltb_spec (num_chars k) MAXCHAR) as [Hn|Hn]; [by apply key_char_ok|].
    apply andb_prop in Ech as [?%Z.ltb_lt ?%Z.ltb_lt]. unfold NUM_CHARACTERS, MAXCHAR in *.
    replace (note_released sc) with false
      by (symmetry; unfold note_released; repeat (rewrite orb_false_iff || rewrite andb_false_iff); bdestr; auto; lia).
    destruct (us_char _ _ sc =? 0); [exact Hno|]. apply (key_done_abs k KNone); [by intros|by intros|done|done| |exact Hno].
    rewrite Hv. cbn [abs_key at_line]. rewrite length_line by done. by rewrite (proj2 (Nat.ltb_ge _ _)) by lia.
  - destruct (note_released sc); [|exact Hno]. apply key_done_none, same_terms_io; [done|apply only_io_beep].
Qed.

(** ** The handler *)

(** The scan code the controller delivers. *)
Definition scan_code (k : kernel) : Z := u8 (io_dev k (io_log k) KEYBOARD_PORT).

Definition modifier (sc : Z) : bool :=
  (sc =? LSHIFT_DOWN) || (sc =? LSHIFT_UP) || (sc =? RSHIFT_DOWN) || (sc =? RSHIFT_UP) ||
  (sc =? CTRL_DOWN) || (sc =? CTRL_UP) || (sc =? CAPS_DOWN) || (sc =? ALT_DOWN) || (sc =? ALT_UP).

(** A key that goes through the whole handler. *)
Definition plain_key (sc : Z) : bool := negb (modifier sc || (sc =? UP_DOWN)).

Definition plain_path (k : kernel) : kernel :=
  send_eoi IRQ_KB (focus_scheduled (key_action (scan_code k)
    (focus_visible (snd (inb KEYBOARD_PORT (cli k)))))).

Lemma keyboard_handler_plain fuel stk k : plain_key (scan_code k) = true ->
  keyboard_handler fuel stk k = Some (plain_path k).
Proof.
  unfold plain_key, modifier. intros H. apply negb_true_iff in H.
  repeat (apply orb_false_iff in H as [H ?]).
  unfold keyboard_handler. destruct (inb KEYBOARD_PORT (cli k)) as [sc k1] eqn:E.
  assert (Esc : sc = scan_code k) by (by injection E as <- _). subst sc.
  repeat match goal with H : (_ =? _) = false |- _ => rewrite H; clear H end.
  unfold plain_path. by rewrite E.
Qed.

Lemma same_terms_cpus c k x : vt_ok c k -> same_terms c k (with_k_cpus x k).
Proof.
  intros Hok. pose proof (so_bytes _ (vo_sched _ _ Hok)) as Hb. unfold editor_bytes in Hb.
  destruct (vt_same c k (with_k_cpus x k) Hok) as [H1 H2]; [reflexivity..|cbn; lia|cbn; lia|]. by split.
Qed.

(** What a plain key does, from the interrupt to the return. *)
Record key_handled (k : kernel) (key : akey) (k' : kernel) : Prop := {
  kh_ok : vt_ok (cur_terminal k) k';
  kh_visible : visible k' = match key with KShow d => d | _ => visible k end;
  kh_terms : forall i, 0 <= i < 3 -> vterm (cur_terminal k) k' i =
    if i =? visible k then abs_key key (vterm (cur_terminal k) k i) else vterm (cur_terminal k) k i;
  kh_flags : flag_arr k' = flag_arr k;
  kh_enter : forall i, 0 <= i < 3 -> enter_flag (get_terminal k' i) =
    match key with
    | KEnter => if i =? visible k then 0 else enter_flag (get_terminal k i)
    | _ => enter_flag (get_terminal k i)
    end;
  kh_line : key = KEnter -> exists rest,
    buf_kb k' = at_line (vterm (cur_terminal k) k (visible k)) ++ 10 :: rest;
  kh_frame : hd_frame k k';
}.

Lemma plain_path_ok k : vt_ok (cur_terminal k) k ->
  key_handled k (decode_key k (scan_code k)) (plain_path k).
Proof.
  intros Hok. unfold plain_path. set (c := cur_terminal k) in *. set (k1 := snd (inb _ _)).
  assert (S1 : same_terms c k k1).
  { eapply same_terms_trans; [apply (same_terms_cpus c k (k_cpus (cli k)) Hok)|].
    apply same_terms_io; [|apply (only_io_inb KEYBOARD_PORT (cli k))].
    apply (same_terms_cpus c k (k_cpus (cli k)) Hok). }
  clearbody k1. destruct S1 as [O1 V1 T1 F1' N1 B1 G1 D1].
  assert (C1 : cur_terminal k1 = c) by apply D1. rewrite <- C1 in O1.
  destruct (focus_visible_ok k1 O1) as (O2 & T2 & V2 & K2 & D2 & G2). rewrite <- V2 in O2.
  set (k2 := focus_visible k1) in *. clearbody k2. rewrite C1 in *.
  assert (Edec : decode_key k (scan_code k) = decode_key k2 (scan_code k))
    by (unfold decode_key, on, flag; by rewrite K2, F1').
  rewrite Edec. set (key := decode_key k2 (scan_code k)).
  pose proof (key_action_ok (scan_code k) k2 O2 (u8_range _)) as [O3 V3 T3 F3 G3 L3 D3]. fold key in V3, T3, G3, L3.
  set (k3 := key_action (scan_code k) k2) in *. clearbody k3.
  assert (C3 : cur_terminal k3 = c) by (rewrite (hf_cur _ _ D3), (hf_cur _ _ D2); exact C1).
  destruct (focus_scheduled_ok k3 O3) as (O4 & T4 & V4 & K4 & D4 & G4).
  { rewrite C3. apply Hok. }
  set (k4 := focus_scheduled k3) in *. clearbody k4. rewrite C3 in *.
  destruct (same_terms_io c k4 _ O4 (only_io_send_eoi IRQ_KB k4)) as [O5 V5 T5 F5 N5 B5 G5 D5].
  split.
  - exact O5.
  - rewrite V5, V4, V3. destruct key; congruence.
  - intros i Hi. rewrite T5, T4, T3, V2, V1 by done. rewrite <- V1, T2, T1 by done. done.
  - rewrite F5, K4, F3, K2. exact F1'.
  - intros i Hi. rewrite G5, G4, G3, V2, V1 by done. rewrite G2, G1. done.
  - intros E. rewrite B5, K4. rewrite V2 in L3. rewrite T2, T1, V1 in L3 by (rewrite <- V2; apply O2).
    by apply L3.
  - etrans; [exact D1|]. etrans; [exact D2|]. etrans; [exact D3|]. etrans; [exact D4|exact D5].
Qed.

(** The five modifier flags after a modifier's scan code: the Shifts are set and
    cleared, Ctrl and Alt are counted, Caps Lock toggles. *)
Definition flags_after (sc : Z) (l : list Z) : list Z :=
  if sc =? 0x2A then aset l 0 1 else if sc =? 0xAA then aset l 0 0
  else if sc =? 0x36 then aset l 1 1 else if sc =? 0xB6 then aset l 1 0
  else if sc =? 0x1D then aset l 2 (s32 (agetZ l 2 + 1)) else if sc =? 0x9D then aset l 2 (s32 (agetZ l 2 - 1))
  else if sc =? 0x3A then aset l 3 (if agetZ l 3 =? 0 then 1 else 0)
  else if sc =? 0x38 then aset l 4 (s32 (agetZ l 4 + 1)) else if sc =? 0xB8 then aset l 4 (s32 (agetZ l 4 - 1))
  else l.

(** What a modifier does: it changes the flags, and the ports. *)
Record modifier_handled (k : kernel) (sc : Z) (k' : kernel) : Prop := {
  mh_flags : flag_arr k' = flags_after sc (flag_arr k);
  mh_ok : vt_ok (cur_terminal k) k';
  mh_terms : forall i, 0 <= i < 3 -> vterm (cur_terminal k) k' i = vterm (cur_terminal k) k i;
  mh_rest : k' = set_flag_arr (flag_arr k') (with_k_pic (k_pic k') (with_k_io (k_io k') (cli k)));
}.

Lemma flags_run c k l : vt_ok c k ->
  let k' := send_eoi IRQ_KB (set_flag_arr l (snd (inb KEYBOARD_PORT (cli k)))) in
  flag_arr k' = l /\ vt_ok c k' /\ (forall i, 0 <= i < 3 -> vterm c k' i = vterm c k i) /\
  k' = set_flag_arr (flag_arr k') (with_k_pic (k_pic k') (with_k_io (k_io k') (cli k))).
Proof.
  intros Hok. cbv zeta. pose proof (so_bytes _ (vo_sched _ _ Hok)) as Hb. unfold editor_bytes in Hb.
  destruct (vt_same c k (send_eoi IRQ_KB (set_flag_arr l (snd (inb KEYBOARD_PORT (cli k))))) Hok) as [H1 H2];
    try reflexivity; try (cbn; lia).
  split_and!; [reflexivity|exact H1|exact H2|]. by destruct k.
Qed.

Lemma keyboard_handler_modifier fuel stk k : modifier (scan_code k) = true ->
  keyboard_handler fuel stk k = Some (send_eoi IRQ_KB
    (set_flag_arr (flags_after (scan_code k) (flag_arr k)) (snd (inb KEYBOARD_PORT (cli k))))).
Proof.
  intros H. unfold keyboard_handler. destruct (inb KEYBOARD_PORT (cli k)) as [sc k1] eqn:E.
  assert (Esc : sc = scan_code k) by (by injection E as <- _). rewrite <- Esc in *. cbn [snd].
  assert (Ef : flag_arr k1 = flag_arr k) by (by injection E as _ <-). unfold set_flag, flag. rewrite <- Ef.
  unfold modifier in H. unfold flags_after, LSHIFTIDX, RSHIFTIDX, CTRLIDX, CAPSIDX, ALTIDX, LSHIFT_DOWN, LSHIFT_UP,
    RSHIFT_DOWN, RSHIFT_UP, CTRL_DOWN, CTRL_UP, CAPS_DOWN, UP_DOWN, ALT_DOWN, ALT_UP in *.
  clear Esc E Ef.
  revert H. repeat (match goal with |- context [sc =? ?v] => destruct (Z.eqb_spec sc v) as [->|] end;
    [intros H; first [discriminate H | reflexivity | by destruct (agetZ _ 3 =? 0)]|]). done.
Qed.

(** C3: the keyboard handler, for every scan code but that of the Up key.  A key
    press acts on the visible terminal as the line editor prescribes (echo and
    append while the line has fewer than 127 characters, erase, finish the line
    and record it in the history, clear the screen, or show another terminal)
    even when another terminal's process is running; the screens, positions,
    lines and histories of the other terminals, the running terminal's claim on
    the console and the rest of the kernel do not change, and no access leaves
    its array or page.  A modifier pressed or released changes its flag and
    nothing else.  Up, which is excluded, prints the history line without
    always erasing the current one (up_key_erase). *)
Theorem keyboard_handler_refines fuel stk k :
  vt_ok (cur_terminal k) k -> scan_code k <> UP_DOWN ->
  exists k', keyboard_handler fuel stk k = Some k' /\
    if modifier (scan_code k) then modifier_handled k (scan_code k) k'
    else key_handled k (decode_key k (scan_code k)) k'.
Proof.
  intros Hok Hup. destruct (modifier (scan_code k)) eqn:Em.
  - eexists. split; [by apply keyboard_handler_modifier|].
    destruct (flags_run (cur_terminal k) k (flags_after (scan_code k) (flag_arr k)) Hok) as (H1 & H2 & H3 & H4). by split.
  - exists (plain_path k). split; [|by apply plain_path_ok]. apply keyboard_handler_plain.
    unfold plain_key. rewrite Em. cbn [orb]. by rewrite (proj2 (Z.eqb_neq _ _) Hup).
Qed.

(** ** The key map *)

(** C39: the handler's nested tests on Shift and Caps Lock, over its four tables,
    give every scan code the character of the US layout: a key with one is echoed
    and appended to the line (a key with no modifier sounds first), any other key
    does nothing; either way an empty line marks where it begins. *)
Theorem key_char_correct sc k :
  let k' := if name_len (buf_kb k) =? 0 then set_save_y (get_screen_y k) (set_save_x (get_screen_x k) k) else k in
  let shift := on k LSHIFTIDX || on k RSHIFTIDX in let caps := on k CAPSIDX in
  let c := us_char shift caps sc in
  key_char sc k = if c =? 0 then k' else key_append c (if shift || caps then k' else key_beep c k').
Proof.
  cbv zeta. rewrite <- key_code_us. unfold key_char.
  set (k' := if name_len (buf_kb k) =? 0 then _ else k).
  assert (E : flag_arr k' = flag_arr k) by (unfold k'; by destruct (_ =? 0)).
  unfold on, flag. rewrite !E. clearbody k'.
  destruct (negb (agetZ (flag_arr k) LSHIFTIDX =? 0) || negb (agetZ (flag_arr k) RSHIFTIDX =? 0)),
    (negb (agetZ (flag_arr k) CAPSIDX =? 0)); cbn [orb]; unfold key_code; by destruct (agetZ _ sc =? 0).
Qed.

(** ** A line typed while a process waits for it *)

(** The controller delivers a scan code and raises the interrupt. *)
Definition deliver (sc : Z) (k : kernel) : kernel :=
  with_k_io (mkIo (io_log k) (fun l p => if p =? KEYBOARD_PORT then sc else io_dev k l p)) k.

Definition press (fuel : nat) (stk : Z -> Z) (sc : Z) (k : kernel) : kernel :=
  default k (keyboard_handler fuel stk (deliver sc k)).

Lemma press_ok fuel stk sc k : vt_ok (cur_terminal k) k -> 0 <= sc < 256 -> plain_key sc = true ->
  key_handled k (decode_key k sc) (press fuel stk sc k).
Proof.
  intros Hok Hsc Hp.
  assert (Hio : only_io k (deliver sc k)) by (by destruct k).
  pose proof (same_terms_io _ _ _ Hok Hio) as [S1 S2 S3 S4 S5 S6 S7 S8].
  assert (Esc : scan_code (deliver sc k) = sc) by (unfold scan_code, deliver; cbn; by apply u8_small).
  unfold press. rewrite keyboard_handler_plain by (by rewrite Esc). cbn [default id].
  pose proof (plain_path_ok (deliver sc k) S1) as H. rewrite Esc in H.
  change (decode_key (deliver sc k) sc) with (decode_key k sc) in H.
  revert H. generalize (plain_path (deliver sc k)) as k'. intros k' [A1 A2 A3 A4 A5 A6 A7].
  split; [exact A1|exact A2| |exact A4|exact A5| |by etrans].
  - intros i Hi. etrans; [by apply A3|]. by rewrite S3.
  - intros E. rewrite <- S3; [by apply A6|]. rewrite <- S2. apply (vo_sched _ _ S1).
Qed.

(** A key that stays on the line. *)
Definition editing (k : kernel) (sc : Z) : Prop :=
  0 <= sc < 256 /\ plain_key sc = true /\ decode_key k sc <> KEnter /\ forall d, decode_key k sc <> KShow d.

(** The terminal after some keys. *)
Definition typed (k : kernel) (keys : list Z) (t : aterm) : aterm :=
  foldl (fun t sc => abs_key (decode_key k sc) t) t keys.

(** The reader's side: its terminal is visible and scheduled, no line is ready,
    and its memory is the program page. *)
Record waiting_reader (k : kernel) : Prop := {
  wr_ok : vt_ok (cur_terminal k) k;
  wr_visible : visible k = cur_terminal k;
  wr_flag : enter_flag (get_terminal k (cur_terminal k)) <> 0;
}.

Lemma waiting_not_ready k : waiting_reader k -> line_ready k = false.
Proof. intros [_ Hv Hf]. unfold line_ready. rewrite Hv. by rewrite (proj2 (Z.eqb_neq _ _) Hf). Qed.

Lemma press_editing fuel stk sc k : waiting_reader k -> editing k sc ->
  let k' := press fuel stk sc k in
  waiting_reader k' /\ cur_terminal k' = cur_terminal k /\ flag_arr k' = flag_arr k /\
  page_directory k' = page_directory k /\
  vterm (cur_terminal k) k' (cur_terminal k) = abs_key (decode_key k sc) (vterm (cur_terminal k) k (cur_terminal k)).
Proof.
  intros [Hok Hv Hf] (Hsc & Hp & Hne & Hns). cbv zeta.
  pose proof (press_ok fuel stk sc k Hok Hsc Hp) as H. revert H. generalize (press fuel stk sc k) as k'.
  intros k' [A1 A2 A3 A4 A5 _ A7]. rewrite not_show in A2 by done. pose proof (vo_owner _ _ Hok) as Hc.
  assert (Ec : cur_terminal k' = cur_terminal k) by apply A7.
  split_and!; [|exact Ec|exact A4|apply A7|].
  - split; rewrite ?Ec; [exact A1|congruence|]. rewrite A5 by done. by destruct (decode_key k sc).
  - rewrite A3 by done. by rewrite Hv, Z.eqb_refl.
Qed.

Lemma typing_run fuel stk fd buf nbytes irqs : forall keys k, waiting_reader k ->
  Forall (editing k) keys ->
  exists k', terminal_read (map (press fuel stk) keys ++ irqs) fd buf nbytes k =
      terminal_read irqs fd buf nbytes k' /\
    waiting_reader k' /\ cur_terminal k' = cur_terminal k /\ flag_arr k' = flag_arr k /\
    page_directory k' = page_directory k /\
    vterm (cur_terminal k) k' (cur_terminal k) = typed k keys (vterm (cur_terminal k) k (cur_terminal k)).
Proof.
  induction keys as [|sc keys IH]; intros k Hw Hed; [by exists k|].
  apply Forall_cons in Hed as [He Hed]. cbn [map app].
  rewrite terminal_read_waits by (by apply waiting_not_ready).
  destruct (press_editing fuel stk sc k Hw He) as (Hw1 & C1 & F1' & P1 & V1).
  revert Hw1 C1 F1' P1 V1. generalize (press fuel stk sc k) as k1. intros k1 Hw1 C1 F1' P1 V1.
  assert (Ed : forall sc, decode_key k1 sc = decode_key k sc) by (intros; unfold decode_key, on, flag; by rewrite F1').
  destruct (IH k1 Hw1) as (k' & E & Hw' & C' & F' & P' & V').
  { eapply Forall_impl; [exact Hed|]. intros x (E1 & E2 & E3 & E4). unfold editing. by rewrite Ed. }
  exists k'. split; [exact E|]. split_and!; [exact Hw'|congruence..|].
  rewrite C1 in V'. rewrite V', V1. unfold typed. cbn [foldl].
  generalize (abs_key (decode_key k sc) (vterm (cur_terminal k) k (cur_terminal k))). clear -Ed.
  induction keys as [|x keys IH]; intros t; cbn [foldl]; [done|]. by rewrite Ed, IH.
Qed.

(** The program page is a region of its own. *)
Lemma region_prog k frame buf n : paging_on k = true ->
  aget (page_directory k) 32 = Some (Z.lor frame 0x87) -> frame mod 4194304 = 0 ->
  PROG_PAGE <= buf -> buf + n <= PROG_PAGE + FOUR_MB -> region k (span buf n).
Proof.
  intros Hon Hpd Hf Hb Hn. unfold PROG_PAGE, FOUR_MB in *.
  assert (H : forall a, span buf n a -> phys k a = Some (frame + a mod 4194304)).
  { intros a Ha. unfold span in Ha. unfold phys.
    rewrite (translate_large false k a frame 0x87 Hon) by (try done; by replace (a / 4194304) with 32 by dlia).
    done. }
  split; simpl.
  - intros a Ha. by rewrite H.
  - intros a b Ha Hb' Hne p q. rewrite !H by done. unfold span in *. intros [= <-] [= <-]. dlia.
Qed.

Lemma vterm_typable c k : vt_ok c k -> forall i, 0 <= i < 3 -> Forall typable (at_line (vterm c k i)).
Proof. intros Hok i Hi. apply (vo_ed _ _ Hok i Hi). Qed.

Lemma decode_enter k : decode_key k ENTER = KEnter.
Proof. unfold decode_key, decode. by destruct (on k CTRLIDX). Qed.

(** C4: a process blocked in terminal_read on the visible terminal sleeps through
    every key that edits the line and is woken by Enter; it then gets exactly
    the line as edited on the screen, without its leading spaces, cut at the
    first space or at [nbytes]. *)
Theorem typed_line_is_read fuel stk fd buf nbytes frame keys n line k :
  waiting_reader k -> Forall (editing k) keys ->
  at_line (typed k keys (vterm (cur_terminal k) k (cur_terminal k))) = replicate n 32 ++ line ->
  (forall c r, line = c :: r -> c <> 32) ->
  aget (page_directory k) 32 = Some (Z.lor frame 0x87) -> frame mod 4194304 = 0 ->
  0 <= nbytes ->
  let out := take (Z.to_nat nbytes) (line_output line) in
  PROG_PAGE <= buf -> buf + Z.of_nat (length out) <= PROG_PAGE + FOUR_MB ->
  exists k', terminal_read (map (press fuel stk) (keys ++ [ENTER])) fd buf nbytes k =
      Some (Z.of_nat (length out), k') /\ bytes_at k' buf out.
Proof.
  intros Hw Hed Hline Hs Hpd Hfr Hn out Hb Hbo. rewrite map_app. cbn [map].
  destruct (typing_run fuel stk fd buf nbytes [press fuel stk ENTER] keys k Hw Hed)
    as (k1 & -> & Hw1 & C1 & F1' & P1 & V1).
  rewrite terminal_read_waits by (by apply waiting_not_ready). destruct Hw1 as [Hok1 Hv1 Hf1].
  pose proof (press_ok fuel stk ENTER k1 Hok1 ltac:(done) ltac:(done)) as H. rewrite decode_enter in H.
  revert H. generalize (press fuel stk ENTER k1) as k2. intros k2 [A1 A2 A3 A4 A5 A6 A7].
  pose proof (vo_owner _ _ Hok1) as Hc1. pose proof (vo_sched _ _ A1) as Hs2.
  assert (Ec : cur_terminal k2 = cur_terminal k1) by apply A7.
  destruct (A6 eq_refl) as [rest Eb]. rewrite Hv1, C1, V1, Hline, <- app_assoc in Eb.
  assert (Ht : Forall typable line).
  { pose proof (vterm_typable _ _ Hok1 (cur_terminal k1) Hc1) as H. rewrite C1, V1, Hline in H.
    by apply Forall_app in H as [_ H]. }
  destruct (aget_range_Some (terminals k2) (visible k2)) as [t Et].
  { pose proof (so_length _ Hs2). pose proof (so_visible _ Hs2). lia. }
  destruct (terminal_read_run [] fd buf nbytes n line rest t k2) as (k' & E & H); try done.
  - unfold line_ready. rewrite A5 by (rewrite A2, Hv1; exact Hc1). rewrite A2, Ec, Hv1, !Z.eqb_refl. done.
  - apply (so_arrays _ Hs2).
  - eapply Forall_impl; [exact Ht|]. unfold typable. intros; lia.
  - unfold PROG_PAGE in Hb. lia.
  - fold out. unfold PROG_PAGE, FOUR_MB in *. lia.
  - apply (region_prog k2 frame); try done.
    + apply (vo_paging _ _ A1).
    + by rewrite (hf_pd _ _ A7), P1.
  - exists k'. split; [exact E|exact (lr_bytes _ _ _ _ _ _ H)].
Qed.

(** ** Modifiers *)

(** Ctrl is a counter: however many times key repeat reports it pressed, one
    release only takes one off, so after [n] reports and the release the
    modifier is still on unless [n = 1]. *)
Theorem ctrl_repeat_sticks fuel stk n k :
  flag k CTRLIDX = 0 -> length (flag_arr k) = 5%nat -> (0 < n < 1000)%nat ->
  on (press fuel stk CTRL_UP (Nat.iter n (press fuel stk CTRL_DOWN) k)) CTRLIDX = negb (n =? 1)%nat.
Proof.
  intros H0 HL Hn.
  assert (Hd : forall sc v k, length (flag_arr k) = 5%nat -> (sc = CTRL_DOWN /\ v = 1 \/ sc = CTRL_UP /\ v = -1) ->
    flag_arr (press fuel stk sc k) = aset (flag_arr k) CTRLIDX (s32 (flag k CTRLIDX + v))).
  { intros sc v k1 _ [[-> ->]|[-> ->]]; reflexivity. }
  assert (Hi : forall m, (m < 1000)%nat -> length (flag_arr (Nat.iter m (press fuel stk CTRL_DOWN) k)) = 5%nat /\
    flag (Nat.iter m (press fuel stk CTRL_DOWN) k) CTRLIDX = Z.of_nat m).
  { induction m as [|m IH]; intros Hm; [done|]. destruct IH as [IH1 IH2]; [lia|].
    change (Nat.iter (S m) ?f k) with (f (Nat.iter m f k)).
    rewrite (Hd CTRL_DOWN 1) by auto. rewrite length_aset. split; [done|]. unfold flag at 1.
    rewrite (Hd CTRL_DOWN 1) by auto. rewrite agetZ_aset_eq by (rewrite IH1; unfold CTRLIDX; lia).
    fold (flag (Nat.iter m (press fuel stk CTRL_DOWN) k) CTRLIDX). rewrite IH2, s32_small; lia. }
  destruct (Hi n) as [HL' Hf]; [lia|]. unfold on, flag. rewrite (Hd CTRL_UP (-1)) by auto.
  rewrite agetZ_aset_eq by (rewrite HL'; unfold CTRLIDX; lia). rewrite Hf, s32_small by lia.
  destruct (Nat.eqb_spec n 1) as [->|]; [done|]. cbn [negb]. by rewrite (proj2 (Z.eqb_neq _ _)) by lia.
Qed.

(** ** The up key *)

(** the loop that is meant to erase the current line before the previous one
    is printed stops at once when the cursor is still in the row (or happens to
    be in the column) where the line began, so a line shorter than its row is
    not erased; and at the home position it never ends when the line began in
    another row and column. *)
Theorem up_key_erase fuel k :
  (screen_y k = save_y k \/ screen_x k = save_x k -> erase_line fuel k = Some k) /\
  (screen_x k = 0 -> screen_y k = 0 -> save_x k <> 0 -> save_y k <> 0 -> erase_line fuel k = None).
Proof.
  split.
  - intros H. destruct fuel; cbn [erase_line]; unfold get_screen_x, get_screen_y;
      destruct H as [->| ->]; rewrite Z.eqb_refl; cbn [negb]; by rewrite ?andb_false_r.
  - revert k. induction fuel as [|f IH]; intros k Hx Hy Hsx Hsy; cbn [erase_line];
      unfold get_screen_x, get_screen_y; rewrite Hx, Hy, !(proj2 (Z.eqb_neq 0 _)) by congruence; cbn [negb andb];
      [done|].
    assert (E : k_con (backspace k) = k_con k /\ k_kb (backspace k) = k_kb k).
    { unfold backspace. set (k1 := put_cell _ _ _).
      assert (Ec : k_con k1 = k_con k) by apply put_cell_con.
      assert (Ek : k_kb k1 = k_kb k) by (unfold k1, put_cell; simpl; destruct (phys k _); simpl; by destruct (phys _ _)).
      revert Ec Ek. generalize k1 as k2. clear k1. intros k1 Ec Ek. rewrite Ec, Hx, Hy. cbn [Z.eqb negb].
      split; [exact Ec|exact Ek]. }
    revert E. generalize (backspace k) as k1. intros k1 [Ec Ek].
    apply IH; rewrite ?Ec, ?Ek; done.
Qed.

(** ** Witnesses *)

Lemma set_cur_frame x k : visible (set_cur_terminal x k) = visible k /\ cur_terminal (set_cur_terminal x k) = x /\
  k_kb (set_cur_terminal x k) = k_kb k /\ forall i, get_terminal (set_cur_terminal x k) i = get_terminal k i.
Proof. by split_and!. Qed.

Lemma only_pg_frame k k' : only_pg k k' -> k_sch k' = k_sch k /\ k_kb k' = k_kb k.
Proof. intros H. by rewrite H. Qed.

Lemma deliver_frame sc k : only_io k (deliver sc k) /\ k_kb (deliver sc k) = k_kb k /\
  cur_terminal (deliver sc k) = cur_terminal k /\ visible (deliver sc k) = visible k /\
  scan_code (deliver sc k) = u8 sc.
Proof. by destruct k. Qed.

Definition demo_kb : kernel := set_cur_terminal 0 demo_sched.

Lemma demo_kb_frame : visible demo_kb = 0 /\ cur_terminal demo_kb = 0 /\ flag_arr demo_kb = replicate 5 0 /\
  vt_ok 0 demo_kb.
Proof.
  unfold demo_kb. destruct (set_cur_frame 0 demo_sched) as (-> & -> & -> & _).
  destruct demo_init_terminals as (_ & _ & _ & _ & _ & ->). rewrite demo_sched_visible, demo_kb_eq.
  split_and!; [reflexivity..|]. apply vt_ok_cur, demo_vt.
Qed.

Lemma keyboard_handler_refines_witness :
  exists k', keyboard_handler 1 (fun _ => 0) (deliver 0x1E demo_kb) = Some k' /\ visible k' = 0.
Proof.
  destruct demo_kb_frame as (Hv & Hc & Hf & Hok).
  destruct (deliver_frame 0x1E demo_kb) as (Hio & Ek & Ec & Ev & Esc).
  pose proof (st_ok _ _ _ (same_terms_io 0 demo_kb _ Hok Hio)) as Hok'.
  rewrite <- Hc, <- Ec in Hok'.
  destruct (keyboard_handler_refines 1 (fun _ => 0) (deliver 0x1E demo_kb) Hok') as (k' & E & H).
  { rewrite Esc. discriminate. }
  rewrite Esc in H. change (modifier (u8 0x1E)) with false in H. cbv iota in H.
  exists k'. split; [exact E|]. rewrite (kh_visible _ _ _ H), Ev, Hv.
  unfold decode_key, on, flag. rewrite Ek, Hf. reflexivity.
Defined.

(** The demonstration state with the first process's page mapped. *)
Definition demo_reader : kernel := map_page ((0 + 2) * FOUR_MB) PROG_PAGE 0x87 demo_kb.

Lemma map_page_only p v f k : only_pg k (map_page p v f k).
Proof.
  unfold map_page. destruct (negb _); [by destruct k|]. destruct (negb _); [by destruct k|].
  destruct (negb _); apply only_pg_set.
Qed.

Lemma map_page_vt c pid k : vt_ok c k ->
  vt_ok c (map_page ((pid + 2) * FOUR_MB) PROG_PAGE 0x87 k) /\
  forall i, 0 <= i < 3 -> vterm c (map_page ((pid + 2) * FOUR_MB) PROG_PAGE 0x87 k) i = vterm c k i.
Proof.
  intros Hok. pose proof (map_page_only ((pid + 2) * FOUR_MB) PROG_PAGE 0x87 k) as Ho.
  pose proof (map_page_prog_ok _ pid k (vo_paging _ _ Hok)) as Hp.
  revert Ho Hp. generalize (map_page ((pid + 2) * FOUR_MB) PROG_PAGE 0x87 k) as k'. intros k' Ho Hp.
  unfold only_pg in Ho. rewrite Ho in Hp |- *. cbn [k_pg with_k_pg] in Hp.
  apply vt_ok_ext; [exact Hok| |apply Hok|exact Hp|reflexivity|reflexivity].
  destruct (vo_sched _ _ Hok) as [L T V A B]. by split.
Qed.

Lemma demo_reader_eq : demo_reader = map_page ((0 + 2) * FOUR_MB) PROG_PAGE 0x87 demo_kb.
Proof. reflexivity. Qed.

Lemma get_terminal_sch k k' i : k_sch k' = k_sch k -> get_terminal k' i = get_terminal k i.
Proof. intros E. unfold get_terminal. by rewrite E. Qed.

Lemma vterm_cur c x k i : vterm c (set_cur_terminal x k) i = vterm c k i.
Proof. reflexivity. Qed.

Lemma demo_sched_line i : 0 <= i < 3 -> at_line (vterm 0 demo_sched i) = [].
Proof.
  intros Hi. destruct (init_terminals_vt demo_paged demo_paging_ok demo_terminals_length demo_terminals_lens
    demo_paged_ok demo_kb_eq) as (_ & _ & _ & Hl). exact (proj1 (Hl i Hi)).
Qed.

Lemma demo_sched_flag : enter_flag (get_terminal demo_sched 0) = 1.
Proof.
  destruct (init_terminals_run demo_paged demo_paging_ok demo_terminals_length demo_terminals_lens) as (Hin & _).
  unfold get_terminal, demo_sched.
  destruct (aget_range_Some (terminals demo_paged) 0) as [t E]; [rewrite demo_terminals_length; lia|].
  by rewrite (Hin 0 t E).
Qed.

Lemma demo_reader_waits : waiting_reader demo_reader /\
  at_line (vterm (cur_terminal demo_reader) demo_reader (cur_terminal demo_reader)) = [] /\
  flag_arr demo_reader = replicate 5 0.
Proof.
  destruct demo_kb_frame as (Hv & Hc & Hfl & Hok0).
  destruct (map_page_vt 0 0 demo_kb Hok0) as [Hok Ht].
  pose proof (map_page_only ((0 + 2) * FOUR_MB) PROG_PAGE 0x87 demo_kb) as Er.
  rewrite <- demo_reader_eq in Hok, Ht, Er. apply only_pg_frame in Er as [Es Ek].
  revert Es Ek Hok Ht. generalize demo_reader as k. intros k Es Ek Hok Ht.
  assert (Ec : cur_terminal k = 0) by (rewrite Es; exact Hc).
  assert (Ev : visible k = 0) by (rewrite Es; exact Hv).
  rewrite Ec. split; [split|split].
  - rewrite Ec. exact Hok.
  - rewrite Ec. exact Ev.
  - rewrite Ec, (get_terminal_sch _ _ _ Es). unfold demo_kb.
    rewrite (proj2 (proj2 (proj2 (set_cur_frame 0 demo_sched)))), demo_sched_flag. lia.
  - rewrite Ht by lia. unfold demo_kb. rewrite vterm_cur. apply demo_sched_line. lia.
  - rewrite Ek. exact Hfl.
Qed.

Lemma decode_demo k sc : flag_arr k = replicate 5 0 -> decode_key k sc = decode false false false false sc.
Proof. intros E. unfold decode_key, on, flag. by rewrite E. Qed.

Lemma editing_char k sc c : flag_arr k = replicate 5 0 -> 0 <= sc < 256 -> plain_key sc = true ->
  decode false false false false sc = KChar c -> editing k sc.
Proof.
  intros Hf H1 H2 H3. unfold editing. rewrite (decode_demo _ sc Hf), H3.
  split; [exact H1|]. split; [exact H2|]. split; [discriminate|intros d; discriminate].
Qed.

Lemma demo_reader_pd : aget (page_directory demo_reader) 32 = Some (Z.lor ((0 + 2) * FOUR_MB) 0x87).
Proof.
  destruct demo_kb_frame as (_ & _ & _ & Hok). pose proof (vo_paging _ _ Hok) as Hp. destruct Hp as ((L & _) & _).
  rewrite demo_reader_eq. destruct (map_page_prog 0 demo_kb L) as (e & -> & ->).
  cbn [page_directory k_pg set_page_directory with_k_pg]. rewrite aget_aset_eq by lia. reflexivity.
Qed.

Definition ls_keys : list Z := [0x26; 0x1F].

Lemma typed_ls k t : flag_arr k = replicate 5 0 -> at_line t = [] ->
  at_line (typed k ls_keys t) = replicate 0 32 ++ [108; 115].
Proof.
  intros Hf Ht. unfold typed, ls_keys. cbn [foldl]. rewrite !(decode_demo _ _ Hf).
  destruct t as [a l h]. cbn in Ht. subst l. reflexivity.
Qed.

Lemma typed_line_is_read_witness :
  exists k', terminal_read (map (press 1 (fun _ => 0)) (ls_keys ++ [ENTER])) 0 PROG_PAGE 128 demo_reader
    = Some (3, k') /\ bytes_at k' PROG_PAGE [108; 115; 10].
Proof.
  destruct demo_reader_waits as (Hw & Hl & Hf).
  destruct (typed_line_is_read 1 (fun _ => 0) 0 PROG_PAGE 128 ((0 + 2) * FOUR_MB) ls_keys 0 [108; 115] demo_reader Hw)
    as (k' & E & H).
  - assert (Hed : forall sc c, 0 <= sc < 256 -> plain_key sc = true ->
      decode false false false false sc = KChar c -> editing demo_reader sc).
    { intros sc c H1 H2 H3. by apply (editing_char _ sc c). }
    constructor; [apply (Hed _ 108); [lia|reflexivity|reflexivity]|].
    constructor; [apply (Hed _ 115); [lia|reflexivity|reflexivity]|constructor].
  - exact (typed_ls demo_reader _ Hf Hl).
  - by intros c r [= <- _].
  - exact demo_reader_pd.
  - reflexivity.
  - lia.
  - unfold PROG_PAGE. lia.
  - vm_compute. discriminate.
  - exists k'. split; [exact E|exact H].
Defined.

Lemma ctrl_repeat_sticks_witness :
  on (press 1 (fun _ => 0) CTRL_UP (Nat.iter 2 (press 1 (fun _ => 0) CTRL_DOWN) demo_kernel)) CTRLIDX = true.
Proof. apply (ctrl_repeat_sticks 1 (fun _ => 0) 2 demo_kernel); [reflexivity|reflexivity|lia]. Defined.
