(* ===== verification/Execute.v ===== *)
(** * Starting a process (execute.c, execute_asm.S)

    execute opens the program, takes a process, saves the caller's context in
    it, maps its page, loads the image and enters user mode. *)

From Stdlib Require Import ZArith Lia.
From Stdlib Require Import String.
From stdpp Require Import base numbers list gmap.
From S2P Require Import Prelude Memory LibMem LibStr State Machine I8259 Paging Console Pcb Filesys Fdt Schedule.

Open Scope Z_scope.
Implicit Types k : kernel.

(** ** The code *)

Definition KERNEL_DS : Z := 0x0018.
Definition USER_CS : Z := 0x0023.
Definition USER_DS : Z := 0x002B.
Definition HEADERSIZE : Z := 28.
Definition MAXBYTES : Z := 0x3B8000.
Definition VADDRPROGIMG : Z := 0x08048000.
Definition PIDOFFSET : Z := 2.
Definition VADDRPROGPAGE : Z := 0x08000000.
Definition USWFLAGS : Z := 0x87.
Definition KERNELSTACK : Z := 0x800000.
Definition EIGHTKB : Z := 0x2000.
Definition KSTACKOFFSET : Z := 4.
Definition MAXCOMMANDSIZE : Z := 128.

(** How a call that may leave the C code ends: it returns, it enters user mode
    through an interrupt return, or it jumps to a kernel address on the stack
    that is now in the stack pointer. *)
Inductive outcome :=
  | Ret (v : Z)
  | User (eip cs esp ss : Z)
  | Jump (addr : Z).

(** The interrupt return pops the pushed flags, in which IF was set. *)
Definition switch_to_usr (entry : Z) (k : kernel) : outcome * kernel :=
  let k := cli k in (User entry USER_CS 0x83FFFFC USER_DS, sti k).

Definition switch_to_user_mode (entry : Z) (k : kernel) : outcome * kernel := switch_to_usr entry k.

Definition read_ELF (fname : Z -> Z) (buf fd : Z) (k : kernel) : option (Z * kernel) :=
  let '(i, k) := file_open fname k in
  if i =? -1 then Some (-1, k) else file_read fd buf HEADERSIZE k.

Definition load (fname : Z -> Z) (buf : Z) (k : kernel) : option (Z * kernel) :=
  let '(_, k) := file_open fname k in file_load buf MAXBYTES k.

(** execute's local [buf]. *)
Definition header_buf (k : kernel) : Z := u32 (cpu_esp k + hdr_off k).

(** The caller's context and the new process's parent; the process becomes the
    terminal's current one and gets the program page. *)
Definition enter_process (pid : Z) (k : kernel) : kernel :=
  let k := upd_PCB pid (with_pcb_esp (s32 (cpu_esp k))) k in
  let k := upd_PCB pid (with_pcb_ebp (s32 (cpu_ebp k))) k in
  let k := upd_PCB pid (with_return_label_add (s32 (ret_label k))) k in
  let k := upd_PCB pid (with_pcb_esp0 (s32 (tss_esp0 (tss k)))) k in
  let k := upd_PCB pid (with_pcb_ss0 (tss_ss0 (tss k))) k in
  let k := upd_PCB pid (with_parent_pid (curr_process (get_terminal k (cur_terminal k)))) k in
  let k := upd_terminal (cur_terminal k) (with_curr_process pid) k in
  map_page ((pid + PIDOFFSET) * FOUR_MB) VADDRPROGPAGE USWFLAGS k.

(** The magic number. *)
Definition is_ELF (buf : Z) (k : kernel) : bool :=
  (ld8 k buf =? 0x7F) && (ld8 k (u32 (buf + 1)) =? 0x45) &&
  (ld8 k (u32 (buf + 2)) =? 0x4C) && (ld8 k (u32 (buf + 3)) =? 0x46).

Definition entry_point (buf : Z) (k : kernel) : Z :=
  le32 (ld8 k (u32 (buf + 24))) (ld8 k (u32 (buf + 25))) (ld8 k (u32 (buf + 26))) (ld8 k (u32 (buf + 27))).

(** The kernel stack of the new process and the jump to user mode. *)
Definition enter_user (pid : Z) (k : kernel) : outcome * kernel :=
  let k := set_tss (with_tss_ss0 KERNEL_DS (tss k)) k in
  let k := set_tss (with_tss_esp0 (KERNELSTACK - pid * EIGHTKB - KSTACKOFFSET) (tss k)) k in
  let k := send_eoi PIT_IRQ k in
  switch_to_user_mode (firstInstruct k) k.

Definition start_process (temp : list Z) (pid : Z) (k : kernel) : option (outcome * kernel) :=
  '((_, k) : Z * kernel) ← load (agetZ temp) VADDRPROGIMG k;
  Some (enter_user pid k).

Definition execute (fname : Z -> Z) (k : kernel) : option (outcome * kernel) :=
  let temp := map fname (seqZ 0 MAXCOMMANDSIZE) in
  let buf := header_buf k in
  '(error, k) ← read_ELF fname buf (-1) k;
  if error =? -1 then Some (Ret (-1), k)
  else
    let '(pid, k) := getPID k in
    if pid =? -1 then Some (Ret (-1), k)
    else
      let k := enter_process pid k in
      if is_ELF buf k then
        start_process temp pid (set_firstInstruct (entry_point buf k) k)
      else Some (Ret (-1), k).

(** From [ret_label] on. *)
Definition execute_return (k : kernel) : outcome * kernel := (Ret (ret_val k), k).

(** ** The image under stores elsewhere *)

Record same_image (k k' : kernel) : Prop := {
  si_start : start_addr k' = start_addr k;
  si_inodes : numinodes k' = numinodes k;
  si_blocks : numblocks k' = numblocks k;
  si_dentries : startdentry k' = startdentry k;
  si_bytes : forall a, in_image k a -> ld8 k' a = ld8 k a;
}.

Lemma same_image_size k k' : same_image k k' -> image_size k' = image_size k.
Proof. intros [_ E1 E2 _ _]. unfold image_size. by rewrite E1, E2. Qed.

#[export] Instance same_image_preorder : PreOrder same_image.
Proof.
  split; [done|]. intros k1 k2 k3 H1 H2. pose proof (same_image_size _ _ H1) as Es.
  destruct H1 as [A1 B1 C1 D1 E1], H2 as [A2 B2 C2 D2 E2]. split; try congruence.
  intros a Ha. rewrite E2; [by apply E1|]. unfold in_image in *. by rewrite A1, Es.
Qed.

Lemma same_image_copied k inode offset buf n k' : copied k inode offset buf n k' -> same_image k k'.
Proof. intros [Ho Hi _ _ _]. split; [by rewrite Ho..|done]. Qed.

Lemma ld32_same k k' a : same_image k k' -> in_image k a -> in_image k (a + 3) ->
  0 <= start_addr k -> start_addr k + image_size k < 2 ^ 32 -> ld32 k' a = ld32 k a.
Proof.
  unfold in_image, span. intros [_ _ _ _ H] H0 H3 Hs He. apply ld32_ext; [lia|].
  intros j Hj. rewrite u32_small by lia. apply H. unfold in_image, span. lia.
Qed.

Lemma file_same k k' inode : file_ok k inode -> same_image k k' ->
  file_ok k' inode /\ inode_length k' inode = inode_length k inode /\
  forall n, 0 <= n < inode_length k inode -> file_byte k' inode n = file_byte k inode n.
Proof.
  intros Hf Hs. pose proof (same_image_size _ _ Hs) as Esz. destruct (file_addrs k inode Hf) as [Ea Eb].
  pose proof Hf as [H0 He Hb Hi Hl Hn].
  assert (Ea' : inode_addr k' inode = inode_addr k inode) by (unfold inode_addr; by rewrite (si_start _ _ Hs)).
  assert (Eb' : forall b, block_addr k' b = block_addr k b)
    by (intros b; unfold block_addr; by rewrite (si_start _ _ Hs), (si_inodes _ _ Hs)).
  assert (El : inode_length k' inode = inode_length k inode).
  { unfold inode_length. rewrite Ea'. apply ld32_same; try done;
      unfold in_image, span, image_size in *; rewrite Ea; lia. }
  assert (En : forall j, 0 <= 4096 * j < inode_length k inode -> block_num k' inode j = block_num k inode j).
  { intros j Hj. unfold block_num. rewrite Ea'. apply ld32_same; try done;
      unfold in_image, span, image_size in *; rewrite Ea, u32_small; lia. }
  split_and!; [|done|].
  - destruct Hs as [S1 S2 S3 _ _]. split; rewrite ?S1, ?S2, ?S3, ?Esz, ?El; auto.
    intros j Hj. rewrite En by done. by apply Hn.
  - intros n Hn'. unfold file_byte. rewrite En, Eb' by dlia. apply Hs.
    assert (Hbn : 0 <= block_num k inode (n / 4096) < numblocks k) by (apply Hn; dlia).
    rewrite Eb by done. unfold in_image, span, image_size. dlia.
Qed.

(** The directory lies in the image. *)
Record dir_in_image (k : kernel) : Prop := {
  di_start : 0 <= start_addr k;
  di_end : start_addr k + image_size k < 2 ^ 32;
  di_size : 4160 <= image_size k;
  di_dir : startdentry k = start_addr k + 64;
}.

Lemma entries_same k k' i : dir_in_image k -> same_image k k' -> 0 <= i < 64 ->
  entry k' i = entry k i /\ entry_name k' i = entry_name k i.
Proof.
  intros [H0 H1 H2 H3] Hs Hi.
  assert (Ea : dentry_addr k' i = dentry_addr k i) by (unfold dentry_addr; by rewrite (si_dentries _ _ Hs)).
  assert (E0 : dentry_addr k i = start_addr k + 64 + 64 * i)
    by (unfold dentry_addr, SIZEOF_DENTRY; rewrite H3, u32_small; lia).
  assert (H : forall j, 0 <= j < 64 -> ld8 k' (u32 (dentry_addr k i + j)) = ld8 k (u32 (dentry_addr k i + j))).
  { intros j Hj. apply Hs. rewrite E0, u32_small by lia. unfold in_image, span. lia. }
  split.
  - unfold entry. rewrite Ea. f_equal.
    + apply map_ext_in. intros j Hj. apply list_elem_of_In, elem_of_seqZ in Hj. apply H. lia.
    + apply ld32_ext; [apply u32_range|]. intros j Hj. rewrite u32_add_l, <- Z.add_assoc. apply H. lia.
    + apply ld32_ext; [apply u32_range|]. intros j Hj. rewrite u32_add_l, <- Z.add_assoc. apply H. lia.
  - unfold entry_name, name32. rewrite Ea.
    assert (Hn : forall n x, 0 <= x -> x + Z.of_nat n <= 32 ->
      str_from n (dentry_name k' (dentry_addr k i)) x = str_from n (dentry_name k (dentry_addr k i)) x).
    { induction n as [|n IH]; intros x Hx Hn; [done|]. cbn [str_from].
      unfold dentry_name at 1 2. rewrite H by lia. by rewrite IH by lia. }
    apply Hn; lia.
Qed.

(** ** The directory search *)

(** Entry [i] is the first of that name. *)
Definition found (k : kernel) (fname : Z -> Z) (i : Z) : Prop :=
  0 <= i < 64 /\ entry_name k i = name32 fname /\ forall j, 0 <= j < i -> entry_name k j <> name32 fname.

Lemma found_unique k fname i j : found k fname i -> found k fname j -> i = j.
Proof.
  intros (Hi & Ei & Li) (Hj & Ej & Lj). destruct (decide (i < j)); [destruct (Lj i); [lia|exact Ei]|].
  destruct (decide (j < i)); [destruct (Li j); [lia|exact Ej]|lia].
Qed.

Lemma found_same k k' fname i : dir_in_image k -> same_image k k' -> found k fname i -> found k' fname i.
Proof.
  intros Hd Hs (Hi & Ei & Li). split_and!; [lia|lia| |].
  - rewrite (proj2 (entries_same k k' i Hd Hs Hi)). exact Ei.
  - intros j Hj. rewrite (proj2 (entries_same k k' j Hd Hs ltac:(lia))). by apply Li.
Qed.

Lemma file_open_found k fname i : length (d_name (currDentry k)) = 32%nat -> found k fname i ->
  file_open fname k = (0, set_currDentry (entry k i) k).
Proof.
  intros Hl Hf. unfold file_open.
  destruct (read_dentry_by_name_spec k fname _ Hl) as [(j & Hj & Ej & Lj & ->)|[Hno _]].
  - rewrite (found_unique k fname i j Hf (conj Hj (conj Ej Lj))). reflexivity.
  - destruct Hf as (Hi & Ei & _). destruct (Hno i Hi). exact Ei.
Qed.

Lemma file_open_missing k fname : length (d_name (currDentry k)) = 32%nat ->
  (forall i, 0 <= i < 64 -> entry_name k i <> name32 fname) ->
  file_open fname k = (-1, k).
Proof.
  intros Hl Hno. unfold file_open.
  destruct (read_dentry_by_name_spec k fname _ Hl) as [(j & Hj & Ej & _)|[_ ->]]; [destruct (Hno j Hj); exact Ej|].
  f_equal. destruct k as [? ? ? ? ? ? ? [] ? ? ? ? ?]. reflexivity.
Qed.

(** The copy of the name finds the same entry. *)
Lemma name32_temp fname : name32 (agetZ (map fname (seqZ 0 MAXCOMMANDSIZE))) = name32 fname.
Proof.
  unfold name32. assert (H : forall n x, 0 <= x -> x + Z.of_nat n <= 32 ->
    str_from n (agetZ (map fname (seqZ 0 MAXCOMMANDSIZE))) x = str_from n fname x).
  { induction n as [|n IH]; intros x Hx Hn; [done|]. cbn [str_from].
    replace (agetZ (map fname (seqZ 0 MAXCOMMANDSIZE)) x) with (fname x); [by rewrite IH by lia|].
    unfold agetZ, aget, MAXCOMMANDSIZE.
    rewrite (proj2 (in_range_true _ _)) by (rewrite length_map, length_seqZ; lia).
    rewrite list_lookup_fmap, lookup_seqZ_lt by lia.
    by replace (0 + Z.of_nat (Z.to_nat x)) with x by lia. }
  apply H; lia.
Qed.

(** ** The new process's record and page *)

Definition entered_PCB (k : kernel) (t : terminal_t) (p : PCB_struct) : PCB_struct :=
  mkPCB (fd_table p) (pcb_in_use p) (s32 (cpu_esp k)) (s32 (cpu_ebp k)) (task_esp p) (task_ebp p)
    (s32 (tss_esp0 (tss k))) (tss_ss0 (tss k)) (s32 (ret_label k)) (curr_process t) (pcb_args p).

Definition prog_entry (pid : Z) : Z := Z.lor ((pid + 2) * FOUR_MB) 0x87.

Definition prog_mapped (pid : Z) (k : kernel) : kernel :=
  set_page_directory (aset (page_directory k) 32 (prog_entry pid)) k.

Lemma map_page_prog_eq pid k :
  map_page ((pid + PIDOFFSET) * FOUR_MB) VADDRPROGPAGE USWFLAGS k = prog_mapped pid k.
Proof.
  unfold map_page, PIDOFFSET. replace ((pid + 2) * FOUR_MB mod FOUR_KB =? 0) with true
    by (unfold FOUR_MB, FOUR_KB; symmetry; apply Z.eqb_eq; dlia).
  change (VADDRPROGPAGE mod FOUR_KB =? 0) with true. cbn [negb].
  change (VADDRPROGPAGE / FOUR_MB) with 32. by destruct (agetZ (page_directory k) 32 =? 0).
Qed.

Lemma prog_mapped_ok t pid k : paging_ok t k -> paging_ok t (prog_mapped pid k).
Proof. rewrite <- map_page_prog_eq. apply map_page_prog_ok. Qed.

Lemma enter_process_eq pid p t k :
  aget (k_pcbs k) pid = Some p -> aget (terminals k) (cur_terminal k) = Some t ->
  enter_process pid k = prog_mapped pid (put_term (cur_terminal k) (with_curr_process pid t)
    (put_pcb pid (entered_PCB k t p) k)).
Proof.
  intros Ep Et. pose proof (aget_Some_range _ _ _ Ep) as Hp.
  transitivity (enter_process pid (put_pcb pid p k)); [by rewrite <- put_pcb_self|].
  unfold enter_process. cbv zeta. rewrite !put_upd_PCB by done. rewrite map_page_prog_eq. f_equal.
  unfold upd_terminal, get_terminal, put_term, put_pcb.
  cbn -[aset aget FOUR_MB s32]. rewrite Et. by destruct p.
Qed.

(** ** The kernel page and the program page *)

Definition kernel_page (a : Z) : Prop := span FOUR_MB FOUR_MB a.
Definition prog_page (a : Z) : Prop := span VADDRPROGPAGE FOUR_MB a.

Lemma phys_kernel_page t k a : paging_ok t k -> kernel_page a -> phys k a = Some a.
Proof. unfold kernel_page, span. intros Hok Ha. apply (translate_kernel_page false t k a Hok). lia. Qed.

Lemma translate_prog user pid k a : paging_on k = true ->
  aget (page_directory k) 32 = Some (prog_entry pid) -> prog_page a ->
  translate user k a = Some ((pid + 2) * FOUR_MB + (a - VADDRPROGPAGE)).
Proof.
  unfold prog_page, span, prog_entry, FOUR_MB, VADDRPROGPAGE. intros Hon Hpd Ha.
  erewrite (translate_large user k a ((pid + 2) * 4194304) 0x87 Hon); try done.
  - rewrite orb_true_r. f_equal. dlia.
  - by replace (a / 4194304) with 32 by dlia.
  - dlia.
Qed.

Lemma region_kernel t k : paging_ok t k -> region k kernel_page.
Proof.
  intros Hok. split; simpl.
  - intros a Ha. by rewrite (phys_kernel_page t).
  - intros a b Ha Hb Hne p q. rewrite !(phys_kernel_page t) by done. congruence.
Qed.

Lemma region_kernel_prog t pid k : paging_ok t k -> 0 <= pid < 6 ->
  aget (page_directory k) 32 = Some (prog_entry pid) -> region k (fun a => kernel_page a \/ prog_page a).
Proof.
  intros Hok Hpid Hpd. assert (Hon : paging_on k = true) by apply Hok.
  assert (Hk : forall a, kernel_page a -> phys k a = Some a) by (intros; by apply (phys_kernel_page t)).
  assert (Hp : forall a, prog_page a -> phys k a = Some ((pid + 2) * FOUR_MB + (a - VADDRPROGPAGE)))
    by (intros; by apply translate_prog).
  split; simpl.
  - intros a [Ha|Ha]; [by rewrite Hk|by rewrite Hp].
  - unfold kernel_page, prog_page, span, FOUR_MB, VADDRPROGPAGE in *.
    intros a b [Ha|Ha] [Hb|Hb] Hne p q; rewrite ?(Hk a), ?(Hk b), ?(Hp a), ?(Hp b) by done;
      intros [= <-] [= <-]; lia.
Qed.

(** ** What execute needs *)

(** The tables have their sizes, the image and execute's frame lie in the kernel
    page and apart from each other. *)
Record exec_ok (k : kernel) : Prop := {
  xo_pcbs : pcbs_ok (k_pcbs k);
  xo_terms : length (terminals k) = 3%nat;
  xo_cur : 0 <= cur_terminal k < 3;
  xo_paging : exists t, paging_ok t k;
  xo_dir : dir_in_image k;
  xo_image : FOUR_MB <= start_addr k /\ start_addr k + image_size k <= 2 * FOUR_MB;
  xo_header : FOUR_MB <= header_buf k /\ header_buf k + HEADERSIZE <= 2 * FOUR_MB;
  xo_apart : header_buf k + HEADERSIZE <= start_addr k \/ start_addr k + image_size k <= header_buf k;
  xo_dentry : length (d_name (currDentry k)) = 32%nat;
}.

Lemma exec_ok_ext k k' : exec_ok k -> pcbs_ok (k_pcbs k') -> length (terminals k') = 3%nat ->
  cur_terminal k' = cur_terminal k -> k_pg k' = k_pg k -> k_fs k' = k_fs k -> k_cpus k' = k_cpus k -> exec_ok k'.
Proof.
  intros [X1 X2 X3 X4 [D1 D2 D3 D4] X6 X7 X8 X9] H1 H2 H3 H4 H5 H6.
  assert (Eh : header_buf k' = header_buf k) by (unfold header_buf; by rewrite H6).
  assert (Ei : image_size k' = image_size k) by (unfold image_size; by rewrite H5).
  split; rewrite ?H3, ?H4, ?Eh, ?Ei, ?H5; try done. by split; rewrite ?Ei, ?H5.
Qed.

Lemma header_buf_ok k : exec_ok k -> buf_ok k (header_buf k) HEADERSIZE.
Proof.
  intros [_ _ _ [t Hp] _ [I1 I2] [H1 H2] Hap _]. unfold FOUR_MB, HEADERSIZE in *. split; [lia|lia|lia|].
  eapply region_mono; [|exact (region_kernel t k Hp)].
  unfold in_image, kernel_page, span, FOUR_MB. lia.
Qed.

(** The program [fname] names is inode [ino] of the image, long enough to have a
    header. *)
Record program (k : kernel) (fname : Z -> Z) (i ino : Z) : Prop := {
  pr_found : found k fname i;
  pr_inode : d_inodeNum (entry k i) = ino;
  pr_file : file_ok k ino;
  pr_length : HEADERSIZE <= inode_length k ino;
}.

Lemma set_currDentry_file_ok d k ino : file_ok k ino -> file_ok (set_currDentry d k) ino.
Proof. intros []. by split. Qed.

(** Reads that return from memory only. *)
Lemma only_mem_intro k k' : only_mem k k' -> exists m, k' = with_k_mem m k.
Proof. intros H. by exists (k_mem k'). Qed.

Lemma read_ELF_run k fname i ino : exec_ok k -> program k fname i ino ->
  exists m, let k1 := with_k_mem m (set_currDentry (entry k i) k) in
    read_ELF fname (header_buf k) (-1) k = Some (HEADERSIZE, k1) /\
    copied (set_currDentry (entry k i) k) ino 0 (header_buf k) HEADERSIZE k1.
Proof.
  intros Hx [Hf Hi Hok Hlen]. unfold read_ELF.
  rewrite (file_open_found k fname i (xo_dentry _ Hx) Hf). cbn [Z.eqb].
  unfold file_read. rewrite (proj2 (Z.ltb_ge (-1) (-1))) by lia.
  change (d_inodeNum (currDentry (set_currDentry (entry k i) k))) with (d_inodeNum (entry k i)). rewrite Hi.
  change (u32 HEADERSIZE) with HEADERSIZE.
  destruct (read_data_in_block_run (set_currDentry (entry k i) k) ino 0 (header_buf k) HEADERSIZE)
    as (k1 & E & Hc).
  - by apply set_currDentry_file_ok.
  - destruct (header_buf_ok k Hx) as [B1 B2 B3 B4]. split; [exact B1|exact B2|exact B3|exact B4].
  - lia.
  - unfold HEADERSIZE. lia.
  - change (inode_length (set_currDentry (entry k i) k) ino) with (inode_length k ino).
    unfold HEADERSIZE in *. change (0 mod 4096) with 0. lia.
  - change (inode_length (set_currDentry (entry k i) k) ino) with (inode_length k ino) in E, Hc.
    replace (Z.max 0 (Z.min HEADERSIZE (inode_length k ino - 0))) with HEADERSIZE in E, Hc
      by (unfold HEADERSIZE in *; lia).
    destruct (only_mem_intro _ _ (cp_only _ _ _ _ _ _ Hc)) as [m ->]. exists m. split; [exact E|exact Hc].
Qed.

Lemma load_run k fname i ino pid t :
  length (d_name (currDentry k)) = 32%nat -> found k fname i -> d_inodeNum (entry k i) = ino ->
  file_ok k ino -> paging_ok t k -> aget (page_directory k) 32 = Some (prog_entry pid) -> 0 <= pid < 6 ->
  FOUR_MB <= start_addr k -> start_addr k + image_size k <= 2 * FOUR_MB ->
  exists n m, let k1 := with_k_mem m (set_currDentry (entry k i) k) in
    load fname VADDRPROGIMG k = Some (n, k1) /\
    Z.min (inode_length k ino) MAXBYTES <= n <= MAXBYTES /\
    copied (set_currDentry (entry k i) k) ino 0 VADDRPROGIMG n k1.
Proof.
  intros Hl Hf Hi Hok Hpg Hpd Hpid I1 I2. unfold load, file_load.
  rewrite (file_open_found k fname i Hl Hf).
  change (d_inodeNum (currDentry (set_currDentry (entry k i) k))) with (d_inodeNum (entry k i)). rewrite Hi.
  change (u32 MAXBYTES) with MAXBYTES.
  destruct (read_data_aligned_run (set_currDentry (entry k i) k) ino 0 VADDRPROGIMG MAXBYTES)
    as (k1 & E & Hc).
  - by apply set_currDentry_file_ok.
  - split; [unfold VADDRPROGIMG; lia|unfold VADDRPROGIMG, MAXBYTES; lia| |].
    + change (image_size (set_currDentry (entry k i) k)) with (image_size k).
      change (start_addr (set_currDentry (entry k i) k)) with (start_addr k).
      unfold VADDRPROGIMG, MAXBYTES, FOUR_MB in *. lia.
    + eapply region_mono; [|exact (region_kernel_prog t pid k Hpg Hpid Hpd)]. unfold in_image.
      change (image_size (set_currDentry (entry k i) k)) with (image_size k).
      change (start_addr (set_currDentry (entry k i) k)) with (start_addr k).
      unfold kernel_page, prog_page, span, VADDRPROGIMG, VADDRPROGPAGE, MAXBYTES, FOUR_MB in *. lia.
  - lia.
  - done.
  - unfold MAXBYTES. lia.
  - change (inode_length (set_currDentry (entry k i) k) ino) with (inode_length k ino) in E, Hc.
    destruct (only_mem_intro _ _ (cp_only _ _ _ _ _ _ Hc)) as [m ->].
    eexists _, m. split_and!; [exact E| | |exact Hc].
    + assert (0 <= inode_length k ino) by apply Hok. unfold read_count, MAXBYTES. bdestr; dlia.
    + assert (0 <= inode_length k ino) by apply Hok. unfold read_count, MAXBYTES. bdestr; dlia.
Qed.

(** The image through two page tables that map the kernel page. *)
Lemma same_image_phys t t' k k' : paging_ok t k -> paging_ok t' k' ->
  FOUR_MB <= start_addr k -> start_addr k + image_size k <= 2 * FOUR_MB ->
  start_addr k' = start_addr k -> numinodes k' = numinodes k -> numblocks k' = numblocks k ->
  startdentry k' = startdentry k ->
  (forall a, in_image k a -> ld8 (k_mem k') a = ld8 (k_mem k) a) -> same_image k k'.
Proof.
  intros Hp Hp' I1 I2 E1 E2 E3 E4 Hm. split; try assumption. intros a Ha.
  assert (Hk : kernel_page a) by (unfold in_image, kernel_page, span, FOUR_MB in *; lia).
  rewrite (ld8_phys k a a), (ld8_phys k' a a) by (by eapply phys_kernel_page). by apply Hm.
Qed.

(** ** execute, branch by branch *)

(** The state in which execute has entered the new process: memory [m] with the
    header read, the program's directory entry [d]. *)
Definition entered (m : gmap Z Z) (d : dentry_t) (pid : Z) (t : terminal_t) (p : PCB_struct) (k : kernel) : kernel :=
  prog_mapped pid (put_term (cur_terminal k) (with_curr_process pid t)
    (put_pcb pid (entered_PCB k t (with_pcb_in_use 0 p)) (with_k_mem m (set_currDentry d k)))).

Lemma put_pcb_put_pcb j p q k : put_pcb j p (put_pcb j q k) = put_pcb j p k.
Proof. unfold put_pcb. cbn. by rewrite aset_aset_eq. Qed.

Lemma entered_eq m d pid t p k :
  aget (k_pcbs k) pid = Some p -> aget (terminals k) (cur_terminal k) = Some t ->
  enter_process pid (put_pcb pid (with_pcb_in_use 0 p) (with_k_mem m (set_currDentry d k))) = entered m d pid t p k.
Proof.
  intros Ep Et. pose proof (aget_Some_range _ _ _ Ep) as Hp.
  rewrite (enter_process_eq pid (with_pcb_in_use 0 p) t).
  - rewrite put_pcb_put_pcb. reflexivity.
  - cbn. by apply aget_aset_eq.
  - exact Et.
Qed.

(** The magic number and the entry point in the image. *)
Definition elf_magic (k : kernel) (ino : Z) : bool :=
  (file_byte k ino 0 =? 0x7F) && (file_byte k ino 1 =? 0x45) &&
  (file_byte k ino 2 =? 0x4C) && (file_byte k ino 3 =? 0x46).

Definition elf_entry (k : kernel) (ino : Z) : Z :=
  le32 (file_byte k ino 24) (file_byte k ino 25) (file_byte k ino 26) (file_byte k ino 27).

(** A header read: the memory [m] it leaves. *)
Definition header_read (k : kernel) (i ino : Z) (m : gmap Z Z) : Prop :=
  copied (set_currDentry (entry k i) k) ino 0 (header_buf k) HEADERSIZE (with_k_mem m (set_currDentry (entry k i) k)).

(** The header and the image as the entered process's state has them. *)
Lemma entered_header k m i ino pid t p tt j : exec_ok k -> header_read k i ino m -> paging_ok tt k ->
  0 <= j < HEADERSIZE -> ld8 (entered m (entry k i) pid t p k) (u32 (header_buf k + j)) = file_byte k ino j.
Proof.
  intros Hx Hc Hp Hj. destruct (xo_header _ Hx) as [H1 H2]. unfold FOUR_MB, HEADERSIZE in *.
  rewrite u32_small by lia.
  assert (Hk : kernel_page (header_buf k + j)) by (unfold kernel_page, span, FOUR_MB; lia).
  rewrite (ld8_phys _ _ (header_buf k + j))
    by (apply (phys_kernel_page tt); [by apply prog_mapped_ok|done]).
  pose proof (cp_bytes _ _ _ _ _ _ Hc j Hj) as H.
  rewrite (ld8_phys _ _ (header_buf k + j)) in H by (by apply (phys_kernel_page tt)). exact H.
Qed.

Lemma entered_is_ELF k m i ino pid t p : exec_ok k -> header_read k i ino m ->
  let k' := entered m (entry k i) pid t p k in
  is_ELF (header_buf k) k' = elf_magic k ino /\ entry_point (header_buf k) k' = elf_entry k ino.
Proof.
  intros Hx Hc. cbv zeta. destruct (xo_paging _ Hx) as [tt Hp].
  assert (H : forall j, 0 <= j < HEADERSIZE ->
    ld8 (entered m (entry k i) pid t p k) (u32 (header_buf k + j)) = file_byte k ino j)
    by (intros; by apply (entered_header _ _ _ _ _ _ _ tt)).
  unfold is_ELF, elf_magic, entry_point, elf_entry, HEADERSIZE in *. rewrite !H by lia. split; [|done].
  specialize (H 0 ltac:(lia)). unfold header_buf in *. rewrite Z.add_0_r in H.
  rewrite (u32_small (u32 _)) in H by apply u32_range. by rewrite H.
Qed.

Lemma entered_same_image k m i ino pid t p : exec_ok k -> header_read k i ino m ->
  same_image k (entered m (entry k i) pid t p k).
Proof.
  intros Hx Hc. destruct (xo_paging _ Hx) as [tt Hp]. destruct (xo_image _ Hx) as [I1 I2].
  apply (same_image_phys tt tt); try done; [by apply prog_mapped_ok|].
  intros a Ha. pose proof (xo_apart _ Hx) as Hap.
  apply (cp_phys _ _ _ _ _ _ Hc). intros y Hy.
  change (phys (set_currDentry (entry k i) k) y) with (phys k y).
  destruct (xo_header _ Hx) as [H1 H2]. unfold HEADERSIZE, FOUR_MB, in_image, span in *.
  rewrite (phys_kernel_page tt) by (try done; unfold kernel_page, span, FOUR_MB; lia).
  intros [= ->]. lia.
Qed.

Lemma entered_pd k m d pid t p : length (page_directory k) = 1024%nat ->
  aget (page_directory (entered m d pid t p k)) 32 = Some (prog_entry pid).
Proof. intros Hl. cbn -[prog_entry]. apply aget_aset_eq. rewrite Hl. lia. Qed.

(** The effect of a successful execute. *)
Record launched (k : kernel) (i ino pid : Z) (t : terminal_t) (p : PCB_struct) (k' : kernel) : Prop := {
  la_pcbs : k_pcbs k' = aset (k_pcbs k) pid (entered_PCB k t (with_pcb_in_use 0 p));
  la_sch : k_sch k' = k_sch (put_term (cur_terminal k) (with_curr_process pid t) k);
  la_page : k_pg k' = k_pg (prog_mapped pid k);
  la_tss : tss k' = mkTss (KERNELSTACK - pid * EIGHTKB - KSTACKOFFSET) KERNEL_DS (tss_ldt (tss k));
  la_cpu : k_cpus k' = k_cpus (set_intr_on true k);
  la_image : forall a, 0 <= a < Z.min (inode_length k ino) MAXBYTES ->
    exists q, translate true k' (VADDRPROGIMG + a) = Some q /\ ld8 (k_mem k') q = file_byte k ino a;
  la_mem : forall q, ~ span (header_buf k) HEADERSIZE q -> ~ span ((pid + 2) * FOUR_MB) FOUR_MB q ->
    ld8 (k_mem k') q = ld8 (k_mem k) q;
  la_same : same_image k k';
  la_rest : currDentry k' = entry k i /\ k_faults k' = k_faults k /\ k_con k' = k_con k /\
    k_kb k' = k_kb k /\ k_rtcs k' = k_rtcs k /\ k_pic k' = k_pic k /\ ret_val k' = ret_val k /\
    firstInstruct k' = elf_entry k ino;
  la_args : storeargs k' = storeargs k;
}.

Lemma name32_found k fname i : found k fname i -> found k (agetZ (map fname (seqZ 0 MAXCOMMANDSIZE))) i.
Proof. unfold found. by rewrite name32_temp. Qed.

(** What send_eoi and the flag changes leave alone. *)
Lemma send_eoi_io irq k : exists l, send_eoi irq k = with_k_io (mkIo l (io_dev k)) k.
Proof.
  unfold send_eoi, outb. repeat case_match; cbn; eexists; by destruct k as [? [] ? ? ? ? ? ? ? ? ? ? ?].
Qed.

Lemma enter_user_run pid k : exists k',
  enter_user pid k = (User (firstInstruct k) USER_CS 0x83FFFFC USER_DS, k') /\
  k_mem k' = k_mem k /\ k_pg k' = k_pg k /\ k_pcbs k' = k_pcbs k /\ k_sch k' = k_sch k /\
  tss k' = mkTss (KERNELSTACK - pid * EIGHTKB - KSTACKOFFSET) KERNEL_DS (tss_ldt (tss k)) /\
  firstInstruct k' = firstInstruct k /\ k_fs k' = k_fs k /\ k_cpus k' = k_cpus (set_intr_on true k) /\
  k_faults k' = k_faults k /\ k_con k' = k_con k /\ k_kb k' = k_kb k /\ k_rtcs k' = k_rtcs k /\
  k_pic k' = k_pic k /\ ret_val k' = ret_val k /\ storeargs k' = storeargs k.
Proof.
  unfold enter_user.
  match goal with |- context [send_eoi PIT_IRQ ?s] => destruct (send_eoi_io PIT_IRQ s) as [l ->] end.
  eexists; split; [reflexivity|]. by split_and!.
Qed.

Lemma start_process_run k fname m i ino pid t p :
  exec_ok k -> program k fname i ino -> 0 <= pid < 6 -> header_read k i ino m ->
  exists k', start_process (map fname (seqZ 0 MAXCOMMANDSIZE)) pid
      (set_firstInstruct (elf_entry k ino) (entered m (entry k i) pid t p k)) =
    Some (User (elf_entry k ino) USER_CS 0x83FFFFC USER_DS, k') /\ launched k i ino pid t p k'.
Proof.
  intros Hx Hpr Hpid Hc. destruct (xo_paging _ Hx) as [tt Hp]. destruct (xo_image _ Hx) as [I1 I2].
  pose proof (entered_same_image k m i ino pid t p Hx Hc) as Hs.
  assert (Hpd : aget (page_directory (entered m (entry k i) pid t p k)) 32 = Some (prog_entry pid))
    by (apply entered_pd, Hp).
  set (k1 := set_firstInstruct (elf_entry k ino) (entered m (entry k i) pid t p k)).
  assert (Hs1 : same_image k k1) by (destruct Hs as [S1 S2 S3 S4 S5]; split; assumption).
  destruct (file_same k k1 ino (pr_file _ _ _ _ Hpr) Hs1) as (Hf1 & El1 & Eb1).
  pose proof (found_same k k1 _ i (xo_dir _ Hx) Hs1 (name32_found _ _ _ (pr_found _ _ _ _ Hpr))) as Hfo1.
  destruct (entries_same k k1 i (xo_dir _ Hx) Hs1 (proj1 Hfo1)) as [Een _].
  assert (Ein : d_inodeNum (entry k1 i) = ino) by (rewrite Een; apply (pr_inode _ _ _ _ Hpr)).
  assert (Hl1 : length (d_name (currDentry k1)) = 32%nat).
  { change (currDentry k1) with (entry k i). unfold entry. cbn [d_name]. by rewrite length_map, length_seqZ. }
  assert (Hp1 : paging_ok tt k1) by (by apply prog_mapped_ok).
  assert (Esz : image_size k1 = image_size k) by (by apply same_image_size).
  destruct (load_run k1 (agetZ (map fname (seqZ 0 MAXCOMMANDSIZE))) i ino pid tt Hl1 Hfo1 Ein Hf1 Hp1 Hpd Hpid)
    as (n & m2 & E & Hn & Hc2); [exact I1|rewrite Esz; exact I2|].
  unfold start_process. rewrite E. cbn [mbind option_bind]. clear E. rewrite El1 in Hn.
  rewrite Een in *. destruct (enter_user_run pid (with_k_mem m2 (set_currDentry (entry k i) k1)))
    as (k' & E & Fm & Fpg & Fp & Fs & Ft & Fi & Ffs & Fcpu & Fr).
  rewrite E. clear E. exists k'. split; [reflexivity|]. unfold VADDRPROGIMG, MAXBYTES, FOUR_MB in *.
  assert (Hprog : forall y, span 0x08048000 n y -> phys k1 y = Some ((pid + 2) * 4194304 + (y - 0x08000000))).
  { intros y Hy. apply (translate_prog false pid k1); [apply Hp1|exact Hpd|].
    unfold prog_page, span, VADDRPROGPAGE, FOUR_MB in *. lia. }
  assert (Hmem : forall q, ~ span ((pid + 2) * 4194304) 4194304 q -> ld8 m2 q = ld8 m q).
  { intros q Hq. apply (cp_phys _ _ _ _ _ _ Hc2). intros y Hy.
    change (phys (set_currDentry (entry k i) k1) y) with (phys k1 y). rewrite Hprog by done.
    intros [= <-]. apply Hq. unfold span in *. lia. }
  split.
  - exact Fp.
  - exact Fs.
  - exact Fpg.
  - exact Ft.
  - exact Fcpu.
  - unfold VADDRPROGIMG, MAXBYTES. intros a Ha. exists ((pid + 2) * 4194304 + (0x08048000 + a - 0x08000000)). split.
    + rewrite Fpg. apply (translate_prog true pid k1); [apply Hp1|exact Hpd|].
      unfold prog_page, span, VADDRPROGPAGE, FOUR_MB. lia.
    + pose proof (cp_bytes _ _ _ _ _ _ Hc2 a ltac:(lia)) as H.
      rewrite (ld8_phys _ _ ((pid + 2) * 4194304 + (0x08048000 + a - 0x08000000))) in H
        by (apply (Hprog (0x08048000 + a)); unfold span; lia).
      rewrite Fm. etrans; [exact H|]. apply Eb1. lia.
  - unfold FOUR_MB. intros q Hq1 Hq2. rewrite Fm. etrans; [by apply Hmem|]. apply (cp_phys _ _ _ _ _ _ Hc). intros y Hy.
    change (phys (set_currDentry (entry k i) k) y) with (phys k y).
    destruct (xo_header _ Hx) as [H1 H2]. unfold FOUR_MB in *.
    rewrite (phys_kernel_page tt); [|exact Hp|unfold kernel_page, span, FOUR_MB, HEADERSIZE in *; lia].
    intros [= ->]. exact (Hq1 Hy).
  - destruct Hs1 as [S1 S2 S3 S4 _]. apply (same_image_phys tt tt);
      rewrite ?Ffs; try assumption; [by rewrite Fpg|].
    intros a Ha. rewrite Fm. etrans; [apply Hmem; unfold in_image, span, FOUR_MB in *; lia|].
    pose proof (si_bytes _ _ Hs a Ha) as H.
    assert (Hk : kernel_page a) by (unfold in_image, kernel_page, span, FOUR_MB in *; lia).
    rewrite !(ld8_phys _ a a) in H; [exact H|by apply (phys_kernel_page tt)|by apply (phys_kernel_page tt)].
  - rewrite Ffs. destruct Fr as (F1 & F2 & F3 & F4 & F5 & F6 & _). split_and!; assumption || reflexivity.
  - exact (proj2 (proj2 (proj2 (proj2 (proj2 (proj2 Fr)))))).
Qed.

(** The least free process. *)
Definition least_free (k : kernel) (pid : Z) (p : PCB_struct) : Prop :=
  0 <= pid < 6 /\ aget (k_pcbs k) pid = Some p /\ pcb_in_use p = -1 /\
  forall j, 0 <= j < pid -> pcb_in_use (get_PCB k j) = 0.

Definition all_used (k : kernel) : Prop := forall j, 0 <= j < 6 -> pcb_in_use (get_PCB k j) = 0.

Lemma least_free_unique k pid p pid' p' : least_free k pid p -> least_free k pid' p' -> pid' = pid /\ p' = p.
Proof.
  intros (A1 & A2 & A3 & A4) (B1 & B2 & B3 & B4).
  assert (Ea : forall j q, aget (k_pcbs k) j = Some q -> get_PCB k j = q)
    by (intros j q Eq; unfold get_PCB; by rewrite Eq).
  assert (pid' = pid) as ->; [|split; congruence].
  destruct (decide (pid < pid')); [specialize (B4 pid ltac:(lia)); rewrite (Ea _ _ A2) in B4; lia|].
  destruct (decide (pid' < pid)); [specialize (A4 pid' ltac:(lia)); rewrite (Ea _ _ B2) in A4; lia|lia].
Qed.

Lemma least_free_not_all k pid p : least_free k pid p -> ~ all_used k.
Proof. intros (A1 & A2 & A3 & _) H. specialize (H pid A1). unfold get_PCB in H. rewrite A2 in H. cbn in H. lia. Qed.

Lemma getPID_cases k : pcbs_ok (k_pcbs k) ->
  (all_used k /\ forall m d, getPID (with_k_mem m (set_currDentry d k)) = (-1, with_k_mem m (set_currDentry d k))) \/
  (exists pid p, least_free k pid p /\ forall m d, getPID (with_k_mem m (set_currDentry d k)) =
     (pid, put_pcb pid (with_pcb_in_use 0 p) (with_k_mem m (set_currDentry d k)))).
Proof.
  intros Hok.
  assert (H : forall k1, k_pcbs k1 = k_pcbs k ->
    (all_used k /\ getPID k1 = (-1, k1)) \/
    (exists pid p, least_free k pid p /\ getPID k1 = (pid, put_pcb pid (with_pcb_in_use 0 p) k1))).
  { intros k1 E. assert (Eg : forall j, get_PCB k1 j = get_PCB k j) by (intros; unfold get_PCB; by rewrite E).
    pose proof (getPID_run k1 ltac:(by rewrite E)) as Hs. destruct (getPID k1) as [pid k'].
    cbn [fst snd] in Hs. destruct Hs as [(-> & -> & Hall)|(Hp & Hf & Hlow & ->)].
    - left. split; [|done]. intros j Hj. rewrite <- Eg. by apply Hall.
    - right. destruct (pcbs_get k pid Hok Hp) as (p & Ep & Egp & _). exists pid, p.
      rewrite Eg, Egp in *. split; [|done]. split_and!; [lia|lia|done|done|].
      intros j Hj. rewrite <- Eg. by apply Hlow. }
  destruct (H k eq_refl) as [[Hall _]|(pid & p & Hl & _)]; [left|right].
  - split; [done|]. intros m d.
    destruct (H (with_k_mem m (set_currDentry d k)) eq_refl) as [[_ E]|(pid & p & Hl & _)]; [exact E|].
    by destruct (least_free_not_all _ _ _ Hl).
  - exists pid, p. split; [done|]. intros m d.
    destruct (H (with_k_mem m (set_currDentry d k)) eq_refl) as [[Hall _]|(pid' & p' & Hl' & E)];
      [by destruct (least_free_not_all _ _ _ Hl)|].
    destruct (least_free_unique _ _ _ _ _ Hl Hl') as [-> ->]. exact E.
Qed.

(** execute on an existing program, up to the choice of the process. *)
Lemma execute_found k fname i ino : exec_ok k -> program k fname i ino ->
  exists m, header_read k i ino m /\
  execute fname k =
    (let k1 := with_k_mem m (set_currDentry (entry k i) k) in
     let '(pid, k2) := getPID k1 in
     if pid =? -1 then Some (Ret (-1), k2)
     else let k3 := enter_process pid k2 in
       if is_ELF (header_buf k) k3
       then start_process (map fname (seqZ 0 MAXCOMMANDSIZE)) pid (set_firstInstruct (entry_point (header_buf k) k3) k3)
       else Some (Ret (-1), k3)).
Proof.
  intros Hx Hpr. destruct (read_ELF_run k fname i ino Hx Hpr) as (m & E & Hc). exists m. split; [exact Hc|].
  unfold execute. rewrite E. cbn [mbind option_bind]. reflexivity.
Qed.

Lemma execute_all_used k fname i ino : exec_ok k -> program k fname i ino -> all_used k ->
  exists m, header_read k i ino m /\
    execute fname k = Some (Ret (-1), with_k_mem m (set_currDentry (entry k i) k)).
Proof.
  intros Hx Hpr Hall. destruct (execute_found k fname i ino Hx Hpr) as (m & Hc & E). exists m. split; [exact Hc|].
  rewrite E. clear E. cbv zeta. destruct (getPID_cases k (xo_pcbs _ Hx)) as [[_ E]|(pid & p & Hl & _)].
  - rewrite E. reflexivity.
  - by destruct (least_free_not_all _ _ _ Hl).
Qed.

Lemma execute_run k fname i ino pid p t : exec_ok k -> program k fname i ino -> least_free k pid p ->
  aget (terminals k) (cur_terminal k) = Some t ->
  if elf_magic k ino
  then exists k', execute fname k = Some (User (elf_entry k ino) USER_CS 0x83FFFFC USER_DS, k') /\
         launched k i ino pid t p k'
  else exists m, header_read k i ino m /\ execute fname k = Some (Ret (-1), entered m (entry k i) pid t p k).
Proof.
  intros Hx Hpr Hl Et. destruct (execute_found k fname i ino Hx Hpr) as (m & Hc & E).
  assert (Eg : getPID (with_k_mem m (set_currDentry (entry k i) k)) =
    (pid, put_pcb pid (with_pcb_in_use 0 p) (with_k_mem m (set_currDentry (entry k i) k)))).
  { destruct (getPID_cases k (xo_pcbs _ Hx)) as [[Hall _]|(pid' & p' & Hl' & E')];
      [by destruct (least_free_not_all _ _ _ Hl)|].
    destruct (least_free_unique _ _ _ _ _ Hl Hl') as [-> ->]. apply E'. }
  destruct Hl as (A1 & A2 & A3 & A4). cbv zeta in E. rewrite Eg, (proj2 (Z.eqb_neq pid (-1))) in E by lia.
  rewrite (entered_eq m (entry k i) pid t p k A2 Et) in E.
  destruct (entered_is_ELF k m i ino pid t p Hx Hc) as [E1 E2]. rewrite E1, E2 in E.
  destruct (elf_magic k ino).
  - destruct (start_process_run k fname m i ino pid t p Hx Hpr A1 Hc) as (k' & E3 & Hla).
    exists k'. split; [|exact Hla]. rewrite E. exact E3.
  - exists m. split; [exact Hc|exact E].
Qed.

Lemma execute_missing k fname : exec_ok k -> (forall i, 0 <= i < 64 -> entry_name k i <> name32 fname) ->
  execute fname k = Some (Ret (-1), k).
Proof.
  intros Hx Hno. unfold execute, read_ELF. rewrite (file_open_missing k fname (xo_dentry _ Hx) Hno). reflexivity.
Qed.

(** ** What execute sees after the console was written *)

Lemma same_image_console t k k' : con_frame k k' -> mem_frame k k' -> paging_ok t k ->
  FOUR_MB <= start_addr k -> start_addr k + image_size k <= 2 * FOUR_MB -> same_image k k'.
Proof.
  intros Hf Hm Hp I1 I2. split; try (by rewrite Hf). intros a Ha. apply Hm. intros y Hy. simpl.
  assert (Hk : kernel_page a) by (unfold in_image, kernel_page, span, FOUR_MB in *; lia).
  unfold span, VIDEO in Hy. unfold phys at 1. rewrite (translate_low t k y Hp) by lia.
  rewrite (phys_kernel_page t k a Hp Hk). intros x q [= <-] [= <-].
  assert (0 <= t <= 3) by apply Hp. unfold kernel_page, span, FOUR_MB in Hk. destruct (y <? 757760); lia.
Qed.

Lemma program_image k k' fname i ino : dir_in_image k -> same_image k k' -> program k fname i ino ->
  program k' fname i ino /\ elf_magic k' ino = elf_magic k ino /\ elf_entry k' ino = elf_entry k ino.
Proof.
  intros Hx Hs [Hf Hi Hok Hl]. destruct (file_same k k' ino Hok Hs) as (Hok' & El & Eb).
  unfold elf_magic, elf_entry, HEADERSIZE in *. rewrite !Eb by lia. split; [|done].
  destruct (entries_same k k' i Hx Hs (proj1 Hf)) as [Ee _]. split; try done.
  - by apply (found_same k k' fname i Hx).
  - by rewrite Ee.
  - by rewrite El.
Qed.

Lemma program_same k k' fname i ino : exec_ok k -> same_image k k' -> program k fname i ino ->
  program k' fname i ino /\ elf_magic k' ino = elf_magic k ino /\ elf_entry k' ino = elf_entry k ino.
Proof. intros Hx. exact (program_image k k' fname i ino (xo_dir _ Hx)). Qed.
