(* ===== verification/Halt.v ===== *)
(** * Ending a process (halt.c) and the stacks of processes

    halt frees the current process and resumes its parent inside the parent's
    execute; a base shell is started again instead.  Each terminal runs the top
    of a stack of processes linked by parent_pid: execute pushes, halt pops. *)

From Stdlib Require Import ZArith Lia.
From Stdlib Require Import String.
From stdpp Require Import base numbers list gmap.
From S2P Require Import Prelude Memory State Machine Paging Console Pcb Filesys Schedule Execute.

Open Scope Z_scope.
Implicit Types k kp : kernel.

(** ** The code *)

(** The literal; what follows its NUL is never looked at. *)
Definition shell_name : Z -> Z := agetZ (codes "shell").

(** The endless loop of halt for a base shell, which execute leaves when the new
    shell starts; each round of the fuel is one attempt. *)
Fixpoint restart_shell (fuel : nat) (curr_pcb : Z) (k : kernel) : option (outcome * kernel) :=
  match fuel with
  | O => None
  | S f =>
      let k := upd_PCB curr_pcb (with_pcb_in_use (-1)) k in
      let k := upd_terminal curr_pcb (with_curr_process (-1)) k in
      '(_, k) ← printf 5 (lit (codes "Ree-")) (fun _ => 0) k;
      '(o, k) ← execute shell_name k;
      match o with
      | Ret _ => restart_shell f curr_pcb k
      | _ => Some (o, k)
      end
  end.

(** The descriptors of the process. *)
Definition close_fds (pid : Z) (k : kernel) : kernel :=
  for_range 2 8 (fun i k =>
    let k := upd_fdt pid i (with_file_pos 0) k in
    let k := upd_fdt pid i (with_fd_fileType (-1)) k in
    let k := upd_fdt pid i (with_present (-1)) k in
    let k := upd_fdt pid i (with_inode_number (-1)) k in
    upd_fdt pid i (with_jump_start_idx None) k) k.

Definition clear_args (pid : Z) (k : kernel) : kernel :=
  for_range 0 (1024 - 1) (fun i k => upd_PCB pid (fun p => with_pcb_args (aset (pcb_args p) i 0) p) k) k.

(** The context of the caller and the process's record; the result is the
    saved stack pointer, frame pointer, address and parent. *)
Definition release_PCB (pid : Z) (k : kernel) : (Z * Z * Z * Z) * kernel :=
  let esp := pcb_esp (get_PCB k pid) in
  let k := upd_PCB pid (with_pcb_esp (-1)) k in
  let ebp := pcb_ebp (get_PCB k pid) in
  let k := upd_PCB pid (with_pcb_ebp (-1)) k in
  let addr := return_label_add (get_PCB k pid) in
  let k := upd_PCB pid (with_return_label_add (-1)) k in
  let parent := parent_pid (get_PCB k pid) in
  let k := upd_PCB pid (with_parent_pid (-1)) k in
  ((esp, ebp, addr, parent), k).

(** Back to the caller. *)
Definition resume_parent (pid : Z) (ctx : Z * Z * Z * Z) (k : kernel) : outcome * kernel :=
  let '(esp, ebp, addr, parent) := ctx in
  let k := set_tss (with_tss_ss0 (u16 (pcb_ss0 (get_PCB k pid))) (tss k)) k in
  let k := set_tss (with_tss_esp0 (u32 (pcb_esp0 (get_PCB k pid))) (tss k)) k in
  let k := upd_terminal (cur_terminal k) (with_curr_process parent) k in
  let k := map_page ((parent + PIDOFFSET) * FOUR_MB) VADDRPROGPAGE USWFLAGS k in
  let k := sti k in
  let k := set_cpu_ebp (u32 ebp) (set_cpu_esp (u32 esp) k) in
  (Jump (u32 addr), k).

(** halt of a process that has a parent. *)
Definition end_process (curr_pcb : Z) (k : kernel) : outcome * kernel :=
  let k := close_fds curr_pcb k in
  let k := upd_PCB curr_pcb (with_pcb_in_use (-1)) k in
  let k := clear_args curr_pcb k in
  let '(ctx, k) := release_PCB curr_pcb k in
  resume_parent curr_pcb ctx k.

Definition halt (fuel : nat) (status : Z) (k : kernel) : option (outcome * kernel) :=
  let k := cli k in
  let curr_pcb := curr_process (get_terminal k (cur_terminal k)) in
  if parent_pid (get_PCB k curr_pcb) =? -1 then restart_shell fuel curr_pcb k
  else Some (end_process curr_pcb k).

(** ** The record of an ended process *)

Definition closed_fd : fd_table_entry_t := mkFd (-1) 0 (-1) None (-1).

Definition released (p : PCB_struct) : PCB_struct :=
  mkPCB (take 2 (fd_table p) ++ replicate 6 closed_fd) (-1) (-1) (-1) (task_esp p) (task_ebp p)
    (pcb_esp0 p) (pcb_ss0 p) (-1) (-1) (replicate 1023 0 ++ drop 1023 (pcb_args p)).

Lemma close_fd_step pid i p k : 0 <= pid < Z.of_nat (length (k_pcbs k)) ->
  0 <= i < Z.of_nat (length (fd_table p)) ->
  (let k := upd_fdt pid i (with_file_pos 0) (put_pcb pid p k) in
   let k := upd_fdt pid i (with_fd_fileType (-1)) k in
   let k := upd_fdt pid i (with_present (-1)) k in
   let k := upd_fdt pid i (with_inode_number (-1)) k in
   upd_fdt pid i (with_jump_start_idx None) k) =
  put_pcb pid (with_fd_table (aset (fd_table p) i closed_fd) p) k.
Proof.
  intros Hp Hi. destruct (aget_range_Some (fd_table p) i Hi) as [e E]. cbv zeta.
  rewrite (put_upd_fdt _ _ _ _ e) by done.
  do 4 (erewrite put_upd_fdt; [|done|cbn; apply aget_aset_eq; rewrite ?length_aset; exact Hi]).
  cbn. by rewrite !aset_aset_eq.
Qed.

Lemma close_fds_eq pid p k : 0 <= pid < Z.of_nat (length (k_pcbs k)) -> length (fd_table p) = 8%nat ->
  close_fds pid (put_pcb pid p k) = put_pcb pid (with_fd_table (take 2 (fd_table p) ++ replicate 6 closed_fd) p) k.
Proof.
  intros Hp Hl. unfold close_fds.
  change (for_range 2 8 ?b ?s) with (b 7 (b 6 (b 5 (b 4 (b 3 (b 2 s)))))). cbv beta.
  do 6 (rewrite close_fd_step by (done || (cbn; rewrite ?length_aset, Hl; lia))).
  f_equal. destruct p as [fds ? ? ? ? ? ? ? ? ? ?]. cbn in *.
  do 8 (destruct fds as [|? fds]; [discriminate|]). by destruct fds.
Qed.

Lemma clear_args_eq pid p k : 0 <= pid < Z.of_nat (length (k_pcbs k)) -> length (pcb_args p) = 1024%nat ->
  clear_args pid (put_pcb pid p k) =
  put_pcb pid (with_pcb_args (replicate 1023 0 ++ drop 1023 (pcb_args p)) p) k.
Proof.
  intros Hp Hl. unfold clear_args.
  pose proof (for_range_inv 0 (1024 - 1)
    (fun i k => upd_PCB pid (fun p => with_pcb_args (aset (pcb_args p) i 0) p) k) (put_pcb pid p k)
    (fun i s => s = put_pcb pid (with_pcb_args (replicate (Z.to_nat i) 0 ++ drop (Z.to_nat i) (pcb_args p)) p) k))
    as H. apply H; [lia|by destruct p|]. clear H.
  intros i s Hi ->. rewrite put_upd_PCB by done. apply (f_equal (fun q => put_pcb pid q k)). destruct p as [? ? ? ? ? ? ? ? ? ? args]. unfold with_pcb_args. cbn in *.
  f_equal. replace (Z.to_nat (i + 1)) with (S (Z.to_nat i)) by lia.
  assert (E : exists x r, drop (Z.to_nat i) args = x :: r).
  { destruct (drop (Z.to_nat i) args) as [|x r] eqn:E; [|eauto].
    apply (f_equal length) in E. rewrite length_drop in E. cbn in E. lia. }
  destruct E as (x & r & E). assert (Er : drop (S (Z.to_nat i)) args = r).
  { replace (S (Z.to_nat i)) with (Z.to_nat i + 1)%nat by lia. by rewrite <- drop_drop, E. }
  rewrite E, Er. unfold aset. rewrite (proj2 (in_range_true _ _))
    by (rewrite length_app, length_replicate; cbn; lia).
  rewrite insert_app_r_alt by (rewrite length_replicate; lia). rewrite length_replicate, Nat.sub_diag. cbn.
  change (0 :: replicate ?n 0 ++ r) with (replicate (S n) 0 ++ r). by rewrite replicate_S_end, <- app_assoc.
Qed.

(** ** halt of a process with a parent *)

Definition parent_tss (p : PCB_struct) (k : kernel) : tss_t :=
  mkTss (u32 (pcb_esp0 p)) (u16 (pcb_ss0 p)) (tss_ldt (tss k)).

(** The state halt leaves, up to the registers. *)
Definition popped (pid : Z) (p : PCB_struct) (t : terminal_t) (k : kernel) : kernel :=
  prog_mapped (parent_pid p) (put_term (cur_terminal k) (with_curr_process (parent_pid p) t)
    (set_tss (parent_tss p k) (put_pcb pid (released p) k))).

Definition resumed (p : PCB_struct) (k : kernel) : kernel :=
  set_cpu_ebp (u32 (pcb_ebp p)) (set_cpu_esp (u32 (pcb_esp p)) (set_intr_on true k)).

Lemma resume_parent_eq pid q t esp ebp addr parent k :
  aget (terminals k) (cur_terminal k) = Some t -> 0 <= pid < Z.of_nat (length (k_pcbs k)) ->
  resume_parent pid (esp, ebp, addr, parent) (put_pcb pid q k) =
  (Jump (u32 addr), set_cpu_ebp (u32 ebp) (set_cpu_esp (u32 esp) (set_intr_on true
     (prog_mapped parent (put_term (cur_terminal k) (with_curr_process parent t)
       (set_tss (mkTss (u32 (pcb_esp0 q)) (u16 (pcb_ss0 q)) (tss_ldt (tss k))) (put_pcb pid q k))))))).
Proof.
  intros Et Hp. unfold resume_parent. rewrite map_page_prog_eq.
  assert (E1 : forall a, get_PCB (set_tss a (put_pcb pid q k)) pid = q)
    by (intros a; etrans; [exact (put_pcb_get pid q k pid Hp)|by rewrite Z.eqb_refl]).
  rewrite put_pcb_get, Z.eqb_refl, E1 by exact Hp. unfold upd_terminal, put_term.
  cbn -[u32 u16 prog_mapped aset aget FOUR_MB]. rewrite Et. reflexivity.
Qed.

Lemma end_process_eq k pid p t :
  aget (terminals k) (cur_terminal k) = Some t -> aget (k_pcbs k) pid = Some p ->
  length (fd_table p) = 8%nat -> length (pcb_args p) = 1024%nat ->
  end_process pid k = (Jump (u32 (return_label_add p)), resumed p (popped pid p t k)).
Proof.
  intros Et Ep Hl Ha. pose proof (aget_Some_range _ _ _ Ep) as Hp.
  transitivity (end_process pid (put_pcb pid p k)); [by rewrite <- put_pcb_self|].
  unfold end_process. rewrite (close_fds_eq pid p k Hp Hl). rewrite put_upd_PCB by exact Hp.
  rewrite clear_args_eq by assumption. unfold release_PCB. rewrite !put_upd_PCB by exact Hp.
  rewrite !put_pcb_get, !Z.eqb_refl by exact Hp.
  rewrite (resume_parent_eq pid _ t) by assumption. destruct p. reflexivity.
Qed.

Lemma halt_child fuel status k pid p t :
  aget (terminals k) (cur_terminal k) = Some t -> curr_process t = pid ->
  aget (k_pcbs k) pid = Some p -> parent_pid p <> -1 ->
  length (fd_table p) = 8%nat -> length (pcb_args p) = 1024%nat ->
  halt fuel status k = Some (Jump (u32 (return_label_add p)), resumed p (popped pid p t k)).
Proof.
  intros Et Ec Ep Hne Hl Ha. unfold halt.
  assert (Egt : get_terminal (cli k) (cur_terminal (cli k)) = t)
    by (unfold get_terminal; cbn; by rewrite Et).
  assert (Egp : get_PCB (cli k) pid = p) by (unfold get_PCB; cbn; by rewrite Ep).
  rewrite Egt, Ec, Egp, (proj2 (Z.eqb_neq _ _) Hne).
  rewrite (end_process_eq (cli k) pid p t) by assumption. reflexivity.
Qed.

(** ** Stacks of processes *)

(** [l] lists process [q], its parent, and so on up to a base shell. *)
Fixpoint chain (k : kernel) (q : Z) (l : list Z) : Prop :=
  match l with
  | [] => q = -1
  | pid :: l' => q = pid /\ 0 <= pid < 6 /\ chain k (parent_pid (get_PCB k pid)) l'
  end.

Definition all_procs (st : Z -> list Z) : list Z := st 0 ++ st 1 ++ st 2.

(** The processes in use are those of the three stacks, each on one of them
    once; [st t] is terminal [t]'s. *)
Record procs_ok (k : kernel) (st : Z -> list Z) : Prop := {
  po_pcbs : pcbs_ok (k_pcbs k);
  po_args : Forall (fun p => length (pcb_args p) = 1024%nat) (k_pcbs k);
  po_terms : length (terminals k) = 3%nat;
  po_cur : 0 <= cur_terminal k < 3;
  po_chain : forall t, 0 <= t < 3 -> chain k (curr_process (get_terminal k t)) (st t);
  po_nodup : NoDup (all_procs st);
  po_used : forall pid, 0 <= pid < 6 -> (pcb_in_use (get_PCB k pid) = 0 <-> pid ∈ all_procs st);
}.

Definition push (c pid : Z) (st : Z -> list Z) : Z -> list Z := fun t => if t =? c then pid :: st t else st t.
Definition pop (c : Z) (st : Z -> list Z) : Z -> list Z := fun t => if t =? c then tail (st t) else st t.

(** The bottom of terminal [t]'s stack is process [t], its base shell. *)
Definition based (st : Z -> list Z) : Prop := forall t, 0 <= t < 3 -> last (st t) = Some t.

(** The least process on no stack. *)
Definition fresh (st : Z -> list Z) (pid : Z) : Prop :=
  0 <= pid < 6 /\ (pid ∉ all_procs st) /\ forall j, 0 <= j < pid -> j ∈ all_procs st.

Definition full (st : Z -> list Z) : Prop := forall j, 0 <= j < 6 -> j ∈ all_procs st.

Lemma all_push c pid st : 0 <= c < 3 -> all_procs (push c pid st) ≡ₚ (pid :: all_procs st).
Proof.
  intros Hc. unfold all_procs, push. assert (c = 0 \/ c = 1 \/ c = 2) as [->|[->| ->]] by lia; cbn;
    by rewrite <- ?Permutation_middle.
Qed.

Lemma all_pop c pid l st : 0 <= c < 3 -> st c = pid :: l -> all_procs st ≡ₚ (pid :: all_procs (pop c st)).
Proof.
  intros Hc E. unfold all_procs, pop. assert (c = 0 \/ c = 1 \/ c = 2) as [->|[->| ->]] by lia;
    rewrite E; cbn; by rewrite <- ?Permutation_middle.
Qed.

Lemma chain_range k q l : chain k q l -> Forall (fun pid => 0 <= pid < 6) l.
Proof. revert q. induction l as [|pid l IH]; intros q; cbn; [constructor|]. intros (_ & H1 & H2). eauto. Qed.

Lemma chain_frame k k' q l : chain k q l ->
  (forall pid, pid ∈ l -> parent_pid (get_PCB k' pid) = parent_pid (get_PCB k pid)) -> chain k' q l.
Proof.
  revert q. induction l as [|pid l IH]; intros q; cbn; [done|]. intros (-> & Hr & Hc) H.
  split_and!; [done|lia|lia|]. rewrite H by constructor. apply IH; [done|]. intros x Hx. apply H. by constructor.
Qed.

Lemma in_all st t pid : 0 <= t < 3 -> pid ∈ st t -> pid ∈ all_procs st.
Proof.
  intros Ht H. unfold all_procs. rewrite !elem_of_app.
  assert (t = 0 \/ t = 1 \/ t = 2) as [->|[->| ->]] by lia; auto.
Qed.

Lemma all_range k st pid : procs_ok k st -> pid ∈ all_procs st -> 0 <= pid < 6.
Proof.
  intros Hp. unfold all_procs. rewrite !elem_of_app.
  assert (H : forall t, 0 <= t < 3 -> pid ∈ st t -> 0 <= pid < 6).
  { intros t Ht Hin. pose proof (chain_range _ _ _ (po_chain _ _ Hp t Ht)) as Hf.
    rewrite Forall_forall in Hf. by apply Hf. }
  intros [?|[?|?]]; [apply (H 0)|apply (H 1)|apply (H 2)]; done || lia.
Qed.

Lemma not_in_use k st pid : procs_ok k st -> 0 <= pid < 6 -> pid ∉ all_procs st ->
  pcb_in_use (get_PCB k pid) = -1.
Proof.
  intros Hp Hr Hn. destruct (pcbs_get k pid (po_pcbs _ _ Hp) Hr) as (p & _ & Eg & Hok).
  destruct (po_used _ _ Hp pid Hr) as [H _]. rewrite Eg in *.
  destruct Hok as (_ & [E|E] & _); [destruct Hn; by apply H|done].
Qed.

(** The flags of PCB_array and the stacks agree on what is free. *)
Lemma fresh_least_free k st pid : procs_ok k st -> fresh st pid -> least_free k pid (get_PCB k pid).
Proof.
  intros Hp (Hr & Hn & Hl). destruct (pcbs_get k pid (po_pcbs _ _ Hp) Hr) as (p & Ep & Eg & _).
  split_and!; [lia|lia|by rewrite Eg|by eapply not_in_use|].
  intros j Hj. apply (po_used _ _ Hp); [lia|]. by apply Hl.
Qed.

Lemma full_all_used k st : procs_ok k st -> full st -> all_used k.
Proof. intros Hp Hf j Hj. apply (po_used _ _ Hp); [done|]. by apply Hf. Qed.

Lemma pop_push c pid st t : pop c (push c pid st) t = st t.
Proof. unfold pop, push. by destruct (t =? c). Qed.

Lemma procs_ok_ext k st st' : (forall t, 0 <= t < 3 -> st' t = st t) -> procs_ok k st -> procs_ok k st'.
Proof.
  intros E [H1 H2 H3 H4 H5 H6 H7]. assert (Ea : all_procs st' = all_procs st) by (unfold all_procs; by rewrite !E by lia).
  split; rewrite ?Ea; auto. intros t Ht. rewrite E by done. by apply H5.
Qed.

Lemma aset_get_PCB k k' pid q : k_pcbs k' = aset (k_pcbs k) pid q -> 0 <= pid < Z.of_nat (length (k_pcbs k)) ->
  forall j, get_PCB k' j = if pid =? j then q else get_PCB k j.
Proof.
  intros E Hp j. unfold get_PCB. rewrite E, aget_aset, (proj2 (in_range_true _ _) Hp), andb_true_r.
  by destruct (pid =? j).
Qed.

Lemma put_term_get k k' c t : k_sch k' = k_sch (put_term c t k) -> 0 <= c < Z.of_nat (length (terminals k)) ->
  forall j, get_terminal k' j = if c =? j then t else get_terminal k j.
Proof.
  intros E Hc j. rewrite <- (get_put_term c t k j Hc). unfold get_terminal. by rewrite E.
Qed.

(** ** Pushing and popping keep the invariant *)

Lemma pcbs_ok_aset k k' pid q : pcbs_ok (k_pcbs k) -> pcb_ok q -> k_pcbs k' = aset (k_pcbs k) pid q ->
  pcbs_ok (k_pcbs k').
Proof. intros Hk Hq ->. exact (pcbs_ok_put pid q k Hk Hq). Qed.

Lemma procs_ok_push k k' st pid t p : procs_ok k st -> fresh st pid ->
  aget (k_pcbs k) pid = Some p -> aget (terminals k) (cur_terminal k) = Some t ->
  k_pcbs k' = aset (k_pcbs k) pid (entered_PCB k t (with_pcb_in_use 0 p)) ->
  k_sch k' = k_sch (put_term (cur_terminal k) (with_curr_process pid t) k) ->
  procs_ok k' (push (cur_terminal k) pid st).
Proof.
  intros Hk (Hr & Hn & _) Ep Et Epc Esc. pose proof Hk as [Hp Ha Hl Hc Hch Hnd Hu].
  pose proof (aget_Some_range _ _ _ Ep) as Hpid. pose proof (aget_Some_range _ _ _ Et) as Hcr.
  pose proof (aset_get_PCB k k' pid _ Epc Hpid) as Eg.
  pose proof (put_term_get k k' _ _ Esc Hcr) as Egt.
  assert (Hpok : pcb_ok p) by (eapply Forall_aget; [apply Hp|exact Ep]).
  assert (Ecp : curr_process t = curr_process (get_terminal k (cur_terminal k)))
    by (unfold get_terminal; by rewrite Et).
  assert (Hsame : forall q l, chain k q l -> pid ∉ l -> chain k' q l).
  { intros q l Hql Hnl. eapply chain_frame; [exact Hql|]. intros x Hx. rewrite Eg.
    destruct (Z.eqb_spec pid x) as [->|]; [done|done]. }
  assert (Hcur : cur_terminal k' = cur_terminal k) by (by rewrite Esc).
  split.
  - eapply pcbs_ok_aset; [exact Hp| |exact Epc]. destruct Hpok as (H1 & H2 & H3). split_and!; cbn; auto. by left.
  - rewrite Epc. apply Forall_aset; [done|]. cbn. apply (Forall_aget _ _ _ _ Ha Ep).
  - rewrite Esc. cbn. by rewrite length_aset.
  - by rewrite Hcur.
  - intros j Hj. rewrite Egt. unfold push. rewrite (Z.eqb_sym j). destruct (Z.eqb_spec (cur_terminal k) j) as [<-|].
    + cbn. split_and!; [done|lia|lia|]. rewrite Eg, Z.eqb_refl. cbn. rewrite Ecp.
      apply Hsame; [by apply Hch|]. intros H. apply Hn. by eapply in_all.
    + apply Hsame; [by apply Hch|]. intros H. apply Hn. by eapply in_all.
  - rewrite (all_push _ _ _ Hc). by constructor.
  - intros j Hj. rewrite (all_push _ _ _ Hc), elem_of_cons, Eg. destruct (Z.eqb_spec pid j) as [<-|Hne].
    + cbn. split; [by left|done].
    + rewrite (Hu j Hj). split; [by right|intros [->|?]; done].
Qed.

(** A process leaves its terminal's stack: its record says so, and the terminal
    runs the parent. *)
Lemma procs_ok_pop k k' st pid l t p q : procs_ok k st -> st (cur_terminal k) = pid :: l ->
  aget (k_pcbs k) pid = Some p -> aget (terminals k) (cur_terminal k) = Some t ->
  k_pcbs k' = aset (k_pcbs k) pid q -> pcb_ok q -> length (pcb_args q) = 1024%nat -> pcb_in_use q = -1 ->
  k_sch k' = k_sch (put_term (cur_terminal k) (with_curr_process (parent_pid p) t) k) ->
  procs_ok k' (pop (cur_terminal k) st).
Proof.
  intros Hk Est Ep Et Epc Hqok Hqa Hqu Esc. pose proof Hk as [Hp Ha Hl Hc Hch Hnd Hu].
  pose proof (aget_Some_range _ _ _ Ep) as Hpid. pose proof (aget_Some_range _ _ _ Et) as Hcr.
  pose proof (aset_get_PCB k k' pid _ Epc Hpid) as Eg. pose proof (put_term_get k k' _ _ Esc Hcr) as Egt.
  rewrite (all_pop _ _ _ _ Hc Est) in Hnd. apply NoDup_cons in Hnd as [Hn Hnd].
  assert (Ecp : get_PCB k pid = p) by (unfold get_PCB; by rewrite Ep).
  assert (Hsame : forall x l, chain k x l -> pid ∉ l -> chain k' x l).
  { intros x l' Hql Hnl. eapply chain_frame; [exact Hql|]. intros y Hy. rewrite Eg.
    destruct (Z.eqb_spec pid y) as [->|]; [done|done]. }
  assert (Hcur : cur_terminal k' = cur_terminal k) by (by rewrite Esc).
  assert (Hni : forall j, 0 <= j < 3 -> pid ∉ pop (cur_terminal k) st j)
    by (intros j Hj H; apply Hn; by eapply in_all).
  split.
  - by eapply pcbs_ok_aset.
  - rewrite Epc. by apply Forall_aset.
  - rewrite Esc. cbn. by rewrite length_aset.
  - by rewrite Hcur.
  - intros j Hj. rewrite Egt. pose proof (Hni j Hj) as Hnj. unfold pop in *. rewrite (Z.eqb_sym j) in *.
    destruct (Z.eqb_spec (cur_terminal k) j) as [<-|].
    + rewrite Est in *. cbn [tail] in *. apply Hsame; [|done]. pose proof (Hch _ Hj) as H. rewrite Est in H.
      cbn in H. rewrite Ecp in H. apply H.
    + apply Hsame; [by apply Hch|done].
  - done.
  - intros j Hj. rewrite Eg. destruct (Z.eqb_spec pid j) as [<-|Hne].
    + rewrite Hqu. split; [done|]. intros H. by destruct Hn.
    + rewrite (Hu j Hj), (all_pop _ _ _ _ Hc Est), elem_of_cons. split; [intros [->|?]; done|by right].
Qed.

Lemma released_ok p : length (fd_table p) = 8%nat -> Forall (fun e => flag_ok (present e)) (fd_table p) ->
  pcb_ok (released p).
Proof.
  intros Hl Hf. unfold pcb_ok, released. cbn [fd_table pcb_in_use].
  rewrite length_app, length_take, length_replicate, Hl. split_and!; [done|by right|].
  apply Forall_app. split; [by apply Forall_take|]. apply Forall_replicate. by right.
Qed.

Lemma released_args p : length (pcb_args p) = 1024%nat -> length (pcb_args (released p)) = 1024%nat.
Proof. intros H. unfold released. cbn [pcb_args]. rewrite length_app, length_replicate, length_drop, H. done. Qed.

(** The top of the scheduled terminal's stack. *)
Lemma top_process k st pid l : procs_ok k st -> st (cur_terminal k) = pid :: l ->
  exists p t, aget (terminals k) (cur_terminal k) = Some t /\ curr_process t = pid /\
    aget (k_pcbs k) pid = Some p /\ pcb_ok p /\ length (pcb_args p) = 1024%nat /\ chain k (parent_pid p) l.
Proof.
  intros Hk E. pose proof Hk as [Hp Ha Hl Hc Hch _ _].
  destruct (aget_range_Some (terminals k) (cur_terminal k)) as [t Et]; [lia|].
  pose proof (Hch _ Hc) as H. rewrite E in H. cbn in H. destruct H as (Hcp & Hr & Hpar).
  destruct (pcbs_get k pid Hp Hr) as (p & Ep & Eg & Hok). rewrite Eg in Hpar.
  unfold get_terminal in Hcp. rewrite Et in Hcp. exists p, t. split_and!; try done.
  exact (Forall_aget _ _ _ _ Ha Ep).
Qed.

Lemma chain_parent k q x l : chain k q (x :: l) -> q = x /\ 0 <= x < 6.
Proof. cbn. by intros (-> & H & _). Qed.

(** halt of a process that is not a base shell. *)
Lemma halt_pops fuel status k st pid q l : procs_ok k st -> st (cur_terminal k) = pid :: q :: l ->
  exists p t, aget (k_pcbs k) pid = Some p /\ aget (terminals k) (cur_terminal k) = Some t /\
    parent_pid p = q /\ 0 <= q < 6 /\
    halt fuel status k = Some (Jump (u32 (return_label_add p)), resumed p (popped pid p t k)) /\
    procs_ok (resumed p (popped pid p t k)) (pop (cur_terminal k) st).
Proof.
  intros Hk E. destruct (top_process k st pid (q :: l) Hk E) as (p & t & Et & Ec & Ep & Hok & Ha & Hch).
  apply chain_parent in Hch as [Hq Hqr]. pose proof Hok as (Hl & _ & Hf).
  exists p, t. split_and!; try done; try lia.
  - apply halt_child; try done. lia.
  - apply (procs_ok_pop k _ st pid (q :: l) t p (released p)); try done; [by apply released_ok|by apply released_args].
Qed.

(** ** execute pushes, halt pops *)

Lemma header_read_phys k i ino m : exec_ok k -> header_read k i ino m ->
  forall q, ~ span (header_buf k) HEADERSIZE q -> ld8 m q = ld8 (k_mem k) q.
Proof.
  intros Hx Hc q Hq. apply (cp_phys _ _ _ _ _ _ Hc). intros y Hy.
  change (phys (set_currDentry (entry k i) k) y) with (phys k y). destruct (xo_paging _ Hx) as [t Hp].
  destruct (xo_header _ Hx) as [H1 H2].
  rewrite (phys_kernel_page t); [|exact Hp|unfold kernel_page, span, FOUR_MB, HEADERSIZE in *; lia].
  intros [= ->]. exact (Hq Hy).
Qed.

Lemma execute_push k st fname i ino pid : exec_ok k -> procs_ok k st -> program k fname i ino -> fresh st pid ->
  exists o k', execute fname k = Some (o, k') /\ procs_ok k' (push (cur_terminal k) pid st) /\
    o = (if elf_magic k ino then User (elf_entry k ino) USER_CS 0x83FFFFC USER_DS else Ret (-1)) /\
    k_pg k' = k_pg (prog_mapped pid k).
Proof.
  intros Hx Hk Hpr Hfr. pose proof (fresh_least_free k st pid Hk Hfr) as Hlf.
  destruct (aget_range_Some (terminals k) (cur_terminal k)) as [t Et]; [rewrite (xo_terms _ Hx); apply (xo_cur _ Hx)|].
  pose proof (execute_run k fname i ino pid _ t Hx Hpr Hlf Et) as H. destruct Hlf as (_ & Ep & _).
  destruct (elf_magic k ino).
  - destruct H as (k' & E & Hla). do 2 eexists. split_and!; [exact E| |reflexivity|apply Hla].
    eapply procs_ok_push; [exact Hk|exact Hfr|exact Ep|exact Et|apply Hla|apply Hla].
  - destruct H as (m & _ & E). do 2 eexists. split_and!; [exact E| |reflexivity|reflexivity].
    eapply procs_ok_push; [exact Hk|exact Hfr|exact Ep|exact Et|reflexivity|reflexivity].
Qed.

Lemma procs_ok_same k k' st : k_pcbs k' = k_pcbs k -> k_sch k' = k_sch k -> procs_ok k st -> procs_ok k' st.
Proof.
  intros Ep Es [H1 H2 H3 H4 H5 H6 H7].
  assert (Eg : forall j, get_PCB k' j = get_PCB k j) by (intros; unfold get_PCB; by rewrite Ep).
  split; rewrite ?Ep, ?Es; auto.
  - intros t Ht. unfold get_terminal. rewrite Es. eapply chain_frame; [by apply H5|]. intros. by rewrite Eg.
  - intros pid Hpid. rewrite Eg. by apply H7.
Qed.

(** A change that leaves what the stacks are read from. *)
Lemma procs_ok_quiet k k' st : procs_ok k st -> pcbs_ok (k_pcbs k') ->
  Forall (fun p => length (pcb_args p) = 1024%nat) (k_pcbs k') -> length (terminals k') = 3%nat ->
  0 <= cur_terminal k' < 3 ->
  (forall t, curr_process (get_terminal k' t) = curr_process (get_terminal k t)) ->
  (forall j, parent_pid (get_PCB k' j) = parent_pid (get_PCB k j) /\ pcb_in_use (get_PCB k' j) = pcb_in_use (get_PCB k j)) ->
  procs_ok k' st.
Proof.
  intros [H1 H2 H3 H4 H5 H6 H7] P1 P2 P3 P4 Hcp Hg. split; try assumption.
  - intros t Ht. rewrite Hcp. eapply chain_frame; [by apply H5|]. intros. apply Hg.
  - intros pid Hpid. rewrite (proj2 (Hg pid)). by apply H7.
Qed.

Lemma u32_s32 z : 0 <= z < 2 ^ 32 -> u32 (s32 z) = z.
Proof.
  intros Hz. destruct (decide (z < 2 ^ 31)).
  - rewrite s32_small by lia. by apply u32_small.
  - unfold s32, u32. replace ((z + 2 ^ 31) mod 2 ^ 32) with (z - 2 ^ 31) by dlia. dlia.
Qed.

(** The caller's registers and its kernel stack are machine words. *)
Record regs_ok (k : kernel) : Prop := {
  ro_esp : 0 <= cpu_esp k < 2 ^ 32;
  ro_ebp : 0 <= cpu_ebp k < 2 ^ 32;
  ro_label : 0 <= ret_label k < 2 ^ 32;
  ro_esp0 : 0 <= tss_esp0 (tss k) < 2 ^ 32;
  ro_ss0 : 0 <= tss_ss0 (tss k) < 2 ^ 16;
}.

(** The context execute saves in the record of the process it starts. *)
Definition saved (p : PCB_struct) : Z * Z * Z * Z * Z * Z :=
  (pcb_esp p, pcb_ebp p, pcb_esp0 p, pcb_ss0 p, return_label_add p, parent_pid p).

(** What runs between the start of [pid] and its halt: anything that leaves the
    saved context, up to a moment when the terminal is scheduled again. *)
Record child_ran (pid : Z) (k1 kp : kernel) : Prop := {
  cr_cur : cur_terminal kp = cur_terminal k1;
  cr_saved : saved (get_PCB kp pid) = saved (get_PCB k1 pid);
}.

#[export] Instance child_ran_preorder pid : PreOrder (child_ran pid).
Proof. split; [done|]. intros k1 k2 k3 [? ?] [? ?]. split; congruence. Qed.

Lemma child_ran_refl pid k : child_ran pid k k.
Proof. reflexivity. Qed.

Lemma child_ran_con pid k k' : con_frame k k' -> child_ran pid k k'.
Proof. intros H. split; [by rewrite H|]. unfold get_PCB. by rewrite H. Qed.

(** The caller [q] goes on: [k] is the state it called execute in, [kp] the one
    the program left. *)
Record parent_back (k : kernel) (q pid : Z) (kp k2 : kernel) : Prop := {
  pb_esp : cpu_esp k2 = cpu_esp k;
  pb_ebp : cpu_ebp k2 = cpu_ebp k;
  pb_intr : intr_on k2 = true;
  pb_kstack : tss_esp0 (tss k2) = tss_esp0 (tss k) /\ tss_ss0 (tss k2) = tss_ss0 (tss k);
  pb_page : k_pg k2 = k_pg (prog_mapped q kp);
  pb_term : k_sch k2 = k_sch (put_term (cur_terminal k) (with_curr_process q (get_terminal kp (cur_terminal k))) kp);
  pb_child : get_PCB k2 pid = released (get_PCB kp pid);
  pb_others : forall j, j <> pid -> get_PCB k2 j = get_PCB kp j;
  pb_left : k_con k2 = k_con kp /\ k_kb k2 = k_kb kp /\ k_mem k2 = k_mem kp /\ k_fs k2 = k_fs kp /\
    k_io k2 = k_io kp /\ k_pic k2 = k_pic kp /\ k_rtcs k2 = k_rtcs kp /\ k_faults k2 = k_faults kp;
}.

Lemma get_PCB_Some k pid p : aget (k_pcbs k) pid = Some p -> get_PCB k pid = p.
Proof. intros E. unfold get_PCB. by rewrite E. Qed.

Lemma launched_saved k i ino pid t p k1 : launched k i ino pid t p k1 -> aget (k_pcbs k) pid = Some p ->
  cur_terminal k1 = cur_terminal k /\ saved (get_PCB k1 pid) = saved (entered_PCB k t p).
Proof.
  intros Hla Ep. split; [by rewrite (la_sch _ _ _ _ _ _ _ Hla)|].
  erewrite get_PCB_Some; [|rewrite (la_pcbs _ _ _ _ _ _ _ Hla); apply aget_aset_eq; by eapply aget_Some_range].
  by destruct p.
Qed.

Lemma launched_con_ok k i ino pid t p k1 tt : paging_ok tt k -> 0 <= screen_x k < 80 /\ 0 <= screen_y k < 25 ->
  launched k i ino pid t p k1 -> console_ok k1.
Proof.
  intros Hp Hc Hla. split.
  - apply (paging_ok_mapped tt). rewrite (la_page _ _ _ _ _ _ _ Hla). by apply prog_mapped_ok.
  - destruct (la_rest _ _ _ _ _ _ _ Hla) as (_ & _ & -> & _). exact Hc.
Qed.

Lemma saved_eq k t p pp : saved pp = saved (entered_PCB k t p) ->
  pcb_esp pp = s32 (cpu_esp k) /\ pcb_ebp pp = s32 (cpu_ebp k) /\ pcb_esp0 pp = s32 (tss_esp0 (tss k)) /\
  pcb_ss0 pp = tss_ss0 (tss k) /\ return_label_add pp = s32 (ret_label k).
Proof. by intros [= -> -> -> -> -> _]. Qed.

Lemma resumed_back k q pid kp t p pp tp : regs_ok k -> cur_terminal kp = cur_terminal k ->
  saved pp = saved (entered_PCB k t p) -> parent_pid pp = q ->
  aget (k_pcbs kp) pid = Some pp -> aget (terminals kp) (cur_terminal kp) = Some tp ->
  parent_back k q pid kp (resumed pp (popped pid pp tp kp)).
Proof.
  intros [R1 R2 R3 R4 R5] Ecur Es Eq Ep Et. destruct (saved_eq _ _ _ _ Es) as (S1 & S2 & S3 & S4 & S5).
  pose proof (aget_Some_range _ _ _ Ep) as Hpid.
  pose proof (aset_get_PCB kp (resumed pp (popped pid pp tp kp)) pid (released pp) eq_refl Hpid) as Eg.
  split.
  - transitivity (u32 (pcb_esp pp)); [reflexivity|]. by rewrite S1, u32_s32.
  - transitivity (u32 (pcb_ebp pp)); [reflexivity|]. by rewrite S2, u32_s32.
  - reflexivity.
  - split; [transitivity (u32 (pcb_esp0 pp))|transitivity (u16 (pcb_ss0 pp))]; [reflexivity| |reflexivity|].
    + by rewrite S3, u32_s32.
    + by rewrite S4, u16_small.
  - by rewrite <- Eq.
  - rewrite <- Ecur, <- Eq. unfold get_terminal. rewrite Et. reflexivity.
  - by rewrite Eg, Z.eqb_refl, (get_PCB_Some _ _ _ Ep).
  - intros j Hj. rewrite Eg. by rewrite (proj2 (Z.eqb_neq pid j)) by congruence.
  - by split_and!.
Qed.

Lemma resumed_sch k k1 kp i ino pid t p pp tp : launched k i ino pid t p k1 ->
  aget (terminals k) (cur_terminal k) = Some t -> parent_pid pp = curr_process t ->
  k_sch kp = k_sch k1 -> aget (terminals kp) (cur_terminal k) = Some tp ->
  k_sch (resumed pp (popped pid pp tp kp)) = k_sch k.
Proof.
  intros Hla Et Eq Es Etp. pose proof (aget_Some_range _ _ _ Et) as Hc.
  rewrite Es, (la_sch _ _ _ _ _ _ _ Hla) in Etp. cbn in Etp. rewrite aget_aset_eq in Etp by done. injection Etp as <-.
  transitivity (k_sch (put_term (cur_terminal kp) (with_curr_process (parent_pid pp) (with_curr_process pid t)) kp)); [reflexivity|].
  rewrite Eq. unfold put_term. cbn. rewrite Es, (la_sch _ _ _ _ _ _ _ Hla). cbn. rewrite aset_aset_eq.
  replace (with_curr_process (curr_process t) (with_curr_process pid t)) with t by (by destruct t).
  rewrite (aset_self _ _ _ Et). by destruct (k_sch k).
Qed.

Lemma resumed_pg k k1 kp i ino pid t p q pp tp : launched k i ino pid t p k1 ->
  aget (page_directory k) 32 = Some (prog_entry q) -> parent_pid pp = q -> k_pg kp = k_pg k1 ->
  k_pg (resumed pp (popped pid pp tp kp)) = k_pg k.
Proof.
  intros Hla Epd Eq Eg. transitivity (k_pg (prog_mapped q kp)); [by rewrite <- Eq|].
  unfold prog_mapped. cbn -[prog_entry]. rewrite Eg, (la_page _ _ _ _ _ _ _ Hla). cbn -[prog_entry].
  rewrite aset_aset_eq, (aset_self _ _ _ Epd). by destruct (k_pg k).
Qed.

(** ** A base shell is started again *)

Lemma restart_round fuel k st pid i ino : exec_ok k -> procs_ok k st -> based st ->
  st (cur_terminal k) = [pid] -> console_ok k -> program k shell_name i ino -> elf_magic k ino = true ->
  exists k', restart_shell (S fuel) pid k = Some (User (elf_entry k ino) USER_CS 0x83FFFFC USER_DS, k') /\
    procs_ok k' st /\ k_pg k' = k_pg (prog_mapped pid k).
Proof.
  intros Hx Hk Hb E Hc Hpr Helf. pose proof (po_cur _ _ Hk) as Hcur.
  destruct (top_process k st pid [] Hk E) as (p & t & Et & Ec & Ep & Hok & Ha & Hch). cbn in Hch.
  assert (Hpid : pid = cur_terminal k) by (pose proof (Hb _ Hcur) as H; rewrite E in H; by injection H).
  set (kB := put_term pid (with_curr_process (-1) t) (put_pcb pid (with_pcb_in_use (-1) p) k)).
  assert (EB : upd_terminal pid (with_curr_process (-1)) (upd_PCB pid (with_pcb_in_use (-1)) k) = kB).
  { rewrite (upd_PCB_eq _ _ _ _ Ep). unfold upd_terminal. cbn. rewrite <- Hpid in Et. by rewrite Et. }
  assert (HB : procs_ok kB (pop (cur_terminal k) st)).
  { apply (procs_ok_pop k kB st pid [] t p (with_pcb_in_use (-1) p)); try done.
    - apply pcb_ok_in_use; [done|by right].
    - rewrite Hch, <- Hpid. reflexivity. }
  assert (XB : exec_ok kB) by (apply (exec_ok_ext k); try done; apply HB).
  destruct (printf_plain_run 5 (codes "Ree-") (fun _ => 0) kB) as (kC & EC & [Fr Mr _ _]);
    [exact Hc|repeat (apply Forall_cons; split; [cbn; lia|]); by apply Forall_nil|cbn; lia|].
  cbn [restart_shell]. rewrite EB, EC. cbn [mbind option_bind].
  assert (HC : procs_ok kC (pop (cur_terminal k) st)) by (apply (procs_ok_same kB); try (by rewrite Fr); done).
  assert (XC : exec_ok kC) by (apply (exec_ok_ext kB); try (by rewrite Fr); [done|apply HC..]).
  destruct (xo_paging _ Hx) as [tt Hp]. destruct (xo_image _ Hx) as [I1 I2].
  assert (SC : same_image kB kC) by (apply (same_image_console tt); done).
  assert (SB : same_image k kB) by (by split).
  destruct (program_same k kC _ i ino Hx (transitivity SB SC) Hpr) as (PC & M1 & M2).
  assert (Hfr : fresh (pop (cur_terminal k) st) pid).
  { split_and!; [lia|lia| |].
    - pose proof (po_nodup _ _ Hk) as Hnd. rewrite (all_pop _ _ _ _ Hcur E) in Hnd. by apply NoDup_cons in Hnd as [? _].
    - intros j Hj. apply (in_all _ j); [lia|]. unfold pop. rewrite (proj2 (Z.eqb_neq _ _)) by lia.
      pose proof (Hb j ltac:(lia)) as Hl. apply last_Some in Hl as (l & ->). apply elem_of_app. right. by left. }
  assert (Ecur : cur_terminal kC = cur_terminal k) by (by rewrite Fr).
  destruct (execute_push kC _ shell_name i ino pid XC HC PC Hfr) as (o & k' & E' & H' & -> & Epg).
  rewrite E'. cbn [mbind option_bind]. rewrite M1, Helf, M2. exists k'. split_and!; [reflexivity| |].
  - rewrite Ecur in H'. eapply procs_ok_ext; [|exact H']. intros j Hj. unfold push, pop.
    destruct (Z.eqb_spec j (cur_terminal k)) as [->|]; [by rewrite E|done].
  - rewrite Epg. unfold prog_mapped. cbn -[prog_entry]. by rewrite Fr.
Qed.

(** ** Correctness *)

(** C5: on an ELF program with a free process, execute takes the least free one,
    records in it the caller's stack pointers, kernel stack and parent, makes it
    the terminal's current process, maps its page, enters user mode at the
    program's entry point with its own kernel stack, and leaves the program's
    bytes where the process sees them; outside the process's own frame and
    execute's header buffer no byte of physical memory changes. *)
Theorem execute_launches k fname i ino pid p t :
  exec_ok k -> program k fname i ino -> elf_magic k ino = true ->
  least_free k pid p -> aget (terminals k) (cur_terminal k) = Some t ->
  exists k', execute fname k = Some (User (elf_entry k ino) USER_CS 0x83FFFFC USER_DS, k') /\
    launched k i ino pid t p k'.
Proof.
  intros Hx Hpr He Hl Et. pose proof (execute_run k fname i ino pid p t Hx Hpr Hl Et) as H. by rewrite He in H.
Qed.

(** C25: execute returns -1 when no directory entry has the name, changing
    nothing at all, and when all six processes are in use, changing only its
    header buffer and the last entry looked up. *)
Theorem execute_refuses k fname : exec_ok k ->
  ((forall i, 0 <= i < 64 -> entry_name k i <> name32 fname) -> execute fname k = Some (Ret (-1), k)) /\
  (forall i ino, program k fname i ino -> all_used k ->
     exists m, execute fname k = Some (Ret (-1), with_k_mem m (set_currDentry (entry k i) k)) /\
       forall q, ~ span (header_buf k) HEADERSIZE q -> ld8 m q = ld8 (k_mem k) q).
Proof.
  intros Hx. split; [by apply execute_missing|]. intros i ino Hpr Hall.
  destruct (execute_all_used k fname i ino Hx Hpr Hall) as (m & Hc & E). exists m. split; [exact E|].
  intros q Hq. apply (header_read_phys k i ino m Hx Hc q Hq).
Qed.

(** C6: execute on the stacks of processes.  On a file of at least a header, with a process
    free it is a push on the scheduled terminal's stack: the process pushed is
    the least one on no stack, the stacks of the other terminals stay, and a
    process is in use exactly when it is on a stack; a program that is not ELF
    makes the call return -1 but is pushed as well, so the caller goes on as a
    process it did not start, in that process's page.  With a name no entry has,
    or with all six processes in use, the call returns -1 and the stacks and the
    page are what they were. *)
Theorem execute_refines_push k st fname : exec_ok k -> procs_ok k st ->
  (forall i ino pid, program k fname i ino -> fresh st pid -> exists k', execute fname k =
      Some (if elf_magic k ino then User (elf_entry k ino) USER_CS 0x83FFFFC USER_DS else Ret (-1), k') /\
    procs_ok k' (push (cur_terminal k) pid st) /\ k_pg k' = k_pg (prog_mapped pid k)) /\
  ((forall i, 0 <= i < 64 -> entry_name k i <> name32 fname) \/ (exists i ino, program k fname i ino) /\ full st ->
   exists k', execute fname k = Some (Ret (-1), k') /\ procs_ok k' st /\ k_pg k' = k_pg k).
Proof.
  intros Hx Hk. split.
  - intros i ino pid Hpr Hfr.
    destruct (execute_push k st fname i ino pid Hx Hk Hpr Hfr) as (o & k' & E & H1 & -> & H2). by exists k'.
  - intros [Hno|[(i & ino & Hpr) Hfull]]; [exists k; split; [by apply execute_missing|done]|].
    destruct (execute_all_used k fname i ino Hx Hpr (full_all_used k st Hk Hfull)) as (m & _ & E).
    eexists. split; [exact E|]. split; [|reflexivity]. by apply (procs_ok_same k).
Qed.

(** C7: halt of a process with a parent refines a pop: it always leaves for the
    parent (whatever the status), frees exactly the process on top of the
    scheduled terminal's stack with its descriptors and arguments, and maps the
    parent's page; no memory changes. *)
Theorem halt_refines_pop fuel status k st pid q l :
  procs_ok k st -> st (cur_terminal k) = pid :: q :: l ->
  exists p k', aget (k_pcbs k) pid = Some p /\
    halt fuel status k = Some (Jump (u32 (return_label_add p)), k') /\
    procs_ok k' (pop (cur_terminal k) st) /\
    k_pcbs k' = aset (k_pcbs k) pid (released p) /\ k_pg k' = k_pg (prog_mapped q k) /\
    k_mem k' = k_mem k /\ cpu_esp k' = u32 (pcb_esp p) /\ cpu_ebp k' = u32 (pcb_ebp p) /\ intr_on k' = true.
Proof.
  intros Hk E. destruct (halt_pops fuel status k st pid q l Hk E) as (p & t & Ep & Et & Eq & _ & Eh & Hpop).
  eexists p, _. split_and!; [done|exact Eh|exact Hpop|reflexivity| |reflexivity..].
  by rewrite <- Eq.
Qed.

(** C1: execute and halt are a call and its return, whatever runs in between.
    From the start of the child to its halt the child, the processes it starts,
    interrupts and the other terminals may change anything but the context that
    execute saved in the child's record ([child_ran]).  Then control returns to
    the caller's execute with the caller's stack pointers, its kernel stack and
    its page, on its terminal; the child is freed, every other process is as it
    was, and the screen, the line being typed, the memory, the files and the
    devices are as the program left them.  The status the child passed is lost:
    execute returns the global ret_val, which nothing sets. *)
Theorem execute_halt_roundtrip k st fname i ino pid q l :
  exec_ok k -> procs_ok k st -> regs_ok k -> program k fname i ino -> elf_magic k ino = true ->
  fresh st pid -> st (cur_terminal k) = q :: l -> aget (page_directory k) 32 = Some (prog_entry q) ->
  exists k1, execute fname k = Some (User (elf_entry k ino) USER_CS 0x83FFFFC USER_DS, k1) /\
    procs_ok k1 (push (cur_terminal k) pid st) /\ child_ran pid k1 k1 /\
    forall fuel status kp st', child_ran pid k1 kp -> procs_ok kp st' -> st' (cur_terminal k) = pid :: q :: l ->
      exists k2, halt fuel status kp = Some (Jump (ret_label k), k2) /\
        execute_return k2 = (Ret (ret_val kp), k2) /\
        parent_back k q pid kp k2 /\ procs_ok k2 (pop (cur_terminal k) st') /\
        (k_sch kp = k_sch k1 -> k_sch k2 = k_sch k) /\ (k_pg kp = k_pg k1 -> k_pg k2 = k_pg k).
Proof.
  intros Hx Hk Hr Hpr He Hfr Est Epd. pose proof (fresh_least_free k st pid Hk Hfr) as Hl.
  destruct (top_process k st q l Hk Est) as (_ & t & Et & Eq & _).
  set (p := get_PCB k pid) in *. pose proof (proj1 (proj2 Hl)) as Ep.
  pose proof (execute_run k fname i ino pid p t Hx Hpr Hl Et) as H. rewrite He in H.
  destruct H as (k1 & E1 & Hla). exists k1. split; [exact E1|].
  split; [eapply procs_ok_push; [exact Hk|exact Hfr|exact Ep|exact Et|apply Hla|apply Hla]|].
  split; [by apply child_ran_refl|]. intros fuel status kp st' Hrun Hkp Est'.
  destruct (launched_saved k i ino pid t p k1 Hla Ep) as [Ecur Esaved].
  pose proof Hrun as [Rcur Rsaved]. rewrite Ecur in Rcur. rewrite Esaved in Rsaved. rewrite <- Rcur in Est'.
  destruct (halt_pops fuel status kp st' pid q l Hkp Est') as (pp & tp & Epp & Etp & Eqp & _ & E2 & Hk2).
  rewrite (get_PCB_Some _ _ _ Epp) in Rsaved. pose proof (saved_eq _ _ _ _ Rsaved) as (S1 & S2 & S3 & S4 & S5).
  eexists. split; [rewrite E2, S5, u32_s32 by apply Hr; reflexivity|]. rewrite Rcur in Hk2.
  split; [reflexivity|]. split; [by apply (resumed_back k q pid kp t p)|]. split; [exact Hk2|]. split.
  - intros Es. rewrite Rcur in Etp. apply (resumed_sch k k1 kp i ino pid t p); congruence || done.
  - intros Eg. by apply (resumed_pg k k1 kp i ino pid t p q).
Qed.

(** C24: when a base shell halts, a new shell is started in the same process on
    the same terminal: the stacks of processes are what they were. *)
Theorem halt_restarts_shell fuel status k st pid i ino :
  exec_ok k -> procs_ok k st -> based st -> st (cur_terminal k) = [pid] -> console_ok k ->
  program k shell_name i ino -> elf_magic k ino = true ->
  exists k', halt (S fuel) status k = Some (User (elf_entry k ino) USER_CS 0x83FFFFC USER_DS, k') /\
    procs_ok k' st /\ k_pg k' = k_pg (prog_mapped pid k).
Proof.
  intros Hx Hk Hb Est Hc Hpr He. destruct (top_process k st pid [] Hk Est) as (p & t & Et & Eq & Ep & _ & _ & Hch).
  unfold halt. assert (Egt : curr_process (get_terminal (cli k) (cur_terminal (cli k))) = pid)
    by (unfold get_terminal; cbn; by rewrite Et).
  assert (Egp : parent_pid (get_PCB (cli k) pid) = -1) by (unfold get_PCB; cbn; rewrite Ep; exact Hch).
  rewrite Egt, Egp, Z.eqb_refl.
  assert (Hx' : exec_ok (cli k)) by (destruct Hx as [X1 X2 X3 X4 [] X6 X7 X8 X9]; split; try assumption; by split).
  destruct (program_same k (cli k) shell_name i ino Hx) as (Hpr' & E1 & E2); [by split|done|].
  rewrite <- E1 in He.
  destruct (restart_round fuel (cli k) st pid i ino Hx' (procs_ok_same k (cli k) st eq_refl eq_refl Hk) Hb Est Hc Hpr' He)
    as (k' & E & H1 & H2).
  exists k'. rewrite E2 in E. split_and!; [exact E|exact H1|exact H2].
Qed.

(** ** Witnesses: three shells and an image with the program "shell" *)

(** Two entries, one inode, two blocks; block 1 holds a header of 40 bytes with
    entry point 0x08048094. *)
Definition shell_image : gmap Z Z :=
  bytes_from 0x500000 [2; 0; 0; 0; 1; 0; 0; 0; 2; 0; 0; 0] ∪
  bytes_from 0x500040 [46; 0] ∪ bytes_from 0x500060 [1] ∪
  bytes_from 0x500080 (codes "shell") ∪ bytes_from 0x5000A0 [2; 0; 0; 0; 0] ∪
  bytes_from 0x501000 [40; 0; 0; 0; 1; 0; 0; 0] ∪
  bytes_from 0x503000 [0x7F; 0x45; 0x4C; 0x46] ∪ bytes_from 0x503018 [0x94; 0x80; 0x04; 0x08].

Definition demo_PCB (used : Z) : PCB_struct :=
  mkPCB (replicate 8 (mkFd (-1) 0 0 None 0)) used 0 0 0 0 0 0 0 (-1) (replicate 1024 0).

Definition demo_term (pid : Z) : terminal_t := with_curr_process pid default_terminal.

(** Terminal 0 is scheduled and its shell runs. *)
Definition shells_on (k : kernel) : kernel :=
  with_k_mem shell_image (with_k_pcbs (map demo_PCB [0; 0; 0; -1; -1; -1])
    (with_k_sch (mkSched (map demo_term [0; 1; 2]) 0 0 4 4)
      (with_k_fs (mkFilesys 0x500000 2 1 2 0x500040 1 local_dentry)
        (with_k_sys (mkSys 0 0 0 0 (replicate 1024 0) (mkTss 0x7FFFFC 0x18 0x38))
          (with_k_cpus (mkCpu 0x7FFE00 0x7FFE80 false 0x401000 16) k))))).

Definition demo_shells : kernel := shells_on (prog_mapped 0 demo_paged).

Definition demo_stacks (t : Z) : list Z := [t].

Lemma demo_PCBs_ok : pcbs_ok (map demo_PCB [0; 0; 0; -1; -1; -1]).
Proof.
  assert (H : forall u, flag_ok u -> pcb_ok (demo_PCB u)).
  { intros u Hu. split_and!; [done|done|]. apply Forall_replicate. by right. }
  split; [done|]. repeat (apply Forall_cons; split); try apply Forall_nil; try done; apply H; by (left + right).
Qed.

Lemma shells_on_exec_ok k : paging_ok 0 k -> exec_ok (shells_on k).
Proof.
  intros Hp. split.
  - exact demo_PCBs_ok.
  - reflexivity.
  - vm_compute. split; congruence.
  - exists 0. exact Hp.
  - split; vm_compute; congruence.
  - vm_compute. split; congruence.
  - vm_compute. split; congruence.
  - right. vm_compute. congruence.
  - reflexivity.
Qed.

Lemma shells_on_procs k : procs_ok (shells_on k) demo_stacks.
Proof.
  split.
  - exact demo_PCBs_ok.
  - apply Forall_map, Forall_true. reflexivity.
  - reflexivity.
  - vm_compute. split; congruence.
  - intros t Ht. assert (t = 0 \/ t = 1 \/ t = 2) as [->|[->| ->]] by lia; vm_compute; repeat split; congruence.
  - apply (bool_decide_unpack _). vm_compute. exact I.
  - intros pid Hpid. assert (E : pid ∈ all_procs demo_stacks <-> pid < 3).
    { unfold all_procs, demo_stacks. rewrite !elem_of_app, !list_elem_of_singleton. lia. }
    rewrite E. assert (pid = 0 \/ pid = 1 \/ pid = 2 \/ pid = 3 \/ pid = 4 \/ pid = 5)
      as [->|[->|[->|[->|[->| ->]]]]] by lia;
      match goal with |- (?a = 0 <-> _) => let v := eval vm_compute in a in change a with v end; lia.
Qed.

Lemma shells_paging : paging_ok 0 (prog_mapped 0 demo_paged).
Proof. apply prog_mapped_ok, demo_paging_ok. Qed.

Lemma entered_pd_prog pid k t : paging_ok t k ->
  aget (page_directory (prog_mapped pid k)) 32 = Some (prog_entry pid).
Proof. intros Hp. cbn -[prog_entry]. apply aget_aset_eq. rewrite (proj1 (proj1 Hp)). lia. Qed.

Lemma shells_on_con pid k : k_con (shells_on (prog_mapped pid k)) = k_con k.
Proof. reflexivity. Qed.

Lemma demo_shells_con : k_con demo_shells = mkConsole 0 0.
Proof. unfold demo_shells. rewrite shells_on_con. exact (proj2 (proj2 demo_paged_rest)). Qed.

Lemma demo_exec_ok : exec_ok demo_shells.
Proof. exact (shells_on_exec_ok _ shells_paging). Qed.

Lemma demo_procs_ok : procs_ok demo_shells demo_stacks.
Proof. exact (shells_on_procs _). Qed.

Lemma demo_program : program demo_shells shell_name 1 0.
Proof.
  split.
  - split; [lia|]. split; [vm_compute; reflexivity|]. intros j Hj. assert (j = 0) as -> by lia. vm_compute. congruence.
  - vm_compute. reflexivity.
  - apply (file_ok_intro _ _ 1); vm_compute; try reflexivity; repeat split; congruence.
  - vm_compute. congruence.
Qed.

Lemma demo_elf : elf_magic demo_shells 0 = true /\ elf_entry demo_shells 0 = 0x08048094.
Proof. split; vm_compute; reflexivity. Qed.

Lemma demo_fresh : fresh demo_stacks 3.
Proof.
  assert (E : forall x, x ∈ all_procs demo_stacks <-> 0 <= x < 3).
  { intros x. unfold all_procs, demo_stacks. rewrite !elem_of_app, !list_elem_of_singleton. lia. }
  split_and!; [lia|lia|rewrite E; lia|]. intros j Hj. rewrite E. lia.
Qed.

Lemma demo_based : based demo_stacks.
Proof. intros t Ht. reflexivity. Qed.

Lemma demo_regs : regs_ok demo_shells.
Proof. split; vm_compute; split; congruence. Qed.

Lemma execute_launches_witness :
  exists k', execute shell_name demo_shells = Some (User 0x08048094 USER_CS 0x83FFFFC USER_DS, k').
Proof.
  destruct (execute_launches demo_shells shell_name 1 0 3 (demo_PCB (-1)) (demo_term 0) demo_exec_ok demo_program
    (proj1 demo_elf)) as (k' & E & _).
  - split; [lia|]. split; [reflexivity|]. split; [reflexivity|].
    intros j Hj. assert (j = 0 \/ j = 1 \/ j = 2) as [->|[->| ->]] by lia; reflexivity.
  - reflexivity.
  - exists k'. rewrite (proj2 demo_elf) in E. exact E.
Defined.

Lemma demo_no_cat i : 0 <= i < 64 -> entry_name demo_shells i <> name32 (agetZ (codes "cat")).
Proof.
  intros Hi. apply (bool_decide_unpack (entry_name demo_shells i <> name32 (agetZ (codes "cat")))).
  enough (H : forallb (fun i => bool_decide (entry_name demo_shells i <> name32 (agetZ (codes "cat")))) (seqZ 0 64) = true).
  { rewrite forallb_forall in H. apply Is_true_true, H, list_elem_of_In, elem_of_seqZ. lia. }
  vm_compute. reflexivity.
Qed.

Lemma execute_refuses_witness : execute (agetZ (codes "cat")) demo_shells = Some (Ret (-1), demo_shells).
Proof. exact (proj1 (execute_refuses demo_shells (agetZ (codes "cat")) demo_exec_ok) demo_no_cat). Defined.

Lemma execute_refines_push_witness :
  (exists k', execute shell_name demo_shells = Some (User 0x08048094 USER_CS 0x83FFFFC USER_DS, k') /\
    procs_ok k' (push (cur_terminal demo_shells) 3 demo_stacks)) /\
  exists k', execute (agetZ (codes "cat")) demo_shells = Some (Ret (-1), k') /\ procs_ok k' demo_stacks.
Proof.
  split.
  - destruct (proj1 (execute_refines_push demo_shells demo_stacks shell_name demo_exec_ok demo_procs_ok)
      1 0 3 demo_program demo_fresh) as (k' & E & H & _).
    exists k'. destruct demo_elf as [E1 E2]. rewrite E1, E2 in E. split; [exact E|exact H].
  - destruct (proj2 (execute_refines_push demo_shells demo_stacks (agetZ (codes "cat")) demo_exec_ok demo_procs_ok)
      (or_introl demo_no_cat)) as (k' & E & H & _).
    exists k'. split; [exact E|exact H].
Defined.

(** Terminal 0's shell, process 0, has started process 3. *)
Definition child_on (k : kernel) : kernel :=
  put_pcb 3 (with_parent_pid 0 (with_pcb_in_use 0 (demo_PCB (-1))))
    (put_term 0 (demo_term 3) (shells_on k)).

Lemma child_on_procs k : procs_ok (child_on k) (push 0 3 demo_stacks).
Proof.
  split.
  - apply (pcbs_ok_put 3 _ (put_term 0 (demo_term 3) (shells_on k)) demo_PCBs_ok).
    split_and!; [done|by left|]. apply Forall_replicate. by right.
  - apply Forall_aset; [apply (po_args _ _ (shells_on_procs k))|reflexivity].
  - reflexivity.
  - vm_compute. split; congruence.
  - intros t Ht. assert (t = 0 \/ t = 1 \/ t = 2) as [->|[->| ->]] by lia; vm_compute; repeat split; congruence.
  - apply (bool_decide_unpack _). vm_compute. exact I.
  - intros pid Hpid. assert (E : pid ∈ all_procs (push 0 3 demo_stacks) <-> pid < 4).
    { unfold all_procs, push, demo_stacks. cbn [Z.eqb app].
      rewrite !list_elem_of_In. cbn. lia. }
    rewrite E. assert (pid = 0 \/ pid = 1 \/ pid = 2 \/ pid = 3 \/ pid = 4 \/ pid = 5)
      as [->|[->|[->|[->|[->| ->]]]]] by lia;
      match goal with |- (?a = 0 <-> _) => let v := eval vm_compute in a in change a with v end; lia.
Qed.

Lemma halt_refines_pop_witness : exists k', halt 0 7 (child_on demo_paged) = Some (Jump 0, k') /\
  procs_ok k' (pop 0 (push 0 3 demo_stacks)).
Proof.
  destruct (halt_refines_pop 0 7 (child_on demo_paged) (push 0 3 demo_stacks) 3 0 [] (child_on_procs _) eq_refl)
    as (p & k' & Ep & E & H & _).
  assert (p = with_parent_pid 0 (with_pcb_in_use 0 (demo_PCB (-1)))) as -> by (injection Ep as <-; reflexivity).
  exists k'. split; [exact E|exact H].
Defined.

Lemma same_result {A} (r : option (A * kernel)) (a b : A) k k1 : r = Some (a, k) -> r = Some (b, k1) -> k = k1.
Proof. congruence. Qed.

Lemma demo_shells_paging : paging_ok 0 demo_shells.
Proof. exact shells_paging. Qed.

Lemma demo_shells_cursor : 0 <= screen_x demo_shells < 80 /\ 0 <= screen_y demo_shells < 25.
Proof. rewrite demo_shells_con. cbn. lia. Qed.

(** The child prints a character and halts with status 7. *)
Lemma execute_halt_roundtrip_witness : exists k1 k2,
  execute shell_name demo_shells = Some (User 0x08048094 USER_CS 0x83FFFFC USER_DS, k1) /\
  halt 0 7 (putc 65 k1) = Some (Jump (ret_label demo_shells), k2) /\
  k_con k2 = k_con (putc 65 k1) /\ tss_esp0 (tss k2) = tss_esp0 (tss demo_shells).
Proof.
  destruct (execute_halt_roundtrip demo_shells demo_stacks shell_name 1 0 3 0 [] demo_exec_ok demo_procs_ok
    demo_regs demo_program (proj1 demo_elf) demo_fresh eq_refl (entered_pd_prog 0 demo_paged 0 demo_paging_ok))
    as (k1 & E1 & Hk1 & _ & H).
  assert (Hl : least_free demo_shells 3 (get_PCB demo_shells 3))
    by (exact (fresh_least_free _ _ _ demo_procs_ok demo_fresh)).
  pose proof (execute_run demo_shells shell_name 1 0 3 _ (demo_term 0) demo_exec_ok demo_program Hl eq_refl) as Hx.
  rewrite (proj1 demo_elf) in Hx. destruct Hx as (k1' & E1' & Hla).
  rewrite (same_result _ _ _ _ _ E1' E1) in Hla. clear E1' k1'.
  pose proof (cr_frame _ _ _ (proj1 (putc_run 65 k1 (launched_con_ok _ _ _ _ _ _ k1 0 demo_shells_paging demo_shells_cursor Hla)))) as Hf.
  destruct (H 0%nat 7 (putc 65 k1) _ (child_ran_con 3 _ _ Hf)
    (procs_ok_same k1 (putc 65 k1) _ ltac:(by rewrite Hf) ltac:(by rewrite Hf) Hk1) eq_refl) as (k2 & E2 & _ & Hb & _).
  rewrite (proj2 demo_elf) in E1. exists k1, k2.
  split; [exact E1|]. split; [exact E2|]. split; [apply Hb|apply Hb].
Defined.

Lemma halt_restarts_shell_witness : exists k',
  halt 1 0 demo_shells = Some (User 0x08048094 USER_CS 0x83FFFFC USER_DS, k') /\ procs_ok k' demo_stacks.
Proof.
  destruct (halt_restarts_shell 0 0 demo_shells demo_stacks 0 1 0 demo_exec_ok demo_procs_ok demo_based eq_refl)
    as (k' & E & H & _); [|exact demo_program|exact (proj1 demo_elf)|].
  - split; [exact (paging_ok_mapped 0 _ shells_paging)|]. rewrite demo_shells_con. cbn. lia.
  - exists k'. rewrite (proj2 demo_elf) in E. split; [exact E|exact H].
Defined.
