(* ===== verification/Pit.v ===== *)
(** * The timer interrupt (schedule.c: pit_handler)

    Each tick saves the running process's kernel stack and position, schedules
    the next terminal and resumes its process there; the first three ticks start
    a shell on each terminal instead, and the fourth shows the first one. *)

From Stdlib Require Import ZArith Lia.
From stdpp Require Import base numbers list gmap.
From S2P Require Import Prelude Memory State Machine I8259 Paging Console Pcb Filesys Schedule Vterm Execute Halt.

Open Scope Z_scope.
Implicit Types k : kernel.

(** ** The code *)

(** The running process's kernel stack goes to its record and to its terminal's,
    the position to its terminal's; the next terminal is scheduled. *)
Definition pit_keep (esp ebp : Z) (k : kernel) : kernel :=
  let k := upd_terminal (cur_terminal k) (with_save_tss (tss k)) k in
  let k := upd_PCB (curr_process (get_terminal k (cur_terminal k))) (with_task_esp (s32 esp)) k in
  let k := upd_PCB (curr_process (get_terminal k (cur_terminal k))) (with_task_ebp (s32 ebp)) k in
  let k := upd_terminal (cur_terminal k) (with_t_screen_x (u8 (get_screen_x k))) k in
  let k := upd_terminal (cur_terminal k) (with_t_screen_y (u8 (get_screen_y k))) k in
  set_cur_terminal (u8 (Z.rem (cur_terminal k + 1) NUM_TERMINALS)) k.

(** The part before the choice. *)
Definition pit_save (k : kernel) : kernel :=
  pit_keep (cpu_esp k) (cpu_ebp k) (test_interrupts (set_pitIntrCount (u8 (pitIntrCount k + 1)) k)).

(** The terminal of one of the first three ticks. *)
Definition pit_show (k : kernel) : kernel :=
  let k := switch_terminal (pitCount k) k in
  let k := clear k in
  let k := upd_terminal (cur_terminal k) (with_t_screen_x (u8 (get_screen_x k))) k in
  let k := upd_terminal (cur_terminal k) (with_t_screen_y (u8 (get_screen_y k))) k in
  let k := set_pitCount (u8 (pitCount k + 1)) k in
  send_eoi PIT_IRQ k.

(** The scheduled terminal's console: the page VIDEO is redirected to and the
    position. *)
Definition pit_console (k : kernel) : kernel :=
  let k := if cur_terminal k =? visible k then map_video_page 0 k
           else map_video_page (u8 (1 + cur_terminal k)) k in
  set_screenxy (t_screen_x (get_terminal k (cur_terminal k))) (t_screen_y (get_terminal k (cur_terminal k))) k.

(** The part after the choice: resume the scheduled terminal's process. *)
Definition pit_resume (k : kernel) : kernel :=
  let k := set_tss (save_tss (get_terminal k (cur_terminal k))) k in
  let esp := task_esp (get_PCB k (curr_process (get_terminal k (cur_terminal k)))) in
  let ebp := task_ebp (get_PCB k (curr_process (get_terminal k (cur_terminal k)))) in
  let k := pit_console k in
  let k := map_page ((curr_process (get_terminal k (cur_terminal k)) + PIDOFFSET) * FOUR_MB)
             VADDRPROGPAGE USWFLAGS k in
  let k := set_cpu_ebp (u32 ebp) (set_cpu_esp (u32 esp) k) in
  send_eoi PIT_IRQ k.

(** The handler returns (on the stack it resumed) unless the shell it starts
    enters user mode; its result is of type void. *)
Definition pit_handler (k : kernel) : option (outcome * kernel) :=
  let k := pit_save k in
  if pitCount k <? NUM_TERMINALS then
    '(o, k) ← execute shell_name (pit_show k);
    match o with
    | Ret _ => Some (Ret 0, pit_resume k)
    | _ => Some (o, k)
    end
  else if pitCount k =? NUM_TERMINALS then
    let k := switch_terminal 0 k in
    Some (Ret 0, pit_resume (set_pitCount (u8 (pitCount k + 1)) k))
  else Some (Ret 0, pit_resume k).

(** ** The tick's mark on the screen *)

(** Every attribute on the console moved by [n]. *)
Definition bump (n : Z) (a : aconsole) : aconsole :=
  mkA (map (fun c => (fst c, u8 (snd c + n))) (a_cells a)) (a_x a) (a_y a).

(** What the loop of test_interrupts has done after [i] rounds. *)
Record bumped (k : kernel) (i : Z) (t : kernel) : Prop := {
  bu_frame : con_frame k t;
  bu_mem : mem_frame k t;
  bu_con : k_con t = k_con k;
  bu_scr : scr_frame k t;
  bu_chars : forall j, 0 <= j < 2000 -> ld8 t (VIDEO + 2 * j) = ld8 k (VIDEO + 2 * j);
  bu_attrs : forall j, 0 <= j < 2000 -> ld8 t (VIDEO + 2 * j + 1) =
    if j <? i then u8 (ld8 k (VIDEO + 2 * j + 1) + pitIntrCount k) else ld8 k (VIDEO + 2 * j + 1);
}.

Lemma bumped_step k i t : mapped k -> 0 <= i < 2000 -> bumped k i t ->
  bumped k (i + 1) (st8 (u32 (VIDEO + (i * 2 + 1)))
    (ld8 t (u32 (VIDEO + (i * 2 + 1))) + pitIntrCount t) t).
Proof.
  intros Hm Hi [F M C S Hc Ha]. unfold VIDEO in *. rewrite u32_small by lia.
  replace (0xB8000 + (i * 2 + 1)) with (0xB8000 + 2 * i + 1) by lia.
  assert (Hr : region t (span 0xB8000 4000)) by (by apply (con_frame_region k)).
  assert (Hin : span 0xB8000 4000 (0xB8000 + 2 * i + 1)) by (unfold span; lia).
  assert (Ep : pitIntrCount t = pitIntrCount k) by (by rewrite F).
  assert (Hne : forall x, span 0xB8000 4000 x -> x <> 0xB8000 + 2 * i + 1 ->
    ld8 (st8 (0xB8000 + 2 * i + 1) (ld8 t (0xB8000 + 2 * i + 1) + pitIntrCount t) t) x = ld8 t x)
    by (intros x Hx Hd; apply ld8_st8_sep, Hr; auto).
  split.
  - etrans; [exact F|]. apply con_frame_st8, Hr, Hin.
  - intros x Hx. rewrite ld8_st8_sep; [by apply M|]. eapply con_frame_sep; [exact F|]. by apply Hx.
  - by rewrite k_con_st8.
  - etrans; [exact S|]. by apply scr_frame_st8.
  - intros j Hj. unfold VIDEO. rewrite Hne by (unfold span; lia). by apply Hc.
  - intros j Hj. unfold VIDEO. destruct (decide (j = i)) as [->|Hd].
    + rewrite ld8_st8_eq by (by apply Hr). rewrite (proj2 (Z.ltb_lt i (i + 1))) by lia.
      rewrite Ep, Ha by lia. by rewrite Z.ltb_irrefl.
    + rewrite Hne, Ha by (unfold span; lia).
      destruct (Z.ltb_spec j i), (Z.ltb_spec j (i + 1)); try done; lia.
Qed.

Lemma test_interrupts_run k : console_ok k ->
  con_run k (test_interrupts k) (bump (pitIntrCount k) (abs_console k)) /\ scr_frame k (test_interrupts k).
Proof.
  intros (Hm & Hx & Hy). unfold test_interrupts.
  pose proof (for_range_inv 0 (NUM_ROWS * NUM_COLS)
    (fun i k => st8 (u32 (VIDEO + (i * 2 + 1))) (ld8 k (u32 (VIDEO + (i * 2 + 1))) + pitIntrCount k) k) k
    (fun i t => bumped k i t)) as H.
  destruct H as [F M C S Hc Ha].
  - done.
  - split; try reflexivity; [by intros x|]. intros j Hj. by rewrite (proj2 (Z.ltb_ge j 0)) by lia.
  - intros i t Hi Ht. by apply bumped_step.
  - revert F M C S Hc Ha. change (NUM_ROWS * NUM_COLS) with 2000.
    generalize (for_range 0 2000 (fun i k => st8 (u32 (VIDEO + (i * 2 + 1)))
      (ld8 k (u32 (VIDEO + (i * 2 + 1))) + pitIntrCount k) k) k) as t. intros t F M C S Hc Ha.
    split; [|exact S]. split; [exact F|exact M| |].
    + unfold abs_console, bump. cbn [a_cells a_x a_y]. rewrite C. f_equal. apply cells_ext; [by rewrite length_map, length_cells|].
      intros j Hj. rewrite Hc, Ha, (proj2 (Z.ltb_lt j 2000)) by lia.
      unfold aget. rewrite (proj2 (in_range_true _ _)) by (rewrite length_map, length_cells; lia).
      rewrite list_lookup_fmap. pose proof (aget_cells k j Hj) as E. unfold aget in E.
      rewrite (proj2 (in_range_true _ _)) in E by (rewrite length_cells; lia).
      by apply (f_equal (fmap (fun c : Z * Z => (fst c, u8 (snd c + pitIntrCount k))))) in E.
    + split; [by apply (con_frame_region k)|]. by rewrite C.
Qed.

(** ** Saving the running process *)

(** The terminal and the process have what they resume from. *)
Definition kept (esp ebp : Z) (t : terminal_t) (p : PCB_struct) (k : kernel) : kernel :=
  put_term (cur_terminal k) (with_save_tss (tss k) t)
    (put_pcb (curr_process t) (with_task_ebp (s32 ebp) (with_task_esp (s32 esp) p)) k).

Lemma pit_keep_run esp ebp k t p :
  aget (terminals k) (cur_terminal k) = Some t -> aget (k_pcbs k) (curr_process t) = Some p ->
  0 <= screen_x k < 256 -> 0 <= screen_y k < 256 ->
  pit_keep esp ebp k = set_cur_terminal (u8 (Z.rem (cur_terminal k + 1) NUM_TERMINALS))
    (put_term (cur_terminal k) (at_pos (screen_x k) (screen_y k) (with_save_tss (tss k) t))
       (kept esp ebp t p k)).
Proof.
  intros Et Ep Hx Hy. pose proof (aget_Some_range _ _ _ Et) as Hc. pose proof (aget_Some_range _ _ _ Ep) as Hp.
  unfold pit_keep, kept, upd_terminal, upd_PCB, get_terminal, put_term, put_pcb.
  cbn -[aset aget s32 u8 Z.rem]. rewrite Et. cbn -[aset aget s32 u8 Z.rem].
  rewrite aget_aset_eq by exact Hc. cbn -[aset aget s32 u8 Z.rem]. rewrite Ep. cbn -[aset aget s32 u8 Z.rem].
  rewrite aget_aset_eq by exact Hc. cbn -[aset aget s32 u8 Z.rem].
  rewrite aget_aset_eq by exact Hp. cbn -[aset aget s32 u8 Z.rem].
  do 2 (rewrite aget_aset_eq by (rewrite ?length_aset; exact Hc); cbn -[aset aget s32 u8 Z.rem]).
  unfold at_pos. rewrite !aset_aset_eq. unfold get_screen_x, get_screen_y, set_terminals, with_k_pcbs. cbn -[aset s32 u8 Z.rem].
  rewrite (u8_small (screen_x k)), (u8_small (screen_y k)) by assumption. reflexivity.
Qed.

(** No process to save: the terminal runs none yet. *)
Lemma pit_keep_none esp ebp k t :
  aget (terminals k) (cur_terminal k) = Some t -> curr_process t = -1 ->
  0 <= screen_x k < 256 -> 0 <= screen_y k < 256 ->
  pit_keep esp ebp k = set_cur_terminal (u8 (Z.rem (cur_terminal k + 1) NUM_TERMINALS))
    (put_term (cur_terminal k) (at_pos (screen_x k) (screen_y k) (with_save_tss (tss k) t))
       (log_fault (OobPCB (-1)) (log_fault (OobPCB (-1)) k))).
Proof.
  intros Et Ep Hx Hy. pose proof (aget_Some_range _ _ _ Et) as Hc.
  unfold pit_keep, upd_terminal, upd_PCB, get_terminal, put_term.
  cbn -[aset aget s32 u8 Z.rem]. rewrite Et. cbn -[aset aget s32 u8 Z.rem].
  rewrite aget_aset_eq by exact Hc. cbn -[aset aget s32 u8 Z.rem]. rewrite Ep.
  change (aget (k_pcbs k) (-1)) with (@None PCB_struct). cbn -[aset aget s32 u8 Z.rem].
  rewrite aget_aset_eq by exact Hc. cbn -[aset aget s32 u8 Z.rem]. rewrite Ep.
  change (aget (k_pcbs k) (-1)) with (@None PCB_struct). cbn -[aset aget s32 u8 Z.rem].
  do 2 (rewrite aget_aset_eq by (rewrite ?length_aset; exact Hc); cbn -[aset aget s32 u8 Z.rem]).
  unfold at_pos. rewrite !aset_aset_eq. unfold get_screen_x, get_screen_y, set_terminals, log_fault. cbn -[aset s32 u8 Z.rem].
  rewrite (u8_small (screen_x k)), (u8_small (screen_y k)) by assumption. reflexivity.
Qed.

(** ** Resuming the scheduled one *)

(** The state pit_resume leaves. *)
Definition back_in (l : list io_event) (t : terminal_t) (p : PCB_struct) (k : kernel) : kernel :=
  with_k_io (mkIo l (io_dev k)) (set_cpu_ebp (u32 (task_ebp p)) (set_cpu_esp (u32 (task_esp p))
    (prog_mapped (curr_process t) (set_tss (save_tss t) k)))).

Lemma pit_resume_run k t p : aget (terminals k) (cur_terminal k) = Some t ->
  aget (k_pcbs k) (curr_process t) = Some p -> 0 <= cur_terminal k < 3 ->
  exists l, pit_resume k = back_in l t p (map_video_page (screen_slot (cur_terminal k) k)
    (set_screenxy (t_screen_x t) (t_screen_y t) k)).
Proof.
  intros Et Ep Hc. unfold pit_resume.
  assert (Eg : forall a, get_terminal (set_tss a k) (cur_terminal (set_tss a k)) = t)
    by (intros a; unfold get_terminal; cbn; by rewrite Et).
  assert (E0 : get_terminal k (cur_terminal k) = t) by (unfold get_terminal; by rewrite Et).
  assert (Eq : get_PCB (set_tss (save_tss t) k) (curr_process t) = p)
    by (unfold get_PCB; cbn; by rewrite Ep).
  rewrite E0, Eg, Eq. unfold pit_console. rewrite map_page_prog_eq.
  replace (if cur_terminal (set_tss (save_tss t) k) =? visible (set_tss (save_tss t) k)
      then map_video_page 0 (set_tss (save_tss t) k)
      else map_video_page (u8 (1 + cur_terminal (set_tss (save_tss t) k))) (set_tss (save_tss t) k))
    with (map_video_page (screen_slot (cur_terminal k) k) (set_tss (save_tss t) k)).
  2:{ unfold screen_slot. cbn [cur_terminal visible k_sch set_tss with_k_sys].
      rewrite u8_small by lia. by destruct (cur_terminal k =? visible k). }
  match goal with |- context [send_eoi PIT_IRQ ?s] => destruct (send_eoi_io PIT_IRQ s) as [l ->] end.
  exists l. generalize (screen_slot (cur_terminal k) k) as s. intros s.
  assert (E1 : forall a, get_terminal (map_video_page s (set_tss a k)) (cur_terminal (map_video_page s (set_tss a k))) = t)
    by (intros a; exact E0).
  rewrite E1.
  assert (E2 : forall a x y, get_terminal (set_screenxy x y (map_video_page s (set_tss a k)))
      (cur_terminal (set_screenxy x y (map_video_page s (set_tss a k)))) = t)
    by (intros; exact E0).
  rewrite E2. reflexivity.
Qed.

(** ** The tick as the terminals see it *)

Definition marked (n : Z) (t : aterm) : aterm := mkT (bump n (at_con t)) (at_line t) (at_hist t).

Lemma vt_count c k n : vt_ok c k -> vt_ok c (set_pitIntrCount n k) /\
  (forall i, 0 <= i < 3 -> vterm c (set_pitIntrCount n k) i = vterm c k i).
Proof.
  intros Hok. apply vt_quiet; try done; [apply Hok| |apply Hok].
  intros i t E. by exists t.
Qed.

Lemma mark_run n c k : vt_ok c k -> let k1 := test_interrupts (set_pitIntrCount n k) in
  vt_ok c k1 /\ (forall i, 0 <= i < 3 -> vterm c k1 i = if i =? c then marked n (vterm c k i) else vterm c k i) /\
  con_frame (set_pitIntrCount n k) k1 /\ scr_frame (set_pitIntrCount n k) k1.
Proof.
  intros Hok. destruct (vt_count c k n Hok) as [H0 Hv]. cbv zeta.
  pose proof (eq_refl : pitIntrCount (set_pitIntrCount n k) = n) as En.
  revert H0 Hv En. generalize (set_pitIntrCount n k) as k0. intros k0 H0 Hv En.
  destruct (test_interrupts_run k0 (vt_console_ok c k0 H0)) as [Hr Hs]. rewrite En in Hr.
  revert Hr Hs. generalize (test_interrupts k0) as k1. intros k1 Hr Hs.
  pose proof (cr_frame _ _ _ Hr) as Hf.
  assert (Eed : forall i, ved k1 i = ved k0 i) by (intros i; apply ved_ext; by rewrite Hf).
  pose proof (vo_owner _ _ H0) as Hc. split_and!; [| |exact Hf|exact Hs].
  - apply (vt_ok_run c k0 k1 _ H0 Hr Hs). rewrite (abs_console_vcon c) by apply H0.
    apply (vo_ed _ _ H0 c Hc).
  - intros i Hi. rewrite <- Hv by done. unfold vterm at 1. rewrite (vcon_run c k0 k1 _ H0 Hr Hs i Hi), Eed.
    destruct (Z.eqb_spec i c) as [->|]; [|done]. rewrite (abs_console_vcon c) by apply H0. reflexivity.
Qed.

Lemma rem_next c : 0 <= c < 3 -> u8 (Z.rem (c + 1) NUM_TERMINALS) = (c + 1) mod 3 /\ 0 <= (c + 1) mod 3 < 3.
Proof. intros Hc. assert (c = 0 \/ c = 1 \/ c = 2) as [->|[->| ->]] by lia; by vm_compute. Qed.

(** What one tick makes of [k] when all terminals run a process. *)
Record ticked (k k' : kernel) : Prop := {
  ti_cur : cur_terminal k' = (cur_terminal k + 1) mod 3;
  ti_ok : vt_ok (cur_terminal k') k';
  ti_terms : forall i, 0 <= i < 3 -> vterm (cur_terminal k') k' i =
    if i =? cur_terminal k then marked (u8 (pitIntrCount k + 1)) (vterm (cur_terminal k) k i)
    else vterm (cur_terminal k) k i;
  ti_visible : visible k' = visible k;
  ti_count : pitCount k' = pitCount k;
  ti_procs : forall i, curr_process (get_terminal k' i) = curr_process (get_terminal k i);
  ti_save_tss : forall i, save_tss (get_terminal k' i) = if cur_terminal k =? i then tss k else save_tss (get_terminal k i);
  ti_pcbs : k_pcbs k' = k_pcbs (put_pcb (curr_process (get_terminal k (cur_terminal k)))
     (with_task_ebp (s32 (cpu_ebp k)) (with_task_esp (s32 (cpu_esp k))
        (get_PCB k (curr_process (get_terminal k (cur_terminal k)))))) k);
  ti_page : page_directory k' = aset (page_directory k) 32 (prog_entry (curr_process (get_terminal k' (cur_terminal k'))));
  ti_tss : tss k' = save_tss (get_terminal k' (cur_terminal k'));
  ti_esp : cpu_esp k' = u32 (task_esp (get_PCB k' (curr_process (get_terminal k' (cur_terminal k')))));
  ti_ebp : cpu_ebp k' = u32 (task_ebp (get_PCB k' (curr_process (get_terminal k' (cur_terminal k')))));
  ti_mem : forall x, ~ video x -> ld8 (k_mem k') x = ld8 (k_mem k) x;
  ti_faults : k_faults k' = k_faults k;
}.

(** Scheduling from terminal [c] to the next one, after the mark. *)
Lemma switch_run k1 esp ebp t p c c' : vt_ok c k1 -> cur_terminal k1 = c -> c' = (c + 1) mod 3 ->
  aget (terminals k1) c = Some t -> aget (k_pcbs k1) (curr_process t) = Some p ->
  pcbs_ok (k_pcbs k1) -> (forall i, 0 <= i < 3 -> 0 <= curr_process (get_terminal k1 i) < 6) ->
  let k' := pit_resume (pit_keep esp ebp k1) in
  cur_terminal k' = c' /\ vt_ok c' k' /\ (forall i, 0 <= i < 3 -> vterm c' k' i = vterm c k1 i) /\
  k_sch k' = k_sch (set_cur_terminal c' (put_term c (at_pos (screen_x k1) (screen_y k1) (with_save_tss (tss k1) t)) k1)) /\
  k_pcbs k' = k_pcbs (put_pcb (curr_process t) (with_task_ebp (s32 ebp) (with_task_esp (s32 esp) p)) k1) /\
  page_directory k' = aset (page_directory k1) 32 (prog_entry (curr_process (get_terminal k' c'))) /\
  tss k' = save_tss (get_terminal k' c') /\
  cpu_esp k' = u32 (task_esp (get_PCB k' (curr_process (get_terminal k' c')))) /\
  cpu_ebp k' = u32 (task_ebp (get_PCB k' (curr_process (get_terminal k' c')))) /\
  k_mem k' = k_mem k1 /\ k_faults k' = k_faults k1.
Proof.
  intros Hok Ecur -> Et Ep Hpcb Hpr. cbv zeta. pose proof (vo_owner _ _ Hok) as Hc.
  pose proof (vo_sched _ _ Hok) as Hsc. pose proof (so_bytes _ Hsc) as (Bx & By & _).
  rewrite (pit_keep_run esp ebp k1 t p) by (rewrite ?Ecur; assumption).
  rewrite Ecur. destruct (rem_next c Hc) as [-> Hc']. set (c' := (c + 1) mod 3) in *.
  set (tq := with_save_tss (tss k1) t). set (kq := kept esp ebp t p k1).
  assert (Eq : aget (terminals kq) c = Some tq).
  { unfold kq, kept, put_term. cbn. rewrite Ecur. apply aget_aset_eq. by apply aget_Some_range in Et. }
  assert (Hq : vt_ok c kq /\ forall i, 0 <= i < 3 -> vterm c kq i = vterm c k1 i).
  { apply vt_quiet; try done; [cbn; rewrite length_aset; apply Hsc| |apply Hok].
    unfold kq, kept. rewrite Ecur. exact (face_put_term c t tq k1 Et eq_refl). }
  destruct Hq as [Hkq Hvq].
  set (k3 := set_cur_terminal c' _).
  assert (E3 : k_sch k3 = k_sch (set_cur_terminal c' (put_term c (at_pos (screen_x k1) (screen_y k1) tq) k1))).
  { unfold k3, kq, kept, put_term. cbn. rewrite Ecur. by rewrite aset_aset_eq. }
  assert (Hl3 : length (terminals k3) = 3%nat) by (rewrite E3; cbn; rewrite length_aset; apply Hsc).
  destruct (aget_range_Some (terminals k3) c') as [t' Et']; [lia|].
  assert (Eg' : get_terminal k3 c' = t') by (unfold get_terminal; by rewrite Et').
  assert (Hpr' : 0 <= curr_process t' < 6).
  { rewrite <- Eg'. replace (curr_process (get_terminal k3 c')) with (curr_process (get_terminal k1 c')); [by apply Hpr|].
    unfold get_terminal. rewrite E3. cbn. rewrite aget_aset. destruct (Z.eqb_spec c c') as [<-|]; [|done].
    rewrite (proj2 (in_range_true _ _)) by (by apply aget_Some_range in Et). by rewrite Et. }
  assert (Epc3 : k_pcbs k3 = aset (k_pcbs k1) (curr_process t) (with_task_ebp (s32 ebp) (with_task_esp (s32 esp) p))) by reflexivity.
  destruct (aget_range_Some (k_pcbs k3) (curr_process t')) as [p' Ep'];
    [rewrite Epc3, length_aset, (proj1 Hpcb); lia|].
  destruct (pit_resume_run k3 t' p' Et' Ep' Hc') as [l ->].
  destruct (swap_pos_ok c c' tq (screen_slot c' kq) kq Hkq Eq Hc' eq_refl) as [Hkm Hvm].
  set (km := map_video_page (screen_slot c' kq) (swap_pos c c' tq kq)) in *.
  assert (Em : map_video_page (screen_slot (cur_terminal k3) k3) (set_screenxy (t_screen_x t') (t_screen_y t') k3)
    = set_cur_terminal c' km) by (rewrite <- Eg'; reflexivity).
  rewrite Em.
  destruct (vt_quiet c' km (back_in l t' p' (set_cur_terminal c' km)) Hkm) as [Hok' Hv']; try reflexivity.
  1: exact Hl3.
  1: intros i u Hu; by exists u.
  1: apply prog_mapped_ok, Hkm.
  assert (Egb : get_terminal (back_in l t' p' (set_cur_terminal c' km)) c' = t') by exact Eg'.
  assert (Epb : get_PCB (back_in l t' p' (set_cur_terminal c' km)) (curr_process t') = p')
    by (unfold get_PCB; change (k_pcbs (back_in l t' p' (set_cur_terminal c' km))) with (k_pcbs k3); by rewrite Ep').
  rewrite !Egb, !Epb.
  split_and!; [reflexivity|exact Hok'| |exact E3|exact Epc3|reflexivity..].
  intros i Hi. by rewrite Hv', Hvm, Hvq.
Qed.

Lemma pit_handler_steady k : 3 < pitCount (pit_save k) -> pit_handler k = Some (Ret 0, pit_resume (pit_save k)).
Proof.
  unfold pit_handler, NUM_TERMINALS. cbv zeta. generalize (pit_save k) as k1. intros k1 H.
  by rewrite (proj2 (Z.ltb_ge (pitCount k1) 3)), (proj2 (Z.eqb_neq (pitCount k1) 3)) by lia.
Qed.

(** Every terminal runs a process, and the first terminal has been shown. *)
Record schedulable (k : kernel) : Prop := {
  sb_ok : vt_ok (cur_terminal k) k;
  sb_pcbs : pcbs_ok (k_pcbs k);
  sb_count : 3 < pitCount k;
  sb_procs : forall i, 0 <= i < 3 -> 0 <= curr_process (get_terminal k i) < 6;
}.

Lemma pit_tick k : schedulable k -> exists k', pit_handler k = Some (Ret 0, k') /\ ticked k k'.
Proof.
  intros [Hok Hpcb Hcount Hpr]. pose proof (vo_owner _ _ Hok) as Hc. set (c := cur_terminal k) in *.
  set (n := u8 (pitIntrCount k + 1)). destruct (mark_run n c k Hok) as (H1 & Hv1 & Hf & Hs).
  destruct (aget_range_Some (terminals k) c) as [t Et]; [rewrite (so_length _ (vo_sched _ _ Hok)); lia|].
  assert (Egt : get_terminal k c = t) by (unfold get_terminal; by rewrite Et).
  destruct (pcbs_get k (curr_process t) Hpcb) as (p & Ep & Egp & _); [rewrite <- Egt; by apply Hpr|].
  assert (Esave : pit_save k = pit_keep (cpu_esp k) (cpu_ebp k) (test_interrupts (set_pitIntrCount n k))) by reflexivity.
  revert H1 Hv1 Hf Hs Esave. generalize (test_interrupts (set_pitIntrCount n k)) as k1.
  intros k1 H1 Hv1 Hf Hs Esave.
  assert (Es : k_sch k1 = k_sch (set_pitIntrCount n k)) by (by rewrite Hf).
  assert (Egi : forall i, get_terminal k1 i = get_terminal k i) by (intros; unfold get_terminal; by rewrite Es).
  assert (Epc : k_pcbs k1 = k_pcbs k) by (by rewrite Hf).
  destruct (switch_run k1 (cpu_esp k) (cpu_ebp k) t p c ((c + 1) mod 3) H1)
    as (E1 & E2 & E3 & E4 & E5 & E6 & E7 & E8 & E9 & E10 & E11).
  1: by rewrite Es.
  1: done.
  1: by rewrite Es.
  1: by rewrite Epc.
  1: by rewrite Epc.
  1: by intros i Hi; rewrite Egi; apply Hpr.
  rewrite pit_handler_steady.
  2:{ rewrite Esave, (pit_keep_run _ _ k1 t p); [cbn; by rewrite Es|by rewrite Es|by rewrite Epc|..].
      all: apply (so_bytes _ (vo_sched _ _ H1)). }
  rewrite Esave. exists (pit_resume (pit_keep (cpu_esp k) (cpu_ebp k) k1)). split; [reflexivity|].
  revert E1 E2 E3 E4 E5 E6 E7 E8 E9 E10 E11. generalize (pit_resume (pit_keep (cpu_esp k) (cpu_ebp k) k1)) as k'.
  intros k' E1 E2 E3 E4 E5 E6 E7 E8 E9 E10 E11.
  assert (Hg : forall i, get_terminal k' i =
    if c =? i then at_pos (screen_x k1) (screen_y k1) (with_save_tss (tss k1) t) else get_terminal k i).
  { intros i. rewrite <- Egi, <- get_put_term by (rewrite Es; by apply aget_Some_range in Et).
    unfold get_terminal. rewrite E4. reflexivity. }
  assert (Et1 : tss k1 = tss k) by (by rewrite Hf).
  split; rewrite ?E1; try assumption; [reflexivity|..].
  - intros i Hi. rewrite E3, Hv1 by done. reflexivity.
  - rewrite E4. cbn. by rewrite Es.
  - rewrite E4. cbn. by rewrite Es.
  - intros i. rewrite Hg. destruct (Z.eqb_spec c i) as [<-|]; [by rewrite Egt|done].
  - intros i. rewrite Hg, <- Et1. fold c. by destruct (c =? i).
  - fold c. rewrite Egt, Egp, E5. cbn. by rewrite Epc.
  - rewrite E6. by rewrite (sf_pg _ _ Hs).
  - intros x Hx. rewrite E10. exact (scr_frame_out _ _ _ Hs (vo_paging _ _ Hok) x Hx).
  - rewrite E11. by rewrite Hf.
Qed.

(** ** The first three ticks *)

(** The running process is saved; the screen's owner stays the displayed
    terminal. *)
Record boot_kept (k : kernel) (st : Z -> list Z) (k' : kernel) : Prop := {
  bk_ok : vt_ok (visible k) k';
  bk_ved : forall i, 0 <= i < 3 -> ved k' i = ved k i;
  bk_procs : procs_ok k' st;
  bk_same : k_pg k' = k_pg k /\ k_fs k' = k_fs k /\ k_cpus k' = k_cpus k /\ visible k' = visible k /\ pitCount k' = pitCount k;
  bk_cur : cur_terminal k' = (cur_terminal k + 1) mod 3;
  bk_mem : forall x, ~ video x -> ld8 (k_mem k') x = ld8 (k_mem k) x;
  bk_faults : k_faults k' = (match st (cur_terminal k) with [] => [OobPCB (-1); OobPCB (-1)] | _ => [] end) ++ k_faults k;
}.

Lemma procs_kept esp ebp k t p st c' : procs_ok k st -> aget (terminals k) (cur_terminal k) = Some t ->
  aget (k_pcbs k) (curr_process t) = Some p -> 0 <= c' < 3 -> forall x y,
  procs_ok (set_cur_terminal c' (put_term (cur_terminal k) (at_pos x y (with_save_tss (tss k) t)) (kept esp ebp t p k))) st.
Proof.
  intros Hk Et Ep Hc' x y. pose proof Hk as [H1 H2 H3 H4 _ _ _]. pose proof (aget_Some_range _ _ _ Ep) as Hp.
  assert (Hok : pcb_ok p) by (eapply Forall_aget; [apply H1|exact Ep]).
  assert (Ha : length (pcb_args p) = 1024%nat) by (exact (Forall_aget _ _ _ _ H2 Ep)).
  apply (procs_ok_quiet k); [exact Hk| | |cbn; by rewrite !length_aset|exact Hc'| |].
  - apply (pcbs_ok_put (curr_process t) (with_task_ebp (s32 ebp) (with_task_esp (s32 esp) p)) k H1). exact Hok.
  - cbn. apply Forall_aset; [exact H2|exact Ha].
  - intros i. unfold get_terminal, kept, put_term. cbn. rewrite aset_aset_eq, aget_aset.
    destruct (Z.eqb_spec (cur_terminal k) i) as [<-|]; [|done]. rewrite (proj2 (in_range_true _ _)) by lia. by rewrite Et.
  - intros j. set (q := with_task_ebp (s32 ebp) (with_task_esp (s32 esp) p)).
    change (parent_pid (get_PCB (put_pcb (curr_process t) q k) j) = parent_pid (get_PCB k j) /\
      pcb_in_use (get_PCB (put_pcb (curr_process t) q k) j) = pcb_in_use (get_PCB k j)).
    rewrite put_pcb_get by exact Hp.
    destruct (Z.eqb_spec (curr_process t) j) as [<-|]; [|done]. unfold get_PCB. by rewrite Ep.
Qed.

Lemma boot_keep_vt k kP t c' : vt_ok (visible k) k -> aget (terminals k) (cur_terminal k) = Some t ->
  k_mem kP = k_mem k -> k_con kP = k_con k -> k_kb kP = k_kb k -> k_pg kP = k_pg k -> k_sch kP = k_sch k ->
  (forall i, 0 <= i < 3 -> e_num (ved k i) = 0) -> 0 <= cur_terminal k < 3 ->
  let tq := with_save_tss (tss k) t in
  let k' := set_cur_terminal c' (put_term (cur_terminal k) (at_pos (screen_x k) (screen_y k) tq)
    (put_term (cur_terminal k) tq kP)) in
  vt_ok (visible k) k' /\ forall i, 0 <= i < 3 -> ved k' i = ved k i.
Proof.
  intros Hok Et Em Ec Ek Ep Es He Hcur. cbv zeta. set (tq := with_save_tss (tss k) t).
  destruct (vt_console_ok _ _ Hok) as (_ & Cx & Cy).
  set (kq := put_term (cur_terminal k) tq kP).
  assert (Hq : vt_ok (visible k) kq /\ forall i, 0 <= i < 3 -> vterm (visible k) kq i = vterm (visible k) k i).
  { apply vt_quiet; try assumption.
    - intros x _. exact (f_equal (fun m => ld8 m x) Em).
    - unfold kq, put_term. cbn. by rewrite Es.
    - unfold kq, put_term. cbn. rewrite length_aset, Es. apply (vo_sched _ _ Hok).
    - intros i u Hu. assert (Et2 : aget (terminals kP) (cur_terminal k) = Some t) by (by rewrite Es).
      destruct (face_put_term (cur_terminal k) t tq kP Et2 eq_refl i u Hu) as (v & Ev & Ef). rewrite Es in Ev. by exists v.
    - replace (k_pg kq) with (k_pg k) by (symmetry; exact Ep). apply Hok. }
  assert (Eq : forall i, 0 <= i < 3 -> ved kq i = ved k i).
  { intros i Hi. unfold ved, kq. rewrite get_put_term by (rewrite Es; by apply aget_Some_range in Et).
    unfold put_term. cbn -[get_terminal]. unfold get_terminal. rewrite Ek, Es.
    destruct (Z.eqb_spec (cur_terminal k) i) as [<-|]; [by rewrite Et|done]. }
  destruct (vt_put_pos (visible k) (cur_terminal k) (screen_x k) (screen_y k) tq kq (proj1 Hq)) as (H1 & H2 & _); try assumption.
  - unfold kq, put_term. cbn. rewrite Es. apply aget_aset_eq. by apply aget_Some_range in Et.
  - right. rewrite Eq by done. by apply He.
  - split; [by apply vt_ok_cur|]. intros i Hi. etrans; [exact (H2 i)|by apply Eq].
Qed.

Lemma pit_keep_boot esp ebp k st : vt_ok (visible k) k -> procs_ok k st ->
  (forall i, 0 <= i < 3 -> e_num (ved k i) = 0) -> boot_kept k st (pit_keep esp ebp k).
Proof.
  intros Hok Hk He. pose proof (po_cur _ _ Hk) as Hc. pose proof (vo_sched _ _ Hok) as Hsc.
  pose proof (so_bytes _ Hsc) as (Bx & By & _).
  destruct (aget_range_Some (terminals k) (cur_terminal k)) as [t Et]; [rewrite (po_terms _ _ Hk); lia|].
  assert (Egt : get_terminal k (cur_terminal k) = t) by (unfold get_terminal; by rewrite Et).
  pose proof (po_chain _ _ Hk _ Hc) as Hch. rewrite Egt in Hch.
  destruct (rem_next _ Hc) as [Er Hn].
  destruct (vt_console_ok _ _ Hok) as (_ & Cx & Cy).
  destruct (st (cur_terminal k)) as [|pid l] eqn:Est; cbn in Hch.
  - rewrite (pit_keep_none esp ebp k t) by assumption. rewrite Er.
    set (kP := log_fault (OobPCB (-1)) (log_fault (OobPCB (-1)) k)).
    set (tq := with_save_tss (tss k) t).
    destruct (boot_keep_vt k kP t ((cur_terminal k + 1) mod 3) Hok Et) as [H1 H2]; try reflexivity; try assumption.
    fold tq in H1, H2. replace (put_term (cur_terminal k) _ kP)
      with (put_term (cur_terminal k) (at_pos (screen_x k) (screen_y k) tq) (put_term (cur_terminal k) tq kP))
      by (unfold put_term, set_terminals; cbn; by rewrite aset_aset_eq).
    split; [exact H1|exact H2| |by split_and!|reflexivity|done|by rewrite Est].
    apply (procs_ok_quiet k); try apply Hk; [by cbn; rewrite !length_aset; apply Hk|exact Hn| |done].
    intros i. unfold get_terminal, put_term. cbn. rewrite aset_aset_eq, aget_aset.
    destruct (Z.eqb_spec (cur_terminal k) i) as [<-|]; [|done]. rewrite (proj2 (in_range_true _ _)) by (by apply aget_Some_range in Et).
    by rewrite Et.
  - destruct Hch as (Ecp & Hpid & _).
    destruct (pcbs_get k (curr_process t) (po_pcbs _ _ Hk)) as (p & Ep & _ & _); [lia|].
    rewrite (pit_keep_run esp ebp k t p) by assumption. rewrite Er.
    pose proof (procs_kept esp ebp k t p st _ Hk Et Ep Hn (screen_x k) (screen_y k)) as Hpk.
    destruct (boot_keep_vt k (put_pcb (curr_process t) (with_task_ebp (s32 ebp) (with_task_esp (s32 esp) p)) k) t
      ((cur_terminal k + 1) mod 3) Hok Et) as [H1 H2]; try reflexivity; try assumption.
    split; [exact H1|exact H2|exact Hpk|by split_and!|reflexivity|done|by rewrite Est].
Qed.

Lemma line_empty c k i : vt_ok c k -> 0 <= i < 3 -> at_line (vterm c k i) = [] <-> e_num (ved k i) = 0.
Proof.
  intros Hok Hi. destruct (vo_ed _ _ Hok i Hi) as [H1 _ _ [H4 _] _ _]. unfold vterm, ed_line. cbn [at_line]. split.
  - intros E. apply (f_equal length) in E. rewrite length_take, H4 in E. cbn in E. lia.
  - intros ->. reflexivity.
Qed.

(** The shell's terminal is shown and blanked. *)
Record boot_shown (c : Z) (st : Z -> list Z) (k k' : kernel) : Prop := {
  bs_ok : vt_ok c k';
  bs_lines : forall i, 0 <= i < 3 -> at_line (vterm c k' i) = at_line (vterm (visible k) k i) /\
    at_hist (vterm c k' i) = at_hist (vterm (visible k) k i);
  bs_con : vcon c k' c = mkA (replicate 2000 blank) 0 0;
  bs_procs : procs_ok k' st;
  bs_same : page_directory k' = page_directory k /\ k_fs k' = k_fs k /\ k_cpus k' = k_cpus k;
  bs_count : pitCount k' = c + 1;
  bs_visible : visible k' = c;
  bs_cur : cur_terminal k' = c;
  bs_mem : forall x, ~ video x -> ld8 (k_mem k') x = ld8 (k_mem k) x;
  bs_faults : k_faults k' = k_faults k;
}.

Lemma pit_show_run c st k : vt_ok (visible k) k -> procs_ok k st -> 0 <= c < 3 -> pitCount k = c -> cur_terminal k = c ->
  (forall i, 0 <= i < 3 -> e_num (ved k i) = 0) -> boot_shown c st k (pit_show k).
Proof.
  intros Hok Hk Hc Ecnt Ecur He. unfold pit_show. rewrite Ecnt.
  destruct (switch_terminal_vterm c k Hok Hc) as (H1 & H2 & H3 & _ & H5 & H6 & H7 & H8 & H9 & _ & H11 & H12 & H13 & H14 & H15 & _).
  revert H1 H2 H3 H5 H6 H7 H8 H9 H11 H12 H13 H14 H15. generalize (switch_terminal c k) as k1.
  intros k1 H1 H2 H3 H5 H6 H7 H8 H9 H11 H12 H13 H14 H15. rewrite Ecur in H3.
  destruct (clear_run k1 (proj1 (vt_console_ok c k1 H1))) as [Hr _].
  pose proof (scr_frame_clear k1) as Hs. revert Hr Hs. generalize (clear k1) as k2. intros k2 Hr Hs.
  assert (Es : k_sch k2 = k_sch k1) by (by rewrite (cr_frame _ _ _ Hr)).
  assert (Ek : k_kb k2 = k_kb k1) by (by rewrite (cr_frame _ _ _ Hr)).
  assert (He1 : e_num (ved k1 c) = 0).
  { apply (line_empty c); [exact H1|exact Hc|]. rewrite H11 by exact Hc. by apply (line_empty _ k c Hok Hc), He. }
  assert (Hok2 : vt_ok c k2) by (apply (vt_ok_run c k1 k2 _ H1 Hr Hs); rewrite He1; unfold linear; cbn; lia).
  destruct (aget_range_Some (terminals k2) c) as [t Et]; [rewrite (so_length _ (vo_sched _ _ Hok2)); lia|].
  destruct (vt_put_pos c c 0 0 t k2 Hok2 Et) as (H21 & H22 & H23); [lia|lia|by left|].
  pose proof (cr_abs _ _ _ Hr) as Ha. rewrite (abs_console_vcon c) in Ha by apply Hok2.
  assert (Exy : screen_x k2 = 0 /\ screen_y k2 = 0).
  { split; [exact (f_equal a_x (cr_abs _ _ _ Hr))|exact (f_equal a_y (cr_abs _ _ _ Hr))]. }
  destruct Exy as [Ex Ey].
  assert (Ec2 : cur_terminal k2 = c) by (by rewrite Es).
  pose proof (save_pos_eq c t k2 Et) as E. cbv zeta in E. rewrite Ex, Ey in E.
  rewrite (proj2 (proj2 (upd_terminal_frame (cur_terminal k2) (with_t_screen_x (u8 (get_screen_x k2))) k2))), Ec2.
  rewrite E, !(u8_small 0) by lia. clear E.
  destruct (send_eoi_io PIT_IRQ (set_pitCount (u8 (pitCount (put_term c (at_pos 0 0 t) k2) + 1))
    (put_term c (at_pos 0 0 t) k2))) as [l ->].
  assert (En : u8 (pitCount (put_term c (at_pos 0 0 t) k2) + 1) = c + 1).
  { change (pitCount (put_term c (at_pos 0 0 t) k2)) with (pitCount k2). rewrite Es, H15, Ecnt. apply u8_small. lia. }
  rewrite En.
  assert (Ecp : forall i, curr_process (get_terminal (put_term c (at_pos 0 0 t) k2) i) = curr_process (get_terminal k i)).
  { intros i. rewrite get_put_term by (by apply aget_Some_range in Et). rewrite <- (proj1 (H14 i)).
    unfold get_terminal. rewrite <- Es. destruct (Z.eqb_spec c i) as [<-|]; [by rewrite Et|done]. }
  assert (Epcb : k_pcbs k2 = k_pcbs k) by (rewrite <- H6; by rewrite (cr_frame _ _ _ Hr)).
  revert H21 H22 H23 Ecp. set (k3 := put_term c (at_pos 0 0 t) k2). intros H21 H22 H23 Ecp.
  destruct (vt_quiet c k3 (with_k_io (mkIo l (io_dev (set_pitCount (c + 1) k3))) (set_pitCount (c + 1) k3)) H21)
    as [H31 H32]; try reflexivity; [apply H21|intros i u Hu; by exists u|apply H21|].
  assert (Hout : forall x, ~ video x -> ld8 (k_mem k2) x = ld8 (k_mem k) x).
  { intros x Hx. rewrite <- H13 by exact Hx. exact (scr_frame_out _ _ _ Hs (vo_paging _ _ H1) x Hx). }
  assert (Hall : k_pg k2 = k_pg k1 /\ k_fs k2 = k_fs k /\ k_cpus k2 = k_cpus k /\ k_faults k2 = k_faults k).
  { rewrite <- H7, <- H12, <- H5. by rewrite (cr_frame _ _ _ Hr). }
  destruct Hall as (G1 & G2 & G3 & G4).
  split.
  - exact H31.
  - intros i Hi. rewrite H32, H23, <- H11 by (done || by left). unfold vterm. rewrite (ved_ext k1 k2) by assumption. done.
  - transitivity (at_con (vterm c k2 c)); [|exact Ha]. by rewrite <- H23, <- H32 by (done || by left).
  - assert (E3 : k_pcbs k3 = k_pcbs k) by exact Epcb. assert (Ec3 : cur_terminal k3 = c) by exact Ec2.
    assert (Hl3 : length (terminals k3) = 3%nat) by apply (so_length _ (vo_sched _ _ H21)).
    revert E3 Ec3 Hl3 Ecp. generalize k3. clear -Hk Hc. intros k3 E3 Ec3 Hl3 Ecp.
    apply (procs_ok_quiet k); [exact Hk|cbn; rewrite E3; apply Hk..|exact Hl3|cbn; by rewrite Ec3|exact Ecp|].
    intros j. unfold get_PCB. cbn. by rewrite E3.
  - split_and!; [rewrite <- H9; exact (f_equal page_directory G1)|exact G2|exact G3].
  - reflexivity.
  - transitivity (visible k2); [reflexivity|]. by rewrite Es.
  - exact Ec2.
  - exact Hout.
  - exact G4.
Qed.

(** What execute asks of a state, from one with the same image and registers. *)
Lemma exec_ok_video k k' t : exec_ok k -> pcbs_ok (k_pcbs k') -> length (terminals k') = 3%nat ->
  0 <= cur_terminal k' < 3 -> paging_ok t k' -> k_fs k' = k_fs k -> k_cpus k' = k_cpus k ->
  (forall x, ~ video x -> ld8 (k_mem k') x = ld8 (k_mem k) x) -> exec_ok k' /\ same_image k k'.
Proof.
  intros [X1 X2 X3 X4 [D1 D2 D3 D4] X6 X7 X8 X9] H1 H2 H3 H4 H5 H6 Hm.
  assert (Eh : header_buf k' = header_buf k) by (unfold header_buf; by rewrite H6).
  assert (Ei : image_size k' = image_size k) by (unfold image_size; by rewrite H5).
  split.
  - split; rewrite ?Eh, ?Ei, ?H5; try assumption; [by exists t|by split; rewrite ?Ei, ?H5].
  - destruct X4 as [t0 X4], X6 as [I1 I2]. apply (same_image_phys t0 t); try assumption; try (by rewrite H5).
    intros a Ha. apply Hm. unfold in_image, video, span, VIDEO, FOUR_MB in *. lia.
Qed.

(** A launched program leaves the terminals alone. *)
Lemma launched_vt k i ino pid t p k' c : launched k i ino pid t p k' -> exec_ok k -> vt_ok c k ->
  aget (terminals k) (cur_terminal k) = Some t -> 0 <= pid < 6 ->
  vt_ok c k' /\ (forall i, 0 <= i < 3 -> vterm c k' i = vterm c k i).
Proof.
  intros [_ Ls Lg _ _ _ Lm _ (_ & _ & Lc & Lk & _)] Hx Hok Et Hpid. destruct (xo_header _ Hx) as [Hh _].
  apply vt_quiet; try assumption.
  - intros x Hx'. apply Lm; unfold video, span, VIDEO, HEADERSIZE, FOUR_MB in *; lia.
  - by rewrite Ls.
  - rewrite Ls. cbn. rewrite length_aset. apply (xo_terms _ Hx).
  - intros j u. rewrite Ls. exact (face_put_term _ t (with_curr_process pid t) k Et eq_refl j u).
  - rewrite Lg. apply prog_mapped_ok, Hok.
Qed.

(** The three ticks at boot. *)
Record boot_tick (c i ino : Z) (st : Z -> list Z) (k k' : kernel) : Prop := {
  bt_procs : procs_ok k' (push c c st);
  bt_state : pitCount k' = c + 1 /\ visible k' = c /\ cur_terminal k' = c;
  bt_ok : vt_ok c k';
  bt_lines : forall i, 0 <= i < 3 -> at_line (vterm c k' i) = [] /\ at_hist (vterm c k' i) = at_hist (vterm (visible k) k i);
  bt_blank : at_con (vterm c k' c) = mkA (replicate 2000 blank) 0 0;
  bt_page : aget (page_directory k') 32 = Some (prog_entry c);
  bt_image : forall a, 0 <= a < Z.min (inode_length k ino) MAXBYTES ->
    exists q, translate true k' (VADDRPROGIMG + a) = Some q /\ ld8 (k_mem k') q = file_byte k ino a;
  bt_same : same_image k k';
  bt_dentry : length (d_name (currDentry k')) = 32%nat;
  bt_cpu : k_cpus k' = k_cpus (set_intr_on true k);
  bt_faults : k_faults k' = (match st (cur_terminal k) with [] => [OobPCB (-1); OobPCB (-1)] | _ => [] end) ++ k_faults k;
}.

(** From the shown terminal on. *)
Lemma boot_execute c st k i ino : 0 <= c < 3 -> cur_terminal k = c -> vt_ok c k -> exec_ok k -> procs_ok k st ->
  fresh st c -> program k shell_name i ino -> elf_magic k ino = true ->
  exists k' t, execute shell_name k = Some (User (elf_entry k ino) USER_CS 0x83FFFFC USER_DS, k') /\
    launched k i ino c t (get_PCB k c) k' /\ procs_ok k' (push c c st) /\
    vt_ok c k' /\ (forall i, 0 <= i < 3 -> vterm c k' i = vterm c k i).
Proof.
  intros Hc Ecur Hok Hx Hk Hfr Hpr He. pose proof (fresh_least_free k st c Hk Hfr) as Hl.
  destruct (aget_range_Some (terminals k) (cur_terminal k)) as [t Et]; [rewrite (po_terms _ _ Hk); lia|].
  pose proof (execute_run k shell_name i ino c _ t Hx Hpr Hl Et) as H. rewrite He in H. destruct H as (k' & E & Hla).
  exists k', t. destruct (launched_vt k i ino c t _ k' c Hla Hx Hok Et) as [H1 H2]; [lia|].
  split_and!; [exact E|exact Hla| |exact H1|exact H2].
  rewrite <- Ecur at 1. eapply procs_ok_push; [exact Hk|exact Hfr|apply Hl|exact Et|apply Hla|apply Hla].
Qed.

Lemma pit_handler_boot k : pitCount (pit_save k) < 3 ->
  pit_handler k = ('(o, k') ← execute shell_name (pit_show (pit_save k));
    match o with Ret _ => Some (Ret 0, pit_resume k') | _ => Some (o, k') end).
Proof.
  unfold pit_handler, NUM_TERMINALS. cbv zeta. generalize (pit_save k) as k1. intros k1 H.
  by rewrite (proj2 (Z.ltb_lt (pitCount k1) 3)).
Qed.

Lemma pit_save_boot k st : vt_ok (visible k) k -> procs_ok k st ->
  (forall j, 0 <= j < 3 -> e_num (ved k j) = 0) -> boot_kept k st (pit_save k).
Proof.
  intros Hok Hk He. unfold pit_save.
  set (n := u8 (pitIntrCount k + 1)). destruct (mark_run n (visible k) k Hok) as (H1 & _ & Hf & Hs).
  revert H1 Hf Hs. generalize (test_interrupts (set_pitIntrCount n k)) as k1. intros k1 H1 Hf Hs.
  assert (E1 : k_sch k1 = k_sch (set_pitIntrCount n k) /\ k_pcbs k1 = k_pcbs k /\ k_pg k1 = k_pg k /\ k_fs k1 = k_fs k /\
    k_cpus k1 = k_cpus k /\ k_faults k1 = k_faults k /\ k_kb k1 = k_kb k) by (rewrite Hf; split_and!; reflexivity).
  destruct E1 as (Es1 & Ep1 & Eg1 & Ef1 & Ec1 & Efa1 & Ek1).
  pose proof (scr_frame_out (screen_slot (visible k) k) _ _ Hs (vo_paging _ _ Hok)) as Hout.
  assert (Hvis1 : visible k1 = visible k) by (by rewrite Es1).
  assert (Hcur1 : cur_terminal k1 = cur_terminal k) by (by rewrite Es1).
  assert (Hed : forall j, ved k1 j = ved k j) by (intros j; unfold ved, get_terminal; rewrite Es1, Ek1; reflexivity).
  assert (Hk1 : procs_ok k1 st).
  { apply (procs_ok_quiet k); rewrite ?Ep1; try apply Hk; [by rewrite Es1; apply Hk|by rewrite Hcur1; apply Hk| |].
    - intros t. unfold get_terminal. rewrite Es1. reflexivity.
    - intros t. unfold get_PCB. rewrite Ep1. split; reflexivity. }
  destruct (pit_keep_boot (cpu_esp k) (cpu_ebp k) k1 st) as [B1 B2 B3 (B4 & B5 & B6 & B7 & B8) B9 B10 B11].
  1: by rewrite Hvis1.
  1: exact Hk1.
  1: intros j Hj; rewrite Hed; by apply He.
  rewrite Hvis1 in *. rewrite Hcur1 in *.
  split; [exact B1| |exact B3| |exact B9| |].
  - intros j Hj. rewrite B2 by exact Hj. apply Hed.
  - split_and!; [etrans; [exact B4|exact Eg1]|etrans; [exact B5|exact Ef1]|etrans; [exact B6|exact Ec1]|exact B7|].
    rewrite B8, Es1. reflexivity.
  - intros x Hx. rewrite B10 by exact Hx. by apply Hout.
  - by rewrite B11, Efa1.
Qed.

Lemma pit_boot_run c st k i ino : 0 <= c < 3 -> pitCount k = c -> cur_terminal k = (c + 2) mod 3 ->
  vt_ok (visible k) k -> exec_ok k -> procs_ok k st -> fresh st c ->
  (forall j, 0 <= j < 3 -> at_line (vterm (visible k) k j) = []) ->
  program k shell_name i ino -> elf_magic k ino = true ->
  exists k', pit_handler k = Some (User (elf_entry k ino) USER_CS 0x83FFFFC USER_DS, k') /\ boot_tick c i ino st k k'.
Proof.
  intros Hc Ecnt Ecur Hok Hx Hk Hfr Hlines Hpr He.
  assert (Hnum : forall j, 0 <= j < 3 -> e_num (ved k j) = 0)
    by (intros j Hj; apply (line_empty (visible k)); [exact Hok|exact Hj|by apply Hlines]).
  pose proof (pit_save_boot k st Hok Hk Hnum) as Hb. pose proof (pit_handler_boot k) as Eh.
  revert Hb Eh. generalize (pit_save k) as k1. intros k1 [B1 B2 B3 (B4 & B5 & B6 & B7 & B8) B9 B10 B11] Eh.
  rewrite <- B7 in B1.
  assert (Ec1 : cur_terminal k1 = c) by (rewrite B9, Ecur; dlia).
  rewrite Eh by (rewrite B8; lia). clear Eh.
  destruct (pit_show_run c st k1 B1 B3 Hc) as [S1 S2 S3 S4 (S5 & S6 & S7) S8 S9 S10 S11 S12].
  1: by rewrite B8.
  1: exact Ec1.
  1: intros j Hj; rewrite B2 by exact Hj; by apply Hnum.
  revert S1 S2 S3 S4 S5 S6 S7 S8 S9 S10 S11 S12. generalize (pit_show k1) as k2.
  intros k2 S1 S2 S3 S4 S5 S6 S7 S8 S9 S10 S11 S12.
  assert (Hp2 : paging_ok (screen_slot c k2) k2) by apply S1.
  assert (Hm2 : forall x, ~ video x -> ld8 (k_mem k2) x = ld8 (k_mem k) x)
    by (intros x Hx'; rewrite S11 by exact Hx'; by apply B10).
  destruct (exec_ok_video k k2 _ Hx (po_pcbs _ _ S4) (po_terms _ _ S4) (po_cur _ _ S4) Hp2) as [Hx2 Hsi].
  1: etrans; [exact S6|exact B5].
  1: etrans; [exact S7|exact B6].
  1: exact Hm2.
  destruct (program_same k k2 _ i ino Hx Hsi Hpr) as (Hpr2 & M1 & M2). rewrite <- M1 in He.
  destruct (boot_execute c st k2 i ino Hc S10 S1 Hx2 S4 Hfr Hpr2 He) as (k' & t & Ex & Hla & Hk' & Hok' & Hv').
  rewrite Ex, M2. cbn [mbind option_bind]. exists k'. split; [reflexivity|].
  destruct Hla as [_ Ls Lg _ Lc Li _ Lsi (Ld & Lf & _)]. destruct (file_same k k2 ino (pr_file _ _ _ _ Hpr) Hsi) as (_ & El & Eb).
  assert (Hl : forall j, 0 <= j < 3 -> at_line (vterm c k' j) = at_line (vterm (visible k) k j) /\
    at_hist (vterm c k' j) = at_hist (vterm (visible k) k j)).
  { intros j Hj. rewrite Hv' by exact Hj. destruct (S2 j Hj) as [-> ->]. unfold vterm. cbn [at_line at_hist].
    rewrite (B2 j Hj). split; reflexivity. }
  split.
  - exact Hk'.
  - rewrite Ls. split_and!; assumption.
  - exact Hok'.
  - intros j Hj. destruct (Hl j Hj) as [-> ->]. split; [by apply Hlines|reflexivity].
  - rewrite Hv' by exact Hc. exact S3.
  - rewrite Lg. unfold prog_mapped. apply aget_aset_eq. assert (E : length (page_directory k2) = 1024%nat) by apply Hp2. lia.
  - intros a Ha. rewrite <- El in Ha. destruct (Li a Ha) as (q & Eq & Em). exists q. split; [exact Eq|].
    rewrite Em. apply Eb. rewrite El in Ha. lia.
  - by etrans.
  - rewrite Ld. unfold entry. cbn [d_name]. by rewrite length_map, length_seqZ.
  - rewrite Lc. cbn. by rewrite S7, B6.
  - by rewrite Lf, S12.
Qed.

(** ** Correctness *)

Lemma ticked_schedulable k k' : schedulable k -> ticked k k' -> schedulable k'.
Proof.
  intros [H1 H2 H3 H4] Ht. split.
  - apply Ht.
  - rewrite (ti_pcbs _ _ Ht). set (p := curr_process _).
    destruct (pcbs_get k p H2) as (q & Eq & Eg & Hq); [apply H4, (vo_owner _ _ H1)|].
    rewrite Eg. exact (pcbs_ok_put p (with_task_ebp (s32 (cpu_ebp k)) (with_task_esp (s32 (cpu_esp k)) q)) k H2 Hq).
  - by rewrite (ti_count _ _ Ht).
  - intros i Hi. rewrite (ti_procs _ _ Ht). by apply H4.
Qed.

(** C2: once every terminal runs a process, a timer interrupt moves to the next
    terminal in turn and loses nothing: every terminal keeps its characters, its
    position, its line and its history (the running one's attributes move, the
    work of test_interrupts), the interrupted stack pointers and kernel stack are
    in its process's and terminal's records, the machine has those of the next
    terminal's process and its page, and outside video memory no byte changes.
    The interrupt can be taken again in the state it leaves. *)
Theorem pit_tick_switches k : schedulable k ->
  exists k', pit_handler k = Some (Ret 0, k') /\ ticked k k' /\ schedulable k'.
Proof.
  intros H. destruct (pit_tick k H) as (k' & E & Ht). exists k'. split_and!; [exact E|exact Ht|].
  by apply (ticked_schedulable k).
Qed.

Lemma ticked_PCB k k' j : schedulable k -> ticked k k' ->
  get_PCB k' j = if curr_process (get_terminal k (cur_terminal k)) =? j
    then with_task_ebp (s32 (cpu_ebp k)) (with_task_esp (s32 (cpu_esp k)) (get_PCB k j)) else get_PCB k j.
Proof.
  intros H Ht. unfold get_PCB at 1. rewrite (ti_pcbs _ _ Ht). set (p := curr_process _).
  assert (Hp : 0 <= p < Z.of_nat (length (k_pcbs k))).
  { rewrite (proj1 (sb_pcbs _ H)). apply (sb_procs _ H), (vo_owner _ _ (sb_ok _ H)). }
  transitivity (get_PCB (put_pcb p (with_task_ebp (s32 (cpu_ebp k)) (with_task_esp (s32 (cpu_esp k)) (get_PCB k p))) k) j);
    [reflexivity|]. rewrite put_pcb_get by exact Hp. destruct (Z.eqb_spec p j) as [<-|]; reflexivity.
Qed.

(** The screen of the terminal scheduled next, and that of the one interrupted. *)
Lemma ticked_next k k' c : ticked k k' -> cur_terminal k' = c -> c <> cur_terminal k ->
  abs_console k' = at_con (vterm (cur_terminal k) k c).
Proof.
  intros Ht <- Hne. pose proof (ti_ok _ _ Ht) as Hok. pose proof (vo_owner _ _ Hok) as Hc.
  rewrite (abs_console_vcon (cur_terminal k')) by apply Hok.
  transitivity (at_con (vterm (cur_terminal k') k' (cur_terminal k'))); [reflexivity|].
  rewrite (ti_terms _ _ Ht) by exact Hc. by rewrite (proj2 (Z.eqb_neq _ _) Hne).
Qed.

Lemma ticked_own k k' : schedulable k -> ticked k k' ->
  at_con (vterm (cur_terminal k') k' (cur_terminal k)) = bump (u8 (pitIntrCount k + 1)) (abs_console k).
Proof.
  intros H Ht. pose proof (sb_ok _ H) as Hok. pose proof (vo_owner _ _ Hok) as Hc.
  rewrite (ti_terms _ _ Ht) by exact Hc. rewrite Z.eqb_refl.
  rewrite (abs_console_vcon (cur_terminal k)) by apply Hok. reflexivity.
Qed.

(** C8: a process that was interrupted is resumed where it was: whatever runs
    between, when its terminal's turn comes with its saved stack pointers and
    kernel stack as the first interrupt left them, the second returns on the
    stack the first came from, with the same kernel stack and the process's own
    page mapped.  The console is then its terminal's: the kernel's screen page and
    cursor are those of that terminal as kept while others ran, so when nobody
    wrote on it they are what the process had, but for the colours that the
    interrupt changes. *)
Theorem pit_preempted_resumes k k1 k2 :
  let c := cur_terminal k in let p := curr_process (get_terminal k c) in
  schedulable k -> 0 <= cpu_esp k < 2 ^ 32 -> 0 <= cpu_ebp k < 2 ^ 32 -> pit_handler k = Some (Ret 0, k1) ->
  schedulable k2 -> cur_terminal k2 = (c + 2) mod 3 ->
  curr_process (get_terminal k2 c) = p -> curr_process (get_terminal k2 (cur_terminal k2)) <> p ->
  task_esp (get_PCB k2 p) = task_esp (get_PCB k1 p) -> task_ebp (get_PCB k2 p) = task_ebp (get_PCB k1 p) ->
  save_tss (get_terminal k2 c) = save_tss (get_terminal k1 c) ->
  exists k3, pit_handler k2 = Some (Ret 0, k3) /\ cur_terminal k3 = c /\
    cpu_esp k3 = cpu_esp k /\ cpu_ebp k3 = cpu_ebp k /\ tss k3 = tss k /\
    page_directory k3 = aset (page_directory k2) 32 (prog_entry p) /\
    vt_ok c k3 /\ abs_console k3 = at_con (vterm (cur_terminal k2) k2 c) /\
    (at_con (vterm (cur_terminal k2) k2 c) = at_con (vterm (cur_terminal k1) k1 c) ->
     abs_console k3 = bump (u8 (pitIntrCount k + 1)) (abs_console k)).
Proof.
  cbv zeta. set (c := cur_terminal k). set (p := curr_process (get_terminal k c)).
  intros H Hesp Hebp E1 H2 Ec2 Ep2 Hne Ee Eb Et.
  destruct (pit_tick k H) as (k1' & E1' & Ht1). rewrite E1 in E1'. injection E1' as <-.
  destruct (pit_tick k2 H2) as (k3 & E3 & Ht3). exists k3.
  pose proof (vo_owner _ _ (sb_ok _ H)) as Hc. fold c in Hc.
  assert (Ec3 : cur_terminal k3 = c) by (rewrite (ti_cur _ _ Ht3), Ec2; dlia).
  assert (Ep3 : curr_process (get_terminal k3 c) = p) by (by rewrite (ti_procs _ _ Ht3)).
  assert (Eg3 : get_PCB k3 p = get_PCB k2 p)
    by (rewrite (ticked_PCB k2 k3 p H2 Ht3); by rewrite (proj2 (Z.eqb_neq _ _) Hne)).
  assert (Eg1 : get_PCB k1 p = with_task_ebp (s32 (cpu_ebp k)) (with_task_esp (s32 (cpu_esp k)) (get_PCB k p)))
    by (rewrite (ticked_PCB k k1 p H Ht1); fold c p; by rewrite Z.eqb_refl).
  rewrite Eg1 in Ee, Eb. cbn in Ee, Eb.
  assert (Eac : abs_console k3 = at_con (vterm (cur_terminal k2) k2 c))
    by (apply (ticked_next k2 k3 c Ht3 Ec3); rewrite Ec2; dlia).
  split_and!; [exact E3|exact Ec3|..].
  - rewrite (ti_esp _ _ Ht3), Ec3, Ep3, Eg3, Ee. by apply u32_s32.
  - rewrite (ti_ebp _ _ Ht3), Ec3, Ep3, Eg3, Eb. by apply u32_s32.
  - rewrite (ti_tss _ _ Ht3), Ec3, (ti_save_tss _ _ Ht3). rewrite (proj2 (Z.eqb_neq (cur_terminal k2) c)) by (rewrite Ec2; dlia).
    rewrite Et, (ti_save_tss _ _ Ht1). fold c. by rewrite Z.eqb_refl.
  - rewrite (ti_page _ _ Ht3), Ec3, Ep3. reflexivity.
  - rewrite <- Ec3. apply (ti_ok _ _ Ht3).
  - exact Eac.
  - intros Econ. rewrite Eac, Econ. exact (ticked_own _ _ H Ht1).
Qed.

(** each of the first three interrupts starts a shell on the next terminal:
    tick [c] pushes process [c] on terminal [c]'s empty stack, shows that
    terminal blank, leaves what is typed on the others, and enters the shell in
    its own page.  The very first one saves the boot code's stack pointers in
    PCB_array[-1], before the array. *)
Theorem pit_boot_starts_shells c st k i ino : 0 <= c < 3 -> pitCount k = c -> cur_terminal k = (c + 2) mod 3 ->
  vt_ok (visible k) k -> exec_ok k -> procs_ok k st -> fresh st c ->
  (forall j, 0 <= j < 3 -> at_line (vterm (visible k) k j) = []) ->
  program k shell_name i ino -> elf_magic k ino = true ->
  exists k', pit_handler k = Some (User (elf_entry k ino) USER_CS 0x83FFFFC USER_DS, k') /\ boot_tick c i ino st k k'.
Proof. apply pit_boot_run. Qed.

(** ** Witnesses *)

Definition clean_term (i pid : Z) : terminal_t :=
  mkTerminal 0 (vbuf i) 0 (replicate 128 0) (mkTss (0x7FFFFC - 0x2000 * i) 0x18 0x38) 0 0 0 0 0 0 0
    (replicate 128 0) pid 1.

(** Clean terminals that run the processes of [f]. *)
Definition clean_on (f : Z -> Z) (c n : Z) (k : kernel) : kernel :=
  with_k_sch (mkSched (map (fun i => clean_term i (f i)) [0; 1; 2]) 0 c n 4)
    (with_k_con (mkConsole 0 0)
      (with_k_kb (mkKeyboard 0 0 0 0 (replicate 128 0) 0 (replicate 5 0) (replicate 128 0)) k)).

Lemma clean_on_vt f c n k : paging_ok 0 k -> vt_ok 0 (clean_on f c n k).
Proof.
  intros Hp. assert (Hc : forall i, 0 <= i < 3 -> con_ok (vcon 0 (clean_on f c n k) i)).
  { intros i Hi. unfold con_ok, vcon, vpos. cbn [a_x a_y].
    assert (i = 0 \/ i = 1 \/ i = 2) as [->|[->| ->]] by lia; split; split; reflexivity || discriminate. }
  split.
  - split; [reflexivity| |split; reflexivity || discriminate|split; reflexivity|].
    + intros i t Et. pose proof (aget_Some_range _ _ _ Et) as Hi. cbn in Hi.
      assert (t = clean_term i (f i)) as ->
        by (assert (i = 0 \/ i = 1 \/ i = 2) as [->|[->| ->]] by lia; injection Et as <-; reflexivity).
      split_and!; [reflexivity..|]. unfold editor_bytes, clean_term. cbn -[Z.le Z.lt]. lia.
    + unfold editor_bytes. cbn -[Z.le Z.lt]. lia.
  - lia.
  - exact Hp.
  - exact Hc.
  - intros i Hi. specialize (Hc i Hi). unfold con_ok in Hc.
    assert (E : ved (clean_on f c n k) i = mkEd 0 0 (replicate 128 0) 0 (replicate 128 0))
      by (assert (i = 0 \/ i = 1 \/ i = 2) as [->|[->| ->]] by lia; reflexivity).
    rewrite E. split; cbn [e_num e_idx e_buf e_prev_num e_prev]; [lia|lia|lia|done| |lia]. split; constructor.
Qed.

(** The three shells run, and the running one was interrupted. *)
Definition demo_tick : kernel := clean_on id 0 4 demo_shells.

Lemma demo_tick_ok : schedulable demo_tick.
Proof.
  split.
  - exact (clean_on_vt id 0 4 demo_shells shells_paging).
  - exact demo_PCBs_ok.
  - reflexivity.
  - intros i Hi. assert (i = 0 \/ i = 1 \/ i = 2) as [->|[->| ->]] by lia; split; reflexivity || discriminate.
Qed.

Lemma pit_tick_switches_witness : exists k', pit_handler demo_tick = Some (Ret 0, k') /\ cur_terminal k' = 1.
Proof.
  destruct (pit_tick_switches demo_tick demo_tick_ok) as (k' & E & Ht & _). exists k'. split; [exact E|].
  exact (ti_cur _ _ Ht).
Defined.

Lemma pit_preempted_resumes_witness : exists k1 k2 k3, pit_handler demo_tick = Some (Ret 0, k1) /\
  pit_handler k1 = Some (Ret 0, k2) /\ pit_handler k2 = Some (Ret 0, k3) /\ cpu_esp k3 = 0x7FFE00.
Proof.
  destruct (pit_tick demo_tick demo_tick_ok) as (k1 & E1 & H1).
  pose proof (ticked_schedulable _ _ demo_tick_ok H1) as S1.
  destruct (pit_tick k1 S1) as (k2 & E2 & H2). pose proof (ticked_schedulable _ _ S1 H2) as S2.
  assert (C1 : cur_terminal k1 = 1) by exact (ti_cur _ _ H1).
  assert (C2 : cur_terminal k2 = 2) by (rewrite (ti_cur _ _ H2), C1; reflexivity).
  assert (P1 : curr_process (get_terminal k1 1) = 1) by (rewrite (ti_procs _ _ H1); reflexivity).
  assert (G : get_PCB k2 0 = get_PCB k1 0) by (rewrite (ticked_PCB _ _ 0 S1 H2), C1, P1; reflexivity).
  destruct (pit_preempted_resumes demo_tick k1 k2 demo_tick_ok) as (k3 & E3 & _ & R & _).
  - split; [discriminate|reflexivity].
  - split; [discriminate|reflexivity].
  - exact E1.
  - exact S2.
  - exact C2.
  - rewrite (ti_procs _ _ H2), (ti_procs _ _ H1). reflexivity.
  - rewrite C2, (ti_procs _ _ H2), (ti_procs _ _ H1). discriminate.
  - exact (f_equal task_esp G).
  - exact (f_equal task_ebp G).
  - change (cur_terminal demo_tick) with 0. rewrite (ti_save_tss _ _ H2), C1. reflexivity.
  - exists k1, k2, k3. split_and!; [exact E1|exact E2|exact E3|exact R].
Defined.

(** Nothing runs yet: the state of the first interrupt. *)
Definition demo_boot : kernel :=
  clean_on (fun _ => -1) 2 0 (with_k_pcbs (map demo_PCB [-1; -1; -1; -1; -1; -1]) demo_shells).

Definition no_stacks (t : Z) : list Z := [].

Lemma demo_boot_pcbs : pcbs_ok (k_pcbs demo_boot).
Proof.
  assert (H : pcb_ok (demo_PCB (-1))) by (split_and!; [done|by right|]; apply Forall_replicate; by right).
  split; [reflexivity|]. exact (Forall_replicate _ 6%nat _ H).
Qed.

Lemma demo_boot_procs : procs_ok demo_boot no_stacks.
Proof.
  split.
  - exact demo_boot_pcbs.
  - apply (Forall_replicate _ 6%nat (demo_PCB (-1))). reflexivity.
  - reflexivity.
  - split; reflexivity || discriminate.
  - intros t Ht. assert (t = 0 \/ t = 1 \/ t = 2) as [->|[->| ->]] by lia; reflexivity.
  - constructor.
  - intros pid Hpid. assert (E : pcb_in_use (get_PCB demo_boot pid) = -1)
      by (assert (pid = 0 \/ pid = 1 \/ pid = 2 \/ pid = 3 \/ pid = 4 \/ pid = 5)
            as [->|[->|[->|[->|[->| ->]]]]] by lia; reflexivity).
    rewrite E. split; [discriminate|]. intros H. by apply elem_of_nil in H.
Qed.

Lemma clean_on_exec f c n l k : exec_ok k -> paging_ok 0 k -> pcbs_ok l -> 0 <= c < 3 ->
  exec_ok (clean_on f c n (with_k_pcbs l k)) /\ same_image k (clean_on f c n (with_k_pcbs l k)).
Proof.
  intros Hx Hp Hl Hc. apply (exec_ok_video k (clean_on f c n (with_k_pcbs l k)) 0 Hx Hl);
    [reflexivity|exact Hc|exact Hp|reflexivity|reflexivity|intros x _; reflexivity].
Qed.

Lemma demo_boot_exec : exec_ok demo_boot /\ same_image demo_shells demo_boot.
Proof.
  apply (clean_on_exec _ 2 0 _ demo_shells demo_exec_ok shells_paging demo_boot_pcbs). lia.
Qed.

Lemma pit_boot_starts_shells_witness : exists k', pit_handler demo_boot = Some (User 0x08048094 USER_CS 0x83FFFFC USER_DS, k') /\
  cur_terminal k' = 0 /\ k_faults k' = [OobPCB (-1); OobPCB (-1)].
Proof.
  destruct demo_boot_exec as [Hx Hs].
  destruct (program_same demo_shells demo_boot shell_name 1 0 demo_exec_ok Hs demo_program) as (Hp & E1 & E2).
  destruct demo_elf as [M1 M2].
  destruct (pit_boot_starts_shells 0 no_stacks demo_boot 1 0) as (k' & E & Ht).
  - lia.
  - reflexivity.
  - reflexivity.
  - exact (clean_on_vt (fun _ => -1) 2 0 (with_k_pcbs (map demo_PCB [-1; -1; -1; -1; -1; -1]) demo_shells) shells_paging).
  - exact Hx.
  - exact demo_boot_procs.
  - split; [lia|]. split; [apply not_elem_of_nil|]. intros j Hj. lia.
  - intros j Hj. assert (j = 0 \/ j = 1 \/ j = 2) as [->|[->| ->]] by lia; reflexivity.
  - exact Hp.
  - etrans; [exact E1|exact M1].
  - rewrite E2, M2 in E. exists k'. split; [exact E|]. split; [apply Ht|].
    rewrite (bt_faults _ _ _ _ _ _ Ht). reflexivity.
Defined.
