(* ===== verification/Syscall.v ===== *)
(** * The system calls (syscall.c, syscall_asm.S, the tables of pcb.c)

    What interrupt 0x80 does with its registers: the jump table, the checks of
    the wrappers, and the driver a descriptor leads to. *)

From Stdlib Require Import ZArith Lia.
From Stdlib Require Import String.
From stdpp Require Import base numbers list gmap.
From S2P Require Import Prelude Memory LibMem LibStr State Machine I8259 Rtc Paging Console Pcb Filesys Fdt Schedule Terminal Execute Halt.

Open Scope Z_scope.
Implicit Types k : kernel.

(** ** The code *)

Definition TEMPBUFSIZES : Z := 1024.
Definition MAX_FD_INDEX : Z := 6.
Definition MIN_FD_INDEX : Z := 2.
Definition START_KERNEL : Z := 0x400000.
Definition END_KERNEL : Z := 0x800000.

(** The struct of four function pointers.  [irqs] are the interrupts served
    while a read waits. *)
Record fop_ops := mkFop {
  op_open : (Z -> Z) -> kernel -> Z * kernel;
  op_close : Z -> kernel -> Z * kernel;
  op_read : list (kernel -> kernel) -> Z -> Z -> Z -> kernel -> option (Z * kernel);
  op_write : Z -> Z -> Z -> kernel -> Z * kernel;
}.

(** The four tables of pcb.c. *)
Definition ops_of (f : fop) : fop_ops :=
  match f with
  | rtc_struct => mkFop (fun _ => rtc_open) rtc_close (fun irqs _ _ _ => rtc_read irqs) rtc_write
  | dir_struct => mkFop dir_open dir_close (fun _ fd buf n k => Some (dir_read fd buf n k)) dir_write
  | file_struct => mkFop file_open file_close (fun _ => file_read) file_write
  | terminal_struct => mkFop terminal_open terminal_close terminal_read terminal_write
  end.

(** A pointer argument as the string it points to. *)
Definition cstr (p : Z) (k : kernel) : Z -> Z := fun i => ld8 k (u32 (p + i)).

Definition sys_halt (fuel : nat) (status : Z) (k : kernel) : option (outcome * kernel) := halt fuel status k.

Definition sys_execute (command : Z) (k : kernel) : option (outcome * kernel) := execute (cstr command k) k.

(** The entry the call goes through: that of the last descriptor opened. *)
Definition last_opened (k : kernel) : fd_table_entry_t := get_fd (get_PCB k (currPid k)) (currFD k).

(** [None] also stands for a null table. *)
Definition sys_read (irqs : list (kernel -> kernel)) (fd buf nbytes : Z) (k : kernel) : option (Z * kernel) :=
  if (fd <? 0) || (MAX_FD_INDEX <=? fd) || (fd =? 1) then Some (-1, k)
  else if buf =? 0 then Some (-1, k)
  else if fd =? 0 then terminal_read irqs fd buf nbytes k
  else if (present (last_opened k) =? -1) || (currFD k =? -1) then Some (-1, k)
  else f ← jump_start_idx (last_opened k); op_read (ops_of f) irqs fd buf nbytes k.

Definition sys_write (fd buf nbytes : Z) (k : kernel) : option (Z * kernel) :=
  if (fd <? 0) || (MAX_FD_INDEX <=? fd) || (fd =? 0) then Some (-1, k)
  else if buf =? 0 then Some (-1, k)
  else if fd =? 1 then Some (terminal_write fd buf nbytes k)
  else if (present (last_opened k) =? -1) || (currFD k =? -1) then Some (-1, k)
  else f ← jump_start_idx (last_opened k); Some (op_write (ops_of f) fd buf nbytes k).

Definition sys_open (filename : Z) (k : kernel) : Z * kernel :=
  if ld8 k filename =? 0 then (-1, k)
  else
    let '(fd, k) := insert_fdt (cstr filename k) k in
    let k := set_currFD fd k in
    let k := set_currPid (curr_process (get_terminal k (cur_terminal k))) k in
    (currFD k, k).

Definition sys_close (fd : Z) (k : kernel) : Z * kernel :=
  if (fd <=? MIN_FD_INDEX) || (MAX_FD_INDEX <=? fd) then (-1, k)
  else
    let '(retval, k) := remove_fd_entry fd k in
    let k := if retval =? 0 then set_currFD (currFD k - 1) k else k in
    (retval, k).

Definition sys_vidmap (screen_start : Z) (k : kernel) : Z * kernel :=
  if (screen_start =? 0) || ((START_KERNEL <=? screen_start) && (screen_start <? END_KERNEL)) then (-1, k)
  else vid_map screen_start k.

(** The source of the copy is the record's array of 1024 bytes: [None] for a
    count that reads past it. *)
Definition sys_getargs (buf nbytes : Z) (k : kernel) : option (Z * kernel) :=
  let curpcb := get_current_PCB k in
  let k := upd_PCB curpcb (fun p => with_pcb_args (terminal_getargs (pcb_args p) TEMPBUFSIZES k) p) k in
  let args := pcb_args (get_PCB k curpcb) in
  if agetZ args 0 =? 0 then Some (-1, k)
  else if TEMPBUFSIZES <? u32 nbytes then None
  else Some (0, for_range 0 (u32 nbytes) (fun i k => st8 (u32 (buf + i)) (agetZ args i) k) k).

(** The call of printf in the fail branch; its format is 27 characters. *)
Definition syscall_handler (k : kernel) : option kernel :=
  '((_, k) : Z * kernel) ← printf 28 (lit (codes "syscall parameters invalid" ++ [10])) (fun _ => 0) k; Some k.

(** Registers at the interrupt. *)
Record regs := mkRegs { r_eax : Z; r_ebx : Z; r_ecx : Z; r_edx : Z }.

Definition ret_eax (r : Z * kernel) : outcome * kernel := (Ret (fst r), snd r).

(** syscall_handler_asm: the outcome's value is EAX at the iret.  [junk] is what
    the void function leaves in EAX on the fail branch of read. *)
Definition syscall_handler_asm (irqs : list (kernel -> kernel)) (fuel : nat) (junk : Z) (r : regs) (k : kernel)
    : option (outcome * kernel) :=
  let fd := s32 (r_ebx r) in
  let eax := s32 (r_eax r) in
  if (eax <=? 0) || (8 <? eax) then Some (Ret (-1), k)
  else if eax =? 1 then sys_halt fuel (Z.land (r_ebx r) 0xF) k
  else if eax =? 2 then sys_execute (r_ebx r) k
  else if eax =? 3 then
    if (s32 (r_edx r) =? -1) || (s32 (r_ecx r) =? -1) || (fd =? -1) then
      k ← syscall_handler k; Some (Ret junk, k)
    else ret_eax <$> sys_read irqs fd (r_ecx r) (s32 (r_edx r)) k
  else if eax =? 4 then ret_eax <$> sys_write fd (r_ecx r) (s32 (r_edx r)) k
  else if eax =? 5 then Some (ret_eax (sys_open (r_ebx r) k))
  else if eax =? 6 then Some (ret_eax (sys_close fd k))
  else if eax =? 7 then ret_eax <$> sys_getargs (r_ebx r) (s32 (r_ecx r)) k
  else Some (ret_eax (sys_vidmap (r_ebx r) k)).

(** ** Refused calls *)

(** The arguments the dispatcher and the wrappers refuse; a read with an argument
    of -1 is none of them, it does not reach the wrapper ([invalid_read]). *)
Definition refused (r : regs) (k : kernel) : bool :=
  let fd := s32 (r_ebx r) in
  let eax := s32 (r_eax r) in
  (eax <=? 0) || (8 <? eax) ||
  ((eax =? 3) && negb ((s32 (r_edx r) =? -1) || (s32 (r_ecx r) =? -1) || (fd =? -1)) &&
     ((fd <? 0) || (6 <=? fd) || (fd =? 1) || (r_ecx r =? 0) ||
      ((2 <=? fd) && ((present (last_opened k) =? -1) || (currFD k =? -1))))) ||
  ((eax =? 4) && ((fd <? 0) || (6 <=? fd) || (fd =? 0) || (r_ecx r =? 0) ||
      ((2 <=? fd) && ((present (last_opened k) =? -1) || (currFD k =? -1))))) ||
  ((eax =? 5) && (ld8 k (r_ebx r) =? 0)) ||
  ((eax =? 6) && ((fd <=? 2) || (6 <=? fd) || negb (present (get_fd (get_PCB k (cur_pid k)) fd) =? 0))) ||
  ((eax =? 8) && ((r_ebx r =? 0) || ((0x400000 <=? r_ebx r) && (r_ebx r <? 0x800000)))).

Lemma refused_run irqs fuel junk r k : refused r k = true ->
  syscall_handler_asm irqs fuel junk r k = Some (Ret (-1), k).
Proof.
  unfold refused, syscall_handler_asm. cbv zeta. generalize (s32 (r_ebx r)) as fd. generalize (s32 (r_eax r)) as eax.
  intros eax fd. destruct ((eax <=? 0) || (8 <? eax)) eqn:E0; [done|]. rewrite orb_false_l.
  assert (Hr : 1 <= eax <= 8) by (revert E0; bdestr; cbn; done || lia). clear E0.
  assert (eax = 1 \/ eax = 2 \/ eax = 3 \/ eax = 4 \/ eax = 5 \/ eax = 6 \/ eax = 7 \/ eax = 8)
    as [->|[->|[->|[->|[->|[->|[->| ->]]]]]]] by lia; cbn [Z.eqb Pos.eqb andb orb]; rewrite ?orb_false_r, ?orb_false_l;
    intros H; try discriminate H.
  - apply andb_true_iff in H as [H1 H]. apply negb_true_iff in H1. rewrite H1. unfold sys_read, MAX_FD_INDEX.
    revert H. destruct ((fd <? 0) || (6 <=? fd) || (fd =? 1)) eqn:E1; [done|]. destruct (r_ecx r =? 0); [done|].
    cbn [orb]. intros [H2 H3]%andb_true_iff. rewrite H3. apply Z.leb_le in H2. by rewrite (proj2 (Z.eqb_neq fd 0)) by lia.
  - unfold sys_write, MAX_FD_INDEX.
    revert H. destruct ((fd <? 0) || (6 <=? fd) || (fd =? 0)) eqn:E1; [done|]. destruct (r_ecx r =? 0); [done|].
    cbn [orb]. intros [H2 H3]%andb_true_iff. rewrite H3. apply Z.leb_le in H2. by rewrite (proj2 (Z.eqb_neq fd 1)) by lia.
  - unfold sys_open. by rewrite H.
  - unfold sys_close, MIN_FD_INDEX, MAX_FD_INDEX, remove_fd_entry. revert H.
    destruct ((fd <=? 2) || (6 <=? fd)); [done|]. cbn [orb]. intros H%negb_true_iff. by rewrite H.
  - unfold sys_vidmap, START_KERNEL, END_KERNEL. by rewrite H.
Qed.

(** A read with -1 for its descriptor, its buffer or its count. *)
Definition invalid_read (r : regs) : bool :=
  (s32 (r_eax r) =? 3) && ((s32 (r_ebx r) =? -1) || (s32 (r_ecx r) =? -1) || (s32 (r_edx r) =? -1)).

Lemma invalid_read_run irqs fuel junk r k : invalid_read r = true -> console_ok k ->
  exists k', syscall_handler_asm irqs fuel junk r k = Some (Ret junk, k') /\
    con_run k k' (foldl abs_putc (abs_console k) (codes "syscall parameters invalid" ++ [10])).
Proof.
  unfold invalid_read. intros [Eax H]%andb_true_iff Hc. unfold syscall_handler_asm. cbv zeta.
  apply Z.eqb_eq in Eax. rewrite Eax. cbn [Z.leb Z.compare Pos.compare Pos.compare_cont Z.ltb Z.eqb Pos.eqb orb].
  replace ((s32 (r_edx r) =? -1) || (s32 (r_ecx r) =? -1) || (s32 (r_ebx r) =? -1)) with true
    by (rewrite <- H; by destruct (s32 (r_ebx r) =? -1), (s32 (r_ecx r) =? -1), (s32 (r_edx r) =? -1)).
  unfold syscall_handler.
  destruct (printf_plain_run 28 (codes "syscall parameters invalid" ++ [10]) (fun _ => 0) k Hc) as (k' & -> & Hr).
  { repeat (apply Forall_cons; split; [cbn; lia|]). by apply Forall_nil. }
  { cbn. lia. }
  exists k'. split; [reflexivity|exact Hr].
Qed.

(** C26: what the interrupt does with arguments it does not accept.  A number
    outside 1 to 8, a read or write on a descriptor outside 0 to 5, on the wrong
    standard stream, through a null buffer or with no file open, the empty
    file name, the close of a standard stream, of descriptor 2, of one above 5 or
    of one that is not open, and a vidmap pointer that is null or in the kernel's
    page give -1 and have no effect, except that a read with an argument of -1
    (a descriptor of -1 among them) prints a line and returns whatever the
    call of printf left in EAX, [junk]. *)
Theorem syscall_refuses irqs fuel junk r k :
  (refused r k = true -> syscall_handler_asm irqs fuel junk r k = Some (Ret (-1), k)) /\
  (invalid_read r = true -> console_ok k ->
   exists k', syscall_handler_asm irqs fuel junk r k = Some (Ret junk, k') /\
     con_run k k' (foldl abs_putc (abs_console k) (codes "syscall parameters invalid" ++ [10]))).
Proof. split; [apply refused_run|apply invalid_read_run]. Qed.

(** ** Descriptors *)

(** The driver a file's type selects; another type keeps the old one. *)
Definition driver (d : dentry_t) (old : option fop) : option fop :=
  let t := s32 (d_fileType d) in
  if t =? 0 then Some rtc_struct else if t =? 1 then Some dir_struct else if t =? 2 then Some file_struct else old.

Lemma opened_fd_driver d e : jump_start_idx (opened_fd d e) = driver d (jump_start_idx e) /\ present (opened_fd d e) = 0.
Proof.
  unfold opened_fd, set_fop, driver. cbn -[s32]. destruct e. cbn -[s32].
  destruct (s32 (d_fileType d) =? 0); [done|]. destruct (s32 (d_fileType d) =? 1); [done|].
  by destruct (s32 (d_fileType d) =? 2).
Qed.

(** The state after an open that took descriptor [fd]. *)
Definition opened (i fd : Z) (k : kernel) : kernel :=
  set_currPid (cur_pid k) (set_currFD fd (set_currDentry (entry k i)
    (put_fd (cur_pid k) fd (opened_fd (entry k i) (get_fd (get_PCB k (cur_pid k)) fd)) k))).

Lemma sys_open_run p k i : length (d_name (currDentry k)) = 32%nat -> pcbs_ok (k_pcbs k) -> 0 <= cur_pid k < 6 ->
  ld8 k p <> 0 -> found k (cstr p k) i ->
  (exists fd, 2 <= fd < 8 /\ present (get_fd (get_PCB k (cur_pid k)) fd) = -1 /\
     (forall j, 2 <= j < fd -> present (get_fd (get_PCB k (cur_pid k)) j) = 0) /\
     sys_open p k = (fd, opened i fd k)) \/
  ((forall j, 2 <= j < 8 -> present (get_fd (get_PCB k (cur_pid k)) j) = 0) /\ fst (sys_open p k) = -1).
Proof.
  intros Hl Hok Hp Hc Hf. unfold sys_open. rewrite (proj2 (Z.eqb_neq _ _) Hc).
  pose proof (insert_fdt_run (cstr p k) k Hl Hok Hp) as H. destruct (insert_fdt (cstr p k) k) as [r k1]. cbn [fst snd] in H.
  destruct H as [(Hno & _)|(j & Hj & Ej & Lj & _ & H)].
  - destruct Hf as (Hi & Ei & _). destruct (Hno i Hi). exact Ei.
  - assert (j = i) as -> by (exact (found_unique k (cstr p k) j i (conj Hj (conj Ej Lj)) Hf)).
    destruct H as [(-> & _ & Hfull)|(Hr & Hfree & Hlow & ->)].
    + right. split; [exact Hfull|reflexivity].
    + left. exists r. split_and!; [lia|lia|exact Hfree|exact Hlow|reflexivity].
Qed.

(** The descriptors of the process after [fd] was written. *)
Lemma put_fd_get pid fd e k j : pcbs_ok (k_pcbs k) -> 0 <= pid < 6 -> 2 <= fd < 8 ->
  get_fd (get_PCB (put_fd pid fd e k) pid) j = if fd =? j then e else get_fd (get_PCB k pid) j.
Proof.
  intros Hok Hp Hfd. destruct (pcbs_get k pid Hok Hp) as (p & Ep & Eg & Hpo). unfold put_fd.
  rewrite put_pcb_get, Z.eqb_refl by (by apply aget_Some_range in Ep). rewrite Eg. unfold get_fd. cbn.
  rewrite aget_aset, (proj2 (in_range_true _ _)) by (rewrite (proj1 Hpo); lia). rewrite andb_true_r. by destruct (fd =? j).
Qed.

Lemma opened_get i fd k j : pcbs_ok (k_pcbs k) -> 0 <= cur_pid k < 6 -> 2 <= fd < 8 ->
  get_fd (get_PCB (opened i fd k) (cur_pid k)) j =
  if fd =? j then opened_fd (entry k i) (get_fd (get_PCB k (cur_pid k)) fd) else get_fd (get_PCB k (cur_pid k)) j.
Proof. intros Hok Hp Hfd. rewrite <- put_fd_get by done. reflexivity. Qed.

Lemma opened_last i fd k : pcbs_ok (k_pcbs k) -> 0 <= cur_pid k < 6 -> 2 <= fd < 8 ->
  last_opened (opened i fd k) = opened_fd (entry k i) (get_fd (get_PCB k (cur_pid k)) fd).
Proof.
  intros Hok Hp Hfd. transitivity (get_fd (get_PCB (opened i fd k) (cur_pid k)) fd); [reflexivity|].
  rewrite opened_get by done. by rewrite Z.eqb_refl.
Qed.

Lemma upd_fdt_pcbs pid fd f k k' : k_pcbs k = k_pcbs k' -> k_pcbs (upd_fdt pid fd f k) = k_pcbs (upd_fdt pid fd f k').
Proof. intros E. unfold upd_fdt. rewrite E. destruct (aget _ pid) as [q|]; [by destruct (aget _ fd)|done]. Qed.

(** close, of the descriptor open has just handed out. *)
Lemma sys_close_opened i fd k : pcbs_ok (k_pcbs k) -> 0 <= cur_pid k < 6 -> 2 <= fd < 8 ->
  if (3 <=? fd) && (fd <? 6)
  then exists k2, sys_close fd (opened i fd k) = (0, k2) /\ currFD k2 = fd - 1 /\
    present (get_fd (get_PCB k2 (cur_pid k)) fd) = -1 /\
    forall j, j <> fd -> get_fd (get_PCB k2 (cur_pid k)) j = get_fd (get_PCB k (cur_pid k)) j
  else sys_close fd (opened i fd k) = (-1, opened i fd k).
Proof.
  intros Hok Hp Hfd. unfold sys_close, MIN_FD_INDEX, MAX_FD_INDEX. destruct ((3 <=? fd) && (fd <? 6)) eqn:E.
  - replace ((fd <=? 2) || (6 <=? fd)) with false by (symmetry; revert E; bdestr; cbn; done || lia).
    unfold remove_fd_entry. change (cur_pid (opened i fd k)) with (cur_pid k).
    rewrite opened_get, Z.eqb_refl by done. rewrite (proj2 (opened_fd_driver (entry k i) (get_fd (get_PCB k (cur_pid k)) fd))). cbn [Z.eqb].
    set (e := opened_fd (entry k i) (get_fd (get_PCB k (cur_pid k)) fd)). pose proof (put_fd_get (cur_pid k) fd (with_present (-1) e) k) as Hg.
    assert (Eu : k_pcbs (upd_fdt (cur_pid k) fd (with_present (-1)) (opened i fd k)) =
      k_pcbs (put_fd (cur_pid k) fd (with_present (-1) e) k))
      by (rewrite <- upd_fdt_put_fd by (done || lia); apply upd_fdt_pcbs; reflexivity).
    assert (Ef : currFD (upd_fdt (cur_pid k) fd (with_present (-1)) (opened i fd k)) = fd)
      by (unfold upd_fdt; destruct (aget _ _) as [q|]; [by destruct (aget _ _)|done]).
    revert Eu Ef. generalize (upd_fdt (cur_pid k) fd (with_present (-1)) (opened i fd k)) as k2. intros k2 Eu Ef.
    assert (Eg : forall j, get_fd (get_PCB k2 (cur_pid k)) j = if fd =? j then with_present (-1) e else get_fd (get_PCB k (cur_pid k)) j)
      by (intros j; rewrite <- Hg by done; unfold get_PCB; by rewrite Eu).
    eexists. split; [reflexivity|]. split; [cbn; by rewrite Ef|].
    change (get_PCB (set_currFD (currFD k2 - 1) k2)) with (get_PCB k2).
    split; [by rewrite Eg, Z.eqb_refl|]. intros j Hj. rewrite Eg. by rewrite (proj2 (Z.eqb_neq fd j)) by congruence.
  - replace ((fd <=? 2) || (6 <=? fd)) with true by (symmetry; revert E; bdestr; cbn; done || lia). reflexivity.
Qed.

(** C28: open hands out the least free descriptor from 2 to 7 and sets it up for
    the file named.  Then every read and write on a descriptor from 2 to 5, the
    one opened or another, goes through the driver of the file just opened; close
    of the one opened frees it, and only it, when it is 3, 4 or 5, and refuses 2,
    6 and 7; the descriptors 6 and 7 can be handed out but not used. *)
Theorem sys_open_routes irqs p k i fd k1 fd' buf n :
  length (d_name (currDentry k)) = 32%nat -> pcbs_ok (k_pcbs k) -> 0 <= cur_pid k < 6 ->
  ld8 k p <> 0 -> found k (cstr p k) i -> 0 <= d_fileType (entry k i) <= 2 ->
  sys_open p k = (fd, k1) -> fd <> -1 -> buf <> 0 ->
  let fds k := get_fd (get_PCB k (cur_pid k)) in
  2 <= fd < 8 /\ present (fds k fd) = -1 /\ (forall j, 2 <= j < fd -> present (fds k j) = 0) /\
  cur_pid k1 = cur_pid k /\
  (forall j, fds k1 j = if fd =? j then opened_fd (entry k i) (fds k fd) else fds k j) /\
  exists f, driver (entry k i) None = Some f /\ jump_start_idx (fds k1 fd) = Some f /\
    (2 <= fd' < 6 -> sys_read irqs fd' buf n k1 = op_read (ops_of f) irqs fd' buf n k1 /\
       sys_write fd' buf n k1 = Some (op_write (ops_of f) fd' buf n k1)) /\
    (6 <= fd -> sys_read irqs fd buf n k1 = Some (-1, k1) /\ sys_write fd buf n k1 = Some (-1, k1)) /\
    if (3 <=? fd) && (fd <? 6)
    then exists k2, sys_close fd k1 = (0, k2) /\ currFD k2 = fd - 1 /\ present (get_fd (get_PCB k2 (cur_pid k)) fd) = -1 /\
      forall j, j <> fd -> get_fd (get_PCB k2 (cur_pid k)) j = fds k j
    else sys_close fd k1 = (-1, k1).
Proof.
  intros Hl Hok Hp Hc Hf Ht E Hne Hb. cbv zeta. pose proof (sys_open_run p k i Hl Hok Hp Hc Hf) as H. rewrite E in H.
  destruct H as [(fd0 & Hfd & Hfree & Hlow & [= -> ->])|[_ H]]; [|cbn in H; lia]. rename fd0 into fd.
  split; [exact Hfd|]. split; [exact Hfree|]. split; [exact Hlow|]. split; [reflexivity|].
  change (cur_pid (opened i fd k)) with (cur_pid k). split; [intros j; by apply opened_get|].
  rewrite opened_get, Z.eqb_refl by done. pose proof (sys_close_opened i fd k Hok Hp Hfd) as Hcl.
  pose proof (opened_last i fd k Hok Hp Hfd) as Ela. set (e := get_fd (get_PCB k (cur_pid k)) fd) in *.
  destruct (opened_fd_driver (entry k i) e) as [Ed Ee].
  assert (Et : exists f, driver (entry k i) None = Some f /\ driver (entry k i) (jump_start_idx e) = Some f).
  { unfold driver. rewrite s32_small by lia. bdestr; try (eexists; split; reflexivity); lia. }
  destruct Et as (f & Ef & Ef2). rewrite Ef2 in Ed. exists f. split; [exact Ef|]. split; [exact Ed|].
  rewrite <- Ela in Ed, Ee. assert (Ecf : currFD (opened i fd k) = fd) by reflexivity. clear Ela.
  revert Ed Ee Ecf Hcl. generalize (opened i fd k) as k1. intros k1 Ed Ee Ecf Hcl. split; [|split; [|exact Hcl]].
  - intros Hfd'. unfold sys_read, sys_write, MAX_FD_INDEX. rewrite Ed, Ee, Ecf.
    rewrite !(proj2 (Z.ltb_ge fd' 0)), !(proj2 (Z.leb_gt 6 fd')), !(proj2 (Z.eqb_neq fd' 1)), !(proj2 (Z.eqb_neq fd' 0)),
      !(proj2 (Z.eqb_neq buf 0)), !(proj2 (Z.eqb_neq fd (-1))) by lia. by split.
  - intros H6. unfold sys_read, sys_write, MAX_FD_INDEX. rewrite !(proj2 (Z.leb_le 6 fd)) by lia.
    rewrite !orb_true_r. by split.
Qed.

(** ** Arguments *)

Lemma sys_getargs_run a buf n k : let pid := cur_pid k in let l := a ++ replicate (1024 - length a) 0 in
  storeargs k = l -> (0 < length a < 1023)%nat -> agetZ a 0 <> 0 ->
  pcbs_ok (k_pcbs k) -> 0 <= pid < 6 -> length (pcb_args (get_PCB k pid)) = 1024%nat ->
  0 <= n <= 1024 -> 0 <= buf -> buf + n < 2 ^ 32 -> region k (span buf n) -> Forall (fun c => 0 <= c < 256) a ->
  exists k', sys_getargs buf n k = Some (0, k') /\
    (forall i, 0 <= i < n -> ld8 k' (buf + i) = agetZ (aset l 1023 10) i) /\
    (forall x, (forall i, 0 <= i < n -> as_sep k (buf + i) x) -> ld8 k' x = ld8 k x) /\
    k' = put_pcb pid (with_pcb_args (aset l 1023 10) (get_PCB k pid)) (with_k_mem (k_mem k') k).
Proof.
  cbv zeta. set (pid := cur_pid k). set (l := a ++ replicate (1024 - length a) 0).
  intros Es Ha Hz Hok Hp Hl Hn Hb Hbn Hreg Hbytes.
  destruct (pcbs_get k pid Hok Hp) as (p & Ep & Eg & Hpo). rewrite Eg in *.
  assert (Hll : length l = 1024%nat) by (unfold l; rewrite length_app, length_replicate; lia).
  unfold sys_getargs, get_current_PCB. fold pid. rewrite (upd_PCB_eq _ _ _ _ Ep). unfold TEMPBUFSIZES.
  rewrite terminal_getargs_eq by (rewrite ?Es; assumption). rewrite Es.
  set (L := aset l 1023 10). set (p' := with_pcb_args L p). fold (put_pcb pid p' k). set (k1 := put_pcb pid p' k).
  assert (E1 : get_PCB k1 pid = p')
    by (etrans; [exact (put_pcb_get pid p' k pid (aget_Some_range _ _ _ Ep))|by rewrite Z.eqb_refl]).
  rewrite E1. change (pcb_args p') with L. rewrite u32_small by lia. rewrite (proj2 (Z.ltb_ge 1024 n)) by lia.
  assert (HL : forall i, 0 <= i < 1023 -> agetZ L i = agetZ l i)
    by (intros i Hi; unfold agetZ, L; by rewrite aget_aset_ne by lia).
  assert (H0 : agetZ L 0 <> 0) by (rewrite HL by lia; unfold l; rewrite agetZ_app_l by lia; exact Hz).
  rewrite (proj2 (Z.eqb_neq _ _) H0).
  assert (Hreg1 : region k1 (span buf n)) by exact Hreg.
  pose proof (store_loop k1 buf 0 n (agetZ L) Hb Hbn ltac:(lia) Hreg1) as Hs. revert Hs.
  generalize (for_range 0 n (fun i k => st8 (u32 (buf + i)) (agetZ L i) k) k1) as k'. intros k' Hs.
  exists k'. split_and!; [reflexivity| | |exact (sd_only _ _ _ _ _ _ Hs)].
  - intros i Hi. rewrite (sd_in _ _ _ _ _ _ Hs) by lia. apply u8_small.
    assert (HF : Forall (fun c => 0 <= c < 256) L).
    { apply Forall_aset; [|lia]. apply Forall_app. split; [exact Hbytes|]. apply Forall_replicate. lia. }
    apply (Forall_agetZ (fun c => 0 <= c < 256)); [exact HF|]. unfold L. rewrite length_aset, Hll. lia.
  - intros x Hx. rewrite (sd_out _ _ _ _ _ _ Hs) by (intros i Hi; apply Hx; lia). reflexivity.
Qed.

(** No arguments: the record is overwritten all the same. *)
Lemma sys_getargs_none buf n k : let pid := cur_pid k in
  storeargs k = replicate 1024 0 -> pcbs_ok (k_pcbs k) -> 0 <= pid < 6 ->
  length (pcb_args (get_PCB k pid)) = 1024%nat ->
  sys_getargs buf n k = Some (-1, put_pcb pid (with_pcb_args (aset (replicate 1024 0) 1023 10) (get_PCB k pid)) k).
Proof.
  cbv zeta. set (pid := cur_pid k). intros Es Hok Hp Hl.
  destruct (pcbs_get k pid Hok Hp) as (p & Ep & Eg & Hpo). rewrite Eg in *.
  unfold sys_getargs, get_current_PCB. fold pid. rewrite (upd_PCB_eq _ _ _ _ Ep). unfold TEMPBUFSIZES.
  rewrite terminal_getargs_eq by (rewrite ?Es; assumption || reflexivity). rewrite Es.
  set (p' := with_pcb_args _ p). fold (put_pcb pid p' k).
  rewrite put_pcb_get, Z.eqb_refl by (by apply aget_Some_range in Ep). reflexivity.
Qed.

(** C29: a program gets the arguments that were typed: after a line with text
    [a] after its first space has been read, a process that asks for [n] bytes
    of arguments, whatever ran in between that read no other line, gets [a]
    padded with zeros (and a newline in the last of the 1024 bytes); after a
    line without a space, or with nothing after it, it gets -1. *)
Theorem getargs_returns_typed irqs fd buf nbytes m line rest t k k2 ubuf n :
  line_ready k = true -> aget (terminals k) (visible k) = Some t ->
  buf_kb k = replicate m 32 ++ line ++ 10 :: rest -> length (buf_kb k) = 128%nat ->
  Forall (fun c => 1 <= c < 256 /\ c <> 10) line -> (forall c r, line = c :: r -> c <> 32) ->
  0 <= nbytes -> 0 <= buf -> buf + Z.of_nat (length (take (Z.to_nat nbytes) (line_output line))) < 2 ^ 32 ->
  region k (span buf (Z.of_nat (length (take (Z.to_nat nbytes) (line_output line))))) ->
  exists r k1, terminal_read irqs fd buf nbytes k = Some (r, k1) /\
    (storeargs k2 = storeargs k1 -> pcbs_ok (k_pcbs k2) -> 0 <= cur_pid k2 < 6 ->
     length (pcb_args (get_PCB k2 (cur_pid k2))) = 1024%nat ->
     0 <= n <= 1024 -> 0 <= ubuf -> ubuf + n < 2 ^ 32 -> region k2 (span ubuf n) ->
     let a := line_args line in
     if bool_decide (a = []) then exists k3, sys_getargs ubuf n k2 = Some (-1, k3)
     else exists k3, sys_getargs ubuf n k2 = Some (0, k3) /\
       forall i, 0 <= i < n -> ld8 k3 (ubuf + i) = if i =? 1023 then 10 else default 0 (aget a i)).
Proof.
  intros Hr Et Eb Hl Hline Hs Hn Hb Hbo Hreg.
  assert (Hline' : Forall (fun c => 0 <= c < 256 /\ c <> 10) line)
    by (eapply Forall_impl; [exact Hline|]; cbn; lia).
  destruct (terminal_read_run irqs fd buf nbytes m line rest t k Hr Et Eb Hl Hline' Hs Hn Hb Hbo Hreg) as (k1 & E & Hlr).
  exists (Z.of_nat (length (take (Z.to_nat nbytes) (line_output line)))), k1. split; [exact E|].
  intros Es Hok Hp Hargs Hn2 Hub Hubn Hreg2. cbv zeta.
  rewrite (lr_state _ _ _ _ _ _ Hlr) in Es.
  change (storeargs k2 = line_args line ++ replicate (1024 - length (line_args line)) 0) in Es.
  assert (Hla : (length (line_args line) < 128)%nat /\ Forall (fun c => 1 <= c < 256) (line_args line)).
  { apply (f_equal length) in Eb. rewrite Hl, !length_app in Eb. cbn [length] in Eb.
    pose proof (split_line_length line) as Hsp. unfold line_args. destruct (split_line line) as [cmd [a|]]; cbn [snd default id].
    - rewrite Hsp in Hline, Eb. rewrite length_app in Eb. cbn [length] in Eb. split; [lia|].
      apply Forall_app in Hline as [_ Hline]. apply Forall_cons in Hline as [_ Hline].
      eapply Forall_impl; [exact Hline|]. by intros ? [].
    - split; [cbn; lia|constructor]. }
  destruct Hla as [Hla1 Hla2]. revert Hla1 Hla2 Es. generalize (line_args line) as a. intros a Hla1 Hla2 Es.
  case_bool_decide as Ha.
  - subst a. eexists. by apply sys_getargs_none.
  - assert (Hz : agetZ a 0 <> 0).
    { destruct a as [|c a]; [done|]. apply Forall_cons in Hla2 as [Hc _]. unfold agetZ, aget.
      rewrite (proj2 (in_range_true _ _)) by (cbn [length]; lia). change (c <> 0). lia. }
    assert (0 < length a)%nat by (destruct a; [done|cbn; lia]).
    destruct (sys_getargs_run a ubuf n k2 Es) as (k3 & E3 & Hbytes & _); try assumption; [lia| |].
    { eapply Forall_impl; [exact Hla2|]. cbn. lia. }
    exists k3. split; [exact E3|]. intros i Hi. rewrite Hbytes by exact Hi. unfold agetZ.
    destruct (Z.eqb_spec i 1023) as [->|Hne].
    + rewrite aget_aset_eq; [done|]. rewrite length_app, length_replicate. lia.
    + rewrite aget_aset_ne by lia. destruct (decide (i < Z.of_nat (length a))).
      * f_equal. unfold aget. rewrite !(proj2 (in_range_true _ _)) by (rewrite ?length_app; lia).
        by rewrite lookup_app_l by lia.
      * rewrite (proj2 (aget_None a i)) by lia. unfold aget.
        rewrite (proj2 (in_range_true _ _)) by (rewrite length_app, length_replicate; lia).
        rewrite lookup_app_r by lia. by rewrite lookup_replicate_2 by lia.
Qed.

(** ** Witnesses *)

Lemma syscall_refuses_witness :
  syscall_handler_asm [] 0 0 (mkRegs 3 1 0x600000 8) demo_shells = Some (Ret (-1), demo_shells) /\
  exists k', syscall_handler_asm [] 0 5 (mkRegs 3 0xFFFFFFFF 0x600000 8) demo_shells = Some (Ret 5, k').
Proof.
  split.
  - apply (proj1 (syscall_refuses [] 0 0 (mkRegs 3 1 0x600000 8) demo_shells)). vm_compute. reflexivity.
  - destruct (proj2 (syscall_refuses [] 0 5 (mkRegs 3 0xFFFFFFFF 0x600000 8) demo_shells)) as (k' & E & _).
    + vm_compute. reflexivity.
    + split; [exact (paging_ok_mapped 0 _ demo_shells_paging)|exact demo_shells_cursor].
    + exists k'. exact E.
Defined.

(** The name in the directory entry serves as the argument. *)
Lemma demo_cstr_found : found demo_shells (cstr 0x500080 demo_shells) 1.
Proof.
  split; [lia|]. split; [vm_compute; reflexivity|]. intros j Hj. assert (j = 0) as -> by lia. vm_compute. congruence.
Qed.

Lemma demo_driver : driver (entry demo_shells 1) None = Some file_struct.
Proof.
  unfold driver. assert (E : d_fileType (entry demo_shells 1) = 2) by (vm_compute; reflexivity).
  rewrite E. reflexivity.
Qed.

Lemma sys_open_routes_witness : exists k1, sys_open 0x500080 demo_shells = (2, k1) /\
  sys_read [] 2 0x600000 28 k1 = op_read (ops_of file_struct) [] 2 0x600000 28 k1.
Proof.
  destruct (sys_open_run 0x500080 demo_shells 1) as [(fd & Hfd & Hfree & Hlow & E)|[H _]].
  - reflexivity.
  - exact demo_PCBs_ok.
  - split; vm_compute; congruence.
  - vm_compute. congruence.
  - exact demo_cstr_found.
  - assert (fd = 2) as ->.
    { destruct (decide (fd = 2)); [done|]. specialize (Hlow 2 ltac:(lia)). vm_compute in Hlow. congruence. }
    destruct (sys_open_routes [] 0x500080 demo_shells 1 2 (opened 1 2 demo_shells) 2 0x600000 28)
      as (_ & _ & _ & _ & _ & f & Ef & _ & Hr & _).
    + reflexivity.
    + exact demo_PCBs_ok.
    + split; vm_compute; congruence.
    + vm_compute. congruence.
    + exact demo_cstr_found.
    + vm_compute. split; congruence.
    + exact E.
    + lia.
    + lia.
    + exists (opened 1 2 demo_shells). split; [exact E|].
      pose proof (eq_trans (eq_sym Ef) demo_driver) as Hf. injection Hf as ->. clear -Hr. destruct Hr as [H _]; [lia|exact H].
  - specialize (H 2 ltac:(lia)). vm_compute in H. congruence.
Defined.

(** "cat a" has been typed on terminal 0. *)
Definition demo_typed : kernel :=
  put_term 0 (with_enter_flag 0 (demo_term 0)) (set_buf_kb (codes "cat a" ++ 10 :: replicate 122 0) demo_shells).

Lemma region_600000 n k : paging_ok 0 k -> 0 <= n <= 64 -> region k (span 0x600000 n).
Proof.
  intros Hp Hn. eapply region_mono; [|exact (region_kernel 0 k Hp)].
  unfold kernel_page, span, FOUR_MB. lia.
Qed.

Definition args_read (r : option (Z * kernel)) : option (list Z) :=
  match r with Some (_, k) => Some (storeargs k) | None => None end.

Lemma demo_typed_args : args_read (terminal_read [] 0 0x600000 32 demo_typed) = Some (97 :: replicate 1023 0).
Proof. vm_compute. reflexivity. Qed.

Lemma getargs_returns_typed_witness : exists k3,
  sys_getargs 0x600000 2 (set_storeargs (97 :: replicate 1023 0) demo_shells) = Some (0, k3) /\
  ld8 k3 0x600000 = 97 /\ ld8 k3 0x600001 = 0.
Proof.
  destruct (getargs_returns_typed [] 0 0x600000 32 0 (codes "cat a") (replicate 122 0)
    (with_enter_flag 0 (demo_term 0)) demo_typed (set_storeargs (97 :: replicate 1023 0) demo_shells) 0x600000 2)
    as (r & k1 & E & H).
  - vm_compute. reflexivity.
  - reflexivity.
  - reflexivity.
  - reflexivity.
  - change (codes "cat a") with [99; 97; 116; 32; 97]. repeat (constructor; [lia|]). constructor.
  - intros c l [= <- _]. lia.
  - lia.
  - lia.
  - vm_compute. reflexivity.
  - apply (region_600000 _ demo_typed); [exact shells_paging|vm_compute; split; congruence].
  - pose proof demo_typed_args as Ec. rewrite E in Ec. cbn [args_read] in Ec. injection Ec as Ec.
    destruct H as (k3 & E3 & Hb).
    + exact (eq_sym Ec).
    + exact demo_PCBs_ok.
    + split; vm_compute; congruence.
    + reflexivity.
    + lia.
    + lia.
    + lia.
    + apply (region_600000 2 (set_storeargs (97 :: replicate 1023 0) demo_shells)); [exact shells_paging|lia].
    + exists k3. split; [exact E3|]. split; [exact (Hb 0 ltac:(lia))|exact (Hb 1 ltac:(lia))].
Defined.
