(* ===== verification/Idt.v ===== *)
(** * The interrupt descriptor table (idt.c, linkage.S, x86_desc.h)

    The exception handlers, the gates setup_idt_inplace builds and how the
    processor reads them, and what an interrupt vector runs. *)

From Stdlib Require Import ZArith Lia.
From Stdlib Require Import String.
From stdpp Require Import base numbers list gmap.
From S2P Require Import Prelude Memory LibStr State Machine I8259 Rtc Paging Console Pcb Filesys Fdt Schedule Terminal Vterm Keyboard Execute Halt Pit Syscall.

Open Scope Z_scope.
Implicit Types k : kernel.

(** ** Exceptions *)





(** ** Gates *)

Definition SYSCALL_NUM : Z := 128.
Definition NUM_IDT_ENTRIES : Z := 47.
Definition NUM_VEC : Z := 256.
Definition KERNEL_CS : Z := 0x0010.

(** The bit fields of an entry. *)
Record idt_desc_t := mkGate {
  offset_15_00 : Z;
  seg_selector : Z;
  reserved4 : Z;
  reserved3 : Z;
  reserved2 : Z;
  reserved1 : Z;
  size : Z;
  reserved0 : Z;
  dpl : Z;
  gate_present : Z;
  offset_31_16 : Z;
}.

Definition zero_gate : idt_desc_t := mkGate 0 0 0 0 0 0 0 0 0 0 0.

(** The functions the table points to. *)
Inductive handler :=
  | De | Db | Nmi | Bp | Of | Br | Ud | Nm | Df | Cpso | Ts | Np | Ssf | Gp | Pf | Ir | Mf | Ac | Mc | Xf
  | Gen_purp | Pit_asm | Keyboard_asm | Rtc_asm | Syscall_handler_asm.

#[export] Instance handler_eq_dec : EqDecision handler.
Proof. solve_decision. Defined.

Definition upd_gate (i : Z) (f : idt_desc_t -> idt_desc_t) (idt : list idt_desc_t) : list idt_desc_t :=
  match aget idt i with Some g => aset idt i (f g) | None => idt end.

Definition set_entry (i : Z) (idt : list idt_desc_t) : list idt_desc_t :=
  let idt := upd_gate i (fun g => mkGate (offset_15_00 g) KERNEL_CS (reserved4 g) 0 1 1 1 0 0 1 (offset_31_16 g)) idt in
  if i =? SYSCALL_NUM then
    upd_gate i (fun g => mkGate (offset_15_00 g) (seg_selector g) (reserved4 g) 1 (reserved2 g) (reserved1 g)
      (size g) (reserved0 g) 3 (gate_present g) (offset_31_16 g)) idt
  else idt.

(** The macro's handler address is the linker's. *)
Definition SET_IDT_ENTRY (i handler : Z) (idt : list idt_desc_t) : list idt_desc_t :=
  upd_gate i (fun g => mkGate (Z.land handler 0xFFFF) (seg_selector g) (reserved4 g) (reserved3 g) (reserved2 g)
    (reserved1 g) (size g) (reserved0 g) (dpl g) (gate_present g) (Z.shiftr (Z.land handler 0xFFFF0000) 16)) idt.

(** The calls of the macro, in order. *)
Definition idt_handlers : list (Z * handler) :=
  [(0, De); (1, Db); (2, Nmi); (3, Bp); (4, Of); (5, Br); (6, Ud); (7, Nm); (8, Df); (9, Cpso); (10, Ts); (11, Np);
   (12, Ssf); (13, Gp); (14, Pf); (15, Ir); (16, Mf); (17, Ac); (18, Mc); (19, Xf);
   (20, Gen_purp); (21, Gen_purp); (22, Gen_purp); (23, Gen_purp); (24, Gen_purp); (25, Gen_purp); (26, Gen_purp);
   (27, Gen_purp); (28, Gen_purp); (29, Gen_purp); (30, Gen_purp); (31, Gen_purp);
   (32, Pit_asm); (33, Keyboard_asm);
   (34, Gen_purp); (35, Gen_purp); (36, Gen_purp); (37, Gen_purp); (38, Gen_purp); (39, Gen_purp);
   (40, Rtc_asm);
   (41, Gen_purp); (42, Gen_purp); (43, Gen_purp); (44, Gen_purp); (45, Gen_purp); (46, Gen_purp); (47, Gen_purp);
   (0x80, Syscall_handler_asm)].

Definition setup_idt_inplace (addr : handler -> Z) (idt : list idt_desc_t) : list idt_desc_t :=
  let idt := for_range 0 NUM_IDT_ENTRIES set_entry idt in
  let idt := set_entry SYSCALL_NUM idt in
  foldl (fun idt '(i, h) => SET_IDT_ENTRY i (addr h) idt) idt idt_handlers.


(** ** The processor's reading of an entry *)

(** The two words of a packed entry. *)
Definition gate_words (g : idt_desc_t) : Z * Z :=
  (Z.lor (offset_15_00 g) (Z.shiftl (seg_selector g) 16),
   Z.lor (reserved4 g) (Z.lor (Z.shiftl (reserved3 g) 8) (Z.lor (Z.shiftl (reserved2 g) 9) (Z.lor (Z.shiftl (reserved1 g) 10)
     (Z.lor (Z.shiftl (size g) 11) (Z.lor (Z.shiftl (reserved0 g) 12) (Z.lor (Z.shiftl (dpl g) 13)
       (Z.lor (Z.shiftl (gate_present g) 15) (Z.shiftl (offset_31_16 g) 16))))))))).

(** A gate of the processor's manual: entry point, code segment, type (0xE an
    interrupt gate, 0xF a trap gate), privilege level, present. *)
Record gate := mkDecoded { g_offset : Z; g_cs : Z; g_type : Z; g_dpl : Z; g_present : bool }.

Definition decode_gate (w : Z * Z) : gate :=
  mkDecoded (Z.lor (Z.land (fst w) 0xFFFF) (Z.land (snd w) 0xFFFF0000)) (Z.shiftr (fst w) 16)
    (Z.land (Z.shiftr (snd w) 8) 0xF) (Z.land (Z.shiftr (snd w) 13) 3) (Z.testbit (snd w) 15).

(** The handler of a vector, if it has one. *)
Definition vector_handler (v : Z) : option handler :=
  match list_find (fun p => fst p = v) idt_handlers with Some (_, (_, h)) => Some h | None => None end.


(** ** What the table is for *)

(** The processor's exceptions, from vector 0 on. *)
Definition exceptions : list handler :=
  [De; Db; Nmi; Bp; Of; Br; Ud; Nm; Df; Cpso; Ts; Np; Ssf; Gp; Pf; Ir; Mf; Ac; Mc; Xf].

(** The vector of an interrupt line: the two controllers raise 0x20 to 0x27 and
    0x28 to 0x2F. *)
Definition line_vector (irq : Z) : Z := if irq <? 8 then 0x20 + irq else 0x28 + (irq - 8).

(** The devices are on lines 0, 1 and 8; system calls are interrupt 0x80; every
    other vector of the processor and the controllers has the general handler. *)
Definition meant_handler (v : Z) : option handler :=
  if v <? 20 then aget exceptions v
  else if v =? line_vector 0 then Some Pit_asm
  else if v =? line_vector 1 then Some Keyboard_asm
  else if v =? line_vector 8 then Some Rtc_asm
  else if v =? 0x80 then Some Syscall_handler_asm
  else if v <=? line_vector 15 then Some Gen_purp
  else None.

(** The gate of each vector as the processor should read it: code segment 0x10;
    an interrupt gate (0xE) for the kernel's vectors, a trap gate (0xF) that user
    code may call for 0x80; the last line of the second controller is not
    present. *)
Definition meant_gate (addr : handler -> Z) (v : Z) : gate :=
  match meant_handler v with
  | Some h =>
      if v =? 0x80 then mkDecoded (addr h) 0x10 0xF 3 true
      else if v <? 47 then mkDecoded (addr h) 0x10 0xE 0 true
      else mkDecoded (addr h) 0 0 0 false
  | None => mkDecoded 0 0 0 0 false
  end.


(** ** The table *)

Lemma testbit_low n : 0 <= n -> Z.testbit 0xFFFF n = (n <? 16).
Proof.
  intros Hn. change 0xFFFF with (Z.ones 16). destruct (Z.ltb_spec n 16).
  - apply Z.ones_spec_low. lia.
  - apply Z.ones_spec_high. lia.
Qed.

Lemma testbit_high n : 0 <= n -> Z.testbit 0xFFFF0000 n = (16 <=? n) && (n <? 32).
Proof.
  intros Hn. change 0xFFFF0000 with (Z.shiftl 0xFFFF 16). rewrite Z.shiftl_spec by lia.
  destruct (Z.leb_spec 16 n); cbn [andb]; [|apply Z.testbit_neg_r; lia].
  rewrite testbit_low by lia. bdestr; done || lia.
Qed.

Lemma testbit_above a w n : 0 <= a < 2 ^ w -> 0 <= w <= n -> Z.testbit a n = false.
Proof.
  intros Ha Hn. destruct (decide (a = 0)) as [->|]; [apply Z.bits_0|].
  apply Z.bits_above_log2; [lia|]. assert (Z.log2 a < w) by (apply Z.log2_lt_pow2; lia). lia.
Qed.

(** Splitting an address in halves and joining the words' halves. *)
Lemma join_halves a sel K : 0 <= a < 2 ^ 32 -> 0 <= K < 2 ^ 16 ->
  Z.lor (Z.land (Z.lor (Z.land a 0xFFFF) (Z.shiftl sel 16)) 0xFFFF)
    (Z.land (Z.lor K (Z.shiftl (Z.shiftr (Z.land a 0xFFFF0000) 16) 16)) 0xFFFF0000) = a.
Proof.
  intros Ha HK. apply Z.bits_inj'. intros n Hn.
  rewrite Z.lor_spec, !Z.land_spec, !Z.lor_spec, !Z.land_spec, testbit_low, testbit_high by lia.
  destruct (Z.ltb_spec n 16), (Z.leb_spec 16 n); try lia; cbn [andb].
  - rewrite !andb_true_r, andb_false_r, orb_false_r. rewrite (Z.shiftl_spec_low sel) by lia. by rewrite orb_false_r.
  - rewrite !andb_false_r, orb_false_l. rewrite (testbit_above K 16 n) by lia.
    rewrite Z.shiftl_spec, Z.shiftr_spec by lia. replace (n - 16 + 16) with n by lia.
    rewrite Z.land_spec, testbit_high by lia. rewrite (proj2 (Z.leb_le 16 n)) by lia. cbn [andb].
    destruct (Z.ltb_spec n 32); rewrite ?andb_true_r, ?andb_false_r; [done|].
    symmetry. apply (testbit_above a 32); lia.
Qed.

(** Entry [v] as a record. *)
Definition table_gate (addr : handler -> Z) (v : Z) : idt_desc_t :=
  match vector_handler v with
  | Some h =>
      let lo := Z.land (addr h) 0xFFFF in let hi := Z.shiftr (Z.land (addr h) 0xFFFF0000) 16 in
      if v =? SYSCALL_NUM then mkGate lo KERNEL_CS 0 1 1 1 1 0 3 1 hi
      else if v <? NUM_IDT_ENTRIES then mkGate lo KERNEL_CS 0 0 1 1 1 0 0 1 hi
      else mkGate lo 0 0 0 0 0 0 0 0 0 hi
  | None => zero_gate
  end.

Lemma setup_table addr : setup_idt_inplace addr (replicate 256 zero_gate) = map (table_gate addr) (seqZ 0 256).
Proof. lazy -[Z.land Z.shiftr]. reflexivity. Qed.

(** The fields below the upper half. *)
Lemma low_field K X s w : 0 <= s -> 0 <= w -> s + w <= 16 ->
  Z.land (Z.shiftr (Z.lor K (Z.shiftl X 16)) s) (Z.ones w) = Z.land (Z.shiftr K s) (Z.ones w).
Proof.
  intros Hs Hw Hsw. apply Z.bits_inj'. intros n Hn. rewrite !Z.land_spec, !Z.shiftr_spec, Z.lor_spec by lia.
  destruct (decide (n < w)).
  - rewrite (Z.shiftl_spec_low X) by lia. by rewrite orb_false_r.
  - rewrite Z.ones_spec_high by lia. by rewrite !andb_false_r.
Qed.

Lemma decode_halves a sel K : 0 <= a < 2 ^ 32 -> 0 <= K < 2 ^ 16 ->
  decode_gate (Z.lor (Z.land a 0xFFFF) (Z.shiftl sel 16), Z.lor K (Z.shiftl (Z.shiftr (Z.land a 0xFFFF0000) 16) 16)) =
  mkDecoded a sel (Z.land (Z.shiftr K 8) 0xF) (Z.land (Z.shiftr K 13) 3) (Z.testbit K 15).
Proof.
  intros Ha HK. unfold decode_gate. cbn [fst snd]. rewrite (join_halves a sel K Ha HK). f_equal.
  - apply Z.bits_inj'. intros n Hn. rewrite Z.shiftr_spec, Z.lor_spec, Z.land_spec, testbit_low, Z.shiftl_spec by lia.
    rewrite (proj2 (Z.ltb_ge (n + 16) 16)) by lia. rewrite andb_false_r. cbn [orb]. f_equal. lia.
  - by apply (low_field K _ 8 4).
  - by apply (low_field K _ 13 2).
  - rewrite Z.lor_spec, (Z.shiftl_spec_low _ 16) by lia. by rewrite orb_false_r.
Qed.

Lemma handlers_meant v : 0 <= v < 256 -> vector_handler v = meant_handler v.
Proof.
  intros Hv. enough (H : forallb (fun v => bool_decide (vector_handler v = meant_handler v)) (seqZ 0 256) = true).
  { rewrite forallb_forall in H. apply (bool_decide_eq_true (vector_handler v = meant_handler v)), H, list_elem_of_In, elem_of_seqZ. lia. }
  vm_compute. reflexivity.
Qed.

Lemma table_decoded addr v : (forall h, 0 <= addr h < 2 ^ 32) -> 0 <= v < 256 ->
  decode_gate (gate_words (table_gate addr v)) = meant_gate addr v.
Proof.
  intros Ha Hv. unfold table_gate, meant_gate. rewrite handlers_meant by done.
  destruct (meant_handler v) as [h|]; [|reflexivity].
  specialize (Ha h). generalize dependent (addr h). intros a Ha. cbv zeta. unfold gate_words.
  change SYSCALL_NUM with 0x80. change NUM_IDT_ENTRIES with 47. change KERNEL_CS with 0x10.
  destruct (v =? 0x80); [|destruct (v <? 47)];
    cbn [offset_15_00 seg_selector reserved4 reserved3 reserved2 reserved1 size reserved0 dpl gate_present offset_31_16];
    rewrite !Z.lor_assoc.
  - exact (decode_halves a 0x10 0xEF00 Ha ltac:(lia)).
  - exact (decode_halves a 0x10 0x8E00 Ha ltac:(lia)).
  - exact (decode_halves a 0 0 Ha ltac:(lia)).
Qed.

(** C30: on the zeroed table setup_idt_inplace makes exactly the gates of
    [meant_gate]: the exceptions have their handlers in the processor's order,
    the timer, the keyboard and the clock theirs at the vectors the controllers
    raise for lines 0, 1 and 8; every vector below 47 is a present 32-bit
    interrupt gate of the kernel's code segment that only the kernel can name,
    0x80 is a trap gate user code can call, each with the whole address of its
    handler in its two halves, and no other vector is present, 47 included,
    whose handler is set but whose gate is not. *)
Theorem idt_gates addr v : (forall h, 0 <= addr h < 2 ^ 32) -> 0 <= v < 256 ->
  exists g, aget (setup_idt_inplace addr (replicate 256 zero_gate)) v = Some g /\
    decode_gate (gate_words g) = meant_gate addr v.
Proof.
  intros Ha Hv. exists (table_gate addr v). split; [|by apply table_decoded].
  rewrite setup_table. unfold aget. rewrite (proj2 (in_range_true _ _)) by (rewrite length_map, length_seqZ; lia).
  rewrite list_lookup_fmap, lookup_seqZ_lt by lia. cbn. do 2 f_equal. lia.
Qed.

(** ** An exception ends the process *)










(** ** Witnesses *)

Lemma idt_gates_witness : exists g, aget (setup_idt_inplace (fun _ => 0x401234) (replicate 256 zero_gate)) 0x80 = Some g /\
  decode_gate (gate_words g) = mkDecoded 0x401234 KERNEL_CS 0xF 3 true.
Proof.
  destruct (idt_gates (fun _ => 0x401234) 0x80) as (g & E1 & E2); [lia|lia|].
  exists g. split; [exact E1|exact E2].
Defined.


