(* ===== verification/Boot.v ===== *)
(** * Boot (kernel.c, multiboot.h, x86_desc.h, x86_desc.S)

    entry: the report on what the boot loader passed, the descriptors, and the
    initialisation of every component in order, up to the loop that waits for
    interrupts. *)

From Stdlib Require Import ZArith Lia.
From Stdlib Require Import String.
From stdpp Require Import base numbers list gmap.
From S2P Require Import Prelude Memory LibMem LibStr State Machine I8259 Rtc Paging Console Pcb Filesys Fdt Schedule Vterm Keyboard Execute Halt Pit Idt.

Open Scope Z_scope.
Implicit Types k : kernel.

(** ** Segment descriptors *)

Definition TSS_SIZE : Z := 104.
Definition KERNEL_TSS : Z := 0x0030.
Definition KERNEL_LDT : Z := 0x0038.

(** The bit fields of seg_desc_t. *)
Record seg_desc_t := mkSeg {
  seg_lim_15_00 : Z;
  base_15_00 : Z;
  base_23_16 : Z;
  sd_type : Z;
  sd_sys : Z;
  sd_dpl : Z;
  sd_present : Z;
  seg_lim_19_16 : Z;
  sd_avail : Z;
  sd_reserved : Z;
  sd_opsize : Z;
  sd_granularity : Z;
  base_31_24 : Z;
}.

(** SET_LDT_PARAMS and SET_TSS_PARAMS have the same body. *)
Definition set_params (addr lim : Z) (d : seg_desc_t) : seg_desc_t :=
  mkSeg (Z.land lim 0x0000FFFF) (Z.land addr 0x0000FFFF) (Z.shiftr (Z.land addr 0x00FF0000) 16)
    (sd_type d) (sd_sys d) (sd_dpl d) (sd_present d) (Z.shiftr (Z.land lim 0x000F0000) 16)
    (sd_avail d) (sd_reserved d) (sd_opsize d) (sd_granularity d) (Z.shiftr (Z.land addr 0xFF000000) 24).

Definition SET_LDT_PARAMS := set_params.
Definition SET_TSS_PARAMS := set_params.

(** Sizes of x86_desc.S: the distance to the label at the end, less one. *)
Definition tss_size : Z := 104 - 1.
Definition ldt_size : Z := 4 * 8 - 1.

(** Addresses the linker chooses. *)
Record symbols := mkSym { sym_ldt : Z; sym_tss : Z; sym_handler : handler -> Z }.

Definition the_ldt_desc (sy : symbols) : seg_desc_t :=
  SET_LDT_PARAMS (sym_ldt sy) ldt_size (mkSeg 0 0 0 2 0 0 1 0 0 0 1 0 0).

Definition the_tss_desc (sy : symbols) : seg_desc_t :=
  SET_TSS_PARAMS (sym_tss sy) tss_size
    (mkSeg (Z.land TSS_SIZE 0x0000FFFF) 0 0 9 0 0 1 (Z.land TSS_SIZE 0x000F0000) 0 0 0 0 0).

(** The tables outside the kernel's state proper. *)
Record tables := mkTables { gdt_ldt : seg_desc_t; gdt_tss : seg_desc_t; idt : list idt_desc_t }.

(** ** The report *)

Definition MULTIBOOT_BOOTLOADER_MAGIC : Z := 0x2BADB002.

Definition CHECK_FLAG (flags bit : Z) : bool := negb (Z.land flags (Z.shiftl 1 bit) =? 0).

(** Fields of multiboot_info_t, by offset. *)
Definition mbi_flags (mbi : Z) (k : kernel) : Z := ld32 k mbi.
Definition mem_lower (mbi : Z) (k : kernel) : Z := ld32 k (u32 (mbi + 4)).
Definition mem_upper (mbi : Z) (k : kernel) : Z := ld32 k (u32 (mbi + 8)).
Definition boot_device (mbi : Z) (k : kernel) : Z := ld32 k (u32 (mbi + 12)).
Definition cmdline (mbi : Z) (k : kernel) : Z := ld32 k (u32 (mbi + 16)).
Definition mods_count (mbi : Z) (k : kernel) : Z := ld32 k (u32 (mbi + 20)).
Definition mods_addr (mbi : Z) (k : kernel) : Z := ld32 k (u32 (mbi + 24)).
Definition elf_sec (mbi i : Z) (k : kernel) : Z := ld32 k (u32 (mbi + 28 + 4 * i)).
Definition mmap_length (mbi : Z) (k : kernel) : Z := ld32 k (u32 (mbi + 44)).
Definition mmap_addr (mbi : Z) (k : kernel) : Z := ld32 k (u32 (mbi + 48)).

(** A printf of a literal and a list of words. *)
Definition say (fuel : nat) (format : list Z) (args : list Z) (k : kernel) : option kernel :=
  '((_, k) : Z * kernel) ← printf fuel (lit format) (agetZ args) k; Some k.

(** A format that ends a line. *)
Definition ln (s : string) : list Z := codes s ++ [10].

(** for (i = lo; ...; i++) with a body that may not return. *)
Fixpoint forM (n : nat) (i : Z) (f : Z -> kernel -> option kernel) (k : kernel) : option kernel :=
  match n with
  | O => Some k
  | S n => k ← f i k; forM n (i + 1) f k
  end.

(** The body of the loop over the modules, on the module_t at [md]. *)
Definition print_module (fuel : nat) (mod_count md : Z) (k : kernel) : option kernel :=
  k ← say fuel (ln "Module %d loaded at address: 0x%#x") [mod_count; ld32 k md] k;
  k ← say fuel (ln "Module %d ends at address: 0x%#x") [mod_count; ld32 k (u32 (md + 4))] k;
  k ← say fuel (ln "First few bytes of module:") [] k;
  k ← forM 16 0 (fun i k => say fuel (codes "0x%x ") [u32 (s8 (ld8 k (u32 (ld32 k md + i))))] k) k;
  say fuel [10] [] k.

Fixpoint print_modules (n fuel : nat) (mbi mod_count md : Z) (k : kernel) : option kernel :=
  match n with
  | O => None
  | S n =>
      if mod_count <? mods_count mbi k then
        k ← print_module fuel mod_count md k;
        print_modules n fuel mbi (mod_count + 1) (u32 (md + 16)) k
      else Some k
  end.

(** The loop over the memory map, on the memory_map_t at [mmap]. *)
Fixpoint print_mmap (n fuel : nat) (mbi mmap : Z) (k : kernel) : option kernel :=
  match n with
  | O => None
  | S n =>
      if mmap <? u32 (mmap_addr mbi k + mmap_length mbi k) then
        k ← say fuel (codes "    size = 0x%x, base_addr = 0x%#x%#x" ++ [10] ++
                      ln "    type = 0x%x,  length    = 0x%#x%#x")
              [ld32 k mmap; ld32 k (u32 (mmap + 8)); ld32 k (u32 (mmap + 4)); ld32 k (u32 (mmap + 20));
               ld32 k (u32 (mmap + 16)); ld32 k (u32 (mmap + 12))] k;
        print_mmap n fuel mbi (u32 (mmap + ld32 k mmap + 4)) k
      else Some k
  end.

(** [if (c) ...;] *)
Definition when (c : bool) (f : kernel -> option kernel) (k : kernel) : option kernel :=
  if c then f k else Some k.

(** From the flags to the command line. *)
Definition report_info (fuel : nat) (mbi : Z) (k : kernel) : option kernel :=
  k ← say fuel (ln "flags = 0x%#x") [mbi_flags mbi k] k;
  k ← when (CHECK_FLAG (mbi_flags mbi k) 0)
        (fun k => say fuel (ln "mem_lower = %uKB, mem_upper = %uKB") [mem_lower mbi k; mem_upper mbi k] k) k;
  k ← when (CHECK_FLAG (mbi_flags mbi k) 1)
        (fun k => say fuel (ln "boot_device = 0x%#x") [boot_device mbi k] k) k;
  when (CHECK_FLAG (mbi_flags mbi k) 2) (fun k => say fuel (ln "cmdline = %s") [cmdline mbi k] k) k.

(** The modules, and modStartTemp: where the first one starts. *)
Definition report_modules (fuel : nat) (mbi : Z) (k : kernel) : option (Z * kernel) :=
  if CHECK_FLAG (mbi_flags mbi k) 3 then
    let modStartTemp := ld32 k (mods_addr mbi k) in
    k ← print_modules fuel fuel mbi 0 (mods_addr mbi k) k;
    Some (modStartTemp, k)
  else Some (0, k).

(** The section headers and the memory map. *)
Definition report_maps (fuel : nat) (mbi : Z) (k : kernel) : option kernel :=
  k ← when (CHECK_FLAG (mbi_flags mbi k) 5)
        (fun k => say fuel (ln "elf_sec: num = %u, size = 0x%#x, addr = 0x%#x, shndx = 0x%#x")
           [elf_sec mbi 0 k; elf_sec mbi 1 k; elf_sec mbi 2 k; elf_sec mbi 3 k] k) k;
  when (CHECK_FLAG (mbi_flags mbi k) 6) (fun k =>
    k ← say fuel (ln "mmap_addr = 0x%#x, mmap_length = 0x%x") [mmap_addr mbi k; mmap_length mbi k] k;
    print_mmap fuel fuel mbi (mmap_addr mbi k) k) k.

(** ** The initialisation *)

(** The fields of the task state that are set. *)
Definition init_tss (k : kernel) : kernel := set_tss (mkTss 0x800000 KERNEL_DS KERNEL_LDT) k.

Definition init_devices (modStartTemp : Z) (k : kernel) : kernel :=
  let k := init_tss k in
  let k := i8259_init k in
  let k := init_rtc k in
  let '(_, k) := rtc_set_freq 2 k in
  let k := init_keyboard k in
  let k := init_paging k in
  let k := sti k in
  let k := filesys_init modStartTemp k in
  let k := pcb_filesys_init modStartTemp k in
  let k := init_PCB k in
  let k := init_terminals k in
  init_PIT STARTING_PIT_FREQUENCY k.

(** How entry ends: it returns to boot.S, or spins with interrupts on. *)
Inductive boot_end := Returned | Spins (t : tables).

(** [None]: a loop of the report that does not end within the fuel. *)
Definition entry (sy : symbols) (idt0 : list idt_desc_t) (fuel : nat) (magic addr : Z) (k : kernel)
    : option (boot_end * kernel) :=
  let k := clear k in
  if negb (magic =? MULTIBOOT_BOOTLOADER_MAGIC) then
    k ← say fuel (ln "Invalid magic number: 0x%#x") [magic] k; Some (Returned, k)
  else
    k ← report_info fuel addr k;
    '((modStartTemp, k) : Z * kernel) ← report_modules fuel addr k;
    if CHECK_FLAG (mbi_flags addr k) 4 && CHECK_FLAG (mbi_flags addr k) 5 then
      k ← say fuel (ln "Both bits 4 and 5 are set.") [] k; Some (Returned, k)
    else
      k ← report_maps fuel addr k;
      let t := mkTables (the_ldt_desc sy) (the_tss_desc sy) (setup_idt_inplace (sym_handler sy) idt0) in
      Some (Spins t, init_devices modStartTemp k).

(** ** The report comes to an end *)

(** [k'] is [k] after some output. *)
Definition shown (k k' : kernel) : Prop := exists a, con_run k k' a.

Lemma shown_trans k1 k2 k3 : shown k1 k2 -> shown k2 k3 -> shown k1 k3.
Proof. intros [a H1] [b H2]. exists b. by eapply con_run_trans. Qed.

Lemma shown_ok k k' : shown k k' -> console_ok k'.
Proof. intros [a H]. apply H. Qed.

Lemma shown_refl k : console_ok k -> shown k k.
Proof. intros H. exists (abs_console k). by split. Qed.

(** A literal format without %s. *)
Definition plain_format (l : list Z) : bool :=
  closed_format Text l && bool_decide (str_args Text l 0 = []) && forallb (fun c => (0 <? c) && (c <? 256)) l.

Lemma say_run fuel l args k : console_ok k -> plain_format l = true -> (length l < fuel)%nat ->
  exists k', say fuel l args k = Some k' /\ shown k k'.
Proof.
  intros Hok Hl Hf. unfold plain_format in Hl. apply andb_true_iff in Hl as [Hl H3].
  apply andb_true_iff in Hl as [H1 H2]. apply bool_decide_eq_true in H2.
  destruct (printf_loop_run fuel (lit l) l (agetZ args) (fun _ => []) fuel Text 0 0 k Hok) as (k' & E & Hr); try done; try lia.
  - apply src_str_lit. apply Forall_forall. intros c Hc. rewrite forallb_forall in H3.
    specialize (H3 c (proj1 (list_elem_of_In _ _) Hc)). lia.
  - change (Z.to_nat 0) with O. rewrite drop_0, H2. constructor.
  - exists k'. unfold say, printf. rewrite E. split; [reflexivity|]. by eexists.
Qed.

Lemma ld32_range k a : 0 <= ld32 k a < 2 ^ 32.
Proof.
  unfold ld32. apply le32_range; apply (ld8_range (S := kernel)).
Qed.

(** The screen as [n] bytes from [a] see it. *)
Definition off_screen (a n : Z) : Prop := 0 <= a /\ a + n <= 2 ^ 32 /\ (a + n <= VIDEO \/ VIDEO + 4000 <= a).

Lemma phys_unpaged k a : paging_on k = false -> phys k a = Some a.
Proof. intros E. unfold phys, translate. by rewrite E. Qed.

Lemma shown_unpaged k k' : shown k k' -> paging_on k = false -> paging_on k' = false.
Proof. intros [a Hr] E. by rewrite (cr_frame _ _ _ Hr). Qed.

Lemma shown_ld8 k k' a n x : shown k k' -> paging_on k = false -> off_screen a n -> a <= x < a + n -> ld8 k' x = ld8 k x.
Proof.
  intros [b Hr] E (H0 & H1 & H2) Hx. apply (cr_mem _ _ _ Hr). intros y Hy. simpl. intros p q.
  rewrite !phys_unpaged by done. intros [= <-] [= <-]. unfold span in Hy. lia.
Qed.

Lemma shown_ld32 k k' a n x : shown k k' -> paging_on k = false -> off_screen a n -> a <= x -> x + 4 <= a + n ->
  ld32 k' x = ld32 k x.
Proof.
  intros Hs E Ho Hx Hn. pose proof Ho as (H0 & H1 & _). apply ld32_ext; [lia|]. intros j Hj. rewrite u32_small by lia.
  apply (shown_ld8 k k' a n); try done; lia.
Qed.

(** The walk over the memory map reaches its end in [n] steps, reading sizes off
    the screen. *)
Inductive mmap_ends (k : kernel) (mbi : Z) : nat -> Z -> Prop :=
  | mmap_last n mmap : u32 (mmap_addr mbi k + mmap_length mbi k) <= mmap -> mmap_ends k mbi n mmap
  | mmap_next n mmap : off_screen mmap 4 -> mmap_ends k mbi n (u32 (mmap + ld32 k mmap + 4)) ->
      mmap_ends k mbi (S n) mmap.

(** What the boot loader passed can be reported: the information lies off the
    screen, the fuel covers the longest format, the command line, the modules and
    the memory map. *)
Record mbi_ok (fuel : nat) (mbi : Z) (k : kernel) : Prop := {
  mi_unpaged : paging_on k = false;
  mi_apart : off_screen mbi 52;
  mi_fuel : (100 < fuel)%nat;
  mi_cmdline : CHECK_FLAG (mbi_flags mbi k) 2 = true ->
    exists l, src_str (at_addr (cmdline mbi k)) k l /\ (length l < fuel)%nat;
  mi_mods : CHECK_FLAG (mbi_flags mbi k) 3 = true -> mods_count mbi k < Z.of_nat fuel;
  mi_mmap : CHECK_FLAG (mbi_flags mbi k) 6 = true -> exists n, (n < fuel)%nat /\ mmap_ends k mbi n (mmap_addr mbi k);
}.

(** Every field of the information is the same after output. *)
Lemma shown_field k k' mbi j : shown k k' -> paging_on k = false -> off_screen mbi 52 -> 0 <= j <= 48 ->
  ld32 k' (u32 (mbi + j)) = ld32 k (u32 (mbi + j)).
Proof.
  intros Hs E Ho Hj. pose proof Ho as (H0 & H1 & _). rewrite u32_small by lia.
  apply (shown_ld32 k k' mbi 52); try done; lia.
Qed.

Lemma shown_flags k k' mbi : shown k k' -> paging_on k = false -> off_screen mbi 52 -> mbi_flags mbi k' = mbi_flags mbi k.
Proof. intros Hs E Ho. apply (shown_ld32 k k' mbi 52); try done; lia. Qed.

Lemma mmap_ends_shown k k' mbi n mmap : shown k k' -> paging_on k = false -> off_screen mbi 52 ->
  mmap_ends k mbi n mmap -> mmap_ends k' mbi n mmap.
Proof.
  intros Hs E Ho H. induction H as [n mmap H|n mmap H _ IH].
  - apply mmap_last. unfold mmap_addr, mmap_length in *. by rewrite !(shown_field k k') by (done || lia).
  - apply mmap_next; [done|]. by rewrite (shown_ld32 k k' mmap 4) by (done || lia).
Qed.

Lemma mbi_ok_shown fuel mbi k k' : shown k k' -> mbi_ok fuel mbi k -> mbi_ok fuel mbi k'.
Proof.
  intros Hs [E Ho Hf Hc Hm Hp]. pose proof (shown_flags k k' mbi Hs E Ho) as Efl.
  split; rewrite ?Efl; try assumption.
  - by apply (shown_unpaged k).
  - intros H. destruct (Hc H) as (l & Hl & Hn). exists l. split; [|done]. unfold cmdline in *.
    rewrite (shown_field k k') by (done || lia). destruct Hs as [a Hr]. by apply (src_str_run _ k k' a).
  - intros H. unfold mods_count. rewrite (shown_field k k') by (done || lia). by apply Hm.
  - intros H. destruct (Hp H) as (n & Hn & Hw). exists n. split; [done|]. unfold mmap_addr in *.
    rewrite (shown_field k k') by (done || lia). by apply (mmap_ends_shown k k').
Qed.

(** One more step of output. *)
Lemma shown_bind (f g : kernel -> option kernel) k :
  (exists k1, f k = Some k1 /\ shown k k1) -> (forall k1, shown k k1 -> exists k2, g k1 = Some k2 /\ shown k1 k2) ->
  exists k2, (k1 ← f k; g k1) = Some k2 /\ shown k k2.
Proof.
  intros (k1 & E & H1) Hg. destruct (Hg k1 H1) as (k2 & E2 & H2). exists k2. rewrite E. cbn [mbind option_bind].
  split; [exact E2|]. by eapply shown_trans.
Qed.

Lemma when_run c f k : console_ok k -> (c = true -> exists k1, f k = Some k1 /\ shown k k1) ->
  exists k1, when c f k = Some k1 /\ shown k k1.
Proof. intros Hok H. destruct c; [by apply H|]. exists k. split; [done|by apply shown_refl]. Qed.

Lemma forM_run n f : (forall i k, console_ok k -> exists k1, f i k = Some k1 /\ shown k k1) ->
  forall i k, console_ok k -> exists k1, forM n i f k = Some k1 /\ shown k k1.
Proof.
  intros Hf. induction n as [|n IH]; intros i k Hok; cbn [forM].
  - exists k. split; [done|by apply shown_refl].
  - apply (shown_bind (f i) (forM n (i + 1) f)); [by apply Hf|]. intros k1 H1. apply IH. by eapply shown_ok.
Qed.

Ltac say_step := apply say_run; [by (assumption || (eapply shown_ok; eassumption))|reflexivity|cbn; lia].

Lemma print_module_run fuel c md k : console_ok k -> (100 < fuel)%nat ->
  exists k1, print_module fuel c md k = Some k1 /\ shown k k1.
Proof.
  intros Hok Hf. unfold print_module.
  apply (shown_bind (fun k => say fuel _ [c; ld32 k md] k)); [say_step|]. intros k1 H1.
  apply (shown_bind (fun k => say fuel _ [c; ld32 k (u32 (md + 4))] k)); [say_step|]. intros k2 H2.
  apply (shown_bind (say fuel _ [])); [say_step|]. intros k3 H3.
  apply (shown_bind (forM 16 0 _)); [|intros k4 H4; say_step].
  apply forM_run; [|by eapply shown_ok]. intros i k4 H4. apply say_run; [done|reflexivity|cbn; lia].
Qed.

Lemma print_modules_run fuel mbi : forall n c md k, console_ok k -> mbi_ok fuel mbi k ->
  0 <= mods_count mbi k - c < Z.of_nat n ->
  exists k1, print_modules n fuel mbi c md k = Some k1 /\ shown k k1.
Proof.
  induction n as [|n IH]; intros c md k Hok Hm Hn; cbn [print_modules]; [lia|].
  destruct (Z.ltb_spec c (mods_count mbi k)); [|exists k; split; [done|by apply shown_refl]].
  apply (shown_bind (print_module fuel c md) (print_modules n fuel mbi (c + 1) (u32 (md + 16)))).
  - apply print_module_run; [done|apply Hm].
  - intros k1 H1. assert (E : mods_count mbi k1 = mods_count mbi k)
      by (apply (shown_field k k1 mbi 20); (apply Hm || done || lia)).
    apply IH; [by eapply shown_ok|by apply (mbi_ok_shown _ _ k)|lia].
Qed.

Lemma print_mmap_run fuel mbi : forall m n mmap k, console_ok k -> mbi_ok fuel mbi k -> (n < m)%nat ->
  mmap_ends k mbi n mmap -> exists k1, print_mmap m fuel mbi mmap k = Some k1 /\ shown k k1.
Proof.
  induction m as [|m IH]; intros n mmap k Hok Hm Hn H; cbn [print_mmap]; [lia|].
  destruct (Z.ltb_spec mmap (u32 (mmap_addr mbi k + mmap_length mbi k))) as [Hlt|];
    [|exists k; split; [done|by apply shown_refl]].
  inversion H as [n' mm' Hle|n' mm' Hoff Hnext]; subst; [lia|].
  set (l := codes _ ++ _).
  destruct (say_run fuel l [ld32 k mmap; ld32 k (u32 (mmap + 8)); ld32 k (u32 (mmap + 4)); ld32 k (u32 (mmap + 20));
    ld32 k (u32 (mmap + 16)); ld32 k (u32 (mmap + 12))] k Hok eq_refl) as (k1 & E & H1);
    [pose proof (mi_fuel _ _ _ Hm); unfold l; cbn; lia|].
  rewrite E. cbn [mbind option_bind].
  rewrite (shown_ld32 k k1 mmap 4) by (apply Hm || done || lia).
  destruct (IH n' (u32 (mmap + ld32 k mmap + 4)) k1) as (k2 & E2 & H2).
  - by eapply shown_ok.
  - by apply (mbi_ok_shown _ _ k).
  - lia.
  - apply (mmap_ends_shown k k1); (apply Hm || done).
  - exists k2. split; [exact E2|]. by eapply shown_trans.
Qed.

Lemma report_info_run fuel mbi k : console_ok k -> mbi_ok fuel mbi k ->
  exists k1, report_info fuel mbi k = Some k1 /\ shown k k1.
Proof.
  intros Hok Hm. pose proof (mi_fuel _ _ _ Hm) as Hf. unfold report_info.
  apply (shown_bind (fun k => say fuel _ [mbi_flags mbi k] k)); [say_step|]. intros k1 H1.
  apply (shown_bind (when _ _)).
  { apply when_run; [by eapply shown_ok|]. intros _. say_step. }
  intros k2 H2. apply (shown_bind (when _ _)).
  { apply when_run; [by eapply shown_ok|]. intros _. say_step. }
  intros k3 H3. apply when_run; [by eapply shown_ok|]. intros Hc.
  assert (H03 : shown k k3) by (eapply shown_trans; [exact H1|]; by eapply shown_trans).
  destruct (mbi_ok_shown fuel mbi k k3 H03 Hm) as [_ _ _ Hcmd _ _]. destruct (Hcmd Hc) as (l & Hl & Hn).
  destruct (printf_loop_run fuel (lit (ln "cmdline = %s")) (ln "cmdline = %s") (agetZ [cmdline mbi k3]) (fun _ => l) fuel Text 0 0 k3)
    as (k4 & E & Hr); try done; try (cbn; lia).
  - by eapply shown_ok.
  - apply src_str_lit. by repeat constructor.
  - constructor; [|constructor]. split; [|exact Hn]. change (agetZ [cmdline mbi k3] 0) with (cmdline mbi k3).
    rewrite u32_small by (apply ld32_range). exact Hl.
  - exists k4. unfold say, printf. rewrite E. split; [reflexivity|]. by eexists.
Qed.

Lemma report_modules_run fuel mbi k : console_ok k -> mbi_ok fuel mbi k ->
  exists k1, report_modules fuel mbi k =
    Some (if CHECK_FLAG (mbi_flags mbi k) 3 then ld32 k (mods_addr mbi k) else 0, k1) /\ shown k k1.
Proof.
  intros Hok Hm. unfold report_modules. destruct (CHECK_FLAG (mbi_flags mbi k) 3) eqn:E;
    [|exists k; split; [done|by apply shown_refl]].
  destruct (print_modules_run fuel mbi fuel 0 (mods_addr mbi k) k Hok Hm) as (k1 & E1 & H1).
  - pose proof (mi_mods _ _ _ Hm E). split; [|lia]. rewrite Z.sub_0_r. apply ld32_range.
  - exists k1. rewrite E1. by split.
Qed.

Lemma report_maps_run fuel mbi k : console_ok k -> mbi_ok fuel mbi k ->
  exists k1, report_maps fuel mbi k = Some k1 /\ shown k k1.
Proof.
  intros Hok Hm. pose proof (mi_fuel _ _ _ Hm) as Hf. unfold report_maps. apply (shown_bind (when _ _)).
  { apply when_run; [done|]. intros _. say_step. }
  intros k1 H1. apply when_run; [by eapply shown_ok|]. intros Hc.
  apply (shown_bind (fun k => say fuel _ [mmap_addr mbi k; mmap_length mbi k] k)); [say_step|]. intros k2 H2.
  assert (H02 : shown k k2) by (by eapply shown_trans).
  pose proof (mbi_ok_shown fuel mbi k k2 H02 Hm) as Hm2.
  assert (Ef : mbi_flags mbi k1 = mbi_flags mbi k) by (apply (shown_flags k k1); (apply Hm || done)).
  assert (Ef2 : mbi_flags mbi k2 = mbi_flags mbi k) by (apply (shown_flags k k2); (apply Hm || done)).
  rewrite Ef in Hc. rewrite <- Ef2 in Hc. destruct (mi_mmap _ _ _ Hm2 Hc) as (n & Hn & Hw).
  by apply (print_mmap_run fuel mbi fuel n); [eapply shown_ok| | |].
Qed.

(** ** The devices *)

(** Changes to the ports, the masks and the clock only. *)
Definition dev_frame (k k' : kernel) : Prop :=
  k' = with_k_io (k_io k') (with_k_pic (k_pic k') (with_k_rtcs (k_rtcs k') k)).

#[export] Instance dev_frame_preorder : PreOrder dev_frame.
Proof.
  split; [by intros []|]. intros k1 k2 k3 H1 H2. unfold dev_frame in *. etrans; [exact H2|]. rewrite H1. reflexivity.
Qed.

Lemma dev_outb d p k : dev_frame k (outb d p k).
Proof. by destruct k. Qed.

Lemma dev_inb p k : dev_frame k (inb p k).2.
Proof. by destruct k. Qed.

Lemma dev_masks m k : dev_frame k (with_k_pic m k).
Proof. by destruct k. Qed.

Lemma dev_rate r k : dev_frame k (set_rate r k).
Proof. by destruct k. Qed.

Lemma inb_pair p k : inb p k = ((inb p k).1, (inb p k).2).
Proof. reflexivity. Qed.

(** The masks of enable_irq. *)
Definition unmasked (n : Z) (m : pic) : pic :=
  if 8 <=? n then mkPic (master_mask m) (u8 (Z.land (slave_mask m) (u32 (Z.lnot (Z.shiftl 1 (n - 8))))))
  else mkPic (u8 (Z.land (master_mask m) (u32 (Z.lnot (Z.shiftl 1 n))))) (slave_mask m).

Lemma enable_irq_dev n k : dev_frame k (enable_irq n k) /\ k_pic (enable_irq n k) = unmasked n (k_pic k).
Proof.
  unfold enable_irq, unmasked, SIZEOFPIC1. destruct (8 <=? n);
    (split; [etrans; [|apply dev_outb]; apply (dev_masks (mkPic _ _))|reflexivity]).
Qed.

Lemma i8259_init_dev k : dev_frame k (i8259_init k).
Proof. unfold i8259_init. cbv zeta. repeat (etrans; [|apply dev_outb]). reflexivity. Qed.

Lemma init_rtc_dev k : dev_frame k (init_rtc k) /\ k_pic (init_rtc k) = unmasked 8 (k_pic k) /\
  (pic_synced k -> pic_synced (init_rtc k)).
Proof.
  unfold init_rtc. cbv zeta. set (k1 := outb (Z.lor NMI 0xB) RTC_DATA k). rewrite (inb_pair RTC_CMD k1).
  set (k3 := outb (Z.lor NMI 0xB) RTC_DATA (inb RTC_CMD k1).2).
  set (k4 := outb (Z.lor (s8 (inb RTC_CMD k1).1) REGBIT) RTC_CMD k3).
  assert (Hp : k_pic k4 = k_pic k) by reflexivity.
  assert (Hd : dev_frame k k4) by (unfold k4, k3, k1; etrans; [|apply dev_outb]; etrans; [|apply dev_outb];
    etrans; [|apply dev_inb]; apply dev_outb).
  assert (Hs : pic_synced k -> pic_synced k4).
  { intros H. unfold k4, k3, k1. apply outb_synced; [done|done|]. apply outb_synced; [done|done|].
    apply inb_synced. by apply outb_synced. }
  clearbody k4. destruct (enable_irq_dev IRQ_RTC k4) as [E1 E2]. change (8 <=? IRQ_RTC) with true. split; [by etrans|].
  split; [by rewrite E2, Hp|]. intros H. by apply enable_irq_synced, Hs.
Qed.

Lemma rtc_2_dev k : dev_frame k (rtc_set_freq 2 k).2 /\ k_pic (rtc_set_freq 2 k).2 = k_pic k /\
  rate (rtc_set_freq 2 k).2 = 14 /\ (pic_synced k -> pic_synced (rtc_set_freq 2 k).2).
Proof.
  set (k1 := outb (Z.lor NMI 0xA) RTC_DATA (set_rate 14 k)).
  set (k2 := outb 0x8A RTC_DATA (inb RTC_CMD k1).2).
  assert (E : (rtc_set_freq 2 k).2 = outb (Z.lor (Z.land (s8 (inb RTC_CMD k1).1) 0xF0) 14) RTC_CMD k2) by reflexivity.
  rewrite E. split; [|split; [reflexivity|split; [reflexivity|]]].
  - etrans; [|apply dev_outb]. unfold k2, k1. etrans; [|apply dev_outb]. etrans; [|apply dev_inb].
    etrans; [|apply dev_outb]. apply dev_rate.
  - intros H. apply outb_synced; [done|done|]. unfold k2, k1. apply outb_synced; [done|done|]. apply inb_synced.
    apply outb_synced; [done|done|]. by apply (pic_synced_ext k).
Qed.

(** ** The globals at reset *)

Definition zero_kb : keyboard := mkKeyboard 0 0 0 0 (replicate 128 0) 0 (replicate 5 0) (replicate 128 0).
Definition zero_sch : sched := mkSched (replicate 3 default_terminal) 0 0 0 0.

(** What init_keyboard makes of the terminals. *)
Definition keyed_sch : sched := mkSched [with_enter_flag 1 default_terminal; default_terminal; default_terminal] 0 0 0 0.

Lemma init_keyboard_run k : k_kb k = zero_kb -> k_sch k = zero_sch ->
  init_keyboard k = with_k_sch keyed_sch (enable_irq IRQ_KB k).
Proof.
  intros Ekb Esc. unfold init_keyboard. destruct (enable_irq_dev IRQ_KB k) as [Hd _]. unfold dev_frame in Hd.
  revert Hd. generalize (enable_irq IRQ_KB k) as k1. intros k1 ->. cbv zeta.
  set (k2 := with_k_io _ _). assert (E1 : k_kb k2 = zero_kb) by exact Ekb. assert (E2 : k_sch k2 = zero_sch) by exact Esc.
  clearbody k2. clear - E1 E2. assert (E : store_kb MAXCHAR 0 k2 = k2).
  { destruct k2. cbn in E1. subst k_kb. reflexivity. }
  rewrite E. destruct k2. cbn in E2. subst k_sch. reflexivity.
Qed.

(** The state in front of init_paging. *)
Definition keyed (io : io) (rt : rtc) (k : kernel) : kernel :=
  with_k_io io (with_k_pic (mkPic 0xF9 0xFE) (with_k_rtcs rt (with_k_sch keyed_sch (init_tss k)))).

Lemma devices_run k : k_pic k = mkPic 0xFB 0xFF -> k_kb k = zero_kb -> k_sch k = zero_sch ->
  exists io rt, init_keyboard (rtc_set_freq 2 (init_rtc (i8259_init (init_tss k)))).2 = keyed io rt k /\
    rate rt = 14 /\ pic_synced (keyed io rt k).
Proof.
  intros Ep Ekb Esc. set (kt := init_tss k).
  assert (Ept : k_pic kt = mkPic 0xFB 0xFF) by exact Ep.
  destruct (i8259_init_synced kt) as [S0 P0]; [rewrite Ept; cbn; lia|rewrite Ept; cbn; lia|].
  pose proof (i8259_init_dev kt) as D0. revert S0 P0 D0. generalize (i8259_init kt) as ka. intros ka S0 P0 D0.
  destruct (init_rtc_dev ka) as (D1 & P1 & S1). revert D1 P1 S1. generalize (init_rtc ka) as kb. intros kb D1 P1 S1.
  destruct (rtc_2_dev kb) as (D2 & P2 & R2 & S2). revert D2 P2 R2 S2. generalize (rtc_set_freq 2 kb).2 as kc.
  intros kc D2 P2 R2 S2. specialize (S2 (S1 S0)).
  assert (D : dev_frame kt kc) by (etrans; [exact D0|]; by etrans).
  assert (Ekc : k_kb kc = zero_kb) by (by rewrite D). assert (Esk : k_sch kc = zero_sch) by (by rewrite D).
  rewrite (init_keyboard_run kc Ekc Esk).
  destruct (enable_irq_dev IRQ_KB kc) as [D3 P3]. pose proof (enable_irq_synced IRQ_KB kc S2) as S3.
  assert (R3 : k_rtcs (enable_irq IRQ_KB kc) = k_rtcs kc) by reflexivity.
  revert D3 P3 S3 R3. generalize (enable_irq IRQ_KB kc) as kd. intros kd D3 P3 S3 R3.
  assert (D' : dev_frame kt kd) by (by etrans). rewrite P2, P1, P0, Ept in P3. unfold dev_frame in D'.
  rewrite P3 in D'. exists (k_io kd), (k_rtcs kd).
  assert (E : with_k_sch keyed_sch kd = keyed (k_io kd) (k_rtcs kd) k)
    by (etrans; [exact (f_equal (with_k_sch keyed_sch) D')|]; reflexivity).
  split; [exact E|]. split; [by rewrite R3|]. rewrite <- E. by apply (pic_synced_ext kd).
Qed.

(** ** The initialisation *)

(** The image's counters, as both halves of the file system read them. *)
Definition mounted (ms : Z) (k : kernel) : filesys :=
  mkFilesys ms (ld32 k ms) (ld32 k (u32 (ms + 4))) (ld32 k (u32 (ms + 8))) (u32 (ms + SIZEOF_DENTRY)) 1 (currDentry k).

Lemma mount_run ms k : pcb_filesys_init ms (filesys_init ms k) = with_k_fs (mounted ms k) k.
Proof. destruct k as [m i fl pc cn pi pg [] sc kb rt sy cp]. reflexivity. Qed.

(** What the initialisation needs of the state it starts in: the C initial
    values, and page tables at the addresses the linker gives them. *)
Record fresh_globals (k : kernel) : Prop := {
  fg_pcbs : k_pcbs k = replicate 6 default_PCB;
  fg_sch : k_sch k = zero_sch;
  fg_kb : k_kb k = zero_kb;
  fg_pic : k_pic k = mkPic 0xFB 0xFF;
  fg_paging : paging_wf k;
}.

(** The state init_terminals starts from, up to paging and the devices. *)
Definition powered (pg : paging) (io : io) (rt : rtc) (ms : Z) (k : kernel) : kernel :=
  mkKernel (k_mem k) io (k_faults k) (replicate 6 (inited_PCB default_PCB)) (k_con k) (mkPic 0xF9 0xFE) pg
    (mounted ms (with_k_pg pg k)) keyed_sch (k_kb k) rt
    (mkSys (currPid k) (currFD k) (ret_val k) (firstInstruct k) (storeargs k) (mkTss 0x800000 KERNEL_DS KERNEL_LDT))
    (mkCpu (cpu_esp k) (cpu_ebp k) true (ret_label k) (hdr_off k)).

Lemma ld32_mem_pg k k' a : k_mem k' = k_mem k -> k_pg k' = k_pg k -> ld32 k' a = ld32 k a.
Proof. intros E1 E2. unfold ld32. cbn [ld8 kernel_space]. unfold phys. by rewrite E1, E2. Qed.

Lemma mounted_ext ms k k' : k_mem k' = k_mem k -> k_pg k' = k_pg k -> k_fs k' = k_fs k -> mounted ms k' = mounted ms k.
Proof. intros E1 E2 E3. unfold mounted. by rewrite !(ld32_mem_pg k k'), E3 by done. Qed.

Lemma keyed_powered ms pg io rt k : fresh_globals k ->
  let k3 := sti (with_k_pg pg (keyed io rt k)) in
  init_PCB (with_k_fs (mounted ms k3) k3) = powered pg io rt ms k.
Proof.
  intros [Ep Es Ek _ _]. cbv zeta. rewrite (mounted_ext ms (with_k_pg pg k)) by reflexivity.
  unfold powered. generalize (mounted ms (with_k_pg pg k)) as fs'. intros fs'.
  set (k3 := with_k_fs _ _). assert (Ep3 : k_pcbs k3 = replicate 6 default_PCB) by exact Ep.
  destruct (init_PCB_run k3) as [E _].
  - by rewrite Ep3.
  - rewrite Ep3. apply (Forall_replicate _ 6%nat default_PCB). reflexivity.
  - rewrite E, Ep3. unfold k3. clear. destruct k as [me i fl pc cn pi pg0 fs sc kb r [] []]. reflexivity.
Qed.

Lemma powered_run ms k : fresh_globals k -> exists pg io rt,
  init_devices ms k = init_PIT STARTING_PIT_FREQUENCY (init_terminals (powered pg io rt ms k)) /\
  paging_ok 0 pg /\ rate rt = 14 /\ pic_synced (powered pg io rt ms k).
Proof.
  intros Hk. destruct (devices_run k (fg_pic _ Hk) (fg_kb _ Hk) (fg_sch _ Hk)) as (io & rt & E1 & R & S).
  assert (Hw1 : paging_wf (keyed io rt k)) by (exact (fg_paging _ Hk)).
  pose proof (init_paging_ok _ Hw1) as Hp. pose proof (init_paging_frame (keyed io rt k)) as Hf. unfold only_pg in Hf.
  pose proof (keyed_powered ms (k_pg (init_paging (keyed io rt k))) io rt k Hk) as Hpow.
  exists (k_pg (init_paging (keyed io rt k))), io, rt.
  assert (Ed : init_devices ms k = init_PIT STARTING_PIT_FREQUENCY (init_terminals (init_PCB (pcb_filesys_init ms
    (filesys_init ms (sti (init_paging (init_keyboard (rtc_set_freq 2 (init_rtc (i8259_init (init_tss k)))).2)))))))).
  { unfold init_devices. generalize (i8259_init (init_tss k)) as ka. intros ka. by destruct (rtc_set_freq 2 (init_rtc ka)). }
  rewrite E1, mount_run in Ed. split; [|split; [exact Hp|split; [exact R|exact S]]].
  cbv zeta in Hpow. rewrite <- Hf in Hpow. rewrite Hpow in Ed. exact Ed.
Qed.

Lemma init_PIT_run f k : exists io,
  init_PIT f k = set_pitIntrCount 0 (set_pitCount 0 (with_k_io io (with_k_pic (unmasked 0 (k_pic k)) k))) /\
  (pic_synced k -> pic_synced (init_PIT f k)).
Proof.
  eexists. split; [destruct k; reflexivity|]. intros H. unfold init_PIT. cbv zeta. apply enable_irq_synced.
  set (k1 := outb _ PIT0 _). apply (pic_synced_ext k1); [reflexivity|reflexivity|]. unfold k1.
  by repeat (apply outb_synced; [done|done|]).
Qed.

(** The state entry leaves for the first interrupt. *)
Record booted (fs : filesys) (k k' : kernel) : Prop := {
  bd_vt : vt_ok 0 k';
  bd_sched : visible k' = 0 /\ cur_terminal k' = 2 /\ pitCount k' = 0 /\ pitIntrCount k' = 0;
  bd_lines : forall i, 0 <= i < 3 -> at_line (vterm 0 k' i) = [] /\ at_hist (vterm 0 k' i) = [];
  bd_procs : procs_ok k' no_stacks;
  bd_paging : paging_ok 0 k';
  bd_fs : k_fs k' = fs;
  bd_mem : forall x, ~ video x -> ld8 (k_mem k') x = ld8 (k_mem k) x;
  bd_tss : tss k' = mkTss 0x800000 KERNEL_DS KERNEL_LDT;
  bd_cpu : k_cpus k' = mkCpu (cpu_esp k) (cpu_ebp k) true (ret_label k) (hdr_off k);
  bd_irqs : forall n, 0 <= n < 16 -> irq_enabled k' n = bool_decide (n ∈ [0; 1; 2; 8]);
  bd_pic : pic_synced k';
  bd_rate : rate k' = 14;
  bd_faults : k_faults k' = k_faults k;
}.

(** The processes are free and the terminals have none. *)
Lemma procs_ok_fresh k : k_pcbs k = replicate 6 (inited_PCB default_PCB) -> length (terminals k) = 3%nat ->
  0 <= cur_terminal k < 3 -> Forall (fun t => curr_process t = -1) (terminals k) -> procs_ok k no_stacks.
Proof.
  intros Ep El Ec Ht.
  assert (Hf : flag_ok (-1)) by (by right).
  assert (Hp : pcb_ok (inited_PCB default_PCB)).
  { split_and!; [reflexivity|exact Hf|]. apply (Forall_replicate _ 8%nat) in Hf. repeat constructor; by right. }
  split; try assumption.
  - rewrite Ep. split; [reflexivity|]. exact (Forall_replicate _ 6%nat _ Hp).
  - rewrite Ep. apply (Forall_replicate _ 6%nat (inited_PCB default_PCB)). reflexivity.
  - intros t Hr. destruct (aget_range_Some (terminals k) t) as [x E]; [lia|]. unfold get_terminal. rewrite E.
    exact (Forall_aget _ _ _ _ Ht E).
  - constructor.
  - intros pid Hpid. assert (E : pcb_in_use (get_PCB k pid) = -1).
    { unfold get_PCB. rewrite Ep.
      assert (pid = 0 \/ pid = 1 \/ pid = 2 \/ pid = 3 \/ pid = 4 \/ pid = 5) as [->|[->|[->|[->|[->| ->]]]]] by lia; reflexivity. }
    rewrite E. split; [discriminate|]. intros H. by apply elem_of_nil in H.
Qed.

Definition fresh_term (i : Z) : terminal_t := inited_terminal i (with_video_buffer (vbuf i) default_terminal).

Lemma keyed_terms : terminals keyed_sch = [with_enter_flag 1 default_terminal; default_terminal; default_terminal].
Proof. reflexivity. Qed.

Lemma init_terminals_powered k : paging_ok 0 k -> k_sch k = keyed_sch -> exists m,
  init_terminals k = with_k_sch (mkSched [fresh_term 0; fresh_term 1; fresh_term 2] 0 2 0 0) (with_k_mem m k) /\
  (forall x, ~ video x -> ld8 m x = ld8 (k_mem k) x).
Proof.
  intros Hp Es. assert (Et : terminals k = [with_enter_flag 1 default_terminal; default_terminal; default_terminal])
    by (by rewrite Es).
  destruct (init_terminals_eq k _ _ _ Hp Et) as (m & E & _ & Hm); [by repeat constructor|].
  exists m. split; [|exact Hm]. rewrite E. destruct k. cbn in Es. subst k_sch. reflexivity.
Qed.

(** The lines the two masks enable. *)
Lemma boot_masks n : 0 <= n < 16 ->
  irq_enabled (unmasked 0 (mkPic 0xF9 0xFE)) n = bool_decide (n ∈ [0; 1; 2; 8]).
Proof.
  intros Hn. apply eqb_prop.
  assert (H : forallb (fun i => Bool.eqb (irq_enabled (unmasked 0 (mkPic 0xF9 0xFE)) i) (bool_decide (i ∈ [0; 1; 2; 8])))
    (seqZ 0 16) = true) by (vm_compute; reflexivity).
  rewrite forallb_forall in H. apply H, list_elem_of_In, elem_of_seqZ. lia.
Qed.

Lemma init_devices_run ms k : fresh_globals k -> 0 <= screen_x k < 80 -> 0 <= screen_y k < 25 ->
  booted (mounted ms (with_k_pg (k_pg (init_devices ms k)) k)) k (init_devices ms k).
Proof.
  intros Hk Hx Hy. destruct (powered_run ms k Hk) as (pg & io & rt & E0 & Hp & Hr & Hs). rewrite E0. clear E0.
  set (kp := powered pg io rt ms k) in *.
  assert (Hkb : k_kb kp = zero_kb) by (exact (fg_kb _ Hk)).
  assert (Hlens : forall i t, aget (terminals kp) i = Some t -> length (t_buf_kb t) = 128%nat /\ length (prev_buf t) = 128%nat).
  { intros i t Et. refine (Forall_aget (fun t => length (t_buf_kb t) = 128%nat /\ length (prev_buf t) = 128%nat) _ i t _ Et).
    by repeat constructor. }
  destruct (init_terminals_vt kp Hp eq_refl Hlens (conj (paging_ok_mapped 0 kp Hp) (conj Hx Hy)) Hkb) as (Hvt & Hvis & Hcur & Hl).
  destruct (init_terminals_powered kp Hp eq_refl) as (m & E & Hm). rewrite E in *.
  set (k5 := with_k_sch _ _) in *. destruct (init_PIT_run STARTING_PIT_FREQUENCY k5) as (io' & E' & Hs').
  assert (Hs5 : pic_synced (init_PIT STARTING_PIT_FREQUENCY k5)) by (apply Hs'; by apply (pic_synced_ext kp)).
  rewrite E' in *. set (k6 := set_pitIntrCount 0 _) in *.
  destruct (vt_quiet 0 k5 k6 Hvt) as [Hvt6 Hv6]; try reflexivity.
  - intros i t Et. exists t. split; [exact Et|reflexivity].
  - change (paging_ok (screen_slot 0 k5) k5). apply (vo_paging _ _ Hvt).
  - split; try reflexivity.
    + exact Hvt6.
    + split_and!; reflexivity.
    + intros i Hi. rewrite Hv6 by exact Hi. by apply Hl.
    + apply procs_ok_fresh; [reflexivity|reflexivity|split; reflexivity || discriminate|by repeat constructor].
    + exact Hp.
    + exact Hm.
    + intros n Hn. unfold irq_enabled. change (k_pic k6) with (unmasked 0 (mkPic 0xF9 0xFE)). by apply boot_masks.
    + exact Hs5.
    + exact Hr.
Qed.

(** ** entry *)

(** A machine the kernel can be started on: the report ends, and the first module
    is a file-system image inside the kernel's page. *)
Record bootable (fuel : nat) (mbi ms : Z) (k : kernel) : Prop := {
  bb_globals : fresh_globals k;
  bb_mbi : mbi_ok fuel mbi k;
  bb_modules : CHECK_FLAG (mbi_flags mbi k) 3 = true;
  bb_excl : CHECK_FLAG (mbi_flags mbi k) 4 && CHECK_FLAG (mbi_flags mbi k) 5 = false;
  bb_mods : off_screen (mods_addr mbi k) 4;
  bb_start : ld32 k (mods_addr mbi k) = ms;
  bb_image : FOUR_MB <= ms /\ ms + image_size (with_k_fs (mounted ms k) k) <= 2 * FOUR_MB;
  bb_size : 4160 <= image_size (with_k_fs (mounted ms k) k);
}.

(** The file system that will be mounted. *)
Definition imaged (ms : Z) (k : kernel) : kernel := with_k_fs (mounted ms k) k.

Lemma shown_mem k k' x : shown k k' -> paging_on k = false -> ~ video x -> ld8 (k_mem k') x = ld8 (k_mem k) x.
Proof.
  intros Hs E Hx. pose proof (shown_unpaged k k' Hs E) as E'.
  rewrite <- (ld8_phys k' x x), <- (ld8_phys k x x) by (by apply phys_unpaged). destruct Hs as [b Hr].
  apply (cr_mem _ _ _ Hr). intros y Hy. simpl. intros p q.
  rewrite !phys_unpaged by done. intros [= <-] [= <-]. unfold video, span in *. lia.
Qed.

Lemma shown_frame k k' : shown k k' -> con_frame k k'.
Proof. intros [a H]. apply H. Qed.

Lemma clear_shown k : paging_on k = false -> shown k (clear k).
Proof. intros E. eexists. apply (clear_run k). by apply region_unpaged. Qed.

Lemma entry_run sy idt0 fuel mbi ms k : bootable fuel mbi ms k -> exists kr,
  entry sy idt0 fuel MULTIBOOT_BOOTLOADER_MAGIC mbi k =
    Some (Spins (mkTables (the_ldt_desc sy) (the_tss_desc sy) (setup_idt_inplace (sym_handler sy) idt0)), init_devices ms kr) /\
  shown k kr.
Proof.
  intros [_ Hm H3 H45 Hmo Hst _ _]. pose proof (mi_unpaged _ _ _ Hm) as E. pose proof (mi_apart _ _ _ Hm) as Ha.
  pose proof (clear_shown k E) as S0. unfold entry. cbv zeta. revert S0. generalize (clear k) as k0. intros k0 S0.
  change (negb (MULTIBOOT_BOOTLOADER_MAGIC =? MULTIBOOT_BOOTLOADER_MAGIC)) with false. cbv match.
  destruct (report_info_run fuel mbi k0 (shown_ok _ _ S0) (mbi_ok_shown _ _ _ _ S0 Hm)) as (k1 & -> & S1).
  assert (S01 : shown k k1) by (by eapply shown_trans). cbn [mbind option_bind].
  destruct (report_modules_run fuel mbi k1 (shown_ok _ _ S01) (mbi_ok_shown _ _ _ _ S01 Hm)) as (k2 & -> & S2).
  assert (S02 : shown k k2) by (by eapply shown_trans). cbn [mbind option_bind].
  rewrite !(shown_flags k k1), !(shown_flags k k2), H3, H45 by done.
  destruct (report_maps_run fuel mbi k2 (shown_ok _ _ S02) (mbi_ok_shown _ _ _ _ S02 Hm)) as (k3 & -> & S3).
  cbn [mbind option_bind]. exists k3. split; [|by eapply shown_trans].
  assert (Em : mods_addr mbi k1 = mods_addr mbi k) by (apply (shown_field k k1 mbi 24); (done || lia)).
  rewrite Em, (shown_ld32 k k1 (mods_addr mbi k) 4), Hst by (done || lia). reflexivity.
Qed.

(** The image's words, through either space. *)
Lemma mounted_kernel ms k k' : paging_on k = false -> paging_ok 0 k' -> FOUR_MB <= ms -> ms + 4160 <= 2 * FOUR_MB ->
  (forall x, ~ video x -> ld8 (k_mem k') x = ld8 (k_mem k) x) -> k_fs k' = k_fs k -> mounted ms k' = mounted ms k.
Proof.
  intros E Hp H1 H2 Hm Ef. unfold FOUR_MB in *.
  assert (H : forall a, ms <= a -> a + 4 <= ms + 12 -> ld32 k' a = ld32 k a).
  { intros a Ha Hb. apply ld32_ext; [lia|]. intros j Hj. rewrite u32_small by lia.
    rewrite (ld8_phys k' (a + j) (a + j)) by (apply (phys_kernel_page 0); [done|unfold kernel_page, span, FOUR_MB; lia]).
    rewrite (ld8_phys k (a + j) (a + j)) by (by apply phys_unpaged). apply Hm. unfold video, span, VIDEO. lia. }
  unfold mounted. rewrite (H ms), (H (u32 (ms + 4))), (H (u32 (ms + 8))), Ef by (rewrite ?u32_small; lia). reflexivity.
Qed.

Lemma entry_boots sy idt0 fuel mbi ms k : bootable fuel mbi ms k -> exists k',
  entry sy idt0 fuel MULTIBOOT_BOOTLOADER_MAGIC mbi k =
    Some (Spins (mkTables (the_ldt_desc sy) (the_tss_desc sy) (setup_idt_inplace (sym_handler sy) idt0)), k') /\
  booted (mounted ms k) k k'.
Proof.
  intros Hb. destruct (entry_run sy idt0 fuel mbi ms k Hb) as (kr & -> & S). exists (init_devices ms kr). split; [reflexivity|].
  pose proof (shown_frame k kr S) as F. pose proof (shown_ok k kr S) as (_ & Hx & Hy).
  pose proof (mi_unpaged _ _ _ (bb_mbi _ _ _ _ Hb)) as E.
  assert (Hm : forall x, ~ video x -> ld8 (k_mem kr) x = ld8 (k_mem k) x) by (intros x Hx'; by apply shown_mem).
  assert (Hg : fresh_globals kr) by (destruct (bb_globals _ _ _ _ Hb); split; rewrite F; assumption).
  assert (Hfs : k_fs kr = k_fs k) by (by rewrite F). assert (Hcpu : k_cpus kr = k_cpus k) by (by rewrite F).
  assert (Hfa : k_faults kr = k_faults k) by (by rewrite F).
  pose proof (init_devices_run ms kr Hg Hx Hy) as B. revert B. generalize (init_devices ms kr) as k'.
  intros k' [B1 B2 B3 B4 B5 B6 B7 B8 B9 B10 B11 B12 B13].
  pose proof (bb_image _ _ _ _ Hb) as [I1 I2]. pose proof (bb_size _ _ _ _ Hb) as I3.
  split; try assumption.
  - rewrite B6. apply mounted_kernel; try assumption; lia.
  - intros x Hx'. rewrite B7 by exact Hx'. by apply Hm.
  - by rewrite B9, Hcpu.
  - by rewrite B13.
Qed.

(** ** From the boot loader to three shells *)

(** A stack pointer the timer interrupts on that leaves execute's header buffer
    inside the kernel's page, beside the image. *)
Definition stack_ok (img : kernel) (esp : Z) : Prop :=
  let b := u32 (esp + hdr_off img) in
  FOUR_MB <= b /\ b + HEADERSIZE <= 2 * FOUR_MB /\ (b + HEADERSIZE <= start_addr img \/ start_addr img + image_size img <= b).

(** [n] shells have been started from the image [img]. *)
Record shells_up (n : Z) (st : Z -> list Z) (img k : kernel) : Prop := {
  su_count : pitCount k = n;
  su_cur : cur_terminal k = (n + 2) mod 3;
  su_vt : vt_ok (visible k) k;
  su_procs : procs_ok k st;
  su_lines : forall i, 0 <= i < 3 -> at_line (vterm (visible k) k i) = [];
  su_image : same_image img k;
  su_dentry : length (d_name (currDentry k)) = 32%nat;
  su_hdr : hdr_off k = hdr_off img;
}.

Lemma shells_up_esp n st img k esp : shells_up n st img k -> shells_up n st img (set_cpu_esp esp k).
Proof.
  intros [H1 H2 H3 H4 H5 H6 H7 H8]. split; try assumption.
  - destruct H3 as [[] B C D E]. split; [split; assumption|assumption..].
  - apply (procs_ok_quiet k); try apply H4; [reflexivity|split; reflexivity].
  - destruct H6. split; assumption.
Qed.

Lemma shells_up_exec n st img k : dir_in_image img -> FOUR_MB <= start_addr img ->
  start_addr img + image_size img <= 2 * FOUR_MB -> stack_ok img (cpu_esp k) -> shells_up n st img k -> exec_ok k.
Proof.
  intros [D1 D2 D3 D4] I1 I2 (S1 & S2 & S3) [H1 H2 H3 H4 H5 H6 H7 H8].
  pose proof (same_image_size _ _ H6) as Es. destruct H6 as [J1 J2 J3 J4 _]. unfold stack_ok in *. rewrite <- H8 in S1, S2, S3.
  split; unfold header_buf; rewrite ?Es, ?J1; try assumption; try apply H4.
  - exists (screen_slot (visible k) k). apply H3.
  - split; rewrite ?Es, ?J1, ?J4; assumption.
  - by split.
  - by split.
Qed.

Section Ticks.

Context (img : kernel) (i ino : Z).
Hypotheses (Hdir : dir_in_image img) (Hlow : FOUR_MB <= start_addr img)
  (Hhigh : start_addr img + image_size img <= 2 * FOUR_MB)
  (Hshell : program img shell_name i ino) (Hmagic : elf_magic img ino = true).

Definition shell_entry : outcome := User (elf_entry img ino) USER_CS 0x83FFFFC USER_DS.

(** One more tick. *)
Lemma tick_step n st k esp : 0 <= n < 3 -> shells_up n st img k -> fresh st n -> stack_ok img esp ->
  exists k', pit_handler (set_cpu_esp esp k) = Some (shell_entry, k') /\ boot_tick n i ino st (set_cpu_esp esp k) k' /\
    shells_up (n + 1) (push n n st) img k'.
Proof.
  intros Hn Hs%(shells_up_esp _ _ _ _ esp) Hf He. assert (He' : stack_ok img (cpu_esp (set_cpu_esp esp k))) by exact He.
  revert Hs He'. generalize (set_cpu_esp esp k) as k0. intros k0 Hs He'.
  pose proof (shells_up_exec n st img k0 Hdir Hlow Hhigh He' Hs) as Hx. destruct Hs as [H1 H2 H3 H4 H5 H6 H7 H8].
  destruct (program_image img k0 shell_name i ino Hdir H6 Hshell) as (Hp & M1 & M2). unfold shell_entry. rewrite <- M2.
  destruct (pit_boot_run n st k0 i ino Hn H1 H2 H3 Hx H4 Hf H5 Hp) as (k' & E & Ht); [by rewrite M1|].
  exists k'. split; [exact E|]. split; [exact Ht|]. destruct Ht as [T1 (T2 & T3 & T4) T5 T6 T7 T8 T9 T10 T11 T12 T13].
  split; [exact T2|rewrite T4; dlia|by rewrite T3|exact T1| |by etrans|exact T11|rewrite T12; exact H8].
  intros j Hj. rewrite T3. by apply T6.
Qed.

End Ticks.

(** One shell on each of the first terminals. *)
Definition shells (n : nat) : Z -> list Z :=
  match n with
  | O => no_stacks
  | 1%nat => push 0 0 no_stacks
  | 2%nat => push 1 1 (push 0 0 no_stacks)
  | _ => push 2 2 (push 1 1 (push 0 0 no_stacks))
  end.

Lemma fresh_shells : fresh (shells 0) 0 /\ fresh (shells 1) 1 /\ fresh (shells 2) 2.
Proof.
  unfold fresh, all_procs, shells, push; cbn. split_and!; try lia; try apply not_elem_of_nil.
  - rewrite list_elem_of_singleton. lia.
  - intros j Hj. apply list_elem_of_singleton. lia.
  - rewrite elem_of_cons, list_elem_of_singleton. lia.
  - intros j Hj. rewrite elem_of_cons, list_elem_of_singleton. lia.
Qed.

(** What entry leaves is the state before the first tick. *)
Lemma booted_up ms k k' : booted (mounted ms k) k k' -> paging_on k = false -> length (d_name (currDentry k)) = 32%nat ->
  FOUR_MB <= ms -> ms + image_size (imaged ms k) <= 2 * FOUR_MB -> shells_up 0 no_stacks (imaged ms k) k'.
Proof.
  intros [B1 (B2 & B3 & B4 & B5) B6 B7 B8 B9 B10 B11 B12 B13 B14 B15 B16] E Ed I1 I2.
  split; try assumption.
  - by rewrite B2.
  - intros i Hi. rewrite B2. by apply B6.
  - split; try (by rewrite B9). intros a Ha. unfold in_image, span in Ha. cbn in Ha. unfold FOUR_MB in *.
    rewrite (ld8_phys k' a a) by (apply (phys_kernel_page 0); [exact B8|unfold kernel_page, span, FOUR_MB; cbn in *; lia]).
    rewrite (ld8_phys (imaged ms k) a a) by (by apply phys_unpaged). apply B10. unfold video, span, VIDEO. lia.
  - by rewrite B9.
  - by rewrite B12.
Qed.

(** ** Correctness *)

(** C10: entered by a Multiboot loader with a file-system image as its first
    module, entry reaches its final loop and leaves what every later theorem
    starts from: the three virtual terminals with empty lines, terminal 0 shown
    and terminal 2 about to be left by the first tick, no process in use, the
    image's counters read, the initial address space, interrupts on with exactly
    the lines 0, 1, 2 and 8 enabled in both controllers, the clock at 2 Hz, and
    no byte outside video memory changed, without a fault. *)
Theorem boot_establishes sy idt0 fuel mbi ms k : bootable fuel mbi ms k -> exists k',
  entry sy idt0 fuel MULTIBOOT_BOOTLOADER_MAGIC mbi k =
    Some (Spins (mkTables (the_ldt_desc sy) (the_tss_desc sy) (setup_idt_inplace (sym_handler sy) idt0)), k') /\
  booted (mounted ms k) k k'.
Proof. apply entry_boots. Qed.

(** C9: from power-on to three shells: entry's state and three timer interrupts,
    wherever in the kernel's page they find the stack, each enter the shell of the
    image in user mode; afterwards every terminal has one process, terminal 2 is
    shown blank, the invariants hold, and nothing faulted but the first tick's
    store of process -1's stack pointers. *)
Theorem boot_three_shells sy idt0 fuel mbi ms k i ino e0 e1 e2 :
  bootable fuel mbi ms k -> length (d_name (currDentry k)) = 32%nat ->
  program (imaged ms k) shell_name i ino -> elf_magic (imaged ms k) ino = true ->
  stack_ok (imaged ms k) e0 -> stack_ok (imaged ms k) e1 -> stack_ok (imaged ms k) e2 ->
  let shell := shell_entry (imaged ms k) ino in
  exists t kb k0 k1 k2, entry sy idt0 fuel MULTIBOOT_BOOTLOADER_MAGIC mbi k = Some (Spins t, kb) /\
    pit_handler (set_cpu_esp e0 kb) = Some (shell, k0) /\ pit_handler (set_cpu_esp e1 k0) = Some (shell, k1) /\
    pit_handler (set_cpu_esp e2 k1) = Some (shell, k2) /\
    shells_up 3 (shells 3) (imaged ms k) k2 /\ visible k2 = 2 /\
    at_con (vterm 2 k2 2) = mkA (replicate 2000 blank) 0 0 /\
    aget (page_directory k2) 32 = Some (prog_entry 2) /\
    k_faults k2 = OobPCB (-1) :: OobPCB (-1) :: k_faults k.
Proof.
  intros Hb Hd Hp Hm S0 S1 S2. cbv zeta. destruct (entry_boots sy idt0 fuel mbi ms k Hb) as (kb & E & B).
  pose proof (bb_image _ _ _ _ Hb) as [I1 I2]. pose proof (bb_size _ _ _ _ Hb) as I3.
  pose proof (booted_up ms k kb B (mi_unpaged _ _ _ (bb_mbi _ _ _ _ Hb)) Hd I1 I2) as U.
  assert (Hdir : dir_in_image (imaged ms k)).
  { assert (I2' : ms + image_size (imaged ms k) <= 2 * FOUR_MB) by exact I2. unfold FOUR_MB in *. split.
    - change (0 <= ms). lia.
    - change (ms + image_size (imaged ms k) < 2 ^ 32). lia.
    - exact I3.
    - change (u32 (ms + SIZEOF_DENTRY) = ms + 64). unfold SIZEOF_DENTRY. apply u32_small.
      assert (I3' : 4160 <= image_size (imaged ms k)) by exact I3. lia. }
  destruct fresh_shells as (F0 & F1 & F2).
  destruct (tick_step (imaged ms k) i ino Hdir I1 I2 Hp Hm 0 _ kb e0 ltac:(lia) U F0 S0) as (k0 & E0 & T0 & U0).
  destruct (tick_step (imaged ms k) i ino Hdir I1 I2 Hp Hm 1 _ k0 e1 ltac:(lia) U0 F1 S1) as (k1 & E1 & T1 & U1).
  destruct (tick_step (imaged ms k) i ino Hdir I1 I2 Hp Hm 2 _ k1 e2 ltac:(lia) U1 F2 S2) as (k2 & E2 & T2 & U2).
  eexists _, kb, k0, k1, k2. split; [exact E|]. split; [exact E0|]. split; [exact E1|]. split; [exact E2|].
  split; [exact U2|]. split; [apply T2|]. split; [apply (bt_blank _ _ _ _ _ _ T2)|]. split; [apply (bt_page _ _ _ _ _ _ T2)|].
  pose proof (bt_faults _ _ _ _ _ _ T2) as X2. pose proof (bt_faults _ _ _ _ _ _ T1) as X1.
  pose proof (bt_faults _ _ _ _ _ _ T0) as X0. pose proof (bd_faults _ _ _ B) as X.
  rewrite X2. change (k_faults (set_cpu_esp e2 k1)) with (k_faults k1). change (cur_terminal (set_cpu_esp e2 k1)) with (cur_terminal k1).
  rewrite X1. change (k_faults (set_cpu_esp e1 k0)) with (k_faults k0). change (cur_terminal (set_cpu_esp e1 k0)) with (cur_terminal k0).
  rewrite X0. change (k_faults (set_cpu_esp e0 kb)) with (k_faults kb). rewrite X.
  rewrite (su_cur _ _ _ _ U0), (su_cur _ _ _ _ U1). reflexivity.
Qed.

(** without the loader's magic number, or with both exclusive flags set, entry
    writes to the screen and returns: nothing is initialised. *)
Theorem boot_refuses sy idt0 fuel magic mbi k : paging_on k = false -> (100 < fuel)%nat ->
  magic <> MULTIBOOT_BOOTLOADER_MAGIC \/
  mbi_ok fuel mbi k /\ CHECK_FLAG (mbi_flags mbi k) 4 && CHECK_FLAG (mbi_flags mbi k) 5 = true ->
  exists k', entry sy idt0 fuel magic mbi k = Some (Returned, k') /\ shown k k'.
Proof.
  intros E Hf H. pose proof (clear_shown k E) as S0. unfold entry. cbv zeta. revert S0. generalize (clear k) as k0.
  intros k0 S0. destruct (Z.eqb_spec magic MULTIBOOT_BOOTLOADER_MAGIC) as [->|Hne]; cbn [negb].
  - destruct H as [H|[Hm H45]]; [by destruct H|]. pose proof (mi_apart _ _ _ Hm) as Ha.
    destruct (report_info_run fuel mbi k0 (shown_ok _ _ S0) (mbi_ok_shown _ _ _ _ S0 Hm)) as (k1 & -> & S1).
    assert (S01 : shown k k1) by (by eapply shown_trans). cbn [mbind option_bind].
    destruct (report_modules_run fuel mbi k1 (shown_ok _ _ S01) (mbi_ok_shown _ _ _ _ S01 Hm)) as (k2 & -> & S2).
    assert (S02 : shown k k2) by (by eapply shown_trans). cbn [mbind option_bind].
    rewrite !(shown_flags k k2), H45 by done.
    destruct (say_run fuel (ln "Both bits 4 and 5 are set.") [] k2 (shown_ok _ _ S02) eq_refl) as (k3 & -> & S3); [cbn; lia|].
    exists k3. split; [reflexivity|by eapply shown_trans].
  - destruct (say_run fuel (ln "Invalid magic number: 0x%#x") [magic] k0 (shown_ok _ _ S0) eq_refl) as (k1 & -> & S1); [cbn; lia|].
    exists k1. split; [reflexivity|by eapply shown_trans].
Qed.

(** ** Witnesses *)

(** The boot loader's information: memory sizes, a boot device, one module, the
    shell's image, and a memory map of one entry. *)
Definition boot_mem : gmap Z Z :=
  shell_image ∪ bytes_from 0x9000 [0x4B; 0; 0; 0] ∪ bytes_from 0x9014 [1; 0; 0; 0; 0; 0x91; 0; 0] ∪
  bytes_from 0x902C [24; 0; 0; 0; 0; 0x92; 0; 0] ∪ bytes_from 0x9100 [0; 0; 0x50; 0; 0; 0x40; 0x50; 0] ∪
  bytes_from 0x9200 [20; 0; 0; 0].

Definition demo_reset : kernel := kernel_reset boot_mem (fun _ _ => 0) 0x420000 0x421000 0x401000.

Lemma demo_mbi : mbi_ok 200 0x9000 demo_reset.
Proof.
  split.
  - reflexivity.
  - unfold off_screen, VIDEO. lia.
  - lia.
  - intros H. exfalso. revert H. vm_compute. discriminate.
  - intros _. vm_compute. reflexivity.
  - intros _. exists 1%nat. split; [lia|]. change (mmap_addr 36864 demo_reset) with 0x9200. apply mmap_next.
    + unfold off_screen, VIDEO. lia.
    + apply mmap_last. vm_compute. congruence.
Qed.

Lemma demo_bootable : bootable 200 0x9000 0x500000 demo_reset.
Proof.
  split; try (vm_compute; reflexivity).
  - split; try reflexivity. vm_compute. repeat split; congruence.
  - exact demo_mbi.
  - assert (E : mods_addr 0x9000 demo_reset = 0x9100) by (vm_compute; reflexivity). rewrite E. unfold off_screen, VIDEO. lia.
  - vm_compute. split; congruence.
  - vm_compute. congruence.
Qed.

Definition demo_symbols : symbols := mkSym 0x401000 0x402000 (fun _ => 0x403000).

Lemma boot_establishes_witness : exists t k', entry demo_symbols (replicate 256 zero_gate) 200 0x2BADB002 0x9000 demo_reset =
  Some (Spins t, k') /\ procs_ok k' no_stacks /\ intr_on k' = true /\ start_addr k' = 0x500000.
Proof.
  destruct (boot_establishes demo_symbols (replicate 256 zero_gate) 200 0x9000 0x500000 demo_reset demo_bootable) as (k' & E & B).
  eexists _, k'. split; [exact E|]. split; [apply (bd_procs _ _ _ B)|]. split; [by rewrite (bd_cpu _ _ _ B)|].
  by rewrite (bd_fs _ _ _ B).
Defined.

Lemma demo_imaged_program : program (imaged 0x500000 demo_reset) shell_name 1 0.
Proof.
  split.
  - split; [lia|]. split; [vm_compute; reflexivity|]. intros j Hj. assert (j = 0) as -> by lia. vm_compute. congruence.
  - vm_compute. reflexivity.
  - apply (file_ok_intro _ _ 1); vm_compute; try reflexivity; repeat split; congruence.
  - vm_compute. congruence.
Qed.

Lemma demo_stack : stack_ok (imaged 0x500000 demo_reset) 0x7FFE00.
Proof. split; [vm_compute; congruence|]. split; [vm_compute; congruence|]. right. vm_compute. congruence. Qed.

Lemma boot_three_shells_witness : exists k2, shells_up 3 (shells 3) (imaged 0x500000 demo_reset) k2 /\ visible k2 = 2 /\
  k_faults k2 = [OobPCB (-1); OobPCB (-1)].
Proof.
  destruct (boot_three_shells demo_symbols (replicate 256 zero_gate) 200 0x9000 0x500000 demo_reset 1 0 0x7FFE00 0x7FFE00 0x7FFE00
    demo_bootable eq_refl demo_imaged_program) as (t & kb & k0 & k1 & k2 & _ & _ & _ & _ & H & V & _ & _ & F);
    [vm_compute; reflexivity|exact demo_stack|exact demo_stack|exact demo_stack|].
  exists k2. split; [exact H|]. split; [exact V|exact F].
Defined.

Lemma boot_refuses_witness : exists k', entry demo_symbols (replicate 256 zero_gate) 200 0 0x9000 demo_reset = Some (Returned, k').
Proof.
  destruct (boot_refuses demo_symbols (replicate 256 zero_gate) 200 0 0x9000 demo_reset eq_refl) as (k' & E & _);
    [lia|by left|]. exists k'. exact E.
Defined.

(** ** The processor's reading of a segment descriptor *)

Definition seg_base (d : seg_desc_t) : Z := base_15_00 d + base_23_16 d * 2 ^ 16 + base_31_24 d * 2 ^ 24.

(** In bytes, or in pages when the granularity bit is set. *)
Definition seg_last (d : seg_desc_t) : Z :=
  let lim := seg_lim_15_00 d + seg_lim_19_16 d * 2 ^ 16 in
  if sd_granularity d =? 0 then lim else lim * 4096 + 4095.

(** Every field fits its width. *)
Definition seg_fits (d : seg_desc_t) : Prop :=
  0 <= seg_lim_15_00 d < 2 ^ 16 /\ 0 <= base_15_00 d < 2 ^ 16 /\ 0 <= base_23_16 d < 2 ^ 8 /\ 0 <= sd_type d < 2 ^ 4 /\
  0 <= sd_sys d < 2 /\ 0 <= sd_dpl d < 4 /\ 0 <= sd_present d < 2 /\ 0 <= seg_lim_19_16 d < 2 ^ 4 /\
  0 <= sd_avail d < 2 /\ 0 <= sd_reserved d < 2 /\ 0 <= sd_opsize d < 2 /\ 0 <= sd_granularity d < 2 /\ 0 <= base_31_24 d < 2 ^ 8.

Lemma field_bits a s w : 0 <= s -> 0 <= w -> Z.shiftr (Z.land a (Z.shiftl (Z.ones w) s)) s = a / 2 ^ s mod 2 ^ w.
Proof.
  intros Hs Hw. rewrite Z.shiftr_land, Z.shiftr_shiftl_l, Z.sub_diag, Z.shiftl_0_r by lia.
  by rewrite Z.land_ones, Z.shiftr_div_pow2 by lia.
Qed.

Lemma set_params_fields addr lim d : set_params addr lim d =
  mkSeg (lim mod 2 ^ 16) (addr mod 2 ^ 16) (addr / 2 ^ 16 mod 2 ^ 8) (sd_type d) (sd_sys d) (sd_dpl d) (sd_present d)
    (lim / 2 ^ 16 mod 2 ^ 4) (sd_avail d) (sd_reserved d) (sd_opsize d) (sd_granularity d) (addr / 2 ^ 24 mod 2 ^ 8).
Proof.
  unfold set_params. change 0x0000FFFF with (Z.ones 16). change 0x00FF0000 with (Z.shiftl (Z.ones 8) 16).
  change 0x000F0000 with (Z.shiftl (Z.ones 4) 16). change 0xFF000000 with (Z.shiftl (Z.ones 8) 24).
  rewrite !field_bits, !Z.land_ones by lia. reflexivity.
Qed.

Lemma set_params_run addr lim d : 0 <= addr < 2 ^ 32 -> 0 <= lim < 2 ^ 20 ->
  seg_base (set_params addr lim d) = addr /\ (sd_granularity d = 0 -> seg_last (set_params addr lim d) = lim).
Proof.
  intros Ha Hl. rewrite set_params_fields. unfold seg_base, seg_last.
  cbn [base_15_00 base_23_16 base_31_24 seg_lim_15_00 seg_lim_19_16 sd_granularity].
  split; [|intros ->; change (0 =? 0) with true; cbv match];
    change (2 ^ 4) with 16; change (2 ^ 8) with 256; change (2 ^ 16) with 65536; change (2 ^ 24) with 16777216;
    change (2 ^ 32) with 4294967296 in *; change (2 ^ 20) with 1048576 in *; dlia.
Qed.

(** C31: the descriptors entry puts in the table fit their fields, whatever the
    link addresses are, and the processor reads back from them the table's
    address and its last byte: the task state is the 104 bytes from &tss,
    present, of type 9 (available 32-bit TSS) and privilege level 0, the local
    table is four entries of type 2. *)
Theorem descriptors_fit sy : 0 <= sym_ldt sy < 2 ^ 32 -> 0 <= sym_tss sy < 2 ^ 32 ->
  seg_fits (the_ldt_desc sy) /\ seg_fits (the_tss_desc sy) /\
  seg_base (the_ldt_desc sy) = sym_ldt sy /\ seg_last (the_ldt_desc sy) = 4 * 8 - 1 /\
  seg_base (the_tss_desc sy) = sym_tss sy /\ seg_last (the_tss_desc sy) = TSS_SIZE - 1 /\
  sd_type (the_tss_desc sy) = 9 /\ sd_present (the_tss_desc sy) = 1 /\ sd_dpl (the_tss_desc sy) = 0 /\
  sd_type (the_ldt_desc sy) = 2 /\ sd_present (the_ldt_desc sy) = 1.
Proof.
  intros Hl Ht. unfold the_ldt_desc, the_tss_desc, SET_LDT_PARAMS, SET_TSS_PARAMS.
  set (d1 := mkSeg _ _ _ _ _ _ _ _ _ _ _ _ _). set (d2 := mkSeg _ _ _ 9 _ _ _ _ _ _ _ _ _).
  destruct (set_params_run (sym_ldt sy) ldt_size d1 Hl ltac:(unfold ldt_size; lia)) as [B1 L1].
  destruct (set_params_run (sym_tss sy) tss_size d2 Ht ltac:(unfold tss_size; lia)) as [B2 L2].
  rewrite B1, B2, (L1 eq_refl), (L2 eq_refl). rewrite !set_params_fields. unfold seg_fits. cbn -[Z.div Z.modulo Z.pow].
  split_and!; try reflexivity; try lia; try apply Z.mod_pos_bound; lia.
Qed.

Lemma descriptors_fit_witness : seg_base (the_tss_desc (mkSym 0x401000 0x402000 (fun _ => 0x403000))) = 0x402000.
Proof.
  destruct (descriptors_fit (mkSym 0x401000 0x402000 (fun _ => 0x403000))) as (_ & _ & _ & _ & E & _); [cbn; lia|cbn; lia|exact E].
Defined.
