(* ===== verification/User.v ===== *)
(** * The user programs (syscalls/)

    The library of the programs (ece391support.c, ece391syscall.S) and the
    programs themselves, on the system calls of Syscall.v.  A program runs in the
    address space of its process: its variables and string literals are bytes at
    addresses the compiler and linker choose.  Registers and stack frames are not
    modelled, and every loop without a bound in the code takes fuel. *)

From Stdlib Require Import ZArith Lia.
From Stdlib Require Import String.
From stdpp Require Import base numbers list gmap.
From S2P Require Import Prelude Memory LibMem LibStr State Machine Paging Console Pcb Filesys Fdt Schedule Terminal Vterm Keyboard Execute Halt Pit Syscall.

Open Scope Z_scope.
Implicit Types k : kernel.

(** ** ece391sysnum.h *)

Definition SYS_HALT : Z := 1.
Definition SYS_EXECUTE : Z := 2.
Definition SYS_READ : Z := 3.
Definition SYS_WRITE : Z := 4.
Definition SYS_OPEN : Z := 5.
Definition SYS_CLOSE : Z := 6.
Definition SYS_GETARGS : Z := 7.
Definition SYS_VIDMAP : Z := 8.
Definition SYS_SET_HANDLER : Z := 9.
Definition SYS_SIGRETURN : Z := 10.

Section Programs.

(** The interrupts that arrive while a read of the terminal or the clock blocks,
    what a refused read leaves in EAX, the addresses of the string literals, and
    the fuel of the loops. *)
Context (irqs : list (kernel -> kernel)) (junk : Z) (str : string -> Z) (fuel : nat).

(** ** The library *)

(** DO_CALL: the interrupt and what it leaves.  A call with fewer than three
    arguments loads the words above them on the stack as well; they stand as 0,
    and no such call reads them (unread_registers). *)
Definition DO_CALL (number ebx ecx edx : Z) (k : kernel) : option (outcome * kernel) :=
  syscall_handler_asm irqs fuel junk (mkRegs number (u32 ebx) (u32 ecx) (u32 edx)) k.

(** A call that returns to the program. *)
Definition call (number ebx ecx edx : Z) (k : kernel) : option (Z * kernel) :=
  '((o, k) : outcome * kernel) ← DO_CALL number ebx ecx edx k;
  match o with Ret v => Some (v, k) | _ => None end.

Definition ece391_execute (command : Z) (k : kernel) : option (outcome * kernel) := DO_CALL SYS_EXECUTE command 0 0 k.
Definition ece391_read (fd buf nbytes : Z) (k : kernel) : option (Z * kernel) := call SYS_READ fd buf nbytes k.
Definition ece391_write (fd buf nbytes : Z) (k : kernel) : option (Z * kernel) := call SYS_WRITE fd buf nbytes k.
Definition ece391_open (filename : Z) (k : kernel) : option (Z * kernel) := call SYS_OPEN filename 0 0 k.
Definition ece391_close (fd : Z) (k : kernel) : option (Z * kernel) := call SYS_CLOSE fd 0 0 k.
Definition ece391_getargs (buf nbytes : Z) (k : kernel) : option (Z * kernel) := call SYS_GETARGS buf nbytes 0 k.
Definition ece391_vidmap (screen_start : Z) (k : kernel) : option (Z * kernel) := call SYS_VIDMAP screen_start 0 0 k.
Definition ece391_set_handler (signum h : Z) (k : kernel) : option (Z * kernel) := call SYS_SET_HANDLER signum h 0 k.

(** _start: main's result becomes the status. *)
Definition start (main : kernel -> option (Z * kernel)) (k : kernel) : option (outcome * kernel) :=
  '((r, k) : Z * kernel) ← main k; DO_CALL SYS_HALT r 0 0 k.

Fixpoint ece391_strlen_loop (n : nat) (s len : Z) (k : kernel) : option Z :=
  match n with
  | O => None
  | S n => if ld8 k s =? 0 then Some len else ece391_strlen_loop n (u32 (s + 1)) (u32 (len + 1)) k
  end.

Definition ece391_strlen (s : Z) (k : kernel) : option Z := ece391_strlen_loop fuel s 0 k.

Fixpoint ece391_strcpy_loop (n : nat) (dst src : Z) (k : kernel) : option kernel :=
  match n with
  | O => None
  | S n =>
      let c := ld8 k src in
      let k := st8 dst c k in
      if c =? 0 then Some k else ece391_strcpy_loop n (u32 (dst + 1)) (u32 (src + 1)) k
  end.

Definition ece391_strcpy (dst src : Z) (k : kernel) : option kernel := ece391_strcpy_loop fuel dst src k.

Definition ece391_fdputs (fd s : Z) (k : kernel) : option kernel :=
  n ← ece391_strlen s k;
  '((_, k) : Z * kernel) ← ece391_write fd s n k;
  Some k.

Fixpoint ece391_strcmp_loop (n : nat) (s1 s2 : Z) (k : kernel) : option Z :=
  match n with
  | O => None
  | S n =>
      if ld8 k s1 =? ld8 k s2 then
        if ld8 k s1 =? 0 then Some 0 else ece391_strcmp_loop n (u32 (s1 + 1)) (u32 (s2 + 1)) k
      else Some (ld8 k s1 - ld8 k s2)
  end.

Definition ece391_strcmp (s1 s2 : Z) (k : kernel) : option Z := ece391_strcmp_loop fuel s1 s2 k.

(** [m] counts down from [n]. *)
Fixpoint ece391_strncmp_loop (m : nat) (s1 s2 n : Z) (k : kernel) : option Z :=
  match m with
  | O => None
  | S m =>
      if ld8 k s1 =? ld8 k s2 then
        if ld8 k s1 =? 0 then Some 0
        else if n - 1 =? 0 then Some 0
        else ece391_strncmp_loop m (u32 (s1 + 1)) (u32 (s2 + 1)) (n - 1) k
      else Some (ld8 k s1 - ld8 k s2)
  end.

Definition ece391_strncmp (s1 s2 n : Z) (k : kernel) : option Z :=
  if n =? 0 then Some 0 else ece391_strncmp_loop fuel s1 s2 n k.

(** The swap loop is that of lib.c. *)
Definition ece391_strrev (s : Z) (k : kernel) : option kernel :=
  len ← ece391_strlen s k;
  let fin := s32 (len - 1) in
  if fin <=? 0 then Some k else Some (strrev_loop (Z.to_nat len) s 0 fin k).

(** The digit loop is that of lib.c. *)
Definition ece391_itoa (value buf radix : Z) (k : kernel) : option kernel :=
  if value =? 0 then Some (st8 (u32 (buf + 1)) 0 (st8 buf 48 k))
  else
    '((newbuf, k) : Z * kernel) ← itoa_loop 32 value buf radix k;
    ece391_strrev buf (st8 newbuf 0 k).

(** A literal on the standard output. *)
Definition puts1 (s : string) (k : kernel) : option kernel := ece391_fdputs 1 (str s) k.

(** [buf[i] = c] *)
Definition store (buf i c : Z) (k : kernel) : kernel := st8 (u32 (buf + i)) c k.
Definition load8 (buf i : Z) (k : kernel) : Z := ld8 k (u32 (buf + i)).

(** ** cat *)

Fixpoint cat_loop (n : nat) (fd buf : Z) (k : kernel) : option (Z * kernel) :=
  match n with
  | O => None
  | S n =>
      '((cnt, k) : Z * kernel) ← ece391_read fd buf 1024 k;
      if cnt =? 0 then Some (0, k)
      else if cnt =? -1 then k ← puts1 "file read failed\n" k; Some (3, k)
      else
        '((r, k) : Z * kernel) ← ece391_write 1 buf cnt k;
        if r =? -1 then Some (3, k) else cat_loop n fd buf k
  end.

Definition cat (buf : Z) (k : kernel) : option (Z * kernel) :=
  '((r, k) : Z * kernel) ← ece391_getargs buf 1024 k;
  if negb (0 =? r) then k ← puts1 "could not read arguments\n" k; Some (3, k)
  else
    '((fd, k) : Z * kernel) ← ece391_open buf k;
    if fd =? -1 then k ← puts1 "file not found\n" k; Some (2, k)
    else cat_loop fuel fd buf k.

(** ** ls *)

Definition SBUFSIZE : Z := 33.

Fixpoint ls_loop (n : nat) (fd buf : Z) (k : kernel) : option (Z * kernel) :=
  match n with
  | O => None
  | S n =>
      '((cnt, k) : Z * kernel) ← ece391_read fd buf (SBUFSIZE - 1) k;
      if cnt =? 0 then Some (0, k)
      else if cnt =? -1 then k ← puts1 "directory entry read failed\n" k; Some (3, k)
      else
        let k := store buf cnt 10 k in
        '((r, k) : Z * kernel) ← ece391_write 1 buf (cnt + 1) k;
        if r =? -1 then Some (3, k) else ls_loop n fd buf k
  end.

Definition ls (buf : Z) (k : kernel) : option (Z * kernel) :=
  '((fd, k) : Z * kernel) ← ece391_open (str ".") k;
  if fd =? -1 then k ← puts1 "directory open failed\n" k; Some (2, k)
  else ls_loop fuel fd buf k.

(** ** hello and testprint *)

Definition BUFSIZE : Z := 1024.

Definition hello (buf : Z) (k : kernel) : option (Z * kernel) :=
  k ← puts1 "Hi, what's your name? " k;
  '((cnt, k) : Z * kernel) ← ece391_read 0 buf (BUFSIZE - 1) k;
  if cnt =? -1 then k ← puts1 "Can't read name from keyboard.\n" k; Some (3, k)
  else
    let k := store buf cnt 0 k in
    k ← puts1 "Hello, " k;
    k ← ece391_fdputs 1 buf k;
    Some (0, k).

Definition testprint (k : kernel) : option (Z * kernel) :=
  k ← puts1 "Hello, if this ran, the program was correct. Yay!\n" k; Some (0, k).

(** ** counter *)

Fixpoint count_loop (n : nat) (i max buf : Z) (k : kernel) : option kernel :=
  match n with
  | O => None
  | S n =>
      if i <? max then
        k ← ece391_itoa (u32 (i + 1)) buf 10 k;
        k ← ece391_fdputs 1 buf k;
        k ← puts1 "\n" k;
        count_loop n (u32 (i + 1)) max buf k
      else Some k
  end.

(** The bound of the choice typed; another character keeps the initial 0. *)
Definition count_max (c : Z) : Z := if c =? 48 then 100 else if c =? 49 then 10000 else if c =? 50 then 100000 else 0.

Definition counter (buf : Z) (k : kernel) : option (Z * kernel) :=
  k ← puts1 "Enter the Test Number: (0): 100, (1): 10000, (2): 100000\n" k;
  '((cnt, k) : Z * kernel) ← ece391_read 0 buf (BUFSIZE - 1) k;
  if cnt =? -1 then k ← puts1 "Can't read the number from keyboard.\n" k; Some (3, k)
  else
    let k := store buf cnt 0 k in
    len ← ece391_strlen buf k;
    let c := load8 buf 0 k in
    if (2 <? len) || ((len =? 2) && ((c <? 48) || (50 <? c))) then k ← puts1 "Wrong Choice!\n" k; Some (0, k)
    else k ← count_loop fuel 0 (count_max c) buf k; Some (0, k).

(** ** shell *)

(** A round of the loop goes on, ends the program, or has left it for the
    program it started. *)
Inductive round := Again | Done (r : Z) | Left (o : outcome).

(** What is said of the value execute returns. *)
Definition shell_report (rval : Z) (k : kernel) : option kernel :=
  if rval =? -1 then puts1 "no such command\n" k
  else if rval =? 256 then puts1 "program terminated by exception\n" k
  else if negb (rval =? 0) then puts1 "program terminated abnormally\n" k
  else Some k.

(** On the line in the buffer. *)
Definition shell_run (buf : Z) (k : kernel) : option (round * kernel) :=
  c ← ece391_strcmp buf (str "exit") k;
  if c =? 0 then Some (Done 0, k)
  else if load8 buf 0 k =? 0 then Some (Again, k)
  else
    '((o, k) : outcome * kernel) ← ece391_execute buf k;
    match o with
    | Ret rval => k ← shell_report rval k; Some (Again, k)
    | _ => Some (Left o, k)
    end.

(** The newline at the end is dropped. *)
Definition shell_line (buf cnt : Z) (k : kernel) : kernel :=
  let cnt := if (0 <? cnt) && (load8 buf (cnt - 1) k =? 10) then cnt - 1 else cnt in
  store buf cnt 0 k.

Definition shell_round (buf : Z) (k : kernel) : option (round * kernel) :=
  k ← puts1 "391OS> " k;
  '((cnt, k) : Z * kernel) ← ece391_read 0 buf (BUFSIZE - 1) k;
  if cnt =? -1 then k ← puts1 "read from keyboard failed\n" k; Some (Done 3, k)
  else shell_run buf (shell_line buf cnt k).

Fixpoint shell_loop (n : nat) (buf : Z) (k : kernel) : option (round * kernel) :=
  match n with
  | O => None
  | S n =>
      '((r, k) : round * kernel) ← shell_round buf k;
      match r with Again => shell_loop n buf k | _ => Some (r, k) end
  end.

Definition shell (buf : Z) (k : kernel) : option (round * kernel) :=
  k ← puts1 "Starting 391 Shell\n" k; shell_loop fuel buf k.

(** ** grep *)

(** The end of the line: a newline, or [last]. *)
Fixpoint scan_line (n : nat) (data line_end last : Z) (k : kernel) : option Z :=
  match n with
  | O => None
  | S n =>
      if (line_end <? last) && negb (load8 data line_end k =? 10) then scan_line n data (line_end + 1) last k
      else Some line_end
  end.

(** The search of one line, which is printed at its first match; the first
    character is compared as a signed char with an unsigned one. *)
Fixpoint grep_line (n : nat) (s s_len fname data line_start line_end check : Z) (k : kernel) : option kernel :=
  match n with
  | O => None
  | S n =>
      if check <? line_end then
        hit ← (if s8 (ld8 k s) =? load8 data check k
               then c ← ece391_strncmp (u32 (data + check)) s s_len k; Some (c =? 0) else Some false);
        if (hit : bool) then
          k ← ece391_fdputs 1 fname k;
          k ← puts1 ":" k;
          k ← ece391_fdputs 1 (u32 (data + line_start)) k;
          puts1 "\n" k
        else grep_line n s s_len fname data line_start line_end (check + 1) k
      else Some k
  end.

(** The lines of the buffer; the value is the new [last]. *)
Fixpoint grep_lines (n : nat) (s s_len fname data cnt line_start last : Z) (k : kernel) : option (Z * kernel) :=
  match n with
  | O => None
  | S n =>
      line_end ← scan_line fuel data line_start last k;
      if negb (load8 data line_end k =? 10) && negb (cnt =? 0) && negb (line_start =? 0) then
        k ← ece391_strcpy data (u32 (data + line_start)) (store data line_end 0 k);
        Some (last - line_start, k)
      else
        k ← grep_line fuel s s_len fname data line_start line_end line_start (store data line_end 0 k);
        if last <=? line_end + 1 then Some (0, k)
        else grep_lines n s s_len fname data cnt (line_end + 1) last k
  end.

Fixpoint grep_file (n : nat) (s s_len fname data fd last : Z) (k : kernel) : option (Z * kernel) :=
  match n with
  | O => None
  | S n =>
      '((cnt, k) : Z * kernel) ← ece391_read fd (u32 (data + last)) (BUFSIZE - last) k;
      if cnt =? -1 then k ← puts1 "file read failed\n" k; Some (-1, k)
      else
        '((last, k) : Z * kernel) ← grep_lines fuel s s_len fname data cnt 0 (last + cnt) k;
        if cnt =? 0 then
          '((r, k) : Z * kernel) ← ece391_close fd k;
          if r =? -1 then k ← puts1 "file close failed\n" k; Some (-1, k) else Some (0, k)
        else grep_file n s s_len fname data fd last k
  end.

Definition do_one_file (s fname data : Z) (k : kernel) : option (Z * kernel) :=
  s_len ← ece391_strlen s k;
  '((fd, k) : Z * kernel) ← ece391_open fname k;
  if fd =? -1 then k ← puts1 "file open failed\n" k; Some (-1, k)
  else grep_file fuel s s_len fname data fd 0 k.

Fixpoint grep_loop (n : nat) (fd buf search data : Z) (k : kernel) : option (Z * kernel) :=
  match n with
  | O => None
  | S n =>
      '((cnt, k) : Z * kernel) ← ece391_read fd buf (SBUFSIZE - 1) k;
      if cnt =? 0 then Some (0, k)
      else if cnt =? -1 then k ← puts1 "directory entry read failed\n" k; Some (3, k)
      else if load8 buf 0 k =? 46 then grep_loop n fd buf search data k
      else
        '((r, k) : Z * kernel) ← do_one_file search buf data (store buf cnt 0 k);
        if negb (r =? 0) then Some (3, k) else grep_loop n fd buf search data k
  end.

Definition grep (buf search data : Z) (k : kernel) : option (Z * kernel) :=
  '((r, k) : Z * kernel) ← ece391_getargs search BUFSIZE k;
  if negb (0 =? r) then k ← puts1 "could not read argument\n" k; Some (3, k)
  else
    '((fd, k) : Z * kernel) ← ece391_open (str ".") k;
    if fd =? -1 then k ← puts1 "directory open failed\n" k; Some (2, k)
    else grep_loop fuel fd buf search data k.

(** ** pingpong *)

Definition SCREENWIDTH : Z := 79.
Definition ENDING : Z := 2.
Definition BUFMAX : Z := SCREENWIDTH + ENDING.
Definition START : Z := 1.
Definition STARTLOOP : Z := START + 1.
(** LOOPMAX is [BUFMAX-ENDING-1] by text: [79+2-2-1]. *)
Definition LOOPMAX : Z := SCREENWIDTH + ENDING - ENDING - 1.
Definition STARTCHAR : Z := 65.
Definition ENDCHAR : Z := 90.

(** One frame with the ball at [j], and the wait for the clock. *)
Definition pong_frame (rtc_fd garbage buf curchar j : Z) (k : kernel) : option kernel :=
  let k := for_range STARTLOOP LOOPMAX (fun i k => store buf i 32 k) k in
  let k := store buf j curchar k in
  k ← ece391_fdputs 1 buf k;
  '((_, k) : Z * kernel) ← ece391_read rtc_fd garbage 4 k;
  Some k.

(** The frames at the columns of a list, one after the other. *)
Fixpoint pong_frames (js : list Z) (rtc_fd garbage buf curchar : Z) (k : kernel) : option kernel :=
  match js with
  | [] => Some k
  | j :: js => k ← pong_frame rtc_fd garbage buf curchar j k; pong_frames js rtc_fd garbage buf curchar k
  end.

(** Out and back. *)
Definition pong_columns : list Z :=
  seqZ STARTLOOP (LOOPMAX - STARTLOOP) ++ reverse (seqZ STARTLOOP (LOOPMAX - STARTLOOP)).

Definition next_char (curchar : Z) : Z := if curchar =? ENDCHAR then STARTCHAR else u8 (curchar + 1).

(** The program never ends: the state after [n] rounds. *)
Fixpoint pong_rounds (n : nat) (rtc_fd garbage buf curchar : Z) (k : kernel) : option kernel :=
  match n with
  | O => Some k
  | S n =>
      k ← pong_frames pong_columns rtc_fd garbage buf curchar k;
      pong_rounds n rtc_fd garbage buf (next_char curchar) k
  end.

Definition pong_walls (buf : Z) (k : kernel) : kernel :=
  let k := for_range 0 BUFMAX (fun i k => store buf i 32 k) k in
  let k := store buf (SCREENWIDTH + ENDING - 1) 0 k in
  let k := store buf (SCREENWIDTH + ENDING - 2) 10 k in
  let k := store buf (SCREENWIDTH + ENDING - 3) 124 k in
  store buf START 124 k.

Definition pingpong (n : nat) (buf ret_val garbage : Z) (k : kernel) : option kernel :=
  let k := pong_walls buf k in
  '((rtc_fd, k) : Z * kernel) ← ece391_open (str "rtc") k;
  let k := st32 ret_val 32 k in
  '((r, k) : Z * kernel) ← ece391_write rtc_fd ret_val 4 k;
  pong_rounds n rtc_fd garbage buf STARTCHAR (st32 ret_val (u32 r) k).

(** ** syserr: the error cases of the system calls *)

Definition NEG_FD : Z := -1073741823.
Definition BIG_FD : Z := 1073741823.
Definition BIG_NUM : Z := 1073741823.
Definition NEG_NUM : Z := -1073741823.

(** call_sys sets EAX only; the other registers hold what the compiler left. *)
Definition call_sys (ebx ecx edx num : Z) (k : kernel) : option (Z * kernel) := call (u32 num) ebx ecx edx k.

(** [if (-1 != f()) { fail = 2; fdputs (1, msg); }] *)
Definition must_fail (f : kernel -> option (Z * kernel)) (msg : string) (fail : Z) (k : kernel) : option (Z * kernel) :=
  '((r, k) : Z * kernel) ← f k;
  if r =? -1 then Some (fail, k) else k ← puts1 msg k; Some (2, k).

(** The last lines of a test. *)
Definition verdict (pass_msg fail_msg : string) (fail : Z) (k : kernel) : option (Z * kernel) :=
  k ← puts1 (if fail =? 0 then pass_msg else fail_msg) k; Some (fail, k).

Definition err_neg_fd (buf : Z) (k : kernel) : option (Z * kernel) :=
  '((fail, k) : Z * kernel) ← must_fail (ece391_read NEG_FD buf 31) "read fail\n" 0 k;
  '((fail, k) : Z * kernel) ← must_fail (ece391_write NEG_FD buf 31) "write fail\n" fail k;
  '((fail, k) : Z * kernel) ← must_fail (ece391_close NEG_FD) "close fail\n" fail k;
  verdict "err_neg_fd: PASS\n" "err_neg_fd: FAIL\n" fail k.

Definition err_big_fd (buf : Z) (k : kernel) : option (Z * kernel) :=
  '((fail, k) : Z * kernel) ← must_fail (ece391_read BIG_FD buf 31) "read fail\n" 0 k;
  '((fail, k) : Z * kernel) ← must_fail (ece391_write BIG_FD buf 31) "write fail\n" fail k;
  '((fail, k) : Z * kernel) ← must_fail (ece391_close BIG_FD) "close fail\n" fail k;
  verdict "err_big_fd: PASS\n" "err_big_fd: FAIL\n" fail k.

(** The first loop counts the failures of [n] opens, the second closes. *)
Fixpoint open_lots (n : nat) (cnt : Z) (k : kernel) : option (Z * kernel) :=
  match n with
  | O => Some (cnt, k)
  | S n =>
      '((r, k) : Z * kernel) ← ece391_open (str ".") k;
      open_lots n (if r =? -1 then cnt + 1 else cnt) k
  end.

Fixpoint close_lots (n : nat) (i : Z) (k : kernel) : option kernel :=
  match n with
  | O => Some k
  | S n => '((_, k) : Z * kernel) ← ece391_close i k; close_lots n (i + 1) k
  end.

Definition err_open_lots (k : kernel) : option (Z * kernel) :=
  '((cnt, k) : Z * kernel) ← open_lots 7 0 k;
  k ← close_lots 6 2 k;
  if cnt =? 1 then k ← puts1 "err_open_lots: PASS\n" k; Some (0, k)
  else k ← puts1 "err_open_lots: FAIL\n" k; Some (2, k).

Definition err_open (k : kernel) : option (Z * kernel) :=
  '((fail, k) : Z * kernel) ← must_fail (ece391_open (str "helloo")) "'helloo' fail\n" 0 k;
  '((fail, k) : Z * kernel) ← must_fail (ece391_open (str "shel")) "'shel' fail\n" fail k;
  '((fail, k) : Z * kernel) ← must_fail (ece391_open (str EmptyString)) "empty string fail\n" fail k;
  verdict "err_open: PASS\n" "err_open: FAIL\n" fail k.

(** [for (i = lo; i < lo + n; i++)] over a call that must fail. *)
Fixpoint must_fail_loop (n : nat) (i : Z) (f : Z -> kernel -> option (Z * kernel)) (msg : string) (fail : Z) (k : kernel)
    : option (Z * kernel) :=
  match n with
  | O => Some (fail, k)
  | S n => '((fail, k) : Z * kernel) ← must_fail (f i) msg fail k; must_fail_loop n (i + 1) f msg fail k
  end.

Definition err_unopened (buf : Z) (k : kernel) : option (Z * kernel) :=
  '((fail, k) : Z * kernel) ← must_fail_loop 8 0 ece391_close "close unopened or invalid fd fail\n" 0 k;
  '((fail, k) : Z * kernel) ← must_fail_loop 6 2 (fun i => ece391_read i buf 31) "read from unopened fd fail\n" fail k;
  '((fail, k) : Z * kernel) ← must_fail_loop 6 2 (fun i => ece391_write i buf 31) "write to unopened fd fail\n" fail k;
  verdict "err_unopened: PASS\n" "err_unopened: FAIL\n" fail k.

Definition err_vidmap (k : kernel) : option (Z * kernel) :=
  '((fail, k) : Z * kernel) ← must_fail (ece391_vidmap 0x0) "Null pointer fail\n" 0 k;
  '((fail, k) : Z * kernel) ← must_fail (ece391_vidmap 0x400000) "Kernel pointer fail fail\n" fail k;
  verdict "err_vidmap: PASS\n" "err_vidmap: FAIL\n" fail k.

Definition err_stdin_out (buf : Z) (k : kernel) : option (Z * kernel) :=
  '((fail, k) : Z * kernel) ← must_fail (ece391_write 0 buf 31) "write to stdin fail\n" 0 k;
  '((fail, k) : Z * kernel) ← must_fail (ece391_read 1 buf 31) "read from stdout fail\n" fail k;
  verdict "err_stdin_out: PASS\n" "err_stdin_out: FAIL\n" fail k.

Definition err_syscall_num (ebx ecx edx : Z) (k : kernel) : option (Z * kernel) :=
  '((fail, k) : Z * kernel) ← must_fail (call_sys ebx ecx edx BIG_NUM) "syscall 0 fail\n" 0 k;
  '((fail, k) : Z * kernel) ← must_fail (call_sys ebx ecx edx NEG_NUM) "big num syscall fail\n" fail k;
  '((fail, k) : Z * kernel) ← must_fail (call_sys ebx ecx edx 0) "neg num syscall fail\n" fail k;
  verdict "err_syscall_num: PASS\n" "err_syscall_num: FAIL\n" fail k.

(** Test [n] of the eight; [b] is its local buffer, [g] the registers of
    call_sys. *)
Definition syserr_test (n b : Z) (g : Z * Z * Z) (k : kernel) : option (Z * kernel) :=
  let '(ebx, ecx, edx) := g in
  if n =? 1 then err_neg_fd b k
  else if n =? 2 then err_big_fd b k
  else if n =? 3 then err_open_lots k
  else if n =? 4 then err_open k
  else if n =? 5 then err_unopened b k
  else if n =? 6 then err_vidmap k
  else if n =? 7 then err_stdin_out b k
  else err_syscall_num ebx ecx edx k.

Fixpoint syserr_all (ns : list Z) (fail b : Z) (g : Z * Z * Z) (k : kernel) : option (Z * kernel) :=
  match ns with
  | [] => Some (fail, k)
  | n :: ns => '((r, k) : Z * kernel) ← syserr_test n b g k; syserr_all ns (fail + r) b g k
  end.

Definition syserr (buf b : Z) (g : Z * Z * Z) (k : kernel) : option (Z * kernel) :=
  k ← puts1 "Choose from tests 1-8. 0 to run all: " k;
  '((cnt, k) : Z * kernel) ← ece391_read 0 buf 127 k;
  if cnt =? -1 then k ← puts1 "Can't read test #\n" k; Some (2, k)
  else
    let select := load8 buf 0 k - 48 in
    if select =? 0 then
      '((fail, k) : Z * kernel) ← syserr_all [1; 2; 3; 4; 5; 6; 7; 8] 0 b g k;
      verdict "\nOverall Tests: PASS\n" "\nOverall Tests: FAIL\n" fail k
    else if (1 <=? select) && (select <=? 8) then syserr_test select b g k
    else k ← puts1 "Invalid test number. Choose from tests 1-8 or 0" k; Some (0, k).

End Programs.

(** ** Strings in the program's memory *)

(** A C string literal: [\n] is one character. *)
Fixpoint unescape (l : list Z) : list Z :=
  match l with
  | 92 :: 110 :: l => 10 :: unescape l
  | c :: l => c :: unescape l
  | [] => []
  end.

Definition text (s : string) : list Z := unescape (codes s).

(** A NUL-terminated string off the screen. *)
Record string_at (a : Z) (l : list Z) (k : kernel) : Prop := {
  sa_range : 0 < a /\ a + Z.of_nat (length l) + 1 < 2 ^ 31;
  sa_chars : Forall (fun c => 0 < c < 256) l;
  sa_bytes : bytes_at k a (l ++ [0]);
  sa_sep : forall x y, span a (Z.of_nat (length l) + 1) x -> span VIDEO 4000 y -> as_sep k y x;
}.

Lemma string_at_run a l k k' b : con_run k k' b -> string_at a l k -> string_at a l k'.
Proof.
  intros Hr [H1 H2 H3 H4]. split; [done|done| |].
  - intros i Hi. rewrite <- (H3 i Hi). apply (cr_mem _ _ _ Hr). intros y Hy. apply H4; [|done].
    rewrite length_app in Hi. cbn in Hi. unfold span. lia.
  - intros x y Hx Hy. eapply con_frame_sep; [apply Hr|]. by apply H4.
Qed.

Lemma strlen_run l k : forall n a len, Forall (fun c => 0 < c < 256) l -> bytes_at k a (l ++ [0]) ->
  0 <= a -> a + Z.of_nat (length l) + 1 < 2 ^ 31 -> 0 <= len -> len + Z.of_nat (length l) < 2 ^ 32 -> (length l < n)%nat ->
  ece391_strlen_loop n a len k = Some (len + Z.of_nat (length l)).
Proof.
  induction l as [|c l IH]; intros n a len Hc Hb Ha He Hl Hle Hn; (destruct n as [|n]; [cbn in Hn; lia|]); cbn [ece391_strlen_loop].
  - specialize (Hb 0 ltac:(cbn; lia)). rewrite Z.add_0_r in Hb. rewrite Hb. cbn. f_equal. lia.
  - apply Forall_cons in Hc as [Hc Hcs]. cbn [length] in *. pose proof (Hb 0 ltac:(cbn; lia)) as H0.
    rewrite Z.add_0_r in H0. rewrite H0. change (agetZ ((c :: l) ++ [0]) 0) with c. rewrite (proj2 (Z.eqb_neq c 0)) by lia.
    rewrite !u32_small by lia. rewrite IH; try done; try lia; [f_equal; lia|].
    intros i Hi. replace (a + 1 + i) with (a + (i + 1)) by lia. rewrite Hb by (cbn [app length] in *; lia).
    cbn [app]. apply agetZ_cons. lia.
Qed.

Lemma bytes_at_prefix {T} `{AddrSpace T} (s : T) a l l' : bytes_at s a (l ++ l') -> bytes_at s a l.
Proof.
  intros Hb i Hi. rewrite Hb by (rewrite length_app; lia). apply agetZ_app_l. lia.
Qed.

Section Calls.

Context (irqs : list (kernel -> kernel)) (junk : Z) (str : string -> Z) (fuel : nat).

(** The wrappers reach the system calls. *)
Lemma write_call fd buf n k : 0 <= fd < 2 ^ 31 -> 0 <= buf < 2 ^ 32 -> 0 <= n < 2 ^ 31 ->
  ece391_write irqs junk fuel fd buf n k = sys_write fd buf n k.
Proof.
  intros Hf Hb Hn. unfold ece391_write, call, DO_CALL, syscall_handler_asm, SYS_WRITE. cbn [r_eax r_ebx r_ecx r_edx].
  change (s32 4) with 4. cbn [Z.leb Z.ltb Z.compare Pos.compare Pos.compare_cont orb Z.eqb Pos.eqb].
  rewrite !u32_small, !s32_small by lia. destruct (sys_write fd buf n k) as [[r k']|]; reflexivity.
Qed.

Lemma read_call fd buf n k : 0 <= fd < 2 ^ 31 -> 0 <= buf < 2 ^ 31 -> 0 <= n < 2 ^ 31 ->
  ece391_read irqs junk fuel fd buf n k = sys_read irqs fd buf n k.
Proof.
  intros Hf Hb Hn. unfold ece391_read, call, DO_CALL, syscall_handler_asm, SYS_READ. cbn [r_eax r_ebx r_ecx r_edx].
  change (s32 3) with 3. cbn [Z.leb Z.ltb Z.compare Pos.compare Pos.compare_cont orb Z.eqb Pos.eqb].
  rewrite !u32_small, !s32_small by lia.
  rewrite (proj2 (Z.eqb_neq n (-1))), (proj2 (Z.eqb_neq buf (-1))), (proj2 (Z.eqb_neq fd (-1))) by lia. cbn [orb].
  destruct (sys_read irqs fd buf n k) as [[r k']|]; reflexivity.
Qed.

Lemma open_call p k : 0 <= p < 2 ^ 32 -> ece391_open irqs junk fuel p k = Some (sys_open p k).
Proof.
  intros Hp. unfold ece391_open, call, DO_CALL, syscall_handler_asm, SYS_OPEN. cbn [r_eax r_ebx r_ecx r_edx].
  change (s32 5) with 5. cbn [Z.leb Z.ltb Z.compare Pos.compare Pos.compare_cont orb Z.eqb Pos.eqb].
  rewrite u32_small by lia. destruct (sys_open p k) as [r k']. reflexivity.
Qed.

Lemma getargs_call buf n k : 0 <= buf < 2 ^ 32 -> 0 <= n < 2 ^ 31 ->
  ece391_getargs irqs junk fuel buf n k = sys_getargs buf n k.
Proof.
  intros Hb Hn. unfold ece391_getargs, call, DO_CALL, syscall_handler_asm, SYS_GETARGS. cbn [r_eax r_ebx r_ecx r_edx].
  change (s32 7) with 7. cbn [Z.leb Z.ltb Z.compare Pos.compare Pos.compare_cont orb Z.eqb Pos.eqb].
  rewrite !u32_small, s32_small by lia. destruct (sys_getargs buf n k) as [[r k']|]; reflexivity.
Qed.

Lemma unread_registers number ebx ecx edx k :
  (number ∈ [SYS_HALT; SYS_EXECUTE; SYS_OPEN; SYS_CLOSE; SYS_VIDMAP] ->
     DO_CALL irqs junk fuel number ebx ecx edx k = DO_CALL irqs junk fuel number ebx 0 0 k) /\
  DO_CALL irqs junk fuel SYS_GETARGS ebx ecx edx k = DO_CALL irqs junk fuel SYS_GETARGS ebx ecx 0 k.
Proof.
  split; [|reflexivity]. rewrite !elem_of_cons, elem_of_nil.
  intros [->|[->|[->|[->|[->|[]]]]]]; reflexivity.
Qed.

(** A buffer of the program on the standard output. *)
Lemma write_run buf l k : console_ok k -> 0 < buf -> buf + Z.of_nat (length l) < 2 ^ 31 -> bytes_at k buf l ->
  (forall x y, span buf (Z.of_nat (length l)) x -> span VIDEO 4000 y -> as_sep k y x) ->
  exists k', ece391_write irqs junk fuel 1 buf (Z.of_nat (length l)) k = Some (Z.of_nat (length l), k') /\
    con_run k k' (foldl abs_putc (abs_console k) l).
Proof.
  intros Hok Hb Hbe Hl Hs. rewrite write_call by lia. unfold sys_write, MAX_FD_INDEX.
  rewrite (proj2 (Z.eqb_neq buf 0)) by lia. cbn [Z.ltb Z.leb Z.compare Pos.compare Pos.compare_cont orb Z.eqb Pos.eqb].
  destruct (terminal_write_run 1 buf l k Hok) as (k' & E & Hr); [lia|lia|done|done|].
  exists k'. rewrite E. by split.
Qed.

Lemma fdputs_run a l k : console_ok k -> string_at a l k -> (length l < fuel)%nat ->
  exists k', ece391_fdputs irqs junk fuel 1 a k = Some k' /\ con_run k k' (foldl abs_putc (abs_console k) l).
Proof.
  intros Hok [[H1 H1'] H2 H3 H4] Hf. unfold ece391_fdputs, ece391_strlen. rewrite (strlen_run l) by (done || lia).
  rewrite Z.add_0_l. cbn [mbind option_bind].
  destruct (write_run a l k Hok H1) as (k' & E & Hr); [lia|by eapply bytes_at_prefix| |].
  - intros x y Hx Hy. apply H4; [|done]. unfold span in *. lia.
  - exists k'. rewrite E. by split.
Qed.

(** The literal [s]. *)
Definition literal (s : string) (k : kernel) : Prop := string_at (str s) (text s) k.

Lemma puts1_run s k : console_ok k -> literal s k -> (length (text s) < fuel)%nat ->
  exists k', puts1 irqs junk str fuel s k = Some k' /\ con_run k k' (foldl abs_putc (abs_console k) (text s)).
Proof. apply fdputs_run. Qed.

(** A call the kernel refuses. *)
Lemma must_fail_refused number ebx ecx edx msg fail k :
  refused (mkRegs number (u32 ebx) (u32 ecx) (u32 edx)) k = true ->
  must_fail irqs junk str fuel (call irqs junk fuel number ebx ecx edx) msg fail k = Some (fail, k).
Proof. intros H. unfold must_fail, call, DO_CALL. by rewrite refused_run. Qed.

End Calls.

(** ** syserr *)

(** The line a test that passes prints. *)
Definition pass_line (n : Z) : string :=
  if n =? 1 then "err_neg_fd: PASS\n" else if n =? 2 then "err_big_fd: PASS\n" else if n =? 6 then "err_vidmap: PASS\n"
  else if n =? 7 then "err_stdin_out: PASS\n" else "err_syscall_num: PASS\n".

Lemma five_cases n : n ∈ [1; 2; 6; 7; 8] -> n = 1 \/ n = 2 \/ n = 6 \/ n = 7 \/ n = 8.
Proof. rewrite list_elem_of_In. cbn. lia. Qed.

Section Syserr.

Context (irqs : list (kernel -> kernel)) (junk : Z) (str : string -> Z) (fuel : nat).

Lemma refused_s32 eax ebx ecx edx k : (s32 eax <=? 0) || (8 <? s32 eax) = true -> refused (mkRegs eax ebx ecx edx) k = true.
Proof. intros H. unfold refused. cbn [r_eax]. by rewrite H. Qed.

(** Descriptors below 0 and above 5, and the wrong standard stream. *)
Lemma refused_fd number fd buf n k : fd = NEG_FD \/ fd = BIG_FD -> 0 < buf < 2 ^ 31 -> 0 <= n < 2 ^ 31 ->
  number = SYS_READ \/ number = SYS_WRITE -> refused (mkRegs number (u32 fd) (u32 buf) (u32 n)) k = true.
Proof.
  intros Hfd Hb Hn Hnum. unfold refused. cbn [r_eax r_ebx r_ecx r_edx].
  assert (E : s32 (u32 fd) = fd) by (destruct Hfd as [->| ->]; reflexivity). rewrite E. clear E.
  rewrite !(u32_small buf), !(u32_small n), !(s32_small buf), !(s32_small n) by lia.
  rewrite (proj2 (Z.eqb_neq n (-1))), (proj2 (Z.eqb_neq buf (-1))) by lia.
  destruct Hfd as [->| ->], Hnum as [->| ->]; reflexivity.
Qed.

Ltac refuse := rewrite must_fail_refused by (first [reflexivity|apply refused_fd; first [by left|by right|lia]]); cbn [mbind option_bind].

Lemma syserr_test_run n b g k : n ∈ [1; 2; 6; 7; 8] -> 0 < b < 2 ^ 31 -> console_ok k ->
  literal str (pass_line n) k -> (40 < fuel)%nat ->
  exists k', syserr_test irqs junk str fuel n b g k = Some (0, k') /\
    con_run k k' (foldl abs_putc (abs_console k) (text (pass_line n))).
Proof.
  intros Hn Hb Hok Hl Hf. assert (Hlen : (length (text (pass_line n)) < fuel)%nat).
  { enough (length (text (pass_line n)) <= 40)%nat by lia. apply Nat.leb_le.
    destruct (five_cases n Hn) as [->|[->|[->|[->| ->]]]]; vm_compute; reflexivity. }
  destruct (puts1_run irqs junk str fuel (pass_line n) k Hok Hl Hlen) as (k' & E & Hr). exists k'. split; [|exact Hr].
  destruct g as [[ebx ecx] edx]. 
  destruct (five_cases n Hn) as [->|[->|[->|[->| ->]]]].
  - change (syserr_test irqs junk str fuel 1 b (ebx, ecx, edx) k) with (err_neg_fd irqs junk str fuel b k).
    unfold err_neg_fd, ece391_read, ece391_write, ece391_close. do 3 refuse. unfold verdict. cbn [Z.eqb].
    change "err_neg_fd: PASS\n"%string with (pass_line 1). by rewrite E.
  - change (syserr_test irqs junk str fuel 2 b (ebx, ecx, edx) k) with (err_big_fd irqs junk str fuel b k).
    unfold err_big_fd, ece391_read, ece391_write, ece391_close. do 3 refuse. unfold verdict. cbn [Z.eqb].
    change "err_big_fd: PASS\n"%string with (pass_line 2). by rewrite E.
  - change (syserr_test irqs junk str fuel 6 b (ebx, ecx, edx) k) with (err_vidmap irqs junk str fuel k).
    unfold err_vidmap, ece391_vidmap. do 2 refuse. unfold verdict. cbn [Z.eqb]. change "err_vidmap: PASS\n"%string with (pass_line 6). by rewrite E.
  - change (syserr_test irqs junk str fuel 7 b (ebx, ecx, edx) k) with (err_stdin_out irqs junk str fuel b k).
    unfold err_stdin_out, ece391_read, ece391_write.
    assert (R : forall num fd, (num = 4 /\ fd = 0) \/ (num = 3 /\ fd = 1) -> refused (mkRegs num (u32 fd) (u32 b) (u32 31)) k = true).
    { intros num fd H. unfold refused. cbn [r_eax r_ebx r_ecx r_edx]. rewrite !(u32_small b), !(s32_small b) by lia.
      rewrite (proj2 (Z.eqb_neq b (-1))) by lia. destruct H as [[-> ->]|[-> ->]]; reflexivity. }
    rewrite must_fail_refused by (apply R; by left). cbn [mbind option_bind].
    rewrite must_fail_refused by (apply R; by right). cbn [mbind option_bind]. unfold verdict. cbn [Z.eqb].
    change "err_stdin_out: PASS\n"%string with (pass_line 7). by rewrite E.
  - change (syserr_test irqs junk str fuel 8 b (ebx, ecx, edx) k) with (err_syscall_num irqs junk str fuel ebx ecx edx k).
    unfold err_syscall_num, call_sys. do 3 (rewrite must_fail_refused by (apply refused_s32; reflexivity); cbn [mbind option_bind]).
    unfold verdict. cbn [Z.eqb]. change "err_syscall_num: PASS\n"%string with (pass_line 8). by rewrite E.
Qed.

End Syserr.
