(* ===== verification/Programs.v ===== *)
(** * Programs at work on the kernel

    What a user program of User.v relies on (its page, the kernel's invariants
    while it runs), and the programs followed through the system calls they make:
    cat prints the file named by its argument, a round of the shell starts the
    program that was typed, and syserr finds its error cases refused. *)

From Stdlib Require Import ZArith Lia.
From Stdlib Require Import String.
From stdpp Require Import base numbers list gmap.
From S2P Require Import Prelude Memory LibMem LibStr State Machine Paging Console Pcb Filesys Fdt Schedule Terminal Vterm Keyboard Execute Halt Pit Syscall User.

Open Scope Z_scope.
Implicit Types k : kernel.

(** ** A process at work *)

Lemma agetZ_map_seqZ f m n i : 0 <= i < n -> agetZ (map f (seqZ m n)) i = f (m + i).
Proof.
  intros Hi. unfold agetZ, aget. rewrite (proj2 (in_range_true _ _)) by (rewrite length_map, length_seqZ; lia).
  rewrite list_lookup_fmap, lookup_seqZ_lt by lia. cbn. f_equal. lia.
Qed.

(** What a program of process [pid] relies on. *)
Record running (pid : Z) (k : kernel) : Prop := {
  ru_pid : 0 <= pid < 6;
  ru_cur : cur_pid k = pid;
  ru_pcbs : pcbs_ok (k_pcbs k);
  ru_paging : exists t, paging_ok t k;
  ru_page : aget (page_directory k) 32 = Some (prog_entry pid);
  ru_dir : dir_in_image k;
  ru_image : FOUR_MB <= start_addr k /\ start_addr k + image_size k <= 2 * FOUR_MB;
  ru_pos : 0 <= screen_x k < 80 /\ 0 <= screen_y k < 25;
}.

(** [n] bytes of the program's page. *)
Definition in_prog (buf n : Z) : Prop := VADDRPROGPAGE <= buf /\ buf + n <= VADDRPROGPAGE + FOUR_MB.

Lemma running_console pid k : running pid k -> console_ok k.
Proof. intros [_ _ _ [t Hp] _ _ _ Hx]. split; [by apply (paging_ok_mapped t)|exact Hx]. Qed.

Lemma prog_phys pid k a : running pid k -> prog_page a ->
  phys k a = Some ((pid + 2) * FOUR_MB + (a - VADDRPROGPAGE)).
Proof. intros [_ _ _ [t Hp] Hpd _ _ _] Ha. apply translate_prog; [apply Hp|exact Hpd|exact Ha]. Qed.

(** The program's page is apart from the screen. *)
Lemma prog_sep pid k x y : running pid k -> prog_page x -> span VIDEO 4000 y -> as_sep k y x.
Proof.
  intros Hr Hx Hy. pose proof Hr as [Hpid _ _ [t Hp] _ _ _ _]. simpl. rewrite (prog_phys pid k x Hr Hx).
  unfold span, VIDEO in Hy. unfold phys. rewrite (translate_low t k y Hp) by lia. intros p q [= <-] [= <-].
  assert (0 <= t <= 3) by apply Hp. unfold prog_page, span, FOUR_MB, VADDRPROGPAGE in *. destruct (y <? 757760); lia.
Qed.

Lemma prog_buf_ok pid k buf n : running pid k -> in_prog buf n -> 0 <= n -> buf_ok k buf n.
Proof.
  intros [Hpid _ _ [t Hp] Hpd [D1 D2 _ _] [I1 I2] _] [B1 B2] Hn. unfold VADDRPROGPAGE, FOUR_MB in *.
  split; [lia|lia|lia|]. eapply region_mono; [|exact (region_kernel_prog t pid k Hp Hpid Hpd)].
  unfold in_image, kernel_page, prog_page, span, VADDRPROGPAGE, FOUR_MB. lia.
Qed.

Lemma prog_region pid k buf n : running pid k -> in_prog buf n -> region k (span buf n).
Proof.
  intros [Hpid _ _ [t Hp] Hpd _ _ _] [B1 B2].
  eapply region_mono; [|exact (region_kernel_prog t pid k Hp Hpid Hpd)]. intros a Ha. right.
  unfold prog_page, span, VADDRPROGPAGE, FOUR_MB in *. lia.
Qed.

(** Stores into the program's page: the screen and the image stay. *)
Lemma prog_cells pid k k' buf n : running pid k -> in_prog buf n ->
  (forall x, (forall y, span buf n y -> as_sep k y x) -> ld8 k' x = ld8 k x) -> k_con k' = k_con k ->
  abs_console k' = abs_console k.
Proof.
  intros Hr [B1 B2] Hm Ec. unfold abs_console. rewrite Ec. f_equal. apply map_ext_in. intros i Hi%list_elem_of_In%elem_of_seqZ.
  assert (H : forall y, span VIDEO 4000 y -> ld8 k' y = ld8 k y).
  { intros y Hy. apply Hm. intros z Hz p q E1 E2. assert (Hz' : prog_page z) by (unfold prog_page, span in *; lia).
    intros ->. exact (prog_sep pid k z y Hr Hz' Hy q q E2 E1 eq_refl). }
  rewrite !H by (unfold span; lia). reflexivity.
Qed.

(** So is it from the image. *)
Lemma prog_image pid k a x : running pid k -> prog_page a -> in_image k x -> as_sep k a x.
Proof.
  intros Hr Ha Hx y q E1 E2. pose proof Hr as [Hpid _ _ [t Hp] _ _ [I1 I2] _].
  rewrite (prog_phys pid k a Hr Ha) in E1. injection E1 as <-.
  rewrite (phys_kernel_page t k x Hp) in E2 by (unfold in_image, kernel_page, span, FOUR_MB in *; lia). injection E2 as <-.
  unfold in_image, prog_page, span, FOUR_MB, VADDRPROGPAGE in *. lia.
Qed.

(** Stores into the program's page keep the process going. *)
Lemma prog_stored pid k k' buf n : running pid k -> in_prog buf n ->
  (forall x, (forall y, span buf n y -> as_sep k y x) -> ld8 k' x = ld8 k x) ->
  k_pg k' = k_pg k -> k_fs k' = k_fs k -> k_con k' = k_con k -> pcbs_ok (k_pcbs k') -> cur_pid k' = cur_pid k ->
  running pid k' /\ same_image k k' /\ abs_console k' = abs_console k.
Proof.
  intros Hr Hb Hm E1 E2 E3 Hp E4. pose proof (prog_cells pid k k' buf n Hr Hb Hm E3) as Ec.
  assert (Es : same_image k k').
  { split; try (by rewrite E2). intros x Hx. apply Hm. intros y Hy. apply (prog_image pid); [exact Hr| |exact Hx].
    unfold prog_page, span, in_prog in *. lia. }
  pose proof Hr as [R1 R2 R3 [t R4] R5 [D1 D2 D3 D4] [I1 I2] R8]. pose proof (same_image_size _ _ Es) as Ez.
  split; [|by split]. split; rewrite ?Ez, ?E1, ?E2, ?E3, ?E4; try assumption.
  - by exists t.
  - by split; rewrite ?Ez, ?E2.
  - by split.
Qed.

(** Output keeps the process going. *)
Lemma running_shown pid k k' a : running pid k -> con_run k k' a -> running pid k' /\ same_image k k'.
Proof.
  intros Hr Hc. pose proof Hr as [R1 R2 R3 [t R4] R5 [D1 D2 D3 D4] [I1 I2] _]. pose proof (cr_frame _ _ _ Hc) as F.
  assert (Es : same_image k k') by (apply (same_image_console t); try assumption; apply Hc).
  split; [|exact Es]. pose proof (same_image_size _ _ Es) as Ez. pose proof Es as [J1 _ _ J4 _].
  assert (Eg : k_pg k' = k_pg k) by (by rewrite F). assert (Esch : k_sch k' = k_sch k) by (by rewrite F).
  split; try assumption.
  - unfold cur_pid, get_terminal. by rewrite Esch.
  - by rewrite F.
  - exists t. by rewrite Eg.
  - by rewrite Eg.
  - by split; rewrite ?Ez, ?J1, ?J4.
  - by rewrite Ez, J1.
  - apply (cr_ok _ _ _ Hc).
Qed.

(** ** Reading a file to its end *)

(** The last file opened, on descriptor [fd], is at position [pos] of inode
    [ino]; [k0] has the image. *)
Record reading (pid fd pos ino : Z) (k0 k : kernel) : Prop := {
  rd_running : running pid k;
  rd_same : same_image k0 k;
  rd_last : currPid k = pid /\ currFD k = fd;
  rd_entry : let e := get_fd (get_PCB k pid) fd in
    jump_start_idx e = Some file_struct /\ present e = 0 /\ inode_number e = ino /\ file_pos e = pos;
}.

Lemma reading_shown pid fd pos ino k0 k k' a : reading pid fd pos ino k0 k -> con_run k k' a -> reading pid fd pos ino k0 k'.
Proof.
  intros [H1 H2 H3 H4] Hc. destruct (running_shown pid k k' a H1 Hc) as [R S]. pose proof (cr_frame _ _ _ Hc) as F.
  assert (Ey : k_sys k' = k_sys k) by (by rewrite F). assert (Ep : k_pcbs k' = k_pcbs k) by (by rewrite F).
  split; [exact R|by etrans|by rewrite Ey|]. unfold get_PCB in *. by rewrite Ep.
Qed.

(** One read. *)
Lemma read_step irqs pid fd pos ino buf k0 k : reading pid fd pos ino k0 k -> 2 <= fd < 6 -> file_ok k0 ino ->
  ino < 2 ^ 31 -> 0 <= pos -> pos mod 1024 = 0 \/ inode_length k0 ino <= pos -> pos < 2 ^ 31 - 4096 -> in_prog buf 1024 ->
  let n := Z.max 0 (Z.min 1024 (inode_length k0 ino - pos)) in
  exists k', sys_read irqs fd buf 1024 k = Some (n, k') /\
    reading pid fd (if n =? 0 then 0 else pos + n) ino k0 k' /\ abs_console k' = abs_console k /\
    bytes_at k' buf (map (file_byte k0 ino) (seqZ pos n)).
Proof.
  intros [Hr Hs [Hcp Hcf] He] Hfd Hf Hi Hpos Hal Hp31 Hb n. cbv zeta in He. destruct He as (He1 & He2 & He3 & He4).
  pose proof (running_console _ _ Hr) as Hcon. pose proof Hr as [R1 R2 R3 [t R4] R5 [D1 D2 D3 D4] [I1 I2] R8].
  destruct (pcbs_get k pid R3 R1) as (p & Ep & Eg & Hpo). rewrite Eg in *.
  destruct (fd_get p fd (proj1 Hpo) ltac:(lia)) as (e & Ee & Eeg). rewrite Eeg in *.
  destruct (file_same k0 k ino Hf Hs) as (Hf' & El & Eb).
  pose proof (prog_buf_ok pid k buf 1024 Hr Hb ltac:(lia)) as Hbuf.
  assert (Efp : get_current_PCB k = pid) by exact R2.
  pose proof (file_read_chunk_run k fd buf 1024 p e) as Hread. cbv zeta in Hread. rewrite Efp, He3, He4, El in Hread.
  destruct (Hread Ep Ee Hf' Hbuf ltac:(lia) eq_refl Hpos Hal Hp31 Hi) as (k1 & Hc & E). fold n in Hc, E. clear Hread.
  set (p' := with_fd_table _ _) in E. exists (put_pcb pid p' k1).
  assert (El1 : last_opened k = e) by (unfold last_opened; by rewrite Hcp, Hcf, Eg).
  assert (Hbp : 0 < buf) by (unfold in_prog, VADDRPROGPAGE in Hb; lia).
  split.
  { unfold sys_read, MAX_FD_INDEX. rewrite El1, He1, He2, Hcf.
    rewrite (proj2 (Z.ltb_ge fd 0)), (proj2 (Z.leb_gt 6 fd)), (proj2 (Z.eqb_neq fd 1)), (proj2 (Z.eqb_neq buf 0)),
      (proj2 (Z.eqb_neq fd 0)), (proj2 (Z.eqb_neq fd (-1))) by lia. exact E. }
  destruct Hc as [Ho Him Hby Hot _].
  destruct (only_mem_intro _ _ Ho) as [m Em]. assert (Hn : 0 <= n <= 1024) by lia.
  assert (Ep1 : aget (k_pcbs k1) pid = Some p) by (by rewrite Em). pose proof (aget_Some_range _ _ _ Ep1) as Hrg.
  set (k' := put_pcb pid p' k1).
  assert (Hp' : pcbs_ok (k_pcbs k')).
  { unfold k'. rewrite Em. apply (pcbs_ok_put pid p' k R3). apply pcb_ok_fd; [exact Hpo|]. cbn.
    destruct Hpo as (_ & _ & Hall). exact (Forall_aget _ _ _ _ Hall Ee). }
  assert (Hq : cur_pid k' = cur_pid k) by (unfold k'; by rewrite Em).
  destruct (prog_stored pid k k' buf n Hr) as (Hr' & Hs' & Hk1);
    [unfold in_prog in *; lia|exact Hot|unfold k'; rewrite Em; reflexivity|unfold k'; rewrite Em; reflexivity
    |unfold k'; rewrite Em; reflexivity|exact Hp'|exact Hq|].
  split; [|split; [exact Hk1|]].
  - split; [exact Hr'|by etrans|unfold k'; by rewrite Em|].
    unfold k'. rewrite put_pcb_get, Z.eqb_refl by exact Hrg. unfold get_fd, p'. cbn.
    rewrite aget_aset_eq by (apply aget_Some_range in Ee; lia). cbn. by split_and!.
  - intros i Hi'. rewrite length_map, length_seqZ in Hi'. change (ld8 k' (buf + i)) with (ld8 k1 (buf + i)).
    rewrite Hby, Eb by lia. by rewrite agetZ_map_seqZ by lia.
Qed.

(** ** cat prints the file *)

(** The bytes of a file from [pos] on. *)
Definition file_from (k : kernel) (ino pos : Z) : list Z :=
  map (file_byte k ino) (seqZ pos (inode_length k ino - pos)).

Lemma file_from_split k ino pos n : 0 <= n -> pos + n <= inode_length k ino ->
  file_from k ino pos = map (file_byte k ino) (seqZ pos n) ++ file_from k ino (pos + n).
Proof.
  intros Hn Hl. unfold file_from. rewrite <- map_app. f_equal.
  replace (inode_length k ino - pos) with (n + (inode_length k ino - (pos + n))) by lia. apply seqZ_app; lia.
Qed.

Lemma file_from_end k ino pos : inode_length k ino <= pos -> file_from k ino pos = [].
Proof. intros H. unfold file_from. by rewrite seqZ_nil by lia. Qed.

Section Cat.

Context (irqs : list (kernel -> kernel)) (junk : Z) (str : string -> Z) (fuel : nat).

(** The loop, from a multiple of 1024 or the end of the file. *)
Lemma cat_loop_run pid fd ino buf k0 : 2 <= fd < 6 -> file_ok k0 ino -> ino < 2 ^ 31 -> in_prog buf 1024 ->
  forall n pos k, reading pid fd pos ino k0 k -> 0 <= pos -> pos mod 1024 = 0 \/ inode_length k0 ino <= pos ->
  pos <= Z.max 0 (inode_length k0 ino) + 1024 -> inode_length k0 ino - pos <= 1024 * (Z.of_nat n - 1) -> (0 < n)%nat ->
  exists k', cat_loop irqs junk str fuel n fd buf k = Some (0, k') /\
    abs_console k' = foldl abs_putc (abs_console k) (file_from k0 ino pos) /\ reading pid fd 0 ino k0 k'.
Proof.
  intros Hfd Hf Hi Hb. assert (Hlen : 0 <= inode_length k0 ino <= 4096 * 1023) by apply Hf.
  induction n as [|n IH]; intros pos k Hr Hpos Hal Hle Hn Hn0; [lia|]. cbn [cat_loop].
  destruct (read_step irqs pid fd pos ino buf k0 k Hr Hfd Hf Hi Hpos Hal ltac:(lia) Hb) as (k1 & E & Hr1 & Ha & Hby).
  set (m := Z.max 0 (Z.min 1024 (inode_length k0 ino - pos))) in *.
  assert (Hbp : 0 < buf /\ buf + 1024 < 2 ^ 31) by (unfold in_prog, VADDRPROGPAGE, FOUR_MB in Hb; lia).
  rewrite read_call by lia. rewrite E. cbn [mbind option_bind].
  destruct (Z.eqb_spec m 0) as [Em|Em].
  - exists k1. split; [reflexivity|]. rewrite Ha, file_from_end by lia. split; [reflexivity|exact Hr1].
  - rewrite (proj2 (Z.eqb_neq m (-1))) by lia.
    set (l := map (file_byte k0 ino) (seqZ pos m)) in *.
    assert (Hl : Z.of_nat (length l) = m) by (unfold l; rewrite length_map, length_seqZ; lia).
    destruct (write_run irqs junk fuel buf l k1 (running_console _ _ (rd_running _ _ _ _ _ _ Hr1))) as (k2 & E2 & Hc); try lia; [exact Hby| |].
    { intros x y Hx Hy. apply (prog_sep pid); [apply Hr1| |exact Hy]. unfold prog_page, span, in_prog in *. lia. }
    rewrite Hl in E2. rewrite E2. cbn [mbind option_bind]. rewrite (proj2 (Z.eqb_neq m (-1))) by lia.
    pose proof (reading_shown _ _ _ _ _ _ _ _ Hr1 Hc) as Hr2.
    assert (Hal2 : (pos + m) mod 1024 = 0 \/ inode_length k0 ino <= pos + m).
    { destruct (decide (inode_length k0 ino <= pos + m)); [by right|left]. assert (m = 1024) as -> by lia.
      destruct Hal as [Hal|Hal]; [|lia]. dlia. }
    destruct (IH (pos + m) k2 Hr2 ltac:(lia) Hal2 ltac:(lia)) as (k' & E' & Ha' & Hr'); [lia|lia|].
    exists k'. split; [exact E'|]. split; [|exact Hr'].
    rewrite Ha', (cr_abs _ _ _ Hc), Ha, <- foldl_app. f_equal. symmetry. apply file_from_split; lia.
Qed.

(** The arguments of a process are those of the line that started it, in the
    buffer after getargs. *)
Lemma getargs_step pid a buf k : running pid k -> storeargs k = a ++ replicate (1024 - length a) 0 ->
  (0 < length a < 1023)%nat -> agetZ a 0 <> 0 -> Forall (fun c => 0 <= c < 256) a ->
  length (pcb_args (get_PCB k pid)) = 1024%nat -> in_prog buf 1024 ->
  exists k', sys_getargs buf 1024 k = Some (0, k') /\ running pid k' /\ same_image k k' /\
    abs_console k' = abs_console k /\ (forall i, 0 <= i < 1023 -> ld8 k' (buf + i) = agetZ a i) /\
    currDentry k' = currDentry k /\ fd_table (get_PCB k' pid) = fd_table (get_PCB k pid).
Proof.
  intros Hr Hs Ha Hz HF Hla Hb. pose proof Hr as [R1 R2 R3 [t R4] R5 [D1 D2 D3 D4] [I1 I2] R8].
  assert (Hbp : 0 < buf /\ buf + 1024 < 2 ^ 31) by (unfold in_prog, VADDRPROGPAGE, FOUR_MB in Hb; lia).
  pose proof (sys_getargs_run a buf 1024 k) as H. cbv zeta in H. rewrite R2 in H.
  destruct (H Hs Ha Hz R3 R1 Hla) as (k' & E & Hby & Hot & Ek); try lia; [by apply (prog_region pid)|exact HF|]. clear H.
  exists k'. split; [exact E|].
  set (p' := with_pcb_args _ _) in Ek.
  assert (Hex : exists m, k' = put_pcb pid p' (with_k_mem m k)) by (eexists; exact Ek). clear Ek. destruct Hex as [m Ek].
  destruct (pcbs_get k pid R3 R1) as (p & Ep & Eg & Hpo).
  assert (Hp' : pcbs_ok (k_pcbs k')) by (rewrite Ek; apply (pcbs_ok_put pid p' k R3); rewrite <- Eg in Hpo; exact Hpo).
  assert (Hq : cur_pid k' = cur_pid k) by (by rewrite Ek).
  destruct (prog_stored pid k k' buf 1024 Hr Hb) as (Hr' & Hs' & Hk');
    [|rewrite Ek; reflexivity|rewrite Ek; reflexivity|rewrite Ek; reflexivity|exact Hp'|exact Hq|].
  { intros x Hx. apply Hot. intros i Hi. apply Hx. unfold span. lia. }
  split; [exact Hr'|split; [exact Hs'|split; [exact Hk'|]]].
  split; [|split].
  - intros i Hi. rewrite Hby by lia. unfold agetZ. rewrite aget_aset_ne by lia.
    destruct (decide (i < Z.of_nat (length a))).
    + unfold aget. rewrite !(proj2 (in_range_true _ _)) by (rewrite ?length_app; lia). by rewrite lookup_app_l by lia.
    + rewrite (proj2 (aget_None a i)) by lia. unfold aget.
      rewrite (proj2 (in_range_true _ _)) by (rewrite length_app, length_replicate; lia).
      rewrite lookup_app_r by lia. by rewrite lookup_replicate_2 by lia.
  - by rewrite Ek.
  - rewrite Ek. assert (Ep2 : aget (k_pcbs (with_k_mem m k)) pid = Some p) by exact Ep.
    by rewrite put_pcb_get, Z.eqb_refl by (by apply aget_Some_range in Ep2).
Qed.

(** The entry of an opened regular file. *)
Lemma opened_file d e : d_fileType d = 2 -> 0 <= d_inodeNum d < 2 ^ 31 ->
  let e' := opened_fd d e in
  jump_start_idx e' = Some file_struct /\ present e' = 0 /\ inode_number e' = d_inodeNum d /\ file_pos e' = file_pos e.
Proof.
  intros Ht Hi. unfold opened_fd, set_fop. destruct e. cbn -[s32]. rewrite Ht. change (s32 2) with 2.
  rewrite s32_small by lia. cbn. by split_and!.
Qed.

Lemma str_from_ext f g : forall n i, (forall j, i <= j < i + Z.of_nat n -> f j = g j) -> str_from n f i = str_from n g i.
Proof.
  induction n as [|n IH]; intros i H; [done|]. cbn [str_from]. rewrite H by lia. by rewrite IH by (intros; apply H; lia).
Qed.

(** Opening the file, from a state [k0] with the same image. *)
Lemma open_step pid fd buf a i k0 k : running pid k -> same_image k0 k -> dir_in_image k0 ->
  length (d_name (currDentry k)) = 32%nat -> 2 <= fd < 6 -> present (get_fd (get_PCB k pid) fd) = -1 ->
  (forall j, 2 <= j < fd -> present (get_fd (get_PCB k pid) j) = 0) -> file_pos (get_fd (get_PCB k pid) fd) = 0 ->
  0 < buf < 2 ^ 31 -> (forall j, 0 <= j < 32 -> ld8 k (buf + j) = a j) -> a 0 <> 0 ->
  found k0 a i -> d_fileType (entry k0 i) = 2 -> 0 <= d_inodeNum (entry k0 i) < 2 ^ 31 ->
  exists k', ece391_open irqs junk fuel buf k = Some (fd, k') /\
    reading pid fd 0 (d_inodeNum (entry k0 i)) k0 k' /\ abs_console k' = abs_console k.
Proof.
  intros Hr Hs Hd Hl Hfd Hfree Hlow Hp0 Hb Ha Hz Hf Ht Hi. pose proof Hr as [R1 R2 R3 [t R4] R5 [D1 D2 D3 D4] [I1 I2] R8].
  assert (En : name32 (cstr buf k) = name32 a).
  { apply str_from_ext. intros j Hj. unfold cstr. rewrite u32_small by lia. apply Ha. lia. }
  assert (Hf' : found k (cstr buf k) i).
  { pose proof (found_same k0 k a i Hd Hs Hf) as (F1 & F2 & F3). split; [exact F1|]. rewrite En. by split. }
  assert (Ee : entry k i = entry k0 i) by (apply (entries_same k0 k i Hd Hs), Hf).
  assert (Hc : ld8 k buf <> 0) by (replace buf with (buf + 0) by lia; by rewrite Ha by lia).
  pose proof (sys_open_run buf k i Hl R3 ltac:(lia) Hc Hf') as H. rewrite R2 in H.
  destruct H as [(fd' & Hfd' & Hfree' & Hlow' & E)|[Hall _]]; [|rewrite Hall in Hfree by lia; lia].
  assert (fd' = fd) as ->.
  { destruct (decide (fd' < fd)); [rewrite Hlow in Hfree' by lia; lia|].
    destruct (decide (fd < fd')); [rewrite Hlow' in Hfree by lia; lia|lia]. }
  exists (opened i fd k). split; [rewrite open_call by lia; by rewrite E|].
  pose proof (opened_last i fd k R3 ltac:(lia) ltac:(lia)) as Hla. rewrite R2, Ee in Hla.
  destruct (pcbs_get k pid R3 R1) as (p & Ep & Eg & Hpo). rewrite Eg in *.
  destruct (fd_get p fd (proj1 Hpo) ltac:(lia)) as (e & Ee0 & Eeg). rewrite Eeg in *.
  split; [|reflexivity]. split.
  - split; try assumption; [|by exists t|by split|by split].
    unfold opened, put_fd. rewrite R2, Eg. apply (pcbs_ok_put pid _ k R3).
    apply pcb_ok_fd; [exact Hpo|]. rewrite Eeg, Ee. left. apply (opened_file (entry k0 i) e Ht Hi).
  - etrans; [exact Hs|]. by split.
  - by split.
  - cbv zeta. assert (Eo : get_fd (get_PCB (opened i fd k) pid) fd = last_opened (opened i fd k)).
    { unfold last_opened. change (currPid (opened i fd k)) with (cur_pid k). by rewrite R2. }
    rewrite Eo, Hla. destruct (opened_file (entry k0 i) e Ht Hi) as (O1 & O2 & O3 & O4).
    split_and!; [exact O1|exact O2|exact O3|congruence].
Qed.

End Cat.

(** ** A round of the shell *)

Lemma strcmp_run k : forall l1 l2 n a b, Forall (fun c => 0 < c < 256) l1 -> Forall (fun c => 0 < c < 256) l2 ->
  bytes_at k a (l1 ++ [0]) -> bytes_at k b (l2 ++ [0]) -> 0 <= a -> a + Z.of_nat (length l1) + 1 < 2 ^ 32 ->
  0 <= b -> b + Z.of_nat (length l2) + 1 < 2 ^ 32 -> (length l1 < n)%nat ->
  exists r, ece391_strcmp_loop n a b k = Some r /\ (r = 0 <-> l1 = l2).
Proof.
  assert (Hhd : forall a l, bytes_at k a (l ++ [0]) -> ld8 k a = hd 0 l).
  { intros a l H. rewrite <- (Z.add_0_r a), (H 0) by (rewrite length_app; cbn; lia). by destruct l. }
  assert (Htl : forall a c l, bytes_at k a ((c :: l) ++ [0]) -> bytes_at k (a + 1) (l ++ [0])).
  { intros a c l H i Hi. rewrite <- Z.add_assoc, (Z.add_comm 1), H by (cbn [app length] in *; lia).
    cbn [app]. apply agetZ_cons. lia. }
  induction l1 as [|c l1 IH]; intros [|d l2] n a b F1 F2 H1 H2 Ha Hae Hb Hbe Hn; (destruct n as [|n]; [cbn in Hn; lia|]);
    cbn [ece391_strcmp_loop]; rewrite (Hhd _ _ H1), (Hhd _ _ H2); cbn [hd length] in *.
  - exists 0. done.
  - apply Forall_cons in F2 as [Hd _]. rewrite (proj2 (Z.eqb_neq 0 d)) by lia.
    exists (0 - d). split; [done|]. split; [lia|done].
  - apply Forall_cons in F1 as [Hc _]. rewrite (proj2 (Z.eqb_neq c 0)) by lia.
    exists (c - 0). split; [done|]. split; [lia|done].
  - apply Forall_cons in F1 as [Hc F1]. apply Forall_cons in F2 as [Hd F2].
    destruct (Z.eqb_spec c d) as [->|Hne].
    + rewrite (proj2 (Z.eqb_neq d 0)), !u32_small by lia.
      destruct (IH l2 n (a + 1) (b + 1) F1 F2 (Htl _ _ _ H1) (Htl _ _ _ H2)) as (r & E & Hr); try lia.
      exists r. split; [exact E|]. rewrite Hr. split; [by intros ->|by intros [= ->]].
    + exists (c - d). split; [done|]. split; [lia|by intros [= ->]].
Qed.

(** The command of a line, its first word. *)
Definition command (line : list Z) : list Z := fst (split_line line).

Lemma command_chars (P : Z -> Prop) line : Forall P line -> Forall P (command line).
Proof.
  unfold command. intros H. pose proof (split_line_length line) as Hs. destruct (split_line line) as [cmd [a|]]; cbn [fst].
  - subst line. by apply Forall_app in H as [H _].
  - by subst line.
Qed.

Lemma command_nil line : (forall c r, line = c :: r -> c <> 32) -> command line = [] -> line = [].
Proof.
  unfold command. destruct line as [|c l]; [done|]. intros H. cbn [split_line].
  rewrite (proj2 (Z.eqb_neq c 32)) by (eapply H; reflexivity). by destruct (split_line l).
Qed.

(** What the reader has in its buffer starts with the command. *)
Lemma output_command line : (forall c r, line = c :: r -> c <> 32) -> Forall (fun c => 0 < c < 256 /\ c <> 10) line ->
  (line_output line = command line ++ [10]) \/
  (line_output line = command line /\ command line <> [] /\ agetZ (command line) (Z.of_nat (length (command line)) - 1) <> 10).
Proof.
  intros Hs HF. pose proof (command_chars _ line HF) as Hc. pose proof (command_nil line Hs) as Hn.
  unfold line_output. unfold command in *. pose proof (split_line_length line) as Hl.
  destruct (split_line line) as [cmd [a|]]; cbn [fst] in *; [right|by left]. split; [done|].
  assert (Hne : cmd <> []) by (intros ->; rewrite (Hn eq_refl) in Hl; discriminate Hl). split; [done|].
  assert (0 < length cmd)%nat by (destruct cmd; [done|cbn; lia]).
  pose proof (Forall_agetZ _ cmd (Z.of_nat (length cmd) - 1) Hc ltac:(lia)) as H1. cbv beta in H1. lia.
Qed.

Section Shell.

Context (irqs : list (kernel -> kernel)) (junk : Z) (str : string -> Z) (fuel : nat).

(** A literal in the program's page, apart from the buffer. *)
Record owned (buf n : Z) (s : string) (k : kernel) : Prop := {
  ow_page : in_prog (str s) (Z.of_nat (length (text s)) + 1);
  ow_apart : str s + Z.of_nat (length (text s)) + 1 <= buf \/ buf + n <= str s;
  ow_bytes : bytes_at k (str s) (text s ++ [0]);
}.

Lemma owned_literal pid buf n s k : running pid k -> forallb (fun c => (0 <? c) && (c <? 256)) (text s) = true ->
  owned buf n s k -> literal str s k.
Proof.
  intros Hr Hc [H1 H2 H3]. unfold in_prog, VADDRPROGPAGE, FOUR_MB in *. split; [lia| |exact H3|].
  - apply Forall_forall. intros c Hin%list_elem_of_In. pose proof (proj1 (forallb_forall _ _) Hc c Hin) as H. cbv beta in H. lia.
  - intros x y Hx Hy. apply (prog_sep pid); [exact Hr| |exact Hy]. unfold prog_page, span, VADDRPROGPAGE, FOUR_MB in *. lia.
Qed.

(** Stores to the buffer and output leave it. *)
Lemma owned_stored pid buf n s k k' : running pid k -> in_prog buf n ->
  (forall x, (forall y, span buf n y -> as_sep k y x) -> ld8 k' x = ld8 k x) -> owned buf n s k -> owned buf n s k'.
Proof.
  intros Hr Hb Hm [H1 H2 H3]. split; [done|done|]. intros i Hi. rewrite <- (H3 i Hi). apply Hm. intros y Hy.
  rewrite length_app in Hi. cbn in Hi.
  apply (proj2 (prog_region pid k VADDRPROGPAGE FOUR_MB Hr ltac:(unfold in_prog; lia)));
    unfold span, in_prog in *; lia.
Qed.

Lemma owned_shown pid buf n s k k' a : running pid k -> con_run k k' a -> owned buf n s k -> owned buf n s k'.
Proof.
  intros Hr Hc [H1 H2 H3]. split; [done|done|]. intros i Hi. rewrite <- (H3 i Hi). apply (cr_mem _ _ _ Hc). intros y Hy.
  apply (prog_sep pid); [exact Hr| |exact Hy]. rewrite length_app in Hi. cbn in Hi. unfold prog_page, span, in_prog in *. lia.
Qed.

(** The end of the line is found in both forms of the reader's answer. *)
Lemma shell_line_eq pid buf line k : running pid k -> in_prog buf 1024 -> (length (line_output line) < 1024)%nat ->
  (forall c r, line = c :: r -> c <> 32) -> Forall (fun c => 0 < c < 256 /\ c <> 10) line ->
  bytes_at k buf (line_output line) ->
  let k' := shell_line buf (Z.of_nat (length (line_output line))) k in
  k' = st8 (buf + Z.of_nat (length (command line))) 0 k /\ bytes_at k' buf (command line ++ [0]).
Proof.
  intros Hr Hb Hl Hs HF Hby. unfold in_prog, VADDRPROGPAGE, FOUR_MB in Hb. cbv zeta.
  set (cmd := command line) in *. assert (Hcl : (length cmd <= length (line_output line))%nat).
  { destruct (output_command line Hs HF) as [->|(-> & _)]; fold cmd; rewrite ?length_app; lia. }
  assert (E : shell_line buf (Z.of_nat (length (line_output line))) k = st8 (buf + Z.of_nat (length cmd)) 0 k).
  { unfold shell_line, load8, store. destruct (output_command line Hs HF) as [Eo|(Eo & Hne & Hlast)]; fold cmd in Eo.
    - rewrite Eo in *. clear Eo. rewrite length_app in Hl, Hcl |- *. cbn [length] in *.
      replace (Z.of_nat (length cmd + 1) - 1) with (Z.of_nat (length cmd)) by lia.
      rewrite !(u32_small (buf + Z.of_nat (length cmd))) by lia. rewrite Hby by (rewrite length_app; cbn; lia).
      rewrite agetZ_app_len, (proj2 (Z.ltb_lt 0 _)) by lia. cbn [andb Z.eqb Pos.eqb]. by rewrite u32_small by lia.
    - fold cmd in Hne, Hlast. rewrite Eo in *. assert (0 < length cmd)%nat by (destruct cmd; [done|cbn; lia]).
      rewrite (u32_small (buf + (Z.of_nat (length cmd) - 1))), Hby by lia. rewrite (proj2 (Z.eqb_neq _ 10) Hlast), andb_false_r.
      by rewrite u32_small by lia. }
  split; [exact E|]. rewrite E. clear E.
  assert (Hreg : region k (span buf 1024)) by (apply (prog_region pid); [exact Hr|unfold in_prog, VADDRPROGPAGE, FOUR_MB; lia]).
  intros i Hi. rewrite length_app in Hi. cbn in Hi.
  destruct (decide (i = Z.of_nat (length cmd))) as [->|Hne].
  - rewrite agetZ_app_len. rewrite ld8_st8_eq; [done|]. apply Hreg. unfold span. lia.
  - rewrite ld8_st8_sep by (apply Hreg; unfold span; lia). rewrite agetZ_app_l by lia. rewrite Hby by lia.
    destruct (output_command line Hs HF) as [Eo|(Eo & _)]; fold cmd in Eo; rewrite Eo; [apply agetZ_app_l; lia|done].
Qed.

(** The state [k'] with the command of [line] in the buffer. *)
Record line_in (pid buf : Z) (line : list Z) (k k' : kernel) : Prop := {
  li_running : running pid k';
  li_exec : exec_ok k';
  li_same : same_image k k';
  li_console : abs_console k' = abs_console k;
  li_command : bytes_at k' buf (command line ++ [0]);
  li_args : storeargs k' = line_args line ++ replicate (1024 - length (line_args line)) 0;
  li_pcbs : k_pcbs k' = k_pcbs k;
  li_term : exists t, aget (terminals k') (cur_terminal k') = Some t;
  li_other : forall x, (forall y, span buf 1024 y -> as_sep k y x) -> ld8 k' x = ld8 k x;
}.

Lemma line_step pid buf n line rest t k : running pid k -> exec_ok k -> in_prog buf 1024 ->
  line_ready k = true -> aget (terminals k) (visible k) = Some t ->
  buf_kb k = replicate n 32 ++ line ++ 10 :: rest -> length (buf_kb k) = 128%nat ->
  Forall (fun c => 0 < c < 256 /\ c <> 10) line -> (forall c r, line = c :: r -> c <> 32) ->
  exists cnt k1, ece391_read irqs junk fuel 0 buf 1023 k = Some (cnt, k1) /\ cnt <> -1 /\
    line_in pid buf line k (shell_line buf cnt k1).
Proof.
  intros Hr Hx Hb Hrd Et Eb Hl HF Hs.
  assert (Hbp : 0 < buf /\ buf + 1024 < 2 ^ 31) by (unfold in_prog, VADDRPROGPAGE, FOUR_MB in Hb; lia).
  assert (Hlen : (length (line_output line) <= 128)%nat).
  { destruct (line_output_prefix line) as [r Er]. apply (f_equal length) in Er. rewrite !length_app in Er. cbn in Er.
    apply (f_equal length) in Eb. rewrite Hl, !length_app in Eb. cbn in Eb. lia. }
  assert (HF' : Forall (fun c => 0 <= c < 256 /\ c <> 10) line) by (eapply Forall_impl; [exact HF|cbv beta; lia]).
  pose proof (terminal_read_run irqs 0 buf 1023 n line rest t k Hrd Et Eb Hl HF' Hs ltac:(lia)) as H. cbv zeta in H.
  rewrite take_ge in H by lia.
  assert (Hreg : region k (span buf 1024)) by exact (prog_region pid k buf 1024 Hr Hb).
  destruct H as (k1 & E & [Hby Hot Est]); [lia|lia|eapply region_mono; [|exact Hreg]; unfold span; lia|].
  exists (Z.of_nat (length (line_output line))), k1. split; [|split; [lia|]].
  { rewrite read_call by lia. unfold sys_read, MAX_FD_INDEX. rewrite (proj2 (Z.eqb_neq buf 0)) by lia.
    cbn [Z.ltb Z.leb Z.eqb Z.compare orb]. exact E. }
  clear E. pose proof (proj1 (andb_true_iff _ _) Hrd) as [_ Hcv%Z.eqb_eq].
  set (a := line_args line) in *. set (sa := a ++ _) in Est. generalize dependent (k_mem k1). intros m Est.
  assert (Hot' : forall x, (forall y, span buf 1024 y -> as_sep k y x) -> ld8 k1 x = ld8 k x)
    by (intros x Hx'; apply Hot; intros i Hi; apply Hx'; unfold span; lia).
  pose proof (aget_Some_range _ _ _ Et) as Hv.
  assert (Esch : k_sch k1 = k_sch (put_term (visible k) (with_enter_flag 1 t) k)) by (rewrite Est; reflexivity).
  assert (Ect : cur_terminal k1 = cur_terminal k) by (rewrite Est; reflexivity).
  assert (Hq : cur_pid k1 = cur_pid k).
  { unfold cur_pid. rewrite Ect, (put_term_get k k1 _ _ Esch Hv), Hcv, Z.eqb_refl. unfold get_terminal. by rewrite Et. }
  assert (Ep : k_pcbs k1 = k_pcbs k) by (rewrite Est; reflexivity).
  destruct (prog_stored pid k k1 buf 1024 Hr Hb Hot') as (Hr1 & Hs1 & Ha1);
    [rewrite Est; reflexivity|rewrite Est; reflexivity|rewrite Est; reflexivity|rewrite Ep; apply Hr|exact Hq|].
  destruct (shell_line_eq pid buf line k1 Hr1 Hb ltac:(lia) Hs HF Hby) as [E2 Hby2].
  set (k2 := shell_line _ _ k1) in *. set (c := buf + Z.of_nat (length (command line))) in *.
  assert (Hc : buf <= c < buf + 1024).
  { unfold c. destruct (output_command line Hs HF) as [Eo|(Eo & _)]; rewrite Eo in Hlen; rewrite ?length_app in Hlen; lia. }
  assert (Hot2 : forall x, (forall y, span buf 1024 y -> as_sep k1 y x) -> ld8 k2 x = ld8 k1 x).
  { intros x Hx'. rewrite E2. apply ld8_st8_sep. apply Hx'. exact Hc. }
  assert (Hok : as_ok k1 c) by (apply (prog_region pid k1 buf 1024 Hr1 Hb); exact Hc).
  destruct (only_mem_intro k1 k2) as [m2 Em2]; [rewrite E2; by apply only_mem_st8|]. clear E2.
  destruct (prog_stored pid k1 k2 buf 1024 Hr1 Hb Hot2) as (Hr2 & Hs2 & Ha2); try (rewrite Em2; reflexivity);
    [rewrite Em2; apply Hr1|].
  split.
  - exact Hr2.
  - apply (exec_ok_ext k k2 Hx); rewrite Em2; [apply Hr1| |exact Ect|by rewrite Est|by rewrite Est|by rewrite Est].
    change (length (terminals k1) = 3%nat). rewrite Est. change (length (aset (terminals k) (visible k) (with_enter_flag 1 t)) = 3%nat).
    rewrite length_aset. apply Hx.
  - by etrans.
  - by rewrite Ha2.
  - exact Hby2.
  - rewrite Em2. change (storeargs k1 = sa). by rewrite Est.
  - rewrite Em2. exact Ep.
  - exists (with_enter_flag 1 t). rewrite Em2. change (aget (terminals k1) (cur_terminal k1) = Some (with_enter_flag 1 t)).
    rewrite Ect, Hcv, Est. apply aget_aset_eq. exact Hv.
  - intros x Hx'. rewrite Hot2; [by apply Hot'|]. intros y Hy. specialize (Hx' y Hy). revert Hx'. simpl. unfold phys. by rewrite Est.
Qed.

Lemma str_from_nul f g z : g z = 0 -> forall n i, i <= z -> (forall j, i <= j <= z -> f j = g j) -> str_from n f i = str_from n g i.
Proof.
  intros Hz. induction n as [|n IH]; intros i Hi H; [done|]. cbn [str_from]. rewrite H by lia.
  destruct (Z.eqb_spec (g i) 0); [done|]. rewrite IH; [done| |intros; apply H; lia]. destruct (decide (i = z)); [subst; lia|lia].
Qed.

Lemma name32_command buf l k : 0 <= buf -> buf + Z.of_nat (length l) < 2 ^ 32 -> bytes_at k buf (l ++ [0]) ->
  name32 (cstr buf k) = name32 (agetZ l).
Proof.
  intros Hb Hl Hby. assert (Hz : agetZ l (Z.of_nat (length l)) = 0).
  { unfold agetZ. by rewrite (proj2 (aget_None _ _)) by lia. }
  apply (str_from_nul _ _ _ Hz); [lia|]. intros j Hj. unfold cstr. rewrite u32_small, Hby by (rewrite ?length_app; cbn; lia).
  destruct (decide (j = Z.of_nat (length l))) as [->|]; [by rewrite agetZ_app_len|]. apply agetZ_app_l. lia.
Qed.

(** The new process leaves the screen alone. *)
Lemma launched_console k i ino q t p k' : launched k i ino q t p k' -> exec_ok k -> 0 <= q < 6 ->
  abs_console k' = abs_console k.
Proof.
  intros [_ _ Lg _ _ _ Lm _ (_ & _ & Lc & _) _] Hx Hq. destruct (xo_paging _ Hx) as [tt Hp]. destruct (xo_header _ Hx) as [Hh _].
  assert (H : forall y, span VIDEO 4000 y -> ld8 k' y = ld8 k y).
  { intros y Hy. unfold span, VIDEO in Hy.
    assert (Hp' : paging_ok tt k') by (rewrite Lg; by apply prog_mapped_ok).
    simpl. unfold phys. rewrite (translate_low tt k y Hp), (translate_low tt k' y Hp') by lia.
    assert (0 <= tt <= 3) by apply Hp. apply Lm; unfold span, HEADERSIZE, FOUR_MB in *; destruct (y <? 757760); lia. }
  unfold abs_console. rewrite Lc. f_equal. apply map_ext_in. intros j Hj%list_elem_of_In%elem_of_seqZ.
  rewrite !H by (unfold span; lia). reflexivity.
Qed.

(** The command in the buffer is run. *)
Lemma command_runs pid buf line k k' i ino q p : line_in pid buf line k k' -> dir_in_image k -> 0 <= buf < 2 ^ 31 ->
  (length (command line) < 1024)%nat -> program k (agetZ (command line)) i ino -> elf_magic k ino = true -> least_free k q p ->
  exists t k2, ece391_execute irqs junk fuel buf k' = Some (User (elf_entry k ino) USER_CS 0x83FFFFC USER_DS, k2) /\
    launched k' i ino q t p k2 /\ elf_entry k ino = elf_entry k' ino /\ cur_pid k2 = q.
Proof.
  intros Hi Hd Hb Hl Hpr He Hf. destruct (li_term _ _ _ _ _ Hi) as [t Et]. pose proof (li_exec _ _ _ _ _ Hi) as Hx.
  destruct (program_image k k' _ i ino Hd (li_same _ _ _ _ _ Hi) Hpr) as (Hpr' & E1 & E2).
  pose proof (name32_command buf (command line) k' ltac:(lia) ltac:(lia) (li_command _ _ _ _ _ Hi)) as En.
  assert (Hpr2 : program k' (cstr buf k') i ino).
  { destruct Hpr' as [P1 P2 P3 P4]. split; try assumption. unfold found in *. by rewrite En. }
  assert (Hf' : least_free k' q p).
  { unfold least_free, get_PCB in *. by rewrite (li_pcbs _ _ _ _ _ Hi). }
  pose proof (execute_run k' (cstr buf k') i ino q p t Hx Hpr2 Hf' Et) as H. rewrite E1, He in H.
  destruct H as (k2 & E & Hla). exists t, k2. split; [|split; [exact Hla|split; [by rewrite E2|]]].
  - unfold ece391_execute, DO_CALL, syscall_handler_asm, SYS_EXECUTE, sys_execute. cbn [r_eax r_ebx r_ecx r_edx].
    change (s32 2) with 2. cbn [Z.leb Z.ltb Z.compare Pos.compare Pos.compare_cont orb Z.eqb Pos.eqb].
    rewrite u32_small by lia. rewrite <- E2. exact E.
  - pose proof (aget_Some_range _ _ _ Et) as Hc. unfold cur_pid. rewrite (put_term_get k' k2 _ _ (la_sch _ _ _ _ _ _ _ Hla) Hc).
    assert (Ec : cur_terminal k2 = cur_terminal k') by (rewrite (la_sch _ _ _ _ _ _ _ Hla); reflexivity).
    by rewrite Ec, Z.eqb_refl.
Qed.

(** The comparison with the word that ends the shell. *)
Lemma exit_compare pid buf line k k' : line_in pid buf line k k' -> in_prog buf 1024 -> owned buf 1024 "exit" k' ->
  Forall (fun c => 0 < c < 256 /\ c <> 10) line -> (length (command line) <= 128)%nat -> (128 < fuel)%nat ->
  exists r, ece391_strcmp fuel buf (str "exit") k' = Some r /\ (r = 0 <-> command line = text "exit").
Proof.
  intros Hi Hb [H1 H2 H3] HF Hl Hfu. unfold in_prog, VADDRPROGPAGE, FOUR_MB in *.
  change (Z.of_nat (length (text "exit"))) with 4 in *.
  apply strcmp_run; try lia.
  - apply command_chars. eapply Forall_impl; [exact HF|cbv beta; lia].
  - apply (bool_decide_unpack _). vm_compute. exact I.
  - exact (li_command _ _ _ _ _ Hi).
  - exact H3.
  - change (Z.of_nat (length (text "exit"))) with 4. lia.
Qed.

(** An unknown command: the shell says so. *)
Lemma command_unknown pid buf line k k' : line_in pid buf line k k' -> dir_in_image k -> in_prog buf 1024 ->
  (length (command line) < 1024)%nat -> owned buf 1024 "no such command\n" k' -> (128 < fuel)%nat ->
  (forall i, 0 <= i < 64 -> entry_name k i <> name32 (agetZ (command line))) ->
  exists k2, ece391_execute irqs junk fuel buf k' = Some (Ret (-1), k') /\
    shell_report irqs junk str fuel (-1) k' = Some k2 /\
    abs_console k2 = foldl abs_putc (abs_console k) (text "no such command\n").
Proof.
  intros Hi Hd Hb Hl How Hfu Hno. pose proof (li_running _ _ _ _ _ Hi) as Hr.
  assert (Hbp : 0 < buf /\ buf + 1024 < 2 ^ 31) by (unfold in_prog, VADDRPROGPAGE, FOUR_MB in Hb; lia).
  pose proof (name32_command buf (command line) k' ltac:(lia) ltac:(lia) (li_command _ _ _ _ _ Hi)) as En.
  destruct (puts1_run irqs junk str fuel "no such command\n" k' (running_console _ _ Hr)) as (k2 & E & Hc).
  - by apply (owned_literal pid buf 1024).
  - enough (length (text "no such command\n") <= 128)%nat by lia. apply Nat.leb_le. vm_compute. reflexivity.
  - exists k2. split; [|split; [exact E|]].
    + unfold ece391_execute, DO_CALL, syscall_handler_asm, SYS_EXECUTE, sys_execute. cbn [r_eax r_ebx r_ecx r_edx].
      change (s32 2) with 2. cbn [Z.leb Z.ltb Z.compare Pos.compare Pos.compare_cont orb Z.eqb Pos.eqb].
      rewrite u32_small by lia. apply execute_missing; [apply (li_exec _ _ _ _ _ Hi)|].
      intros i Hi'. rewrite (proj2 (entries_same k k' i Hd (li_same _ _ _ _ _ Hi) Hi')), En. by apply Hno.
    + rewrite (cr_abs _ _ _ Hc). by rewrite (li_console _ _ _ _ _ Hi).
Qed.

(** The literals of a round that does not fail. *)
Definition shell_words : list string := ["391OS> "; "exit"; "no such command\n"]%string.

(** The prompt and the line. *)
Lemma prompt_line pid buf n line rest t k : running pid k -> exec_ok k -> in_prog buf 1024 ->
  (forall s, s ∈ shell_words -> owned buf 1024 s k) ->
  line_ready k = true -> aget (terminals k) (visible k) = Some t ->
  buf_kb k = replicate n 32 ++ line ++ 10 :: rest -> length (buf_kb k) = 128%nat ->
  Forall (fun c => 0 < c < 256 /\ c <> 10) line -> (forall c r, line = c :: r -> c <> 32) -> (128 < fuel)%nat ->
  exists k1 k', shell_round irqs junk str fuel buf k = shell_run irqs junk str fuel buf k' /\
    abs_console k' = foldl abs_putc (abs_console k) (text "391OS> ") /\ line_in pid buf line k1 k' /\
    same_image k k1 /\ k_pcbs k1 = k_pcbs k /\ dir_in_image k1 /\
    owned buf 1024 "exit" k' /\ owned buf 1024 "no such command\n" k'.
Proof.
  intros Hr Hx Hb How Hrd Et Eb Hl HF Hs Hfu.
  assert (Ho : forall s, s = "391OS> "%string \/ s = "exit"%string \/ s = "no such command\n"%string -> owned buf 1024 s k).
  { intros s H. apply How. unfold shell_words. rewrite !elem_of_cons. tauto. }
  destruct (puts1_run irqs junk str fuel "391OS> " k (running_console _ _ Hr)) as (k1 & E1 & Hc).
  { apply (owned_literal pid buf 1024); [exact Hr|reflexivity|apply Ho; by left]. }
  { enough (length (text "391OS> ") <= 128)%nat by lia. apply Nat.leb_le. vm_compute. reflexivity. }
  destruct (running_shown pid k k1 _ Hr Hc) as [Hr1 Hs1]. pose proof (cr_frame _ _ _ Hc) as F.
  assert (Hx1 : exec_ok k1) by (apply (exec_ok_ext k k1 Hx); rewrite F; try reflexivity; apply Hx).
  destruct (line_step pid buf n line rest t k1 Hr1 Hx1 Hb) as (cnt & k2 & E2 & Hcnt & Hli); try (rewrite F; assumption);
    [exact HF|exact Hs|].
  exists k1, (shell_line buf cnt k2). split.
  - unfold shell_round. rewrite E1. cbn [mbind option_bind]. change (BUFSIZE - 1) with 1023. rewrite E2. cbn [mbind option_bind].
    by rewrite (proj2 (Z.eqb_neq cnt (-1)) Hcnt).
  - split; [by rewrite (li_console _ _ _ _ _ Hli), (cr_abs _ _ _ Hc)|]. split; [exact Hli|]. split; [exact Hs1|].
    split; [by rewrite F|]. split; [apply Hx1|].
    assert (Hk : forall s, owned buf 1024 s k -> owned buf 1024 s (shell_line buf cnt k2)).
    { intros s H. apply (owned_stored pid buf 1024 s k1 _ Hr1 Hb (li_other _ _ _ _ _ Hli)).
      by apply (owned_shown pid buf 1024 s k k1 _ Hr Hc). }
    split; apply Hk, Ho; tauto.
Qed.

Lemma command_length n line rest l : l = replicate n 32 ++ line ++ 10 :: rest -> length l = 128%nat ->
  (length (command line) <= 128)%nat.
Proof.
  intros -> Hl. rewrite !length_app in Hl. unfold command. pose proof (split_line_length line) as Hs.
  destruct (split_line line) as [cmd [a|]]; subst line; cbn [fst]; rewrite ?length_app in Hl; lia.
Qed.

(** The buffer is empty when the line is. *)
Lemma line_first pid buf line k k' : line_in pid buf line k k' -> in_prog buf 1024 ->
  Forall (fun c => 0 < c < 256 /\ c <> 10) line -> (load8 buf 0 k' =? 0) = bool_decide (command line = []).
Proof.
  intros Hi Hb HF. unfold load8, in_prog, VADDRPROGPAGE, FOUR_MB in *. rewrite u32_small by lia.
  rewrite (li_command _ _ _ _ _ Hi) by (rewrite length_app; cbn; lia).
  pose proof (command_chars _ line HF) as Hc. destruct (command line) as [|c l]; [done|].
  apply Forall_cons in Hc as [Hc _]. change (agetZ ((c :: l) ++ [0]) 0) with c.
  rewrite bool_decide_eq_false_2 by done. lia.
Qed.

(** A command is executed. *)
Lemma shell_run_command pid buf line k k' : line_in pid buf line k k' -> in_prog buf 1024 -> owned buf 1024 "exit" k' ->
  Forall (fun c => 0 < c < 256 /\ c <> 10) line -> (length (command line) <= 128)%nat -> (128 < fuel)%nat ->
  shell_run irqs junk str fuel buf k' =
    if bool_decide (command line = text "exit") then Some (Done 0, k')
    else if bool_decide (command line = []) then Some (Again, k')
    else '((o, k) : outcome * kernel) ← ece391_execute irqs junk fuel buf k';
      match o with
      | Ret rval => k ← shell_report irqs junk str fuel rval k; Some (Again, k)
      | _ => Some (Left o, k)
      end.
Proof.
  intros Hi Hb Ho HF Hl Hfu. destruct (exit_compare pid buf line k k' Hi Hb Ho HF Hl Hfu) as (c & Ec & Hc).
  unfold shell_run. rewrite Ec. cbn [mbind option_bind]. rewrite (line_first pid buf line k k' Hi Hb HF).
  rewrite (bool_decide_ext _ _ (iff_sym Hc)). destruct (Z.eqb_spec c 0); [by rewrite bool_decide_eq_true_2|].
  rewrite (bool_decide_eq_false_2 (c = 0)) by done. by case_bool_decide.
Qed.

(** The state in which the program is entered. *)
Record entered_from (k k' : kernel) (line : list Z) (ino q : Z) (k2 : kernel) : Prop := {
  ef_console : abs_console k2 = abs_console k';
  ef_current : cur_pid k2 = q;
  ef_page : aget (page_directory k2) 32 = Some (prog_entry q);
  ef_args : storeargs k2 = line_args line ++ replicate (1024 - length (line_args line)) 0;
  ef_image : forall a, 0 <= a < Z.min (inode_length k ino) MAXBYTES -> exists x,
    translate true k2 (VADDRPROGIMG + a) = Some x /\ ld8 (k_mem k2) x = file_byte k ino a;
}.

Lemma command_enters pid buf line k k1 k' i ino q p : line_in pid buf line k1 k' -> same_image k k1 -> k_pcbs k1 = k_pcbs k ->
  dir_in_image k -> dir_in_image k1 -> 0 <= buf < 2 ^ 31 -> (length (command line) < 1024)%nat ->
  program k (agetZ (command line)) i ino -> elf_magic k ino = true -> least_free k q p ->
  exists k2, ece391_execute irqs junk fuel buf k' = Some (User (elf_entry k ino) USER_CS 0x83FFFFC USER_DS, k2) /\
    entered_from k k' line ino q k2.
Proof.
  intros Hi Hs Ep Hd Hd1 Hb Hl Hpr He Hf. destruct (program_image k k1 _ i ino Hd Hs Hpr) as (Hpr1 & E1 & E2).
  assert (Hf1 : least_free k1 q p) by (unfold least_free, get_PCB in *; by rewrite Ep).
  destruct (command_runs pid buf line k1 k' i ino q p Hi Hd1 Hb Hl Hpr1 ltac:(by rewrite E1) Hf1) as (t & k2 & E & Hla & E3 & Hq).
  rewrite E2 in E. exists k2. split; [exact E|]. pose proof (li_exec _ _ _ _ _ Hi) as Hx.
  assert (Hs' : same_image k k') by (etrans; [exact Hs|apply (li_same _ _ _ _ _ Hi)]).
  destruct (file_same k k' ino (pr_file _ _ _ _ Hpr) Hs') as (_ & El & Eb).
  split.
  - exact (launched_console _ _ _ _ _ _ _ Hla Hx (proj1 Hf)).
  - exact Hq.
  - rewrite (la_page _ _ _ _ _ _ _ Hla). destruct (xo_paging _ Hx) as [tt Hp].
    change (aget (aset (page_directory k') 32 (prog_entry q)) 32 = Some (prog_entry q)).
    apply aget_aset_eq. rewrite (proj1 (proj1 Hp)). lia.
  - rewrite (la_args _ _ _ _ _ _ _ Hla). exact (li_args _ _ _ _ _ Hi).
  - intros a Ha. rewrite <- El in Ha. destruct (la_image _ _ _ _ _ _ _ Hla a Ha) as (x & X1 & X2).
    exists x. split; [exact X1|]. rewrite X2. apply Eb. rewrite El in Ha. unfold MAXBYTES in Ha. lia.
Qed.

End Shell.

Section Theorems.

Context (irqs : list (kernel -> kernel)) (junk : Z) (str : string -> Z) (fuel : nat).

(** C12: cat: a process whose command line named a regular file of the image
    prints the whole file, in order and nothing else, and returns 0: from the
    arguments through open, the reads in chunks of 1024 bytes and the writes to
    the end of the file. *)
Theorem cat_prints_file pid fd a i buf k : let ino := d_inodeNum (entry k i) in
  running pid k -> length (d_name (currDentry k)) = 32%nat -> length (pcb_args (get_PCB k pid)) = 1024%nat ->
  storeargs k = a ++ replicate (1024 - length a) 0 -> (0 < length a < 1023)%nat ->
  Forall (fun c => 0 < c < 256) a -> found k (agetZ a) i -> d_fileType (entry k i) = 2 ->
  ino < 2 ^ 31 -> file_ok k ino -> in_prog buf 1024 -> 2 <= fd < 6 -> present (get_fd (get_PCB k pid) fd) = -1 ->
  (forall j, 2 <= j < fd -> present (get_fd (get_PCB k pid) j) = 0) -> file_pos (get_fd (get_PCB k pid) fd) = 0 ->
  inode_length k ino <= 1024 * (Z.of_nat fuel - 1) -> (0 < fuel)%nat ->
  exists k', cat irqs junk str fuel buf k = Some (0, k') /\
    abs_console k' = foldl abs_putc (abs_console k) (file_from k ino 0).
Proof.
  cbv zeta. intros Hr Hl Hla Hs Ha HF Hf Ht Hi Hfo Hb Hfd Hfree Hlow Hp0 Hn Hn0.
  assert (Hbp : 0 < buf /\ buf + 1024 < 2 ^ 31) by (unfold in_prog, VADDRPROGPAGE, FOUR_MB in Hb; lia).
  assert (Hz : agetZ a 0 <> 0) by (pose proof (Forall_agetZ _ a 0 HF ltac:(lia)) as H; cbv beta in H; lia).
  destruct (getargs_step pid a buf k Hr Hs Ha Hz) as (k1 & E1 & R1 & S1 & C1 & B1 & D1 & T1);
    [eapply Forall_impl; [exact HF|]; cbv beta; lia|exact Hla|exact Hb|].
  assert (Eg : forall j, get_fd (get_PCB k1 pid) j = get_fd (get_PCB k pid) j) by (intros j; unfold get_fd; by rewrite T1).
  assert (Hi0 : 0 <= d_inodeNum (entry k i)) by apply Hfo.
  rewrite <- D1 in Hl. rewrite <- (Eg fd) in Hfree, Hp0.
  assert (Hlow1 : forall j, 2 <= j < fd -> present (get_fd (get_PCB k1 pid) j) = 0) by (intros j Hj; rewrite Eg; by apply Hlow).
  assert (Hby : forall j, 0 <= j < 32 -> ld8 k1 (buf + j) = agetZ a j) by (intros j Hj; apply B1; lia).
  destruct (open_step irqs junk fuel pid fd buf (agetZ a) i k k1 R1 S1 (ru_dir _ _ Hr) Hl Hfd Hfree Hlow1 Hp0
    ltac:(lia) Hby Hz Hf Ht (conj Hi0 Hi)) as (k2 & E2 & R2 & C2).
  destruct (cat_loop_run irqs junk str fuel pid fd _ buf k Hfd Hfo Hi Hb fuel 0 k2 R2 ltac:(lia) (or_introl eq_refl)
    ltac:(lia) ltac:(lia) Hn0) as (k3 & E3 & C3 & _).
  exists k3. split; [|rewrite C3, C2, C1; reflexivity].
  unfold cat. rewrite getargs_call by lia. rewrite E1.
  cbn [mbind option_bind Z.eqb negb]. rewrite E2. cbn [mbind option_bind]. rewrite (proj2 (Z.eqb_neq fd (-1))) by lia. exact E3.
Qed.

(** C11: a round of the shell, from the prompt to the program typed: when a line
    is ready on the displayed terminal the shell prints its prompt and reads it;
    "exit" ends the shell, the empty line does nothing, a command that is not in
    the directory is reported, and a program of the image is entered in user mode
    as the least free process, in its own page with its file loaded and with the
    rest of the line as the arguments it will get; nothing else is printed. *)
Theorem shell_round_correct pid buf n line rest t k : running pid k -> exec_ok k -> in_prog buf 1024 ->
  (forall s, s ∈ shell_words -> owned str buf 1024 s k) ->
  line_ready k = true -> aget (terminals k) (visible k) = Some t ->
  buf_kb k = replicate n 32 ++ line ++ 10 :: rest -> length (buf_kb k) = 128%nat ->
  Forall (fun c => 0 < c < 256 /\ c <> 10) line -> (forall c r, line = c :: r -> c <> 32) -> (128 < fuel)%nat ->
  let cmd := command line in let screen := foldl abs_putc (abs_console k) (text "391OS> ") in
  (cmd = text "exit" -> exists k', shell_round irqs junk str fuel buf k = Some (Done 0, k') /\ abs_console k' = screen) /\
  (cmd = [] -> exists k', shell_round irqs junk str fuel buf k = Some (Again, k') /\ abs_console k' = screen) /\
  (cmd <> text "exit" -> cmd <> [] -> (forall i, 0 <= i < 64 -> entry_name k i <> name32 (agetZ cmd)) ->
     exists k', shell_round irqs junk str fuel buf k = Some (Again, k') /\
       abs_console k' = foldl abs_putc screen (text "no such command\n")) /\
  (forall i ino q p, cmd <> text "exit" -> cmd <> [] -> program k (agetZ cmd) i ino -> elf_magic k ino = true ->
     least_free k q p -> exists k',
     shell_round irqs junk str fuel buf k = Some (Left (User (elf_entry k ino) USER_CS 0x83FFFFC USER_DS), k') /\
     abs_console k' = screen /\ cur_pid k' = q /\ aget (page_directory k') 32 = Some (prog_entry q) /\
     storeargs k' = line_args line ++ replicate (1024 - length (line_args line)) 0 /\
     forall a, 0 <= a < Z.min (inode_length k ino) MAXBYTES -> exists x,
       translate true k' (VADDRPROGIMG + a) = Some x /\ ld8 (k_mem k') x = file_byte k ino a).
Proof.
  intros Hr Hx Hb How Hrd Et Eb Hl HF Hs Hfu. cbv zeta.
  destruct (prompt_line irqs junk str fuel pid buf n line rest t k Hr Hx Hb How Hrd Et Eb Hl HF Hs Hfu)
    as (k1 & k' & E & Ea & Hli & Hsi & Ep & Hd1 & Ho1 & Ho2).
  assert (Hcl : (length (command line) <= 128)%nat) by exact (command_length n line rest _ Eb Hl).
  assert (Hbp : 0 <= buf < 2 ^ 31) by (unfold in_prog, VADDRPROGPAGE, FOUR_MB in Hb; lia).
  pose proof (shell_run_command irqs junk str fuel pid buf line k1 k' Hli Hb Ho1 HF Hcl Hfu) as Hrun.
  rewrite E, Hrun, <- Ea. clear E Hrun. split; [|split; [|split]].
  - intros ->. exists k'. by rewrite bool_decide_eq_true_2.
  - intros ->. exists k'. rewrite bool_decide_eq_false_2 by done. by rewrite bool_decide_eq_true_2.
  - intros H1 H2 Hno. rewrite !bool_decide_eq_false_2 by done.
    destruct (command_unknown irqs junk str fuel pid buf line k1 k' Hli Hd1 Hb ltac:(lia) Ho2 Hfu) as (k2 & E1 & E2 & E3).
    { intros i Hi. rewrite (proj2 (entries_same k k1 i (xo_dir _ Hx) Hsi Hi)). by apply Hno. }
    exists k2. rewrite E1. cbn [mbind option_bind]. rewrite E2. split; [done|].
    rewrite E3. by rewrite (li_console _ _ _ _ _ Hli).
  - intros i ino q p H1 H2 Hpr He Hf. rewrite !bool_decide_eq_false_2 by done.
    destruct (command_enters irqs junk fuel pid buf line k k1 k' i ino q p Hli Hsi Ep (xo_dir _ Hx) Hd1 Hbp ltac:(lia) Hpr He Hf)
      as (k2 & E1 & [F1 F2 F3 F4 F5]). exists k2. rewrite E1. by split_and!.
Qed.

(** C27: syserr: the tests of the descriptors outside the table, of bad video
    addresses, of the wrong standard streams and of unknown calls pass on this
    kernel: each returns 0 after printing exactly its line, whatever the
    registers hold in the calls without arguments. *)
Theorem syserr_passes n b g k : n ∈ [1; 2; 6; 7; 8] -> 0 < b < 2 ^ 31 -> console_ok k ->
  literal str (pass_line n) k -> (40 < fuel)%nat ->
  exists k', syserr_test irqs junk str fuel n b g k = Some (0, k') /\
    abs_console k' = foldl abs_putc (abs_console k) (text (pass_line n)).
Proof.
  intros Hn Hb Hok Hl Hf. destruct (syserr_test_run irqs junk str fuel n b g k Hn Hb Hok Hl Hf) as (k' & E & Hr).
  exists k'. split; [exact E|apply Hr].
Qed.

End Theorems.

(** ** Witnesses *)

(** The process of terminal 0 with arguments [l] and memory [m]. *)
Definition at_work (l : list Z) (m : gmap Z Z) (k : kernel) : kernel := set_storeargs l (with_k_mem m (shells_on k)).

Definition demo_at (l : list Z) (m : gmap Z Z) : kernel := at_work l m (prog_mapped 0 demo_paged).

(** A literal at 0x08050000, in the program's page. *)
Definition demo_lit (s : string) : kernel := demo_at [] (bytes_from 0x850000 (text s)).

(** The name in entry 1 as the argument. *)
Definition demo_cat : kernel := demo_at (codes "shell" ++ replicate 1019 0) shell_image.

Lemma at_work_running l m k : k_con k = mkConsole 0 0 -> paging_ok 0 k -> aget (page_directory k) 32 = Some (prog_entry 0) ->
  running 0 (at_work l m k).
Proof.
  intros E1 E2 E3. split.
  - lia.
  - reflexivity.
  - exact demo_PCBs_ok.
  - exists 0. exact E2.
  - exact E3.
  - split; vm_compute; congruence.
  - vm_compute. split; congruence.
  - change (0 <= screen_x k < 80 /\ 0 <= screen_y k < 25). unfold screen_x, screen_y. rewrite E1. cbn. lia.
Qed.

Lemma prog_mapped_con pid k : k_con (prog_mapped pid k) = k_con k.
Proof. reflexivity. Qed.

Lemma demo_at_running l m : running 0 (demo_at l m).
Proof.
  apply at_work_running; [|exact shells_paging|exact (entered_pd_prog 0 demo_paged 0 demo_paging_ok)].
  rewrite prog_mapped_con. exact (proj2 (proj2 demo_paged_rest)).
Qed.

Lemma demo_cat_found : found demo_cat (agetZ (codes "shell")) 1.
Proof.
  split; [lia|]. split; [vm_compute; reflexivity|]. intros j Hj. assert (j = 0) as -> by lia. vm_compute. congruence.
Qed.

Lemma demo_cat_file : file_ok demo_cat 0 /\ d_fileType (entry demo_cat 1) = 2 /\ d_inodeNum (entry demo_cat 1) = 0.
Proof.
  split; [|split; vm_compute; reflexivity].
  apply (file_ok_intro _ _ 1); vm_compute; try reflexivity; repeat split; congruence.
Qed.

Lemma cat_prints_file_witness : exists k', cat [] 0 (fun _ => 0) 2 0x8050000 demo_cat = Some (0, k') /\
  length (file_from demo_cat 0 0) = 40%nat.
Proof.
  destruct demo_cat_file as (H1 & H2 & H3).
  destruct (cat_prints_file [] 0 (fun _ => 0) 2 0 2 (codes "shell") 1 0x8050000 demo_cat) as (k' & E & _).
  - exact (demo_at_running _ _).
  - reflexivity.
  - reflexivity.
  - reflexivity.
  - cbn. lia.
  - apply (bool_decide_unpack _). vm_compute. exact I.
  - exact demo_cat_found.
  - exact H2.
  - rewrite H3. lia.
  - rewrite H3. exact H1.
  - split; unfold VADDRPROGPAGE, FOUR_MB; lia.
  - lia.
  - reflexivity.
  - intros j Hj. lia.
  - reflexivity.
  - rewrite H3. vm_compute. congruence.
  - lia.
  - exists k'. split; [exact E|]. vm_compute. reflexivity.
Defined.

Lemma demo_literal n : forallb (fun c => (0 <? c) && (c <? 256)) (text (pass_line n)) = true ->
  forallb (fun i => ld8 (demo_lit (pass_line n)) (0x8050000 + i) =? agetZ (text (pass_line n) ++ [0]) i)
    (seqZ 0 (Z.of_nat (length (text (pass_line n) ++ [0])))) = true ->
  Z.of_nat (length (text (pass_line n))) < 100 ->
  literal (fun _ => 0x8050000) (pass_line n) (demo_lit (pass_line n)).
Proof.
  intros H1 H2 H3. split.
  - lia.
  - apply Forall_forall. intros c Hc%list_elem_of_In. pose proof (proj1 (forallb_forall _ _) H1 c Hc) as H. cbv beta in H. lia.
  - intros i Hi. apply Z.eqb_eq. apply (proj1 (forallb_forall _ _) H2 i). apply list_elem_of_In, elem_of_seqZ. lia.
  - intros x y Hx Hy. apply (prog_sep 0); [exact (demo_at_running _ _)| |exact Hy].
    unfold prog_page, span, VADDRPROGPAGE, FOUR_MB in *. lia.
Qed.

Lemma syserr_passes_witness : exists k', syserr_test [] 0 (fun _ => 0x8050000) 41 7 0x8060000 (0, 0, 0)
    (demo_lit (pass_line 7)) = Some (0, k').
Proof.
  destruct (syserr_passes [] 0 (fun _ => 0x8050000) 41 7 0x8060000 (0, 0, 0) (demo_lit (pass_line 7))) as (k' & E & _).
  - apply (bool_decide_unpack _). vm_compute. exact I.
  - lia.
  - exact (running_console 0 _ (demo_at_running _ _)).
  - apply demo_literal; [vm_compute; reflexivity..|vm_compute; reflexivity].
  - lia.
  - exists k'. exact E.
Defined.

(** "shell a" has been typed at the shell of terminal 0. *)
Definition demo_str (s : string) : Z :=
  if String.eqb s "exit" then 0x8050010 else if String.eqb s "391OS> " then 0x8050020 else 0x8050030.

Definition word_bytes (s : string) : gmap Z Z := bytes_from (demo_str s - VADDRPROGPAGE + 2 * FOUR_MB) (text s).

Definition demo_image2 : gmap Z Z :=
  shell_image ∪ (word_bytes "391OS> " ∪ (word_bytes "exit" ∪ word_bytes "no such command\n")).

Definition typed_at (k : kernel) : kernel :=
  put_term 0 (with_enter_flag 0 (demo_term 0)) (set_buf_kb (codes "shell a" ++ 10 :: replicate 120 0)
    (at_work [] demo_image2 k)).

Definition demo_typed_at : kernel := typed_at (prog_mapped 0 demo_paged).

Lemma typed_at_ok k : k_con k = mkConsole 0 0 -> paging_ok 0 k -> aget (page_directory k) 32 = Some (prog_entry 0) ->
  running 0 (typed_at k) /\ exec_ok (typed_at k).
Proof.
  intros E1 E2 E3. split.
  - split.
    + lia.
    + reflexivity.
    + exact demo_PCBs_ok.
    + exists 0. exact E2.
    + exact E3.
    + split; vm_compute; congruence.
    + vm_compute. split; congruence.
    + change (0 <= screen_x k < 80 /\ 0 <= screen_y k < 25). unfold screen_x, screen_y. rewrite E1. cbn. lia.
  - apply (exec_ok_ext (shells_on k) (typed_at k) (shells_on_exec_ok k E2)); try reflexivity. exact demo_PCBs_ok.
Qed.

Lemma demo_typed_at_ok : running 0 demo_typed_at /\ exec_ok demo_typed_at.
Proof.
  apply typed_at_ok; [|exact shells_paging|exact (entered_pd_prog 0 demo_paged 0 demo_paging_ok)].
  rewrite prog_mapped_con. exact (proj2 (proj2 demo_paged_rest)).
Qed.

(** A word read back, as a computation. *)
Definition word_ok (s : string) (k : kernel) : bool :=
  forallb (fun i => ld8 k (demo_str s + i) =? agetZ (text s ++ [0]) i) (seqZ 0 (Z.of_nat (length (text s ++ [0])))).

Lemma word_owned s k : word_ok s k = true -> Z.of_nat (length (text s)) <= 100 -> owned demo_str 0x8060000 1024 s k.
Proof.
  intros H Hl. assert (Hr : 0x8050010 <= demo_str s <= 0x8050030) by (unfold demo_str; repeat case_match; lia).
  split.
  - unfold in_prog, VADDRPROGPAGE, FOUR_MB. lia.
  - lia.
  - intros i Hi. apply Z.eqb_eq. apply (proj1 (forallb_forall _ _) H i). apply list_elem_of_In, elem_of_seqZ. lia.
Qed.

Lemma demo_words s : s ∈ shell_words -> owned demo_str 0x8060000 1024 s demo_typed_at.
Proof.
  unfold shell_words. rewrite !elem_of_cons, elem_of_nil.
  intros [->|[->|[->|[]]]]; (apply word_owned; [vm_compute; reflexivity|vm_compute; congruence]).
Qed.

Lemma demo_typed_program : program demo_typed_at (agetZ (codes "shell")) 1 0.
Proof.
  split.
  - split; [lia|]. split; [vm_compute; reflexivity|]. intros j Hj. assert (j = 0) as -> by lia. vm_compute. congruence.
  - vm_compute. reflexivity.
  - apply (file_ok_intro _ _ 1); vm_compute; try reflexivity; repeat split; congruence.
  - vm_compute. congruence.
Qed.

Lemma shell_round_correct_witness : exists k',
  shell_round [] 0 demo_str 129 0x8060000 demo_typed_at = Some (Left (User 0x08048094 USER_CS 0x83FFFFC USER_DS), k') /\
  storeargs k' = codes "a" ++ replicate 1023 0.
Proof.
  destruct demo_typed_at_ok as [Hr Hx].
  destruct (shell_round_correct [] 0 demo_str 129 0 0x8060000 0 (codes "shell a") (replicate 120 0)
    (with_enter_flag 0 (demo_term 0)) demo_typed_at Hr Hx) as (_ & _ & _ & H).
  - split; unfold VADDRPROGPAGE, FOUR_MB; lia.
  - exact demo_words.
  - reflexivity.
  - reflexivity.
  - reflexivity.
  - reflexivity.
  - apply (bool_decide_unpack _). vm_compute. exact I.
  - intros c r E. injection E as <- _. lia.
  - lia.
  - destruct (H 1 0 3 (demo_PCB (-1))) as (k' & E & _ & _ & _ & Ea & _).
    + vm_compute. congruence.
    + vm_compute. congruence.
    + exact demo_typed_program.
    + vm_compute. reflexivity.
    + split; [lia|]. split; [reflexivity|]. split; [reflexivity|].
      intros j Hj. assert (j = 0 \/ j = 1 \/ j = 2) as [->|[->| ->]] by lia; reflexivity.
    + exists k'. split; [exact E|exact Ea].
Defined.
